(* ===== verification/_CoqProject ===== *)
-Q . S2P
Prelude.v
UartFrame.v
UartState.v
UartTx.v
UartRx.v
UartDriver.v
UartProbe.v
FanTransport.v
FanVirt.v
FanSmbus.v
FanLocks.v
FanDriver.v
TempDriver.v
Notifier.v
PcieState.v
PcieSwap.v
PcieMm.v
PcieFault.v
PcieRefine.v
PcieCdev.v
PcieUser.v
VirtBoard.v
VirtGic.v
VirtIrq.v
VirtFdt.v
VirtDevices.v
VirtMachine.v
VirtBuild.v
VirtUart.v
VirtCpus.v
VirtInit.v
VirtVersions.v
VirtProps.v
VirtHotplug.v
