(* ===== verification/Prelude.v ===== *)
(** * Verification of the virt_driver repository

    The repository holds Linux drivers for virtual hardware and the patched
    QEMU machine they run on, all under [src/infected/modules/].  Its parts:

    - [uart_net]: a network driver that sends Ethernet frames over the second
      PL011 serial port of an Arm virtual machine ([uart_net.c]);
    - [uart_net/scripts/qemu-6.2.0]: QEMU's [virt.c] and [virt.h], to which that
      second port is added;
    - [virt_fan]: a fan driver ([virt_fan.c]) over one of two transports, SMBus
      ([fan_trans.c]) or a simulation ([virt_trans.c]);
    - [virt_temp]: a simulated temperature sensor ([virt_temp.c]);
    - [notifier_chain]: a test module of the reboot notifiers ([test_notifier.c]);
    - [pcie]: a character device whose mapping of 32 GiB is paged between 8 GiB
      of frames and a swap device ([pcie_mm.c], [pcie_swap.c], [pcie_cdev.c],
      [pcie_proc.c], [pcie_main.c]), and a program that fills and reads it
      ([user_copy.c]).

    ** How code is modelled

    A C function that has effects is a computation of the monad [M E S A] below:
    a function from a state to a result, with the events of type [E] it emits in
    their order.  A [Stop] is what a correct run never shows, a NULL
    dereference, an access out of a buffer, a failed assertion, [BUG()] or the
    end of a process; an error code is an ordinary value.  So a theorem that a
    run is [Ok] says that it does not fault.  Fixed-width integers are [Z] with
    their wrap-around written out ([wrap]).  Calls into the kernel or QEMU are
    events; what they answer is an argument, a record of functions or a class
    with the documented laws ([KStrtoul], [I2cBus], [QemuHeaders], [ArmCpu]),
    each class with an instance.  [wp] is the weakest precondition of a
    computation: it does not fault and what it returns is right.  [wpf F] is the
    same up to the faults [F], for code that can fault in a known way;
    [preserves] says that a part of the state is never changed.

    ** The network driver

    [UartFrame] is the wire format: header, length and payload with escapes,
    footer; [frame_bytes] is the specification of a frame.  [UartState] has the
    fields of [struct uartnet_priv] and the registers.  [UartTx] is
    [uartnet_start_xmit] and [uartnet_tx_task], [UartRx] is [uartnet_poll] with its
    state machine, [UartDriver] is the interrupt, open and stop, then the step
    relation of all entry points in any order, and [UartProbe] is the binding.
    The work item and the poll read the hardware; the list of the values
    read is their argument, so the loops are structural on it.  The [goto
    restart] of the receiver is a recursion with fuel 2, which is enough since
    the second round never restarts ([rx_switch_effect]).  Two faults of the code
    are faults of the model: the poll reads the length of a buffer it has handed
    to the network stack, which is a use after free if the stack has freed it
    ([len_after_handoff] answers that), and the probe asks for a private area of
    0 bytes, which is out of bounds if no memory happens to lie there
    ([priv_room]).

    C1, C7 and C10 are about the transmitter (whatever the FIFO does, exactly the
    bytes of the frame go out, and the run ends; a length that is a multiple of
    65536 makes it never finish), C2, C5, C6 and C9 about the receiver (on any
    bytes no fault but the use after free above, buffers neither leaked nor
    released twice, frames without 0x5A and not of 90 bytes delivered, others
    never), C4 about the link of the two, C3 about any interleaving of the entry
    points, C8 and C11 about each of them, C12 and C13 about probe and remove.

    ** The fan and temperature drivers and the notifiers

    [FanTransport] is the data of [virt_fan.h] and the class [FanTransport], the
    contract of [_fan_read] and [_fan_write]; [FanVirt] and [FanSmbus] implement it,
    and [FanDriver] is proved against it.  The mutexes are part of the state, so
    locking one twice is a fault; [FanLocks] interleaves threads by the locks
    they take.  C14 is memory safety over any transport, with the exact limit of
    it, an update that finds more than 16 fans; C15 and C19 are the SMBus
    protocol with its checksum and retries, C16 and C17 that the threads of one
    transport never block each other for ever and those of the other can, C18
    is a round trip.  [TempDriver] has C20; [Notifier] a dispatch theorem.

    ** The PCIe memory driver

    [PcieState] is the descriptors, the page tables and the swap device,
    [PcieSwap] the transfers, eviction and page-in, in the two versions the file
    has, [PcieMm] the reset, the choice of a frame and the handler,
    [PcieFault] one fault with the kernel's side of it, [PcieRefine] the
    theorems, [PcieCdev] the device and the module, [PcieUser] the program.
    C21 is the refinement: for a program that enters each block by its first
    page, the paging is a flat memory.  C22, C25 and C26 are its safety, the
    policy and the reset; C24 is the order of accesses that stops the kernel.
    C23 composes all of it: the program ends and reads back what it wrote;
    the fuel of its loop is the number of its pages.  C27 and C28 are the error
    paths of the module.

    ** The QEMU board

    [VirtBoard] is the address map (C31: laid out without overlap or overflow),
    [VirtIrq] the interrupt lines (C38, C39), [VirtGic] the interrupt controller
    (C32, C37).  [VirtFdt] models the operations of QEMU's [device_tree.c], which is
    not in the repository, as documented: adding a node twice or setting a
    property of a missing one ends the program, and names are compared as libfdt
    does, so one may leave out its unit address.  [VirtDevices] is every
    [create_...] and [fdt_add_...] function; which character device a serial
    line may take is a parameter ([chardev_accepts]), with the documented law
    that only a multiplexed one has several users ([chardev_laws]).
    [VirtMachine] is the CPUs, the checks and [machvirt_init] to its end.  [VirtBuild] is the
    calculus in which the construction is proved to never fail, [VirtCpus]
    and [VirtUart] the nodes of the CPUs and of the serial ports (C30), and
    [VirtInit] the whole: C29, that the machine starts with all its nodes, and
    C40, that a secure one with a second serial device does not, if that is not
    multiplexed.  C33 composes
    the start with the map: a KVM guest's address size covers its board.
    [VirtVersions] is the eighteen machine versions and how they accumulate
    (C36), [VirtProps] the properties (C35), [VirtHotplug] devices that come and
    go (C34).

    The interfaces meet in one place: the second serial port is the region
    [VIRT_UART2] of [VirtBoard], the line 10 of [VirtIrq] and a node of [VirtUart],
    and it is the device [UartProbe] binds.

    ** Not modelled

    Left out of [virt.c] are the callbacks that only hand values on
    ([virt_powerdown_req], [virt_flash_create], [machvirt_dtb],
    [virt_build_smbios], [virt_machine_done]) and the loop over the NICs.  Of
    the drivers, module metadata and the registration macros.  The kernel, QEMU
    outside the two files and the hardware are parameters.  Interrupts and
    threads interleave between the entry points of a driver, not inside one. *)

From stdpp Require Export base tactics numbers list list_numbers option gmap strings pretty relations.

#[global] Open Scope Z_scope.

(** ** Faults, results and the effect monad

    Kernel code is modelled as a function from a state to a result.  A [Stop]
    is behaviour a correct run never shows (a NULL dereference, an access out
    of a buffer, [BUG()], a loop that never leaves, [exit] of a process);
    returned error codes are ordinary values. *)

Inductive fault : Set :=
| NullDeref
| UseAfterFree
| OutOfBounds
| SkbOverPanic
| KernelBug
| LoopsForever
| AssertFail
| ExitProcess (code : Z).

Inductive result (A : Type) : Type :=
| Ok (a : A)
| Stop (f : fault).
Arguments Ok {A} a.
Arguments Stop {A} f.

#[export] Instance fault_eq_dec : EqDecision fault.
Proof. solve_decision. Defined.

(** [M E S A]: a computation on the state [S] that emits events of type [E] in
    order and returns an [A]. *)
Definition M (E S A : Type) : Type := S -> result (A * S * list E).

Definition ret {E S A : Type} (a : A) : M E S A := fun s => Ok (a, s, []).

Definition bind {E S A B : Type} (m : M E S A) (k : A -> M E S B) : M E S B :=
  fun s =>
    match m s with
    | Ok (a, s1, es1) =>
        match k a s1 with
        | Ok (b, s2, es2) => Ok (b, s2, es1 ++ es2)
        | Stop f => Stop f
        end
    | Stop f => Stop f
    end.

Definition fail {E S A : Type} (f : fault) : M E S A := fun _ => Stop f.
Definition gets {E S A : Type} (g : S -> A) : M E S A := fun s => Ok (g s, s, []).
Definition modify {E S : Type} (g : S -> S) : M E S unit := fun s => Ok (tt, g s, []).
Definition emit {E S : Type} (e : E) : M E S unit := fun s => Ok (tt, s, [e]).

(** Dereference: a missing value is the fault [f]. *)
Definition of_opt {E S A : Type} (f : fault) (o : option A) : M E S A :=
  match o with Some a => ret a | None => fail f end.

(** The guard of an [if] statement without [else]. *)
Definition when {E S : Type} (b : bool) (m : M E S unit) : M E S unit :=
  if b then m else ret tt.

Declare Scope prog_scope.
Delimit Scope prog_scope with prog.
Notation "x <- m ;; k" := (bind m (fun x => k))
  (at level 100, m at next level, right associativity) : prog_scope.
Notation "m ;; k" := (bind m (fun _ => k))
  (at level 100, right associativity) : prog_scope.
#[global] Open Scope prog_scope.

(** The loop [for (x in l) body]. *)
Fixpoint for_each {E S A : Type} (l : list A) (body : A -> M E S unit) : M E S unit :=
  match l with
  | [] => ret tt
  | x :: r => body x ;; for_each r body
  end.

(** The branch a guard leads to. *)
Lemma if_false {A B : Prop} (b : bool) : b = false -> (if b then A else B) -> B.
Proof. by intros ->. Qed.
Lemma if_true {A B : Prop} (b : bool) : b = true -> (if b then A else B) -> A.
Proof. by intros ->. Qed.

(** Total correctness: [m] does not stop with a fault from [s], and its
    result, final state and events satisfy [Q]. *)
Definition wp {E S A : Type} (m : M E S A) (s : S) (Q : A -> S -> list E -> Prop) : Prop :=
  match m s with
  | Ok (a, s1, es) => Q a s1 es
  | Stop _ => False
  end.

(** The same where the faults [F] are allowed. *)
Definition wpf {E S A : Type} (F : fault -> Prop) (m : M E S A) (s : S)
    (Q : A -> S -> list E -> Prop) : Prop :=
  match m s with
  | Ok (a, s1, es) => Q a s1 es
  | Stop f => F f
  end.

(** The computation never changes the part [f] of the state. *)
Definition preserves {E S A X : Type} (f : S -> X) (m : M E S A) : Prop :=
  forall s a s' es, m s = Ok (a, s', es) -> f s' = f s.

(** ** Machine integers *)

Definition wrap (w x : Z) : Z := x mod 2 ^ w.

Definition is_u8 (b : Z) : Prop := 0 <= b < 256.

#[export] Instance is_u8_dec b : Decision (is_u8 b).
Proof. unfold is_u8. apply _. Defined.

(** All the bits of [m] are set in [x]. *)
Definition has_bits (x m : Z) : Prop := Z.land x m = m.

(** [x & ~m] on an unsigned register. *)
Definition clear_bits (x m : Z) : Z := Z.ldiff x m.

(** Documented values of the Linux [errno] codes the sources return. *)
Definition EIO : Z := 5.
Definition ENXIO : Z := 6.
Definition ENOMEM : Z := 12.
Definition EFAULT : Z := 14.
Definition ENODEV : Z := 19.
Definition EINVAL : Z := 22.

(** ** Kernel string functions the sysfs attributes use *)

(** [sprintf(buf, "%d\n", x)]: the text; the result is its length. *)
Definition sprintf_d (x : Z) : string := pretty x +:+ String (Ascii.ascii_of_nat 10) EmptyString.

Definition str_len (s : string) : Z := Z.of_nat (String.length s).

(** [kstrtoul(buf, 10, &val)]: an error code, or the value, an
    [unsigned long]. *)
Class KStrtoul : Type := {
  kstrtoul : string -> Z + Z;
  kstrtoul_err buf e : kstrtoul buf = inl e -> e < 0;
  kstrtoul_range buf v : kstrtoul buf = inr v -> 0 <= v < 2 ^ 64;
}.

(** [clamp_val(val, lo, hi)]. *)
Definition clamp_val (v lo hi : Z) : Z := Z.min (Z.max v lo) hi.

(** ** Lemmas on the monad *)

Section monad_lemmas.
Context {E S : Type}.
Implicit Types s : S.

Lemma bind_assoc {A B C : Type} (m : M E S A) (f : A -> M E S B) (g : B -> M E S C) s :
  bind (bind m f) g s = bind m (fun a => bind (f a) g) s.
Proof.
  unfold bind. destruct (m s) as [[[a s1] e1]|]; [|done].
  destruct (f a s1) as [[[b s2] e2]|]; [|done].
  destruct (g b s2) as [[[c s3] e3]|]; [|done]. by rewrite (assoc_L (++)).
Qed.

Lemma bind_ret_r {A : Type} (m : M E S A) s : bind m ret s = m s.
Proof.
  unfold bind, ret. destruct (m s) as [[[a s1] e1]|]; [|done]. by rewrite app_nil_r.
Qed.

Lemma bind_ret_l {A B : Type} (a : A) (k : A -> M E S B) s : bind (ret a) k s = k a s.
Proof. unfold bind, ret. by destruct (k a s) as [[[? ?] ?]|]. Qed.

Lemma bind_ok {A B : Type} (m : M E S A) (k : A -> M E S B) s a s1 e1 :
  m s = Ok (a, s1, e1) ->
  bind m k s = match k a s1 with
               | Ok (b, s2, e2) => Ok (b, s2, e1 ++ e2)
               | Stop f => Stop f
               end.
Proof. intros H. unfold bind. by rewrite H. Qed.

(** The match a computation without events leaves behind. *)
Lemma result_eta {A : Type} (r : result (A * S * list E)) :
  match r with Ok (a, s, es) => Ok (a, s, [] ++ es) | Stop f => Stop f end = r.
Proof. by destruct r as [[[? ?] ?]|]. Qed.

Lemma wp_bind {A B : Type} (m : M E S A) (k : A -> M E S B) s Q :
  wp m s (fun a s1 e1 => wp (k a) s1 (fun b s2 e2 => Q b s2 (e1 ++ e2))) ->
  wp (bind m k) s Q.
Proof.
  unfold wp, bind. destruct (m s) as [[[a s1] e1]|]; [|done].
  by destruct (k a s1) as [[[b s2] e2]|].
Qed.

Lemma wp_mono {A : Type} (m : M E S A) s (Q R : A -> S -> list E -> Prop) :
  wp m s Q -> (forall a s1 es, Q a s1 es -> R a s1 es) -> wp m s R.
Proof. unfold wp. destruct (m s) as [[[a s1] es]|]; [|done]. auto. Qed.

Lemma wp_ok {A : Type} (m : M E S A) s Q :
  wp m s Q <-> exists a s1 es, m s = Ok (a, s1, es) /\ Q a s1 es.
Proof.
  unfold wp. destruct (m s) as [[[a s1] es]|]; split.
  - eauto 10.
  - intros (? & ? & ? & [= -> -> ->] & ?). done.
  - done.
  - intros (? & ? & ? & ? & ?). done.
Qed.

Lemma wpf_bind {A B : Type} F (m : M E S A) (k : A -> M E S B) s Q :
  wpf F m s (fun a s1 e1 => wpf F (k a) s1 (fun b s2 e2 => Q b s2 (e1 ++ e2))) ->
  wpf F (bind m k) s Q.
Proof.
  unfold wpf, bind. destruct (m s) as [[[a s1] e1]|]; [|done].
  by destruct (k a s1) as [[[b s2] e2]|].
Qed.

Lemma wpf_mono {A : Type} F (m : M E S A) s (Q R : A -> S -> list E -> Prop) :
  wpf F m s Q -> (forall a s1 es, Q a s1 es -> R a s1 es) -> wpf F m s R.
Proof. unfold wpf. destruct (m s) as [[[a s1] es]|]; [|done]. auto. Qed.

Lemma wp_wpf {A : Type} F (m : M E S A) s Q : wp m s Q -> wpf F m s Q.
Proof. unfold wp, wpf. by destruct (m s) as [[[a s1] es]|]. Qed.

Lemma wpf_ok {A : Type} F (m : M E S A) s Q a s1 es :
  wpf F m s Q -> m s = Ok (a, s1, es) -> Q a s1 es.
Proof. unfold wpf. intros H E1. by rewrite E1 in H. Qed.

Lemma wpf_stop {A : Type} F (m : M E S A) s Q f : wpf F m s Q -> m s = Stop f -> F f.
Proof. unfold wpf. intros H E1. by rewrite E1 in H. Qed.

Lemma for_each_app {A : Type} (l1 l2 : list A) (body : A -> M E S unit) s :
  for_each (l1 ++ l2) body s = (for_each l1 body ;; for_each l2 body) s.
Proof.
  revert s. induction l1 as [|x l1 IH]; intros s; cbn [for_each app].
  - unfold bind, ret. by rewrite result_eta.
  - rewrite bind_assoc. unfold bind in *. destruct (body x s) as [[[[] s1] e1]|]; [|done].
    by rewrite IH.
Qed.

Lemma preserves_ret {A X : Type} (f : S -> X) (a : A) : preserves (E:=E) f (ret a).
Proof. by intros s b s' es [= <- <- <-]. Qed.
Lemma preserves_fail {A X : Type} (f : S -> X) e : preserves (E:=E) (A:=A) f (fail e).
Proof. done. Qed.
Lemma preserves_gets {A X : Type} (f : S -> X) (g : S -> A) : preserves (E:=E) f (gets g).
Proof. by intros s b s' es [= <- <- <-]. Qed.
Lemma preserves_emit {X : Type} (f : S -> X) (e : E) : preserves f (emit e).
Proof. by intros s b s' es [= <- <- <-]. Qed.
Lemma preserves_modify {X : Type} (f : S -> X) (g : S -> S) :
  (forall s, f (g s) = f s) -> preserves (E:=E) f (modify g).
Proof. intros Hg s b s' es [= <- <- <-]. apply Hg. Qed.
Lemma preserves_of_opt {A X : Type} (f : S -> X) e (o : option A) :
  preserves (E:=E) f (of_opt e o).
Proof. destruct o; [apply preserves_ret|apply preserves_fail]. Qed.
Lemma preserves_bind {A B X : Type} (f : S -> X) (m : M E S A) (k : A -> M E S B) :
  preserves f m -> (forall a, preserves f (k a)) -> preserves f (bind m k).
Proof.
  intros Hm Hk s b s' es. unfold bind. destruct (m s) as [[[a s1] e1]|] eqn:E1; [|done].
  destruct (k a s1) as [[[b2 s2] e2]|] eqn:E2; [|done]. intros [= <- <- <-].
  by rewrite (Hk _ _ _ _ _ E2), (Hm _ _ _ _ E1).
Qed.
Lemma preserves_if {A X : Type} (f : S -> X) (b : bool) (m1 m2 : M E S A) :
  preserves f m1 -> preserves f m2 -> preserves f (if b then m1 else m2).
Proof. by destruct b. Qed.
Lemma preserves_when {X : Type} (f : S -> X) (b : bool) (m : M E S unit) :
  preserves f m -> preserves f (when b m).
Proof. intros. apply preserves_if; [done|apply preserves_ret]. Qed.

(** A loop keeps an invariant of the state and of the events emitted so far. *)
Lemma wp_for_each {A : Type} (l : list A) (body : A -> M E S unit)
    (I : list A -> S -> list E -> Prop) s es :
  I l s es ->
  (forall x r s0 es0, I (x :: r) s0 es0 ->
     wp (body x) s0 (fun _ s1 e1 => I r s1 (es0 ++ e1))) ->
  wp (for_each l body) s (fun _ s1 e1 => I [] s1 (es ++ e1)).
Proof.
  intros HI Hb. revert s es HI. induction l as [|x r IH]; intros s es HI; simpl.
  - unfold wp, ret. by rewrite app_nil_r.
  - apply wp_bind. eapply wp_mono; [by apply Hb|]. intros [] s1 e1 H1.
    eapply wp_mono; [by apply IH|]. intros [] s2 e2 H2. by rewrite (assoc_L (++)).
Qed.
End monad_lemmas.

(** ** Lemmas on integers, options and lists *)

Lemma wrap_small w x : 0 <= x < 2 ^ w -> wrap w x = x.
Proof. apply Z.mod_small. Qed.

Lemma wrap_range w x : 0 <= w -> 0 <= wrap w x < 2 ^ w.
Proof. intros. apply Z.mod_pos_bound. lia. Qed.

Lemma land_ff b : Z.land b 255 = b mod 256.
Proof. change 255 with (Z.ones 8). by rewrite Z.land_ones. Qed.

Lemma u8_land_ff b : is_u8 b -> Z.land b 255 = b.
Proof. intros ?. rewrite land_ff. by apply Z.mod_small. Qed.

(** A property of all bytes, decided by evaluation. *)
Lemma u8_forall (P : Z -> bool) :
  forallb P (seqZ 0 256) = true -> forall b, is_u8 b -> P b = true.
Proof.
  intros H b Hb. rewrite forallb_forall in H. apply H, list_elem_of_In, elem_of_seqZ. 
  unfold is_u8 in Hb. lia.
Qed.

Lemma lxor_0x20_u8 b : is_u8 b -> is_u8 (Z.lxor b 0x20).
Proof.
  intros Hb.
  pose proof (u8_forall (fun b => (0 <=? Z.lxor b 0x20) && (Z.lxor b 0x20 <? 256))) as H.
  specialize (H ltac:(vm_compute; reflexivity) b Hb). cbv beta in H. unfold is_u8.
  rewrite andb_true_iff, Z.leb_le, Z.ltb_lt in H. done.
Qed.

Lemma lxor_twice a k : Z.lxor (Z.lxor a k) k = a.
Proof. by rewrite Z.lxor_assoc, Z.lxor_nilpotent, Z.lxor_0_r. Qed.

Lemma clear_bits_masked x m : Z.land (clear_bits x m) m = 0.
Proof.
  apply Z.bits_inj'. intros i Hi. unfold clear_bits.
  rewrite Z.land_spec, Z.ldiff_spec, Z.bits_0. by destruct (Z.testbit x i), (Z.testbit m i).
Qed.

Lemma lor_masked x m : Z.land (Z.lor x m) m = m.
Proof.
  apply Z.bits_inj'. intros i Hi.
  rewrite Z.land_spec, Z.lor_spec. by destruct (Z.testbit x i), (Z.testbit m i).
Qed.

Lemma wrap_land w x : 0 <= w -> wrap w x = Z.land x (Z.ones w).
Proof. intros. unfold wrap. by rewrite Z.land_ones. Qed.

(** Bits cleared in a register, or set in it, whatever its width. *)
Lemma wrap_clear_bits w x m : 0 <= w -> Z.land (wrap w (clear_bits x m)) m = 0.
Proof.
  intros. rewrite wrap_land, <- Z.land_assoc, (Z.land_comm (Z.ones w)), Z.land_assoc by done.
  by rewrite clear_bits_masked.
Qed.

Lemma wrap_set_bits w x m : 0 <= m < 2 ^ w -> 0 <= w -> Z.land (wrap w (Z.lor x m)) m = m.
Proof.
  intros Hm Hw. rewrite wrap_land, <- Z.land_assoc, (Z.land_comm (Z.ones w)), Z.land_assoc by done.
  rewrite lor_masked, Z.land_ones by done. by apply Z.mod_small.
Qed.

Lemma has_bits_wrap x m : 0 <= m < 2 ^ 32 -> has_bits x m -> has_bits (wrap 32 x) m.
Proof.
  unfold has_bits. intros Hm H.
  rewrite wrap_land, <- Z.land_assoc, (Z.land_comm (Z.ones 32)), Z.land_assoc, H by done.
  rewrite Z.land_ones by done. by apply Z.mod_small.
Qed.

(** The read-modify-write sequences on a 32-bit mask register keep the bits
    they do not name. *)
Lemma has_bits_set x k m :
  0 <= m < 2 ^ 32 -> has_bits x m -> has_bits (wrap 32 (Z.lor x k)) m.
Proof.
  intros Hm H. apply has_bits_wrap; [done|]. unfold has_bits in *.
  rewrite Z.land_lor_distr_l, H. apply Z.bits_inj'. intros i Hi.
  rewrite Z.lor_spec, Z.land_spec. by destruct (Z.testbit m i), (Z.testbit k i).
Qed.

Lemma has_bits_clear x k m :
  0 <= m < 2 ^ 32 -> Z.land k m = 0 -> has_bits x m -> has_bits (wrap 32 (clear_bits x k)) m.
Proof.
  intros Hm Hk H. apply has_bits_wrap; [done|]. unfold has_bits, clear_bits in *.
  apply Z.bits_inj'. intros i Hi. assert (Z.testbit (Z.land x m) i = Z.testbit m i) as Hx by by rewrite H.
  assert (Z.testbit (Z.land k m) i = false) as Hki by (rewrite Hk; apply Z.bits_0).
  rewrite !Z.land_spec, Z.ldiff_spec in *. by destruct (Z.testbit x i), (Z.testbit k i), (Z.testbit m i).
Qed.

Lemma lor_clear_bits k x : Z.lor k (clear_bits x k) = Z.lor x k.
Proof.
  unfold clear_bits. apply Z.bits_inj'. intros i Hi. rewrite !Z.lor_spec, Z.ldiff_spec.
  by destruct (Z.testbit x i), (Z.testbit k i).
Qed.

Lemma land_clear_bits x k m : Z.land k m = 0 -> Z.land (clear_bits x k) m = Z.land x m.
Proof.
  intros Hk. unfold clear_bits. apply Z.bits_inj'. intros i Hi.
  assert (Z.testbit (Z.land k m) i = false) as Hki by (rewrite Hk; apply Z.bits_0).
  rewrite !Z.land_spec, Z.ldiff_spec in *. by destruct (Z.testbit x i), (Z.testbit k i), (Z.testbit m i).
Qed.

(** For one bit, set and non-zero are the same. *)
Lemma has_bit x i : 0 <= i -> Z.land x (2 ^ i) <> 0 -> has_bits x (2 ^ i).
Proof.
  intros Hi Hne. unfold has_bits. apply Z.bits_inj'. intros j Hj.
  rewrite Z.land_spec, Z.pow2_bits_eqb by done. destruct (Z.eqb_spec i j) as [<-|]; [|by rewrite andb_false_r].
  rewrite andb_true_r. destruct (Z.testbit x i) eqn:Hx; [done|]. destruct Hne.
  apply Z.bits_inj'. intros j' Hj'. rewrite Z.land_spec, Z.pow2_bits_eqb, Z.bits_0 by done.
  destruct (Z.eqb_spec i j') as [<-|]; [by rewrite Hx|apply andb_false_r].
Qed.

Lemma has_bits_lor x m : has_bits x m -> Z.lor x m = x.
Proof.
  unfold has_bits. intros H. apply Z.bits_inj'. intros i Hi. rewrite Z.lor_spec.
  assert (Z.testbit (Z.land x m) i = Z.testbit m i) as Hx by by rewrite H.
  rewrite Z.land_spec in Hx. by destruct (Z.testbit x i), (Z.testbit m i).
Qed.

(** Two bytes joined into a 16-bit integer, high byte first. *)
Lemma lor_shiftl_8 hi lo : is_u8 lo -> Z.lor (Z.shiftl hi 8) lo = hi * 256 + lo.
Proof.
  intros Hlo. unfold is_u8 in Hlo.
  assert (Z.land (Z.shiftl hi 8) lo = 0) as Hz.
  { apply Z.bits_inj'. intros i Hi. rewrite Z.land_spec, Z.bits_0.
    destruct (decide (i < 8)).
    - by rewrite Z.shiftl_spec_low by lia.
    - rewrite <- (Z.mod_small lo (2 ^ 8)) by (change (2 ^ 8) with 256; lia).
      rewrite Z.mod_pow2_bits_high by lia. apply andb_false_r. }
  rewrite <- Z.lxor_lor, <- Z.add_nocarry_lxor, Z.shiftl_mul_pow2 by (done || lia).
  by change (2 ^ 8) with 256.
Qed.

Lemma drop_cons {A : Type} (l : list A) i x :
  l !! i = Some x -> drop i l = x :: drop (S i) l.
Proof. intros H. by rewrite (drop_S _ _ _ H). Qed.

Lemma list_alter_insert {A : Type} (g : A -> A) (l : list A) i x :
  l !! i = Some x -> alter g i l = <[i := g x]> l.
Proof.
  intros Hx. apply list_eq. intros j. destruct (decide (i = j)) as [<-|Hne].
  - rewrite list_lookup_alter_eq, Hx, list_lookup_insert_eq; [done|]. by eapply lookup_lt_Some.
  - by rewrite list_lookup_alter_ne, list_lookup_insert_ne.
Qed.

Lemma fmap_insert_id {A B : Type} (g : A -> B) (l : list A) i x y :
  l !! i = Some x -> g y = g x -> g <$> <[i := y]> l = g <$> l.
Proof.
  intros Hx Hg. rewrite list_fmap_insert, Hg. apply list_insert_id. by rewrite list_lookup_fmap, Hx.
Qed.

(** ** An implementation of the string functions' interface *)

(** Decimal digits up to the first other character. *)
Fixpoint parse_digits (s : string) (acc : Z) : Z :=
  match s with
  | EmptyString => acc
  | String c r =>
      let x := Z.of_nat (Ascii.nat_of_ascii c) - 48 in
      if (0 <=? x) && (x <=? 9) then parse_digits r (acc * 10 + x) else acc
  end.

#[export] Instance kstrtoul_example : KStrtoul.
Proof.
  refine {| kstrtoul buf := if decide (buf = EmptyString) then inl (- EINVAL)
                            else inr (wrap 64 (parse_digits buf 0)) |}.
  - intros buf e. case_decide; [|done]. by intros [= <-].
  - intros buf v. case_decide; [done|]. intros [= <-]. by apply wrap_range.
Defined.

Create HintDb vdrv.
Create Rewrite HintDb vdrv.
#[export] Hint Resolve lxor_0x20_u8 clear_bits_masked lor_masked : vdrv.
#[export] Hint Rewrite @app_nil_r @app_nil_l : vdrv.

(** ** Tactics *)

(** Run a computation whose control flow is already decided. *)
Ltac run_prog := unfold wp, wpf, bind, ret, gets, modify, emit, when, of_opt, fail; cbn.

(** Split a hypothesis built of conjunctions and existentials. *)
Ltac split_hyps :=
  repeat match goal with
  | H : _ /\ _ |- _ => destruct H
  | H : exists _, _ |- _ => destruct H
  end.

(** [preserves] of an unfolded program, by its syntax. *)
Ltac solve_preserves :=
  repeat first
    [ apply preserves_ret | apply preserves_fail | apply preserves_gets | apply preserves_emit
    | apply preserves_of_opt | apply preserves_when | apply preserves_if
    | apply preserves_modify; by intros []
    | apply preserves_bind; [|intros ?]
    | case_match ].

#[global] Arguments wrap : simpl never.
#[global] Arguments clear_bits : simpl never.
#[global] Arguments Z.land : simpl never.
#[global] Arguments Z.lor : simpl never.
#[global] Arguments Z.lxor : simpl never.
#[global] Arguments Z.ldiff : simpl never.
#[global] Arguments Z.pow : simpl never.
#[global] Arguments Z.modulo : simpl never.
#[global] Arguments Z.div : simpl never.
#[global] Arguments Z.shiftl : simpl never.
#[global] Arguments Z.shiftr : simpl never.
#[global] Arguments Nat.ltb : simpl never.
