(* ===== verification/UartFrame.v ===== *)
(** * The wire format of the UART network link

    The byte constants of [uart_net.c] and the abstract specification of a
    frame: header, escaped big-endian length, escaped payload, footer.  The
    transmitter ([UartTx]) and the receiver ([UartRx]) are related to
    [frame_bytes] by their theorems; nothing here is state. *)

From S2P Require Import Prelude.

Definition UARTNET_MTU : Z := 256.
Definition FRAME_HEADER : Z := 0xAA.
Definition FRAME_FOOTER : Z := 0x55.
Definition ESCAPE_CHAR : Z := 0x5A.

(** Documented value of Linux's [if_ether.h]. *)
Definition ETH_HLEN : Z := 14.

(** The test of the transmitter: bytes that are never sent as themselves. *)
Definition special (byte : Z) : bool :=
  (byte =? FRAME_HEADER) || (byte =? FRAME_FOOTER) || (byte =? ESCAPE_CHAR).

(** ** Specification *)

Definition escape_byte (b : Z) : list Z :=
  if special b then [ESCAPE_CHAR; Z.lxor b 0x20] else [b].

Definition escape (l : list Z) : list Z := l ≫= escape_byte.

(** The length field of a frame: 16 bits, high byte first. *)
Definition length_field (len : Z) : list Z :=
  [Z.land (Z.shiftr len 8) 0xFF; Z.land len 0xFF].

Definition frame_bytes (data : list Z) : list Z :=
  FRAME_HEADER :: escape (length_field (Z.of_nat (length data))) ++ escape data
    ++ [FRAME_FOOTER].

(** The length of a frame the receiver accepts. *)
Definition valid_length (len : Z) : Prop := 1 <= len <= UARTNET_MTU + ETH_HLEN.

#[export] Instance valid_length_dec len : Decision (valid_length len).
Proof. unfold valid_length. apply _. Defined.

(** ** Lemmas *)

Lemma special_cases b :
  special b = true <-> b = FRAME_HEADER \/ b = FRAME_FOOTER \/ b = ESCAPE_CHAR.
Proof. unfold special. rewrite !orb_true_iff, !Z.eqb_eq. tauto. Qed.

Lemma escape_cons b l : escape (b :: l) = escape_byte b ++ escape l.
Proof. done. Qed.

Lemma escape_app l1 l2 : escape (l1 ++ l2) = escape l1 ++ escape l2.
Proof. unfold escape. apply bind_app. Qed.

(** On the wire an escaped byte is neither a header, a footer nor an escape. *)
Lemma escaped_not_special b : special b = true -> special (Z.lxor b 0x20) = false.
Proof. intros [->|[->| ->]]%special_cases; reflexivity. Qed.

Lemma escape_byte_u8 b : is_u8 b -> Forall is_u8 (escape_byte b).
Proof.
  intros Hb. unfold escape_byte. destruct (special b).
  - apply Forall_cons; split; [done|]. apply Forall_singleton. auto with vdrv.
  - by apply Forall_singleton.
Qed.

Lemma escape_u8 l : Forall is_u8 l -> Forall is_u8 (escape l).
Proof.
  induction 1; [constructor|]. rewrite escape_cons. apply Forall_app. split; [|done].
  by apply escape_byte_u8.
Qed.

(** Headers and footers never occur in an escaped field. *)
Lemma escape_no_delimiter l b :
  b ∈ escape l -> b <> FRAME_HEADER /\ b <> FRAME_FOOTER.
Proof.
  induction l as [|x l IH]; [set_solver|]. rewrite escape_cons, elem_of_app.
  intros [H|H]; [|auto]. unfold escape_byte in H. destruct (special x) eqn:Hx.
  - apply escaped_not_special in Hx. apply elem_of_cons in H as [->|H]; [done|].
    apply list_elem_of_singleton in H as ->.
    split; intros Hc; rewrite Hc in Hx; by vm_compute in Hx.
  - apply list_elem_of_singleton in H as ->. split; intros ->; by vm_compute in Hx.
Qed.

Lemma length_escape_byte b : (1 <= length (escape_byte b) <= 2)%nat.
Proof. unfold escape_byte. destruct (special b); simpl; lia. Qed.

Lemma length_escape l : (length l <= length (escape l) <= 2 * length l)%nat.
Proof.
  induction l as [|x l IH]; [simpl; lia|]. rewrite escape_cons, length_app.
  pose proof (length_escape_byte x). simpl. lia.
Qed.

Lemma length_field_value len :
  0 <= len < 2 ^ 16 ->
  exists hi lo, length_field len = [hi; lo] /\ is_u8 hi /\ is_u8 lo /\
    len = Z.lor (Z.shiftl hi 8) lo.
Proof.
  intros H. unfold length_field. rewrite !land_ff, Z.shiftr_div_pow2 by lia.
  eexists _, _. split; [done|]. change (2 ^ 8) with 256 in *. change (2 ^ 16) with 65536 in H.
  assert (0 <= len / 256 < 256) by (split; [apply Z.div_pos|apply Z.div_lt_upper_bound]; lia).
  rewrite (Z.mod_small (len / 256)) by lia.
  pose proof (Z.mod_pos_bound len 256 ltac:(lia)) as Hm.
  split; [done|]. split; [done|]. rewrite lor_shiftl_8 by done.
  pose proof (Z.div_mod len 256). lia.
Qed.

#[global] Arguments special : simpl never.
#[global] Arguments escape_byte : simpl never.
#[global] Arguments escape : simpl never.
#[global] Arguments length_field : simpl never.
#[global] Arguments frame_bytes : simpl never.
