(* ===== verification/UartState.v ===== *)
(** * State of the UART network driver

    The data of [uart_net.c]: the state machines' enumerations, the fields of
    [struct uartnet_priv] that change, the device statistics, socket buffers,
    and the part of the PL011 register file the driver reads back.  The
    drivers' calls into the kernel and its register writes are the events of
    the trace.  [UartTx], [UartRx] and [UartDriver] define the operations. *)

From S2P Require Import Prelude UartFrame.

Inductive uartnet_rx_state : Set :=
| UARTNET_STATE_IDLE
| UARTNET_STATE_LENGTH
| UARTNET_STATE_DATA
| UARTNET_STATE_ESCAPE
| UARTNET_STATE_END.

Inductive uartnet_tx_state : Set :=
| TX_STATE_IDLE
| TX_STATE_HEADER
| TX_STATE_LENGTH
| TX_STATE_DATA
| TX_STATE_FOOTER.

#[export] Instance uartnet_rx_state_eq_dec : EqDecision uartnet_rx_state.
Proof. solve_decision. Defined.
#[export] Instance uartnet_tx_state_eq_dec : EqDecision uartnet_tx_state.
Proof. solve_decision. Defined.

(** ** PL011 registers, bits at their documented values *)

Inductive uart_reg : Set :=
| UART01x_DR | UART01x_FR | UART011_LCRH | UART011_CR | UART011_IFLS
| UART011_IMSC | UART011_MIS | UART011_ICR.

#[export] Instance uart_reg_eq_dec : EqDecision uart_reg.
Proof. solve_decision. Defined.

Definition UART01x_FR_RXFE : Z := 0x10.
Definition UART01x_FR_TXFF : Z := 0x20.
Definition UART011_RXIM : Z := 0x10.
Definition UART011_TXIM : Z := 0x20.
Definition UART011_RTIM : Z := 0x40.
Definition UART011_RXIS : Z := 0x10.
Definition UART011_TXIS : Z := 0x20.
Definition UART011_RTIS : Z := 0x40.
Definition UART01x_CR_UARTEN : Z := 0x1.
Definition UART011_CR_TXE : Z := 0x100.
Definition UART011_CR_RXE : Z := 0x200.
Definition UART011_IFLS_TX4_8 : Z := 0x2.
Definition UART011_IFLS_RX7_8 : Z := 0x20.

(** ** Socket buffers *)

(** A linear buffer: [skb_room] bytes may be put into it, [skb->len] is the
    length of [skb_data]. *)
Record sk_buff : Type := mkSkb {
  skb_id : nat;
  skb_room : Z;
  skb_data : list Z;
}.

Definition skb_len (skb : sk_buff) : Z := Z.of_nat (length (skb_data skb)).

(** [tx_current_ptr]: NULL, or an offset into [tx_length_bytes] or into
    [tx_skb->data]. *)
Inductive tx_ptr : Set :=
| PtrNull
| PtrLength (off : nat)
| PtrData (off : nat).

(** [ptr++]. *)
Definition ptr_incr (p : tx_ptr) : tx_ptr :=
  match p with
  | PtrNull => PtrNull
  | PtrLength i => PtrLength (S i)
  | PtrData i => PtrData (S i)
  end.

Inductive uart_lock : Set := LockTx | LockTxXmit.

Inductive uart_event : Type :=
| EvWritel (r : uart_reg) (v : Z)
| EvLock (l : uart_lock)
| EvUnlock (l : uart_lock)
| EvAllocSkb (id : nat) (len : Z)
| EvKfreeSkb (id : nat)
| EvNetifReceive (skb : sk_buff) (protocol : Z)
| EvReadAfterHandoff (id : nat)
| EvStopQueue
| EvStartQueue
| EvWakeQueue
| EvQueueWork
| EvCancelWorkSync
| EvFlushWorkqueue
| EvNapiSchedule
| EvNapiCompleteDone (work_done : nat)
| EvNapiEnable
| EvNapiDisable
| EvRequestIrq.

(** ** Device statistics: [unsigned long] counters *)

Record net_device_stats : Type := mkStats {
  rx_packets : Z;
  tx_packets : Z;
  rx_bytes : Z;
  tx_bytes : Z;
  rx_errors : Z;
  rx_dropped : Z;
  tx_dropped : Z;
  rx_length_errors : Z;
  rx_over_errors : Z;
}.

Definition set_rx_packets (v : Z) (s : net_device_stats) : net_device_stats :=
  mkStats v (tx_packets s) (rx_bytes s) (tx_bytes s) (rx_errors s) (rx_dropped s)
    (tx_dropped s) (rx_length_errors s) (rx_over_errors s).
Definition set_tx_packets (v : Z) (s : net_device_stats) : net_device_stats :=
  mkStats (rx_packets s) v (rx_bytes s) (tx_bytes s) (rx_errors s) (rx_dropped s)
    (tx_dropped s) (rx_length_errors s) (rx_over_errors s).
Definition set_rx_bytes (v : Z) (s : net_device_stats) : net_device_stats :=
  mkStats (rx_packets s) (tx_packets s) v (tx_bytes s) (rx_errors s) (rx_dropped s)
    (tx_dropped s) (rx_length_errors s) (rx_over_errors s).
Definition set_tx_bytes (v : Z) (s : net_device_stats) : net_device_stats :=
  mkStats (rx_packets s) (tx_packets s) (rx_bytes s) v (rx_errors s) (rx_dropped s)
    (tx_dropped s) (rx_length_errors s) (rx_over_errors s).
Definition set_rx_errors (v : Z) (s : net_device_stats) : net_device_stats :=
  mkStats (rx_packets s) (tx_packets s) (rx_bytes s) (tx_bytes s) v (rx_dropped s)
    (tx_dropped s) (rx_length_errors s) (rx_over_errors s).
Definition set_rx_dropped (v : Z) (s : net_device_stats) : net_device_stats :=
  mkStats (rx_packets s) (tx_packets s) (rx_bytes s) (tx_bytes s) (rx_errors s) v
    (tx_dropped s) (rx_length_errors s) (rx_over_errors s).
Definition set_tx_dropped (v : Z) (s : net_device_stats) : net_device_stats :=
  mkStats (rx_packets s) (tx_packets s) (rx_bytes s) (tx_bytes s) (rx_errors s)
    (rx_dropped s) v (rx_length_errors s) (rx_over_errors s).
Definition set_rx_length_errors (v : Z) (s : net_device_stats) : net_device_stats :=
  mkStats (rx_packets s) (tx_packets s) (rx_bytes s) (tx_bytes s) (rx_errors s)
    (rx_dropped s) (tx_dropped s) v (rx_over_errors s).
Definition set_rx_over_errors (v : Z) (s : net_device_stats) : net_device_stats :=
  mkStats (rx_packets s) (tx_packets s) (rx_bytes s) (tx_bytes s) (rx_errors s)
    (rx_dropped s) (tx_dropped s) (rx_length_errors s) v.

Definition incr64 (x : Z) : Z := wrap 64 (x + 1).
Definition add64 (x n : Z) : Z := wrap 64 (x + n).

(** ** The driver's private data, its device and the readable registers *)

Record uartnet_priv : Type := mkPriv {
  rx_state : uartnet_rx_state;
  saved_state : uartnet_rx_state; (** u8 in the source, holds only this enumeration *)
  rx_skb : option sk_buff;
  rx_frame_length : Z; (** u16 *)
  rx_data_received : Z; (** u16 *)
  rx_length_bytes : list Z; (** u8[2] *)
  rx_length_index : Z; (** u8 *)
  tx_skb : option sk_buff;
  tx_state : uartnet_tx_state;
  tx_length_bytes : list Z; (** u8[2] *)
  tx_current_ptr : tx_ptr;
  tx_current_count : Z; (** u16 *)
  tx_escape_next : Z; (** u8 *)
  tx_intr : Z; (** u32 *)
  rx_intr : Z; (** u32 *)
  stats : net_device_stats; (** dev->stats *)
  hw_imsc : Z; (** the interrupt mask register, 32 bits *)
  skb_allocs : nat; (** receive buffers asked for so far *)
}.

Definition set_rx_state (v : uartnet_rx_state) (p : uartnet_priv) : uartnet_priv :=
  mkPriv v (saved_state p) (rx_skb p) (rx_frame_length p) (rx_data_received p)
    (rx_length_bytes p) (rx_length_index p) (tx_skb p) (tx_state p) (tx_length_bytes p)
    (tx_current_ptr p) (tx_current_count p) (tx_escape_next p) (tx_intr p) (rx_intr p)
    (stats p) (hw_imsc p) (skb_allocs p).
Definition set_saved_state (v : uartnet_rx_state) (p : uartnet_priv) : uartnet_priv :=
  mkPriv (rx_state p) v (rx_skb p) (rx_frame_length p) (rx_data_received p)
    (rx_length_bytes p) (rx_length_index p) (tx_skb p) (tx_state p) (tx_length_bytes p)
    (tx_current_ptr p) (tx_current_count p) (tx_escape_next p) (tx_intr p) (rx_intr p)
    (stats p) (hw_imsc p) (skb_allocs p).
Definition set_rx_skb (v : option sk_buff) (p : uartnet_priv) : uartnet_priv :=
  mkPriv (rx_state p) (saved_state p) v (rx_frame_length p) (rx_data_received p)
    (rx_length_bytes p) (rx_length_index p) (tx_skb p) (tx_state p) (tx_length_bytes p)
    (tx_current_ptr p) (tx_current_count p) (tx_escape_next p) (tx_intr p) (rx_intr p)
    (stats p) (hw_imsc p) (skb_allocs p).
Definition set_rx_frame_length (v : Z) (p : uartnet_priv) : uartnet_priv :=
  mkPriv (rx_state p) (saved_state p) (rx_skb p) v (rx_data_received p) (rx_length_bytes p)
    (rx_length_index p) (tx_skb p) (tx_state p) (tx_length_bytes p) (tx_current_ptr p)
    (tx_current_count p) (tx_escape_next p) (tx_intr p) (rx_intr p) (stats p) (hw_imsc p)
    (skb_allocs p).
Definition set_rx_data_received (v : Z) (p : uartnet_priv) : uartnet_priv :=
  mkPriv (rx_state p) (saved_state p) (rx_skb p) (rx_frame_length p) v (rx_length_bytes p)
    (rx_length_index p) (tx_skb p) (tx_state p) (tx_length_bytes p) (tx_current_ptr p)
    (tx_current_count p) (tx_escape_next p) (tx_intr p) (rx_intr p) (stats p) (hw_imsc p)
    (skb_allocs p).
Definition set_rx_length_bytes (v : list Z) (p : uartnet_priv) : uartnet_priv :=
  mkPriv (rx_state p) (saved_state p) (rx_skb p) (rx_frame_length p) (rx_data_received p) v
    (rx_length_index p) (tx_skb p) (tx_state p) (tx_length_bytes p) (tx_current_ptr p)
    (tx_current_count p) (tx_escape_next p) (tx_intr p) (rx_intr p) (stats p) (hw_imsc p)
    (skb_allocs p).
Definition set_rx_length_index (v : Z) (p : uartnet_priv) : uartnet_priv :=
  mkPriv (rx_state p) (saved_state p) (rx_skb p) (rx_frame_length p) (rx_data_received p)
    (rx_length_bytes p) v (tx_skb p) (tx_state p) (tx_length_bytes p) (tx_current_ptr p)
    (tx_current_count p) (tx_escape_next p) (tx_intr p) (rx_intr p) (stats p) (hw_imsc p)
    (skb_allocs p).
Definition set_tx_skb (v : option sk_buff) (p : uartnet_priv) : uartnet_priv :=
  mkPriv (rx_state p) (saved_state p) (rx_skb p) (rx_frame_length p) (rx_data_received p)
    (rx_length_bytes p) (rx_length_index p) v (tx_state p) (tx_length_bytes p)
    (tx_current_ptr p) (tx_current_count p) (tx_escape_next p) (tx_intr p) (rx_intr p)
    (stats p) (hw_imsc p) (skb_allocs p).
Definition set_tx_state (v : uartnet_tx_state) (p : uartnet_priv) : uartnet_priv :=
  mkPriv (rx_state p) (saved_state p) (rx_skb p) (rx_frame_length p) (rx_data_received p)
    (rx_length_bytes p) (rx_length_index p) (tx_skb p) v (tx_length_bytes p)
    (tx_current_ptr p) (tx_current_count p) (tx_escape_next p) (tx_intr p) (rx_intr p)
    (stats p) (hw_imsc p) (skb_allocs p).
Definition set_tx_length_bytes (v : list Z) (p : uartnet_priv) : uartnet_priv :=
  mkPriv (rx_state p) (saved_state p) (rx_skb p) (rx_frame_length p) (rx_data_received p)
    (rx_length_bytes p) (rx_length_index p) (tx_skb p) (tx_state p) v (tx_current_ptr p)
    (tx_current_count p) (tx_escape_next p) (tx_intr p) (rx_intr p) (stats p) (hw_imsc p)
    (skb_allocs p).
Definition set_tx_current_ptr (v : tx_ptr) (p : uartnet_priv) : uartnet_priv :=
  mkPriv (rx_state p) (saved_state p) (rx_skb p) (rx_frame_length p) (rx_data_received p)
    (rx_length_bytes p) (rx_length_index p) (tx_skb p) (tx_state p) (tx_length_bytes p) v
    (tx_current_count p) (tx_escape_next p) (tx_intr p) (rx_intr p) (stats p) (hw_imsc p)
    (skb_allocs p).
Definition set_tx_current_count (v : Z) (p : uartnet_priv) : uartnet_priv :=
  mkPriv (rx_state p) (saved_state p) (rx_skb p) (rx_frame_length p) (rx_data_received p)
    (rx_length_bytes p) (rx_length_index p) (tx_skb p) (tx_state p) (tx_length_bytes p)
    (tx_current_ptr p) v (tx_escape_next p) (tx_intr p) (rx_intr p) (stats p) (hw_imsc p)
    (skb_allocs p).
Definition set_tx_escape_next (v : Z) (p : uartnet_priv) : uartnet_priv :=
  mkPriv (rx_state p) (saved_state p) (rx_skb p) (rx_frame_length p) (rx_data_received p)
    (rx_length_bytes p) (rx_length_index p) (tx_skb p) (tx_state p) (tx_length_bytes p)
    (tx_current_ptr p) (tx_current_count p) v (tx_intr p) (rx_intr p) (stats p) (hw_imsc p)
    (skb_allocs p).
Definition set_tx_intr (v : Z) (p : uartnet_priv) : uartnet_priv :=
  mkPriv (rx_state p) (saved_state p) (rx_skb p) (rx_frame_length p) (rx_data_received p)
    (rx_length_bytes p) (rx_length_index p) (tx_skb p) (tx_state p) (tx_length_bytes p)
    (tx_current_ptr p) (tx_current_count p) (tx_escape_next p) v (rx_intr p) (stats p)
    (hw_imsc p) (skb_allocs p).
Definition set_rx_intr (v : Z) (p : uartnet_priv) : uartnet_priv :=
  mkPriv (rx_state p) (saved_state p) (rx_skb p) (rx_frame_length p) (rx_data_received p)
    (rx_length_bytes p) (rx_length_index p) (tx_skb p) (tx_state p) (tx_length_bytes p)
    (tx_current_ptr p) (tx_current_count p) (tx_escape_next p) (tx_intr p) v (stats p)
    (hw_imsc p) (skb_allocs p).
Definition set_stats (v : net_device_stats) (p : uartnet_priv) : uartnet_priv :=
  mkPriv (rx_state p) (saved_state p) (rx_skb p) (rx_frame_length p) (rx_data_received p)
    (rx_length_bytes p) (rx_length_index p) (tx_skb p) (tx_state p) (tx_length_bytes p)
    (tx_current_ptr p) (tx_current_count p) (tx_escape_next p) (tx_intr p) (rx_intr p) v
    (hw_imsc p) (skb_allocs p).
Definition set_hw_imsc (v : Z) (p : uartnet_priv) : uartnet_priv :=
  mkPriv (rx_state p) (saved_state p) (rx_skb p) (rx_frame_length p) (rx_data_received p)
    (rx_length_bytes p) (rx_length_index p) (tx_skb p) (tx_state p) (tx_length_bytes p)
    (tx_current_ptr p) (tx_current_count p) (tx_escape_next p) (tx_intr p) (rx_intr p)
    (stats p) v (skb_allocs p).
Definition set_skb_allocs (v : nat) (p : uartnet_priv) : uartnet_priv :=
  mkPriv (rx_state p) (saved_state p) (rx_skb p) (rx_frame_length p) (rx_data_received p)
    (rx_length_bytes p) (rx_length_index p) (tx_skb p) (tx_state p) (tx_length_bytes p)
    (tx_current_ptr p) (tx_current_count p) (tx_escape_next p) (tx_intr p) (rx_intr p)
    (stats p) (hw_imsc p) v.

(** ** Register access and the environment *)

Abbreviation uartM := (M uart_event uartnet_priv).

Definition writel (v : Z) (r : uart_reg) : uartM unit :=
  emit (EvWritel r v) ;;
  match r with
  | UART011_IMSC => modify (set_hw_imsc (wrap 32 v))
  | _ => ret tt
  end.

Definition readl_imsc : uartM Z := gets hw_imsc.

Definition upd_stats (g : net_device_stats -> net_device_stats) : uartM unit :=
  modify (fun p => set_stats (g (stats p)) p).

(** What the receive path takes from the kernel: whether the [n]-th buffer
    allocation succeeds, [eth_type_trans] (the buffer left, the protocol), and
    what has become of [skb->len] once the buffer has been handed to the stack:
    its value, or nothing if the stack has freed the buffer by then, which it
    may.  [eth_type_trans] works on the buffer it is given. *)
Class NetKernel : Type := {
  alloc_ok : nat -> bool;
  eth_type_trans : sk_buff -> sk_buff * Z;
  len_after_handoff : sk_buff -> option Z;
  eth_type_trans_id skb : skb_id (eth_type_trans skb).1 = skb_id skb;
}.

(** ** Projections of the trace *)

(** The bytes put on the wire. *)
Definition dr_writes (es : list uart_event) : list Z :=
  es ≫= (fun e => match e with EvWritel UART01x_DR v => [v] | _ => [] end).

(** The buffers given back or handed over, and those allocated. *)
Definition skb_released (es : list uart_event) : list nat :=
  es ≫= (fun e => match e with
                  | EvKfreeSkb id => [id]
                  | EvNetifReceive skb _ => [skb_id skb]
                  | _ => []
                  end).

Definition skb_allocated (es : list uart_event) : list nat :=
  es ≫= (fun e => match e with EvAllocSkb id _ => [id] | _ => [] end).

(** The buffers delivered to the network stack. *)
Definition delivered (es : list uart_event) : list (sk_buff * Z) :=
  es ≫= (fun e => match e with EvNetifReceive skb proto => [(skb, proto)] | _ => [] end).

(** The lock operations. *)
Definition lock_ops (es : list uart_event) : list (uart_lock * bool) :=
  es ≫= (fun e => match e with
                  | EvLock l => [(l, true)]
                  | EvUnlock l => [(l, false)]
                  | _ => []
                  end).

(** The calls into the kernel: everything but register writes and locks. *)
Definition kernel_calls (es : list uart_event) : list uart_event :=
  es ≫= (fun e => match e with EvWritel _ _ | EvLock _ | EvUnlock _ => [] | _ => [e] end).

(** The completions of the poll. *)
Definition napi_done (es : list uart_event) : list nat :=
  es ≫= (fun e => match e with EvNapiCompleteDone n => [n] | _ => [] end).

Lemma napi_done_app es1 es2 : napi_done (es1 ++ es2) = napi_done es1 ++ napi_done es2.
Proof. apply bind_app. Qed.
Lemma kernel_calls_app es1 es2 :
  kernel_calls (es1 ++ es2) = kernel_calls es1 ++ kernel_calls es2.
Proof. apply bind_app. Qed.
Lemma dr_writes_app es1 es2 : dr_writes (es1 ++ es2) = dr_writes es1 ++ dr_writes es2.
Proof. apply bind_app. Qed.
Lemma skb_released_app es1 es2 :
  skb_released (es1 ++ es2) = skb_released es1 ++ skb_released es2.
Proof. apply bind_app. Qed.
Lemma skb_allocated_app es1 es2 :
  skb_allocated (es1 ++ es2) = skb_allocated es1 ++ skb_allocated es2.
Proof. apply bind_app. Qed.
Lemma delivered_app es1 es2 : delivered (es1 ++ es2) = delivered es1 ++ delivered es2.
Proof. apply bind_app. Qed.
Lemma lock_ops_app es1 es2 : lock_ops (es1 ++ es2) = lock_ops es1 ++ lock_ops es2.
Proof. apply bind_app. Qed.
Lemma dr_writes_cons e es : dr_writes (e :: es) = dr_writes [e] ++ dr_writes es.
Proof. apply (dr_writes_app [e]). Qed.
Lemma kernel_calls_cons e es : kernel_calls (e :: es) = kernel_calls [e] ++ kernel_calls es.
Proof. apply (kernel_calls_app [e]). Qed.
Lemma lock_ops_cons e es : lock_ops (e :: es) = lock_ops [e] ++ lock_ops es.
Proof. apply (lock_ops_app [e]). Qed.
#[export] Hint Rewrite dr_writes_app skb_released_app skb_allocated_app delivered_app
  lock_ops_app kernel_calls_app napi_done_app : vdrv.

(** The private data as allocated: all zero. *)
Definition stats_zero : net_device_stats := mkStats 0 0 0 0 0 0 0 0 0.
Definition priv_zero : uartnet_priv :=
  mkPriv UARTNET_STATE_IDLE UARTNET_STATE_IDLE None 0 0 [0; 0] 0
    None TX_STATE_IDLE [0; 0] PtrNull 0 0 0 0 stats_zero 0 0.
