(* ===== verification/UartTx.v ===== *)
(** * The transmitter: [uartnet_start_xmit] and [uartnet_tx_task]

    The work item's loop reads the flag register once per iteration; those
    readings are the argument [frs].  A run that uses all of [frs] without
    leaving the loop returns [false]: it still holds the lock. *)

From S2P Require Import Prelude UartFrame UartState.

(** ** Operations *)

(** [*priv->tx_current_ptr]. *)
Definition read_tx_ptr : uartM Z :=
  p <- gets (fun p => p) ;;
  match tx_current_ptr p with
  | PtrNull => fail NullDeref
  | PtrLength i => of_opt OutOfBounds (tx_length_bytes p !! i)
  | PtrData i =>
      skb <- of_opt UseAfterFree (tx_skb p) ;;
      of_opt OutOfBounds (skb_data skb !! i)
  end.

(** [priv->tx_current_ptr++; priv->tx_current_count--;] *)
Definition tx_advance (p : uartnet_priv) : uartnet_priv :=
  set_tx_current_count (wrap 16 (tx_current_count p - 1))
    (set_tx_current_ptr (ptr_incr (tx_current_ptr p)) p).

(** The body shared by the length and the data states. *)
Definition tx_send_byte : uartM unit :=
  byte <- read_tx_ptr ;;
  esc <- gets tx_escape_next ;;
  if negb (esc =? 0) then
    writel (Z.lxor byte 0x20) UART01x_DR ;;
    modify (set_tx_escape_next 0) ;;
    modify tx_advance
  else if special byte then
    writel ESCAPE_CHAR UART01x_DR ;;
    modify (set_tx_escape_next 1)
  else
    writel byte UART01x_DR ;;
    modify tx_advance.

(** One iteration of the loop; [true] leaves it. *)
Definition tx_iteration (fr : Z) : uartM bool :=
  st <- gets tx_state ;;
  if negb (Z.land fr UART01x_FR_TXFF =? 0) || bool_decide (st = TX_STATE_IDLE) then ret true
  else
    match st with
    | TX_STATE_HEADER =>
        writel FRAME_HEADER UART01x_DR ;;
        modify (set_tx_state TX_STATE_LENGTH) ;;
        ret false
    | TX_STATE_LENGTH =>
        count <- gets tx_current_count ;;
        when (0 <? count)
          (tx_send_byte ;;
           count <- gets tx_current_count ;;
           when (count =? 0)
             (modify (set_tx_state TX_STATE_DATA) ;;
              tx <- gets tx_skb ;;
              skb <- of_opt NullDeref tx ;;
              modify (set_tx_current_ptr (PtrData 0)) ;;
              modify (set_tx_current_count (wrap 16 (skb_len skb))) ;;
              modify (set_tx_escape_next 0))) ;;
        ret false
    | TX_STATE_DATA =>
        count <- gets tx_current_count ;;
        when (0 <? count)
          (tx_send_byte ;;
           count <- gets tx_current_count ;;
           when (count =? 0) (modify (set_tx_state TX_STATE_FOOTER))) ;;
        ret false
    | TX_STATE_FOOTER =>
        writel FRAME_FOOTER UART01x_DR ;;
        upd_stats (fun s => set_tx_packets (incr64 (tx_packets s)) s) ;;
        tx <- gets tx_skb ;;
        skb <- of_opt NullDeref tx ;;
        upd_stats (fun s => set_tx_bytes (add64 (tx_bytes s) (skb_len skb)) s) ;;
        emit (EvKfreeSkb (skb_id skb)) ;;
        modify (set_tx_skb None) ;;
        modify (set_tx_state TX_STATE_IDLE) ;;
        emit EvWakeQueue ;;
        ret true
    | TX_STATE_IDLE => ret true
    end.

Fixpoint tx_loop (frs : list Z) : uartM bool :=
  match frs with
  | [] => ret false
  | fr :: r =>
      leave <- tx_iteration fr ;;
      if leave then ret true else tx_loop r
  end.

Definition tx_mask_if_idle : uartM unit :=
  st <- gets tx_state ;;
  when (bool_decide (st = TX_STATE_IDLE))
    (imsc <- readl_imsc ;; writel (clear_bits imsc UART011_TXIM) UART011_IMSC).

Definition uartnet_tx_task (frs : list Z) : uartM bool :=
  emit (EvLock LockTx) ;;
  left_loop <- tx_loop frs ;;
  if left_loop then
    tx_mask_if_idle ;;
    emit (EvUnlock LockTx) ;;
    ret true
  else ret false.

(** [netif_running(dev)] and [netif_device_present(dev)] are the arguments. *)
Definition uartnet_start_xmit (running present : bool) (skb : sk_buff) : uartM unit :=
  emit (EvLock LockTxXmit) ;;
  if negb running || negb present then
    emit (EvUnlock LockTxXmit) ;;
    emit (EvKfreeSkb (skb_id skb))
  else
    emit EvStopQueue ;;
    st <- gets tx_state ;;
    (if bool_decide (st = TX_STATE_IDLE) then
       modify (set_tx_skb (Some skb)) ;;
       modify (set_tx_state TX_STATE_HEADER) ;;
       modify (set_tx_length_bytes (length_field (skb_len skb))) ;;
       modify (set_tx_current_ptr (PtrLength 0)) ;;
       modify (set_tx_current_count 2) ;;
       modify (set_tx_escape_next 0) ;;
       imsc <- readl_imsc ;;
       writel (Z.lor imsc UART011_TXIM) UART011_IMSC ;;
       emit EvQueueWork
     else
       emit (EvKfreeSkb (skb_id skb)) ;;
       upd_stats (fun s => set_tx_dropped (incr64 (tx_dropped s)) s)) ;;
    emit (EvUnlock LockTxXmit).

(** ** Specification: the bytes still to be sent *)

Definition pending (l : list Z) (esc : Z) : list Z :=
  if esc =? 0 then escape l
  else match l with b :: r => Z.lxor b 0x20 :: escape r | [] => [] end.

Definition tx_remaining (p : uartnet_priv) : list Z :=
  match tx_state p, tx_skb p with
  | TX_STATE_IDLE, _ | _, None => []
  | TX_STATE_HEADER, Some skb => frame_bytes (skb_data skb)
  | TX_STATE_LENGTH, Some skb =>
      match tx_current_ptr p with
      | PtrLength i => pending (drop i (tx_length_bytes p)) (tx_escape_next p)
      | _ => []
      end ++ escape (skb_data skb) ++ [FRAME_FOOTER]
  | TX_STATE_DATA, Some skb =>
      match tx_current_ptr p with
      | PtrData i => pending (drop i (skb_data skb)) (tx_escape_next p)
      | _ => []
      end ++ [FRAME_FOOTER]
  | TX_STATE_FOOTER, Some _ => [FRAME_FOOTER]
  end.

(** The position in a field of [l]: the byte under the pointer, the count that
    is left, and an escape is pending only for a special byte. *)
Definition tx_at (l : list Z) (i : nat) (count esc : Z) : Prop :=
  exists b, l !! i = Some b /\ count = Z.of_nat (length l) - Z.of_nat i /\
    (esc = 0 \/ special b = true).

Definition tx_wf (p : uartnet_priv) : Prop :=
  match tx_state p with
  | TX_STATE_IDLE => tx_skb p = None
  | st =>
      exists skb, tx_skb p = Some skb /\ 1 <= skb_len skb < 2 ^ 16 /\
        tx_length_bytes p = length_field (skb_len skb) /\
        match st with
        | TX_STATE_HEADER =>
            tx_current_ptr p = PtrLength 0 /\ tx_current_count p = 2 /\ tx_escape_next p = 0
        | TX_STATE_LENGTH =>
            exists i, tx_current_ptr p = PtrLength i /\
              tx_at (tx_length_bytes p) i (tx_current_count p) (tx_escape_next p)
        | TX_STATE_DATA =>
            exists i, tx_current_ptr p = PtrData i /\
              tx_at (skb_data skb) i (tx_current_count p) (tx_escape_next p)
        | _ => True
        end
  end.

(** The receiver's fields, which the transmitter never changes. *)
Definition rx_part (p : uartnet_priv) :=
  (rx_state p, saved_state p, rx_skb p, rx_frame_length p, rx_data_received p,
   rx_length_bytes p, rx_length_index p, skb_allocs p).

(** The statistics once [skb] has been sent. *)
Definition count_tx (skb : sk_buff) (s : net_device_stats) : net_device_stats :=
  set_tx_bytes (add64 (tx_bytes s) (skb_len skb)) (set_tx_packets (incr64 (tx_packets s)) s).

(** What a run of the transmitter does to the rest of the world: it sends the
    next bytes, and at the end of the frame frees the buffer, counts it and
    wakes the queue. *)
Definition tx_effect (p p' : uartnet_priv) (es : list uart_event) : Prop :=
  tx_wf p' /\
  tx_remaining p = dr_writes es ++ tx_remaining p' /\
  (kernel_calls es, stats p') =
    match tx_skb p, tx_skb p' with
    | Some skb, None => ([EvKfreeSkb (skb_id skb); EvWakeQueue], count_tx skb (stats p))
    | _, _ => ([], stats p)
    end /\
  (tx_skb p' = None \/ tx_skb p' = tx_skb p) /\
  rx_part p' = rx_part p.

(** The work item run several times in a row; [false]: the last run is still in
    its loop. *)
Fixpoint tx_tasks (frss : list (list Z)) : uartM bool :=
  match frss with
  | [] => ret true
  | frs :: r =>
      finished <- uartnet_tx_task frs ;;
      if finished then tx_tasks r else ret false
  end.

(** ** Lemmas *)

Lemma set_esc_0 p : tx_escape_next p = 0 -> set_tx_escape_next 0 p = p.
Proof. destruct p; cbn. by intros ->. Qed.

Lemma tx_send_byte_cases p b :
  read_tx_ptr p = Ok (b, p, []) ->
  tx_escape_next p = 0 \/ special b = true ->
  exists w,
    (tx_send_byte p = Ok (tt, tx_advance (set_tx_escape_next 0 p), [EvWritel UART01x_DR w]) /\
     forall r, pending (b :: r) (tx_escape_next p) = w :: pending r 0) \/
    (tx_send_byte p = Ok (tt, set_tx_escape_next 1 p, [EvWritel UART01x_DR w]) /\
     special b = true /\
     forall r, pending (b :: r) (tx_escape_next p) = w :: pending (b :: r) 1).
Proof.
  intros Hread Hesc. unfold tx_send_byte. rewrite (bind_ok _ _ _ _ _ _ Hread).
  unfold pending. run_prog. destruct (Z.eqb_spec (tx_escape_next p) 0) as [He|He]; cbn.
  - destruct (special b) eqn:Hb; cbn.
    + eexists. right. repeat split. intros r. rewrite escape_cons.
      unfold escape_byte. by rewrite Hb.
    + eexists. left. rewrite (set_esc_0 _ He). split; [done|]. intros r.
      rewrite escape_cons. unfold escape_byte. by rewrite Hb.
  - eexists. left. split; [done|]. done.
Qed.

(** The outcomes of sending one byte of the field [l], by position. *)
Lemma tx_send_byte_field p l i b :
  read_tx_ptr p = Ok (b, p, []) ->
  l !! i = Some b -> Z.of_nat (length l) < 2 ^ 16 ->
  tx_current_count p = Z.of_nat (length l) - Z.of_nat i ->
  tx_escape_next p = 0 \/ special b = true ->
  exists w p1,
    tx_send_byte p = Ok (tt, p1, [EvWritel UART01x_DR w]) /\
    ((p1 = tx_advance (set_tx_escape_next 0 p) /\
      tx_current_count p1 = Z.of_nat (length l) - Z.of_nat (S i) /\
      pending (drop i l) (tx_escape_next p) = w :: pending (drop (S i) l) 0) \/
     (p1 = set_tx_escape_next 1 p /\ special b = true /\
      pending (drop i l) (tx_escape_next p) = w :: pending (drop i l) 1)).
Proof.
  intros Hread Hl Hlen Hc Hesc.
  apply lookup_lt_Some in Hl as Hlt.
  destruct (tx_send_byte_cases p b Hread Hesc) as [w [[H1 H2]|(H1 & H2 & H3)]]; exists w.
  - eexists. split; [exact H1|]. left. split; [done|]. rewrite (drop_cons _ _ _ Hl), H2.
    split; [|done]. destruct p; cbn in *. rewrite wrap_small; lia.
  - eexists. split; [exact H1|]. right. rewrite (drop_cons _ _ _ Hl). auto.
Qed.

Lemma tx_at_intro l i b esc :
  l !! i = Some b -> esc = 0 \/ special b = true ->
  tx_at l i (Z.of_nat (length l) - Z.of_nat i) esc.
Proof. intros ??. exists b. auto. Qed.

Lemma dr_writes_1 w : dr_writes [EvWritel UART01x_DR w] = [w].
Proof. done. Qed.

(** The result of one iteration that sends the next byte. *)
Definition tx_one_byte (p : uartnet_priv)
    (r : result (bool * uartnet_priv * list uart_event)) : Prop :=
  exists leave w p' es,
    r = Ok (leave, p', es) /\ tx_effect p p' es /\ dr_writes es = [w] /\
    leave = bool_decide (tx_state p' = TX_STATE_IDLE) /\ lock_ops es = [].

Lemma tx_iteration_header p fr :
  tx_wf p -> tx_state p = TX_STATE_HEADER -> Z.land fr UART01x_FR_TXFF = 0 ->
  tx_one_byte p (tx_iteration fr p).
Proof.
  intros Hwf Hst Hfr. unfold tx_wf in Hwf. rewrite Hst in Hwf.
  destruct Hwf as (skb & Hskb & Hlen & Hlb & Hptr & Hcnt & Hesc).
  unfold tx_iteration. run_prog. rewrite Hfr, Hst. cbn.
  eexists _, _, _, _. split; [reflexivity|].
  destruct p; cbn in *; subst. repeat split; cbn; try done; [|by right].
  exists skb. split_and!; try done; try lia. exists 0%nat. split; [done|].
  unfold length_field. eapply tx_at_intro; [reflexivity|by left].
Qed.

Lemma tx_iteration_footer p fr :
  tx_wf p -> tx_state p = TX_STATE_FOOTER -> Z.land fr UART01x_FR_TXFF = 0 ->
  tx_one_byte p (tx_iteration fr p).
Proof.
  intros Hwf Hst Hfr. unfold tx_wf in Hwf. rewrite Hst in Hwf.
  destruct Hwf as (skb & Hskb & Hlen & Hlb & _).
  unfold tx_iteration, upd_stats. run_prog. rewrite Hfr, Hst. cbn.
  rewrite bool_decide_false by done. cbn. rewrite Hskb. cbn.
  eexists _, _, _, _. split; [reflexivity|].
  destruct p; cbn in *; subst. repeat split; cbn; auto.
Qed.

Lemma tx_iteration_length p fr :
  tx_wf p -> tx_state p = TX_STATE_LENGTH -> Z.land fr UART01x_FR_TXFF = 0 ->
  tx_one_byte p (tx_iteration fr p).
Proof.
  intros Hwf Hst Hfr. unfold tx_wf in Hwf. rewrite Hst in Hwf.
  destruct Hwf as (skb & Hskb & Hlen & Hlb & i & Hptr & b & Hb & Hcnt & Hesc).
  apply lookup_lt_Some in Hb as Hi.
  assert (length (tx_length_bytes p) = 2%nat) as Hl2 by by rewrite Hlb.
  destruct (tx_send_byte_field p (tx_length_bytes p) i b) as (w & p1 & Hsend & Hcase);
    [unfold read_tx_ptr; run_prog; by rewrite Hptr, Hb|done|lia|done|done|].
  unfold tx_iteration, gets, when. rewrite (bind_ok _ _ p _ _ _ eq_refl), Hfr, Hst.
  cbn [negb orb Z.eqb bool_decide]. rewrite bool_decide_false by done.
  rewrite (bind_ok _ _ p _ _ _ eq_refl), (proj2 (Z.ltb_lt _ _)) by lia.
  unfold bind at 1 2. rewrite Hsend. destruct Hcase as [(-> & Hcnt1 & Hp)|(-> & Hsp & Hp)].
  - run_prog. cbn in Hcnt1. rewrite Hcnt1.
    destruct (Z.eqb_spec (Z.of_nat (length (tx_length_bytes p)) - Z.of_nat (S i)) 0); cbn.
    + rewrite Hskb. cbn. eexists _, _, _, _. split; [reflexivity|].
      destruct p; cbn in *; subst. rewrite wrap_small in * by lia.
      assert (drop (S i) (length_field (skb_len skb)) = []) as Hd by (apply drop_ge; lia).
      repeat split; cbn; try done; [|by rewrite Hp, Hd|by right].
      exists skb. split_and!; try done; try lia. exists 0%nat. split; [done|].
      destruct (skb_data skb) as [|b0 r0] eqn:Hdata; [unfold skb_len in Hlen; rewrite Hdata in Hlen; simpl in Hlen; lia|].
      exists b0. split; [done|]. split; [|by left]. unfold skb_len. rewrite Hdata. lia.
    + eexists _, _, _, _. split; [reflexivity|].
      destruct p; cbn in *; subst. repeat split; cbn; try done; [|by rewrite Hp|by right].
      exists skb. split_and!; try done; try lia. exists (S i). split; [done|].
      rewrite Hcnt1. destruct (lookup_lt_is_Some_2 (length_field (skb_len skb)) (S i)) as [b1 Hb1];
        [lia|]. eapply tx_at_intro; [exact Hb1|by left].
  - run_prog. rewrite (proj2 (Z.eqb_neq _ _)) by lia. cbn.
    eexists _, _, _, _. split; [reflexivity|].
    destruct p; cbn in *; subst. repeat split; cbn; try done; [|by rewrite Hp|by right].
    exists skb. split_and!; try done; try lia. exists i. split; [done|].
    eapply tx_at_intro; eauto.
Qed.

Lemma tx_iteration_data p fr :
  tx_wf p -> tx_state p = TX_STATE_DATA -> Z.land fr UART01x_FR_TXFF = 0 ->
  tx_one_byte p (tx_iteration fr p).
Proof.
  intros Hwf Hst Hfr. unfold tx_wf in Hwf. rewrite Hst in Hwf.
  destruct Hwf as (skb & Hskb & Hlen & Hlb & i & Hptr & b & Hb & Hcnt & Hesc).
  apply lookup_lt_Some in Hb as Hi. unfold skb_len in Hlen.
  destruct (tx_send_byte_field p (skb_data skb) i b) as (w & p1 & Hsend & Hcase);
    [unfold read_tx_ptr; run_prog; rewrite Hptr, Hskb; cbn; by rewrite Hb|done|lia|done|done|].
  unfold tx_iteration, gets, when. rewrite (bind_ok _ _ p _ _ _ eq_refl), Hfr, Hst.
  cbn [negb orb Z.eqb bool_decide]. rewrite bool_decide_false by done.
  rewrite (bind_ok _ _ p _ _ _ eq_refl), (proj2 (Z.ltb_lt _ _)) by lia.
  unfold bind at 1 2. rewrite Hsend. destruct Hcase as [(-> & Hcnt1 & Hp)|(-> & Hsp & Hp)].
  - run_prog. cbn in Hcnt1. rewrite Hcnt1.
    destruct (Z.eqb_spec (Z.of_nat (length (skb_data skb)) - Z.of_nat (S i)) 0); cbn.
    + eexists _, _, _, _. split; [reflexivity|].
      destruct p; cbn in *; subst.
      assert (drop (S i) (skb_data skb) = []) as Hd by (apply drop_ge; lia).
      repeat split; cbn; try done; [|by rewrite Hp, Hd|by right].
      exists skb. split_and!; try done; unfold skb_len; lia.
    + eexists _, _, _, _. split; [reflexivity|].
      destruct p; cbn in *; subst. repeat split; cbn; try done; [|by rewrite Hp|by right].
      exists skb. split_and!; try done; try (unfold skb_len; lia). exists (S i). split; [done|].
      rewrite Hcnt1. destruct (lookup_lt_is_Some_2 (skb_data skb) (S i)) as [b1 Hb1];
        [lia|]. eapply tx_at_intro; [exact Hb1|by left].
  - run_prog. rewrite (proj2 (Z.eqb_neq _ _)) by lia. cbn.
    eexists _, _, _, _. split; [reflexivity|].
    destruct p; cbn in *; subst. repeat split; cbn; try done; [|by rewrite Hp|by right].
    exists skb. split_and!; try done; try (unfold skb_len; lia). exists i. split; [done|].
    eapply tx_at_intro; eauto.
Qed.

(** One iteration from a well-formed busy state with room in the FIFO puts
    exactly the next byte of the frame on the wire. *)
Lemma tx_iteration_step p fr :
  tx_wf p -> tx_state p <> TX_STATE_IDLE -> Z.land fr UART01x_FR_TXFF = 0 ->
  tx_one_byte p (tx_iteration fr p).
Proof.
  intros Hwf Hst Hfr. destruct (tx_state p) eqn:E; [done| | | |].
  - by apply tx_iteration_header.
  - by apply tx_iteration_length.
  - by apply tx_iteration_data.
  - by apply tx_iteration_footer.
Qed.

Lemma tx_iteration_leaves p fr :
  Z.land fr UART01x_FR_TXFF <> 0 \/ tx_state p = TX_STATE_IDLE ->
  tx_iteration fr p = Ok (true, p, []).
Proof.
  intros H. unfold tx_iteration. run_prog.
  destruct (Z.eqb_spec (Z.land fr UART01x_FR_TXFF) 0) as [Hz|Hz]; cbn; [|done].
  destruct H as [H|H]; [done|]. by rewrite bool_decide_true.
Qed.

Lemma tx_effect_refl p : tx_wf p -> tx_effect p p [].
Proof. intros H. split; [done|]. repeat split; auto. by destruct (tx_skb p). Qed.

Lemma tx_idle_no_skb p : tx_wf p -> tx_state p = TX_STATE_IDLE <-> tx_skb p = None.
Proof.
  unfold tx_wf. intros H. destruct (tx_state p); [tauto|..];
    destruct H as (skb & Hs & _); rewrite Hs; split; intros; discriminate.
Qed.

Lemma tx_effect_trans p1 p2 p3 e1 e2 :
  tx_effect p1 p2 e1 -> tx_effect p2 p3 e2 -> tx_effect p1 p3 (e1 ++ e2).
Proof.
  intros (W2 & R2 & F2 & S2' & X2) (W3 & R3 & F3 & S3 & X3). unfold tx_effect.
  rewrite dr_writes_app, kernel_calls_app, R2, R3, X3, X2, <- app_assoc.
  split_and!; try done.
  - destruct S2' as [E|E], S3 as [E'|E']; rewrite E in *; rewrite E' in *;
      destruct (tx_skb p1); injection F2 as F2 G2; injection F3 as F3 G3;
      rewrite F2, F3, G3, ?G2; try done; by rewrite app_nil_r.
  - destruct S2' as [E|E], S3 as [E'|E']; rewrite ?E', ?E; auto.
Qed.

(** A busy transmitter always has the footer left to send. *)
Lemma tx_remaining_nil p : tx_wf p -> tx_remaining p = [] <-> tx_state p = TX_STATE_IDLE.
Proof.
  unfold tx_wf, tx_remaining. intros H. destruct (tx_state p); [done|..];
    destruct H as (skb & Hs & _); rewrite Hs; (split; [|done]); intros Hn.
  all: repeat apply app_eq_nil in Hn as [_ Hn]; done.
Qed.

(** The loop, whatever the flag register reads: it never faults, and the bytes
    it writes are the next bytes of the frame. *)
Lemma tx_loop_effect frs p :
  tx_wf p ->
  exists leave p' es,
    tx_loop frs p = Ok (leave, p', es) /\ tx_effect p p' es /\ lock_ops es = [].
Proof.
  revert p. induction frs as [|fr frs IH]; intros p Hwf.
  - eexists _, _, _. split; [done|]. split; [by apply tx_effect_refl|done].
  - simpl. destruct (decide (Z.land fr UART01x_FR_TXFF = 0 /\ tx_state p <> TX_STATE_IDLE))
      as [[Hfr Hst]|Hno].
    + destruct (tx_iteration_step p fr Hwf Hst Hfr) as (b & w & p1 & e1 & Hit & He1 & Hw & Hb & Hl).
      rewrite (bind_ok _ _ _ _ _ _ Hit). destruct b.
      * eexists _, _, _. split; [done|]. by rewrite app_nil_r.
      * destruct (IH p1 (proj1 He1)) as (b' & p2 & e2 & Hrun & He2 & Hl2). rewrite Hrun.
        eexists _, _, _. split; [done|]. split; [by eapply tx_effect_trans|].
        by rewrite lock_ops_app, Hl, Hl2.
    + rewrite (bind_ok _ _ _ _ _ _ (tx_iteration_leaves p fr ltac:(
        destruct (decide (Z.land fr UART01x_FR_TXFF = 0)), (decide (tx_state p = TX_STATE_IDLE));
        tauto))).
      eexists _, _, _. split; [done|]. split; [by apply tx_effect_refl|done].
Qed.

(** With room in the FIFO for every byte left, the loop sends them all. *)
Lemma tx_loop_drains frs p :
  tx_wf p -> Forall (fun fr => Z.land fr UART01x_FR_TXFF = 0) frs ->
  (length (tx_remaining p) <= length frs)%nat -> tx_state p <> TX_STATE_IDLE ->
  exists p' es,
    tx_loop frs p = Ok (true, p', es) /\ tx_effect p p' es /\ lock_ops es = [] /\
    tx_state p' = TX_STATE_IDLE.
Proof.
  intros Hwf Hfrs. revert p Hwf. induction Hfrs as [|fr frs Hfr _ IH]; intros p Hwf Hn Hst.
  - destruct (tx_iteration_step p 0 Hwf Hst eq_refl) as (b & w & p1 & e1 & _ & He1 & Hw & _).
    destruct He1 as (_ & Hr & _). rewrite Hr, Hw in Hn. simpl in Hn. lia.
  - destruct (tx_iteration_step p fr Hwf Hst Hfr) as (b & w & p1 & e1 & Hit & He1 & Hw & Hb & Hl).
    simpl. rewrite (bind_ok _ _ _ _ _ _ Hit). destruct b.
    + eexists _, _. split; [done|]. rewrite app_nil_r. split_and!; try done.
      by symmetry in Hb; apply bool_decide_eq_true in Hb.
    + symmetry in Hb. apply bool_decide_eq_false in Hb.
      destruct (IH p1 (proj1 He1)) as (p2 & e2 & Hrun & He2 & Hl2 & Hst2); [|done|].
      { destruct He1 as (_ & Hr & _). rewrite Hr, Hw in Hn. simpl in Hn. lia. }
      rewrite Hrun. eexists _, _. split; [done|]. split; [by eapply tx_effect_trans|].
      by rewrite lock_ops_app, Hl, Hl2.
Qed.

(** The task: the loop between lock and unlock, then the mask. *)
Lemma uartnet_tx_task_effect frs p :
  tx_wf p ->
  exists fin p' es,
    uartnet_tx_task frs p = Ok (fin, p', es) /\ tx_effect p p' es /\
    lock_ops es = (LockTx, true) :: (if fin then [(LockTx, false)] else []) /\
    (fin = true -> tx_state p' = TX_STATE_IDLE -> Z.land (hw_imsc p') UART011_TXIM = 0).
Proof.
  intros Hwf. destruct (tx_loop_effect frs p Hwf) as (b & p1 & e1 & Hrun & He & Hl).
  unfold uartnet_tx_task, emit. rewrite (bind_ok _ _ p tt p _ eq_refl), (bind_ok _ _ _ _ _ _ Hrun).
  destruct b.
  - unfold tx_mask_if_idle, readl_imsc. run_prog.
    destruct (decide (tx_state p1 = TX_STATE_IDLE)) as [Hi|Hi].
    + rewrite bool_decide_true by done. cbn. eexists _, _, _. split; [done|].
      rewrite lock_ops_cons, lock_ops_app, Hl.
      split; [|split; [done|intros _ _; cbn; by apply wrap_clear_bits]].
      unfold tx_effect. rewrite dr_writes_cons, kernel_calls_cons, dr_writes_app, kernel_calls_app.
      cbn. rewrite !app_nil_r. by destruct p1.
    + rewrite bool_decide_false by done. cbn. eexists _, _, _. split; [done|].
      rewrite lock_ops_cons, lock_ops_app, Hl. split; [|split; [done|intros _ ?; done]].
      unfold tx_effect. rewrite dr_writes_cons, kernel_calls_cons, dr_writes_app, kernel_calls_app.
      cbn. by rewrite !app_nil_r.
  - eexists _, _, _. split; [done|]. rewrite app_nil_r.
    rewrite lock_ops_app, Hl. split; [|split; [done|discriminate]].
    unfold tx_effect. by rewrite dr_writes_app, kernel_calls_app.
Qed.

(** What [uartnet_start_xmit] leaves for the work item. *)
Lemma start_xmit_accepts p skb :
  tx_state p = TX_STATE_IDLE ->
  exists p' es,
    uartnet_start_xmit true true skb p = Ok (tt, p', es) /\
    p' = set_hw_imsc (wrap 32 (Z.lor (hw_imsc p) UART011_TXIM))
           (set_tx_escape_next 0 (set_tx_current_count 2 (set_tx_current_ptr (PtrLength 0)
             (set_tx_length_bytes (length_field (skb_len skb))
               (set_tx_state TX_STATE_HEADER (set_tx_skb (Some skb) p)))))) /\
    dr_writes es = [] /\ kernel_calls es = [EvStopQueue; EvQueueWork] /\
    lock_ops es = [(LockTxXmit, true); (LockTxXmit, false)].
Proof.
  intros Hst. unfold uartnet_start_xmit, readl_imsc. run_prog. rewrite Hst.
  rewrite bool_decide_true by done. cbn. by eexists _, _.
Qed.

Lemma start_xmit_idle p skb :
  tx_state p = TX_STATE_IDLE -> 1 <= skb_len skb < 2 ^ 16 ->
  exists p' es,
    uartnet_start_xmit true true skb p = Ok (tt, p', es) /\
    tx_wf p' /\ tx_state p' = TX_STATE_HEADER /\ tx_skb p' = Some skb /\
    tx_remaining p' = frame_bytes (skb_data skb) /\ stats p' = stats p /\ dr_writes es = [] /\
    kernel_calls es = [EvStopQueue; EvQueueWork] /\
    lock_ops es = [(LockTxXmit, true); (LockTxXmit, false)].
Proof.
  intros Hst Hlen. destruct (start_xmit_accepts p skb Hst) as (p1 & e1 & Hx & -> & Hd & Hk & Hl).
  eexists _, _. split; [done|]. destruct p; cbn in *. split_and!; try done.
  exists skb. split_and!; done || lia.
Qed.

Lemma tx_tasks_effect frss p :
  tx_wf p ->
  exists fin p' es, tx_tasks frss p = Ok (fin, p', es) /\ tx_effect p p' es.
Proof.
  revert p. induction frss as [|frs frss IH]; intros p Hwf.
  - eexists _, _, _. split; [done|]. by apply tx_effect_refl.
  - simpl. destruct (uartnet_tx_task_effect frs p Hwf) as (b & p1 & e1 & Hrun & He & _).
    rewrite (bind_ok _ _ _ _ _ _ Hrun). destruct b.
    + destruct (IH p1 (proj1 He)) as (b2 & p2 & e2 & Hrun2 & He2). rewrite Hrun2.
      eexists _, _, _. split; [done|]. by eapply tx_effect_trans.
    + eexists _, _, _. split; [done|]. by rewrite app_nil_r.
Qed.

(** ** The main properties *)

(** C1: a frame goes out byte by byte, however the FIFO behaves.  After
    [uartnet_start_xmit] accepts a buffer, any number of runs of the work item
    with any readings of the flag register writes a prefix of the frame's wire
    format; the state stands for exactly the rest of it, and the transmitter is
    idle again, with the buffer freed once, exactly when nothing is left. *)
Theorem tx_any_schedule p skb frss :
  tx_state p = TX_STATE_IDLE -> 1 <= skb_len skb < 2 ^ 16 ->
  wp (uartnet_start_xmit true true skb ;; tx_tasks frss) p (fun _ p' es =>
    frame_bytes (skb_data skb) = dr_writes es ++ tx_remaining p' /\
    (tx_state p' = TX_STATE_IDLE <-> dr_writes es = frame_bytes (skb_data skb)) /\
    kernel_calls es = [EvStopQueue; EvQueueWork] ++
      (if bool_decide (tx_state p' = TX_STATE_IDLE)
       then [EvKfreeSkb (skb_id skb); EvWakeQueue] else [])).
Proof.
  intros Hst Hlen.
  destruct (start_xmit_idle p skb Hst Hlen)
    as (p1 & e1 & Hx & Hwf & Hst1 & Hskb & Hrem & _ & Hdr & Hk & _).
  destruct (tx_tasks_effect frss p1 Hwf) as (b & p2 & e2 & Hrun & Hwf2 & Hr2 & Hk2 & Hs2 & _).
  apply wp_ok. rewrite (bind_ok _ _ _ _ _ _ Hx), Hrun. eexists _, _, _. split; [done|].
  rewrite dr_writes_app, kernel_calls_app, Hdr, Hk, <- Hrem. cbn [app]. split; [done|].
  rewrite Hskb in *. pose proof (tx_idle_no_skb p2 Hwf2) as Hidle. split.
  - split; intros H.
    + rewrite Hr2. unfold tx_remaining. rewrite H. by rewrite app_nil_r.
    + apply tx_remaining_nil; [done|]. rewrite H in Hr2.
      apply (app_inv_head (tx_remaining p1)). by rewrite app_nil_r, <- Hr2.
  - destruct Hs2 as [E|E]; rewrite E in *; injection Hk2 as Hk2 _; rewrite Hk2.
    + rewrite bool_decide_true by (by apply Hidle). done.
    + rewrite bool_decide_false; [done|]. intros H. by apply Hidle in H.
Qed.

(** C7: a run with room in the FIFO finishes the frame.  After an accepted
    buffer, one run of the work item whose flag readings never show a full FIFO,
    and which reads the register at least once per wire byte, leaves its loop:
    it has written exactly the frame, freed the buffer, woken the queue, counted
    one packet, masked the TX interrupt and released the lock. *)
Theorem tx_task_completes p skb frs :
  tx_state p = TX_STATE_IDLE -> 1 <= skb_len skb < 2 ^ 16 ->
  Forall (fun fr => Z.land fr UART01x_FR_TXFF = 0) frs ->
  (length (frame_bytes (skb_data skb)) <= length frs)%nat ->
  wp (uartnet_start_xmit true true skb ;; uartnet_tx_task frs) p (fun finished p' es =>
    finished = true /\ tx_state p' = TX_STATE_IDLE /\ tx_skb p' = None /\
    dr_writes es = frame_bytes (skb_data skb) /\
    kernel_calls es = [EvStopQueue; EvQueueWork; EvKfreeSkb (skb_id skb); EvWakeQueue] /\
    stats p' = count_tx skb (stats p) /\ Z.land (hw_imsc p') UART011_TXIM = 0 /\
    lock_ops es = [(LockTxXmit, true); (LockTxXmit, false); (LockTx, true); (LockTx, false)]).
Proof.
  intros Hst Hlen Hfrs Hn.
  destruct (start_xmit_idle p skb Hst Hlen)
    as (p1 & e1 & Hx & Hwf & Hst1 & Hskb & Hrem & Hs & Hdr & Hk & Hl).
  destruct (tx_loop_drains frs p1 Hwf Hfrs) as (p2 & e2 & Hloop & _ & _ & Hidle);
    [by rewrite Hrem|by rewrite Hst1|].
  destruct (uartnet_tx_task_effect frs p1 Hwf) as (b & p3 & e3 & Hrun & He & Hl3 & Hm).
  assert (b = true /\ tx_state p3 = TX_STATE_IDLE) as [-> Hi3].
  { revert Hrun. unfold uartnet_tx_task, emit, tx_mask_if_idle, readl_imsc.
    rewrite (bind_ok _ _ p1 tt p1 _ eq_refl), (bind_ok _ _ _ _ _ _ Hloop). run_prog.
    rewrite Hidle, bool_decide_true by done. cbn. intros [= <- <- _]. by destruct p2. }
  apply wp_ok. rewrite (bind_ok _ _ _ _ _ _ Hx), Hrun. eexists _, _, _. split; [done|].
  destruct He as (Hwf3 & Hr3 & Hk3 & _). apply tx_idle_no_skb in Hwf3 as Hnone.
  apply Hnone in Hi3 as Hn3. rewrite Hskb, Hn3 in Hk3. injection Hk3 as Hk3 Hs3.
  rewrite dr_writes_app, kernel_calls_app, lock_ops_app, Hdr, Hk, Hl, Hk3, Hl3, Hs3, Hs.
  rewrite <- Hrem, Hr3, (proj2 (tx_remaining_nil p3 Hwf3) Hi3), app_nil_r.
  split_and!; auto.
Qed.

(** what [uartnet_start_xmit] does with a buffer in every case.  A device
    that is not up, or absent: the buffer is freed, nothing else happens.  A
    busy transmitter: the queue is stopped, the buffer is freed and counted as
    dropped, the frame in progress is untouched.  An idle one: the buffer
    becomes the frame to send, the TX interrupt is enabled and the work is
    queued.  The lock is released in all three. *)
Theorem start_xmit_cases p running present skb :
  wp (uartnet_start_xmit running present skb) p (fun _ p' es =>
    lock_ops es = [(LockTxXmit, true); (LockTxXmit, false)] /\ dr_writes es = [] /\
    rx_part p' = rx_part p /\
    if negb running || negb present then
      p' = p /\ kernel_calls es = [EvKfreeSkb (skb_id skb)]
    else if bool_decide (tx_state p = TX_STATE_IDLE) then
      tx_skb p' = Some skb /\ tx_state p' = TX_STATE_HEADER /\
      tx_length_bytes p' = length_field (skb_len skb) /\ stats p' = stats p /\
      Z.land (hw_imsc p') UART011_TXIM = UART011_TXIM /\
      kernel_calls es = [EvStopQueue; EvQueueWork]
    else
      p' = set_stats (set_tx_dropped (incr64 (tx_dropped (stats p))) (stats p)) p /\
      kernel_calls es = [EvStopQueue; EvKfreeSkb (skb_id skb)]).
Proof.
  unfold uartnet_start_xmit, upd_stats, readl_imsc. run_prog.
  destruct running, present; cbn; try done.
  destruct (decide (tx_state p = TX_STATE_IDLE)).
  - rewrite bool_decide_true by done. cbn. split_and!; try done. by apply wrap_set_bits.
  - rewrite bool_decide_false by done. cbn. done.
Qed.

(** The states the transmitter goes through for a buffer whose length has
    [0] in its low 16 bits; it never leaves them. *)
Definition tx_endless (p : uartnet_priv) : Prop :=
  match tx_state p with
  | TX_STATE_HEADER | TX_STATE_LENGTH =>
      tx_length_bytes p = [0; 0] /\ tx_escape_next p = 0 /\
      ((tx_current_ptr p = PtrLength 0 /\ tx_current_count p = 2) \/
       (tx_current_ptr p = PtrLength 1 /\ tx_current_count p = 1)) /\
      exists skb, tx_skb p = Some skb /\ wrap 16 (skb_len skb) = 0
  | TX_STATE_DATA => tx_current_count p = 0
  | _ => False
  end.

Lemma tx_iteration_endless p fr :
  tx_endless p -> Z.land fr UART01x_FR_TXFF = 0 ->
  exists p' es, tx_iteration fr p = Ok (false, p', es) /\ tx_endless p' /\ lock_ops es = [].
Proof.
  intros Hp Hfr. unfold tx_endless in Hp. unfold tx_iteration, tx_send_byte, read_tx_ptr.
  run_prog. rewrite Hfr. cbn. destruct (tx_state p) eqn:Hst; try done;
    rewrite bool_decide_false by done; cbn.
  - destruct Hp as (H1 & H2 & H3 & H4). eexists _, _. split; [done|]. split; [|done].
    unfold tx_endless. by destruct p.
  - destruct Hp as (H1 & H2 & H3 & skb & H4 & H5).
    destruct H3 as [[H3 H6]|[H3 H6]]; rewrite H6; cbn; rewrite H3; cbn; rewrite H1; cbn;
      rewrite H2; cbn; change (special 0) with false; cbn; rewrite H6; cbn.
    + change (wrap 16 (2 - 1)) with 1. cbn. eexists _, _. split; [done|]. split; [|done].
      destruct p; cbn in *; subst. repeat split; eauto.
    + change (wrap 16 (1 - 1)) with 0. cbn. rewrite H4. cbn.
      eexists _, _. split; [done|]. split; [|done]. by destruct p; cbn in *.
  - rewrite Hp. cbn. eexists _, _. split; [done|]. split; [|done].
    unfold tx_endless. by rewrite Hst.
Qed.

Lemma tx_loop_endless frs p :
  tx_endless p -> Forall (fun fr => Z.land fr UART01x_FR_TXFF = 0) frs ->
  exists p' es, tx_loop frs p = Ok (false, p', es) /\ tx_endless p' /\ lock_ops es = [].
Proof.
  intros Hp Hfrs. revert p Hp. induction Hfrs as [|fr frs Hfr _ IH]; intros p Hp.
  - by eexists _, _.
  - destruct (tx_iteration_endless p fr Hp Hfr) as (p1 & e1 & H1 & Hp1 & Hl1).
    destruct (IH p1 Hp1) as (p2 & e2 & H2 & Hp2 & Hl2). simpl.
    rewrite (bind_ok _ _ _ _ _ _ H1), H2. eexists _, _. split; [done|]. split; [done|].
    by rewrite lock_ops_app, Hl1, Hl2.
Qed.

Lemma length_field_mod_64k len : len mod 2 ^ 16 = 0 -> length_field len = [0; 0].
Proof.
  intros H. unfold length_field. rewrite !land_ff, Z.shiftr_div_pow2 by lia.
  change (2 ^ 8) with 256. change (2 ^ 16) with (256 * 256) in H.
  apply Z.mod_divide in H as [k ->]; [|done].
  by rewrite Z.mul_assoc, Z.div_mul, !Z.mod_mul by done.
Qed.

(** C10: a buffer whose length is a multiple of 65536, the empty one among them,
    is never sent: the 16-bit count of the data state starts at zero, and the
    work item loops with the lock held for as long as the FIFO has room. *)
Theorem tx_empty_frame_never_completes p skb frs :
  tx_state p = TX_STATE_IDLE -> skb_len skb mod 2 ^ 16 = 0 ->
  Forall (fun fr => Z.land fr UART01x_FR_TXFF = 0) frs ->
  wp (uartnet_start_xmit true true skb ;; uartnet_tx_task frs) p (fun finished p' es =>
    finished = false /\ tx_state p' <> TX_STATE_IDLE /\
    lock_ops es = [(LockTxXmit, true); (LockTxXmit, false); (LockTx, true)]).
Proof.
  intros Hst Hlen Hfrs.
  destruct (start_xmit_accepts p skb Hst) as (p1 & e1 & Hx & Hp1 & _ & _ & Hl1).
  destruct (tx_loop_endless frs p1) as (p2 & e2 & Hloop & Hp2 & Hl2); [|done|].
  { rewrite Hp1. destruct p; cbn in *. rewrite length_field_mod_64k by done.
    repeat split; eauto. }
  apply wp_ok. rewrite (bind_ok _ _ _ _ _ _ Hx). unfold uartnet_tx_task, emit.
  rewrite (bind_ok _ _ p1 tt p1 _ eq_refl), (bind_ok _ _ _ _ _ _ Hloop). cbn.
  eexists _, _, _. split; [done|]. rewrite app_nil_r, lock_ops_app, lock_ops_cons, Hl1, Hl2.
  split_and!; try done. unfold tx_endless in Hp2. by destruct (tx_state p2).
Qed.

(** ** Witnesses *)

Definition skb_example : sk_buff := mkSkb 7 64 [1; 0x5A; 2; 0xAA; 3].

Lemma tx_any_schedule_witness :
  tx_state priv_zero = TX_STATE_IDLE /\ 1 <= skb_len skb_example < 2 ^ 16 /\
  wp (uartnet_start_xmit true true skb_example ;; tx_tasks [[0; 0; 0; 0x20]; [0; 0x20]]) priv_zero
    (fun _ p' es =>
      frame_bytes (skb_data skb_example) = dr_writes es ++ tx_remaining p' /\
      (tx_state p' = TX_STATE_IDLE <-> dr_writes es = frame_bytes (skb_data skb_example)) /\
      kernel_calls es = [EvStopQueue; EvQueueWork] ++
        (if bool_decide (tx_state p' = TX_STATE_IDLE)
         then [EvKfreeSkb (skb_id skb_example); EvWakeQueue] else [])).
Proof.
  split; [reflexivity|]. split; [vm_compute; split; congruence|].
  apply (tx_any_schedule priv_zero skb_example); [reflexivity|vm_compute; split; congruence].
Defined.

Lemma tx_task_completes_witness :
  Forall (fun fr => Z.land fr UART01x_FR_TXFF = 0) (replicate 12 0) /\
  (length (frame_bytes (skb_data skb_example)) <= 12)%nat /\
  wp (uartnet_start_xmit true true skb_example ;; uartnet_tx_task (replicate 12 0)) priv_zero
    (fun finished p' es =>
      finished = true /\ tx_state p' = TX_STATE_IDLE /\ tx_skb p' = None /\
      dr_writes es = frame_bytes (skb_data skb_example) /\
      kernel_calls es =
        [EvStopQueue; EvQueueWork; EvKfreeSkb (skb_id skb_example); EvWakeQueue] /\
      stats p' = count_tx skb_example (stats priv_zero) /\
      Z.land (hw_imsc p') UART011_TXIM = 0 /\
      lock_ops es =
        [(LockTxXmit, true); (LockTxXmit, false); (LockTx, true); (LockTx, false)]).
Proof.
  split; [by apply Forall_replicate|]. split; [vm_compute; lia|].
  apply (tx_task_completes priv_zero skb_example (replicate 12 0));
    [reflexivity|vm_compute; split; congruence|by apply Forall_replicate|vm_compute; lia].
Defined.

Lemma tx_empty_frame_never_completes_witness :
  skb_len (mkSkb 1 0 []) mod 2 ^ 16 = 0 /\
  wp (uartnet_start_xmit true true (mkSkb 1 0 []) ;; uartnet_tx_task (replicate 40 0)) priv_zero
    (fun finished p' es =>
      finished = false /\ tx_state p' <> TX_STATE_IDLE /\
      lock_ops es = [(LockTxXmit, true); (LockTxXmit, false); (LockTx, true)]).
Proof.
  split; [reflexivity|].
  apply (tx_empty_frame_never_completes priv_zero (mkSkb 1 0 []) (replicate 40 0));
    [reflexivity|reflexivity|by apply Forall_replicate].
Defined.
