(* ===== verification/UartRx.v ===== *)
(** * The receiver: [uartnet_poll]

    The receive FIFO seen by one poll is the list of words the data register
    delivers before the flag register reports it empty.  A byte goes through
    the [switch] of the loop; [goto restart] is the recursive call.  A frame that
    is complete is handed to the network stack, and then its length is read
    again: if the stack has freed it by then, the run stops there. *)

From S2P Require Import Prelude UartFrame UartState.

(** ** Operations *)

Section operations.
Context `{NetKernel}.

(** [dev_kfree_skb], which accepts NULL. *)
Definition dev_kfree_skb (skb : option sk_buff) : uartM unit :=
  match skb with Some s => emit (EvKfreeSkb (skb_id s)) | None => ret tt end.

(** [netdev_alloc_skb_ip_align(dev, len)]. *)
Definition netdev_alloc_skb (len : Z) : uartM (option sk_buff) :=
  n <- gets skb_allocs ;;
  modify (set_skb_allocs (S n)) ;;
  if alloc_ok n then
    emit (EvAllocSkb n len) ;;
    ret (Some (mkSkb n len []))
  else ret None.

(** [skb_put_u8(priv->rx_skb, data)]: a full buffer is a kernel panic. *)
Definition skb_put_u8 (data : Z) : uartM unit :=
  rx <- gets rx_skb ;;
  skb <- of_opt NullDeref rx ;;
  if skb_len skb <? skb_room skb then
    modify (set_rx_skb (Some (mkSkb (skb_id skb) (skb_room skb) (skb_data skb ++ [data]))))
  else fail SkbOverPanic.

(** A plain byte in the length state. *)
Definition rx_store_length (data : Z) : uartM unit :=
  bytes <- gets rx_length_bytes ;;
  idx <- gets rx_length_index ;;
  (if idx <? Z.of_nat (length bytes)
   then modify (set_rx_length_bytes (<[Z.to_nat idx := data]> bytes))
   else fail OutOfBounds) ;;
  modify (set_rx_length_index (wrap 8 (idx + 1))) ;;
  idx <- gets rx_length_index ;;
  when (idx =? 2)
    (bytes <- gets rx_length_bytes ;;
     b0 <- of_opt OutOfBounds (bytes !! 0%nat) ;;
     b1 <- of_opt OutOfBounds (bytes !! 1%nat) ;;
     let len := wrap 16 (Z.lor (Z.shiftl b0 8) b1) in
     if (UARTNET_MTU + ETH_HLEN <? len) || (len =? 0) then
       rx <- gets rx_skb ;;
       dev_kfree_skb rx ;;
       modify (set_rx_skb None) ;;
       modify (set_rx_state UARTNET_STATE_IDLE) ;;
       upd_stats (fun s => set_rx_length_errors (incr64 (rx_length_errors s)) s)
     else
       modify (set_rx_frame_length len) ;;
       rx <- netdev_alloc_skb len ;;
       modify (set_rx_skb rx) ;;
       match rx with
       | None =>
           modify (set_rx_state UARTNET_STATE_IDLE) ;;
           upd_stats (fun s => set_rx_dropped (incr64 (rx_dropped s)) s)
       | Some _ => modify (set_rx_state UARTNET_STATE_DATA)
       end).

(** A plain byte in the data state. *)
Definition rx_store_data (data : Z) : uartM unit :=
  received <- gets rx_data_received ;;
  flen <- gets rx_frame_length ;;
  if received <? flen then
    skb_put_u8 data ;;
    modify (set_rx_data_received (wrap 16 (received + 1))) ;;
    received <- gets rx_data_received ;;
    when (flen <=? received) (modify (set_rx_state UARTNET_STATE_END))
  else
    rx <- gets rx_skb ;;
    dev_kfree_skb rx ;;
    modify (set_rx_skb None) ;;
    modify (set_rx_state UARTNET_STATE_IDLE) ;;
    upd_stats (fun s => set_rx_over_errors (incr64 (rx_over_errors s)) s).

(** The end state; the result is what is added to [work_done]. *)
Definition rx_finish (data : Z) : uartM nat :=
  rx <- gets rx_skb ;;
  flen <- gets rx_frame_length ;;
  done <- (if data =? FRAME_FOOTER then
             match rx with
             | Some skb =>
                 if skb_len skb =? flen then
                   let '(skb', protocol) := eth_type_trans skb in
                   emit (EvNetifReceive skb' protocol) ;;
                   upd_stats (fun s => set_rx_packets (incr64 (rx_packets s)) s) ;;
                   emit (EvReadAfterHandoff (skb_id skb')) ;;
                   len <- of_opt UseAfterFree (len_after_handoff skb') ;;
                   upd_stats (fun s => set_rx_bytes (add64 (rx_bytes s) len) s) ;;
                   ret 1%nat
                 else
                   dev_kfree_skb rx ;;
                   upd_stats (fun s => set_rx_errors (incr64 (rx_errors s)) s) ;;
                   ret 0%nat
             | None =>
                 upd_stats (fun s => set_rx_errors (incr64 (rx_errors s)) s) ;;
                 ret 0%nat
             end
           else
             dev_kfree_skb rx ;;
             upd_stats (fun s => set_rx_errors (incr64 (rx_errors s)) s) ;;
             ret 0%nat) ;;
  modify (set_rx_skb None) ;;
  modify (set_rx_state UARTNET_STATE_IDLE) ;;
  ret done.

(** The [switch], entered again by [goto restart]. *)
Fixpoint rx_switch (fuel : nat) (data : Z) : uartM nat :=
  match fuel with
  | O => fail LoopsForever
  | S fuel =>
      st <- gets rx_state ;;
      match st with
      | UARTNET_STATE_IDLE =>
          when (data =? FRAME_HEADER)
            (modify (set_rx_state UARTNET_STATE_LENGTH) ;;
             modify (set_rx_length_index 0) ;;
             modify (set_rx_frame_length 0) ;;
             modify (set_rx_data_received 0) ;;
             modify (set_rx_skb None)) ;;
          ret 0%nat
      | UARTNET_STATE_LENGTH | UARTNET_STATE_DATA =>
          (if data =? ESCAPE_CHAR then
             modify (set_saved_state st) ;;
             modify (set_rx_state UARTNET_STATE_ESCAPE)
           else if bool_decide (st = UARTNET_STATE_LENGTH) then rx_store_length data
           else rx_store_data data) ;;
          ret 0%nat
      | UARTNET_STATE_ESCAPE =>
          saved <- gets saved_state ;;
          modify (set_rx_state saved) ;;
          rx_switch fuel (Z.lxor data 0x20)
      | UARTNET_STATE_END => rx_finish data
      end
  end.

(** One byte: the switch and at most one restart. *)
Definition rx_byte (data : Z) : uartM nat := rx_switch 2 data.

(** The loop, with the words left in the FIFO. *)
Fixpoint rx_loop (budget work_done : nat) (fifo : list Z) : uartM (nat * list Z) :=
  if (work_done <? budget)%nat then
    match fifo with
    | [] => ret (work_done, [])
    | word :: r =>
        n <- rx_byte (Z.land word 0xFF) ;;
        rx_loop budget (work_done + n) r
    end
  else ret (work_done, fifo).

Definition uartnet_poll (budget : nat) (fifo : list Z) : uartM (nat * list Z) :=
  r <- rx_loop budget 0 fifo ;;
  when (r.1 <? budget)%nat
    (emit (EvNapiCompleteDone r.1) ;;
     imsc <- readl_imsc ;;
     writel (Z.lor (Z.lor imsc UART011_RTIM) UART011_RXIM) UART011_IMSC) ;;
  ret r.

(** A stream of bytes, without a budget. *)
Fixpoint rx_run (bytes : list Z) : uartM nat :=
  match bytes with
  | [] => ret 0%nat
  | b :: r => n <- rx_byte b ;; m <- rx_run r ;; ret (n + m)%nat
  end.
End operations.

(** ** Invariant *)

(** A byte the receiver stores: never the escape character. *)
Definition storable (b : Z) : Prop := is_u8 b /\ b <> ESCAPE_CHAR.

Definition storable_length (len : Z) : Prop := valid_length len /\ len <> ESCAPE_CHAR.

Definition rx_length_wf (p : uartnet_priv) : Prop :=
  rx_skb p = None /\ rx_data_received p = 0 /\ 0 <= rx_length_index p < 2 /\
  Forall storable (take (Z.to_nat (rx_length_index p)) (rx_length_bytes p)).

Definition rx_data_wf (p : uartnet_priv) : Prop :=
  exists skb, rx_skb p = Some skb /\ storable_length (rx_frame_length p) /\
    skb_room skb = rx_frame_length p /\ skb_len skb = rx_data_received p /\
    rx_data_received p < rx_frame_length p /\ Forall storable (skb_data skb).

Definition rx_state_wf (p : uartnet_priv) : Prop :=
  match rx_state p with
  | UARTNET_STATE_IDLE => rx_skb p = None
  | UARTNET_STATE_LENGTH => rx_length_wf p
  | UARTNET_STATE_DATA => rx_data_wf p
  | UARTNET_STATE_ESCAPE =>
      (saved_state p = UARTNET_STATE_LENGTH /\ rx_length_wf p) \/
      (saved_state p = UARTNET_STATE_DATA /\ rx_data_wf p)
  | UARTNET_STATE_END =>
      exists skb, rx_skb p = Some skb /\ storable_length (rx_frame_length p) /\
        skb_len skb = rx_frame_length p /\ Forall storable (skb_data skb)
  end.

Definition rx_wf (p : uartnet_priv) : Prop :=
  length (rx_length_bytes p) = 2%nat /\ rx_state_wf p.

(** The buffer the receiver owns. *)
Definition rx_held (p : uartnet_priv) : list nat :=
  match rx_skb p with Some skb => [skb_id skb] | None => [] end.

(** The transmitter's fields and the mask, which the receiver never changes. *)
Definition tx_part (p : uartnet_priv) :=
  (tx_skb p, tx_state p, tx_length_bytes p, tx_current_ptr p, tx_current_count p,
   tx_escape_next p, hw_imsc p).

(** ** Lemmas *)

Section lemmas.
Context `{NetKernel}.

(** A buffer the stack may get: whole, of a valid length, free of escapes. *)
Definition rx_good (d : sk_buff * Z) : Prop :=
  exists skb, d = eth_type_trans skb /\ storable_length (skb_len skb) /\
    Forall storable (skb_data skb).

(** The stack has not freed the buffer when the driver looks at it again. *)
Definition kept (d : sk_buff * Z) : Prop := is_Some (len_after_handoff d.1).

#[export] Instance kept_dec d : Decision (kept d).
Proof. unfold kept. apply _. Defined.

(** The fault of a driver that reads a buffer it has handed over: the stack has
    freed a good buffer. *)
Definition freed_by_stack (f : fault) : Prop :=
  f = UseAfterFree /\ exists d, rx_good d /\ ~ kept d.

(** What processing bytes does: the invariant holds again; the buffers held or
    allocated are released or held; [n] good frames were delivered, and the
    stack kept their buffers; the transmitter is untouched; allocations get
    fresh numbers. *)
Definition rx_effect (p p' : uartnet_priv) (n : nat) (es : list uart_event) : Prop :=
  rx_wf p' /\
  rx_held p ++ skb_allocated es ≡ₚ skb_released es ++ rx_held p' /\
  Forall rx_good (delivered es) /\ Forall kept (delivered es) /\
  length (delivered es) = n /\ tx_part p' = tx_part p /\
  rx_over_errors (stats p') = rx_over_errors (stats p) /\ napi_done es = [] /\
  NoDup (skb_allocated es) /\ (skb_allocs p <= skb_allocs p')%nat /\
  Forall (fun id => skb_allocs p <= id < skb_allocs p')%nat (skb_allocated es).

Lemma rx_effect_refl p : rx_wf p -> rx_effect p p 0 [].
Proof. intros Hwf. unfold rx_effect. cbn. rewrite app_nil_r. split_and!; auto using NoDup_nil_2. Qed.

Lemma rx_effect_trans p1 p2 p3 n1 n2 e1 e2 :
  rx_effect p1 p2 n1 e1 -> rx_effect p2 p3 n2 e2 -> rx_effect p1 p3 (n1 + n2) (e1 ++ e2).
Proof.
  intros (W2 & A2 & G2 & K2 & N2 & T2 & O2 & C2 & D2 & L2 & F2)
    (W3 & A3 & G3 & K3 & N3 & T3 & O3 & C3 & D3 & L3 & F3).
  unfold rx_effect.
  rewrite napi_done_app, C2, C3, skb_allocated_app, skb_released_app, delivered_app, length_app, !Forall_app.
  split_and!; try done; try lia.
  - rewrite (assoc_L (++)), A2, <- (assoc_L (++)), A3. by rewrite (assoc_L (++)).
  - congruence.
  - apply NoDup_app. split_and!; [done| |done]. intros id H1 H2.
    rewrite Forall_forall in F2, F3. specialize (F2 id H1). specialize (F3 id H2). lia.
  - eapply Forall_impl; [exact F2|]. intros id. simpl. lia.
  - eapply Forall_impl; [exact F3|]. intros id. simpl. lia.
Qed.

Ltac rx_solve :=
  unfold rx_effect, rx_wf, rx_state_wf, rx_held; cbn; rewrite ?app_nil_r;
  split_and!; auto using NoDup_nil_2, Forall_nil_2.

(** The length read from two storable bytes. *)
Lemma storable_length_intro b0 b1 len :
  storable b0 -> storable b1 -> len = wrap 16 (Z.lor (Z.shiftl b0 8) b1) ->
  (UARTNET_MTU + ETH_HLEN <? len) || (len =? 0) = false -> storable_length len.
Proof.
  intros [H0 _] [H1 H1'] Hl Hv. apply orb_false_iff in Hv as [Hv1%Z.ltb_ge Hv2%Z.eqb_neq].
  rewrite lor_shiftl_8, wrap_small in Hl by (unfold is_u8 in *; change (2 ^ 16) with 65536; lia || done).
  unfold is_u8, storable_length, valid_length, ESCAPE_CHAR in *. split; [lia|]. intros ->. lia.
Qed.

Lemma rx_store_length_effect p data :
  length (rx_length_bytes p) = 2%nat -> rx_state p = UARTNET_STATE_LENGTH -> rx_length_wf p ->
  storable data ->
  wp (rx_store_length data) p (fun _ p' es => rx_effect p p' 0 es).
Proof.
  intros Hlen Hst (Hskb & Hrecv & Hidx & Htake) Hd.
  destruct (rx_length_bytes p) as [|c0 [|c1 [|]]] eqn:Hb; try done.
  unfold rx_store_length, netdev_alloc_skb, upd_stats. run_prog. rewrite Hb. cbn.
  assert (rx_length_index p = 0 \/ rx_length_index p = 1) as [Hi|Hi] by lia; rewrite Hi in *; cbn.
  - change (0 <? Z.of_nat 2) with true. change (wrap 8 (0 + 1)) with 1.
    change (<[Z.to_nat 0:=data]> [c0; c1]) with [data; c1]. cbn. destruct p; cbn in *; subst. rx_solve.
    split_and!; try done; try lia. by apply Forall_singleton.
  - change (1 <? Z.of_nat 2) with true. change (wrap 8 (1 + 1)) with 2.
    change (<[Z.to_nat 1:=data]> [c0; c1]) with [c0; data]. cbn.
    pose (len := wrap 16 (Z.lor (Z.shiftl c0 8) data)). fold len.
    destruct ((UARTNET_MTU + ETH_HLEN <? len) || (len =? 0)) eqn:Hv; cbn.
    + rewrite Hskb. cbn. destruct p; cbn in *; subst. by rx_solve.
    + destruct (alloc_ok (skb_allocs p)); cbn; destruct p; cbn in *; subst; rx_solve; try lia.
      * exists (mkSkb skb_allocs len []). assert (storable_length len) as Hs.
        { apply (storable_length_intro c0 data); try done. by inversion Htake. }
        split_and!; try done. destruct Hs as [[Hs _] _]. cbn. lia.
      * apply NoDup_singleton.
Qed.

Lemma rx_store_data_effect p data :
  length (rx_length_bytes p) = 2%nat -> rx_state p = UARTNET_STATE_DATA -> rx_data_wf p ->
  storable data ->
  wp (rx_store_data data) p (fun _ p' es => rx_effect p p' 0 es).
Proof.
  intros Hlen Hst (skb & Hskb & Hfl & Hroom & Hslen & Hlt & Hall) Hd.
  unfold rx_store_data, skb_put_u8, upd_stats. run_prog.
  rewrite (proj2 (Z.ltb_lt _ _) Hlt). cbn. rewrite Hskb. cbn.
  rewrite (proj2 (Z.ltb_lt _ _)) by lia. cbn.
  assert (wrap 16 (rx_data_received p + 1) = skb_len skb + 1) as ->.
  { rewrite wrap_small; [lia|]. destruct Hfl as [[_ Hfl] _].
    unfold UARTNET_MTU, ETH_HLEN, skb_len in *. change (2 ^ 16) with 65536. lia. }
  assert (Forall storable (skb_data skb ++ [data])) as Hall2
    by (apply Forall_app; split; [done|by apply Forall_singleton]).
  assert (skb_len skb + 1 = skb_len (mkSkb (skb_id skb) (skb_room skb) (skb_data skb ++ [data])))
    as Hsl by (unfold skb_len; cbn; rewrite length_app; cbn; lia).
  destruct (Z.leb_spec (rx_frame_length p) (skb_len skb + 1)); cbn;
    destruct p; cbn in *; subst; rx_solve;
    eexists; (split; [done|]); split_and!; try done; rewrite <- Hsl; lia.
Qed.

Lemma rx_finish_effect p data :
  length (rx_length_bytes p) = 2%nat -> rx_state p = UARTNET_STATE_END -> rx_state_wf p ->
  wpf freed_by_stack (rx_finish data) p (fun n p' es => rx_effect p p' n es /\ (n <= 1)%nat).
Proof.
  intros Hlen Hst Hwf. unfold rx_state_wf in Hwf. rewrite Hst in Hwf.
  destruct Hwf as (skb & Hskb & Hfl & Hslen & Hall).
  unfold rx_finish, upd_stats. run_prog. rewrite Hskb. cbn.
  destruct (data =? FRAME_FOOTER); cbn.
  - rewrite (proj2 (Z.eqb_eq _ _) Hslen). destruct (eth_type_trans skb) as [skb' proto] eqn:Het.
    pose proof (eth_type_trans_id skb) as Hid. rewrite Het in Hid.
    assert (rx_good (skb', proto)) as Hgood by (exists skb; split_and!; [done|by rewrite Hslen|done]).
    cbn. destruct (len_after_handoff skb') as [len|] eqn:Hk; cbn.
    + split; [|lia]. destruct p; cbn in *; subst. rx_solve; [by rewrite Hid|].
      apply Forall_singleton. by exists len.
    + split; [done|]. exists (skb', proto). split; [done|]. unfold kept. cbn. rewrite Hk. by intros [].
  - split; [|lia]. destruct p; cbn in *; subst. by rx_solve.
Qed.

(** One pass of the switch for a state that does not restart. *)
Lemma rx_switch_effect fuel p data :
  rx_wf p -> rx_state p <> UARTNET_STATE_ESCAPE -> is_u8 data ->
  wpf freed_by_stack (rx_switch (S fuel) data) p
    (fun n p' es => rx_effect p p' n es /\ (n <= 1)%nat).
Proof.
  intros [Hlen Hwf] Hst Hd. simpl. unfold gets.
  apply wpf_bind. unfold wpf at 1. unfold rx_state_wf in Hwf.
  destruct (rx_state p) eqn:E; try done.
  - run_prog. destruct (data =? FRAME_HEADER); cbn; (split; [|lia]).
    + destruct p; cbn in *; subst. rx_solve. split_and!; try done; lia.
    + apply rx_effect_refl. split; [done|]. unfold rx_state_wf. by rewrite E.
  - destruct (Z.eqb_spec data ESCAPE_CHAR) as [He|He].
    + run_prog. split; [|lia]. destruct p; cbn in *; subst. by rx_solve.
    + rewrite bool_decide_true by done. apply wpf_bind.
      eapply wpf_mono; [by apply wp_wpf, rx_store_length_effect|]. intros [] p' es Heff.
      run_prog. rewrite app_nil_r. split; [done|lia].
  - destruct (Z.eqb_spec data ESCAPE_CHAR) as [He|He].
    + run_prog. split; [|lia]. destruct Hwf as (skb & Hskb & Hwf).
      destruct p; cbn in *; subst. rx_solve. right. split; [done|]. by exists skb.
    + rewrite bool_decide_false by done. apply wpf_bind.
      eapply wpf_mono; [by apply wp_wpf, rx_store_data_effect|]. intros [] p' es Heff.
      run_prog. rewrite app_nil_r. split; [done|lia].
  - cbn. apply rx_finish_effect; try done. unfold rx_state_wf. by rewrite E.
Qed.

(** [goto restart]. *)
Lemma rx_switch_escape fuel p data :
  rx_state p = UARTNET_STATE_ESCAPE ->
  rx_switch (S fuel) data p =
    rx_switch fuel (Z.lxor data 0x20) (set_rx_state (saved_state p) p).
Proof.
  intros Hst. cbn [rx_switch]. run_prog. rewrite Hst.
  by destruct (rx_switch fuel _ _) as [[[? ?] ?]|].
Qed.

(** One byte, in any state. *)
Lemma rx_byte_effect p data :
  rx_wf p -> is_u8 data ->
  wpf freed_by_stack (rx_byte data) p (fun n p' es => rx_effect p p' n es /\ (n <= 1)%nat).
Proof.
  intros Hwf Hd. destruct (decide (rx_state p = UARTNET_STATE_ESCAPE)) as [E|E];
    [|by apply rx_switch_effect].
  unfold rx_byte. unfold wpf. rewrite rx_switch_escape by done.
  assert (rx_wf (set_rx_state (saved_state p) p) /\ saved_state p <> UARTNET_STATE_ESCAPE) as [Hw Hs].
  { destruct Hwf as [Hl Hwf]. unfold rx_state_wf in Hwf. rewrite E in Hwf.
    destruct p; cbn in *; subst. destruct Hwf as [[-> Hwf]|[-> Hwf]]; (split; [split; [done|exact Hwf]|done]). }
  pose proof (rx_switch_effect 0 (set_rx_state (saved_state p) p) (Z.lxor data 0x20) Hw) as Heff.
  eapply wpf_mono; [apply Heff|].
  - by destruct p.
  - auto with vdrv.
  - intros n p' es. by destruct p.
Qed.

Lemma rx_run_effect bytes p :
  rx_wf p -> Forall is_u8 bytes ->
  wpf freed_by_stack (rx_run bytes) p (fun n p' es => rx_effect p p' n es).
Proof.
  intros Hwf Hb. revert p Hwf. induction Hb as [|b r Hb _ IH]; intros p Hwf.
  - by apply rx_effect_refl.
  - simpl. apply wpf_bind. eapply wpf_mono; [by apply rx_byte_effect|].
    intros n p1 e1 [He1 _]. apply wpf_bind. eapply wpf_mono; [by apply IH, He1|].
    intros m p2 e2 He2. run_prog. rewrite app_nil_r. by eapply rx_effect_trans.
Qed.

(** The loop of the poll: what it consumed, and when it stopped. *)
Lemma rx_loop_effect budget fifo w p :
  rx_wf p -> (w <= budget)%nat ->
  wpf freed_by_stack (rx_loop budget w fifo) p (fun r p' es =>
    exists n, r.1 = (w + n)%nat /\ (r.1 <= budget)%nat /\ ((r.1 < budget)%nat -> r.2 = []) /\
      (exists used, fifo = used ++ r.2) /\ rx_effect p p' n es).
Proof.
  intros Hwf Hw. revert w p Hwf Hw. induction fifo as [|word fifo IH]; intros w p Hwf Hw; simpl.
  - destruct (Nat.ltb_spec w budget); unfold wpf, ret; exists 0%nat; cbn; split_and!;
      try lia; try done; try (by exists []); by apply rx_effect_refl.
  - destruct (Nat.ltb_spec w budget) as [Hlt|Hge].
    + apply wpf_bind. eapply wpf_mono; [apply rx_byte_effect; [done|]|].
      { rewrite land_ff. unfold is_u8. apply Z.mod_pos_bound. lia. }
      intros n p1 e1 [He1 Hn]. eapply wpf_mono; [apply IH; [by apply He1|lia]|].
      intros r p2 e2 (m & H1 & H2 & H3 & [used ->] & H5). exists (n + m)%nat.
      split_and!; try done; try lia; [by exists (word :: used)|by eapply rx_effect_trans].
    + unfold wpf, ret. exists 0%nat. cbn. split_and!; try lia; try done; [by exists []|].
      by apply rx_effect_refl.
Qed.

(** ** Round trip *)

Lemma rx_run_app l1 l2 p n p1 e1 m p2 e2 :
  rx_run l1 p = Ok (n, p1, e1) -> rx_run l2 p1 = Ok (m, p2, e2) ->
  rx_run (l1 ++ l2) p = Ok ((n + m)%nat, p2, e1 ++ e2).
Proof.
  revert p n p1 e1. induction l1 as [|b l1 IH]; intros p n p1 e1 H1 H2; simpl in H1 |- *.
  - by injection H1 as <- <- <-.
  - unfold bind, ret in *. destruct (rx_byte b p) as [[[k q] e]|]; [|done].
    destruct (rx_run l1 q) as [[[k2 q2] e3]|] eqn:E; [|done].
    injection H1 as <- <- <-. rewrite (IH _ _ _ _ E H2).
    by rewrite !app_nil_r, Nat.add_assoc, (assoc_L (++)).
Qed.

Lemma rx_run_cons b r p n p1 e1 m p2 e2 :
  rx_byte b p = Ok (n, p1, e1) -> rx_run r p1 = Ok (m, p2, e2) ->
  rx_run (b :: r) p = Ok ((n + m)%nat, p2, e1 ++ e2).
Proof. intros H1 H2. simpl. unfold bind, ret. rewrite H1, H2. by rewrite !app_nil_r. Qed.

(** Storing a plain byte, by state. *)
Definition rx_store (st : uartnet_rx_state) (b : Z) : uartM unit :=
  if bool_decide (st = UARTNET_STATE_LENGTH) then rx_store_length b else rx_store_data b.

Lemma rx_byte_plain b p :
  rx_state p = UARTNET_STATE_LENGTH \/ rx_state p = UARTNET_STATE_DATA -> b <> ESCAPE_CHAR ->
  rx_byte b p = (rx_store (rx_state p) b ;; ret 0%nat) p.
Proof.
  intros Hst Hb. unfold rx_byte, rx_store. cbn [rx_switch]. unfold gets.
  rewrite (bind_ok _ _ p (rx_state p) p [] eq_refl), (proj2 (Z.eqb_neq _ _) Hb).
  destruct Hst as [-> | ->]; apply result_eta.
Qed.

Lemma set_saved_state_id p : set_saved_state (saved_state p) p = p.
Proof. by destruct p. Qed.

(** The wire form of a byte other than the escape character stores that byte. *)
Lemma rx_escaped_byte b p :
  rx_state p = UARTNET_STATE_LENGTH \/ rx_state p = UARTNET_STATE_DATA -> b <> ESCAPE_CHAR ->
  exists sv, rx_run (escape_byte b) p = (rx_store (rx_state p) b ;; ret 0%nat) (set_saved_state sv p).
Proof.
  intros Hst Hb. unfold escape_byte. destruct (special b) eqn:Hs.
  - exists (rx_state p). set (q := set_rx_state UARTNET_STATE_ESCAPE (set_saved_state (rx_state p) p)).
    assert (rx_byte ESCAPE_CHAR p = Ok (0%nat, q, [])) as H1.
    { unfold rx_byte, q. cbn [rx_switch]. run_prog. by destruct Hst as [E|E]; rewrite E. }
    assert (rx_byte (Z.lxor b 0x20) q = rx_byte b (set_saved_state (rx_state p) p)) as H2.
    { unfold rx_byte at 1. rewrite rx_switch_escape, lxor_twice by done.
      replace (set_rx_state (saved_state q) q) with (set_saved_state (rx_state p) p) by by destruct p.
      unfold rx_byte. cbn [rx_switch]. run_prog.
      rewrite (proj2 (Z.eqb_neq _ _) Hb). by destruct Hst as [E|E]; rewrite E. }
    unfold rx_run. rewrite (bind_ok _ _ _ _ _ _ H1). unfold bind at 1 2. rewrite H2.
    rewrite rx_byte_plain by done.
    change (rx_state (set_saved_state (rx_state p) p)) with (rx_state p).
    unfold bind. destruct (rx_store _ b _) as [[[[] ?] ?]|]; [|done]. cbn. by rewrite !app_nil_r.
  - exists (saved_state p). simpl. rewrite set_saved_state_id. unfold bind at 1 2.
    rewrite rx_byte_plain by done. unfold bind.
    destruct (rx_store _ b _) as [[[[] ?] ?]|]; [|done]. cbn. by rewrite !app_nil_r.
Qed.

(** The receiver in the middle of the payload: [d] has been received. *)
Definition rx_mid (p : uartnet_priv) (sv st : uartnet_rx_state) (id : nat) (d : list Z) :=
  set_saved_state sv (set_rx_state st (set_rx_data_received (Z.of_nat (length d))
    (set_rx_skb (Some (mkSkb id (rx_frame_length p) d)) p))).

Lemma rx_data_byte p sv id d b :
  valid_length (rx_frame_length p) -> Z.of_nat (length d) < rx_frame_length p ->
  b <> ESCAPE_CHAR ->
  exists sv', rx_run (escape_byte b) (rx_mid p sv UARTNET_STATE_DATA id d) =
    Ok (0%nat, rx_mid p sv' (if Z.of_nat (length d) + 1 <? rx_frame_length p
                       then UARTNET_STATE_DATA else UARTNET_STATE_END) id (d ++ [b]), []).
Proof.
  intros [_ Hv] Hd Hb.
  destruct (rx_escaped_byte b (rx_mid p sv UARTNET_STATE_DATA id d)) as [sv' ->]; [by right|done|].
  exists sv'. unfold rx_store, rx_store_data, skb_put_u8. cbn. rewrite bool_decide_false by done.
  run_prog. rewrite (proj2 (Z.ltb_lt _ _)) by lia. unfold skb_len. cbn.
  rewrite (proj2 (Z.ltb_lt _ _)) by lia. cbn.
  rewrite wrap_small by (unfold UARTNET_MTU, ETH_HLEN in Hv; change (2 ^ 16) with 65536; lia).
  unfold rx_mid. cbn. rewrite length_app, Nat2Z.inj_add. cbn.
  destruct (Z.leb_spec (rx_frame_length p) (Z.of_nat (length d) + 1)), 
    (Z.ltb_spec (Z.of_nat (length d) + 1) (rx_frame_length p)); by lia || by destruct p.
Qed.

Lemma rx_data_list l p sv id d :
  valid_length (rx_frame_length p) -> Z.of_nat (length d) < rx_frame_length p ->
  Z.of_nat (length d + length l) <= rx_frame_length p -> ESCAPE_CHAR ∉ l ->
  exists sv', rx_run (escape l) (rx_mid p sv UARTNET_STATE_DATA id d) =
    Ok (0%nat, rx_mid p sv' (if Z.of_nat (length d + length l) <? rx_frame_length p
                       then UARTNET_STATE_DATA else UARTNET_STATE_END) id (d ++ l), []).
Proof.
  intros Hv. revert sv d. induction l as [|b l IH]; intros sv d Hd Hl Hesc.
  - exists sv. rewrite app_nil_r, Nat.add_0_r, (proj2 (Z.ltb_lt _ _)) by done. done.
  - apply not_elem_of_cons in Hesc as [Hb Hesc]. rewrite escape_cons. cbn [length] in *.
    destruct (rx_data_byte p sv id d b) as [sv1 H1]; [done|done|done|].
    assert (d ++ b :: l = (d ++ [b]) ++ l) as -> by by rewrite <- (assoc_L (++)).
    assert (Z.of_nat (length d) + 1 < rx_frame_length p \/ l = []) as [Hlt| ->].
    { destruct l; [by right|left; cbn [length] in *; lia]. }
    + rewrite (proj2 (Z.ltb_lt _ _) Hlt) in H1.
      destruct (IH sv1 (d ++ [b])) as [sv2 H2]; rewrite ?length_app; cbn [length]; try done; try lia.
      exists sv2. rewrite length_app in H2. cbn [length] in H2.
      replace (length d + S (length l))%nat with (length d + 1 + length l)%nat by lia.
      by rewrite (rx_run_app _ _ _ _ _ _ _ _ _ H1 H2).
    + exists sv1. change (escape []) with (@nil Z). rewrite !app_nil_r. cbn [length].
      by replace (Z.of_nat (length d + 1)) with (Z.of_nat (length d) + 1) by lia.
Qed.

(** The state after a frame's header. *)
Definition rx_headed (p : uartnet_priv) : uartnet_priv :=
  set_rx_skb None (set_rx_data_received 0 (set_rx_frame_length 0 (set_rx_length_index 0
    (set_rx_state UARTNET_STATE_LENGTH p)))).

Lemma rx_header p :
  rx_state p = UARTNET_STATE_IDLE -> rx_byte FRAME_HEADER p = Ok (0%nat, rx_headed p, []).
Proof. intros Hst. unfold rx_byte. cbn [rx_switch]. run_prog. by rewrite Hst. Qed.

Lemma rx_length_fields hi lo len p :
  length (rx_length_bytes p) = 2%nat -> storable hi -> storable lo ->
  len = Z.lor (Z.shiftl hi 8) lo -> valid_length len -> alloc_ok (skb_allocs p) = true ->
  exists p' sv,
    rx_run (escape [hi; lo]) (rx_headed p) =
      Ok (0%nat, rx_mid p' sv UARTNET_STATE_DATA (skb_allocs p) [],
          [EvAllocSkb (skb_allocs p) len]) /\
    rx_frame_length p' = len /\ stats p' = stats p /\ skb_allocs p' = S (skb_allocs p) /\
    tx_part p' = tx_part p /\ length (rx_length_bytes p') = 2%nat.
Proof.
  intros Hb [_ Hhi] [_ Hlo] Hlen Hv Hok.
  destruct (rx_length_bytes p) as [|c0 [|c1 [|]]] eqn:Hbytes; try done.
  destruct (rx_escaped_byte hi (rx_headed p)) as [sv1 H1]; [by left|done|].
  set (p1 := set_rx_length_index 1 (set_rx_length_bytes [hi; c1] (set_saved_state sv1 (rx_headed p)))).
  assert (rx_run (escape_byte hi) (rx_headed p) = Ok (0%nat, p1, [])) as H1'.
  { rewrite H1. unfold rx_store, rx_store_length. cbn. rewrite bool_decide_true by done.
    run_prog. rewrite Hbytes. cbn. change (wrap 8 (0 + 1)) with 1. done. }
  destruct (rx_escaped_byte lo p1) as [sv2 H2]; [by left|done|].
  eexists (set_skb_allocs (S (skb_allocs p)) (set_rx_frame_length len (set_rx_length_index 2
    (set_rx_length_bytes [hi; lo] p1)))), sv2.
  split; [|by destruct p].
  change (escape [hi; lo]) with (escape_byte hi ++ escape_byte lo ++ []). rewrite app_nil_r.
  change [EvAllocSkb (skb_allocs p) len] with ([] ++ [EvAllocSkb (skb_allocs p) len]).
  eapply (rx_run_app _ _ _ 0 _ [] 0 _ _ H1'). rewrite H2.
  unfold rx_store, rx_store_length, netdev_alloc_skb. cbn. rewrite bool_decide_true by done.
  run_prog. change (1 <? Z.of_nat 2) with true. change (wrap 8 (1 + 1)) with 2.
  change (<[Z.to_nat 1:=lo]> [hi; c1]) with [hi; lo]. cbn. rewrite <- Hlen.
  destruct Hv as [Hv1 Hv2]. rewrite wrap_small
    by (unfold UARTNET_MTU, ETH_HLEN in Hv2; change (2 ^ 16) with 65536; lia).
  rewrite (proj2 (Z.ltb_ge _ _)), (proj2 (Z.eqb_neq _ _)) by lia. cbn. rewrite Hok. cbn.
  by destruct p.
Qed.

(** The statistics once a buffer has been handed to the stack, which left [len]
    in its length field. *)
Definition count_rx (len : Z) (s : net_device_stats) : net_device_stats :=
  set_rx_bytes (add64 (rx_bytes s) len) (set_rx_packets (incr64 (rx_packets s)) s).

(** The footer of a whole frame: it depends on what the stack does with it. *)
Lemma rx_footer p sv id d :
  Z.of_nat (length d) = rx_frame_length p ->
  let skb := mkSkb id (rx_frame_length p) d in
  match len_after_handoff (eth_type_trans skb).1 with
  | Some len => exists es,
      rx_byte FRAME_FOOTER (rx_mid p sv UARTNET_STATE_END id d) =
        Ok (1%nat, set_rx_state UARTNET_STATE_IDLE (set_rx_skb None
              (set_stats (count_rx len (stats p)) (rx_mid p sv UARTNET_STATE_END id d))), es) /\
      delivered es = [eth_type_trans skb]
  | None => rx_byte FRAME_FOOTER (rx_mid p sv UARTNET_STATE_END id d) = Stop UseAfterFree
  end.
Proof.
  intros Hd. unfold rx_byte. cbn [rx_switch]. unfold rx_finish, upd_stats. run_prog.
  unfold skb_len. cbn. rewrite (proj2 (Z.eqb_eq _ _) Hd).
  destruct (eth_type_trans _) as [skb' proto]. cbn. destruct (len_after_handoff skb'); cbn; [|done].
  by eexists.
Qed.

(** What one good frame makes of an idle receiver. *)
Definition rx_frame_done (p p' : uartnet_priv) (data : list Z) (len : Z) (es : list uart_event)
    : Prop :=
  let skb := mkSkb (skb_allocs p) (Z.of_nat (length data)) data in
  rx_state p' = UARTNET_STATE_IDLE /\ rx_skb p' = None /\ length (rx_length_bytes p') = 2%nat /\
  skb_allocs p' = S (skb_allocs p) /\ delivered es = [eth_type_trans skb] /\
  stats p' = count_rx len (stats p) /\ tx_part p' = tx_part p.

(** A payload the link carries: bytes other than the escape character, and a
    length that does not need one either. *)
Definition transmissible (data : list Z) : Prop :=
  Forall storable data /\ storable_length (Z.of_nat (length data)).

Lemma storable_length_field len :
  storable_length len ->
  exists hi lo, length_field len = [hi; lo] /\ storable hi /\ storable lo /\
    len = Z.lor (Z.shiftl hi 8) lo.
Proof.
  intros [[H1 H2] H3]. unfold UARTNET_MTU, ETH_HLEN in H2.
  destruct (length_field_value len) as (hi & lo & Hf & Hhi & Hlo & Hlen);
    [change (2 ^ 16) with 65536; lia|].
  exists hi, lo. split; [done|].
  split; [split; [done|]|split; [split; [done|]|done]]; intros ->; rewrite lor_shiftl_8 in Hlen by done;
    unfold is_u8, ESCAPE_CHAR in *; lia.
Qed.

Lemma storable_no_escape l : Forall storable l -> ESCAPE_CHAR ∉ l.
Proof. rewrite Forall_forall. intros Hf Hin. by destruct (Hf _ Hin). Qed.

(** A frame but for its footer. *)
Definition frame_body (data : list Z) : list Z :=
  FRAME_HEADER :: escape (length_field (Z.of_nat (length data))) ++ escape data.

Lemma frame_bytes_body data : frame_bytes data = frame_body data ++ [FRAME_FOOTER].
Proof. unfold frame_bytes, frame_body. cbn. by rewrite <- (assoc_L (++)). Qed.

Lemma rx_frame_body p data :
  rx_state p = UARTNET_STATE_IDLE -> length (rx_length_bytes p) = 2%nat ->
  alloc_ok (skb_allocs p) = true -> transmissible data ->
  exists p' sv es,
    rx_run (frame_body data) p =
      Ok (0%nat, rx_mid p' sv UARTNET_STATE_END (skb_allocs p) data, es) /\ delivered es = [] /\
    rx_frame_length p' = Z.of_nat (length data) /\ stats p' = stats p /\
    skb_allocs p' = S (skb_allocs p) /\ tx_part p' = tx_part p /\
    length (rx_length_bytes p') = 2%nat.
Proof.
  intros Hst Hb Hok [Hdata Hlen].
  destruct (storable_length_field _ Hlen) as (hi & lo & Hf & Hhi & Hlo & Hl).
  destruct (rx_length_fields hi lo _ p Hb Hhi Hlo Hl (proj1 Hlen) Hok)
    as (p1 & sv1 & H1 & Hfl & Hs1 & Ha1 & Ht1 & Hb1).
  pose proof (proj1 Hlen) as [Hv1 Hv2].
  destruct (rx_data_list data p1 sv1 (skb_allocs p) []) as [sv2 H2]; cbn [length];
    [by rewrite Hfl; apply Hlen|rewrite Hfl; lia|rewrite Hfl; lia|by apply storable_no_escape|].
  cbn [length Nat.add] in H2. rewrite Hfl, Z.ltb_irrefl in H2. cbn [app] in H2.
  pose proof (rx_run_app _ _ _ _ _ _ _ _ _ H1 H2) as H3.
  pose proof (rx_run_cons _ _ _ _ _ _ _ _ _ (rx_header p Hst) H3) as H4.
  exists p1, sv2. eexists. split; [unfold frame_body; rewrite Hf; exact H4|]. done.
Qed.

Lemma rx_frame p data :
  rx_state p = UARTNET_STATE_IDLE -> length (rx_length_bytes p) = 2%nat ->
  alloc_ok (skb_allocs p) = true -> transmissible data ->
  match len_after_handoff
          (eth_type_trans (mkSkb (skb_allocs p) (Z.of_nat (length data)) data)).1 with
  | Some len => exists p' es,
      rx_run (frame_bytes data) p = Ok (1%nat, p', es) /\ rx_frame_done p p' data len es
  | None => exists p' es,
      rx_run (frame_body data) p = Ok (0%nat, p', es) /\ rx_byte FRAME_FOOTER p' = Stop UseAfterFree
  end.
Proof.
  intros Hst Hb Hok Hdata.
  destruct (rx_frame_body p data Hst Hb Hok Hdata)
    as (p1 & sv & e1 & H1 & Hd1 & Hfl & Hs1 & Ha1 & Ht1 & Hb1).
  pose proof (rx_footer p1 sv (skb_allocs p) data (eq_sym Hfl)) as H2. cbv zeta in H2.
  rewrite Hfl in H2. destruct (len_after_handoff _) as [len|]; [|by eexists _, _].
  destruct H2 as (e2 & H2 & Hd2). eexists _, _. split.
  - rewrite frame_bytes_body.
    exact (rx_run_app _ _ _ _ _ _ _ _ _ H1 (rx_run_cons _ [] _ _ _ _ 0 _ [] H2 eq_refl)).
  - unfold rx_frame_done. rewrite !delivered_app, Hd1, Hd2.
    destruct p1; cbn in *; subst. by split_and!.
Qed.

(** The buffers handed to the stack for a sequence of frames, the first of them
    allocated as number [n]. *)
Fixpoint deliveries (n : nat) (frames : list (list Z)) : list (sk_buff * Z) :=
  match frames with
  | [] => []
  | d :: r => eth_type_trans (mkSkb n (Z.of_nat (length d)) d) :: deliveries (S n) r
  end.

Definition frames_bytes (frames : list (list Z)) : list Z := frames ≫= frame_bytes.

(** Below the budget, the loop of the poll first runs a stream whole. *)
Lemma rx_loop_app budget l fifo w p n p' es :
  Forall is_u8 l -> rx_run l p = Ok (n, p', es) -> (w + n < budget)%nat ->
  rx_loop budget w (l ++ fifo) p =
    match rx_loop budget (w + n) fifo p' with
    | Ok (r, q, e2) => Ok (r, q, es ++ e2)
    | Stop f => Stop f
    end.
Proof.
  intros Hf. revert w p n es. induction Hf as [|b r Hb _ IH]; intros w p n es Hrun Hn; simpl in Hrun.
  - injection Hrun as <- <- <-. rewrite Nat.add_0_r. symmetry. apply result_eta.
  - unfold bind, ret in Hrun. cbn [app rx_loop]. rewrite (proj2 (Nat.ltb_lt _ _)) by lia.
    rewrite u8_land_ff by done.
    destruct (rx_byte b p) as [[[k p1] e1]|] eqn:E1; [|done].
    destruct (rx_run r p1) as [[[m p2] e2]|] eqn:E2; [|done].
    injection Hrun as <- <- <-. rewrite (bind_ok _ _ _ _ _ _ E1), (IH _ _ _ _ E2) by lia.
    rewrite Nat.add_assoc. destruct (rx_loop budget _ fifo p2) as [[[? ?] ?]|]; [|done].
    by rewrite app_nil_r, (assoc_L (++)).
Qed.

Lemma rx_loop_nil budget w p : rx_loop budget w [] p = Ok ((w, []), p, []).
Proof. simpl. by destruct (w <? budget)%nat. Qed.

Lemma rx_loop_run budget fifo w p n p' es :
  Forall is_u8 fifo -> rx_run fifo p = Ok (n, p', es) -> (w + n < budget)%nat ->
  rx_loop budget w fifo p = Ok (((w + n)%nat, []), p', es).
Proof.
  intros Hf Hrun Hn. pose proof (rx_loop_app _ _ [] _ _ _ _ _ Hf Hrun Hn) as H1.
  by rewrite rx_loop_nil, !app_nil_r in H1.
Qed.

Lemma storable_length_u8 data : transmissible data -> Forall is_u8 (frame_bytes data).
Proof.
  intros [Hd Hl]. unfold frame_bytes.
  destruct (storable_length_field _ Hl) as (hi & lo & -> & [Hhi _] & [Hlo _] & _).
  apply Forall_cons. split; [done|]. apply Forall_app. split; [|apply Forall_app; split].
  - apply escape_u8. by apply Forall_cons; split; [|apply Forall_singleton].
  - apply escape_u8. eapply Forall_impl; [exact Hd|]. by intros b [? _].
  - by apply Forall_singleton.
Qed.

Lemma frames_bytes_u8 frames : Forall transmissible frames -> Forall is_u8 (frames_bytes frames).
Proof.
  induction 1 as [|d r Hd _ IH]; [constructor|].
  apply Forall_app. split; [by apply storable_length_u8|done].
Qed.

Lemma frame_body_u8 data : transmissible data -> Forall is_u8 (frame_body data).
Proof.
  intros Hd%storable_length_u8. rewrite frame_bytes_body in Hd. by apply Forall_app in Hd as [? _].
Qed.

(** The loop of the poll over the frames of a list and anything after them. *)
Lemma rx_loop_freed budget w p data rest :
  (w < budget)%nat -> transmissible data ->
  (exists p' es, rx_run (frame_body data) p = Ok (0%nat, p', es) /\
     rx_byte FRAME_FOOTER p' = Stop UseAfterFree) ->
  rx_loop budget w (frame_bytes data ++ rest) p = Stop UseAfterFree.
Proof.
  intros Hw Hd (p' & es & H1 & H2). rewrite frame_bytes_body, <- (assoc_L (++)).
  rewrite (rx_loop_app _ _ _ _ _ _ _ _ (frame_body_u8 _ Hd) H1) by lia.
  rewrite Nat.add_0_r. cbn [app rx_loop]. rewrite (proj2 (Nat.ltb_lt _ _)) by done.
  unfold bind. change (Z.land FRAME_FOOTER 0xFF) with FRAME_FOOTER. by rewrite H2.
Qed.

Lemma rx_frames frames budget w p :
  rx_state p = UARTNET_STATE_IDLE -> length (rx_length_bytes p) = 2%nat ->
  (forall n, alloc_ok n = true) -> Forall transmissible frames ->
  (w + length frames < budget)%nat ->
  if decide (Forall kept (deliveries (skb_allocs p) frames)) then
    exists p' es, rx_loop budget w (frames_bytes frames) p = Ok ((w + length frames, [])%nat, p', es) /\
      rx_state p' = UARTNET_STATE_IDLE /\ delivered es = deliveries (skb_allocs p) frames
  else rx_loop budget w (frames_bytes frames) p = Stop UseAfterFree.
Proof.
  intros Hst Hb Hok Hf. revert w p Hst Hb. induction Hf as [|d r Hd _ IH]; intros w p Hst Hb Hw.
  - rewrite decide_True by constructor. exists p, []. cbn [frames_bytes mbind list_bind length].
    by rewrite rx_loop_nil, Nat.add_0_r.
  - cbn [length deliveries] in *. change (frames_bytes (d :: r)) with (frame_bytes d ++ frames_bytes r).
    pose proof (rx_frame p d Hst Hb (Hok _) Hd) as Hfr.
    destruct (len_after_handoff _) as [len|] eqn:Hk.
    + destruct Hfr as (p1 & e1 & H1 & Hs1 & _ & Hb1 & Ha1 & Hd1 & _).
      specialize (IH (w + 1)%nat p1 Hs1 Hb1 ltac:(lia)). rewrite Ha1 in IH.
      rewrite (rx_loop_app _ _ _ _ _ _ _ _ (storable_length_u8 _ Hd) H1) by lia.
      case_decide as Hall.
      * rewrite decide_True by (constructor; [by exists len|done]).
        destruct IH as (p2 & e2 & -> & Hs2 & Hd2). eexists _, _. split; [|split; [exact Hs2|]].
        -- by replace (w + S (length r))%nat with (w + 1 + length r)%nat by lia.
        -- by rewrite delivered_app, Hd1, Hd2.
      * rewrite decide_False by (by intros [_ ?]%Forall_cons). by rewrite IH.
    + rewrite decide_False.
      * apply rx_loop_freed; [lia|done|exact Hfr].
      * intros [Hd' _]%Forall_cons. unfold kept in Hd'. rewrite Hk in Hd'. by destruct Hd'.
Qed.

(** ** The main properties *)

(** C2: what a poll can do, and the one way it can fail.  From a well-formed
    receiver, whatever words the FIFO holds and whatever the allocator answers,
    the poll either returns or stops by reading the length of a buffer the
    network stack has freed after it was handed over (uart_net.c:337), which
    needs a frame the receiver found good; no NULL dereference, access out of
    [rx_length_bytes], full buffer or endless restart is possible.  If it
    returns, the stack still had every buffer it was given, the state is well
    formed, the result is the number of frames delivered, at most the budget;
    below the budget the FIFO is empty, NAPI completed once and both receive
    interrupts enabled, and at the budget none of that is done. *)
Theorem rx_poll_safe p budget fifo :
  rx_wf p ->
  wpf freed_by_stack (uartnet_poll budget fifo) p (fun r p' es =>
    Forall kept (delivered es) /\
    rx_wf p' /\ r.1 = length (delivered es) /\ (r.1 <= budget)%nat /\
    (exists used, fifo = used ++ r.2) /\ rx_over_errors (stats p') = rx_over_errors (stats p) /\
    if (r.1 <? budget)%nat then
      r.2 = [] /\ napi_done es = [r.1] /\
      Z.land (hw_imsc p') (Z.lor UART011_RTIM UART011_RXIM) = Z.lor UART011_RTIM UART011_RXIM
    else napi_done es = [] /\ hw_imsc p' = hw_imsc p).
Proof.
  intros Hwf. unfold uartnet_poll. apply wpf_bind.
  eapply wpf_mono; [apply rx_loop_effect; [done|lia]|].
  intros [w rest] p1 e1 (n & Hn & Hle & Hrest & Hused & Heff). cbn in *. subst w.
  destruct Heff as (Hwf1 & _ & _ & Hk & Hd & Htx & Ho & Hc & _).
  unfold readl_imsc. run_prog. destruct (n <? budget)%nat eqn:Hlt; cbn; rewrite Hlt.
  - rewrite delivered_app, napi_done_app, app_nil_r, Hd, Hc.
    split_and!; try done; [apply Hrest, Nat.ltb_lt, Hlt|].
    rewrite <- Z.lor_assoc. by apply wrap_set_bits.
  - rewrite app_nil_r. split_and!; try done. by injection Htx.
Qed.

(** C6: no buffer is leaked or released twice.  Over a poll, the buffers the
    receiver held before it or allocated during it are, one for one, those it
    freed or handed to the stack and the one it still holds; every allocation
    has a number of its own.  (The poll returns unless the stack has freed a
    buffer it was handed.) *)
Theorem rx_poll_buffers p budget fifo :
  rx_wf p ->
  wpf freed_by_stack (uartnet_poll budget fifo) p (fun r p' es =>
    rx_held p ++ skb_allocated es ≡ₚ skb_released es ++ rx_held p' /\
    NoDup (skb_allocated es) /\
    Forall (fun id => skb_allocs p <= id < skb_allocs p')%nat (skb_allocated es)).
Proof.
  intros Hwf. unfold uartnet_poll. apply wpf_bind.
  eapply wpf_mono; [apply rx_loop_effect; [done|lia]|].
  intros [w rest] p1 e1 (n & _ & _ & _ & _ & Heff).
  destruct Heff as (_ & Ha & _ & _ & _ & _ & _ & _ & Hdup & _ & Hall).
  unfold readl_imsc. run_prog. destruct (w <? budget)%nat; cbn;
    rewrite skb_allocated_app, skb_released_app, !app_nil_r; done.
Qed.

(** C9: what the receiver can ever deliver.  For any stream of bytes, a buffer
    handed to the network stack has a valid length, holds no escape character
    in its payload, and is not 90 bytes long: since [goto restart] runs the
    escape test again on the decoded byte, [0x5A] cannot be received.  (The
    stream is processed whole unless the stack has freed a buffer it was
    handed.) *)
Theorem rx_delivers_only_storable p bytes :
  rx_wf p -> Forall is_u8 bytes ->
  wpf freed_by_stack (rx_run bytes) p (fun _ _ es =>
    Forall (fun d => exists skb, d = eth_type_trans skb /\ valid_length (skb_len skb) /\
              skb_len skb <> 90 /\ ESCAPE_CHAR ∉ skb_data skb) (delivered es)).
Proof.
  intros Hwf Hb. eapply wpf_mono; [by apply rx_run_effect|].
  intros n p' es (_ & _ & Hg & _). eapply Forall_impl; [exact Hg|].
  intros d (skb & -> & [Hv Hne] & Hall). exists skb. split_and!; try done.
  by apply storable_no_escape.
Qed.

(** C5: round trip of the frames the link carries: payloads without the escape
    character [0x5A], of a valid length other than 90.  If every allocation
    succeeds, a poll of an idle receiver over the wire format of a list of such
    frames shorter than its budget delivers exactly those frames, in order,
    each in a buffer of its own, and ends idle; if the stack frees one of these
    buffers before the driver reads its length again, it stops with a use
    after free. *)
Theorem rx_roundtrip p budget frames :
  rx_state p = UARTNET_STATE_IDLE -> length (rx_length_bytes p) = 2%nat ->
  (forall n, alloc_ok n = true) -> Forall transmissible frames ->
  (length frames < budget)%nat ->
  if decide (Forall kept (deliveries (skb_allocs p) frames)) then
    wp (uartnet_poll budget (frames_bytes frames)) p (fun r p' es =>
      r = (length frames, []) /\ rx_state p' = UARTNET_STATE_IDLE /\
      delivered es = deliveries (skb_allocs p) frames)
  else uartnet_poll budget (frames_bytes frames) p = Stop UseAfterFree.
Proof.
  intros Hst Hb Hok Hf Hlt.
  pose proof (rx_frames frames budget 0 p Hst Hb Hok Hf Hlt) as Hrun.
  unfold uartnet_poll. case_decide.
  - destruct Hrun as (p1 & e1 & Hrun & Hst1 & Hd).
    unfold wp. rewrite (bind_ok _ _ _ _ _ _ Hrun). unfold readl_imsc. run_prog.
    rewrite (proj2 (Nat.ltb_lt _ _)) by done. cbn.
    rewrite delivered_app, Hd. cbn. rewrite app_nil_r. by destruct p1.
  - unfold bind. by rewrite Hrun.
Qed.
End lemmas.

(** ** Witnesses *)

(** A stack that leaves the length without the Ethernet header, and one that
    has freed what it was handed. *)
#[export] Instance kernel_example : NetKernel := {|
  alloc_ok _ := true;
  eth_type_trans skb := (skb, 0x800);
  len_after_handoff skb := Some (skb_len skb - ETH_HLEN);
  eth_type_trans_id _ := eq_refl;
|}.

Definition kernel_freeing : NetKernel := {|
  alloc_ok _ := true;
  eth_type_trans skb := (skb, 0x800);
  len_after_handoff _ := None;
  eth_type_trans_id _ := eq_refl;
|}.

Lemma priv_zero_wf : rx_wf priv_zero.
Proof. done. Defined.

(** Noise, a frame with an escaped byte, and a bad length. *)
Definition fifo_example : list Z :=
  [0x7F; 0xAA; 0x00; 0x03; 0x01; 0x5A; 0x8A; 0x02; 0x55; 0xAA; 0xFF; 0xFF; 0x00].

Lemma fifo_example_runs : exists r p' es, uartnet_poll 64 fifo_example priv_zero = Ok (r, p', es).
Proof. vm_compute. eexists _, _, _. reflexivity. Qed.

Lemma fifo_example_stops :
  uartnet_poll (H:=kernel_freeing) 64 fifo_example priv_zero = Stop UseAfterFree.
Proof. vm_compute. reflexivity. Qed.

(** The poll of the example returns with the first stack, and stops with the
    second one. *)
Lemma rx_poll_safe_witness :
  (exists r p' es, uartnet_poll 64 fifo_example priv_zero = Ok (r, p', es) /\
     Forall kept (delivered es) /\ rx_wf p' /\ r.1 = length (delivered es)) /\
  uartnet_poll (H:=kernel_freeing) 64 fifo_example priv_zero = Stop UseAfterFree /\
  freed_by_stack (H:=kernel_freeing) UseAfterFree.
Proof.
  destruct fifo_example_runs as (r & p' & es & E).
  destruct (wpf_ok _ _ _ _ _ _ _ (rx_poll_safe priv_zero 64 fifo_example priv_zero_wf) E)
    as (Hk & Hw & Hn & _).
  exact (conj (ex_intro _ r (ex_intro _ p' (ex_intro _ es (conj E (conj Hk (conj Hw Hn))))))
    (conj fifo_example_stops (wpf_stop _ _ _ _ _
      (rx_poll_safe (H:=kernel_freeing) priv_zero 64 fifo_example priv_zero_wf)
      fifo_example_stops))).
Defined.

Lemma rx_poll_buffers_witness :
  wpf freed_by_stack (uartnet_poll 64 fifo_example) priv_zero (fun r p' es =>
    rx_held priv_zero ++ skb_allocated es ≡ₚ skb_released es ++ rx_held p' /\
    NoDup (skb_allocated es) /\
    Forall (fun id => skb_allocs priv_zero <= id < skb_allocs p')%nat (skb_allocated es)).
Proof. apply (rx_poll_buffers priv_zero 64 fifo_example). exact priv_zero_wf. Defined.

Lemma rx_delivers_only_storable_witness :
  Forall is_u8 fifo_example /\
  wpf freed_by_stack (rx_run fifo_example) priv_zero (fun _ _ es =>
    Forall (fun d => exists skb, d = eth_type_trans skb /\ valid_length (skb_len skb) /\
              skb_len skb <> 90 /\ ESCAPE_CHAR ∉ skb_data skb) (delivered es)).
Proof.
  assert (Forall is_u8 fifo_example) as Hb by (apply (bool_decide_unpack _); vm_compute; exact I).
  split; [exact Hb|]. apply (rx_delivers_only_storable priv_zero fifo_example priv_zero_wf Hb).
Defined.

Lemma frames_example_ok : Forall transmissible [[1; 0xAA; 2]; [0x55]].
Proof.
  unfold transmissible, storable, storable_length. apply (bool_decide_unpack _). vm_compute. exact I.
Qed.

(** The same two frames, with either stack. *)
Lemma rx_roundtrip_witness :
  wp (uartnet_poll 64 (frames_bytes [[1; 0xAA; 2]; [0x55]])) priv_zero (fun r p' es =>
    r = (2%nat, []) /\ rx_state p' = UARTNET_STATE_IDLE /\
    delivered es = deliveries 0 [[1; 0xAA; 2]; [0x55]]) /\
  uartnet_poll (H:=kernel_freeing) 64 (frames_bytes [[1; 0xAA; 2]; [0x55]]) priv_zero =
    Stop UseAfterFree.
Proof.
  pose proof (rx_roundtrip priv_zero 64 [[1; 0xAA; 2]; [0x55]] eq_refl eq_refl (fun _ => eq_refl)
    frames_example_ok ltac:(cbn; lia)) as H1.
  pose proof (rx_roundtrip (H:=kernel_freeing) priv_zero 64 [[1; 0xAA; 2]; [0x55]] eq_refl eq_refl
    (fun _ => eq_refl) frames_example_ok ltac:(cbn; lia)) as H2.
  rewrite decide_True in H1 by (repeat constructor; by eexists).
  rewrite decide_False in H2 by (intros [[? [=]] _]%Forall_cons).
  split; [exact H1|exact H2].
Defined.
