(* ===== verification/UartDriver.v ===== *)
(** * The UART network driver as a whole: interrupt, open, stop and their
    interleaving with transmission and reception

    [uartnet_interrupt], [uartnet_open] and [uartnet_stop], then a step
    relation whose steps are the driver's entry points in any order the kernel
    may call them, and the link of a transmitter to a receiver. *)

From S2P Require Import Prelude UartFrame UartState UartTx UartRx.

Definition RX_IRQS : Z := Z.lor UART011_RTIS UART011_RXIS.
Definition IRQ_HANDLED : Z := 1.

(** ** Operations *)

(** [uartnet_interrupt]; [mis] is what the masked interrupt status reads as. *)
Definition uartnet_interrupt (mis : Z) : uartM Z :=
  let rx := negb (Z.land mis RX_IRQS =? 0) in
  when rx
    (modify (fun p => set_rx_intr (wrap 32 (rx_intr p + 1)) p) ;;
     writel RX_IRQS UART011_ICR ;;
     imsc <- readl_imsc ;;
     writel (clear_bits imsc (Z.lor UART011_RTIM UART011_RXIM)) UART011_IMSC ;;
     emit EvNapiSchedule) ;;
  let status := if rx then clear_bits mis RX_IRQS else mis in
  let tx := negb (Z.land status UART011_TXIS =? 0) in
  when tx
    (modify (fun p => set_tx_intr (wrap 32 (tx_intr p + 1)) p) ;;
     writel UART011_TXIS UART011_ICR ;;
     st <- gets tx_state ;;
     when (negb (bool_decide (st = TX_STATE_IDLE))) (emit EvQueueWork)) ;;
  let status := if tx then clear_bits status UART011_TXIS else status in
  when (negb (status =? 0)) (writel status UART011_ICR) ;;
  ret IRQ_HANDLED.

(** [if (priv->tx_skb) { dev_kfree_skb(priv->tx_skb); priv->tx_skb = NULL; }] *)
Definition drop_tx_skb : uartM unit :=
  tx <- gets tx_skb ;;
  match tx with
  | Some skb => emit (EvKfreeSkb (skb_id skb)) ;; modify (set_tx_skb None)
  | None => ret tt
  end.

Definition drop_rx_skb : uartM unit :=
  rx <- gets rx_skb ;;
  match rx with
  | Some skb => emit (EvKfreeSkb (skb_id skb)) ;; modify (set_rx_skb None)
  | None => ret tt
  end.

(** [uartnet_open]; [irq_err] is the result of [devm_request_irq]. *)
Definition uartnet_open (irq_err : Z) : uartM Z :=
  modify (set_rx_state UARTNET_STATE_IDLE) ;;
  modify (set_rx_skb None) ;;
  emit (EvLock LockTx) ;;
  modify (set_tx_state TX_STATE_IDLE) ;;
  drop_tx_skb ;;
  emit (EvUnlock LockTx) ;;
  emit EvRequestIrq ;;
  if negb (irq_err =? 0) then ret irq_err
  else
    writel (Z.lor (Z.lor UART01x_CR_UARTEN UART011_CR_TXE) UART011_CR_RXE) UART011_CR ;;
    writel (Z.lor UART011_RTIM UART011_RXIM) UART011_IMSC ;;
    emit EvNapiEnable ;;
    emit EvStartQueue ;;
    ret 0.

Definition uartnet_stop : uartM Z :=
  emit EvStopQueue ;;
  emit EvNapiDisable ;;
  writel 0 UART011_IMSC ;;
  writel 0 UART011_CR ;;
  drop_rx_skb ;;
  modify (set_rx_state UARTNET_STATE_IDLE) ;;
  emit (EvLock LockTx) ;;
  drop_tx_skb ;;
  modify (set_tx_state TX_STATE_IDLE) ;;
  emit (EvUnlock LockTx) ;;
  emit EvCancelWorkSync ;;
  emit EvFlushWorkqueue ;;
  ret 0.

(** ** The driver and the kernel around it *)

(** [sys_napi]: NAPI is scheduled, so the poll will run; [sys_running]: the
    device is open. *)
Record uart_sys : Type := mkSys {
  sys_priv : uartnet_priv;
  sys_napi : bool;
  sys_running : bool;
}.

(** NAPI is scheduled by the interrupt and ends with [napi_complete_done]. *)
Definition napi_event (b : bool) (e : uart_event) : bool :=
  match e with
  | EvNapiSchedule => true
  | EvNapiCompleteDone _ => false
  | _ => b
  end.

Definition napi_after (b : bool) (es : list uart_event) : bool := foldl napi_event b es.

(** The values written to the interrupt clear register. *)
Definition icr_writes (es : list uart_event) : list Z :=
  es ≫= (fun e => match e with EvWritel UART011_ICR v => [v] | _ => [] end).

Definition tx_held (p : uartnet_priv) : list nat :=
  match tx_skb p with Some skb => [skb_id skb] | None => [] end.

Section system.
Context `{NetKernel}.

(** One call of an entry point; [given]: the buffers it is handed.  The status
    an interrupt reads is masked by the mask register; the poll runs only when
    scheduled; the device is stopped only when open, after the poll has ended
    ([napi_disable] waits for it); the work item is seen when it has left its
    loop, since until then it holds its lock with interrupts off. *)
Inductive uart_step : uart_sys -> list nat -> list uart_event -> uart_sys -> Prop :=
| step_xmit p napi run present skb p' es :
    1 <= skb_len skb < 2 ^ 16 ->
    uartnet_start_xmit run present skb p = Ok (tt, p', es) ->
    uart_step (mkSys p napi run) [skb_id skb] es (mkSys p' (napi_after napi es) run)
| step_task p napi run frs p' es :
    uartnet_tx_task frs p = Ok (true, p', es) ->
    uart_step (mkSys p napi run) [] es (mkSys p' (napi_after napi es) run)
| step_irq p napi run mis p' es :
    Z.land mis (hw_imsc p) = mis ->
    uartnet_interrupt mis p = Ok (IRQ_HANDLED, p', es) ->
    uart_step (mkSys p napi run) [] es (mkSys p' (napi_after napi es) run)
| step_poll p budget fifo r p' es :
    uartnet_poll budget fifo p = Ok (r, p', es) ->
    uart_step (mkSys p true true) [] es (mkSys p' (napi_after true es) true)
| step_open p napi irq_err err p' es :
    uartnet_open irq_err p = Ok (err, p', es) ->
    uart_step (mkSys p napi false) [] es (mkSys p' (napi_after napi es) (err =? 0))
| step_stop p p' es :
    uartnet_stop p = Ok (0, p', es) ->
    uart_step (mkSys p false true) [] es (mkSys p' (napi_after false es) false).

(** A run of the driver: the buffers it was handed, all it did. *)
Inductive uart_run : uart_sys -> list nat -> list uart_event -> uart_sys -> Prop :=
| run_nil s : uart_run s [] [] s
| run_cons s1 g1 e1 s2 g2 e2 s3 :
    uart_step s1 g1 e1 s2 -> uart_run s2 g2 e2 s3 -> uart_run s1 (g1 ++ g2) (e1 ++ e2) s3.
End system.

(** The two interrupt sources cannot be lost: while the device is open, a frame
    being sent has its interrupt enabled, and either both receive interrupts
    are enabled or the poll is scheduled; closed, every source is masked and
    nothing is held. *)
Definition irq_inv (s : uart_sys) : Prop :=
  if sys_running s then
    (tx_state (sys_priv s) <> TX_STATE_IDLE -> has_bits (hw_imsc (sys_priv s)) UART011_TXIM) /\
    (has_bits (hw_imsc (sys_priv s)) (Z.lor UART011_RTIM UART011_RXIM) \/ sys_napi s = true)
  else
    hw_imsc (sys_priv s) = 0 /\ sys_napi s = false /\
    tx_state (sys_priv s) = TX_STATE_IDLE /\ rx_skb (sys_priv s) = None.

Definition uart_inv (s : uart_sys) : Prop :=
  tx_wf (sys_priv s) /\ rx_wf (sys_priv s) /\ irq_inv s.

Definition held (s : uart_sys) : list nat := tx_held (sys_priv s) ++ rx_held (sys_priv s).

(** ** Lemmas *)

Lemma icr_writes_app es1 es2 : icr_writes (es1 ++ es2) = icr_writes es1 ++ icr_writes es2.
Proof. apply bind_app. Qed.

Lemma uartnet_interrupt_effect p mis :
  let rx := negb (Z.land mis RX_IRQS =? 0) in
  let tx := negb (Z.land mis UART011_TXIS =? 0) in
  exists p' es,
    uartnet_interrupt mis p = Ok (IRQ_HANDLED, p', es) /\
    p' = set_tx_intr (if tx then wrap 32 (tx_intr p + 1) else tx_intr p)
           (set_rx_intr (if rx then wrap 32 (rx_intr p + 1) else rx_intr p)
             (set_hw_imsc (if rx then wrap 32 (clear_bits (hw_imsc p)
                                        (Z.lor UART011_RTIM UART011_RXIM)) else hw_imsc p) p)) /\
    kernel_calls es = (if rx then [EvNapiSchedule] else []) ++
      (if tx && negb (bool_decide (tx_state p = TX_STATE_IDLE)) then [EvQueueWork] else []) /\
    dr_writes es = [] /\
    foldr Z.lor 0 (icr_writes es) = if rx then Z.lor mis RX_IRQS else mis.
Proof.
  intros rx tx.
  assert (negb (Z.land (if rx then clear_bits mis RX_IRQS else mis) UART011_TXIS =? 0) = tx) as Htx.
  { destruct rx; [|done]. by rewrite land_clear_bits. }
  assert (forall x, (tx = true -> has_bits x UART011_TXIS) ->
    Z.lor (if tx then UART011_TXIS else 0) (if tx then clear_bits x UART011_TXIS else x) = x) as Hor.
  { intros x Hx. destruct tx; [|done]. rewrite lor_clear_bits. by apply has_bits_lor, Hx. }
  specialize (Hor (if rx then clear_bits mis RX_IRQS else mis)).
  assert (tx = true -> has_bits (if rx then clear_bits mis RX_IRQS else mis) UART011_TXIS) as Hb.
  { intros ->. apply (has_bit _ 5); [done|]. apply negb_true_iff, Z.eqb_neq in Htx. exact Htx. }
  specialize (Hor Hb). clear Hb.
  unfold uartnet_interrupt. fold rx. cbv zeta. rewrite Htx.
  set (rest := if tx then clear_bits _ _ else _) in *.
  unfold readl_imsc. destruct rx, tx; run_prog;
    destruct (Z.eqb_spec rest 0) as [Hr|Hr], (bool_decide (tx_state p = TX_STATE_IDLE)); cbn;
    (eexists _, _; split; [done|]; split; [by destruct p|]; split; [done|]; split; [done|]); cbn;
    rewrite ?Hr, ?Z.lor_0_r, ?Z.lor_0_l in *; rewrite ?Hor; try done.
  all: rewrite <- (lor_clear_bits RX_IRQS mis); rewrite <- ?Hor, ?Z.lor_0_l, ?Z.lor_0_r; done.
Qed.

Lemma skb_released_calls es : skb_released (kernel_calls es) = skb_released es.
Proof. induction es as [|e es IH]; [done|]. destruct e; try exact IH; exact (f_equal (cons _) IH). Qed.
Lemma skb_allocated_calls es : skb_allocated (kernel_calls es) = skb_allocated es.
Proof. induction es as [|e es IH]; [done|]. destruct e; try exact IH; exact (f_equal (cons _) IH). Qed.
Lemma napi_after_calls b es : napi_after b (kernel_calls es) = napi_after b es.
Proof. revert b. induction es as [|e es IH]; intros b; [done|]. destruct e; cbn; apply IH. Qed.

(** The invariants of one half do not depend on the other half's fields. *)
Lemma rx_wf_part p p' : rx_part p' = rx_part p -> rx_wf p -> rx_wf p'.
Proof. destruct p, p'. intros [= -> -> -> -> -> -> -> ->]. done. Qed.
Lemma rx_held_part p p' : rx_part p' = rx_part p -> rx_held p' = rx_held p.
Proof. destruct p, p'. by intros [= -> -> -> -> -> -> -> ->]. Qed.
Lemma tx_wf_part p p' : tx_part p' = tx_part p -> tx_wf p -> tx_wf p'.
Proof. destruct p, p'. intros [= -> -> -> -> -> -> ->]. done. Qed.
Lemma tx_held_part p p' : tx_part p' = tx_part p -> tx_held p' = tx_held p.
Proof. destruct p, p'. by intros [= -> -> -> -> -> -> ->]. Qed.

Lemma tx_iteration_imsc fr : preserves hw_imsc (tx_iteration fr).
Proof.
  unfold tx_iteration, upd_stats, tx_send_byte, read_tx_ptr, writel. solve_preserves.
Qed.

Lemma tx_loop_imsc frs : preserves hw_imsc (tx_loop frs).
Proof.
  induction frs as [|fr frs IH]; [apply preserves_ret|]. cbn [tx_loop].
  apply preserves_bind; [apply tx_iteration_imsc|]. intros []; [apply preserves_ret|exact IH].
Qed.

(** The work item touches the mask only to mask its own source, when idle. *)
Lemma uartnet_tx_task_imsc frs p p' es :
  uartnet_tx_task frs p = Ok (true, p', es) ->
  hw_imsc p' = if bool_decide (tx_state p' = TX_STATE_IDLE)
               then wrap 32 (clear_bits (hw_imsc p) UART011_TXIM) else hw_imsc p.
Proof.
  unfold uartnet_tx_task, bind, emit. destruct (tx_loop frs p) as [[[b p1] e1]|] eqn:E; [|done].
  apply tx_loop_imsc in E. destruct b; [|done].
  unfold tx_mask_if_idle, readl_imsc. run_prog.
  destruct (bool_decide (tx_state p1 = TX_STATE_IDLE)) eqn:Hd; cbn; intros [= <- _];
    rewrite <- E; cbn; by rewrite Hd.
Qed.

(** What an entry point leaves: the invariant, and every buffer accounted for. *)
Definition entry_post (s : uart_sys) (given : list nat) (p' : uartnet_priv)
    (es : list uart_event) (run : bool) : Prop :=
  let s' := mkSys p' (napi_after (sys_napi s) es) run in
  uart_inv s' /\ held s ++ given ++ skb_allocated es ≡ₚ skb_released es ++ held s'.

(** The accounting only looks at the calls into the kernel. *)
Lemma entry_post_calls s given p' es run :
  entry_post s given p' (kernel_calls es) run -> entry_post s given p' es run.
Proof.
  unfold entry_post.
  by rewrite (skb_released_calls es), (skb_allocated_calls es), (napi_after_calls _ es).
Qed.

Lemma tx_idle_held p : tx_wf p -> tx_state p = TX_STATE_IDLE -> tx_held p = [].
Proof. intros Hwf Hi. unfold tx_held. by rewrite (proj1 (tx_idle_no_skb p Hwf) Hi). Qed.

Lemma start_xmit_busy p skb :
  tx_state p <> TX_STATE_IDLE ->
  wp (uartnet_start_xmit true true skb) p (fun _ p' es =>
    p' = set_stats (set_tx_dropped (incr64 (tx_dropped (stats p))) (stats p)) p /\
    kernel_calls es = [EvStopQueue; EvKfreeSkb (skb_id skb)]).
Proof.
  intros Hi. apply (bool_decide_eq_false_2 (tx_state p = TX_STATE_IDLE)) in Hi.
  unfold uartnet_start_xmit. cbn [negb orb]. unfold wp, bind, emit, gets. rewrite Hi.
  split; reflexivity.
Qed.

Lemma start_xmit_down p run present skb :
  negb run || negb present = true ->
  uartnet_start_xmit run present skb p =
    Ok (tt, p, [EvLock LockTxXmit; EvUnlock LockTxXmit; EvKfreeSkb (skb_id skb)]).
Proof.
  intros Hdown. unfold uartnet_start_xmit. rewrite Hdown. reflexivity.
Qed.

Lemma xmit_entry p napi run present skb :
  let s := mkSys p napi run in
  uart_inv s -> 1 <= skb_len skb < 2 ^ 16 ->
  exists p' es, uartnet_start_xmit run present skb p = Ok (tt, p', es) /\
    entry_post s [skb_id skb] p' es run.
Proof.
  intros s (Htx & Hrx & Hirq) Hlen. cbn in *.
  destruct (decide (negb run || negb present = true)) as [Hdown|Hup].
  { eexists _, _. split; [by apply start_xmit_down|]. apply entry_post_calls.
    split; [done|]. cbn. solve_Permutation. }
  destruct run, present; try done.
  destruct (decide (tx_state p = TX_STATE_IDLE)) as [Hi|Hi].
  - destruct (start_xmit_accepts p skb Hi) as (p1 & e1 & Hx & Hp1 & _ & Hk & _).
    destruct (start_xmit_idle p skb Hi Hlen) as (p2 & e2 & Hx2 & Hwf & _ & Hskb & _).
    rewrite Hx in Hx2. injection Hx2 as <- <-. eexists _, _. split; [exact Hx|].
    assert (rx_part p1 = rx_part p) as Hpart by (rewrite Hp1; by destruct p).
    assert (hw_imsc p1 = wrap 32 (Z.lor (hw_imsc p) UART011_TXIM)) as Himsc by by rewrite Hp1.
    clear Hp1 Hx. apply entry_post_calls. rewrite Hk. split.
    + split; [done|]. split; [by apply (rx_wf_part p)|].
      destruct Hirq as [_ Hr]. unfold irq_inv. cbn. rewrite Himsc. split.
      * intros _. apply wrap_set_bits; [done|lia].
      * destruct Hr as [Hr|Hr]; [left; by apply has_bits_set|by right].
    + unfold held. cbn. rewrite (tx_idle_held p Htx Hi). rewrite (rx_held_part p p1) by done.
      unfold tx_held. rewrite Hskb. cbn. solve_Permutation.
  - destruct (proj1 (wp_ok _ _ _) (start_xmit_busy p skb Hi)) as ([] & p1 & es & Hx & Hp & Hk).
    eexists _, _. split; [exact Hx|]. apply entry_post_calls. rewrite Hk. clear Hx Hk.
    assert (tx_part p1 = tx_part p /\ rx_part p1 = rx_part p) as [Ht Hr] by (rewrite Hp; by destruct p).
    clear Hp. split; [split_and!|].
    + by apply (tx_wf_part p).
    + by apply (rx_wf_part p).
    + injection Ht as _ Hst _ _ _ _ Hm. unfold irq_inv in *. cbn in *. by rewrite Hst, Hm.
    + unfold held. cbn. rewrite (tx_held_part p p1 Ht), (rx_held_part p p1 Hr). solve_Permutation.
Qed.

Lemma task_entry p napi run frs :
  let s := mkSys p napi run in
  uart_inv s ->
  exists fin p' es, uartnet_tx_task frs p = Ok (fin, p', es) /\
    (fin = true -> entry_post s [] p' es run).
Proof.
  intros s (Htx & Hrx & Hirq). cbn in *.
  destruct (uartnet_tx_task_effect frs p Htx) as (fin & p' & es & Hrun & He & _ & _).
  exists fin, p', es. split; [done|]. intros ->.
  pose proof (uartnet_tx_task_imsc _ _ _ _ Hrun) as Himsc.
  destruct He as (Htx' & _ & Hkp & Hskb & Hpart).
  assert (kernel_calls es = match tx_skb p, tx_skb p' with
            | Some skb, None => [EvKfreeSkb (skb_id skb); EvWakeQueue] | _, _ => [] end) as Hk.
  { destruct (tx_skb p), (tx_skb p'); congruence. }
  assert (tx_state p' <> TX_STATE_IDLE -> tx_skb p' = tx_skb p /\ tx_state p <> TX_STATE_IDLE) as Hbusy.
  { intros Hne. destruct Hskb as [Hn|Hs]; [by apply tx_idle_no_skb in Hn|]. split; [done|].
    intros Hi. apply tx_idle_no_skb in Hi; [|done]. apply Hne, tx_idle_no_skb; [done|]. congruence. }
  apply entry_post_calls. split.
  - split; [done|]. split; [by apply (rx_wf_part p)|]. unfold irq_inv in *. cbn in *. destruct run.
    + destruct Hirq as [Ht Hr]. split.
      * intros Hne. rewrite Himsc, bool_decide_false by done. by apply Ht, Hbusy.
      * replace (napi_after napi (kernel_calls es)) with napi
          by (rewrite Hk; by destruct (tx_skb p), (tx_skb p')).
        destruct Hr as [Hr|Hr]; [left|by right]. rewrite Himsc.
        case_bool_decide; [by apply has_bits_clear|done].
    + destruct Hirq as (H0 & Hn & Hi & Hs). rewrite Himsc, H0.
      assert (tx_state p' = TX_STATE_IDLE) as Hi'
        by (destruct (decide (tx_state p' = TX_STATE_IDLE)) as [|Hne]; [done|by apply Hbusy in Hne as []]).
      rewrite bool_decide_true by done. split; [done|]. split; [|split; [done|]].
      * rewrite Hk, Hn. by destruct (tx_skb p), (tx_skb p').
      * injection Hpart. congruence.
  - unfold held. cbn. rewrite (rx_held_part p p') by done. rewrite Hk.
    unfold tx_held. destruct Hskb as [Hn|Hs].
    + rewrite Hn. destruct (tx_skb p); cbn; solve_Permutation.
    + rewrite Hs. destruct (tx_skb p); cbn; solve_Permutation.
Qed.

Lemma irq_entry p napi run mis :
  let s := mkSys p napi run in
  uart_inv s -> Z.land mis (hw_imsc p) = mis ->
  exists p' es, uartnet_interrupt mis p = Ok (IRQ_HANDLED, p', es) /\ entry_post s [] p' es run.
Proof.
  intros s (Htx & Hrx & Hirq) Hmis. cbn in *.
  destruct (uartnet_interrupt_effect p mis) as (p' & es & Hrun & Hp & Hk & _).
  exists p', es. split; [done|]. apply entry_post_calls. rewrite Hk. unfold irq_inv in Hirq. cbn in Hirq.
  split; [|rewrite Hp; unfold held; destruct p; cbn; repeat case_match; cbn; solve_Permutation].
  split; [|split; [|unfold irq_inv; cbn]].
  - rewrite Hp. destruct p; exact Htx.
  - rewrite Hp. destruct p; exact Hrx.
  - rewrite Hp. destruct p; cbn in *. destruct run.
    + destruct Hirq as [Ht Hr]. split.
      * intros Hne. case_match; [|by apply Ht]. apply has_bits_clear; [done|done|by apply Ht].
      * case_match; cbn; [right; by repeat case_match|].
        destruct Hr as [Hr|Hr]; [by left|right]. by repeat case_match.
    + destruct Hirq as (-> & -> & Hi & Hs). rewrite Z.land_0_r in Hmis. subst mis.
      rewrite !Z.land_0_l. by cbn.
Qed.

Lemma open_entry p napi irq_err :
  let s := mkSys p napi false in
  uart_inv s ->
  exists err p' es, uartnet_open irq_err p = Ok (err, p', es) /\ entry_post s [] p' es (err =? 0).
Proof.
  intros s (Htx & Hrx & (H0 & Hn & Hi & Hs)). cbn in *.
  apply tx_idle_no_skb in Hi as Hnone; [|done]. destruct Hrx as [Hb _].
  unfold uartnet_open, drop_tx_skb. run_prog. destruct p; cbn in *; subst. cbn.
  destruct (Z.eqb_spec irq_err 0) as [->|He]; cbn; (eexists _, _, _; split; [done|]);
    (split; [|unfold held; cbn; solve_Permutation]); split; try done; split; try done.
  - cbn. split; [done|]. left. by apply has_bits_wrap.
  - unfold irq_inv. cbn. by rewrite (proj2 (Z.eqb_neq _ _) He).
Qed.

Lemma stop_entry p :
  let s := mkSys p false true in
  uart_inv s ->
  exists p' es, uartnet_stop p = Ok (0, p', es) /\ entry_post s [] p' es false.
Proof.
  intros s (Htx & Hrx & _). cbn in *. destruct Hrx as [Hb _].
  unfold uartnet_stop, drop_tx_skb, drop_rx_skb. run_prog. destruct p; cbn in *.
  destruct rx_skb, tx_skb; cbn; (eexists _, _; split; [done|]);
    (split; [|unfold held; cbn; solve_Permutation]); done.
Qed.

Lemma napi_still_scheduled es : napi_done es = [] -> napi_after true es = true.
Proof. induction es as [|e es IH]; [done|]. destruct e; cbn; try apply IH; done. Qed.

Section system_lemmas.
Context `{NetKernel}.

Lemma poll_entry p budget fifo :
  let s := mkSys p true true in
  uart_inv s ->
  wpf freed_by_stack (uartnet_poll budget fifo) p (fun _ p' es => entry_post s [] p' es true).
Proof.
  intros s (Htx & Hrx & Hirq). cbn in *. destruct Hirq as [Ht _]. cbn in Ht.
  unfold uartnet_poll. apply wpf_bind.
  eapply wpf_mono; [by apply rx_loop_effect; [|lia]|].
  intros r p1 e1 (n & _ & _ & _ & _ & He).
  destruct He as (Hwf1 & Ha & _ & _ & _ & Hpart & _ & Hc & _).
  apply tx_wf_part in Hpart as Htx1; [|done]. apply tx_held_part in Hpart as Hh1.
  pose proof (napi_still_scheduled e1 Hc) as Hnapi.
  injection Hpart as _ Hst1 _ _ _ _ Himsc. rewrite <- Hst1, <- Himsc in Ht.
  unfold readl_imsc. run_prog.
  destruct (r.1 <? budget)%nat; cbn.
  - split.
    + split; [by destruct p1|]. split; [by destruct p1|]. unfold irq_inv. cbn. split.
      * intros Hne. rewrite <- Z.lor_assoc. apply has_bits_set; [done|by apply Ht; destruct p1].
      * left. rewrite <- Z.lor_assoc. by apply wrap_set_bits.
    + unfold held. cbn. rewrite skb_allocated_app, skb_released_app. cbn.
      rewrite !app_nil_r.
      assert (rx_held (set_hw_imsc (wrap 32 (Z.lor (Z.lor (hw_imsc p1) UART011_RTIM) UART011_RXIM)) p1)
                = rx_held p1) as -> by by destruct p1.
      assert (tx_held (set_hw_imsc (wrap 32 (Z.lor (Z.lor (hw_imsc p1) UART011_RTIM) UART011_RXIM)) p1)
                = tx_held p1) as -> by by destruct p1.
      rewrite Hh1, (assoc_L (++)), <- (assoc_L (++)), Ha. solve_Permutation.
  - rewrite app_nil_r. split.
    + split; [done|]. split; [done|]. unfold irq_inv. cbn. split; [done|]. by right.
    + unfold held. cbn. rewrite Hh1, <- (assoc_L (++)), Ha. solve_Permutation.
Qed.

Lemma uart_step_inv s1 given es s2 :
  uart_step s1 given es s2 -> uart_inv s1 ->
  uart_inv s2 /\ held s1 ++ given ++ skb_allocated es ≡ₚ skb_released es ++ held s2.
Proof.
  intros Hstep Hinv. destruct Hstep as [p napi run present skb p' es Hlen Hrun
    |p napi run frs p' es Hrun|p napi run mis p' es Hm Hrun|p budget fifo r p' es Hrun
    |p napi irq_err err p' es Hrun|p p' es Hrun].
  - destruct (xmit_entry p napi run present skb Hinv Hlen) as (p2 & e2 & H2 & Hpost). 
    rewrite Hrun in H2. injection H2 as <- <-. exact Hpost.
  - destruct (task_entry p napi run frs Hinv) as (fin & p2 & e2 & H2 & Hpost).
    rewrite Hrun in H2. injection H2 as <- <- <-. by apply Hpost.
  - destruct (irq_entry p napi run mis Hinv Hm) as (p2 & e2 & H2 & Hpost). 
    rewrite Hrun in H2. injection H2 as <- <-. exact Hpost.
  - exact (wpf_ok _ _ _ _ _ _ _ (poll_entry p budget fifo Hinv) Hrun).
  - assert (napi = false) as -> by (by destruct Hinv as (_ & _ & _ & ? & _)).
    destruct (open_entry p false irq_err Hinv) as (r2 & p2 & e2 & H2 & Hpost). 
    rewrite Hrun in H2. injection H2 as <- <- <-. exact Hpost.
  - destruct (stop_entry p Hinv) as (p2 & e2 & H2 & Hpost). 
    rewrite Hrun in H2. injection H2 as <- <-. exact Hpost.
Qed.

Lemma uart_run_inv s1 given es s2 :
  uart_run s1 given es s2 -> uart_inv s1 ->
  uart_inv s2 /\ held s1 ++ given ++ skb_allocated es ≡ₚ skb_released es ++ held s2.
Proof.
  induction 1 as [s|s1 g1 e1 s2 g2 e2 s3 Hstep _ IH]; intros Hinv.
  - split; [done|]. cbn. by rewrite app_nil_r.
  - destruct (uart_step_inv _ _ _ _ Hstep Hinv) as [Hinv2 H1].
    destruct (IH Hinv2) as [Hinv3 H2]. split; [done|].
    rewrite skb_allocated_app, skb_released_app.
    rewrite <- (assoc_L (++) (skb_released e1)), <- H2, (assoc_L (++) (skb_released e1)), <- H1.
    solve_Permutation.
Qed.

(** ** The main properties *)

(** C3: the driver loses no interrupt and no buffer.  In any order of its entry
    points from a well-formed state: an open device has the transmit interrupt
    enabled while a frame is being sent, and has both receive interrupts
    enabled or its poll scheduled; a closed one has every interrupt masked and
    both state machines idle; and the buffers held at first, handed in by the
    stack or allocated are, one for one, those freed or delivered and those
    still held. *)
Theorem uart_any_interleaving s given es s' :
  uart_inv s -> uart_run s given es s' ->
  (sys_running s' = true ->
     (tx_state (sys_priv s') <> TX_STATE_IDLE ->
        has_bits (hw_imsc (sys_priv s')) UART011_TXIM) /\
     (has_bits (hw_imsc (sys_priv s')) (Z.lor UART011_RTIM UART011_RXIM) \/
        sys_napi s' = true)) /\
  (sys_running s' = false ->
     hw_imsc (sys_priv s') = 0 /\ tx_state (sys_priv s') = TX_STATE_IDLE /\ held s' = []) /\
  held s ++ given ++ skb_allocated es ≡ₚ skb_released es ++ held s'.
Proof.
  intros Hinv Hrun. destruct (uart_run_inv _ _ _ _ Hrun Hinv) as [(Htx & Hrx & Hirq) Hperm].
  unfold irq_inv in Hirq. split; [|split; [|done]].
  - intros Hr. by rewrite Hr in Hirq.
  - intros Hr. rewrite Hr in Hirq. destruct Hirq as (H0 & _ & Hi & Hs). split_and!; try done.
    unfold held, rx_held. by rewrite (tx_idle_held _ Htx Hi), Hs.
Qed.

(** C8: the entry points are memory safe up to one read.  Given private data
    that satisfies the driver's invariant (and lies in memory: the probe asks
    for 0 bytes of it, see [UartProbe]), called as the kernel calls them (a
    frame of 1 to 65535 bytes, an interrupt status within the mask, the poll
    only when open and scheduled, [ndo_open] only when closed and [ndo_stop]
    only when open with NAPI ended), each of them returns, whatever the FIFO
    holds and whatever the allocator and [devm_request_irq] answer, and leaves
    the invariant (the work item does so once the readings of the flag register
    let it leave its loop); the one exception is the poll, which may also stop by
    reading the length of a buffer the network stack has freed after the driver
    had handed it over (uart_net.c:337). *)
Theorem uart_entry_points_safe p napi run :
  uart_inv (mkSys p napi run) ->
  (forall present skb, 1 <= skb_len skb < 2 ^ 16 ->
     wp (uartnet_start_xmit run present skb) p (fun _ p' es =>
       uart_inv (mkSys p' (napi_after napi es) run))) /\
  (forall frs, wp (uartnet_tx_task frs) p (fun left_loop p' es =>
     left_loop = true -> uart_inv (mkSys p' (napi_after napi es) run))) /\
  (forall mis, Z.land mis (hw_imsc p) = mis ->
     wp (uartnet_interrupt mis) p (fun _ p' es => uart_inv (mkSys p' (napi_after napi es) run))) /\
  (run = true -> napi = true -> forall budget fifo,
     wpf freed_by_stack (uartnet_poll budget fifo) p (fun _ p' es =>
       uart_inv (mkSys p' (napi_after true es) true))) /\
  (run = false -> forall irq_err, wp (uartnet_open irq_err) p (fun err p' es =>
     uart_inv (mkSys p' (napi_after napi es) (err =? 0)))) /\
  (run = true -> napi = false -> wp uartnet_stop p (fun _ p' es =>
     uart_inv (mkSys p' (napi_after false es) false))).
Proof.
  intros Hinv. split_and!.
  - intros present skb Hl. apply wp_ok.
    destruct (xmit_entry p napi run present skb Hinv Hl) as (?&?&?&?&_). eauto.
  - intros frs. apply wp_ok. destruct (task_entry p napi run frs Hinv) as (fin&?&?&?&Hpost).
    eexists _, _, _. split; [done|]. intros ->. by apply Hpost.
  - intros mis Hm. apply wp_ok. destruct (irq_entry p napi run mis Hinv Hm) as (?&?&?&?&_). eauto.
  - intros -> -> budget fifo. eapply wpf_mono; [by apply poll_entry|]. by intros ? ? ? [? _].
  - intros -> irq_err. apply wp_ok. destruct (open_entry p napi irq_err Hinv) as (?&?&?&?&?&_). eauto.
  - intros -> ->. apply wp_ok. destruct (stop_entry p Hinv) as (?&?&?&?&_). eauto.
Qed.

(** C4: two boards connected back to back.  A payload without the escape
    character and of a valid length other than 90, given to an idle
    transmitter and sent by any number of runs of its work item under any
    readings of the FIFO's flag, reaches the peer's poll whole: once the
    transmitter is idle again, the bytes it put on the wire make an idle
    receiver deliver exactly that payload, in one buffer; if the peer's stack
    frees that buffer before the peer's driver reads its length again, the
    peer's poll stops there with a use after free. *)
Theorem uart_link p skb frss q budget :
  tx_state p = TX_STATE_IDLE -> transmissible (skb_data skb) ->
  rx_state q = UARTNET_STATE_IDLE -> length (rx_length_bytes q) = 2%nat ->
  alloc_ok (skb_allocs q) = true -> (1 < budget)%nat ->
  let rx := eth_type_trans (mkSkb (skb_allocs q) (skb_len skb) (skb_data skb)) in
  wp (uartnet_start_xmit true true skb ;; tx_tasks frss) p (fun _ p' es =>
    tx_state p' = TX_STATE_IDLE ->
    if decide (kept rx) then
      wp (uartnet_poll budget (dr_writes es)) q (fun r q' es' =>
        r = (1%nat, []) /\ rx_state q' = UARTNET_STATE_IDLE /\ delivered es' = [rx])
    else uartnet_poll budget (dr_writes es) q = Stop UseAfterFree).
Proof.
  intros Hi Hdata Hq Hb Hok Hbud rx.
  assert (1 <= skb_len skb < 2 ^ 16) as Hlen.
  { destruct Hdata as [_ [[H1 H2] _]]. unfold UARTNET_MTU, ETH_HLEN, skb_len in *.
    change (2 ^ 16) with 65536. lia. }
  destruct (start_xmit_idle p skb Hi Hlen) as (p1 & e1 & Hx & Hwf & _ & _ & Hrem & _ & Hdr & _).
  destruct (tx_tasks_effect frss p1 Hwf) as (b & p2 & e2 & Hrun & Hwf2 & Hr2 & _).
  apply wp_ok. rewrite (bind_ok _ _ _ _ _ _ Hx), Hrun. eexists _, _, _. split; [done|].
  intros Hi2. rewrite (proj2 (tx_remaining_nil p2 Hwf2) Hi2), app_nil_r, Hrem in Hr2.
  rewrite dr_writes_app, Hdr, <- Hr2. cbn [app].
  pose proof (rx_frame q (skb_data skb) Hq Hb Hok Hdata) as Hfr. fold (skb_len skb) in Hfr. fold rx in Hfr.
  unfold wp, uartnet_poll. case_decide as Hk; unfold kept in Hk.
  - destruct Hk as [len Hk]. rewrite Hk in Hfr. destruct Hfr as (q1 & e3 & Hq1 & Hd).
    apply (rx_loop_run budget _ 0) in Hq1; [|by apply storable_length_u8|done].
    destruct Hd as (Hst & _ & _ & _ & Hd & _).
    rewrite (bind_ok _ _ _ _ _ _ Hq1). unfold readl_imsc. run_prog.
    rewrite (proj2 (Nat.ltb_lt _ _)) by done. cbn. rewrite delivered_app, Hd. cbn. by destruct q1.
  - destruct (len_after_handoff rx.1) eqn:E; [by destruct Hk|].
    pose proof (rx_loop_freed budget 0 q _ [] ltac:(lia) Hdata Hfr) as Hstop.
    rewrite app_nil_r in Hstop. unfold bind. by rewrite Hstop.
Qed.
End system_lemmas.

(** C11: what the interrupt handler does, for every status.  It acknowledges
    the sources in the status it read, and both receive sources when either is
    pending, nothing else; a receive source masks both and schedules NAPI,
    leaving the other mask bits alone; the transmit source queues the work
    item exactly when a frame is being sent. *)
Theorem interrupt_cases p mis :
  let rx := negb (Z.land mis RX_IRQS =? 0) in
  let tx := negb (Z.land mis UART011_TXIS =? 0) in
  wp (uartnet_interrupt mis) p (fun r p' es =>
    r = IRQ_HANDLED /\
    foldr Z.lor 0 (icr_writes es) = (if rx then Z.lor mis RX_IRQS else mis) /\
    kernel_calls es = (if rx then [EvNapiSchedule] else []) ++
      (if tx && negb (bool_decide (tx_state p = TX_STATE_IDLE)) then [EvQueueWork] else []) /\
    p' = set_tx_intr (if tx then wrap 32 (tx_intr p + 1) else tx_intr p)
           (set_rx_intr (if rx then wrap 32 (rx_intr p + 1) else rx_intr p)
             (set_hw_imsc (if rx then wrap 32 (clear_bits (hw_imsc p)
                                        (Z.lor UART011_RTIM UART011_RXIM)) else hw_imsc p) p))).
Proof.
  destruct (uartnet_interrupt_effect p mis) as (p' & es & Hrun & Hp & Hk & _ & Hicr).
  apply wp_ok. eauto 10.
Qed.

(** ** Witnesses *)

Definition sys_closed : uart_sys := mkSys priv_zero false false.

Lemma sys_closed_inv : uart_inv sys_closed.
Proof. split_and!; done. Qed.

(** Open, send a frame of two bytes, take the receive interrupt, poll. *)
Lemma uart_any_interleaving_witness :
  exists s' es, uart_run sys_closed [7%nat] es s' /\
    held sys_closed ++ [7%nat] ++ skb_allocated es ≡ₚ skb_released es ++ held s'.
Proof.
  edestruct (fun es s' (Hrun : uart_run sys_closed [7%nat] es s') =>
    ex_intro (fun s' => exists es, uart_run sys_closed [7%nat] es s') s' (ex_intro _ es Hrun))
    as (s' & es & Hrun).
  { change [7%nat] with ([] ++ [7%nat] ++ [] ++ [] ++ [] ++ [] : list nat).
    eapply run_cons; [eapply (step_open _ _ 0); vm_compute; reflexivity|].
    eapply run_cons;
      [eapply (step_xmit _ _ _ true (mkSkb 7 64 [1; 2])); vm_compute;
         [split; congruence|reflexivity]|].
    eapply run_cons; [eapply (step_task _ _ _ (replicate 9 0)); vm_compute; reflexivity|].
    eapply run_cons; [eapply (step_irq _ _ _ 0x10); vm_compute; reflexivity|].
    eapply run_cons; [eapply (step_poll _ 64 [0xAA; 0; 2; 5; 6; 0x55]); vm_compute; reflexivity|].
    apply run_nil. }
  exists s', es. split; [exact Hrun|].
  by apply (uart_any_interleaving _ _ _ _ sys_closed_inv Hrun).
Defined.

(** An open device whose poll is scheduled, and a closed one. *)
Definition sys_polling : uart_sys := mkSys priv_zero true true.

Lemma sys_polling_inv : uart_inv sys_polling.
Proof. split_and!; [done|done|]. split; [by intros []|by right]. Qed.

Lemma uart_entry_points_safe_witness :
  (forall irq_err, wp (uartnet_open irq_err) priv_zero (fun err p' es =>
     uart_inv (mkSys p' (napi_after false es) (err =? 0)))) /\
  (forall mis, Z.land mis 0 = mis -> wp (uartnet_interrupt mis) priv_zero (fun _ p' es =>
     uart_inv (mkSys p' (napi_after false es) false))) /\
  wpf freed_by_stack (uartnet_poll 64 fifo_example) priv_zero (fun _ p' es =>
    uart_inv (mkSys p' (napi_after true es) true)).
Proof.
  destruct (uart_entry_points_safe priv_zero false false sys_closed_inv) as (_ & _ & Hi & _ & Ho & _).
  destruct (uart_entry_points_safe priv_zero true true sys_polling_inv) as (_ & _ & _ & Hp & _).
  exact (conj (Ho eq_refl) (conj Hi (Hp eq_refl eq_refl 64%nat fifo_example))).
Defined.

(** Both receive sources are acknowledged although one is pending. *)
Lemma interrupt_cases_witness :
  wp (uartnet_interrupt 0x10) priv_zero (fun r p' es =>
    r = IRQ_HANDLED /\ foldr Z.lor 0 (icr_writes es) = 0x50 /\ kernel_calls es = [EvNapiSchedule]).
Proof.
  refine (wp_mono _ _ _ _ (interrupt_cases priv_zero 0x10) _). cbv zeta beta.
  intros r p' es (Hr & Hi & Hk & _). exact (conj Hr (conj Hi Hk)).
Defined.

Lemma uart_link_witness :
  transmissible [1; 0xAA; 2] /\
  wp (uartnet_start_xmit true true (mkSkb 7 64 [1; 0xAA; 2]) ;;
      tx_tasks [[0; 0; 0x20]; replicate 12 0]) priv_zero (fun _ p' es =>
    tx_state p' = TX_STATE_IDLE ->
    wp (uartnet_poll 64 (dr_writes es)) priv_zero (fun r q' es' =>
      r = (1%nat, []) /\ rx_state q' = UARTNET_STATE_IDLE /\
      delivered es' = [eth_type_trans (mkSkb 0 3 [1; 0xAA; 2])])).
Proof.
  assert (transmissible [1; 0xAA; 2]) as Hd.
  { unfold transmissible, storable, storable_length. apply (bool_decide_unpack _). vm_compute. exact I. }
  split; [exact Hd|].
  pose proof (uart_link priv_zero (mkSkb 7 64 [1; 0xAA; 2]) [[0; 0; 0x20]; replicate 12 0]
    priv_zero 64 eq_refl Hd eq_refl eq_refl eq_refl ltac:(lia)) as Hl. cbv zeta in Hl.
  match type of Hl with context [decide ?P] => destruct (decide P) as [_|Hn] end; [exact Hl|].
  destruct Hn. by eexists.
Defined.
