(* ===== verification/UartProbe.v ===== *)
(** * Binding and unbinding the UART network driver

    [uartnet_probe] and [uartnet_remove] with the [goto] ladder that releases
    what was acquired.  The outcomes of the kernel's functions are the fields
    of [probe_env]; one of them is whether memory lies behind the private area
    of 0 bytes. *)

From S2P Require Import Prelude UartFrame UartState UartTx UartRx UartDriver.

Definition NAPI_WEIGHT : Z := 64.
Definition TX_QUEUE_LEN : Z := 1.

(** Documented value of Linux's [if_ether.h]. *)
Definition ETH_MIN_MTU : Z := 68.

(** The device as the driver and the kernel see it. *)
Record uart_dev : Type := mkDev {
  dv_netdev : bool; (** the [net_device] is allocated *)
  dv_drvdata : bool; (** the platform device points to it *)
  dv_priv : uartnet_priv;
  dv_irq : Z; (** dev->irq *)
  priv_irq : Z; (** priv->irq *)
  dv_napi : bool; (** the NAPI context is added *)
  tx_workqueue : bool; (** the workqueue exists *)
  dv_registered : bool;
  dv_mtu : Z;
  dv_tx_queue_len : Z;
  dv_min_mtu : Z;
  dv_max_mtu : Z;
}.

(** What the kernel answers.  The driver asks for a private area of 0 bytes;
    [priv_room] tells whether the block it gets happens to reach far enough
    behind the [net_device] for a [struct uartnet_priv].  [ioremap_err] is the
    error pointer, if any. *)
Record probe_env : Type := mkProbeEnv {
  alloc_netdev_ok : bool;
  priv_room : bool;
  mem_resource : bool;
  ioremap_err : option Z;
  platform_irq : Z;
  workqueue_ok : bool;
  register_err : Z;
}.

Inductive dev_event : Type :=
| DevUart (e : uart_event)
| DevAllocNetdev (sizeof_priv : Z)
| DevNapiAdd (weight : Z)
| DevRandomMac
| DevCreateWorkqueue
| DevRegister
| DevUnregister
| DevNapiDel
| DevDestroyWorkqueue
| DevFreeNetdev.

Definition devM : Type -> Type := M dev_event uart_dev.

(** ** Operations *)

Definition set_dv_priv (v : uartnet_priv) (d : uart_dev) : uart_dev :=
  mkDev (dv_netdev d) (dv_drvdata d) v (dv_irq d) (priv_irq d) (dv_napi d) (tx_workqueue d)
    (dv_registered d) (dv_mtu d) (dv_tx_queue_len d) (dv_min_mtu d) (dv_max_mtu d).
Definition set_dv_netdev (v : bool) (d : uart_dev) : uart_dev :=
  mkDev v (dv_drvdata d) (dv_priv d) (dv_irq d) (priv_irq d) (dv_napi d) (tx_workqueue d)
    (dv_registered d) (dv_mtu d) (dv_tx_queue_len d) (dv_min_mtu d) (dv_max_mtu d).
Definition set_dv_drvdata (v : bool) (d : uart_dev) : uart_dev :=
  mkDev (dv_netdev d) v (dv_priv d) (dv_irq d) (priv_irq d) (dv_napi d) (tx_workqueue d)
    (dv_registered d) (dv_mtu d) (dv_tx_queue_len d) (dv_min_mtu d) (dv_max_mtu d).
Definition set_dv_irq (v : Z) (d : uart_dev) : uart_dev :=
  mkDev (dv_netdev d) (dv_drvdata d) (dv_priv d) v (priv_irq d) (dv_napi d) (tx_workqueue d)
    (dv_registered d) (dv_mtu d) (dv_tx_queue_len d) (dv_min_mtu d) (dv_max_mtu d).
Definition set_dv_napi (v : bool) (d : uart_dev) : uart_dev :=
  mkDev (dv_netdev d) (dv_drvdata d) (dv_priv d) (dv_irq d) (priv_irq d) v (tx_workqueue d)
    (dv_registered d) (dv_mtu d) (dv_tx_queue_len d) (dv_min_mtu d) (dv_max_mtu d).
Definition set_tx_workqueue (v : bool) (d : uart_dev) : uart_dev :=
  mkDev (dv_netdev d) (dv_drvdata d) (dv_priv d) (dv_irq d) (priv_irq d) (dv_napi d) v
    (dv_registered d) (dv_mtu d) (dv_tx_queue_len d) (dv_min_mtu d) (dv_max_mtu d).
Definition set_dv_registered (v : bool) (d : uart_dev) : uart_dev :=
  mkDev (dv_netdev d) (dv_drvdata d) (dv_priv d) (dv_irq d) (priv_irq d) (dv_napi d)
    (tx_workqueue d) v (dv_mtu d) (dv_tx_queue_len d) (dv_min_mtu d) (dv_max_mtu d).
Definition set_dv_config (mtu qlen min_mtu max_mtu : Z) (d : uart_dev) : uart_dev :=
  mkDev (dv_netdev d) (dv_drvdata d) (dv_priv d) (dv_irq d) (priv_irq d) (dv_napi d)
    (tx_workqueue d) (dv_registered d) mtu qlen min_mtu max_mtu.

(** A statement on [priv] and the UART's registers. *)
Definition on_priv {A : Type} (m : uartM A) : devM A :=
  fun d =>
    match m (dv_priv d) with
    | Ok (a, p, es) => Ok (a, set_dv_priv p d, DevUart <$> es)
    | Stop f => Stop f
    end.

(** The allocator's zeroed memory; the mask register and the count of
    allocations are not part of it. *)
Definition priv_fresh (p : uartnet_priv) : uartnet_priv :=
  set_skb_allocs (skb_allocs p) (set_hw_imsc (hw_imsc p) priv_zero).

Definition fresh_netdev (d : uart_dev) : uart_dev :=
  mkDev true (dv_drvdata d) (priv_fresh (dv_priv d)) 0 0 false false false 0 0 0 0.

(** [free_netdev], which also deletes the NAPI contexts that are left. *)
Definition free_netdev : devM unit :=
  live <- gets dv_netdev ;;
  if live then
    emit DevFreeNetdev ;; modify (set_dv_netdev false) ;; modify (set_dv_napi false)
  else fail UseAfterFree.

Definition netif_napi_del : devM unit := emit DevNapiDel ;; modify (set_dv_napi false).
Definition destroy_workqueue : devM unit :=
  emit DevDestroyWorkqueue ;; modify (set_tx_workqueue false).

(** The labels [error] and [cleanup_napi]. *)
Definition probe_error (err : Z) : devM Z := free_netdev ;; ret err.
Definition probe_cleanup_napi (err : Z) : devM Z :=
  netif_napi_del ;; destroy_workqueue ;; probe_error err.

Definition uartnet_probe (env : probe_env) : devM Z :=
  emit (DevAllocNetdev 0) ;;
  if negb (alloc_netdev_ok env) then ret (- ENOMEM)
  else
    modify fresh_netdev ;;
    if negb (priv_room env) then fail OutOfBounds
    else
    on_priv (modify (set_rx_state UARTNET_STATE_IDLE) ;;
             modify (set_tx_state TX_STATE_IDLE) ;;
             modify (set_tx_skb None) ;;
             modify (set_tx_intr 0) ;;
             modify (set_rx_intr 0)) ;;
    if negb (mem_resource env) then probe_error (- ENODEV)
    else
      match ioremap_err env with
      | Some err => probe_error err
      | None =>
          modify (set_dv_irq (platform_irq env)) ;;
          irq <- gets dv_irq ;;
          if irq <? 0 then
            err <- gets priv_irq ;;
            probe_error err
          else
            on_priv (writel 0 UART011_CR ;;
                     writel 0x10 UART011_LCRH ;;
                     writel (Z.lor UART011_IFLS_TX4_8 UART011_IFLS_RX7_8) UART011_IFLS) ;;
            emit (DevNapiAdd NAPI_WEIGHT) ;;
            modify (set_dv_napi true) ;;
            modify (set_dv_config UARTNET_MTU TX_QUEUE_LEN ETH_MIN_MTU UARTNET_MTU) ;;
            emit DevRandomMac ;;
            emit DevCreateWorkqueue ;;
            if negb (workqueue_ok env) then probe_error (- ENOMEM)
            else
              modify (set_tx_workqueue true) ;;
              emit DevRegister ;;
              if negb (register_err env =? 0) then probe_cleanup_napi (register_err env)
              else
                modify (set_dv_registered true) ;;
                modify (set_dv_drvdata true) ;;
                ret 0
      end.

Definition uartnet_remove : devM Z :=
  dev <- gets dv_drvdata ;;
  if negb dev then fail NullDeref
  else
    emit DevUnregister ;;
    modify (set_dv_registered false) ;;
    netif_napi_del ;;
    destroy_workqueue ;;
    free_netdev ;;
    ret 0.

(** ** Specification *)

(** Nothing of the driver is left in the kernel. *)
Definition released (d : uart_dev) : Prop :=
  dv_netdev d = false /\ dv_napi d = false /\ tx_workqueue d = false /\ dv_registered d = false.

(** The steps that can fail, with the error the kernel reports for each. *)
Inductive probe_step : Type :=
| StepAlloc
| StepResource
| StepIoremap (err : Z)
| StepIrq (err : Z)
| StepWorkqueue
| StepRegister (err : Z).

(** The first step that fails. *)
Definition failing_step (env : probe_env) : option probe_step :=
  if negb (alloc_netdev_ok env) then Some StepAlloc
  else if negb (mem_resource env) then Some StepResource
  else match ioremap_err env with
       | Some err => Some (StepIoremap err)
       | None =>
           if platform_irq env <? 0 then Some (StepIrq (platform_irq env))
           else if negb (workqueue_ok env) then Some StepWorkqueue
           else if negb (register_err env =? 0) then Some (StepRegister (register_err env))
           else None
       end.

(** The error a driver reports for it. *)
Definition step_error (st : probe_step) : Z :=
  match st with
  | StepAlloc => - ENOMEM
  | StepResource => - ENODEV
  | StepWorkqueue => - ENOMEM
  | StepIoremap err | StepIrq err | StepRegister err => err
  end.

(** The errors the kernel's functions report are negative: error pointers,
    [platform_get_irq] below the test and [register_netdev]. *)
Definition negative_errors (env : probe_env) : Prop :=
  (forall err, ioremap_err env = Some err -> err < 0) /\ register_err env <= 0.

(** An unbound device, its interrupts masked. *)
Definition unbound (d : uart_dev) : Prop :=
  released d /\ dv_drvdata d = false /\ hw_imsc (dv_priv d) = 0.

(** ** Lemmas *)

Lemma uartnet_remove_bound d :
  dv_netdev d = true -> dv_drvdata d = true ->
  exists d', uartnet_remove d =
      Ok (0, d', [DevUnregister; DevNapiDel; DevDestroyWorkqueue; DevFreeNetdev]) /\ released d'.
Proof.
  intros H1 H2. unfold uartnet_remove, free_netdev, netif_napi_del, destroy_workqueue. run_prog.
  rewrite H2. cbn. rewrite H1. cbn. by eexists.
Qed.

(** ** The main properties *)

(** What a probe that returns leaves. *)
Lemma uartnet_probe_effect env d :
  unbound d -> alloc_netdev_ok env = true -> priv_room env = true ->
  exists r d' es, uartnet_probe env d = Ok (r, d', es) /\ DevAllocNetdev 0 ∈ es /\
    match failing_step env with
    | Some st =>
        r = match st with StepIrq _ => 0 | _ => step_error st end /\
        released d' /\ dv_drvdata d' = false
    | None =>
        r = 0 /\ dv_netdev d' = true /\ dv_napi d' = true /\ tx_workqueue d' = true /\
        dv_registered d' = true /\ dv_drvdata d' = true /\ dv_irq d' = platform_irq env /\
        (dv_mtu d', dv_tx_queue_len d', dv_min_mtu d', dv_max_mtu d') = (256, 1, 68, 256) /\
        uart_inv (mkSys (dv_priv d') false false) /\
        DevUart (EvWritel UART011_CR 0) ∈ es
    end.
Proof.
  intros ((Hn & Ha & Hw & Hr) & Hd & Hi) H1 H2.
  unfold uartnet_probe, failing_step, probe_cleanup_napi, probe_error, free_netdev,
    netif_napi_del, destroy_workqueue, on_priv, released.
  destruct env as [al pr [] [e|] irq [] err]; cbn in H1, H2; subst; run_prog; rewrite ?Hn, ?Ha, ?Hw, ?Hr, ?Hd.
  all: destruct (Z.ltb_spec irq 0); cbn; rewrite ?Hd.
  all: try (eexists _, _, _; split; [done|]; split; [set_solver|done]).
  all: destruct (err =? 0); cbn; rewrite ?Hd; eexists _, _, _; (split; [done|]); (split; [set_solver|]);
    [|done].
  split_and!; try done. set_solver.
Qed.

(** C12: binding the driver, for every answer of the kernel.  If no device is
    allocated the probe returns [-ENOMEM].  The private area asked for has 0
    bytes: unless the block allocated reaches far enough behind it, the first
    access to the private data is out of bounds.  Otherwise, if a later step
    fails, everything acquired is given back and the error of the first step
    that failed is returned, except that a failing [platform_get_irq] is
    reported as 0, which is success; if none fails, the device is registered
    with the driver's limits, the UART is disabled, and the state the entry
    points start from is well formed. *)
Theorem probe_outcome env d :
  unbound d ->
  if negb (alloc_netdev_ok env) then
    uartnet_probe env d = Ok (- ENOMEM, d, [DevAllocNetdev 0])
  else if negb (priv_room env) then uartnet_probe env d = Stop OutOfBounds
  else wp (uartnet_probe env) d (fun r d' es =>
    DevAllocNetdev 0 ∈ es /\
    match failing_step env with
    | Some (StepIrq _) => r = 0 /\ released d' /\ dv_drvdata d' = false
    | Some st => r = step_error st /\ released d' /\ dv_drvdata d' = false
    | None =>
        r = 0 /\ dv_netdev d' = true /\ dv_napi d' = true /\ tx_workqueue d' = true /\
        dv_registered d' = true /\ dv_drvdata d' = true /\ dv_irq d' = platform_irq env /\
        (dv_mtu d', dv_tx_queue_len d', dv_min_mtu d', dv_max_mtu d') = (256, 1, 68, 256) /\
        uart_inv (mkSys (dv_priv d') false false) /\
        DevUart (EvWritel UART011_CR 0) ∈ es
    end).
Proof.
  intros Hun. destruct (alloc_netdev_ok env) eqn:H1; cbn [negb].
  2:{ unfold uartnet_probe. rewrite H1. done. }
  destruct (priv_room env) eqn:H2; cbn [negb].
  2:{ unfold uartnet_probe. rewrite H1, H2. done. }
  destruct (uartnet_probe_effect env d Hun H1 H2) as (r & d' & es & Hrun & Hin & Hpost).
  apply wp_ok. exists r, d', es. split; [done|]. split; [done|].
  by destruct (failing_step env) as [[]|].
Qed.

(** C13: unbinding after a probe that reported success.  If [platform_get_irq]
    had given an interrupt, [uartnet_remove] succeeds, unregisters the device
    before it releases anything the device uses, and leaves nothing of the
    driver; if it had failed, the probe has reported success after freeing the
    device, and [uartnet_remove] dereferences a NULL pointer. *)
Theorem probe_remove env d d' es :
  unbound d -> negative_errors env ->
  uartnet_probe env d = Ok (0, d', es) ->
  if platform_irq env <? 0 then
    released d' /\ dv_drvdata d' = false /\ uartnet_remove d' = Stop NullDeref
  else
    exists d2, uartnet_remove d' =
      Ok (0, d2, [DevUnregister; DevNapiDel; DevDestroyWorkqueue; DevFreeNetdev]) /\ released d2.
Proof.
  intros Hun [He Hre] Hrun.
  destruct (alloc_netdev_ok env) eqn:H1; [|unfold uartnet_probe in Hrun; by rewrite H1 in Hrun].
  destruct (priv_room env) eqn:H2; [|unfold uartnet_probe in Hrun; by rewrite H1, H2 in Hrun].
  destruct (uartnet_probe_effect env d Hun H1 H2) as (r & d1 & e1 & Hrun1 & _ & Hpost).
  rewrite Hrun in Hrun1. injection Hrun1 as <- <- <-. unfold failing_step in Hpost.
  rewrite H1 in Hpost. cbn [negb] in Hpost.
  destruct (mem_resource env); [|by destruct Hpost]. cbn [negb] in Hpost.
  destruct (ioremap_err env) as [e|] eqn:H3; [destruct Hpost as [Heq _]; cbn in Heq; specialize (He e eq_refl); lia|].
  destruct (platform_irq env <? 0).
  - destruct Hpost as (_ & Hrel & Hd). split_and!; try done.
    unfold uartnet_remove. run_prog. by rewrite Hd.
  - destruct (workqueue_ok env); [|by destruct Hpost]. cbn [negb] in Hpost.
    destruct (Z.eqb_spec (register_err env) 0) as [_|Hne]; cbn in Hpost; [|by destruct Hpost as [? _]].
    destruct Hpost as (_ & Hn & _ & _ & _ & Hd & _).
    destruct (uartnet_remove_bound d' Hn Hd) as (d2 & Hr2 & Hrel). by exists d2.
Qed.

(** ** Witnesses *)

Definition dev_unbound : uart_dev :=
  mkDev false false priv_zero 0 0 false false false 0 0 0 0.

Lemma dev_unbound_ok : unbound dev_unbound.
Proof. done. Qed.

(** A failing registration, a private area that is not there, a missing
    interrupt. *)
Lemma probe_outcome_witness :
  unbound dev_unbound /\
  wp (uartnet_probe (mkProbeEnv true true true None 41 true (-17))) dev_unbound (fun r d' es =>
    DevAllocNetdev 0 ∈ es /\ r = -17 /\ released d' /\ dv_drvdata d' = false) /\
  uartnet_probe (mkProbeEnv true false true None 41 true 0) dev_unbound = Stop OutOfBounds /\
  wp (uartnet_probe (mkProbeEnv true true true None (-6) true 0)) dev_unbound (fun r d' es =>
    DevAllocNetdev 0 ∈ es /\ r = 0 /\ released d' /\ dv_drvdata d' = false).
Proof.
  split; [exact dev_unbound_ok|].
  split; [|split].
  - pose proof (probe_outcome (mkProbeEnv true true true None 41 true (-17)) _ dev_unbound_ok) as H.
    apply if_false, if_false in H; [exact H|reflexivity|reflexivity].
  - pose proof (probe_outcome (mkProbeEnv true false true None 41 true 0) _ dev_unbound_ok) as H.
    apply if_false, if_true in H; [exact H|reflexivity|reflexivity].
  - pose proof (probe_outcome (mkProbeEnv true true true None (-6) true 0) _ dev_unbound_ok) as H.
    apply if_false, if_false in H; [exact H|reflexivity|reflexivity].
Defined.

Definition env_bound : probe_env := mkProbeEnv true true true None 41 true 0.
Definition env_no_irq : probe_env := mkProbeEnv true true true None (-6) true 0.

Lemma env_bound_example :
  negative_errors env_bound /\ exists d' es, uartnet_probe env_bound dev_unbound = Ok (0, d', es).
Proof. split; [split; [by intros ? [=]|cbn; lia]|]. vm_compute. eauto. Qed.

Lemma env_no_irq_example :
  negative_errors env_no_irq /\ exists d' es, uartnet_probe env_no_irq dev_unbound = Ok (0, d', es).
Proof. split; [split; [by intros ? [=]|cbn; lia]|]. vm_compute. eauto. Qed.

(** With an interrupt and without. *)
Lemma probe_remove_witness :
  (exists d' es d2, uartnet_probe env_bound dev_unbound = Ok (0, d', es) /\
     uartnet_remove d' =
       Ok (0, d2, [DevUnregister; DevNapiDel; DevDestroyWorkqueue; DevFreeNetdev]) /\
     released d2) /\
  (exists d' es, uartnet_probe env_no_irq dev_unbound = Ok (0, d', es) /\
     uartnet_remove d' = Stop NullDeref).
Proof.
  destruct env_bound_example as (Hneg1 & d1 & e1 & H1).
  destruct env_no_irq_example as (Hneg2 & d2 & e2 & H2).
  destruct (probe_remove env_bound _ d1 e1 dev_unbound_ok Hneg1 H1) as (d3 & Hr & Hrel).
  destruct (probe_remove env_no_irq _ d2 e2 dev_unbound_ok Hneg2 H2) as (_ & _ & Hnull).
  split; [exists d1, e1, d3|exists d2, e2].
  - exact (conj H1 (conj Hr Hrel)).
  - exact (conj H2 Hnull).
Defined.
