(* ===== verification/FanTransport.v ===== *)
(** * The fan driver's data and its transport interface

    The constants and [struct fan_data] of [virt_fan.h], the fields that
    change, and the interface between [virt_fan.c] and the two files that
    implement it: [fan_trans.c] ([FanSmbus]) and [virt_trans.c] ([FanVirt]).
    The mutexes are part of the state, so a thread that locks a mutex it holds
    is a fault; the lock operations are events, from which [FanDriver] builds
    the interleavings of several threads. *)

From S2P Require Import Prelude.

Definition FAN_FAIL_MAX_RETRY : nat := 50.

Definition FAN_CMD_SET_PWM : Z := 0x180010.
Definition FAN_CMD_GET_PWM : Z := 0x180011.
Definition FAN_CMD_GET_RPM : Z := 0x18000D.

Definition FAN_REG_SEND : Z := 0x20.
Definition FAN_REG_RECV : Z := 0x21.
Definition FAN_REG_SET_PWM : Z := 0x22.

Definition FAN_SEND_COMMAND_SIZE : Z := 7.
Definition FAN_SEND_PEC_SIZE : Z := 7.
Definition FAN_RECV_CONTROL_AND_PEC_SIZE : Z := 3.
Definition FAN_RECV_PEC_EXCEPT_CONTENT_SIZE : Z := 6.
Definition FAN_RECV_CONTROL_NUM_OFFSET : Z := 3.
Definition FAN_RECV_CONTENT_OFFSET : Z := 5.

Definition BUFFER_SIZE : Z := 64.
Definition FAN_MAX_NUM : Z := 16.
Definition FAN_ITEM_NUM : Z := 3.

Inductive fan_lock : Set := McuLock | PwmBufLock.

#[export] Instance fan_lock_eq_dec : EqDecision fan_lock.
Proof. solve_decision. Defined.

(** The functions of a sensor attribute. *)
Inductive fan_attr_ops : Set := OpsFanInput | OpsPwm | OpsPwmEnable.

Record sensor_attr : Type := mkAttr {
  attr_name : string;
  attr_ops : fan_attr_ops;
  attr_mode : Z;
  attr_index : Z;
}.

Record fan_data : Type := mkFan {
  mcu_lock : bool; (** held *)
  pwm_buf_lock : bool; (** held *)
  pwm : list Z; (** u8[FAN_MAX_NUM] *)
  pwm_enabled : list Z; (** u8[FAN_MAX_NUM] *)
  attrs : list (option sensor_attr);
  pwm_timer : bool; (** armed *)
  pwm_workqueue : bool; (** created *)
  queued_works : nat; (** work items not run yet *)
  i2c_transfers : nat; (** bus transfers so far *)
}.

Inductive fan_event : Type :=
| EvMutexLock (l : fan_lock)
| EvMutexUnlock (l : fan_lock)
| EvUdelay (us : Z)
| EvI2cSend (bytes : list Z)
| EvI2cTransfer (wbytes : list Z) (wflags rlen rflags : Z)
| EvCreateFanWorkqueue
| EvDestroyFanWorkqueue
| EvFlushFanWorkqueue
| EvRegisterHwmon.

Abbreviation fanM := (M fan_event fan_data).

Definition set_mcu_lock (v : bool) (d : fan_data) : fan_data :=
  mkFan v (pwm_buf_lock d) (pwm d) (pwm_enabled d) (attrs d) (pwm_timer d) (pwm_workqueue d)
    (queued_works d) (i2c_transfers d).
Definition set_pwm_buf_lock (v : bool) (d : fan_data) : fan_data :=
  mkFan (mcu_lock d) v (pwm d) (pwm_enabled d) (attrs d) (pwm_timer d) (pwm_workqueue d)
    (queued_works d) (i2c_transfers d).
Definition with_pwm (v : list Z) (d : fan_data) : fan_data :=
  mkFan (mcu_lock d) (pwm_buf_lock d) v (pwm_enabled d) (attrs d) (pwm_timer d)
    (pwm_workqueue d) (queued_works d) (i2c_transfers d).
Definition with_pwm_enabled (v : list Z) (d : fan_data) : fan_data :=
  mkFan (mcu_lock d) (pwm_buf_lock d) (pwm d) v (attrs d) (pwm_timer d) (pwm_workqueue d)
    (queued_works d) (i2c_transfers d).
Definition set_attrs (v : list (option sensor_attr)) (d : fan_data) : fan_data :=
  mkFan (mcu_lock d) (pwm_buf_lock d) (pwm d) (pwm_enabled d) v (pwm_timer d)
    (pwm_workqueue d) (queued_works d) (i2c_transfers d).
Definition set_pwm_timer (v : bool) (d : fan_data) : fan_data :=
  mkFan (mcu_lock d) (pwm_buf_lock d) (pwm d) (pwm_enabled d) (attrs d) v (pwm_workqueue d)
    (queued_works d) (i2c_transfers d).
Definition set_pwm_workqueue (v : bool) (d : fan_data) : fan_data :=
  mkFan (mcu_lock d) (pwm_buf_lock d) (pwm d) (pwm_enabled d) (attrs d) (pwm_timer d) v
    (queued_works d) (i2c_transfers d).
Definition set_queued_works (v : nat) (d : fan_data) : fan_data :=
  mkFan (mcu_lock d) (pwm_buf_lock d) (pwm d) (pwm_enabled d) (attrs d) (pwm_timer d)
    (pwm_workqueue d) v (i2c_transfers d).
Definition set_i2c_transfers (v : nat) (d : fan_data) : fan_data :=
  mkFan (mcu_lock d) (pwm_buf_lock d) (pwm d) (pwm_enabled d) (attrs d) (pwm_timer d)
    (pwm_workqueue d) (queued_works d) v.

(** ** Mutexes and the arrays *)

Definition lock_held (l : fan_lock) (d : fan_data) : bool :=
  match l with McuLock => mcu_lock d | PwmBufLock => pwm_buf_lock d end.

Definition set_lock (l : fan_lock) (v : bool) : fan_data -> fan_data :=
  match l with McuLock => set_mcu_lock v | PwmBufLock => set_pwm_buf_lock v end.

(** Run by one thread: locking a mutex the thread holds never returns. *)
Definition mutex_lock (l : fan_lock) : fanM unit :=
  held <- gets (lock_held l) ;;
  if held then fail LoopsForever
  else emit (EvMutexLock l) ;; modify (set_lock l true).

Definition mutex_unlock (l : fan_lock) : fanM unit :=
  emit (EvMutexUnlock l) ;; modify (set_lock l false).

(** [data->pwm[i]], and a store into an array of bytes. *)
Definition array_get (a : list Z) (i : Z) : fanM Z :=
  if i <? 0 then fail OutOfBounds else of_opt OutOfBounds (a !! Z.to_nat i).

Definition array_set (a : list Z) (i v : Z) : fanM (list Z) :=
  if (0 <=? i) && (i <? Z.of_nat (length a)) then ret (<[Z.to_nat i := v]> a)
  else fail OutOfBounds.

(** ** The transport interface *)

(** The two functions of [virt_fan.h]; the caller's buffer is passed and
    returned, its length is [rlen] ([wlen]). *)
Class FanTransport : Type := {
  _fan_read : Z -> Z -> list Z -> fanM (Z * list Z);
  _fan_write : Z -> Z -> list Z -> fanM Z;
}.

(** The requests [virt_fan.c] makes, with the size of their answer. *)
Definition read_request (command : Z) (rbuf : list Z) : Prop :=
  (command = FAN_CMD_GET_RPM /\ length rbuf = 2%nat) \/
  (command = FAN_CMD_GET_PWM /\ length rbuf = 1%nat).

Definition fan_nr (nr : Z) : Prop := 1 <= nr <= FAN_MAX_NUM.

Definition fan_arrays (d : fan_data) : Prop :=
  length (pwm d) = Z.to_nat FAN_MAX_NUM /\ length (pwm_enabled d) = Z.to_nat FAN_MAX_NUM /\
  Forall is_u8 (pwm d) /\ Forall is_u8 (pwm_enabled d).

(** What a transport may change: its own count of transfers. *)
Definition same_fan (d d' : fan_data) : Prop :=
  d' = set_i2c_transfers (i2c_transfers d') d.

(** What the driver relies on: an answer of the size asked for, made of bytes,
    and the driver's state left alone.  A read is made without the buffer lock,
    a write with it. *)
Class FanTransportLaws (T : FanTransport) : Prop := {
  fan_read_law command nr rbuf d :
    fan_arrays d -> fan_nr nr -> read_request command rbuf -> Forall is_u8 rbuf ->
    pwm_buf_lock d = false ->
    wp (_fan_read command nr rbuf) d (fun r d' _ =>
      same_fan d d' /\ length r.2 = length rbuf /\ Forall is_u8 r.2);
  fan_write_law nr v d :
    fan_arrays d -> fan_nr nr -> is_u8 v ->
    wp (_fan_write FAN_CMD_SET_PWM nr [v]) d (fun _ d' _ => same_fan d d');
}.

(** ** Projections of the trace *)

Definition fan_lock_ops (es : list fan_event) : list (fan_lock * bool) :=
  es ≫= (fun e => match e with
                  | EvMutexLock l => [(l, true)]
                  | EvMutexUnlock l => [(l, false)]
                  | _ => []
                  end).

Definition i2c_sent (es : list fan_event) : list (list Z) :=
  es ≫= (fun e => match e with EvI2cSend b => [b] | _ => [] end).

Lemma fan_lock_ops_app es1 es2 :
  fan_lock_ops (es1 ++ es2) = fan_lock_ops es1 ++ fan_lock_ops es2.
Proof. apply bind_app. Qed.
Lemma i2c_sent_app es1 es2 : i2c_sent (es1 ++ es2) = i2c_sent es1 ++ i2c_sent es2.
Proof. apply bind_app. Qed.
Lemma i2c_sent_cons e es : i2c_sent (e :: es) = i2c_sent [e] ++ i2c_sent es.
Proof. apply (i2c_sent_app [e]). Qed.
Lemma fan_lock_ops_cons e es : fan_lock_ops (e :: es) = fan_lock_ops [e] ++ fan_lock_ops es.
Proof. apply (fan_lock_ops_app [e]). Qed.
#[export] Hint Rewrite fan_lock_ops_app i2c_sent_app : vdrv.

(** ** Lemmas *)

Lemma same_fan_refl d : same_fan d d.
Proof. by destruct d. Qed.

Lemma same_fan_trans d1 d2 d3 : same_fan d1 d2 -> same_fan d2 d3 -> same_fan d1 d3.
Proof. unfold same_fan. destruct d1, d2, d3; cbn. intros [= -> -> -> -> -> -> -> ->]. done. Qed.

Lemma array_get_ok a i d :
  0 <= i < Z.of_nat (length a) -> exists v, a !! Z.to_nat i = Some v /\ array_get a i d = Ok (v, d, []).
Proof.
  intros Hi. destruct (lookup_lt_is_Some_2 a (Z.to_nat i)) as [v Hv]; [lia|].
  exists v. split; [done|]. unfold array_get. rewrite (proj2 (Z.ltb_ge _ _)) by lia. by rewrite Hv.
Qed.

Lemma array_set_ok a i v d :
  0 <= i < Z.of_nat (length a) -> array_set a i v d = Ok (<[Z.to_nat i := v]> a, d, []).
Proof.
  intros Hi. unfold array_set.
  by rewrite (proj2 (Z.leb_le 0 i)), (proj2 (Z.ltb_lt _ _)) by lia.
Qed.

Lemma array_get_u8 a i d v d' es :
  Forall is_u8 a -> array_get a i d = Ok (v, d', es) -> is_u8 v.
Proof.
  intros Ha. unfold array_get. destruct (i <? 0); [done|].
  destruct (a !! Z.to_nat i) as [x|] eqn:E; [|done]. intros [= <- _ _].
  by eapply Forall_lookup_1.
Qed.

Lemma clamp_val_range v lo hi : lo <= hi -> lo <= clamp_val v lo hi <= hi.
Proof. unfold clamp_val. lia. Qed.

#[export] Hint Resolve same_fan_refl : vdrv.
