(* ===== verification/FanVirt.v ===== *)
(** * The simulated fan transport: [virt_trans.c]

    [_fan_read] answers from the driver's own [pwm] array, under the buffer
    lock; [_fan_write] does nothing. *)

From S2P Require Import Prelude FanTransport.

Definition FAN_MAX_RPM : Z := 5000.

(** [*rbuf = v] and [*(u16 * )rbuf = v], the target being little-endian. *)
Definition store_u8 (rbuf : list Z) (v : Z) : fanM (list Z) :=
  match rbuf with
  | _ :: r => ret (v :: r)
  | _ => fail OutOfBounds
  end.

Definition store_u16 (rbuf : list Z) (v : Z) : fanM (list Z) :=
  match rbuf with
  | _ :: _ :: r => ret (Z.land v 0xFF :: Z.land (Z.shiftr v 8) 0xFF :: r)
  | _ => fail OutOfBounds
  end.

Definition virt_fan_read (command nr : Z) (rbuf : list Z) : fanM (Z * list Z) :=
  if command =? FAN_CMD_GET_PWM then
    mutex_lock PwmBufLock ;;
    p <- gets pwm ;;
    v <- array_get p (nr - 1) ;;
    rbuf <- store_u8 rbuf v ;;
    mutex_unlock PwmBufLock ;;
    ret (0, rbuf)
  else if command =? FAN_CMD_GET_RPM then
    mutex_lock PwmBufLock ;;
    p <- gets pwm ;;
    v <- array_get p (nr - 1) ;;
    rbuf <- store_u16 rbuf (wrap 16 (v * FAN_MAX_RPM / 255)) ;;
    mutex_unlock PwmBufLock ;;
    ret (0, rbuf)
  else ret (0, rbuf).

Definition virt_fan_write (command nr : Z) (wbuf : list Z) : fanM Z := ret 0.

#[local] Instance fan_virt : FanTransport := {|
  _fan_read := virt_fan_read;
  _fan_write := virt_fan_write;
|}.

(** ** Lemmas *)

(** The answers of the simulation. *)
Lemma virt_fan_read_pwm nr b d :
  fan_arrays d -> fan_nr nr -> pwm_buf_lock d = false ->
  exists v, pwm d !! Z.to_nat (nr - 1) = Some v /\ is_u8 v /\
    virt_fan_read FAN_CMD_GET_PWM nr [b] d =
      Ok ((0, [v]), d, [EvMutexLock PwmBufLock; EvMutexUnlock PwmBufLock]).
Proof.
  intros (Hp & _ & Hb & _) Hnr Hl. unfold fan_nr, FAN_MAX_NUM in *.
  destruct (array_get_ok (pwm d) (nr - 1) (set_pwm_buf_lock true d)) as (v & Hv & Hget); [lia|].
  exists v. split; [done|]. split; [by eapply Forall_lookup_1|].
  unfold virt_fan_read, mutex_lock, mutex_unlock. rewrite Z.eqb_refl. run_prog.
  rewrite Hl. cbn. rewrite Hget. cbn. by destruct d; cbn in *; subst.
Qed.

Lemma virt_fan_read_rpm nr b0 b1 d :
  fan_arrays d -> fan_nr nr -> pwm_buf_lock d = false ->
  exists v, pwm d !! Z.to_nat (nr - 1) = Some v /\ is_u8 v /\
    virt_fan_read FAN_CMD_GET_RPM nr [b0; b1] d =
      Ok ((0, [Z.land (v * FAN_MAX_RPM / 255) 0xFF; Z.land (Z.shiftr (v * FAN_MAX_RPM / 255) 8) 0xFF]),
          d, [EvMutexLock PwmBufLock; EvMutexUnlock PwmBufLock]).
Proof.
  intros (Hp & _ & Hb & _) Hnr Hl. unfold fan_nr, FAN_MAX_NUM in *.
  destruct (array_get_ok (pwm d) (nr - 1) (set_pwm_buf_lock true d)) as (v & Hv & Hget); [lia|].
  exists v. split; [done|]. assert (is_u8 v) as Hv8 by by eapply Forall_lookup_1.
  split; [done|]. assert (0 <= v * FAN_MAX_RPM / 255 < 2 ^ 16) as Hr.
  { unfold is_u8, FAN_MAX_RPM in *. change (2 ^ 16) with 65536. split.
    - apply Z.div_pos; lia.
    - apply Z.div_lt_upper_bound; lia. }
  unfold virt_fan_read, mutex_lock, mutex_unlock.
  change (FAN_CMD_GET_RPM =? FAN_CMD_GET_PWM) with false. rewrite Z.eqb_refl. run_prog.
  rewrite Hl. cbn. rewrite Hget. cbn. rewrite wrap_small by done. by destruct d; cbn in *; subst.
Qed.

#[export] Instance fan_virt_laws : FanTransportLaws fan_virt.
Proof.
  split.
  - intros command nr rbuf d Ha Hnr Hreq Hb Hl. apply wp_ok. cbn [_fan_read fan_virt].
    destruct Hreq as [[-> Hlen]|[-> Hlen]].
    + destruct rbuf as [|b0 [|b1 []]]; try done.
      destruct (virt_fan_read_rpm nr b0 b1 d Ha Hnr Hl) as (v & _ & _ & ->).
      eexists _, _, _. split; [done|]. split; [apply same_fan_refl|]. split; [done|]. cbn.
      rewrite !land_ff. repeat constructor; apply Z.mod_pos_bound; lia.
    + destruct rbuf as [|b0 []]; try done.
      destruct (virt_fan_read_pwm nr b0 d Ha Hnr Hl) as (v & _ & Hv & ->).
      eexists _, _, _. split; [done|]. split; [apply same_fan_refl|]. split; [done|].
      by apply Forall_singleton.
  - intros nr v d _ _ _. apply same_fan_refl.
Qed.
