(* ===== verification/FanSmbus.v ===== *)
(** * The SMBus fan transport: [fan_trans.c]

    Requests and answers carry a packet error code (PEC).  The I2C core and
    [i2c_smbus_pec] are outside the repository: the class [I2cBus] holds them,
    with the documented facts the code relies on.  The result of a transfer may
    depend on how many were made before. *)

From S2P Require Import Prelude FanTransport.

(** Documented value of Linux's [i2c.h]. *)
Definition I2C_M_RD : Z := 0x1.

(** [i2c_transfer_ret n w len]: the result of the [n]-th transfer, which writes
    [w] and then reads [len] bytes, with the read message's buffer after it.
    A CRC over a message followed by its CRC is 0. *)
Class I2cBus : Type := {
  client_addr : Z;
  client_flags : Z;
  i2c_master_send_ret : nat -> list Z -> Z;
  i2c_transfer_ret : nat -> list Z -> nat -> Z * list Z;
  i2c_smbus_pec : Z -> list Z -> Z;
  client_addr_7bit : 0 <= client_addr < 128;
  i2c_transfer_len n w len : length (i2c_transfer_ret n w len).2 = len;
  i2c_transfer_u8 n w len : Forall is_u8 (i2c_transfer_ret n w len).2;
  i2c_smbus_pec_u8 crc l : is_u8 (i2c_smbus_pec crc l);
  i2c_smbus_pec_residue crc l : i2c_smbus_pec crc (l ++ [i2c_smbus_pec crc l]) = 0;
}.

Section smbus.
Context `{I2cBus}.

Definition i2c_master_send (bytes : list Z) : fanM Z :=
  n <- gets i2c_transfers ;;
  modify (set_i2c_transfers (S n)) ;;
  emit (EvI2cSend bytes) ;;
  ret (i2c_master_send_ret n bytes).

(** A write of [w] and a read of [len] bytes in one transfer. *)
Definition i2c_transfer (w : list Z) (len : nat) : fanM (Z * list Z) :=
  n <- gets i2c_transfers ;;
  modify (set_i2c_transfers (S n)) ;;
  emit (EvI2cTransfer w client_flags (Z.of_nat len) (Z.lor client_flags I2C_M_RD)) ;;
  ret (i2c_transfer_ret n w len).

(** The seven bytes both requests start with. *)
Definition fan_request (reg count command nr : Z) : list Z :=
  [wrap 8 (Z.shiftl client_addr 1); reg; count;
   Z.land (Z.shiftr command 16) 0xFF; Z.land (Z.shiftr command 8) 0xFF; Z.land command 0xFF;
   wrap 8 nr].

(** [rbuf] is a buffer of [rlen] bytes. *)
Definition smbus_fan_read (command nr : Z) (rbuf : list Z) : fanM (Z * list Z) :=
  let rlen := Z.of_nat (length rbuf) in
  let tx_buffer := fan_request FAN_REG_SEND 0x04 command nr in
  let tx_buffer := tx_buffer ++ [i2c_smbus_pec 0 tx_buffer] in
  sent <- i2c_master_send (take (Z.to_nat FAN_SEND_COMMAND_SIZE) (drop 1 tx_buffer)) ;;
  if negb (sent =? FAN_SEND_COMMAND_SIZE) then ret (- EIO, rbuf)
  else
    emit (EvUdelay 100) ;;
    if BUFFER_SIZE <? FAN_RECV_CONTROL_NUM_OFFSET + rlen + FAN_RECV_CONTROL_AND_PEC_SIZE
    then fail OutOfBounds
    else
      answer <- i2c_transfer [FAN_REG_RECV] (Z.to_nat (rlen + FAN_RECV_CONTROL_AND_PEC_SIZE)) ;;
      let tx_buffer :=
        [wrap 8 (Z.shiftl client_addr 1); FAN_REG_RECV; wrap 8 (Z.lor (Z.shiftl client_addr 1) 1)]
          ++ answer.2 in
      if negb (answer.1 =? 2) then ret (- EIO, rbuf)
      else
        num <- array_get tx_buffer FAN_RECV_CONTROL_NUM_OFFSET ;;
        if negb (num =? rlen + 1) then ret (- EIO, rbuf)
        else
          let covered := take (Z.to_nat (rlen + FAN_RECV_PEC_EXCEPT_CONTENT_SIZE)) tx_buffer in
          if negb (i2c_smbus_pec 0 covered =? 0) then ret (- EIO, rbuf)
          else ret (0, take (length rbuf) (drop (Z.to_nat FAN_RECV_CONTENT_OFFSET) tx_buffer)).

(** [wbuf] is a buffer of [wlen] bytes. *)
Definition smbus_fan_write (command nr : Z) (wbuf : list Z) : fanM Z :=
  let wlen := Z.of_nat (length wbuf) in
  if BUFFER_SIZE <=? FAN_SEND_PEC_SIZE + wlen then fail OutOfBounds
  else
    let tx_buffer := fan_request FAN_REG_SET_PWM 0x05 command nr ++ wbuf in
    let tx_buffer := tx_buffer ++ [i2c_smbus_pec 0 tx_buffer] in
    let len := FAN_SEND_COMMAND_SIZE + wlen in
    sent <- i2c_master_send (take (Z.to_nat len) (drop 1 tx_buffer)) ;;
    if negb (sent =? len) then ret (- EIO) else ret sent.

#[local] Instance fan_smbus : FanTransport := {|
  _fan_read := smbus_fan_read;
  _fan_write := smbus_fan_write;
|}.

(** ** Specification *)

(** A message as the peer checks it: the address byte, then what is sent. *)
Definition pec_valid (rw : Z) (msg : list Z) : Prop :=
  i2c_smbus_pec 0 (wrap 8 (Z.lor (Z.shiftl client_addr 1) rw) :: msg) = 0.

(** The answer [resp] to a read of [n] bytes is accepted with [content]. *)
Definition answer_valid (n : nat) (resp content : list Z) : Prop :=
  exists num ctl pec, resp = [num; ctl] ++ content ++ [pec] /\ length content = n /\
    num = Z.of_nat n + 1 /\
    pec_valid 0 (FAN_REG_RECV :: wrap 8 (Z.lor (Z.shiftl client_addr 1) 1) :: resp).

(** ** Lemmas *)

Lemma split_answer (resp : list Z) n :
  length resp = (n + 3)%nat ->
  exists num ctl content pec, resp = [num; ctl] ++ content ++ [pec] /\ length content = n.
Proof.
  intros Hl. destruct resp as [|num [|ctl r]]; [cbn in Hl; lia|cbn in Hl; lia|].
  destruct (drop n r) as [|pec [|]] eqn:Hr;
    apply (f_equal length) in Hr as Hlr; rewrite length_drop in Hlr; cbn in *; try lia.
  exists num, ctl, (take n r), pec. rewrite <- Hr, take_drop. split; [done|].
  rewrite length_take. lia.
Qed.

Lemma fan_request_pec reg count command nr rest :
  let msg := fan_request reg count command nr ++ rest in
  pec_valid 0 (drop 1 (msg ++ [i2c_smbus_pec 0 msg])).
Proof. cbv zeta. unfold pec_valid. rewrite Z.lor_0_r.
  exact (i2c_smbus_pec_residue 0 (fan_request reg count command nr ++ rest)). Qed.

(** The outcome of a read whose send succeeded, from the bus's answer. *)
Lemma smbus_fan_read_answer command nr rbuf d :
  (length rbuf <= 58)%nat ->
  let msg := fan_request FAN_REG_SEND 0x04 command nr in
  let wire := drop 1 (msg ++ [i2c_smbus_pec 0 msg]) in
  let sent := i2c_master_send_ret (i2c_transfers d) wire in
  let answer := i2c_transfer_ret (S (i2c_transfers d)) [FAN_REG_RECV] (length rbuf + 3) in
  exists r d' es, smbus_fan_read command nr rbuf d = Ok (r, d', es) /\
    same_fan d d' /\ i2c_sent es = [wire] /\ fan_lock_ops es = [] /\
    ((exists content, sent = 7 /\ answer.1 = 2 /\ answer_valid (length rbuf) answer.2 content /\
        r = (0, content)) \/
     (r = (- EIO, rbuf) /\ forall content,
        ~ (sent = 7 /\ answer.1 = 2 /\ answer_valid (length rbuf) answer.2 content))).
Proof.
  intros Hlen msg wire sent answer.
  assert (take (Z.to_nat FAN_SEND_COMMAND_SIZE) wire = wire) as Hwire by done.
  unfold smbus_fan_read. cbv zeta. fold msg wire. rewrite Hwire. clearbody wire. clear Hwire.
  unfold i2c_master_send, i2c_transfer.
  rewrite (proj2 (Z.ltb_ge _ _))
    by (unfold BUFFER_SIZE, FAN_RECV_CONTROL_NUM_OFFSET, FAN_RECV_CONTROL_AND_PEC_SIZE; lia).
  replace (Z.to_nat (Z.of_nat (length rbuf) + FAN_RECV_CONTROL_AND_PEC_SIZE)) with (length rbuf + 3)%nat
    by (unfold FAN_RECV_CONTROL_AND_PEC_SIZE; lia).
  run_prog. fold sent. destruct (Z.eqb_spec sent FAN_SEND_COMMAND_SIZE) as [Hs|Hs]; cbn.
  2: { eexists _, _, _. split; [done|]. do 3 (split; [by destruct d|]). right. split; [done|].
       by intros content (? & _). }
  fold answer. destruct (Z.eqb_spec answer.1 2) as [Ha|Ha]; cbn.
  2: { eexists _, _, _. split; [done|]. do 3 (split; [by destruct d|]). right. split; [done|].
       by intros content (_ & ? & _). }
  destruct (split_answer answer.2 (length rbuf)) as (num & ctl & content & pec & Hresp & Hc).
  { unfold answer. apply i2c_transfer_len. }
  rewrite Hresp. change (Z.to_nat FAN_RECV_CONTROL_NUM_OFFSET) with 3%nat.
  change (Z.to_nat FAN_RECV_CONTENT_OFFSET) with 5%nat. cbn.
  assert (forall content', answer_valid (length rbuf) answer.2 content' -> content' = content /\
    num = Z.of_nat (length rbuf) + 1 /\
    pec_valid 0 (FAN_REG_RECV :: wrap 8 (Z.lor (Z.shiftl client_addr 1) 1) :: answer.2)) as Hinv.
  { intros content' (num' & ctl' & pec' & E & Hl & Hn & Hp). rewrite Hresp in E.
    injection E as -> -> E. apply app_inj_2 in E as [-> [= ->]]; [|done]. done. }
  rewrite Hresp in Hinv. cbn [app] in Hinv.
  destruct (Z.eqb_spec num (Z.of_nat (length rbuf) + 1)) as [Hn|Hn]; cbn.
  2: { eexists _, _, _. split; [done|]. do 3 (split; [by destruct d|]). right. split; [done|].
       intros c (_ & _ & Hv). by apply Hinv in Hv as (_ & ? & _). }
  rewrite take_ge
    by (cbn [length]; rewrite length_app; cbn [length]; unfold FAN_RECV_PEC_EXCEPT_CONTENT_SIZE; lia).
  destruct (Z.eqb_spec (i2c_smbus_pec 0 (wrap 8 (Z.shiftl client_addr 1) :: FAN_REG_RECV ::
    wrap 8 (Z.lor (Z.shiftl client_addr 1) 1) :: num :: ctl :: content ++ [pec])) 0) as [Hp|Hp]; cbn.
  - eexists _, _, _. split; [done|]. do 3 (split; [by destruct d|]). left. exists content.
    rewrite <- Hc, drop_0, take_app_length. split; [done|]. split; [done|]. split; [|done].
    exists num, ctl, pec. rewrite Hc. split_and!; try done. unfold pec_valid. by rewrite Z.lor_0_r.
  - eexists _, _, _. split; [done|]. do 3 (split; [by destruct d|]). right. split; [done|].
    intros c (_ & _ & Hv). apply Hinv in Hv as (_ & _ & Hv). destruct Hp.
    unfold pec_valid in Hv. by rewrite Z.lor_0_r in Hv.
Qed.

Lemma smbus_fan_write_cases command nr v d :
  let msg := fan_request FAN_REG_SET_PWM 0x05 command nr ++ [v] in
  let wire := drop 1 (msg ++ [i2c_smbus_pec 0 msg]) in
  smbus_fan_write command nr [v] d =
    Ok (if i2c_master_send_ret (i2c_transfers d) wire =? 8 then 8 else - EIO,
        set_i2c_transfers (S (i2c_transfers d)) d, [EvI2cSend wire]).
Proof.
  intros msg wire. unfold smbus_fan_write. change (BUFFER_SIZE <=? _) with false. cbv zeta.
  assert (take 8 wire = wire) as Hw by done. cbn [length]. fold msg.
  change (FAN_SEND_COMMAND_SIZE + Z.of_nat 1) with 8. change (Z.to_nat 8) with 8%nat.
  fold wire. rewrite Hw. clearbody wire. unfold i2c_master_send. run_prog.
  by destruct (Z.eqb_spec (i2c_master_send_ret (i2c_transfers d) wire) 8) as [->|].
Qed.

#[export] Instance fan_smbus_laws : FanTransportLaws fan_smbus.
Proof.
  split.
  - intros command nr rbuf d _ _ Hreq Hb _. apply wp_ok.
    assert (length rbuf <= 58)%nat as Hl by (destruct Hreq as [[_ ->]|[_ ->]]; lia).
    destruct (smbus_fan_read_answer command nr rbuf d Hl) as (r & d' & es & Hrun & Hs & _ & _ & Hr).
    eexists _, _, _. split; [exact Hrun|]. split; [done|]. destruct Hr as [Hr|[-> _]]; [|done].
    destruct Hr as (content & _ & _ & (num & ctl & pec & Hresp & Hc & _) & ->). split; [done|].
    pose proof (i2c_transfer_u8 (S (i2c_transfers d)) [FAN_REG_RECV] (length rbuf + 3)) as Hu.
    rewrite Hresp in Hu. rewrite !Forall_app in Hu. apply Hu.
  - intros nr v d _ _ _. unfold wp. cbn [_fan_write fan_smbus]. rewrite smbus_fan_write_cases.
    by destruct d.
Qed.

(** ** The main properties *)

(** C15: a read trusts only what the packet error code covers.  The request on
    the bus is seven bytes whose PEC verifies; the read succeeds exactly when
    both transfers do and the answer has the count asked for and a PEC that
    verifies over both addresses, the register and the answer; then the
    caller's buffer holds the answer's content.  In every other case it
    returns [-EIO] and leaves the buffer as it was. *)
Theorem smbus_read_verified command nr rbuf d :
  (length rbuf <= 58)%nat ->
  wp (_fan_read command nr rbuf) d (fun r d' es =>
    exists wire, i2c_sent es = [wire] /\ length wire = 7%nat /\ pec_valid 0 wire /\
      let sent := i2c_master_send_ret (i2c_transfers d) wire in
      let answer := i2c_transfer_ret (S (i2c_transfers d)) [FAN_REG_RECV] (length rbuf + 3) in
      (r.1 = 0 \/ r = (- EIO, rbuf)) /\
      (forall content, r = (0, content) <->
         sent = 7 /\ answer.1 = 2 /\ answer_valid (length rbuf) answer.2 content)).
Proof.
  intros Hl. destruct (smbus_fan_read_answer command nr rbuf d Hl) as (r & d' & es & Hrun & _ & Hs & _ & Hr).
  apply wp_ok. exists r, d', es. split; [exact Hrun|]. eexists. split; [exact Hs|]. split; [done|].
  split; [apply (fan_request_pec _ _ _ _ [])|]. cbv zeta in *.
  destruct Hr as [(content & H1 & H2 & H3 & ->)|[-> Hno]].
  - split; [by left|]. intros c. split; [by intros [= <-]|]. intros (_ & _ & H4). f_equal.
    destruct H3 as (n1 & c1 & p1 & E1 & L1 & _), H4 as (n2 & c2 & p2 & E2 & L2 & _).
    rewrite E1 in E2. injection E2 as _ _ E. by apply app_inj_2 in E as [-> _].
  - split; [by right|]. intros c. split; [|by intros Hc; apply Hno in Hc].
    by intros [= ?].
Qed.
End smbus.

(** ** Witnesses *)

(** A bus whose device answers every read of two content bytes with
    [0x12 0x34]; the checksum is an XOR of the bytes, which also has residue 0. *)
Definition xor8 (crc : Z) (l : list Z) : Z := wrap 8 (foldl Z.lxor crc l).

Lemma xor8_residue crc l : xor8 crc (l ++ [xor8 crc l]) = 0.
Proof.
  unfold xor8. rewrite foldl_app. cbn. set (x := foldl Z.lxor crc l).
  rewrite !wrap_land by done. apply Z.bits_inj'. intros i Hi.
  rewrite Z.land_spec, Z.lxor_spec, Z.land_spec, Z.bits_0.
  by destruct (Z.testbit x i), (Z.testbit (Z.ones 8) i).
Qed.

Definition answer_example (len : nat) : list Z :=
  let body := take (len - 1) ([3; 1; 0x12; 0x34] ++ replicate len 0) in
  body ++ take (len - length body) [xor8 0 ([0x60; FAN_REG_RECV; 0x61] ++ body)].

#[export] Instance bus_example : I2cBus.
Proof.
  refine {|
    client_addr := 0x30;
    client_flags := 0;
    i2c_master_send_ret _ bytes := Z.of_nat (length bytes);
    i2c_transfer_ret _ _ len := (2, answer_example len);
    i2c_smbus_pec := xor8;
  |}.
  - done.
  - intros _ _ len. cbn [snd]. unfold answer_example.
    rewrite length_app, !length_take, !length_app, length_replicate. cbn [length]. lia.
  - intros _ _ len. cbn [snd]. unfold answer_example.
    apply Forall_app. split; apply Forall_take.
    + apply Forall_app. split; [by repeat constructor|]. by apply Forall_replicate.
    + apply Forall_singleton. apply wrap_range. lia.
  - intros crc l. apply wrap_range. lia.
  - apply xor8_residue.
Defined.

Definition fan_example : fan_data :=
  mkFan false false (replicate 16 0x4c) (replicate 16 0) [] false false 0 0.

Lemma smbus_read_verified_witness :
  (length [0; 0] <= 58)%nat /\
  wp (_fan_read (FanTransport := fan_smbus) FAN_CMD_GET_RPM 1 [0; 0]) fan_example (fun r d' es =>
    exists wire, i2c_sent es = [wire] /\ length wire = 7%nat /\ pec_valid 0 wire /\
      let sent := i2c_master_send_ret 0 wire in
      let answer := i2c_transfer_ret 1 [FAN_REG_RECV] 5 in
      (r.1 = 0 \/ r = (- EIO, [0; 0])) /\
      (forall content, r = (0, content) <->
         sent = 7 /\ answer.1 = 2 /\ answer_valid 2 answer.2 content)).
Proof.
  split; [cbn; lia|].
  apply (smbus_read_verified FAN_CMD_GET_RPM 1 [0; 0] fan_example). cbn. lia.
Defined.

Example smbus_read_rpm_example :
  exists es, _fan_read (FanTransport := fan_smbus) FAN_CMD_GET_RPM 1 [0; 0] fan_example =
    Ok ((0, [0x12; 0x34]), set_i2c_transfers 2 fan_example, es).
Proof. eexists. vm_compute. reflexivity. Qed.
