(* ===== verification/FanLocks.v ===== *)
(** * Threads on the fan driver's two mutexes

    The interleavings of any number of threads, each given by the sequence of
    lock operations it makes; a lock order, and that threads which respect it
    never block each other for ever. *)

From S2P Require Import Prelude FanTransport.

(** ** Definitions *)

(** Who owns each mutex, and what every thread still does with them. *)
Record lock_conf : Type := mkConf {
  mcu_owner : option nat;
  pwm_owner : option nat;
  lock_rest : list (list (fan_lock * bool));
}.

Definition lock_owner (l : fan_lock) (c : lock_conf) : option nat :=
  match l with McuLock => mcu_owner c | PwmBufLock => pwm_owner c end.

Definition lock_move (l : fan_lock) (o : option nat) (i : nat) (r : list (fan_lock * bool))
    (c : lock_conf) : lock_conf :=
  match l with
  | McuLock => mkConf o (pwm_owner c) (<[i := r]> (lock_rest c))
  | PwmBufLock => mkConf (mcu_owner c) o (<[i := r]> (lock_rest c))
  end.

Inductive lock_step : lock_conf -> lock_conf -> Prop :=
| lock_acquire c i l r :
    lock_rest c !! i = Some ((l, true) :: r) -> lock_owner l c = None ->
    lock_step c (lock_move l (Some i) i r c)
| lock_release c i l r :
    lock_rest c !! i = Some ((l, false) :: r) -> lock_owner l c = Some i ->
    lock_step c (lock_move l None i r c).

Definition lock_start (threads : list (list (fan_lock * bool))) : lock_conf :=
  mkConf None None threads.

Definition lock_finished (c : lock_conf) : Prop := Forall (fun r => r = []) (lock_rest c).

(** The buffer mutex before the MCU mutex, each released by its owner;
    [hp] and [hm]: they are held. *)
Fixpoint lock_ordered (hp hm : bool) (r : list (fan_lock * bool)) : bool :=
  match r with
  | [] => negb hp && negb hm
  | (PwmBufLock, true) :: r => negb hp && negb hm && lock_ordered true hm r
  | (McuLock, true) :: r => negb hm && lock_ordered hp true r
  | (PwmBufLock, false) :: r => hp && lock_ordered false hm r
  | (McuLock, false) :: r => hm && lock_ordered hp false r
  end.

Definition lock_inv (c : lock_conf) : Prop :=
  (forall i r, lock_rest c !! i = Some r ->
     lock_ordered (bool_decide (pwm_owner c = Some i)) (bool_decide (mcu_owner c = Some i)) r = true) /\
  (forall l i, lock_owner l c = Some i -> (i < length (lock_rest c))%nat).

(** ** Lemmas *)

(** Decide which thread owns a mutex. *)
Ltac owner_cases :=
  repeat match goal with
  | H : context [bool_decide (Some ?i = Some ?i)] |- _ =>
      rewrite (bool_decide_eq_true_2 (Some i = Some i)) in H by done
  | |- context [bool_decide (Some ?i = Some ?i)] =>
      rewrite (bool_decide_eq_true_2 (Some i = Some i)) by done
  | H : context [bool_decide (None = Some ?i)] |- _ =>
      rewrite (bool_decide_eq_false_2 (None = Some i)) in H by done
  | |- context [bool_decide (None = Some ?i)] =>
      rewrite (bool_decide_eq_false_2 (None = Some i)) by done
  | H : context [bool_decide (Some ?i = Some ?j)] |- _ =>
      rewrite (bool_decide_eq_false_2 (Some i = Some j)) in H by congruence
  | |- context [bool_decide (Some ?i = Some ?j)] =>
      rewrite (bool_decide_eq_false_2 (Some i = Some j)) by congruence
  end.

Lemma lock_inv_step c c' : lock_step c c' -> lock_inv c -> lock_inv c'.
Proof.
  intros Hstep [Hord Hdom].
  destruct Hstep as [c i l r Hr Ho|c i l r Hr Ho]; pose proof (Hord _ _ Hr) as Hi;
    apply lookup_lt_Some in Hr as Hlt; split.
  2, 4: intros l' j; destruct l, l'; cbn; rewrite length_insert; intros H'; simplify_eq; try done;
    first [by apply (Hdom McuLock)|by apply (Hdom PwmBufLock)].
  all: intros j s Hj; destruct l; cbn in *; destruct (decide (j = i)) as [->|Hne];
    rewrite ?list_lookup_insert_eq, ?list_lookup_insert_ne in Hj by done; simplify_eq;
    try (specialize (Hord _ _ Hj)); rewrite Ho in *; owner_cases; cbn in *; try done.
  all: by repeat (apply andb_prop in Hi as [? Hi]).
Qed.

(** Under the order some thread can always go on. *)
Lemma lock_inv_progress c : lock_inv c -> lock_finished c \/ exists c', lock_step c c'.
Proof.
  intros [Hord Hdom].
  assert (forall i l r, lock_rest c !! i = Some ((l, false) :: r) -> lock_owner l c = Some i ->
    exists c', lock_step c c') as Hrel by (intros; eexists; by eapply lock_release).
  destruct (mcu_owner c) as [i|] eqn:Hm.
  - right. destruct (lookup_lt_is_Some_2 (lock_rest c) i) as [r Hr]; [by apply (Hdom McuLock)|].
    specialize (Hord _ _ Hr). rewrite (bool_decide_eq_true_2 (Some i = Some i)) in Hord by done.
    destruct r as [|[[] []] r]; cbn in Hord; rewrite ?andb_false_r in Hord; try done.
    + by eapply Hrel.
    + apply andb_prop in Hord as [Hp _]. apply bool_decide_eq_true in Hp. by eapply Hrel.
  - destruct (pwm_owner c) as [i|] eqn:Hp.
    + right. destruct (lookup_lt_is_Some_2 (lock_rest c) i) as [r Hr]; [by apply (Hdom PwmBufLock)|].
      specialize (Hord _ _ Hr). rewrite (bool_decide_eq_true_2 (Some i = Some i)) in Hord by done.
      rewrite (bool_decide_eq_false_2 (None = Some i)) in Hord by done.
      destruct r as [|[[] []] r]; cbn in Hord; try done.
      * eexists. by eapply lock_acquire.
      * by eapply Hrel.
    + destruct (decide (Forall (fun r => r = []) (lock_rest c))) as [Hf|Hf]; [by left|right].
      apply not_Forall_Exists, Exists_exists in Hf; [|apply _].
      destruct Hf as (r & Hin & Hne). cbn in Hne. apply list_elem_of_lookup in Hin as [i Hr].
      specialize (Hord _ _ Hr). rewrite !(bool_decide_eq_false_2 (None = Some i)) in Hord by done.
      destruct r as [|[[] []] r]; cbn in Hord; try done; eexists; eapply lock_acquire; (exact Hr || done).
Qed.

Lemma lock_inv_start threads :
  Forall (fun r => lock_ordered false false r = true) threads -> lock_inv (lock_start threads).
Proof.
  intros Hf. split; [|by intros []]. cbn. intros i r Hr.
  rewrite (bool_decide_eq_false_2 (None = Some i)) by done. by eapply Forall_lookup_1 in Hf.
Qed.
