(* ===== verification/FanDriver.v ===== *)
(** * The fan driver: [virt_fan.c]

    The sysfs attributes, the periodic update of the fans by a timer and a work
    item, probe and remove, over any transport; then their properties with
    each of the two transports, and the interleavings of several threads on
    the driver's two mutexes. *)

From S2P Require Import Prelude FanTransport FanVirt FanSmbus FanLocks.

(** The octal modes of the attributes. *)
Definition S_0444 : Z := 0x124.
Definition S_0644 : Z := 0x1A4.

(** ** Operations *)

(** The loop of [fan_read] and [fan_write]; [last] is what the previous attempt
    left.  The bound is positive, so the initial [last] is never returned. *)
Fixpoint fan_retry {A : Type} (n : nat) (code : A -> Z) (attempt : A -> fanM A) (last : A) :
    fanM A :=
  match n with
  | O => ret last
  | S n =>
      r <- attempt last ;;
      if code r =? 0 then ret r
      else emit (EvUdelay 1000) ;; fan_retry n code attempt r
  end.

Section driver.
Context {T : FanTransport} {K : KStrtoul}.

Definition fan_read (command nr : Z) (rbuf : list Z) : fanM (Z * list Z) :=
  mutex_lock McuLock ;;
  r <- fan_retry FAN_FAIL_MAX_RETRY fst (fun last => _fan_read command nr last.2) (0, rbuf) ;;
  mutex_unlock McuLock ;;
  ret r.

Definition fan_write (command nr : Z) (wbuf : list Z) : fanM Z :=
  mutex_lock McuLock ;;
  r <- fan_retry FAN_FAIL_MAX_RETRY id (fun _ => _fan_write command nr wbuf) 0 ;;
  mutex_unlock McuLock ;;
  ret r.

(** The show functions return their result and the text in [buf]; [stack] is
    what the uninitialised local holds. *)
Definition show_fan (nr : Z) (stack : Z * Z) : fanM (Z * string) :=
  r <- fan_read FAN_CMD_GET_RPM nr [stack.1; stack.2] ;;
  if r.1 <? 0 then ret (r.1, EmptyString)
  else
    lo <- array_get r.2 0 ;;
    hi <- array_get r.2 1 ;;
    let text := sprintf_d (Z.lor (Z.shiftl hi 8) lo) in
    ret (str_len text, text).

Definition show_pwm (nr : Z) (stack : Z) : fanM (Z * string) :=
  r <- fan_read FAN_CMD_GET_PWM nr [stack] ;;
  if r.1 <? 0 then ret (r.1, EmptyString)
  else
    v <- array_get r.2 0 ;;
    ret (str_len (sprintf_d v), sprintf_d v).

Definition set_pwm (nr : Z) (buf : string) : fanM Z :=
  match kstrtoul buf with
  | inl err => ret err
  | inr val =>
      let val := clamp_val val 0 255 in
      mutex_lock PwmBufLock ;;
      p <- gets pwm ;;
      p <- array_set p (nr - 1) (wrap 8 val) ;;
      modify (with_pwm p) ;;
      mutex_unlock PwmBufLock ;;
      ret (str_len buf)
  end.

Definition show_pwm_enable (nr : Z) : fanM (Z * string) :=
  p <- gets pwm_enabled ;;
  v <- array_get p (nr - 1) ;;
  ret (str_len (sprintf_d v), sprintf_d v).

Definition set_pwm_enable (nr : Z) (buf : string) : fanM Z :=
  match kstrtoul buf with
  | inl err => ret err
  | inr val =>
      if (val <? 0) || (1 <? val) then ret (- EINVAL)
      else
        p <- gets pwm_enabled ;;
        p <- array_set p (nr - 1) (wrap 8 val) ;;
        modify (with_pwm_enabled p) ;;
        ret (str_len buf)
  end.

(** [for (nr = 1; nr <= num_fans; nr++)]. *)
Definition for_fans (num_fans : Z) (body : Z -> fanM unit) : fanM unit :=
  for_each (seqZ 1 num_fans) body.

Definition fan_pwm_init (num_fans : Z) : fanM unit :=
  mutex_lock PwmBufLock ;;
  for_fans num_fans (fun nr =>
    p <- gets pwm ;;
    p <- array_set p (nr - 1) 0x4c ;;
    modify (with_pwm p)) ;;
  mutex_unlock PwmBufLock.

Definition update_pwm (nr val : Z) : fanM unit :=
  let val := clamp_val val 0 255 in
  _ <- fan_write FAN_CMD_SET_PWM nr [val] ;;
  ret tt.

(** [num_fans], a module parameter, is read each time the work runs. *)
Definition fan_update_pwm_work_callback (num_fans : Z) : fanM unit :=
  mutex_lock PwmBufLock ;;
  for_fans num_fans (fun nr =>
    p <- gets pwm ;;
    v <- array_get p (nr - 1) ;;
    update_pwm nr v) ;;
  mutex_unlock PwmBufLock ;;
  modify (fun d => set_queued_works (pred (queued_works d)) d).

(** [kmalloc_ok]: the allocation of the work item, which is not checked. *)
Definition fan_update_pwm_timer_callback (kmalloc_ok : bool) : fanM unit :=
  if negb kmalloc_ok then fail NullDeref
  else
    modify (fun d => set_queued_works (S (queued_works d)) d) ;;
    modify (set_pwm_timer true).

Definition fan_init (num_fans : Z) (workqueue_ok : bool) : fanM Z :=
  modify (set_mcu_lock false) ;;
  modify (set_pwm_buf_lock false) ;;
  emit EvCreateFanWorkqueue ;;
  modify (set_pwm_workqueue workqueue_ok) ;;
  if negb workqueue_ok then ret (- ENOMEM)
  else
    fan_pwm_init num_fans ;;
    modify (set_pwm_timer true) ;;
    ret 0.

(** [data->attrs[slot] = &a->dev_attr.attr]. *)
Definition store_attr (slot : Z) (a : sensor_attr) : fanM unit :=
  l <- gets attrs ;;
  if (0 <=? slot) && (slot <? Z.of_nat (length l))
  then modify (set_attrs (<[Z.to_nat slot := Some a]> l))
  else fail OutOfBounds.

Definition attr_title (ops : fan_attr_ops) (i : Z) : string :=
  match ops with
  | OpsFanInput => "fan" +:+ pretty i +:+ "_input"
  | OpsPwm => "pwm" +:+ pretty i
  | OpsPwmEnable => "pwm" +:+ pretty i +:+ "_enable"
  end.

(** The macro; [true]: it has returned [-ENOMEM] from the probe.  [oom i ops]
    tells whether one of its two allocations fails. *)
Definition FAN_ADD_SENSOR_ATTR (oom : Z -> fan_attr_ops -> bool) (ops : fan_attr_ops)
    (mode index slot : Z) : fanM bool :=
  if oom index ops then ret true
  else store_attr slot (mkAttr (attr_title ops index) ops mode index) ;; ret false.

Fixpoint fan_add_attrs (oom : Z -> fan_attr_ops -> bool) (l : list Z) : fanM bool :=
  match l with
  | [] => ret false
  | i :: r =>
      e <- FAN_ADD_SENSOR_ATTR oom OpsFanInput S_0444 (i + 1) (i * FAN_ITEM_NUM) ;;
      if e then ret true
      else
        e <- FAN_ADD_SENSOR_ATTR oom OpsPwm S_0644 (i + 1) (i * FAN_ITEM_NUM + 1) ;;
        if e then ret true
        else
          e <- FAN_ADD_SENSOR_ATTR oom OpsPwmEnable S_0644 (i + 1) (i * FAN_ITEM_NUM + 2) ;;
          if e then ret true else fan_add_attrs oom r
  end.

(** What the kernel answers during the probe. *)
Record fan_probe_env : Type := mkFanEnv {
  data_alloc_ok : bool;
  attrs_alloc_ok : bool;
  attr_oom : Z -> fan_attr_ops -> bool;
  hwmon_err : option Z;
  fan_workqueue_ok : bool;
}.

Definition fan_zero (transfers : nat) : fan_data :=
  mkFan false false (replicate (Z.to_nat FAN_MAX_NUM) 0) (replicate (Z.to_nat FAN_MAX_NUM) 0)
    [] false false 0 transfers.

Definition fan_probe (num_fans : Z) (env : fan_probe_env) : fanM Z :=
  if (num_fans <=? 0) || (FAN_MAX_NUM <? num_fans) then ret (- EINVAL)
  else if negb (data_alloc_ok env) then ret (- ENOMEM)
  else
    modify (fun d => fan_zero (i2c_transfers d)) ;;
    if negb (attrs_alloc_ok env) then ret (- ENOMEM)
    else
      modify (set_attrs (replicate (Z.to_nat (num_fans * FAN_ITEM_NUM + 1)) None)) ;;
      e <- fan_add_attrs (attr_oom env) (seqZ 0 num_fans) ;;
      if e then ret (- ENOMEM)
      else
        emit EvRegisterHwmon ;;
        match hwmon_err env with
        | Some err => ret err
        | None => fan_init num_fans (fan_workqueue_ok env)
        end.

(** [flush_workqueue] runs the works that are queued. *)
Definition fan_remove (num_fans : Z) : fanM unit :=
  modify (set_pwm_timer false) ;;
  emit EvFlushFanWorkqueue ;;
  works <- gets queued_works ;;
  for_each (seq 0 works) (fun _ => fan_update_pwm_work_callback num_fans) ;;
  emit EvDestroyFanWorkqueue ;;
  modify (set_pwm_workqueue false).

(** The entry points a thread may be in while the device is bound. *)
Inductive fan_op : Type :=
| OpShowFan (nr : Z) (stack : Z * Z)
| OpShowPwm (nr : Z) (stack : Z)
| OpSetPwm (nr : Z) (buf : string)
| OpShowPwmEnable (nr : Z)
| OpSetPwmEnable (nr : Z) (buf : string)
| OpWork (num_fans : Z).

Definition discard {A : Type} (m : fanM A) : fanM unit := _ <- m ;; ret tt.

Definition run_op (op : fan_op) : fanM unit :=
  match op with
  | OpShowFan nr stack => discard (show_fan nr stack)
  | OpShowPwm nr stack => discard (show_pwm nr stack)
  | OpSetPwm nr buf => discard (set_pwm nr buf)
  | OpShowPwmEnable nr => discard (show_pwm_enable nr)
  | OpSetPwmEnable nr buf => discard (set_pwm_enable nr buf)
  | OpWork num_fans => fan_update_pwm_work_callback num_fans
  end.
End driver.

(** ** Invariant *)

(** Between entry points: the arrays as declared, holding bytes, and both
    mutexes free. *)
Definition fan_wf (d : fan_data) : Prop :=
  fan_arrays d /\ mcu_lock d = false /\ pwm_buf_lock d = false.

(** The arguments the kernel passes: the index of an attribute the probe made.
    The work takes whatever is in the writable parameter [num_fans]. *)
Definition op_args (op : fan_op) : Prop :=
  match op with
  | OpShowFan nr stack => fan_nr nr /\ is_u8 stack.1 /\ is_u8 stack.2
  | OpShowPwm nr stack => fan_nr nr /\ is_u8 stack
  | OpSetPwm nr _ | OpShowPwmEnable nr | OpSetPwmEnable nr _ => fan_nr nr
  | OpWork _ => True
  end.

(** The number of fans an update finds is within the arrays. *)
Definition within_arrays (op : fan_op) : Prop :=
  match op with OpWork num_fans => num_fans <= FAN_MAX_NUM | _ => True end.

#[export] Instance within_arrays_dec op : Decision (within_arrays op).
Proof. destruct op; apply _. Defined.

(** ** Lemmas *)

Lemma fan_retry_wp {A : Type} n code (attempt : A -> fanM A) last d (I : A -> fan_data -> Prop) :
  I last d ->
  (forall a d0, I a d0 -> wp (attempt a) d0 (fun r d1 _ => I r d1)) ->
  wp (fan_retry n code attempt last) d (fun r d' _ => I r d').
Proof.
  intros HI Ha. revert last d HI. induction n as [|n IH]; intros last d HI; [done|].
  cbn [fan_retry]. apply wp_bind. eapply wp_mono; [by apply Ha|]. intros r d1 e1 H1. cbn.
  destruct (code r =? 0); [done|]. apply wp_bind. unfold wp at 1, emit.
  eapply wp_mono; [by apply IH|]. done.
Qed.

Lemma fan_nr_index d nr :
  fan_arrays d -> fan_nr nr ->
  0 <= nr - 1 < Z.of_nat (length (pwm d)) /\ 0 <= nr - 1 < Z.of_nat (length (pwm_enabled d)).
Proof. intros (-> & -> & _) Hnr. unfold fan_nr, FAN_MAX_NUM in *. lia. Qed.

Lemma same_fan_arrays d d' : same_fan d d' -> fan_arrays d -> fan_arrays d'.
Proof. unfold same_fan. intros ->. by destruct d. Qed.

Lemma fan_arrays_lock l v d : fan_arrays (set_lock l v d) <-> fan_arrays d.
Proof. by destruct l, d. Qed.

Lemma clamp_u8 v : is_u8 (clamp_val v 0 255).
Proof. unfold is_u8. pose proof (clamp_val_range v 0 255). lia. Qed.

Lemma fan_arrays_set_pwm d i v :
  fan_arrays d -> is_u8 v -> fan_arrays (with_pwm (<[i := v]> (pwm d)) d).
Proof.
  intros (H1 & H2 & H3 & H4) Hv. unfold fan_arrays, with_pwm, with_pwm_enabled.
  cbn [pwm pwm_enabled]. split; [by rewrite length_insert|].
  split_and!; try done. by apply Forall_insert.
Qed.

Lemma fan_arrays_set_enabled d i v :
  fan_arrays d -> is_u8 v -> fan_arrays (with_pwm_enabled (<[i := v]> (pwm_enabled d)) d).
Proof.
  intros (H1 & H2 & H3 & H4) Hv. unfold fan_arrays, with_pwm, with_pwm_enabled.
  cbn [pwm pwm_enabled]. split; [done|].
  split; [by rewrite length_insert|]. split; [done|]. by apply Forall_insert.
Qed.

Lemma wp_mutex_lock {A : Type} l (k : fanM A) d Q :
  lock_held l d = false -> wp k (set_lock l true d) (fun a d' es => Q a d' (EvMutexLock l :: es)) ->
  wp (mutex_lock l ;; k) d Q.
Proof.
  intros Hl Hk. unfold wp, mutex_lock, bind, gets, emit, modify in *. rewrite Hl.
  destruct (k _) as [[[a d'] es]|]; [|done]. exact Hk.
Qed.

Lemma wp_mutex_unlock {A : Type} l (k : fanM A) d Q :
  wp k (set_lock l false d) (fun a d' es => Q a d' (EvMutexUnlock l :: es)) ->
  wp (mutex_unlock l ;; k) d Q.
Proof.
  intros Hk. unfold wp, mutex_unlock, bind, emit, modify in *.
  destruct (k _) as [[[a d'] es]|]; [|done]. exact Hk.
Qed.

(** A computation between lock and unlock that keeps the rest of the state. *)
Lemma same_fan_unlock l d d' :
  lock_held l d = false -> same_fan (set_lock l true d) d' -> same_fan d (set_lock l false d').
Proof. unfold same_fan. intros Hl ->. by destruct l, d; cbn in *; subst. Qed.

Section driver_lemmas.
Context {T : FanTransport} {L : FanTransportLaws T} {K : KStrtoul}.

Lemma fan_read_ok command nr rbuf d :
  fan_wf d -> fan_nr nr -> read_request command rbuf -> Forall is_u8 rbuf ->
  wp (fan_read command nr rbuf) d (fun r d' _ =>
    same_fan d d' /\ length r.2 = length rbuf /\ Forall is_u8 r.2).
Proof.
  intros (Ha & Hm & Hp) Hnr Hreq Hb. unfold fan_read. apply wp_mutex_lock; [done|]. apply wp_bind.
  eapply wp_mono.
  { apply (fan_retry_wp _ _ _ _ _ (fun r d1 => same_fan (set_mcu_lock true d) d1 /\
      length r.2 = length rbuf /\ Forall is_u8 r.2)); [by auto with vdrv|].
    intros [c buf] d0 (Hs & Hl & Hu). cbn [snd] in *.
    eapply wp_mono; [eapply fan_read_law; try done|].
    - eapply same_fan_arrays; [done|]. by apply (fan_arrays_lock McuLock).
    - unfold read_request in *. by rewrite Hl.
    - unfold same_fan in Hs. rewrite Hs. by destruct d.
    - intros r d1 e1 (Hs1 & Hl1 & Hu1). split; [by eapply same_fan_trans|]. by rewrite Hl1. }
  intros r d1 e1 (Hs & Hl & Hu). apply wp_mutex_unlock. split; [|done].
  by apply (same_fan_unlock McuLock).
Qed.

Lemma fan_write_ok nr v d :
  fan_arrays d -> mcu_lock d = false -> fan_nr nr -> is_u8 v ->
  wp (fan_write FAN_CMD_SET_PWM nr [v]) d (fun _ d' _ => same_fan d d').
Proof.
  intros Ha Hm Hnr Hv. unfold fan_write. apply wp_mutex_lock; [done|]. apply wp_bind. eapply wp_mono.
  { apply (fan_retry_wp _ _ _ _ _ (fun _ d1 => same_fan (set_mcu_lock true d) d1));
      [by auto with vdrv|].
    intros _ d0 Hs. eapply wp_mono; [eapply fan_write_law; try done|].
    - eapply same_fan_arrays; [done|]. by apply (fan_arrays_lock McuLock).
    - intros r d1 e1 Hs1. by eapply same_fan_trans. }
  intros r d1 e1 Hs. apply wp_mutex_unlock. by apply (same_fan_unlock McuLock).
Qed.

Lemma update_pwm_ok nr v d :
  fan_arrays d -> mcu_lock d = false -> fan_nr nr ->
  wp (update_pwm nr v) d (fun _ d' _ => same_fan d d').
Proof.
  intros Ha Hm Hnr. unfold update_pwm. apply wp_bind.
  eapply wp_mono; [apply fan_write_ok; try done; apply clamp_u8|]. done.
Qed.

Lemma update_list_ok l d :
  fan_arrays d -> mcu_lock d = false -> Forall fan_nr l ->
  wp (for_each l (fun nr => p <- gets pwm ;; v <- array_get p (nr - 1) ;; update_pwm nr v)) d
    (fun _ d' _ => same_fan d d').
Proof.
  intros Ha Hm Hl.
  eapply wp_mono; [apply (wp_for_each _ _ (fun l d0 _ => Forall fan_nr l /\ same_fan d d0) _ []);
    [by auto with vdrv|]|by intros _ d1 e1 [_ ?]].
  intros nr r d2 es0 [Hf Hs]. apply Forall_cons in Hf as [Hnr Hr].
  assert (fan_arrays d2) as Ha2 by by eapply same_fan_arrays.
  assert (mcu_lock d2 = false) as Hm2 by (unfold same_fan in Hs; rewrite Hs; by destruct d).
  destruct (array_get_ok (pwm d2) (nr - 1) d2) as (v & _ & Hget); [by apply fan_nr_index|].
  apply wp_bind. unfold wp at 1, gets. apply wp_bind. unfold wp at 1. rewrite Hget.
  eapply wp_mono; [by apply update_pwm_ok|].
  intros ? d3 e3 Hs3. split; [done|]. by eapply same_fan_trans.
Qed.

Lemma fan_nr_seqZ num_fans : num_fans <= FAN_MAX_NUM -> Forall fan_nr (seqZ 1 num_fans).
Proof. intros Hn. apply Forall_forall. intros x Hx. apply elem_of_seqZ in Hx. unfold fan_nr. lia. Qed.

Lemma work_ok num_fans d :
  fan_wf d -> num_fans <= FAN_MAX_NUM ->
  wp (fan_update_pwm_work_callback num_fans) d (fun _ d' _ =>
    fan_wf d' /\ pwm d' = pwm d /\ pwm_enabled d' = pwm_enabled d).
Proof.
  intros (Ha & Hm & Hp) Hn. unfold fan_update_pwm_work_callback.
  apply wp_mutex_lock; [done|]. apply wp_bind.
  eapply wp_mono; [apply update_list_ok; [by apply fan_arrays_lock|by destruct d|by apply fan_nr_seqZ]|].
  intros ? d1 e1 Hs. apply wp_mutex_unlock. apply same_fan_unlock in Hs; [|done].
  unfold wp, modify. unfold same_fan in Hs. rewrite Hs. by destruct d.
Qed.

Lemma run_op_ok op d :
  fan_wf d -> op_args op -> within_arrays op -> wp (run_op op) d (fun _ d' _ => fan_wf d').
Proof.
  intros Hwf Hop Hin. pose proof Hwf as (Ha & Hm & Hp).
  assert (forall d', same_fan d d' -> fan_wf d') as Hsame.
  { intros d' Hs. split; [by eapply same_fan_arrays|]. unfold same_fan in Hs. rewrite Hs. by destruct d. }
  destruct op as [nr stack|nr stack|nr buf|nr|nr buf|num_fans]; cbn [run_op op_args within_arrays] in *;
    unfold discard; [..|by eapply wp_mono; [by apply work_ok|intros _ ? ? [? _]]];
    apply wp_bind.
  - destruct Hop as (Hnr & H1 & H2). unfold show_fan. apply wp_bind.
    eapply wp_mono; [apply fan_read_ok; try done; [by left|by repeat (apply Forall_cons; split)]|].
    intros [c buf] d1 e1 (Hs & Hl & _). destruct buf as [|lo [|hi []]]; try done.
    cbn. destruct (c <? 0); by apply Hsame.
  - destruct Hop as (Hnr & H1). unfold show_pwm. apply wp_bind.
    eapply wp_mono; [apply fan_read_ok; try done; [by right|by apply Forall_singleton]|].
    intros [c buf] d1 e1 (Hs & Hl & _). destruct buf as [|v []]; try done.
    cbn. destruct (c <? 0); by apply Hsame.
  - unfold set_pwm. destruct (kstrtoul buf) as [err|v]; [done|].
    unfold mutex_lock, mutex_unlock. run_prog. rewrite Hp. cbn.
    rewrite array_set_ok by by apply fan_nr_index. cbn. split; [|by destruct d].
    apply (fan_arrays_lock PwmBufLock). apply (fan_arrays_set_pwm (set_pwm_buf_lock true d)).
    + by apply (fan_arrays_lock PwmBufLock).
    + apply wrap_range. lia.
  - unfold show_pwm_enable. destruct (array_get_ok (pwm_enabled d) (nr - 1) d) as (v & _ & Hget);
      [by apply fan_nr_index|]. run_prog. by rewrite Hget.
  - unfold set_pwm_enable. destruct (kstrtoul buf) as [err|v]; [done|].
    destruct ((v <? 0) || (1 <? v)); [done|].
    run_prog. rewrite array_set_ok by by apply fan_nr_index. cbn. split; [|by destruct d].
    apply (fan_arrays_set_enabled d); [done|]. apply wrap_range. lia.
Qed.
End driver_lemmas.

(** An attempt that succeeds ends the loop. *)
Lemma fan_retry_success {A : Type} n code (attempt : A -> fanM A) last d r d' es :
  attempt last d = Ok (r, d', es) -> code r = 0 ->
  fan_retry (S n) code attempt last d = Ok (r, d', es).
Proof.
  intros Hr Hc. cbn [fan_retry]. rewrite (bind_ok _ _ _ _ _ _ Hr), Hc. cbn. by rewrite app_nil_r.
Qed.

(** Attempts that never succeed are all made; each sends the message [w]. *)
Lemma fan_retry_all_fail {A : Type} n code (attempt : A -> fanM A) last d w r :
  code r <> 0 -> (n = 0%nat -> last = r) ->
  (forall a d0, exists d1 es, attempt a d0 = Ok (r, d1, es) /\ same_fan d0 d1 /\ i2c_sent es = [w]) ->
  exists d' es, fan_retry n code attempt last d = Ok (r, d', es) /\ same_fan d d' /\
    i2c_sent es = replicate n w.
Proof.
  intros Hc Hlast Ha. revert last d Hlast. induction n as [|n IH]; intros last d Hlast.
  - rewrite (Hlast eq_refl). eexists _, _. split; [done|]. split; [apply same_fan_refl|done].
  - destruct (Ha last d) as (d1 & e1 & H1 & Hs1 & Hw1). destruct (IH r d1) as (d2 & e2 & H2 & Hs2 & Hw2); [done|].
    cbn [fan_retry]. rewrite (bind_ok _ _ _ _ _ _ H1), (proj2 (Z.eqb_neq _ _) Hc).
    unfold emit. rewrite (bind_ok _ _ d1 tt d1 _ eq_refl), H2. eexists _, _. split; [done|].
    split; [by eapply same_fan_trans|]. by rewrite i2c_sent_app, Hw1, i2c_sent_app, Hw2.
Qed.

(** ** The simulated transport *)

Section virt.
Context {K : KStrtoul}.
#[local] Existing Instance fan_virt.

Lemma virt_show_pwm nr stack d :
  fan_wf d -> fan_nr nr ->
  exists v, pwm d !! Z.to_nat (nr - 1) = Some v /\ is_u8 v /\
    wp (show_pwm nr stack) d (fun r d' es => d' = d /\ r = (str_len (sprintf_d v), sprintf_d v) /\
      fan_lock_ops es = [(McuLock, true); (PwmBufLock, true); (PwmBufLock, false); (McuLock, false)]).
Proof.
  intros (Ha & Hm & Hp) Hnr.
  destruct (virt_fan_read_pwm nr stack (set_lock McuLock true d)) as (v & Hv & Hv8 & Hread);
    [by apply fan_arrays_lock|done|by destruct d|].
  exists v. split; [by destruct d|]. split; [done|].
  unfold show_pwm, fan_read. apply wp_bind, wp_mutex_lock; [done|]. apply wp_bind.
  unfold wp at 1, FAN_FAIL_MAX_RETRY.
  rewrite (fan_retry_success 49 fst _ (0, [stack]) _ (0, [v]) _ _ Hread) by done.
  apply wp_mutex_unlock. cbn. split; [destruct d; cbn in *; by subst|done].
Qed.

Lemma virt_show_fan nr stack d :
  fan_wf d -> fan_nr nr ->
  exists v, pwm d !! Z.to_nat (nr - 1) = Some v /\ is_u8 v /\
    wp (show_fan nr stack) d (fun r d' es => d' = d /\
      r = (str_len (sprintf_d (v * FAN_MAX_RPM / 255)), sprintf_d (v * FAN_MAX_RPM / 255))).
Proof.
  intros (Ha & Hm & Hp) Hnr.
  destruct (virt_fan_read_rpm nr stack.1 stack.2 (set_lock McuLock true d)) as (v & Hv & Hv8 & Hread);
    [by apply fan_arrays_lock|done|by destruct d|].
  exists v. split; [by destruct d|]. split; [done|].
  unfold show_fan, fan_read. apply wp_bind, wp_mutex_lock; [done|]. apply wp_bind.
  unfold wp at 1, FAN_FAIL_MAX_RETRY.
  rewrite (fan_retry_success 49 fst _ (0, [stack.1; stack.2]) _ (0, _) _ _ Hread) by done.
  apply wp_mutex_unlock. cbn. split; [destruct d; cbn in *; by subst|].
  assert (0 <= v * FAN_MAX_RPM / 255 < 2 ^ 16) as Hr.
  { unfold is_u8, FAN_MAX_RPM in *. change (2 ^ 16) with 65536.
    split; [apply Z.div_pos; lia|apply Z.div_lt_upper_bound; lia]. }
  rewrite !land_ff, lor_shiftl_8 by (apply Z.mod_pos_bound; lia).
  rewrite Z.shiftr_div_pow2 by done. change (2 ^ 8) with 256. change (2 ^ 16) with 65536 in Hr.
  rewrite (Z.mod_small (_ / 256)) by (split; [apply Z.div_pos; lia|apply Z.div_lt_upper_bound; lia]).
  assert (forall x, x / 256 * 256 + x mod 256 = x) as -> by (intros x; pose proof (Z.div_mod x 256); lia).
  done.
Qed.
End virt.

(** ** The SMBus transport *)

Section smbus.
Context {B : I2cBus} {K : KStrtoul}.
#[local] Existing Instance fan_smbus.

(** The message that sets one fan, as sent after the address. *)
Definition pwm_message (nr v : Z) : list Z :=
  let msg := fan_request FAN_REG_SET_PWM 0x05 FAN_CMD_SET_PWM nr ++ [v] in
  drop 1 (msg ++ [i2c_smbus_pec 0 msg]).

(** A bus on which every send succeeds. *)
Definition good_bus : Prop :=
  forall n bytes, i2c_master_send_ret n bytes = Z.of_nat (length bytes).

Lemma smbus_update_pwm nr v d :
  good_bus -> is_u8 v -> mcu_lock d = false ->
  wp (update_pwm nr v) d (fun _ d' es =>
    same_fan d d' /\ i2c_sent es = replicate FAN_FAIL_MAX_RETRY (pwm_message nr v)).
Proof.
  intros Hbus Hv Hm. unfold update_pwm, fan_write. apply wp_bind, wp_mutex_lock; [done|]. apply wp_bind.
  assert (clamp_val v 0 255 = v) as -> by (unfold clamp_val, is_u8 in *; lia).
  destruct (fan_retry_all_fail FAN_FAIL_MAX_RETRY id (fun _ => _fan_write FAN_CMD_SET_PWM nr [v]) 0
    (set_lock McuLock true d) (pwm_message nr v) 8) as (d1 & e1 & Hrun & Hs & Hw);
    [done|discriminate| |].
  - intros _ d0. eexists _, _. cbn [_fan_write fan_smbus]. rewrite smbus_fan_write_cases, Hbus.
    split; [done|]. by destruct d0.
  - unfold wp at 1. rewrite Hrun. apply wp_mutex_unlock. unfold wp, ret.
    split; [by apply (same_fan_unlock McuLock)|].
    rewrite i2c_sent_app, i2c_sent_cons, i2c_sent_app, Hw. apply app_nil_r.
Qed.

Lemma smbus_update_all d0 d l :
  good_bus -> fan_arrays d -> mcu_lock d = false -> same_fan d d0 -> Forall fan_nr l ->
  wp (for_each l (fun nr => p <- gets pwm ;; v <- array_get p (nr - 1) ;; update_pwm nr v)) d0
    (fun _ d' es => same_fan d d' /\
      i2c_sent es = l ≫= (fun nr => match pwm d !! Z.to_nat (nr - 1) with
                                    | Some v => replicate FAN_FAIL_MAX_RETRY (pwm_message nr v)
                                    | None => []
                                    end)).
Proof.
  intros Hbus Ha Hm Hs Hl. revert d0 Hs. induction Hl as [|nr l Hnr _ IH]; intros d0 Hs; [done|].
  cbn [for_each]. apply wp_bind, wp_bind. unfold wp at 1, gets.
  assert (pwm d0 = pwm d) as -> by (unfold same_fan in Hs; rewrite Hs; by destruct d).
  destruct (array_get_ok (pwm d) (nr - 1) d0) as (v & Hv & Hget); [by apply fan_nr_index|].
  apply wp_bind. unfold wp at 1. rewrite Hget.
  eapply wp_mono; [apply smbus_update_pwm; [done| |]|].
  - destruct Ha as (_ & _ & Ha & _). by eapply Forall_lookup_1.
  - unfold same_fan in Hs. rewrite Hs. by destruct d.
  - intros [] d1 e1 [Hs1 Hw1]. eapply wp_mono; [apply IH; by eapply same_fan_trans|].
    intros [] d2 e2 [Hs2 Hw2]. split; [done|]. cbn. rewrite Hv, i2c_sent_app, Hw2. by f_equal.
Qed.
End smbus.

(** ** The order of the lock operations *)

(** From holding [hp] and [hm], the computation's lock operations respect the
    lock order and end holding [hp'] and [hm']. *)
Definition lock_typed {A : Type} (hp hm : bool) (m : fanM A) (hp' hm' : bool) : Prop :=
  forall d a d' es rest, m d = Ok (a, d', es) ->
    lock_ordered hp' hm' rest = true -> lock_ordered hp hm (fan_lock_ops es ++ rest) = true.

(** No lock operation at all. *)
Definition quiet {A : Type} (m : fanM A) : Prop :=
  forall d a d' es, m d = Ok (a, d', es) -> fan_lock_ops es = [].

Lemma quiet_typed {A : Type} (m : fanM A) hp hm : quiet m -> lock_typed hp hm m hp hm.
Proof. intros Hq d a d' es rest Hm Hr. by rewrite (Hq _ _ _ _ Hm). Qed.

Lemma lock_typed_bind {A B : Type} (m : fanM A) (k : A -> fanM B) hp hm hp1 hm1 hp2 hm2 :
  lock_typed hp hm m hp1 hm1 -> (forall a, lock_typed hp1 hm1 (k a) hp2 hm2) ->
  lock_typed hp hm (bind m k) hp2 hm2.
Proof.
  intros Hm Hk d b d' es rest. unfold bind. destruct (m d) as [[[a d1] e1]|] eqn:E1; [|done].
  destruct (k a d1) as [[[b2 d2] e2]|] eqn:E2; [|done]. intros [= <- <- <-] Hr.
  rewrite fan_lock_ops_app, <- (assoc_L (++)). eapply Hm; [done|]. by eapply Hk.
Qed.

Lemma lock_typed_lock_pwm : lock_typed false false (mutex_lock PwmBufLock) true false.
Proof.
  intros d a d' es rest. unfold mutex_lock. run_prog.
  destruct (pwm_buf_lock d); [done|]. by intros [= <- <- <-].
Qed.

Lemma lock_typed_lock_mcu hp : lock_typed hp false (mutex_lock McuLock) hp true.
Proof.
  intros d a d' es rest. unfold mutex_lock. run_prog.
  destruct (mcu_lock d); [done|]. by intros [= <- <- <-].
Qed.

Lemma lock_typed_unlock_pwm hm : lock_typed true hm (mutex_unlock PwmBufLock) false hm.
Proof. by intros d a d' es rest [= <- <- <-]. Qed.

Lemma lock_typed_unlock_mcu hp : lock_typed hp true (mutex_unlock McuLock) hp false.
Proof. by intros d a d' es rest [= <- <- <-]. Qed.

Lemma quiet_bind {A B : Type} (m : fanM A) (k : A -> fanM B) :
  quiet m -> (forall a, quiet (k a)) -> quiet (bind m k).
Proof.
  intros Hm Hk d b d' es. unfold bind. destruct (m d) as [[[a d1] e1]|] eqn:E1; [|done].
  destruct (k a d1) as [[[b2 d2] e2]|] eqn:E2; [|done]. intros [= <- <- <-].
  by rewrite fan_lock_ops_app, (Hm _ _ _ _ E1), (Hk _ _ _ _ _ E2).
Qed.
Lemma quiet_ret {A : Type} (a : A) : quiet (ret a).
Proof. by intros d b d' es [= <- <- <-]. Qed.
Lemma quiet_fail {A : Type} f : quiet (A := A) (fail f).
Proof. done. Qed.
Lemma quiet_gets {A : Type} (g : fan_data -> A) : quiet (gets g).
Proof. by intros d b d' es [= <- <- <-]. Qed.
Lemma quiet_modify g : quiet (modify g).
Proof. by intros d b d' es [= <- <- <-]. Qed.
Lemma quiet_emit e : fan_lock_ops [e] = [] -> quiet (emit e).
Proof. by intros He d b d' es [= <- <- <-]. Qed.
Lemma quiet_of_opt {A : Type} f (o : option A) : quiet (of_opt f o).
Proof. destruct o; [apply quiet_ret|apply quiet_fail]. Qed.

(** [quiet] of an unfolded program, by its syntax. *)
Ltac solve_quiet :=
  repeat first
    [ apply quiet_ret | apply quiet_fail | apply quiet_gets | apply quiet_modify
    | apply quiet_of_opt | apply quiet_emit; reflexivity
    | apply quiet_bind; [|intros ?]
    | case_match ].

Lemma quiet_retry {A : Type} n code (attempt : A -> fanM A) last :
  (forall a, quiet (attempt a)) -> quiet (fan_retry n code attempt last).
Proof.
  intros Ha. revert last. induction n as [|n IH]; intros last; [apply quiet_ret|].
  cbn [fan_retry]. apply quiet_bind; [done|]. intros r. destruct (code r =? 0); [apply quiet_ret|].
  apply quiet_bind; [by apply quiet_emit|]. intros _. apply IH.
Qed.

Lemma lock_typed_for_each {A : Type} (l : list A) body hp hm :
  (forall x, lock_typed hp hm (body x) hp hm) -> lock_typed hp hm (for_each l body) hp hm.
Proof.
  intros Hb. induction l as [|x l IH]; [apply quiet_typed, quiet_ret|].
  cbn [for_each]. eapply lock_typed_bind; [apply Hb|]. intros _. exact IH.
Qed.

Section lock_order.
Context {T : FanTransport} {K : KStrtoul}.

(** The transport takes no lock of the driver. *)
Definition quiet_transport : Prop :=
  (forall command nr rbuf, quiet (_fan_read command nr rbuf)) /\
  (forall command nr wbuf, quiet (_fan_write command nr wbuf)).

Hypothesis Hquiet : quiet_transport.

Lemma fan_read_typed hp command nr rbuf : lock_typed hp false (fan_read command nr rbuf) hp false.
Proof.
  eapply lock_typed_bind; [apply lock_typed_lock_mcu|]. intros _.
  eapply lock_typed_bind; [apply quiet_typed, quiet_retry; intros; apply Hquiet|]. intros r.
  eapply lock_typed_bind; [apply lock_typed_unlock_mcu|]. intros _. apply quiet_typed, quiet_ret.
Qed.

Lemma fan_write_typed hp command nr wbuf : lock_typed hp false (fan_write command nr wbuf) hp false.
Proof.
  eapply lock_typed_bind; [apply lock_typed_lock_mcu|]. intros _.
  eapply lock_typed_bind; [apply quiet_typed, quiet_retry; intros; apply Hquiet|]. intros r.
  eapply lock_typed_bind; [apply lock_typed_unlock_mcu|]. intros _. apply quiet_typed, quiet_ret.
Qed.

Lemma run_op_typed op : lock_typed false false (run_op op) false false.
Proof.
  destruct op; cbn [run_op];
    try (eapply lock_typed_bind; [|intros _; apply quiet_typed, quiet_ret]).
  - eapply lock_typed_bind; [apply fan_read_typed|]. intros r. apply quiet_typed.
    unfold array_get. solve_quiet.
  - eapply lock_typed_bind; [apply fan_read_typed|]. intros r. apply quiet_typed.
    unfold array_get. solve_quiet.
  - unfold set_pwm. destruct (kstrtoul buf); [apply quiet_typed, quiet_ret|].
    eapply lock_typed_bind; [apply lock_typed_lock_pwm|]. intros _.
    eapply lock_typed_bind; [apply quiet_typed, quiet_gets|]. intros p.
    eapply lock_typed_bind; [apply quiet_typed; unfold array_set; solve_quiet|]. intros p'.
    eapply lock_typed_bind; [apply quiet_typed, quiet_modify|]. intros _.
    eapply lock_typed_bind; [apply lock_typed_unlock_pwm|]. intros _. apply quiet_typed, quiet_ret.
  - apply quiet_typed. unfold show_pwm_enable, array_get. solve_quiet.
  - apply quiet_typed. unfold set_pwm_enable, array_set. solve_quiet.
  - unfold fan_update_pwm_work_callback.
    eapply lock_typed_bind; [apply lock_typed_lock_pwm|]. intros _.
    eapply lock_typed_bind; [apply lock_typed_for_each|].
    + intros nr. eapply lock_typed_bind; [apply quiet_typed, quiet_gets|]. intros p.
      eapply lock_typed_bind; [apply quiet_typed; unfold array_get; solve_quiet|]. intros v.
      unfold update_pwm. eapply lock_typed_bind; [apply fan_write_typed|]. intros r.
      apply quiet_typed, quiet_ret.
    + intros _. eapply lock_typed_bind; [apply lock_typed_unlock_pwm|]. intros _.
      apply quiet_typed, quiet_modify.
Qed.

(** The lock operations of a run of [op] from some state. *)
Definition op_trace (op : fan_op) (tr : list (fan_lock * bool)) : Prop :=
  exists d d' es, run_op op d = Ok (tt, d', es) /\ tr = fan_lock_ops es.

Lemma quiet_transport_progress ops threads c :
  Forall2 op_trace ops threads -> rtc lock_step (lock_start threads) c ->
  lock_finished c \/ exists c', lock_step c c'.
Proof.
  intros Hops Hrun. apply lock_inv_progress.
  assert (Forall (fun r => lock_ordered false false r = true) threads) as Hord.
  { clear Hrun. induction Hops as [|op tr ops trs (d & d' & es & Hr & ->) _ IH]; constructor; [|done].
    rewrite <- (app_nil_r (fan_lock_ops es)). by eapply run_op_typed. }
  apply lock_inv_start in Hord. induction Hrun; [done|]. eauto using lock_inv_step.
Qed.
End lock_order.

Lemma smbus_quiet {B : I2cBus} : quiet_transport (T := fan_smbus).
Proof.
  split; intros command nr buf; cbn [_fan_read _fan_write fan_smbus];
    unfold smbus_fan_read, smbus_fan_write, i2c_master_send, i2c_transfer, array_get; solve_quiet.
Qed.

Section virt_deadlock.
Context {K : KStrtoul}.
#[local] Existing Instance fan_virt.

Lemma virt_update_pwm nr v d :
  mcu_lock d = false ->
  update_pwm nr v d = Ok (tt, d, [EvMutexLock McuLock; EvMutexUnlock McuLock]).
Proof.
  intros Hm. unfold update_pwm, fan_write, mutex_lock, mutex_unlock. run_prog. rewrite Hm. cbn.
  destruct d; cbn in *; by subst.
Qed.

Lemma virt_update_all d l :
  fan_arrays d -> mcu_lock d = false -> Forall fan_nr l ->
  exists es,
    for_each l (fun nr => p <- gets pwm ;; v <- array_get p (nr - 1) ;; update_pwm nr v) d =
      Ok (tt, d, es) /\
    fan_lock_ops es = l ≫= (fun _ => [(McuLock, true); (McuLock, false)]).
Proof.
  intros Ha Hm Hl. induction Hl as [|nr l Hnr _ (es & IH & Hes)]; [by eexists|].
  destruct (array_get_ok (pwm d) (nr - 1) d) as (v & _ & Hget); [by apply fan_nr_index|].
  cbn [for_each]. rewrite bind_assoc. unfold gets at 1.
  rewrite (bind_ok _ _ d (pwm d) d [] eq_refl), bind_assoc, (bind_ok _ _ _ _ _ _ Hget).
  rewrite (bind_ok _ _ _ _ _ _ (virt_update_pwm nr v d Hm)), IH.
  eexists. split; [done|]. by rewrite !fan_lock_ops_app, Hes.
Qed.

(** The buffer mutex is held while every fan is written. *)
Lemma virt_work_trace num_fans d :
  fan_wf d -> num_fans <= FAN_MAX_NUM ->
  exists d' es, run_op (OpWork num_fans) d = Ok (tt, d', es) /\
    fan_lock_ops es = (PwmBufLock, true) ::
      (seqZ 1 num_fans ≫= (fun _ => [(McuLock, true); (McuLock, false)])) ++
      [(PwmBufLock, false)].
Proof.
  intros (Ha & Hm & Hp) Hn. cbn [run_op].
  destruct (virt_update_all (set_lock PwmBufLock true d) (seqZ 1 num_fans)) as (es & Hrun & Hes).
  - by apply fan_arrays_lock.
  - by destruct d.
  - by apply fan_nr_seqZ.
  - unfold fan_update_pwm_work_callback, for_fans, mutex_lock, mutex_unlock.
    unfold emit, modify, gets. rewrite bind_assoc, (bind_ok _ _ d false d []) by (cbn; by rewrite Hp).
    rewrite bind_assoc, (bind_ok _ _ d tt d [EvMutexLock PwmBufLock]) by done.
    rewrite (bind_ok _ _ d tt (set_lock PwmBufLock true d) []) by done.
    rewrite (bind_ok _ _ _ _ _ _ Hrun). eexists _, _. split; [reflexivity|].
    rewrite fan_lock_ops_app. cbn [app]. rewrite fan_lock_ops_cons, fan_lock_ops_app, Hes. done.
Qed.
End virt_deadlock.


(** The number of fans can outgrow the arrays.  [num_fans] is checked by the
    probe only, but stays writable: with more than 16, the update sets the
    sixteen fans and then reads past [pwm], whatever the transport. *)
Lemma update_overruns_pwm {T : FanTransport} {L : FanTransportLaws T} {K : KStrtoul} num_fans d :
  fan_wf d -> FAN_MAX_NUM < num_fans ->
  fan_update_pwm_work_callback num_fans d = Stop OutOfBounds.
Proof.
  intros Hwf Hn. pose proof Hwf as (Ha & Hm & Hp).
  unfold fan_update_pwm_work_callback, for_fans.
  match goal with |- context [for_each _ ?b] => set (body := b) end.
  replace (seqZ 1 num_fans) with (seqZ 1 FAN_MAX_NUM ++ seqZ 17 (num_fans - FAN_MAX_NUM))
    by (change 17 with (1 + FAN_MAX_NUM); rewrite <- seqZ_app by (unfold FAN_MAX_NUM in *; lia);
        f_equal; lia).
  rewrite (seqZ_cons 17) by (unfold FAN_MAX_NUM in *; lia).
  destruct (proj1 (wp_ok _ _ _) (update_list_ok (seqZ 1 FAN_MAX_NUM) (set_lock PwmBufLock true d)
    (proj2 (fan_arrays_lock _ _ _) Ha) Hm (fan_nr_seqZ _ (Z.le_refl _)))) as ([] & d2 & e2 & Hrun & Hs).
  fold body in Hrun. assert (length (pwm d2) = 16%nat) as Hlen.
  { unfold same_fan in Hs. rewrite Hs. by destruct Ha as [Hl _]. }
  unfold mutex_lock, emit, modify, gets. rewrite bind_assoc, (bind_ok _ _ d false d []) by (cbn; by rewrite Hp).
  rewrite bind_assoc, (bind_ok _ _ d tt d [EvMutexLock PwmBufLock]) by done.
  rewrite (bind_ok _ _ d tt (set_lock PwmBufLock true d) []) by done.
  unfold bind at 1. rewrite for_each_app, (bind_ok _ _ _ _ _ _ Hrun). cbn [for_each].
  unfold body at 1, bind, gets, array_get. change (17 - 1 <? 0) with false. cbn [app].
  rewrite lookup_ge_None_2 by (rewrite Hlen; lia). done.
Qed.

Lemma run_ops_within {T : FanTransport} {L : FanTransportLaws T} {K : KStrtoul} ops d :
  fan_wf d -> Forall op_args ops -> Forall within_arrays ops ->
  wp (for_each ops run_op) d (fun _ d' _ => fan_wf d').
Proof.
  intros Hwf Hargs Hin.
  eapply wp_mono; [apply (wp_for_each _ _
    (fun l d0 _ => Forall op_args l /\ Forall within_arrays l /\ fan_wf d0) d []); [done|]|].
  - intros op r d0 es0 (Hf & Hi & Hd0). apply Forall_cons in Hf as [Hop Hr].
    apply Forall_cons in Hi as [Hin1 Hin2]. eapply wp_mono; [by apply run_op_ok|]. done.
  - by intros _ d1 e1 (_ & _ & ?).
Qed.

Lemma run_ops_overrun {T : FanTransport} {L : FanTransportLaws T} {K : KStrtoul} ops d :
  fan_wf d -> Forall op_args ops -> ~ Forall within_arrays ops ->
  for_each ops run_op d = Stop OutOfBounds.
Proof.
  intros Hwf Hargs. revert d Hwf. induction Hargs as [|op ops Hop _ IH]; intros d Hwf Hn.
  - by destruct Hn.
  - cbn [for_each]. unfold bind. destruct (decide (within_arrays op)) as [Hin|Hout].
    + destruct (proj1 (wp_ok _ _ _) (run_op_ok op d Hwf Hop Hin)) as (r & d1 & e1 & -> & Hd1).
      rewrite IH; [done|done|]. contradict Hn. by constructor.
    + destruct op as [| | | | |num_fans]; cbn [within_arrays] in Hout; try done.
      cbn [run_op]. by rewrite update_overruns_pwm by (done || lia).
Qed.

(** ** The main properties *)

(** C14: the memory safety of the entry points, exactly.  From a well-formed
    device, take any sequence of attribute accesses and updates, over any
    transport that keeps its promises, each update with whatever number of fans
    it finds in the writable parameter.  If none of these numbers is above 16,
    the sequence ends with both mutexes free and arrays of bytes of their
    declared size: no access is out of [pwm] or [pwm_enabled], no thread locks
    a mutex it holds.  If one is, the first such update reads past [pwm]. *)
Theorem fan_faults_past_16 {T : FanTransport} {L : FanTransportLaws T} {K : KStrtoul} ops d :
  fan_wf d -> Forall op_args ops ->
  if decide (Forall within_arrays ops) then
    wp (for_each ops run_op) d (fun _ d' _ => fan_wf d')
  else for_each ops run_op d = Stop OutOfBounds.
Proof. intros. case_decide; [by apply run_ops_within|by apply run_ops_overrun]. Qed.

(** C18: set, then show.  With the simulated transport, after a value is written
    to [pwmN], reading [pwmN] gives it clamped to 0..255, reading [fanN_input]
    gives that share of 5000 rpm, and no other fan has changed. *)
Theorem virt_set_then_show {K : KStrtoul} nr buf v stack stack2 d :
  fan_wf d -> fan_nr nr -> kstrtoul buf = inr v ->
  wp (set_pwm nr buf) d (fun r d' _ =>
    r = str_len buf /\ fan_wf d' /\
    (forall nr', fan_nr nr' -> nr' <> nr ->
       pwm d' !! Z.to_nat (nr' - 1) = pwm d !! Z.to_nat (nr' - 1)) /\
    wp (show_pwm (T := fan_virt) nr stack) d' (fun r _ _ => r.2 = sprintf_d (clamp_val v 0 255)) /\
    wp (show_fan (T := fan_virt) nr stack2) d' (fun r _ _ =>
      exists rpm, r.2 = sprintf_d rpm /\ 0 <= rpm <= FAN_MAX_RPM /\
        rpm = clamp_val v 0 255 * FAN_MAX_RPM / 255)).
Proof.
  intros Hwf Hnr Hv. pose proof Hwf as (Ha & Hm & Hp). unfold set_pwm. rewrite Hv.
  pose proof (clamp_u8 v) as Hc8. rewrite (wrap_small 8) by done.
  apply wp_mutex_lock; [done|]. apply wp_bind. unfold wp at 1, gets. apply wp_bind.
  destruct (fan_nr_index d nr Ha Hnr) as [Hi _].
  unfold wp at 1. rewrite array_set_ok by by destruct d.
  apply wp_bind. unfold wp at 1, modify. apply wp_mutex_unlock.
  unfold wp at 1, ret. set (l := <[Z.to_nat (nr - 1):=clamp_val v 0 255]> (pwm d)).
  set (d' := set_lock PwmBufLock false _).
  assert (d' = with_pwm l d) as -> by (unfold d', l; destruct d; cbn in *; by subst).
  assert (fan_wf (with_pwm l d)) as Hwf'.
  { split; [|by destruct d]. by apply fan_arrays_set_pwm. }
  assert (pwm (with_pwm l d) !! Z.to_nat (nr - 1) = Some (clamp_val v 0 255)) as Hl.
  { cbn [pwm with_pwm]. apply list_lookup_insert_eq. lia. }
  split; [done|]. split; [done|]. split; [|split].
  - intros nr' Hnr' Hne. cbn [pwm with_pwm]. apply list_lookup_insert_ne.
    unfold fan_nr in *. lia.
  - destruct (virt_show_pwm nr stack _ Hwf' Hnr) as (v' & Hv' & _ & Hs).
    rewrite Hl in Hv'. injection Hv' as <-. eapply wp_mono; [exact Hs|]. by intros r ? ? (_ & -> & _).
  - destruct (virt_show_fan nr stack2 _ Hwf' Hnr) as (v' & Hv' & _ & Hs).
    rewrite Hl in Hv'. injection Hv' as <-. eapply wp_mono; [exact Hs|]. intros r ? ? (_ & ->).
    eexists. split; [done|]. split; [|done]. unfold is_u8, FAN_MAX_RPM in *.
    split; [apply Z.div_pos; lia|apply Z.div_le_upper_bound; lia].
Qed.

(** C19: what one run of the update puts on the SMBus.  On a bus where every send
    succeeds, the work sends for each fan in turn the message with its number,
    its current value and a PEC that verifies, and nothing else; but since
    [_fan_write] returns the byte count and [fan_write] waits for 0, each
    message is sent 50 times. *)
Theorem smbus_update_messages {B : I2cBus} {K : KStrtoul} num_fans d :
  good_bus -> fan_wf d -> num_fans <= FAN_MAX_NUM ->
  wp (run_op (T := fan_smbus) (OpWork num_fans)) d (fun _ d' es =>
    fan_wf d' /\ pwm d' = pwm d /\ Forall (pec_valid 0) (i2c_sent es) /\
    i2c_sent es = seqZ 1 num_fans ≫= (fun nr =>
      match pwm d !! Z.to_nat (nr - 1) with
      | Some v => replicate 50 (pwm_message nr v)
      | None => []
      end)).
Proof.
  intros Hbus Hwf Hn. pose proof Hwf as (Ha & Hm & Hp). cbn [run_op].
  apply wp_mutex_lock; [done|]. apply wp_bind.
  eapply wp_mono; [apply (smbus_update_all _ (set_lock PwmBufLock true d)); try done|].
  - by apply fan_nr_seqZ.
  - intros ? d1 e1 [Hs Hw]. apply wp_mutex_unlock. apply same_fan_unlock in Hs; [|done].
    unfold wp, modify. rewrite i2c_sent_cons, i2c_sent_app, Hw. cbn [app].
    unfold same_fan in Hs. rewrite Hs, app_nil_r.
    split; [by destruct d|]. split; [by destruct d|]. split; [|by destruct d].
    apply Forall_bind, Forall_forall. intros nr _. unfold compose. case_match; [|constructor].
    apply Forall_replicate, fan_request_pec.
Qed.

(** C16: over the SMBus transport the driver's threads never block each other
    for ever.  Take any number of threads, each running any entry point from
    any state; in every interleaving of their lock operations some thread can
    go on until all have finished. *)
Theorem smbus_no_deadlock {B : I2cBus} {K : KStrtoul} ops threads c :
  Forall2 (op_trace (T := fan_smbus)) ops threads -> rtc lock_step (lock_start threads) c ->
  lock_finished c \/ exists c', lock_step c c'.
Proof. apply quiet_transport_progress, smbus_quiet. Qed.

(** C17: over the simulated transport they do.  Reading any [pwmN] locks the MCU
    mutex, then the buffer mutex; the periodic update locks them the other way
    round; so a read and an update, started from a well-formed device, can
    reach a state in which neither can move. *)
Theorem virt_deadlock {K : KStrtoul} nr stack num_fans d :
  fan_wf d -> fan_nr nr -> 1 <= num_fans <= FAN_MAX_NUM ->
  exists tr1 tr2 c,
    op_trace (T := fan_virt) (OpShowPwm nr stack) tr1 /\
    op_trace (T := fan_virt) (OpWork num_fans) tr2 /\
    rtc lock_step (lock_start [tr1; tr2]) c /\ ~ lock_finished c /\ forall c', ~ lock_step c c'.
Proof.
  intros Hwf Hnr Hn.
  destruct (virt_show_pwm nr stack d Hwf Hnr) as (v & _ & _ & Hs).
  apply wp_ok in Hs as (r & d1 & e1 & Hr1 & _ & _ & Ht1).
  destruct (virt_work_trace num_fans d Hwf (proj2 Hn)) as (d2 & e2 & Hr2 & Ht2).
  rewrite (seqZ_cons 1) in Ht2 by lia. cbn in Ht2.
  match type of Ht2 with _ = _ :: ?rest =>
    exists [(McuLock, true); (PwmBufLock, true); (PwmBufLock, false); (McuLock, false)],
      ((PwmBufLock, true) :: rest),
      (mkConf (Some 0%nat) (Some 1%nat) [[(PwmBufLock, true); (PwmBufLock, false); (McuLock, false)]; rest])
  end.
  split; [|split; [|split; [|split]]].
  - exists d, d1, e1. split; [|by rewrite Ht1]. cbn [run_op]. unfold discard.
    rewrite (bind_ok _ _ _ _ _ _ Hr1). cbn. by rewrite app_nil_r.
  - exists d, d2, e2. split; [done|by rewrite Ht2].
  - eapply rtc_l; [eapply (lock_acquire _ 0 McuLock); reflexivity|].
    eapply rtc_l; [eapply (lock_acquire _ 1 PwmBufLock); reflexivity|]. apply rtc_refl.
  - unfold lock_finished. cbn. intros Hf. apply Forall_cons in Hf as [? _]. done.
  - intros c' Hstep. inversion Hstep as [c i l r' Hr Ho|c i l r' Hr Ho]; subst; cbn in Hr, Ho;
      destruct i as [|[|]]; cbn in Hr; simplify_eq; done.
Qed.

(** ** The probe *)

(** The attributes of the fan with number [i + 1]. *)
Definition fan_attrs (i : Z) : list sensor_attr :=
  [mkAttr (attr_title OpsFanInput (i + 1)) OpsFanInput S_0444 (i + 1);
   mkAttr (attr_title OpsPwm (i + 1)) OpsPwm S_0644 (i + 1);
   mkAttr (attr_title OpsPwmEnable (i + 1)) OpsPwmEnable S_0644 (i + 1)].

Definition attrs_oom (oom : Z -> fan_attr_ops -> bool) (l : list Z) : bool :=
  existsb (fun i => oom (i + 1) OpsFanInput || oom (i + 1) OpsPwm || oom (i + 1) OpsPwmEnable) l.

(** The result of the probe, by the first step that fails. *)
Definition fan_probe_result (num_fans : Z) (env : fan_probe_env) : Z :=
  if (num_fans <=? 0) || (FAN_MAX_NUM <? num_fans) then - EINVAL
  else if negb (data_alloc_ok env) then - ENOMEM
  else if negb (attrs_alloc_ok env) then - ENOMEM
  else if attrs_oom (attr_oom env) (seqZ 0 num_fans) then - ENOMEM
  else match hwmon_err env with
       | Some err => err
       | None => if fan_workqueue_ok env then 0 else - ENOMEM
       end.

Lemma store_attr_next pre rest a slot d :
  attrs d = pre ++ None :: rest -> slot = Z.of_nat (length pre) ->
  store_attr slot a d = Ok (tt, set_attrs (pre ++ Some a :: rest) d, []).
Proof.
  intros Ha ->. unfold store_attr. run_prog. rewrite Ha.
  rewrite (proj2 (Z.leb_le _ _)), (proj2 (Z.ltb_lt _ _)) by (rewrite ?length_app; cbn; lia).
  cbn. rewrite Nat2Z.id. rewrite <- (Nat.add_0_r (length pre)), insert_app_r. done.
Qed.

Lemma FAN_ADD_SENSOR_ATTR_run oom ops mode i slot pre rest d :
  attrs d = pre ++ None :: rest -> slot = Z.of_nat (length pre) ->
  FAN_ADD_SENSOR_ATTR oom ops mode i slot d =
    if oom i ops then Ok (true, d, [])
    else Ok (false, set_attrs ((pre ++ [Some (mkAttr (attr_title ops i) ops mode i)]) ++ rest) d, []).
Proof.
  intros Ha Hs. unfold FAN_ADD_SENSOR_ATTR. destruct (oom i ops); [done|].
  rewrite (bind_ok _ _ _ _ _ _ (store_attr_next _ _ _ _ _ Ha Hs)). cbn.
  by rewrite <- (assoc_L (++)).
Qed.

Lemma fan_add_attrs_run oom m pre k d :
  attrs d = pre ++ replicate (3 * m + 1) None -> Z.of_nat (length pre) = k * FAN_ITEM_NUM ->
  exists d', fan_add_attrs oom (seqZ k (Z.of_nat m)) d =
      Ok (attrs_oom oom (seqZ k (Z.of_nat m)), d', []) /\
    d' = set_attrs (attrs d') d /\
    (attrs_oom oom (seqZ k (Z.of_nat m)) = false ->
       attrs d' = pre ++ (Some <$> (seqZ k (Z.of_nat m) ≫= fan_attrs)) ++ [None]).
Proof.
  revert pre k d. induction m as [|m IH]; intros pre k d Ha Hk.
  - exists d. by destruct d.
  - rewrite seqZ_cons by lia. replace (Z.pred (Z.of_nat (S m))) with (Z.of_nat m) by lia.
    change (Z.succ k) with (k + 1).
    replace (3 * S m + 1)%nat with (S (S (S (3 * m + 1)))) in Ha by lia. cbn [replicate] in Ha.
    unfold FAN_ITEM_NUM in Hk. cbn [fan_add_attrs attrs_oom existsb]. fold (attrs_oom oom).
    unfold FAN_ITEM_NUM at 1.
    set (rest := replicate (3 * m + 1) (None : option sensor_attr)) in *.
    pose (a1 := Some (mkAttr (attr_title OpsFanInput (k + 1)) OpsFanInput S_0444 (k + 1))).
    pose (a2 := Some (mkAttr (attr_title OpsPwm (k + 1)) OpsPwm S_0644 (k + 1))).
    pose (a3 := Some (mkAttr (attr_title OpsPwmEnable (k + 1)) OpsPwmEnable S_0644 (k + 1))).
    pose (d1 := set_attrs ((pre ++ [a1]) ++ None :: None :: rest) d).
    pose (d2 := set_attrs (((pre ++ [a1]) ++ [a2]) ++ None :: rest) d1).
    pose (d3 := set_attrs ((((pre ++ [a1]) ++ [a2]) ++ [a3]) ++ rest) d2).
    unfold bind at 1. rewrite (FAN_ADD_SENSOR_ATTR_run _ _ _ _ _ _ _ _ Ha) by (unfold FAN_ITEM_NUM; lia).
    destruct (oom (k + 1) OpsFanInput); [by exists d; destruct d|]. fold a1 d1. cbv iota.
    unfold bind at 1. rewrite (FAN_ADD_SENSOR_ATTR_run _ _ _ _ _ (pre ++ [a1]) (None :: rest) d1)
      by (done || rewrite length_app; cbn; unfold FAN_ITEM_NUM; lia).
    destruct (oom (k + 1) OpsPwm); [by exists d1; destruct d|]. fold a2 d2. cbv iota.
    unfold bind at 1. rewrite (FAN_ADD_SENSOR_ATTR_run _ _ _ _ _ ((pre ++ [a1]) ++ [a2]) rest d2)
      by (done || rewrite !length_app; cbn; unfold FAN_ITEM_NUM; lia).
    destruct (oom (k + 1) OpsPwmEnable); [by exists d2; destruct d|]. fold a3 d3. cbv iota.
    destruct (IH (((pre ++ [a1]) ++ [a2]) ++ [a3]) (k + 1) d3) as (d' & Hrun & Hd' & Hattrs); [done| |].
    + rewrite !length_app. cbn. unfold FAN_ITEM_NUM. lia.
    + rewrite Hrun. exists d'. split; [done|]. split.
      * rewrite Hd'. unfold d3, d2, d1. by destruct d, d'.
      * intros Hno. rewrite Hattrs by done. cbn [mbind list_bind fan_attrs].
        rewrite fmap_app, <- !(assoc_L (++)). done.
Qed.

Lemma fan_pwm_init_run num_fans d :
  fan_arrays d -> pwm_buf_lock d = false -> num_fans <= FAN_MAX_NUM ->
  wp (fan_pwm_init num_fans) d (fun _ d' _ =>
    d' = with_pwm (pwm d') d /\ fan_arrays d' /\
    forall nr, 1 <= nr <= num_fans -> pwm d' !! Z.to_nat (nr - 1) = Some 0x4c).
Proof.
  intros Ha Hp Hn. unfold fan_pwm_init, for_fans. apply wp_mutex_lock; [done|]. apply wp_bind.
  eapply wp_mono; [apply (wp_for_each _ _ (fun l d0 _ =>
    exists k, l = seqZ (k + 1) (num_fans - k) /\ 0 <= k /\ (num_fans < 0 \/ k <= num_fans) /\
      d0 = with_pwm (pwm d0) (set_lock PwmBufLock true d) /\ fan_arrays d0 /\
      forall nr, 1 <= nr <= k -> pwm d0 !! Z.to_nat (nr - 1) = Some 0x4c) _ [])|].
  - exists 0. rewrite Z.sub_0_r. split; [done|]. split; [done|]. split; [lia|].
    split; [by destruct d|]. split; [by apply fan_arrays_lock|]. intros nr ?. lia.
  - intros nr r d0 es (k & Hl & Hk & Hkn & Hd0 & Ha0 & Hset).
    assert (0 < num_fans - k) as Hpos.
    { destruct (Z_le_gt_dec (num_fans - k) 0); [|lia]. by rewrite seqZ_nil in Hl by lia. }
    rewrite seqZ_cons in Hl by lia. injection Hl as -> ->.
    apply wp_bind. unfold wp at 1, gets. apply wp_bind. unfold wp at 1.
    assert (fan_nr (k + 1)) as Hnr by (unfold fan_nr; lia).
    rewrite array_set_ok by by apply fan_nr_index. unfold wp, modify. exists (k + 1).
    split; [f_equal; lia|]. split; [lia|]. split; [lia|].
    split; [rewrite Hd0; by destruct d|]. split; [by apply fan_arrays_set_pwm|].
    intros nr Hr. cbn [pwm with_pwm]. destruct (decide (nr = k + 1)) as [->|Hne].
    + apply list_lookup_insert_eq. pose proof (fan_nr_index d0 (k + 1) Ha0 Hnr). lia.
    + rewrite list_lookup_insert_ne by lia. apply Hset. lia.
  - intros ? d1 e1 (k & Hl & Hk & Hkn & Hd1 & Ha1 & Hset).
    unfold wp, mutex_unlock. run_prog. split; [rewrite Hd1; destruct d; cbn in *; by subst|].
    split; [by apply (fan_arrays_lock PwmBufLock false)|]. intros nr Hr.
    assert (num_fans <= k). { destruct (Z_le_gt_dec (num_fans - k) 0); [lia|].
      by rewrite seqZ_cons in Hl by lia. }
    transitivity (pwm d1 !! Z.to_nat (nr - 1)); [by destruct d1|]. apply Hset. lia.
Qed.

(** what the probe makes, in every case.  It returns the error of the first
    step that fails and stores no attribute out of the array it allocated; if
    it succeeds, the device is well formed, every fan has its three attributes
    in order with the fan's number, followed by the terminating NULL, every
    fan starts at 0x4c (30%), and the update timer runs. *)
Theorem fan_probe_cases num_fans env d :
  wp (fan_probe num_fans env) d (fun r d' _ =>
    r = fan_probe_result num_fans env /\
    (fan_probe_result num_fans env = 0 -> hwmon_err env = None ->
     fan_wf d' /\ attrs d' = (Some <$> (seqZ 0 num_fans ≫= fan_attrs)) ++ [None] /\
     (forall nr, 1 <= nr <= num_fans -> fan_nr nr /\ pwm d' !! Z.to_nat (nr - 1) = Some 0x4c) /\
     pwm_timer d' = true /\ pwm_workqueue d' = true)).
Proof.
  unfold fan_probe, fan_probe_result.
  destruct (Z.leb_spec num_fans 0) as [H1|H1]; [done|].
  destruct (Z.ltb_spec FAN_MAX_NUM num_fans) as [H2|H2]; [done|]. cbn [orb].
  destruct (data_alloc_ok env); [|done]. cbn [negb].
  apply wp_bind. unfold wp at 1, modify. set (d1 := fan_zero _).
  destruct (attrs_alloc_ok env); [|done]. cbn [negb]. apply wp_bind. unfold wp at 1.
  set (d2 := set_attrs _ d1).
  destruct (fan_add_attrs_run (attr_oom env) (Z.to_nat num_fans) [] 0 d2) as (d3 & Hrun & Hd3 & Hattrs);
    [unfold d2; cbn; f_equal; unfold FAN_ITEM_NUM; lia|done|].
  rewrite Z2Nat.id in Hrun, Hattrs by lia. apply wp_bind. unfold wp at 1. rewrite Hrun.
  destruct (attrs_oom _ _); [done|]. specialize (Hattrs eq_refl).
  apply wp_bind. unfold wp at 1, emit. destruct (hwmon_err env) as [err|].
  { split; [done|]. done. }
  unfold fan_init. apply wp_bind. unfold wp at 1, modify. apply wp_bind. unfold wp at 1.
  apply wp_bind. unfold wp at 1, emit. apply wp_bind. unfold wp at 1.
  destruct (fan_workqueue_ok env); [|done]. cbn [negb].
  set (d4 := set_pwm_workqueue true _). apply wp_bind.
  eapply wp_mono; [apply (fan_pwm_init_run num_fans d4); [|done|done]|].
  - unfold d4. rewrite Hd3. split_and!; try done; by apply Forall_replicate.
  - intros ? d5 e5 (Hd5 & Ha5 & Hset). run_prog. split; [done|]. intros _ _.
    split; [split; [by destruct d5|rewrite Hd5; by destruct d5]|].
    split; [rewrite Hd5; by destruct d3|]. split; [|by rewrite Hd5].
    intros nr Hnr. split; [unfold fan_nr; lia|]. rewrite <- (Hset nr Hnr). by destruct d5.
Qed.

(** ** Witnesses *)

Lemma fan_example_wf : fan_wf fan_example.
Proof. split; [|done]. split_and!; try done; by apply Forall_replicate. Qed.

(** Four fans, then seventeen. *)
Definition ops_example : list fan_op :=
  [OpSetPwm 3 "200"; OpShowFan 3 (7, 7); OpWork 4; OpSetPwmEnable 1 "1"].

Lemma fan_faults_past_16_witness :
  wp (for_each ops_example (run_op (T := fan_virt))) fan_example (fun _ d' _ => fan_wf d') /\
  for_each (OpWork 17 :: ops_example) (run_op (T := fan_virt)) fan_example = Stop OutOfBounds.
Proof.
  assert (Forall op_args (OpWork 17 :: ops_example)) as Hargs
    by (repeat constructor; cbn; unfold fan_nr, FAN_MAX_NUM, is_u8; lia).
  pose proof (fan_faults_past_16 (T := fan_virt) ops_example fan_example fan_example_wf
    (Forall_inv_tail Hargs)) as H1.
  pose proof (fan_faults_past_16 (T := fan_virt) (OpWork 17 :: ops_example) fan_example fan_example_wf
    Hargs) as H2.
  rewrite decide_True in H1 by (repeat constructor; cbn; unfold FAN_MAX_NUM; lia).
  rewrite decide_False in H2
    by (intros [Hf _]%Forall_cons; cbn in Hf; unfold FAN_MAX_NUM in Hf; lia).
  exact (conj H1 H2).
Defined.

Lemma virt_set_then_show_witness :
  wp (set_pwm 3 "300") fan_example (fun r d' _ =>
    r = str_len "300" /\ fan_wf d' /\
    (forall nr', fan_nr nr' -> nr' <> 3 ->
       pwm d' !! Z.to_nat (nr' - 1) = pwm fan_example !! Z.to_nat (nr' - 1)) /\
    wp (show_pwm (T := fan_virt) 3 0) d' (fun r _ _ => r.2 = sprintf_d (clamp_val 300 0 255)) /\
    wp (show_fan (T := fan_virt) 3 (0, 0)) d' (fun r _ _ =>
      exists rpm, r.2 = sprintf_d rpm /\ 0 <= rpm <= FAN_MAX_RPM /\
        rpm = clamp_val 300 0 255 * FAN_MAX_RPM / 255)).
Proof.
  apply (virt_set_then_show 3 "300" 300 0 (0, 0) fan_example fan_example_wf);
    [unfold fan_nr, FAN_MAX_NUM; lia|vm_compute; reflexivity].
Defined.

Lemma smbus_update_messages_witness :
  good_bus /\
  wp (run_op (T := fan_smbus) (OpWork 2)) fan_example (fun _ d' es =>
    fan_wf d' /\ pwm d' = pwm fan_example /\ Forall (pec_valid 0) (i2c_sent es) /\
    i2c_sent es = seqZ 1 2 ≫= (fun nr =>
      match pwm fan_example !! Z.to_nat (nr - 1) with
      | Some v => replicate 50 (pwm_message nr v)
      | None => []
      end)).
Proof.
  assert good_bus as H by done. split; [exact H|].
  apply (smbus_update_messages 2 fan_example H fan_example_wf). unfold FAN_MAX_NUM. lia.
Defined.

Lemma smbus_no_deadlock_witness :
  exists threads, Forall2 (op_trace (T := fan_smbus)) [OpSetPwm 3 "200"; OpWork 2] threads /\
    (lock_finished (lock_start threads) \/ exists c', lock_step (lock_start threads) c').
Proof.
  assert (exists threads, Forall2 (op_trace (T := fan_smbus)) [OpSetPwm 3 "200"; OpWork 2] threads)
    as [threads Hth].
  { eexists. constructor; [|constructor; [|constructor]];
      exists fan_example; eexists _, _; (split; [vm_compute; reflexivity|reflexivity]). }
  exists threads. split; [exact Hth|]. exact (smbus_no_deadlock _ threads _ Hth (rtc_refl _ _)).
Defined.

Lemma virt_deadlock_witness :
  exists tr1 tr2 c,
    op_trace (T := fan_virt) (OpShowPwm 3 0) tr1 /\ op_trace (T := fan_virt) (OpWork 4) tr2 /\
    rtc lock_step (lock_start [tr1; tr2]) c /\ ~ lock_finished c /\ forall c', ~ lock_step c c'.
Proof.
  apply (virt_deadlock 3 0 4 fan_example fan_example_wf); unfold fan_nr, FAN_MAX_NUM; lia.
Defined.
