(* ===== verification/TempDriver.v ===== *)
(** * The temperature sensor driver: [virt_temp.c]

    A simulated sensor: one attribute that is written and read back. *)

From S2P Require Import Prelude.

Record temp_data : Type := mkTemp {
  temp : Z; (** unsigned long *)
  temp_lock : bool; (** held *)
}.

Inductive temp_event : Type :=
| EvTempLock
| EvTempUnlock
| EvTempRegisterHwmon.

Abbreviation tempM := (M temp_event temp_data).

Definition set_temp_value (v : Z) (d : temp_data) : temp_data := mkTemp v (temp_lock d).
Definition set_temp_lock (v : bool) (d : temp_data) : temp_data := mkTemp (temp d) v.

Definition temp_mutex_lock : tempM unit :=
  held <- gets temp_lock ;;
  if held then fail LoopsForever else emit EvTempLock ;; modify (set_temp_lock true).

Definition temp_mutex_unlock : tempM unit := emit EvTempUnlock ;; modify (set_temp_lock false).

Section driver.
Context {K : KStrtoul}.

(** The result and the text.  The format is [%ld]: the value printed is the
    [unsigned long] read as signed. *)
Definition show_temp : tempM (Z * string) :=
  temp_mutex_lock ;;
  val <- gets temp ;;
  temp_mutex_unlock ;;
  let text := sprintf_d (if val <? 2 ^ 63 then val else val - 2 ^ 64) in
  ret (str_len text, text).

Definition set_temp (buf : string) : tempM Z :=
  match kstrtoul buf with
  | inl err => ret err
  | inr val =>
      let val := clamp_val val 0 100000 in
      temp_mutex_lock ;;
      modify (set_temp_value val) ;;
      temp_mutex_unlock ;;
      ret (str_len buf)
  end.

(** [alloc_ok]: [devm_kzalloc]; [hwmon_err]: the registration's error, if any. *)
Definition temp_probe (alloc_ok : bool) (hwmon_err : option Z) : tempM Z :=
  if negb alloc_ok then ret (- ENOMEM)
  else
    modify (fun _ => mkTemp 0 false) ;;
    modify (set_temp_value 25000) ;;
    emit EvTempRegisterHwmon ;;
    match hwmon_err with
    | Some err => ret err
    | None => ret 0
    end.

Fixpoint set_temps (bufs : list string) : tempM unit :=
  match bufs with
  | [] => ret tt
  | b :: r => _ <- set_temp b ;; set_temps r
  end.

(** ** Specification *)

(** The value after a sequence of writes: the last one that parses, clamped. *)
Definition temp_after (v : Z) (bufs : list string) : Z :=
  foldl (fun v buf => match kstrtoul buf with inl _ => v | inr x => clamp_val x 0 100000 end)
    v bufs.

Lemma temp_after_range v bufs : 0 <= v <= 100000 -> 0 <= temp_after v bufs <= 100000.
Proof.
  revert v. induction bufs as [|b r IH]; intros v Hv; [done|]. cbn. apply IH.
  destruct (kstrtoul b); [done|]. unfold clamp_val. lia.
Qed.

Lemma set_temps_run bufs d :
  temp_lock d = false ->
  wp (set_temps bufs) d (fun _ d' _ => d' = mkTemp (temp_after (temp d) bufs) false).
Proof.
  revert d. induction bufs as [|b r IH]; intros d Hl; cbn [set_temps].
  - destruct d; cbn in *. by subst.
  - apply wp_bind. unfold set_temp, temp_mutex_lock, temp_mutex_unlock.
    destruct (kstrtoul b) as [e|x] eqn:Hb.
    + run_prog. unfold temp_after. cbn. rewrite Hb. by apply IH.
    + run_prog. rewrite Hl. cbn. unfold temp_after. cbn. rewrite Hb.
      by apply (IH (mkTemp (clamp_val x 0 100000) false)).
Qed.

(** C20: the sensor is a register.  After the probe and any sequence of writes to
    [temp1_input], reading it prints the last value that parsed, clamped to
    0..100000, or 25000 if there was none; the mutex is free again. *)
Theorem temp_register bufs d :
  wp (temp_probe true None ;; set_temps bufs ;; show_temp) d (fun r d' _ =>
    let v := temp_after 25000 bufs in
    r = (str_len (sprintf_d v), sprintf_d v) /\ 0 <= v <= 100000 /\ temp_lock d' = false).
Proof.
  apply wp_bind. unfold wp at 1, temp_probe. run_prog. apply wp_bind.
  eapply wp_mono; [by apply set_temps_run|]. intros [] d1 e1 ->. cbn [temp].
  assert (0 <= temp_after 25000 bufs <= 100000) as Hr by by apply temp_after_range.
  unfold show_temp, temp_mutex_lock, temp_mutex_unlock. run_prog.
  rewrite (proj2 (Z.ltb_lt _ _)) by (change (2 ^ 63) with 9223372036854775808; lia).
  split_and!; done || lia.
Qed.
End driver.

(** ** Witness *)

Lemma temp_register_witness :
  wp (temp_probe true None ;; set_temps ["30500"; ""; "200000"]%string ;; show_temp) (mkTemp 0 false)
    (fun r d' _ =>
      let v := temp_after 25000 ["30500"; ""; "200000"]%string in
      r = (str_len (sprintf_d v), sprintf_d v) /\ 0 <= v <= 100000 /\ temp_lock d' = false).
Proof. apply (temp_register ["30500"; ""; "200000"]%string (mkTemp 0 false)). Defined.
