(* ===== verification/Notifier.v ===== *)
(** * The notifier chain test module: [test_notifier.c]

    Three notifiers on one chain, each for one action.  The chain itself is
    the kernel's: registration and the call of a chain are an interface with
    their documented behaviour for blocks of one priority. *)

From S2P Require Import Prelude.

Inductive test_action : Set := TEST_REBOOT | TEST_POWEROFF | TEST_HALT.

#[export] Instance test_action_eq_dec : EqDecision test_action.
Proof. solve_decision. Defined.

Inductive test_nb : Set := test_reboot_nb | test_poweroff_nb | test_halt_nb.

(** What the module prints: the name of the notifier that was called. *)
Abbreviation notifyM := (M string).

(** [notifier_call] of the three blocks. *)
Definition test_reboot_notifier {S : Type} (action : test_action) : notifyM S Z :=
  when (bool_decide (action = TEST_REBOOT)) (emit "test_reboot_notifier called"%string) ;; ret 0.

Definition test_poweroff_notifier {S : Type} (action : test_action) : notifyM S Z :=
  when (bool_decide (action = TEST_POWEROFF)) (emit "test_poweroff_notifier called"%string) ;; ret 0.

Definition test_halt_notifier {S : Type} (action : test_action) : notifyM S Z :=
  when (bool_decide (action = TEST_HALT)) (emit "test_halt_notifier called"%string) ;; ret 0.

Definition notifier_call {S : Type} (nb : test_nb) : test_action -> notifyM S Z :=
  match nb with
  | test_reboot_nb => test_reboot_notifier
  | test_poweroff_nb => test_poweroff_notifier
  | test_halt_nb => test_halt_notifier
  end.

(** The kernel's chain: its blocks in calling order.  Registering a block of
    the priority of the others puts it last; a call runs the blocks in order,
    the next one only if the previous returned without the stop bit. *)
Class NotifierChain : Type := {
  chain : Type;
  chain_empty : chain;
  chain_blocks : chain -> list test_nb;
  blocking_notifier_chain_register : chain -> test_nb -> chain;
  blocking_notifier_call_chain : test_action -> notifyM chain Z;
  chain_empty_blocks : chain_blocks chain_empty = [];
  chain_register_blocks c nb :
    chain_blocks (blocking_notifier_chain_register c nb) = chain_blocks c ++ [nb];
  chain_call_in_order action c es :
    (exists l, Forall2 (fun nb e => notifier_call (S := unit) nb action tt = Ok (0, tt, e))
                 (chain_blocks c) l /\ es = concat l) ->
    blocking_notifier_call_chain action c = Ok (0, c, es);
}.

Section module.
Context {N : NotifierChain}.

Definition test_enter : notifyM chain Z :=
  modify (fun c => blocking_notifier_chain_register c test_reboot_nb) ;;
  modify (fun c => blocking_notifier_chain_register c test_poweroff_nb) ;;
  modify (fun c => blocking_notifier_chain_register c test_halt_nb) ;;
  _ <- blocking_notifier_call_chain TEST_REBOOT ;;
  ret 0.

(** What a call of the loaded chain prints. *)
Definition notified (action : test_action) : string :=
  match action with
  | TEST_REBOOT => "test_reboot_notifier called"
  | TEST_POWEROFF => "test_poweroff_notifier called"
  | TEST_HALT => "test_halt_notifier called"
  end.

Lemma notified_by_one action c :
  chain_blocks c = [test_reboot_nb; test_poweroff_nb; test_halt_nb] ->
  blocking_notifier_call_chain action c = Ok (0, c, [notified action]).
Proof.
  intros Hc. apply chain_call_in_order. rewrite Hc.
  destruct action; eexists [_; _; _]; (split; [repeat constructor|done]).
Qed.

(** every action reaches exactly its notifier.  Loading the module succeeds
    and prints the reboot notifier's line only; each later call of the chain
    prints the line of the notifier for its action and no other. *)
Theorem notifier_dispatch action :
  wp (_ <- test_enter ;; blocking_notifier_call_chain action) chain_empty (fun r _ es =>
    r = 0 /\ es = [notified TEST_REBOOT; notified action]).
Proof.
  unfold test_enter. run_prog.
  rewrite (notified_by_one TEST_REBOOT); cbn;
    [|by rewrite !chain_register_blocks, chain_empty_blocks].
  rewrite (notified_by_one action); [done|].
  by rewrite !chain_register_blocks, chain_empty_blocks.
Qed.
End module.

(** ** The interface has an implementation *)

Fixpoint call_blocks (l : list test_nb) (action : test_action) : notifyM (list test_nb) Z :=
  match l with
  | [] => ret 0
  | nb :: r => _ <- notifier_call nb action ;; call_blocks r action
  end.

Lemma notifier_call_any {S : Type} nb action (s : S) e :
  notifier_call (S := unit) nb action tt = Ok (0, tt, e) -> notifier_call nb action s = Ok (0, s, e).
Proof. destruct nb, action; cbv; by intros [= <-]. Qed.

#[export] Instance chain_example : NotifierChain.
Proof.
  refine {|
    chain := list test_nb;
    chain_empty := [];
    chain_blocks c := c;
    blocking_notifier_chain_register c nb := c ++ [nb];
    blocking_notifier_call_chain action := fun c => call_blocks c action c;
  |}.
  - done.
  - done.
  - intros action c es (l & Hl & ->).
    assert (forall c0, call_blocks c action c0 = Ok (0, c0, concat l)) as H; [|apply H].
    induction Hl as [|nb e c l He _ IH]; intros c0; [done|].
    cbn [call_blocks]. by rewrite (bind_ok _ _ _ _ _ _ (notifier_call_any _ _ c0 _ He)), IH.
Defined.

Lemma notifier_dispatch_witness :
  wp (_ <- test_enter ;; blocking_notifier_call_chain TEST_HALT) chain_empty (fun r _ es =>
    r = 0 /\ es = ["test_reboot_notifier called"; "test_halt_notifier called"]%string).
Proof. exact (notifier_dispatch TEST_HALT). Defined.
