(* ===== verification/PcieState.v ===== *)
(** * State of the PCIe memory driver

    The constants and descriptors of [pcie.h], and the two interfaces the
    driver stands on: the page tables of the mapping, and the swap device with
    the block layer.  The contents of a 4 KiB page are never looked into; they
    are the type [page]. *)

From S2P Require Import Prelude.

(** Documented values of an arm64 kernel with 4 KiB pages. *)
Definition PAGE_SHIFT : Z := 12.
Definition PAGE_SIZE : Z := 4096.
Definition SECTOR_SHIFT : Z := 9.

Definition VIRTUAL_SIZE_GB : Z := 32.
Definition VIRTUAL_SIZE : Z := Z.shiftl VIRTUAL_SIZE_GB 30.
Definition PHY_SIZE_GB : Z := 8.
Definition PHY_SIZE : Z := Z.shiftl PHY_SIZE_GB 30.
Definition MY_PAGE_SIZE : Z := Z.shiftl 4 20.
Definition RESERVED_PHYS_ADDR : Z := 0x400000000.

(** [MY_PAGE_SIZE/PAGE_SIZE], and the sectors of one page. *)
Definition PAGES : Z := 1024.
Definition PAGE_SECTORS : Z := 8.

Inductive vpage_status : Set := VPAGE_IN_MEM | VPAGE_IN_SWAP | VPAGE_NO_MAP.
Inductive ppage_status : Set := PPAGE_FREE | PPAGE_IN_USE | PPAGE_SWAPCACHE.

#[export] Instance vpage_status_eq_dec : EqDecision vpage_status.
Proof. solve_decision. Defined.
#[export] Instance ppage_status_eq_dec : EqDecision ppage_status.
Proof. solve_decision. Defined.

Record pcie_phymem_desc : Type := mkPhymem {
  ph_status : ppage_status;
  pfn : Z;
  dirty : bool;
  write_cnt : Z;
  read_cnt : Z;
}.

(** [phy_desc] points into the array of physical descriptors: an index. *)
Record pcie_vmem_desc : Type := mkVmem {
  phy_desc : option nat;
  vm_status : vpage_status;
  vm_id : Z;
}.

(** ** Interfaces *)

(** The page table of the one mapping, by page number from its start.
    [pte_offset_map_lock]: whether there is a table for the page.
    [remap_pfn_range pt a n f] maps the [n] pages from [a] to the frames from
    [f]; it is a [BUG] ([None]) if one of them is mapped already. *)
Class PageTables : Type := {
  pgtable : Type;
  pt_lookup : pgtable -> Z -> option Z;
  pte_offset_map_lock : pgtable -> Z -> bool;
  set_pte : pgtable -> Z -> Z -> pgtable;
  remap_pfn_range : pgtable -> Z -> Z -> Z -> option pgtable;
  zap_vma_ptes : pgtable -> Z -> Z -> pgtable;
  set_pte_lookup pt a f b :
    pt_lookup (set_pte pt a f) b = if b =? a then Some f else pt_lookup pt b;
  remap_lookup pt a n f pt' b :
    remap_pfn_range pt a n f = Some pt' ->
    pt_lookup pt' b = if (a <=? b) && (b <? a + n) then Some (f + (b - a)) else pt_lookup pt b;
  remap_ok pt a n f :
    (forall b, a <= b < a + n -> pt_lookup pt b = None) -> is_Some (remap_pfn_range pt a n f);
  remap_bug pt a n f b :
    a <= b < a + n -> is_Some (pt_lookup pt b) -> remap_pfn_range pt a n f = None;
  zap_lookup pt a n b :
    pt_lookup (zap_vma_ptes pt a n) b =
      if (a <=? b) && (b <? a + n) then None else pt_lookup pt b;
}.

(** The swap device and the block layer, for the [k]-th bio made.  A submitted
    bio returns 0 when all its pages were transferred. *)
Class SwapDevice (page : Type) : Type := {
  disk : Type;
  disk_page : disk -> Z -> page;
  bio_kmalloc : nat -> bool;
  bio_add_page : nat -> Z -> bool;
  submit_write : nat -> disk -> Z -> list page -> Z * disk;
  submit_read : nat -> disk -> Z -> list page -> Z * list page;
  submit_write_done k d s ps i p :
    (submit_write k d s ps).1 = 0 -> ps !! i = Some p ->
    disk_page (submit_write k d s ps).2 (s + PAGE_SECTORS * Z.of_nat i) = p;
  submit_write_other k d s ps s' :
    s' + PAGE_SECTORS <= s \/ s + PAGE_SECTORS * Z.of_nat (length ps) <= s' ->
    disk_page (submit_write k d s ps).2 s' = disk_page d s';
  submit_read_done k d s ps i :
    (submit_read k d s ps).1 = 0 -> (i < length ps)%nat ->
    (submit_read k d s ps).2 !! i = Some (disk_page d (s + PAGE_SECTORS * Z.of_nat i));
  submit_read_length k d s ps : length (submit_read k d s ps).2 = length ps;
}.

Inductive pcie_event : Type :=
| EvBioAlloc (k : nat)
| EvBioFree (k : nat)
| EvBioUninit (k : nat)
| EvKfree (k : nat)
| EvLockPage (f : Z)
| EvUnlockPage (f : Z)
| EvGetPage (f : Z)
| EvPte (pte : option Z)
| EvSwapOpen
| EvSwapPut.

Section state.
Context {page : Type} {PT : PageTables} {SD : SwapDevice page}.

(** The driver's arrays and counters, the memory it manages by frame number,
    the mapping, and the swap device. *)
Record pcie_mm : Type := mkMm {
  pcie_vmem_descs : list pcie_vmem_desc;
  pcie_phymem_descs : list pcie_phymem_desc;
  total_write : Z;
  total_read : Z;
  phys : Z -> page;
  ptes : pgtable;
  swap : disk;
  bios : nat;
}.

Definition set_vmem (v : list pcie_vmem_desc) (s : pcie_mm) : pcie_mm :=
  mkMm v (pcie_phymem_descs s) (total_write s) (total_read s) (phys s) (ptes s) (swap s) (bios s).
Definition set_phymem (v : list pcie_phymem_desc) (s : pcie_mm) : pcie_mm :=
  mkMm (pcie_vmem_descs s) v (total_write s) (total_read s) (phys s) (ptes s) (swap s) (bios s).
Definition set_total_write (v : Z) (s : pcie_mm) : pcie_mm :=
  mkMm (pcie_vmem_descs s) (pcie_phymem_descs s) v (total_read s) (phys s) (ptes s) (swap s)
    (bios s).
Definition set_total_read (v : Z) (s : pcie_mm) : pcie_mm :=
  mkMm (pcie_vmem_descs s) (pcie_phymem_descs s) (total_write s) v (phys s) (ptes s) (swap s)
    (bios s).
Definition set_phys (v : Z -> page) (s : pcie_mm) : pcie_mm :=
  mkMm (pcie_vmem_descs s) (pcie_phymem_descs s) (total_write s) (total_read s) v (ptes s)
    (swap s) (bios s).
Definition set_ptes (v : pgtable) (s : pcie_mm) : pcie_mm :=
  mkMm (pcie_vmem_descs s) (pcie_phymem_descs s) (total_write s) (total_read s) (phys s) v
    (swap s) (bios s).
Definition set_swap (v : disk) (s : pcie_mm) : pcie_mm :=
  mkMm (pcie_vmem_descs s) (pcie_phymem_descs s) (total_write s) (total_read s) (phys s)
    (ptes s) v (bios s).
Definition set_bios (v : nat) (s : pcie_mm) : pcie_mm :=
  mkMm (pcie_vmem_descs s) (pcie_phymem_descs s) (total_write s) (total_read s) (phys s)
    (ptes s) (swap s) v.
End state.

Arguments pcie_mm page {PT SD}.
Notation pcieM page := (M pcie_event (pcie_mm page)).

Section access.
Context {page : Type} {PT : PageTables} {SD : SwapDevice page}.

(** A descriptor by its index, and an update of it. *)
Definition get_vmem (i : nat) : pcieM page pcie_vmem_desc :=
  l <- gets pcie_vmem_descs ;; of_opt OutOfBounds (l !! i).

Definition get_phymem (f : nat) : pcieM page pcie_phymem_desc :=
  l <- gets pcie_phymem_descs ;; of_opt OutOfBounds (l !! f).

Definition upd_vmem (i : nat) (g : pcie_vmem_desc -> pcie_vmem_desc) : pcieM page unit :=
  modify (fun s => set_vmem (alter g i (pcie_vmem_descs s)) s).

Definition upd_phymem (f : nat) (g : pcie_phymem_desc -> pcie_phymem_desc) : pcieM page unit :=
  modify (fun s => set_phymem (alter g f (pcie_phymem_descs s)) s).
End access.

Definition with_phy (p : option nat) (d : pcie_vmem_desc) : pcie_vmem_desc :=
  mkVmem p (vm_status d) (vm_id d).
Definition with_status (st : vpage_status) (d : pcie_vmem_desc) : pcie_vmem_desc :=
  mkVmem (phy_desc d) st (vm_id d).
Definition with_ph_status (st : ppage_status) (d : pcie_phymem_desc) : pcie_phymem_desc :=
  mkPhymem st (pfn d) (dirty d) (write_cnt d) (read_cnt d).
Definition incr_write_cnt (d : pcie_phymem_desc) : pcie_phymem_desc :=
  mkPhymem (ph_status d) (pfn d) (dirty d) (wrap 64 (write_cnt d + 1)) (read_cnt d).
Definition incr_read_cnt (d : pcie_phymem_desc) : pcie_phymem_desc :=
  mkPhymem (ph_status d) (pfn d) (dirty d) (write_cnt d) (wrap 64 (read_cnt d + 1)).

(** ** Implementations of the interfaces *)

(** Page tables as functions. *)
Definition fn_pages : PageTables.
Proof.
  refine {|
    pgtable := Z -> option Z;
    pt_lookup pt a := pt a;
    pte_offset_map_lock _ _ := true;
    set_pte pt a f b := if b =? a then Some f else pt b;
    remap_pfn_range pt a n f :=
      if forallb (fun b => negb (bool_decide (is_Some (pt b)))) (seqZ a n) then
        Some (fun b => if (a <=? b) && (b <? a + n) then Some (f + (b - a)) else pt b)
      else None;
    zap_vma_ptes pt a n b := if (a <=? b) && (b <? a + n) then None else pt b;
  |}.
  - done.
  - intros pt a n f pt' b. destruct (forallb _ _); [|done]. by intros [= <-].
  - intros pt a n f Hn. rewrite (proj2 (forallb_forall _ _)); [by eexists|].
    intros b Hb%list_elem_of_In%elem_of_seqZ. rewrite bool_decide_false; [done|].
    rewrite Hn by done. by intros [].
  - intros pt a n f b Hb Hs. destruct (forallb _ _) eqn:Hf; [|done].
    rewrite forallb_forall in Hf. specialize (Hf b). rewrite bool_decide_true in Hf by done.
    discriminate Hf. apply list_elem_of_In, elem_of_seqZ. lia.
  - done.
Defined.

(** A device that keeps a page per start sector; [mem] tells whether the [k]-th
    bio can be allocated. *)
Definition fn_swap (page : Type) (mem : nat -> bool) : SwapDevice page.
Proof.
  refine {|
    disk := Z -> page;
    disk_page d s := d s;
    bio_kmalloc := mem;
    bio_add_page _ _ := true;
    submit_write _ d s ps :=
      (0, fun t => if (s <=? t) && ((t - s) mod PAGE_SECTORS =? 0)
                   then default (d t) (ps !! Z.to_nat ((t - s) / PAGE_SECTORS)) else d t);
    submit_read _ d s ps := (0, imap (fun i _ => d (s + PAGE_SECTORS * Z.of_nat i)) ps);
  |}.
  - intros _ d s ps i p _ Hp. cbn. replace (s + PAGE_SECTORS * Z.of_nat i - s) with (Z.of_nat i * PAGE_SECTORS) by lia.
    rewrite Z.mod_mul, Z.div_mul, Nat2Z.id, Hp by done.
    rewrite (proj2 (Z.leb_le _ _)) by (unfold PAGE_SECTORS; lia). done.
  - intros _ d s ps s' Hs. cbn. destruct (Z.leb_spec s s'); [|done].
    destruct (_ =? 0); [|done]. cbn. rewrite lookup_ge_None_2; [done|].
    destruct Hs as [Hs|Hs]; [unfold PAGE_SECTORS in Hs; lia|].
    assert (Z.of_nat (length ps) <= (s' - s) / PAGE_SECTORS); [|lia].
    apply Z.div_le_lower_bound; [done|lia].
  - intros _ d s ps i _ Hi. cbn. rewrite list_lookup_imap.
    destruct (lookup_lt_is_Some_2 _ _ Hi) as [x ->]. done.
  - intros. apply length_imap.
Defined.
