(* ===== verification/PcieSwap.v ===== *)
(** * Swapping: [pcie_swap.c]

    The transfer of a 4 MiB page to and from the swap device, eviction and
    page-in.  The file has two versions of the transfers, for kernels before
    and from 6.1, that differ in how the bio is made and released. *)

From S2P Require Import Prelude PcieState.

Section operations.
Context {page : Type} {PT : PageTables} {SD : SwapDevice page}.

(** [(desc->id * MY_PAGE_SIZE) >> SECTOR_SHIFT]. *)
Definition swap_sector (id : Z) : Z := Z.shiftr (wrap 64 (id * MY_PAGE_SIZE)) SECTOR_SHIFT.

(** The [PAGES] pages from frame [f]. *)
Definition read_frames (m : Z -> page) (f : Z) : list page :=
  (fun i => m (f + i)) <$> seqZ 0 PAGES.

Definition write_frames (m : Z -> page) (f : Z) (ps : list page) : Z -> page :=
  fun a => if f <=? a then default (m a) (ps !! Z.to_nat (a - f)) else m a.

(** [bio_kmalloc]: the number of the bio, if there is memory. *)
Definition new_bio : pcieM page (option nat) :=
  k <- gets bios ;;
  modify (set_bios (S k)) ;;
  if bio_kmalloc k then emit (EvBioAlloc k) ;; ret (Some k) else ret None.

(** The loop that adds the pages; [false]: the bio took one of them not. *)
Fixpoint add_pages (k : nat) (l : list Z) : bool :=
  match l with
  | [] => true
  | i :: r => if bio_add_page k i then add_pages k r else false
  end.

Definition submit_write_wait (k : nat) (sector : Z) (ps : list page) : pcieM page Z :=
  d <- gets swap ;;
  let r := submit_write k d sector ps in
  modify (set_swap r.2) ;;
  ret r.1.

Definition submit_read_wait (k : nat) (sector f : Z) : pcieM page Z :=
  d <- gets swap ;;
  m <- gets phys ;;
  let r := submit_read k d sector (read_frames m f) in
  modify (set_phys (write_frames m f r.2)) ;;
  ret r.1.

(** Before 6.1; a refused page leaks the bio. *)
Definition my_swap_writepages (i : nat) : pcieM page Z :=
  desc <- get_vmem i ;;
  f <- of_opt NullDeref (phy_desc desc) ;;
  ph <- get_phymem f ;;
  let sector := swap_sector (vm_id desc) in
  bio <- new_bio ;;
  match bio with
  | None => ret (- ENOMEM)
  | Some k =>
      if add_pages k (seqZ 0 PAGES) then
        m <- gets phys ;;
        r <- submit_write_wait k sector (read_frames m (pfn ph)) ;;
        emit (EvBioFree k) ;;
        ret r
      else ret (- EIO)
  end.

Definition my_swap_readpages (i : nat) : pcieM page Z :=
  desc <- get_vmem i ;;
  f <- of_opt NullDeref (phy_desc desc) ;;
  ph <- get_phymem f ;;
  let sector := swap_sector (vm_id desc) in
  bio <- new_bio ;;
  match bio with
  | None => ret (- ENOMEM)
  | Some k =>
      if add_pages k (seqZ 0 PAGES) then
        r <- submit_read_wait k sector (pfn ph) ;;
        emit (EvBioFree k) ;;
        ret r
      else
        emit (EvBioFree k) ;;
        ret (- EIO)
  end.

(** From 6.1 on: the bio is initialised in place, and released by hand. *)
Definition my_swap_writepages_6_1 (i : nat) : pcieM page Z :=
  desc <- get_vmem i ;;
  f <- of_opt NullDeref (phy_desc desc) ;;
  ph <- get_phymem f ;;
  let sector := swap_sector (vm_id desc) in
  bio <- new_bio ;;
  match bio with
  | None => ret (- ENOMEM)
  | Some k =>
      if add_pages k (seqZ 0 PAGES) then
        m <- gets phys ;;
        r <- submit_write_wait k sector (read_frames m (pfn ph)) ;;
        emit (EvBioUninit k) ;;
        emit (EvKfree k) ;;
        ret r
      else ret (- EIO)
  end.

Definition my_swap_readpages_6_1 (i : nat) : pcieM page Z :=
  desc <- get_vmem i ;;
  f <- of_opt NullDeref (phy_desc desc) ;;
  ph <- get_phymem f ;;
  let sector := swap_sector (vm_id desc) in
  bio <- new_bio ;;
  match bio with
  | None => ret (- ENOMEM)
  | Some k =>
      if add_pages k (seqZ 0 PAGES) then
        r <- submit_read_wait k sector (pfn ph) ;;
        emit (EvBioUninit k) ;;
        emit (EvKfree k) ;;
        ret r
      else
        emit (EvBioFree k) ;;
        ret (- EIO)
  end.

(** The results of both transfers are dropped. *)
Definition read_pages (i : nat) : pcieM page Z :=
  _ <- my_swap_readpages i ;;
  desc <- get_vmem i ;;
  f <- of_opt NullDeref (phy_desc desc) ;;
  upd_phymem f incr_read_cnt ;;
  modify (fun s => set_total_read (wrap 64 (total_read s + 1)) s) ;;
  ret 0.

Definition write_pages (i : nat) : pcieM page Z :=
  _ <- my_swap_writepages i ;;
  upd_vmem i (with_status VPAGE_IN_SWAP) ;;
  desc <- get_vmem i ;;
  f <- of_opt NullDeref (phy_desc desc) ;;
  upd_phymem f incr_write_cnt ;;
  modify (fun s => set_total_write (wrap 64 (total_write s + 1)) s) ;;
  ret 0.

(** [evict_page(vma, vmem_desc, swap_desc)] on the indices of the two. *)
Definition evict_page (victim target : nat) : pcieM page Z :=
  vmem_desc <- get_vmem victim ;;
  f <- of_opt NullDeref (phy_desc vmem_desc) ;;
  ph <- get_phymem f ;;
  emit (EvLockPage (pfn ph)) ;;
  _ <- write_pages victim ;;
  modify (fun s => set_ptes (zap_vma_ptes (ptes s) (vm_id vmem_desc * PAGES) PAGES) s) ;;
  vmem_desc <- get_vmem victim ;;
  upd_vmem target (with_phy (phy_desc vmem_desc)) ;;
  upd_vmem victim (with_phy None) ;;
  swap_desc <- get_vmem target ;;
  when (bool_decide (vm_status swap_desc = VPAGE_IN_SWAP)) (_ <- read_pages target ;; ret tt) ;;
  upd_vmem target (with_status VPAGE_IN_MEM) ;;
  emit (EvUnlockPage (pfn ph)) ;;
  ret 0.

Definition my_swap_pagein (i : nat) : pcieM page Z :=
  vmem_desc <- get_vmem i ;;
  f <- of_opt NullDeref (phy_desc vmem_desc) ;;
  ph <- get_phymem f ;;
  emit (EvLockPage (pfn ph)) ;;
  _ <- read_pages i ;;
  emit (EvUnlockPage (pfn ph)) ;;
  ret 0.
End operations.

#[global] Arguments seqZ : simpl never.
#[global] Arguments PAGES : simpl never.

(** ** Lemmas *)

Section lemmas.
Context {page : Type} {PT : PageTables} {SD : SwapDevice page}.
Implicit Types s : pcie_mm page.

(** A device on which every transfer succeeds. *)
Definition good_device : Prop :=
  forall k, bio_kmalloc k = true /\ (forall i, bio_add_page k i = true) /\
    (forall d sec ps, (submit_write k d sec ps).1 = 0) /\
    (forall d sec ps, (submit_read k d sec ps).1 = 0).

Lemma pages_pos : 0 < PAGES.
Proof. done. Qed.

Lemma read_frames_length (m : Z -> page) f : length (read_frames m f) = Z.to_nat PAGES.
Proof. unfold read_frames. by rewrite length_fmap, length_seqZ. Qed.

Lemma read_frames_lookup (m : Z -> page) f j :
  0 <= j < PAGES -> read_frames m f !! Z.to_nat j = Some (m (f + j)).
Proof.
  intros Hj. unfold read_frames. rewrite list_lookup_fmap, lookup_seqZ_lt by lia. cbn.
  by rewrite Z2Nat.id by lia.
Qed.

Lemma write_frames_inside (m : Z -> page) f ps j p :
  0 <= j -> ps !! Z.to_nat j = Some p -> write_frames m f ps (f + j) = p.
Proof.
  intros Hj Hp. unfold write_frames. rewrite (proj2 (Z.leb_le _ _)) by lia.
  replace (f + j - f) with j by lia. by rewrite Hp.
Qed.

Lemma write_frames_outside (m : Z -> page) f ps a :
  length ps = Z.to_nat PAGES -> a < f \/ f + PAGES <= a -> write_frames m f ps a = m a.
Proof.
  intros Hl Ha. unfold write_frames. destruct (Z.leb_spec f a); [|done].
  rewrite lookup_ge_None_2; [done|]. pose proof pages_pos. lia.
Qed.

Lemma add_pages_good k l : (forall i, bio_add_page k i = true) -> add_pages k l = true.
Proof. intros Hk. induction l as [|i l IH]; [done|]. cbn. by rewrite Hk. Qed.

Lemma get_vmem_run i s d : pcie_vmem_descs s !! i = Some d -> get_vmem i s = Ok (d, s, []).
Proof. intros Hd. unfold get_vmem, bind, gets, of_opt. by rewrite Hd. Qed.

Lemma get_phymem_run f s ph :
  pcie_phymem_descs s !! f = Some ph -> get_phymem f s = Ok (ph, s, []).
Proof. intros Hd. unfold get_phymem, bind, gets, of_opt. by rewrite Hd. Qed.

Lemma upd_vmem_run i s g d :
  pcie_vmem_descs s !! i = Some d ->
  upd_vmem i g s = Ok (tt, set_vmem (<[i := g d]> (pcie_vmem_descs s)) s, []).
Proof. intros Hd. unfold upd_vmem, modify. by rewrite (list_alter_insert _ _ _ _ Hd). Qed.

Lemma my_swap_writepages_run i s d f ph :
  pcie_vmem_descs s !! i = Some d -> phy_desc d = Some f -> pcie_phymem_descs s !! f = Some ph ->
  exists r sw es,
    my_swap_writepages i s = Ok (r, set_bios (S (bios s)) (set_swap sw s), es) /\
    (forall sec, sec + PAGE_SECTORS <= swap_sector (vm_id d) \/
        swap_sector (vm_id d) + PAGE_SECTORS * PAGES <= sec ->
      disk_page sw sec = disk_page (swap s) sec) /\
    (good_device -> r = 0 /\ forall j, 0 <= j < PAGES ->
      disk_page sw (swap_sector (vm_id d) + PAGE_SECTORS * j) = phys s (pfn ph + j)) /\
    (bio_kmalloc (bios s) = false -> r = - ENOMEM /\ sw = swap s).
Proof.
  intros Hd Hf Hph. unfold my_swap_writepages, get_vmem, get_phymem, new_bio, submit_write_wait.
  unfold bind, gets, modify, emit, of_opt, ret. rewrite Hd, Hf, Hph.
  destruct (bio_kmalloc (bios s)) eqn:Hk; cbn -[swap_sector].
  2: { eexists _, (swap s), _. split; [by destruct s|]. split; [done|].
       split; [|done]. intros Hg. destruct (Hg (bios s)) as [Hk' _]. congruence. }
  destruct (add_pages (bios s) (seqZ 0 PAGES)) eqn:Ha; cbn -[swap_sector].
  2: { eexists _, (swap s), _. split; [by destruct s|]. split; [done|].
       split; [|done]. intros Hg. rewrite add_pages_good in Ha; [done|apply Hg]. }
  eexists _, _, _. split; [by destruct s|]. split.
  - intros sec Hsec. apply submit_write_other. rewrite read_frames_length. pose proof pages_pos. lia.
  - split; [|done]. intros Hg. split; [apply Hg|]. intros j Hj.
    replace j with (Z.of_nat (Z.to_nat j)) at 1 by lia.
    apply submit_write_done; [apply Hg|]. by apply read_frames_lookup.
Qed.

Lemma my_swap_readpages_run i s d f ph :
  pcie_vmem_descs s !! i = Some d -> phy_desc d = Some f -> pcie_phymem_descs s !! f = Some ph ->
  exists r m es,
    my_swap_readpages i s = Ok (r, set_bios (S (bios s)) (set_phys m s), es) /\
    (forall a, a < pfn ph \/ pfn ph + PAGES <= a -> m a = phys s a) /\
    (good_device -> r = 0 /\ forall j, 0 <= j < PAGES ->
      m (pfn ph + j) = disk_page (swap s) (swap_sector (vm_id d) + PAGE_SECTORS * j)).
Proof.
  intros Hd Hf Hph. unfold my_swap_readpages, get_vmem, get_phymem, new_bio, submit_read_wait.
  unfold bind, gets, modify, emit, of_opt, ret. rewrite Hd, Hf, Hph.
  destruct (bio_kmalloc (bios s)) eqn:Hk; cbn -[swap_sector].
  2: { eexists _, (phys s), _. split; [by destruct s|]. split; [done|].
       intros Hg. destruct (Hg (bios s)) as [Hk' _]. congruence. }
  destruct (add_pages (bios s) (seqZ 0 PAGES)) eqn:Ha; cbn -[swap_sector].
  2: { eexists _, (phys s), _. split; [by destruct s|]. split; [done|].
       intros Hg. rewrite add_pages_good in Ha; [done|apply Hg]. }
  eexists _, _, _. split; [by destruct s|]. split.
  - intros a Ha'. apply write_frames_outside; [|done].
    by rewrite submit_read_length, read_frames_length.
  - intros Hg. split; [apply Hg|]. intros j Hj. apply write_frames_inside; [lia|].
    replace j with (Z.of_nat (Z.to_nat j)) at 2 by lia.
    apply submit_read_done; [apply Hg|]. rewrite read_frames_length. lia.
Qed.

Lemma write_pages_run i s d f ph :
  pcie_vmem_descs s !! i = Some d -> phy_desc d = Some f -> pcie_phymem_descs s !! f = Some ph ->
  exists sw es,
    write_pages i s = Ok (0,
      mkMm (<[i := with_status VPAGE_IN_SWAP d]> (pcie_vmem_descs s))
        (<[f := incr_write_cnt ph]> (pcie_phymem_descs s)) (wrap 64 (total_write s + 1))
        (total_read s) (phys s) (ptes s) sw (S (bios s)), es) /\
    (forall sec, sec + PAGE_SECTORS <= swap_sector (vm_id d) \/
        swap_sector (vm_id d) + PAGE_SECTORS * PAGES <= sec ->
      disk_page sw sec = disk_page (swap s) sec) /\
    (good_device -> forall j, 0 <= j < PAGES ->
      disk_page sw (swap_sector (vm_id d) + PAGE_SECTORS * j) = phys s (pfn ph + j)) /\
    (bio_kmalloc (bios s) = false -> sw = swap s).
Proof.
  intros Hd Hf Hph. destruct (my_swap_writepages_run i s d f ph Hd Hf Hph) as (r & sw & es & Hrun & Ho & Hg & Hn).
  unfold write_pages. rewrite (bind_ok _ _ _ _ _ _ Hrun).
  unfold upd_vmem, upd_phymem, get_vmem, bind, gets, modify, of_opt, ret.
  destruct s; cbn in *. rewrite (list_alter_insert _ _ _ _ Hd).
  rewrite list_lookup_insert_eq by by eapply lookup_lt_Some. cbn. rewrite Hf.
  rewrite (list_alter_insert _ _ _ _ Hph). eexists _, _. split; [done|]. split; [done|].
  split; [intros Hgood; by apply Hg|]. intros Hk. by apply Hn.
Qed.

Lemma read_pages_run i s d f ph :
  pcie_vmem_descs s !! i = Some d -> phy_desc d = Some f -> pcie_phymem_descs s !! f = Some ph ->
  exists m es,
    read_pages i s = Ok (0,
      mkMm (pcie_vmem_descs s) (<[f := incr_read_cnt ph]> (pcie_phymem_descs s)) (total_write s)
        (wrap 64 (total_read s + 1)) m (ptes s) (swap s) (S (bios s)), es) /\
    (forall a, a < pfn ph \/ pfn ph + PAGES <= a -> m a = phys s a) /\
    (good_device -> forall j, 0 <= j < PAGES ->
      m (pfn ph + j) = disk_page (swap s) (swap_sector (vm_id d) + PAGE_SECTORS * j)).
Proof.
  intros Hd Hf Hph. destruct (my_swap_readpages_run i s d f ph Hd Hf Hph) as (r & m & es & Hrun & Ho & Hg).
  unfold read_pages. rewrite (bind_ok _ _ _ _ _ _ Hrun).
  unfold upd_phymem, get_vmem, bind, gets, modify, of_opt, ret.
  destruct s; cbn in *. rewrite Hd. cbn. rewrite Hf.
  rewrite (list_alter_insert _ _ _ _ Hph). eexists _, _. split; [done|]. split; [done|].
  intros Hgood. by apply Hg.
Qed.

(** The two versions answer the same and leave the same state. *)
Definition outcome {A : Type} (r : result (A * pcie_mm page * list pcie_event)) :
    result (A * pcie_mm page) :=
  match r with Ok (a, s, _) => Ok (a, s) | Stop f => Stop f end.

Lemma my_swap_writepages_versions i s :
  outcome (my_swap_writepages_6_1 i s) = outcome (my_swap_writepages i s).
Proof.
  unfold my_swap_writepages_6_1, my_swap_writepages, bind.
  destruct (get_vmem i s) as [[[d s1] e1]|]; [|done].
  destruct (of_opt _ _ s1) as [[[f s2] e2]|]; [|done].
  destruct (get_phymem f s2) as [[[ph s3] e3]|]; [|done].
  destruct (new_bio s3) as [[[[k|] s4] e4]|]; [|done..]. by destruct (add_pages k _).
Qed.

Lemma my_swap_readpages_versions i s :
  outcome (my_swap_readpages_6_1 i s) = outcome (my_swap_readpages i s).
Proof.
  unfold my_swap_readpages_6_1, my_swap_readpages, bind.
  destruct (get_vmem i s) as [[[d s1] e1]|]; [|done].
  destruct (of_opt _ _ s1) as [[[f s2] e2]|]; [|done].
  destruct (get_phymem f s2) as [[[ph s3] e3]|]; [|done].
  destruct (new_bio s3) as [[[[k|] s4] e4]|]; [|done..]. by destruct (add_pages k _).
Qed.

(** A page-in, or none: what it leaves of the rest. *)
Record paged_in (s : pcie_mm page) (d : pcie_vmem_desc) (ph : pcie_phymem_desc) (st : vpage_status)
    (s' : pcie_mm page) : Prop := mkPagedIn {
  pi_vmem : pcie_vmem_descs s' = pcie_vmem_descs s;
  pi_pfn : pfn <$> pcie_phymem_descs s' = pfn <$> pcie_phymem_descs s;
  pi_status : ph_status <$> pcie_phymem_descs s' = ph_status <$> pcie_phymem_descs s;
  pi_ptes : ptes s' = ptes s;
  pi_swap : swap s' = swap s;
  pi_phys a : a < pfn ph \/ pfn ph + PAGES <= a -> phys s' a = phys s a;
  pi_read j : good_device -> st = VPAGE_IN_SWAP -> 0 <= j < PAGES ->
    phys s' (pfn ph + j) = disk_page (swap s) (swap_sector (vm_id d) + PAGE_SECTORS * j);
  pi_none : st <> VPAGE_IN_SWAP -> s' = s;
}.

Lemma read_pages_paged_in i s d f ph :
  pcie_vmem_descs s !! i = Some d -> phy_desc d = Some f -> pcie_phymem_descs s !! f = Some ph ->
  exists s' es, read_pages i s = Ok (0, s', es) /\ paged_in s d ph VPAGE_IN_SWAP s'.
Proof.
  intros Hd Hf Hph. destruct (read_pages_run i s d f ph Hd Hf Hph) as (m & es & Hrun & Ho & Hg).
  eexists _, es. split; [exact Hrun|]. split; try done; cbn.
  - by eapply fmap_insert_id.
  - by eapply fmap_insert_id.
  - intros j Hgood _. by apply Hg.
Qed.

Lemma when_read_pages i s d f ph st :
  pcie_vmem_descs s !! i = Some d -> phy_desc d = Some f -> pcie_phymem_descs s !! f = Some ph ->
  exists s' es, when (bool_decide (st = VPAGE_IN_SWAP)) (_ <- read_pages i ;; ret tt) s = Ok (tt, s', es) /\
    paged_in s d ph st s'.
Proof.
  intros Hd Hf Hph. destruct (decide (st = VPAGE_IN_SWAP)) as [->|Hst].
  - destruct (read_pages_paged_in i s d f ph Hd Hf Hph) as (s' & es & Hrun & Hp).
    cbn [when bool_decide decide_rel]. rewrite bool_decide_true by done. cbn [when].
    rewrite (bind_ok _ _ _ _ _ _ Hrun). eexists _, _. by split.
  - rewrite bool_decide_false by done. eexists s, []. split; [done|]. by split.
Qed.

Lemma when_pagein i s d f ph st :
  pcie_vmem_descs s !! i = Some d -> phy_desc d = Some f -> pcie_phymem_descs s !! f = Some ph ->
  exists s' es, when (bool_decide (st = VPAGE_IN_SWAP)) (_ <- my_swap_pagein i ;; ret tt) s =
      Ok (tt, s', es) /\ paged_in s d ph st s'.
Proof.
  intros Hd Hf Hph. destruct (decide (st = VPAGE_IN_SWAP)) as [->|Hst].
  - destruct (read_pages_paged_in i s d f ph Hd Hf Hph) as (s' & es & Hrun & Hp).
    rewrite bool_decide_true by done. cbn [when]. unfold my_swap_pagein. rewrite bind_assoc.
    erewrite bind_ok by (by apply get_vmem_run). rewrite bind_assoc, Hf. cbn [of_opt].
    rewrite bind_ret_l, bind_assoc. erewrite bind_ok by (by apply get_phymem_run).
    unfold emit. rewrite bind_assoc. erewrite (bind_ok _ _ _ tt) by reflexivity.
    rewrite bind_assoc, (bind_ok _ _ _ _ _ _ Hrun). eexists _, _. split; [reflexivity|done].
  - rewrite bool_decide_false by done. eexists s, []. split; [done|]. by split.
Qed.

(** What giving block [t] the frame [f] of block [v], or a free frame, does. *)
Record filled (s : pcie_mm page) (t : nat) (victim : option nat) (f : nat) (s' : pcie_mm page) :
    Prop := mkFilled {
  fl_vmem dt : pcie_vmem_descs s !! t = Some dt ->
    pcie_vmem_descs s' = <[t := mkVmem (Some f) VPAGE_IN_MEM (vm_id dt)]>
      match victim with
      | Some v => alter (fun d => mkVmem None VPAGE_IN_SWAP (vm_id d)) v (pcie_vmem_descs s)
      | None => pcie_vmem_descs s
      end;
  fl_pfn : pfn <$> pcie_phymem_descs s' = pfn <$> pcie_phymem_descs s;
  fl_status : ph_status <$> pcie_phymem_descs s' =
    match victim with
    | Some _ => ph_status <$> pcie_phymem_descs s
    | None => <[f := PPAGE_IN_USE]> (ph_status <$> pcie_phymem_descs s)
    end;
  fl_ptes : ptes s' =
    match victim with
    | Some v =>
        match pcie_vmem_descs s !! v with
        | Some d => zap_vma_ptes (ptes s) (vm_id d * PAGES) PAGES
        | None => ptes s
        end
    | None => ptes s
    end;
  fl_phys ph a : pcie_phymem_descs s !! f = Some ph -> a < pfn ph \/ pfn ph + PAGES <= a ->
    phys s' a = phys s a;
  fl_swap sec :
    (forall v d, victim = Some v -> pcie_vmem_descs s !! v = Some d ->
       sec + PAGE_SECTORS <= swap_sector (vm_id d) \/
       swap_sector (vm_id d) + PAGE_SECTORS * PAGES <= sec) ->
    disk_page (swap s') sec = disk_page (swap s) sec;
  fl_written v d ph j : good_device -> victim = Some v -> pcie_vmem_descs s !! v = Some d ->
    pcie_phymem_descs s !! f = Some ph -> 0 <= j < PAGES ->
    disk_page (swap s') (swap_sector (vm_id d) + PAGE_SECTORS * j) = phys s (pfn ph + j);
  fl_read dt ph j : good_device -> pcie_vmem_descs s !! t = Some dt ->
    pcie_phymem_descs s !! f = Some ph -> vm_status dt = VPAGE_IN_SWAP -> 0 <= j < PAGES ->
    phys s' (pfn ph + j) = disk_page (swap s') (swap_sector (vm_id dt) + PAGE_SECTORS * j);
  fl_no_memory : victim <> None -> bio_kmalloc (bios s) = false -> swap s' = swap s;
}.

Lemma evict_page_run v t s dv dt f ph :
  pcie_vmem_descs s !! v = Some dv -> pcie_vmem_descs s !! t = Some dt -> v <> t ->
  phy_desc dv = Some f -> pcie_phymem_descs s !! f = Some ph ->
  exists s' es, evict_page v t s = Ok (0, s', es) /\ filled s t (Some v) f s'.
Proof.
  intros Hv Ht Hne Hf Hph.
  destruct (write_pages_run v s dv f ph Hv Hf Hph) as (sw & e1 & Hw & Hwo & Hwg & Hwn).
  destruct s as [vm pm tw tr m pt dk n]. cbn [pcie_vmem_descs pcie_phymem_descs total_write
    total_read phys ptes swap bios] in *.
  assert (v < length vm /\ t < length vm)%nat as [Hvl Htl] by eauto using lookup_lt_Some.
  unfold evict_page.
  erewrite bind_ok by (by apply get_vmem_run). rewrite Hf. cbn [of_opt]. rewrite bind_ret_l.
  erewrite bind_ok by (by apply get_phymem_run). unfold emit at 1. erewrite (bind_ok _ _ _ tt) by reflexivity.
  erewrite bind_ok by exact Hw. unfold modify at 1. erewrite (bind_ok _ _ _ tt) by reflexivity.
  unfold set_ptes; cbn [pcie_vmem_descs pcie_phymem_descs total_write total_read phys ptes swap bios].
  set (vm1 := <[v:=with_status VPAGE_IN_SWAP dv]> vm). set (pm1 := <[f:=incr_write_cnt ph]> pm).
  assert (vm1 !! v = Some (with_status VPAGE_IN_SWAP dv)) as Hv1 by by apply list_lookup_insert_eq.
  assert (vm1 !! t = Some dt) as Ht1 by (unfold vm1; by rewrite list_lookup_insert_ne).
  erewrite bind_ok by (by apply get_vmem_run). erewrite bind_ok by (by apply upd_vmem_run).
  unfold set_vmem; cbn [phy_desc with_status pcie_vmem_descs pcie_phymem_descs total_write total_read phys
    ptes swap bios]. rewrite Hf.
  set (vm2 := <[t:=with_phy (Some f) dt]> vm1).
  assert (vm2 !! v = Some (with_status VPAGE_IN_SWAP dv)) as Hv2
    by (unfold vm2; by rewrite list_lookup_insert_ne).
  erewrite bind_ok by (by apply upd_vmem_run).
  unfold set_vmem; cbn [pcie_vmem_descs pcie_phymem_descs total_write total_read phys ptes swap bios].
  set (vm3 := <[v:=with_phy None (with_status VPAGE_IN_SWAP dv)]> vm2).
  assert (vm3 !! t = Some (with_phy (Some f) dt)) as Ht3.
  { unfold vm3. rewrite list_lookup_insert_ne by done. unfold vm2, vm1.
    apply list_lookup_insert_eq. by rewrite length_insert. }
  erewrite bind_ok by (by apply get_vmem_run). cbn [vm_status with_phy].
  match goal with |- context [mkMm vm3 pm1 ?a ?b ?c ?d ?e ?g] => set (s3 := mkMm vm3 pm1 a b c d e g) end.
  assert (pm1 !! f = Some (incr_write_cnt ph)) as Hp1.
  { apply list_lookup_insert_eq. by eapply lookup_lt_Some. }
  destruct (when_read_pages t s3 _ f _ (vm_status dt) Ht3 eq_refl Hp1) as (s4 & e4 & H4 & Hpi).
  erewrite bind_ok by exact H4. destruct Hpi as [Pv Pp Ps Pt Pd Pm Pr Pn].
  assert (pcie_vmem_descs s4 !! t = Some (with_phy (Some f) dt)) as Ht4 by by rewrite Pv.
  erewrite bind_ok by (by apply upd_vmem_run). eexists _, _. split; [reflexivity|].
  unfold set_vmem.
  split; cbn [pcie_vmem_descs pcie_phymem_descs total_write total_read phys ptes swap bios].
  - intros dt' Hdt'. simplify_eq. rewrite Pv. cbn [pcie_vmem_descs s3].
    rewrite (list_alter_insert _ _ _ _ Hv). unfold vm3, vm2, vm1.
    rewrite (list_insert_insert_ne (<[v:=_]> vm) v t) by done.
    by rewrite !list_insert_insert_eq.
  - rewrite Pp. by eapply fmap_insert_id.
  - rewrite Ps. by eapply fmap_insert_id.
  - by rewrite Pt, Hv.
  - intros ph' a Hph' Ha. simplify_eq. by apply Pm.
  - intros sec Hsec. rewrite Pd. apply Hwo. by eapply Hsec.
  - intros v' d ph' j Hg Hv' Hd Hph' Hj. simplify_eq. rewrite Pd. by apply Hwg.
  - intros dt' ph' j Hg Hdt' Hph' Hst Hj. simplify_eq. rewrite Pd. by apply Pr.
  - intros _ Hk. rewrite Pd. by apply Hwn.
Qed.
End lemmas.
