(* ===== verification/PcieMm.v ===== *)
(** * Demand paging: [pcie_mm.c]

    The reset of the descriptors, the choice of a frame for a page and the
    fault handler; then what an access reads, when the descriptors and the page
    table are well-formed, and that making a block present keeps both. *)

From S2P Require Import Prelude PcieState PcieSwap.

Section operations.
Context {page : Type} {PT : PageTables} {SD : SwapDevice page}.

Definition pcie_init_vmem : pcieM page Z :=
  modify (fun s => set_vmem
    (imap (fun i _ => mkVmem None VPAGE_NO_MAP (Z.of_nat i)) (pcie_vmem_descs s)) s) ;;
  ret 0.

(** The counters are reset through [pcie_phymem_descs->], the first element. *)
Definition pcie_init_phymem : pcieM page Z :=
  modify (fun s => set_phymem
    (imap (fun i d =>
       mkPhymem PPAGE_FREE (Z.shiftr RESERVED_PHYS_ADDR PAGE_SHIFT + Z.of_nat i * PAGES) false
         (if (i =? 0)%nat then 0 else write_cnt d) (if (i =? 0)%nat then 0 else read_cnt d))
       (pcie_phymem_descs s)) s) ;;
  ret 0.

Definition pcie_mm_reset : pcieM page Z :=
  _ <- pcie_init_vmem ;;
  _ <- pcie_init_phymem ;;
  modify (set_total_read 0) ;;
  modify (set_total_write 0) ;;
  ret 0.

(** The page table walk is the kernel's; the entry is printed. *)
Definition get_vaddr_pte (a : Z) : pcieM page Z :=
  pt <- gets ptes ;;
  if negb (pte_offset_map_lock pt a) then ret (- EINVAL)
  else
    emit (EvPte (pt_lookup pt a)) ;;
    ret 0.

Definition fill_vpage (cur : nat) : pcieM page Z :=
  phs <- gets pcie_phymem_descs ;;
  match list_find (fun d => ph_status d = PPAGE_FREE) phs with
  | Some (f, _) =>
      upd_vmem cur (with_phy (Some f)) ;;
      cur_desc <- get_vmem cur ;;
      when (bool_decide (vm_status cur_desc = VPAGE_IN_SWAP)) (_ <- my_swap_pagein cur ;; ret tt) ;;
      upd_phymem f (with_ph_status PPAGE_IN_USE) ;;
      upd_vmem cur (with_status VPAGE_IN_MEM) ;;
      ret 0
  | None =>
      vms <- gets pcie_vmem_descs ;;
      match list_find (fun d => vm_status d = VPAGE_IN_MEM) vms with
      | Some (i, vmem_desc) =>
          match phy_desc vmem_desc with
          | None => fail KernelBug
          | Some _ => _ <- evict_page i cur ;; ret 0
          end
      | None => fail KernelBug
      end
  end.

(** [offset]: the faulting address from the start of the mapping.  The result
    comes with the frame of [vmf->page], if it was set. *)
Definition pcieBase_fault (offset : Z) : pcieM page (Z * option Z) :=
  let vpage_idx := Z.to_nat (offset / MY_PAGE_SIZE) in
  vdesc <- get_vmem vpage_idx ;;
  r <- (if bool_decide (vm_status vdesc = VPAGE_IN_SWAP)
           || bool_decide (vm_status vdesc = VPAGE_NO_MAP) then
          match phy_desc vdesc with
          | Some _ => fail KernelBug
          | None => fill_vpage vpage_idx
          end
        else ret 0) ;;
  vdesc <- get_vmem vpage_idx ;;
  if bool_decide (vm_status vdesc = VPAGE_IN_MEM) then
    match phy_desc vdesc with
    | None => fail KernelBug
    | Some f =>
        ph <- get_phymem f ;;
        pt <- gets ptes ;;
        pt <- of_opt KernelBug
          (remap_pfn_range pt (vm_id vdesc * PAGES + 1) (PAGES - 1) (pfn ph + 1)) ;;
        modify (set_ptes pt) ;;
        emit (EvGetPage (pfn ph)) ;;
        ret (r, Some (pfn ph))
    end
  else ret (r, None).

(** ** The kernel and the program *)

(** The kernel's fault path: the handler, then the page it returned is entered
    at the faulting page, unless an entry is there already. *)
Definition handle_fault (a : Z) : pcieM page unit :=
  r <- pcieBase_fault (a * PAGE_SIZE) ;;
  f <- of_opt NullDeref r.2 ;;
  pt <- gets ptes ;;
  match pt_lookup pt a with
  | Some _ => ret tt
  | None => modify (set_ptes (set_pte pt a f))
  end.

(** The frame of page [a] of the mapping, through a fault if need be. *)
Definition translate (a : Z) : pcieM page Z :=
  pt <- gets ptes ;;
  match pt_lookup pt a with
  | Some f => ret f
  | None =>
      handle_fault a ;;
      pt <- gets ptes ;;
      of_opt LoopsForever (pt_lookup pt a)
  end.

Inductive mem_access : Type :=
| Read (a : Z)
| Write (a : Z) (v : page).

Definition access_page (x : mem_access) : Z := match x with Read a | Write a _ => a end.

(** An access; a read returns what it saw. *)
Definition access (x : mem_access) : pcieM page (option page) :=
  f <- translate (access_page x) ;;
  match x with
  | Read _ => m <- gets phys ;; ret (Some (m f))
  | Write _ v =>
      modify (fun s => set_phys (fun b => if b =? f then v else phys s b) s) ;;
      ret None
  end.

Fixpoint accesses (l : list mem_access) : pcieM page (list (option page)) :=
  match l with
  | [] => ret []
  | x :: r => o <- access x ;; os <- accesses r ;; ret (o :: os)
  end.

(** ** Specification: a flat memory *)

(** What a memory whose cells hold arbitrary fixed values at first answers; [m]
    are the cells that have been seen. *)
Fixpoint flat_ok (m : gmap Z page) (l : list mem_access) (os : list (option page)) : Prop :=
  match l, os with
  | [], [] => True
  | Read a :: l, Some v :: os => (forall w, m !! a = Some w -> v = w) /\ flat_ok (<[a := v]> m) l os
  | Write a v :: l, None :: os => flat_ok (<[a := v]> m) l os
  | _, _ => False
  end.

(** ** Invariant *)

(** The block of a page, and the page's place in it. *)
Definition block (a : Z) : nat := Z.to_nat (a / PAGES).
Definition place (a : Z) : Z := a mod PAGES.

(** What the memory or the swap device holds for page [a]. *)
Definition content (s : pcie_mm page) (a : Z) : option page :=
  match pcie_vmem_descs s !! block a with
  | Some d =>
      match vm_status d, phy_desc d with
      | VPAGE_IN_MEM, Some f =>
          ph ← pcie_phymem_descs s !! f; Some (phys s (pfn ph + place a))
      | VPAGE_IN_SWAP, _ =>
          Some (disk_page (swap s) (swap_sector (vm_id d) + PAGE_SECTORS * place a))
      | _, _ => None
      end
  | None => None
  end.

(** Page [a] is mapped, and rightly. *)
Definition pte_right (s : pcie_mm page) (a f : Z) : Prop :=
  0 <= a /\ exists d i ph, pcie_vmem_descs s !! block a = Some d /\ vm_status d = VPAGE_IN_MEM /\
    phy_desc d = Some i /\ pcie_phymem_descs s !! i = Some ph /\ f = pfn ph + place a.

Record mm_wf (s : pcie_mm page) : Prop := mkWf {
  (** the arrays fit the address space *)
  wf_blocks : Z.of_nat (length (pcie_vmem_descs s)) <= VIRTUAL_SIZE / MY_PAGE_SIZE;
  wf_frames : (0 < length (pcie_phymem_descs s))%nat;
  wf_id i d : pcie_vmem_descs s !! i = Some d -> vm_id d = Z.of_nat i;
  (** a block is in memory exactly when it has a frame *)
  wf_in_mem i d : pcie_vmem_descs s !! i = Some d ->
    vm_status d = VPAGE_IN_MEM <-> is_Some (phy_desc d);
  (** the frame is in use, and only one block has it *)
  wf_phy i d f : pcie_vmem_descs s !! i = Some d -> phy_desc d = Some f ->
    exists ph, pcie_phymem_descs s !! f = Some ph /\ ph_status ph = PPAGE_IN_USE;
  wf_inj i j d e f : pcie_vmem_descs s !! i = Some d -> pcie_vmem_descs s !! j = Some e ->
    phy_desc d = Some f -> phy_desc e = Some f -> i = j;
  (** a frame is free or has a block *)
  wf_used f ph : pcie_phymem_descs s !! f = Some ph -> ph_status ph <> PPAGE_FREE ->
    exists i d, pcie_vmem_descs s !! i = Some d /\ phy_desc d = Some f;
  wf_pfn f ph : pcie_phymem_descs s !! f = Some ph ->
    pfn ph = Z.shiftr RESERVED_PHYS_ADDR PAGE_SHIFT + Z.of_nat f * PAGES;
  (** what is mapped is mapped rightly *)
  wf_ptes a f : pt_lookup (ptes s) a = Some f -> pte_right s a f;
}.

(** A block is mapped as a whole or not at all. *)
Definition whole (s : pcie_mm page) (i : nat) : Prop :=
  forall a b, 0 <= a -> 0 <= b -> block a = i -> block b = i ->
    is_Some (pt_lookup (ptes s) a) -> is_Some (pt_lookup (ptes s) b).

Definition mapped (s : pcie_mm page) (i : nat) : Prop :=
  forall a, 0 <= a -> block a = i -> is_Some (pt_lookup (ptes s) a).

(** An order of accesses that enters a block by its first page: [cur] is the
    block of the access before. *)
Fixpoint orderly (cur : option nat) (l : list mem_access) : Prop :=
  match l with
  | [] => True
  | x :: r =>
      (place (access_page x) = 0 \/ cur = Some (block (access_page x))) /\
      orderly (Some (block (access_page x))) r
  end.

Definition in_mapping (s : pcie_mm page) (x : mem_access) : Prop :=
  0 <= access_page x /\ (block (access_page x) < length (pcie_vmem_descs s))%nat.
End operations.

(** ** Lemmas *)

Section lemmas.
Context {page : Type} {PT : PageTables} {SD : SwapDevice page}.
Implicit Types s : pcie_mm page.

Lemma block_range a i :
  0 <= a -> block a = i <-> Z.of_nat i * PAGES <= a < Z.of_nat i * PAGES + PAGES.
Proof.
  intros Ha. unfold block. pose proof pages_pos. pose proof (Z.div_mod a PAGES).
  pose proof (Z.mod_pos_bound a PAGES). pose proof (Z.div_pos a PAGES). split; intros H'.
  - subst i. lia.
  - assert (a / PAGES = Z.of_nat i) as ->; [|lia]. symmetry. apply (Z.div_unique a PAGES _ (a - Z.of_nat i * PAGES)); lia.
Qed.

Lemma block_place a : 0 <= a -> a = Z.of_nat (block a) * PAGES + place a.
Proof.
  intros Ha. unfold block, place. pose proof (Z.div_mod a PAGES). pose proof (Z.div_pos a PAGES).
  pose proof pages_pos. lia.
Qed.

Lemma place_range a : 0 <= place a < PAGES.
Proof. apply Z.mod_pos_bound, pages_pos. Qed.

Lemma swap_sector_eq id :
  0 <= id < VIRTUAL_SIZE / MY_PAGE_SIZE -> swap_sector id = id * (PAGE_SECTORS * PAGES).
Proof.
  change (VIRTUAL_SIZE / MY_PAGE_SIZE) with 8192. intros Hid. unfold swap_sector.
  change MY_PAGE_SIZE with 4194304. rewrite wrap_small by (change (2 ^ 64) with 18446744073709551616; lia).
  unfold SECTOR_SHIFT. rewrite Z.shiftr_div_pow2 by done. change (2 ^ 9) with 512.
  change (PAGE_SECTORS * PAGES) with 8192.
  replace (id * 4194304) with (id * 8192 * 512) by lia. by rewrite Z.div_mul.
Qed.

(** The frame chosen for block [t]: free, or that of the block evicted. *)
Definition chosen s (t : nat) (victim : option nat) (f : nat) : Prop :=
  exists ph, pcie_phymem_descs s !! f = Some ph /\
    match victim with
    | None => ph_status ph = PPAGE_FREE /\
        forall g ph', (g < f)%nat -> pcie_phymem_descs s !! g = Some ph' -> ph_status ph' <> PPAGE_FREE
    | Some v => v <> t /\
        (exists dv, pcie_vmem_descs s !! v = Some dv /\ phy_desc dv = Some f) /\
        (forall g ph', pcie_phymem_descs s !! g = Some ph' -> ph_status ph' <> PPAGE_FREE) /\
        (forall j d, (j < v)%nat -> pcie_vmem_descs s !! j = Some d -> vm_status d <> VPAGE_IN_MEM)
    end.

(** The first free frame is taken. *)
Lemma fill_vpage_free t s dt f ph :
  pcie_vmem_descs s !! t = Some dt ->
  list_find (fun d => ph_status d = PPAGE_FREE) (pcie_phymem_descs s) = Some (f, ph) ->
  exists s' es, fill_vpage t s = Ok (0, s', es) /\ chosen s t None f /\ filled s t None f s'.
Proof.
  intros Ht Hfind. unfold fill_vpage. unfold gets at 1. erewrite (bind_ok _ _ s) by reflexivity.
  rewrite Hfind. apply list_find_Some in Hfind as (Hph & Hfree & Hfirst).
  erewrite bind_ok by (by apply upd_vmem_run).
  set (s1 := set_vmem _ s). assert (pcie_vmem_descs s1 !! t = Some (with_phy (Some f) dt)) as Ht1.
  { apply list_lookup_insert_eq. by eapply lookup_lt_Some. }
  erewrite bind_ok by (by apply get_vmem_run). cbn [vm_status with_phy].
  destruct (when_pagein t s1 _ f ph (vm_status dt) Ht1 eq_refl Hph) as (s2 & e2 & H2 & Hpi).
  erewrite bind_ok by exact H2. destruct Hpi as [Pv Pp Ps Pt Pd Pm Pr Pn].
  assert (exists ph2, pcie_phymem_descs s2 !! f = Some ph2) as [ph2 Hph2].
  { apply lookup_lt_is_Some_2. rewrite <- (length_fmap pfn), Pp, length_fmap.
    by eapply lookup_lt_Some. }
  unfold upd_phymem, upd_vmem, modify. erewrite (bind_ok _ _ _ tt) by reflexivity.
  erewrite (bind_ok _ _ _ tt) by reflexivity. eexists _, _. split; [reflexivity|]. split.
  { exists ph. split; [done|]. split; [done|]. intros g ph' Hg Hph'. by eapply Hfirst. }
  unfold set_vmem, set_phymem.
  split; cbn [pcie_vmem_descs pcie_phymem_descs total_write total_read phys ptes swap bios].
  - intros dt' Hdt'. simplify_eq. rewrite Pv, (list_alter_insert _ _ _ _ Ht1). unfold s1.
    cbn [set_vmem pcie_vmem_descs]. by rewrite list_insert_insert_eq.
  - rewrite (list_alter_insert _ _ _ _ Hph2). by rewrite (fmap_insert_id _ _ _ _ _ Hph2).
  - by rewrite (list_alter_insert _ _ _ _ Hph2), list_fmap_insert, Ps.
  - by rewrite Pt.
  - intros ph' a Hph' Ha. simplify_eq. by apply Pm.
  - intros sec _. by rewrite Pd.
  - done.
  - intros dt' ph' j Hg Hdt' Hph' Hs Hj. simplify_eq. rewrite Pd. by apply Pr.
  - done.
Qed.

Lemma fill_vpage_run t s dt :
  mm_wf s -> pcie_vmem_descs s !! t = Some dt -> vm_status dt <> VPAGE_IN_MEM ->
  exists victim f s' es, fill_vpage t s = Ok (0, s', es) /\ chosen s t victim f /\
    filled s t victim f s'.
Proof.
  intros Hwf Ht Hst. unfold fill_vpage. unfold gets at 1. erewrite (bind_ok _ _ s) by reflexivity.
  destruct (list_find _ (pcie_phymem_descs s)) as [[f ph]|] eqn:Hfind.
  - destruct (fill_vpage_free t s dt f ph Ht Hfind) as (s' & es & Hrun & Hch & Hfl).
    unfold fill_vpage, gets at 1 in Hrun. erewrite (bind_ok _ _ s) in Hrun by reflexivity.
    rewrite Hfind in Hrun. by exists None, f, s', es.
  - apply list_find_None in Hfind. rewrite Forall_lookup in Hfind.
    unfold gets at 1. erewrite (bind_ok _ _ s) by reflexivity.
    destruct (list_find _ (pcie_vmem_descs s)) as [[v dv]|] eqn:Hfind2.
    + apply list_find_Some in Hfind2 as (Hv & Hin & Hfirst).
      destruct (proj1 (wf_in_mem s Hwf _ _ Hv) Hin) as [f Hf].
      destruct (wf_phy s Hwf _ _ _ Hv Hf) as (ph & Hph & _). rewrite Hf.
      assert (v <> t) as Hne by (intros ->; simplify_eq).
      destruct (evict_page_run v t s dv dt f ph Hv Ht Hne Hf Hph) as (s' & es & Hrun & Hfl).
      rewrite (bind_ok _ _ _ _ _ _ Hrun). exists (Some v), f, s'. eexists. split; [reflexivity|].
      split; [|done]. exists ph. split; [done|]. split; [done|]. split; [by exists dv|]. split.
      * intros g ph' Hph'. by eapply Hfind.
      * intros j d Hj Hd. by eapply Hfirst.
    + apply list_find_None in Hfind2. rewrite Forall_lookup in Hfind2. exfalso.
      destruct (lookup_lt_is_Some_2 (pcie_phymem_descs s) 0) as [ph Hph]; [apply Hwf|].
      destruct (wf_used s Hwf _ _ Hph) as (i & d & Hd & Hphy); [by eapply Hfind|].
      apply (Hfind2 _ _ Hd). apply (wf_in_mem s Hwf _ _ Hd). by eexists.
Qed.

(** The descriptors after a block was given a frame. *)
Section filled.
Context s s' t victim f dt (Hwf : mm_wf s) (Ht : pcie_vmem_descs s !! t = Some dt)
  (Hst : vm_status dt <> VPAGE_IN_MEM) (Hch : chosen s t victim f) (Hfl : filled s t victim f s').

Lemma filled_length : length (pcie_vmem_descs s') = length (pcie_vmem_descs s).
Proof.
  rewrite (fl_vmem _ _ _ _ _ Hfl _ Ht), length_insert. destruct victim; [apply length_alter|done].
Qed.

Lemma filled_target : pcie_vmem_descs s' !! t = Some (mkVmem (Some f) VPAGE_IN_MEM (vm_id dt)).
Proof.
  rewrite (fl_vmem _ _ _ _ _ Hfl _ Ht). apply list_lookup_insert_eq.
  apply lookup_lt_Some in Ht. destruct victim; [by rewrite length_alter|done].
Qed.

Lemma filled_vmem i d : pcie_vmem_descs s' !! i = Some d ->
  (i = t /\ d = mkVmem (Some f) VPAGE_IN_MEM (vm_id dt)) \/
  (victim = Some i /\ i <> t /\ exists dv, pcie_vmem_descs s !! i = Some dv /\
     d = mkVmem None VPAGE_IN_SWAP (vm_id dv)) \/
  (i <> t /\ victim <> Some i /\ pcie_vmem_descs s !! i = Some d).
Proof.
  intros Hd. destruct (decide (i = t)) as [->|Hne].
  { left. rewrite filled_target in Hd. by simplify_eq. }
  right. rewrite (fl_vmem _ _ _ _ _ Hfl _ Ht), list_lookup_insert_ne in Hd by done.
  destruct victim as [v|]; [|by right].
  destruct (decide (v = i)) as [->|Hvi].
  - left. rewrite list_lookup_alter_eq in Hd. split; [done|]. split; [done|].
    destruct (pcie_vmem_descs s !! i) as [dv|]; [|done]. exists dv. by simplify_eq/=.
  - right. rewrite list_lookup_alter_ne in Hd by done. split_and!; congruence.
Qed.

Lemma filled_other i d : i <> t -> victim <> Some i -> pcie_vmem_descs s !! i = Some d ->
  pcie_vmem_descs s' !! i = Some d.
Proof.
  intros Hne Hv Hd. rewrite (fl_vmem _ _ _ _ _ Hfl _ Ht), list_lookup_insert_ne by done.
  destruct victim as [v|]; [|done]. rewrite list_lookup_alter_ne; [done|congruence].
Qed.

Lemma filled_phymem g ph' : pcie_phymem_descs s' !! g = Some ph' ->
  exists ph, pcie_phymem_descs s !! g = Some ph /\ pfn ph' = pfn ph /\
    (ph_status ph' = ph_status ph \/ (g = f /\ ph_status ph' = PPAGE_IN_USE)).
Proof.
  intros Hph'. pose proof (f_equal (.!! g) (fl_pfn _ _ _ _ _ Hfl)) as Hp.
  pose proof (f_equal (.!! g) (fl_status _ _ _ _ _ Hfl)) as Hs. cbn in Hp, Hs.
  rewrite !list_lookup_fmap, Hph' in Hp. destruct (pcie_phymem_descs s !! g) as [ph|] eqn:Hph; [|done].
  cbn in Hp. injection Hp as Hp. exists ph. split; [done|]. split; [done|].
  rewrite list_lookup_fmap, Hph' in Hs. destruct victim.
  - rewrite list_lookup_fmap, Hph in Hs. cbn in Hs. left. congruence.
  - destruct (decide (g = f)) as [->|Hne].
    + right. rewrite list_lookup_insert_eq in Hs by (rewrite length_fmap; by eapply lookup_lt_Some).
      cbn in Hs. split; [done|congruence].
    + rewrite list_lookup_insert_ne, list_lookup_fmap, Hph in Hs by done. cbn in Hs. left. congruence.
Qed.

Lemma filled_phymem_pfn g ph : pcie_phymem_descs s !! g = Some ph ->
  exists ph', pcie_phymem_descs s' !! g = Some ph' /\ pfn ph' = pfn ph.
Proof.
  intros Hph. pose proof (f_equal (.!! g) (fl_pfn _ _ _ _ _ Hfl)) as Hp. cbn in Hp.
  rewrite !list_lookup_fmap, Hph in Hp. destruct (pcie_phymem_descs s' !! g) as [ph'|]; [|done].
  cbn in Hp. exists ph'. split; [done|congruence].
Qed.

(** The frame given was used by no other block that keeps its frame. *)
Lemma filled_frame_free i d : i <> t -> victim <> Some i -> pcie_vmem_descs s !! i = Some d ->
  phy_desc d <> Some f.
Proof.
  intros Hne Hv Hd Hf. destruct Hch as (ph & Hph & Hcase). destruct victim as [v|].
  - destruct Hcase as (_ & (dv & Hdv & Hfv) & _).
    destruct (wf_inj s Hwf _ _ _ _ _ Hd Hdv Hf Hfv). done.
  - destruct (wf_phy s Hwf _ _ _ Hd Hf) as (ph2 & Hph2 & Huse). destruct Hcase as [Hfree _].
    simplify_eq. congruence.
Qed.

Lemma filled_in_use : exists ph', pcie_phymem_descs s' !! f = Some ph' /\ ph_status ph' = PPAGE_IN_USE.
Proof.
  destruct Hch as (ph & Hph & Hcase). destruct (filled_phymem_pfn f ph Hph) as (ph' & Hph' & _).
  exists ph'. split; [done|]. pose proof (f_equal (.!! f) (fl_status _ _ _ _ _ Hfl)) as Hs. cbn in Hs.
  rewrite list_lookup_fmap, Hph' in Hs. destruct victim as [v|].
  - destruct Hcase as (_ & (dv & Hdv & Hfv) & _). destruct (wf_phy s Hwf _ _ _ Hdv Hfv) as (ph2 & Hph2 & Hu).
    rewrite list_lookup_fmap, Hph2 in Hs. cbn in Hs. congruence.
  - rewrite list_lookup_insert_eq in Hs by (rewrite length_fmap; by eapply lookup_lt_Some).
    cbn in Hs. congruence.
Qed.

Lemma filled_ptes_lookup a g : pt_lookup (ptes s') a = Some g ->
  pt_lookup (ptes s) a = Some g /\ 0 <= a /\ victim <> Some (block a).
Proof.
  rewrite (fl_ptes _ _ _ _ _ Hfl). destruct victim as [v|].
  - destruct Hch as (ph & _ & _ & (dv & Hdv & _) & _). rewrite Hdv.
    rewrite zap_lookup, (wf_id s Hwf _ _ Hdv). intros Hg.
    destruct ((Z.of_nat v * PAGES <=? a) && (a <? Z.of_nat v * PAGES + PAGES)) eqn:Hr; [done|].
    destruct (wf_ptes s Hwf _ _ Hg) as [Ha _]. split; [done|]. split; [done|]. intros [= Hb].
    symmetry in Hb. apply block_range in Hb; [|done].
    rewrite andb_false_iff, Z.leb_gt, Z.ltb_ge in Hr. lia.
  - intros Hg. destruct (wf_ptes s Hwf _ _ Hg) as [Ha _]. done.
Qed.

Lemma filled_ptes_keep a : pt_lookup (ptes s) a <> None -> victim <> Some (block a) ->
  pt_lookup (ptes s') a = pt_lookup (ptes s) a.
Proof.
  intros Hg Hv. destruct (pt_lookup (ptes s) a) as [g|] eqn:E; [|done].
  destruct (wf_ptes s Hwf _ _ E) as [Ha _].
  rewrite (fl_ptes _ _ _ _ _ Hfl). destruct victim as [v|]; [|done].
  destruct Hch as (ph & _ & _ & (dv & Hdv & _) & _). rewrite Hdv.
  rewrite zap_lookup, (wf_id s Hwf _ _ Hdv).
  destruct ((Z.of_nat v * PAGES <=? a) && (a <? Z.of_nat v * PAGES + PAGES)) eqn:Hr; [|done].
  rewrite andb_true_iff, Z.leb_le, Z.ltb_lt in Hr. apply (block_range a v Ha) in Hr. congruence.
Qed.

Lemma filled_wf : mm_wf s'.
Proof.
  split.
  - rewrite filled_length. apply Hwf.
  - rewrite <- (length_fmap pfn), (fl_pfn _ _ _ _ _ Hfl), length_fmap. apply Hwf.
  - intros i d [[-> ->]|[(_ & _ & dv & Hdv & ->)|(_ & _ & Hd)]]%filled_vmem; cbn;
      eauto using wf_id.
  - intros i d [[-> ->]|[(_ & _ & dv & Hdv & ->)|(_ & _ & Hd)]]%filled_vmem; cbn.
    + by split; [|by eexists].
    + split; [done|by intros []].
    + by apply (wf_in_mem s Hwf _ _ Hd).
  - intros i d g [[-> ->]|[(_ & _ & dv & Hdv & ->)|(Hne & Hv & Hd)]]%filled_vmem; cbn; intros Hg.
    + injection Hg as <-. apply filled_in_use.
    + done.
    + destruct (wf_phy s Hwf _ _ _ Hd Hg) as (ph & Hph & Hu).
      destruct (filled_phymem_pfn g ph Hph) as (ph' & Hph' & _). exists ph'. split; [done|].
      destruct (filled_phymem g ph' Hph') as (ph2 & Hph2 & _ & [Hs|[_ Hs]]); [|done]. congruence.
  - intros i j d e g Hd He Hg Hg'.
    apply filled_vmem in Hd as [[-> ->]|[(_ & _ & dv & Hdv & ->)|(Hne & Hv & Hd)]]; [..|]; cbn in Hg;
    apply filled_vmem in He as [[-> ->]|[(_ & _ & ev & Hev & ->)|(Hne' & Hv' & He)]]; cbn in Hg';
      try done; try injection Hg as <-; try injection Hg' as <-.
    + by destruct (filled_frame_free j e Hne' Hv' He).
    + by destruct (filled_frame_free i d Hne Hv Hd).
    + by eapply (wf_inj s Hwf).
  - intros g ph' Hph' Hne. destruct (filled_phymem g ph' Hph') as (ph & Hph & _ & Hs).
    destruct (decide (g = f)) as [->|Hgf].
    { exists t. eexists. split; [apply filled_target|done]. }
    destruct Hs as [Hs|[? _]]; [|done]. rewrite Hs in Hne.
    destruct (wf_used s Hwf _ _ Hph Hne) as (i & d & Hd & Hg). exists i, d. split; [|done].
    apply filled_other; [| |done].
    + intros ->. simplify_eq. apply Hst. apply (wf_in_mem s Hwf _ _ Ht). by eexists.
    + intros Hv. destruct Hch as (ph2 & _ & Hcase). rewrite Hv in Hcase.
      destruct Hcase as (_ & (dv & Hdv & Hfv) & _). congruence.
  - intros g ph' Hph'. destruct (filled_phymem g ph' Hph') as (ph & Hph & -> & _).
    by apply (wf_pfn s Hwf).
  - intros a g Hg. apply filled_ptes_lookup in Hg as (Hg & Ha & Hv).
    destruct (wf_ptes s Hwf _ _ Hg) as (_ & d & i & ph & Hd & Hin & Hi & Hph & ->).
    split; [done|]. destruct (filled_phymem_pfn i ph Hph) as (ph' & Hph' & Hpfn).
    exists d, i, ph'. split_and!; try done; [|by rewrite Hpfn].
    apply filled_other; [|done|done]. intros E. rewrite E in Hd. simplify_eq.
Qed.

(** With a device that works, no page's content changes. *)
Lemma filled_content a v : good_device -> 0 <= a -> content s a = Some v -> content s' a = Some v.
Proof.
  intros Hg Ha. pose proof (place_range a) as Hpl. unfold content.
  destruct Hch as (ph & Hph & Hcase). destruct (filled_phymem_pfn f ph Hph) as (ph' & Hph' & Hpfn').
  assert (forall i d, pcie_vmem_descs s !! i = Some d ->
    swap_sector (vm_id d) = Z.of_nat i * (PAGE_SECTORS * PAGES)) as Hsec.
  { intros i d Hd. rewrite (wf_id s Hwf _ _ Hd). apply swap_sector_eq.
    pose proof (wf_blocks s Hwf). apply lookup_lt_Some in Hd. lia. }
  assert (forall i d j, victim <> Some i -> pcie_vmem_descs s !! i = Some d -> 0 <= j < PAGES ->
    disk_page (swap s') (swap_sector (vm_id d) + PAGE_SECTORS * j) =
    disk_page (swap s) (swap_sector (vm_id d) + PAGE_SECTORS * j)) as Hdisk.
  { intros i d j Hv Hd Hj. apply (fl_swap _ _ _ _ _ Hfl). intros w dw Hw Hdw.
    rewrite (Hsec _ _ Hd), (Hsec _ _ Hdw). assert (i <> w) by congruence.
    unfold PAGE_SECTORS. pose proof pages_pos. assert (Z.of_nat i < Z.of_nat w \/ Z.of_nat w < Z.of_nat i) by lia. nia. }
  destruct (pcie_vmem_descs s !! block a) as [d|] eqn:Hd; [|done].
  destruct (decide (block a = t)) as [Hbt|Hbt].
  - rewrite Hbt in Hd |- *. assert (d = dt) as -> by congruence. rewrite filled_target. cbn. rewrite Hph'. cbn.
    destruct (vm_status dt) eqn:Hs; [done| |done]. intros [= <-]. f_equal. rewrite Hpfn'.
    rewrite (fl_read _ _ _ _ _ Hfl dt ph _ Hg Ht Hph Hs Hpl). apply (Hdisk t); [|done|done].
    intros Hv. rewrite Hv in Hcase. by destruct Hcase.
  - destruct (decide (victim = Some (block a))) as [Hv|Hv].
    + assert (pcie_vmem_descs s' !! block a = Some (mkVmem None VPAGE_IN_SWAP (vm_id d))) as ->.
      { rewrite (fl_vmem _ _ _ _ _ Hfl _ Ht), list_lookup_insert_ne, Hv, list_lookup_alter_eq, Hd by done. done. }
      cbn. rewrite Hv in Hcase. destruct Hcase as (_ & (dv & Hdv & Hfv) & _). rewrite Hd in Hdv. injection Hdv as ->.
      rewrite Hfv. destruct (vm_status dv) eqn:Hs.
      * rewrite Hph. cbn. intros [= <-]. f_equal. by apply (fl_written _ _ _ _ _ Hfl (block a) dv ph).
      * assert (vm_status dv = VPAGE_IN_MEM) as Hm by (apply (wf_in_mem s Hwf _ _ Hd); by eexists). congruence.
      * done.
    + rewrite (filled_other _ _ Hbt Hv Hd). destruct (vm_status d) eqn:Hs.
      * destruct (phy_desc d) as [g|] eqn:Hgd; [|done]. destruct (wf_phy s Hwf _ _ _ Hd Hgd) as (pg & Hpg & _).
        destruct (filled_phymem_pfn g pg Hpg) as (pg' & Hpg' & Hpfg). rewrite Hpg, Hpg'. cbn.
        intros [= <-]. f_equal. rewrite Hpfg. apply (fl_phys _ _ _ _ _ Hfl ph); [done|].
        rewrite (wf_pfn s Hwf _ _ Hpg), (wf_pfn s Hwf _ _ Hph).
        assert (g <> f) by (intros ->; by destruct (filled_frame_free (block a) d Hbt Hv Hd)).
        assert (Z.of_nat g < Z.of_nat f \/ Z.of_nat f < Z.of_nat g) by lia. nia.
      * intros [= <-]. f_equal. by apply (Hdisk (block a)).
      * done.
Qed.
End filled.
End lemmas.
