(* ===== verification/PcieFault.v ===== *)
(** * Faults and accesses: the paging of [pcie_mm.c] refines a flat memory

    One fault, from the handler's entry to the page table, then the theorems:
    accesses that enter each 4 MiB block by its first page see a flat memory
    and never stop the kernel, and what happens in another order. *)

From S2P Require Import Prelude PcieState PcieSwap PcieMm.


Section faults.
Context {page : Type} {PT : PageTables} {SD : SwapDevice page}.
Implicit Types s : pcie_mm page.

Lemma wf_set_ptes s pt :
  mm_wf s -> (forall a f, pt_lookup pt a = Some f -> pte_right s a f) -> mm_wf (set_ptes pt s).
Proof. intros [H1 H2 H3 H4 H5 H6 H7 H8 _] H. by split. Qed.

(** What making block [i] present leaves. *)
Record settled s (i : nat) s1 f ph : Prop := mkSettled {
  st_wf : mm_wf s1;
  st_length : length (pcie_vmem_descs s1) = length (pcie_vmem_descs s);
  st_block : pcie_vmem_descs s1 !! i = Some (mkVmem (Some f) VPAGE_IN_MEM (Z.of_nat i));
  st_frame : pcie_phymem_descs s1 !! f = Some ph;
  st_content a v : good_device -> 0 <= a -> content s a = Some v -> content s1 a = Some v;
  st_ptes a g : pt_lookup (ptes s1) a = Some g -> pt_lookup (ptes s) a = Some g;
  st_whole j : whole s j -> whole s1 j;
  st_present d : pcie_vmem_descs s !! i = Some d -> vm_status d = VPAGE_IN_MEM -> s1 = s;
}.

Lemma filled_settled s s' t victim f dt :
  mm_wf s -> pcie_vmem_descs s !! t = Some dt -> vm_status dt <> VPAGE_IN_MEM ->
  chosen s t victim f -> filled s t victim f s' -> exists ph, settled s t s' f ph.
Proof.
  intros Hwf Ht Hst Hch Hfl.
  assert (mm_wf s') as Hwf' by by eapply filled_wf.
  pose proof (filled_in_use s s' t victim f Hwf Hch Hfl) as (ph & Hph & _). exists ph. split; try done.
  - by eapply filled_length.
  - erewrite filled_target by done. by rewrite (wf_id s Hwf _ _ Ht).
  - intros a v. by eapply filled_content.
  - intros a g Hg. by apply (filled_ptes_lookup s s' t victim f Hwf Hch Hfl) in Hg as (? & _ & _).
  - intros j Hw a b Ha Hb Hba Hbb [g Hg].
    apply (filled_ptes_lookup s s' t victim f Hwf Hch Hfl) in Hg as (Hg & _ & Hv).
    destruct (Hw a b Ha Hb Hba Hbb) as [h Hh]; [by eexists|]. exists h.
    rewrite (filled_ptes_keep s s' t victim f Hwf Hch Hfl); congruence.
  - intros d Hd Hin. congruence.
Qed.

Lemma index_of_page a : 0 <= a -> Z.to_nat (a * PAGE_SIZE / MY_PAGE_SIZE) = block a.
Proof.
  intros Ha. unfold block. f_equal. change MY_PAGE_SIZE with (PAGES * PAGE_SIZE).
  rewrite Z.div_mul_cancel_r; done.
Qed.

Lemma pcieBase_fault_run s a :
  mm_wf s -> 0 <= a -> (block a < length (pcie_vmem_descs s))%nat ->
  exists s1 f ph, settled s (block a) s1 f ph /\
    (forall pt, remap_pfn_range (ptes s1) (Z.of_nat (block a) * PAGES + 1) (PAGES - 1) (pfn ph + 1)
         = Some pt ->
       exists es, pcieBase_fault (a * PAGE_SIZE) s = Ok ((0, Some (pfn ph)), set_ptes pt s1, es)) /\
    (remap_pfn_range (ptes s1) (Z.of_nat (block a) * PAGES + 1) (PAGES - 1) (pfn ph + 1) = None ->
       pcieBase_fault (a * PAGE_SIZE) s = Stop KernelBug).
Proof.
  intros Hwf Ha Hlen. destruct (lookup_lt_is_Some_2 _ _ Hlen) as [d Hd].
  assert (exists s1 f ph e1, settled s (block a) s1 f ph /\
    (if bool_decide (vm_status d = VPAGE_IN_SWAP) || bool_decide (vm_status d = VPAGE_NO_MAP) then
       match phy_desc d with Some _ => fail KernelBug | None => fill_vpage (block a) end
     else ret 0) s = Ok (0, s1, e1)) as (s1 & f & ph & e1 & Hset & Hrun).
  { destruct (decide (vm_status d = VPAGE_IN_MEM)) as [Hst|Hst].
    - rewrite !bool_decide_false by congruence. cbn.
      destruct (proj1 (wf_in_mem s Hwf _ _ Hd) Hst) as [f Hf].
      destruct (wf_phy s Hwf _ _ _ Hd Hf) as (ph & Hph & _). exists s, f, ph, [].
      split; [|done]. split; try done. rewrite Hd. f_equal. destruct d as [dp dst did]; cbn in *. subst.
      by rewrite <- (wf_id s Hwf _ _ Hd).
    - assert (bool_decide (vm_status d = VPAGE_IN_SWAP) || bool_decide (vm_status d = VPAGE_NO_MAP) = true)
        as -> by (destruct (vm_status d); done).
      assert (phy_desc d = None) as ->.
      { destruct (phy_desc d) eqn:Hp; [|done]. destruct Hst. apply (wf_in_mem s Hwf _ _ Hd). by eexists. }
      destruct (fill_vpage_run _ s d Hwf Hd Hst) as (victim & f & s' & es & Hrun & Hch & Hfl).
      destruct (filled_settled _ _ _ _ _ _ Hwf Hd Hst Hch Hfl) as [ph Hset]. eauto 10. }
  exists s1, f, ph. split; [done|].
  assert (pcieBase_fault (a * PAGE_SIZE) s =
    match remap_pfn_range (ptes s1) (Z.of_nat (block a) * PAGES + 1) (PAGES - 1) (pfn ph + 1) with
    | Some pt => Ok ((0, Some (pfn ph)), set_ptes pt s1, e1 ++ [EvGetPage (pfn ph)])
    | None => Stop KernelBug
    end) as Hgo.
  { unfold pcieBase_fault. rewrite index_of_page by done.
    erewrite bind_ok by (by apply get_vmem_run). erewrite bind_ok by exact Hrun.
    erewrite bind_ok by (apply get_vmem_run, Hset). cbn [vm_status phy_desc vm_id].
    rewrite bool_decide_true by done.
    erewrite bind_ok by (apply get_phymem_run, Hset).
    unfold gets. erewrite (bind_ok _ _ s1) by reflexivity.
    by destruct (remap_pfn_range _ _ _ _). }
  split.
  - intros pt Hpt. rewrite Hgo, Hpt. by eexists.
  - intros Hpt. by rewrite Hgo, Hpt.
Qed.

(** The page table after a fault on the first page of block [i]. *)
Lemma remap_block pt pt' i f b :
  remap_pfn_range pt (Z.of_nat i * PAGES + 1) (PAGES - 1) (f + 1) = Some pt' ->
  pt_lookup (set_pte pt' (Z.of_nat i * PAGES) f) b =
    if decide (0 <= b /\ block b = i) then Some (f + place b) else pt_lookup pt b.
Proof.
  intros Hpt. pose proof pages_pos. rewrite set_pte_lookup, (remap_lookup _ _ _ _ _ _ Hpt).
  case_decide as Hb.
  - destruct Hb as [Hb Hi]. pose proof (proj1 (block_range b i Hb) Hi) as Hr.
    pose proof (block_place b Hb) as Hp. rewrite Hi in Hp. destruct (Z.eqb_spec b (Z.of_nat i * PAGES)).
    + f_equal. lia.
    + rewrite (proj2 (Z.leb_le _ _)), (proj2 (Z.ltb_lt _ _)) by lia. cbn. f_equal. lia.
  - destruct (Z.eqb_spec b (Z.of_nat i * PAGES)).
    { destruct Hb. split; [lia|]. apply block_range; lia. }
    destruct (Z.leb_spec (Z.of_nat i * PAGES + 1) b), (Z.ltb_spec b (Z.of_nat i * PAGES + 1 + (PAGES - 1)));
      cbn; try done. destruct Hb. split; [lia|]. apply block_range; lia.
Qed.

(** A block that is mapped, put on top of a settled state. *)
Lemma mapped_block s s1 i f ph pt :
  settled s i s1 f ph -> (forall j, whole s j) ->
  (forall b, pt_lookup pt b =
     if decide (0 <= b /\ block b = i) then Some (pfn ph + place b) else pt_lookup (ptes s1) b) ->
  mm_wf (set_ptes pt s1) /\ (forall j, whole (set_ptes pt s1) j) /\ mapped (set_ptes pt s1) i.
Proof.
  intros Hset Hw Hpt. split; [|split].
  - apply (wf_set_ptes s1); [apply Hset|]. intros b g. rewrite Hpt. case_decide as Hb.
    + destruct Hb as [Hb Hi]. intros [= <-]. split; [done|]. eexists _, f, ph. rewrite Hi.
      split; [apply Hset|]. split_and!; try done. apply Hset.
    + apply (wf_ptes s1 (st_wf _ _ _ _ _ Hset)).
  - intros j b c Hb Hc Hbj Hcj. unfold set_ptes. cbn [ptes]. rewrite !Hpt.
    destruct (decide (j = i)) as [->|Hj].
    + intros _. rewrite decide_True by done. by eexists.
    + rewrite !decide_False by (intros [_ ?]; congruence).
      by apply (st_whole _ _ _ _ _ Hset j (Hw j)).
  - intros b Hb Hi. unfold set_ptes. cbn [ptes]. rewrite Hpt, decide_True by done. by eexists.
Qed.

(** A fault on the first page of a block that is not mapped. *)
Lemma handle_fault_run s a :
  mm_wf s -> (forall i, whole s i) -> 0 <= a -> (block a < length (pcie_vmem_descs s))%nat ->
  pt_lookup (ptes s) a = None -> place a = 0 ->
  exists s2 es, handle_fault a s = Ok (tt, s2, es) /\ mm_wf s2 /\ (forall i, whole s2 i) /\
    mapped s2 (block a) /\ length (pcie_vmem_descs s2) = length (pcie_vmem_descs s) /\
    (forall b v, good_device -> 0 <= b -> content s b = Some v -> content s2 b = Some v).
Proof.
  intros Hwf Hw Ha Hlen Hnone Hpl.
  destruct (pcieBase_fault_run s a Hwf Ha Hlen) as (s1 & f & ph & Hset & Hok & _).
  pose proof (block_place a Ha) as Hap. rewrite Hpl, Z.add_0_r in Hap.
  assert (forall b, 0 <= b -> block b = block a -> pt_lookup (ptes s1) b = None) as Hall.
  { intros b Hb Hbb. destruct (pt_lookup (ptes s1) b) as [g|] eqn:E; [|done].
    apply (st_ptes _ _ _ _ _ Hset) in E.
    destruct (Hw (block a) b a Hb Ha Hbb eq_refl) as [h Hh]; [by eexists|]. congruence. }
  destruct (remap_ok (ptes s1) (Z.of_nat (block a) * PAGES + 1) (PAGES - 1) (pfn ph + 1)) as [pt Hpt].
  { intros b Hb. apply Hall; [lia|]. apply block_range; lia. }
  destruct (Hok pt Hpt) as [es Hrun]. unfold handle_fault.
  rewrite (bind_ok _ _ _ _ _ _ Hrun). cbn [snd of_opt]. rewrite bind_ret_l.
  unfold gets. erewrite (bind_ok _ _ (set_ptes pt s1)) by reflexivity. unfold set_ptes at 1. cbn [ptes].
  assert (pt_lookup pt a = None) as ->.
  { rewrite (remap_lookup _ _ _ _ _ _ Hpt), (proj2 (Z.leb_gt _ _)) by lia. by apply Hall. }
  eexists _, _. split; [reflexivity|].
  change (set_ptes _ (set_ptes pt s1)) with (set_ptes (set_pte pt a (pfn ph)) s1).
  destruct (mapped_block s s1 (block a) f ph (set_pte pt a (pfn ph)) Hset Hw) as (H1 & H2 & H3).
  { intros b. rewrite Hap at 1. by apply remap_block. }
  split_and!; try done; [apply Hset|].
  intros b v Hg Hb Hv. by apply (st_content _ _ _ _ _ Hset b v Hg Hb) in Hv.
Qed.
End faults.

(** ** Accesses *)

Section accesses.
Context {page : Type} {PT : PageTables} {SD : SwapDevice page}.
Implicit Types s : pcie_mm page.

(** The state of the mapping between two accesses in order. *)
Record resting (n : nat) (cur : option nat) s : Prop := mkResting {
  rs_wf : mm_wf s;
  rs_whole i : whole s i;
  rs_cur i : cur = Some i -> mapped s i;
  rs_length : length (pcie_vmem_descs s) = n;
}.

Definition same_content s s' (b : Z) : Prop :=
  forall v, content s b = Some v -> content s' b = Some v.

Lemma translate_run n cur s a :
  resting n cur s -> 0 <= a -> (block a < n)%nat -> place a = 0 \/ cur = Some (block a) ->
  exists f s' es, translate a s = Ok (f, s', es) /\ resting n (Some (block a)) s' /\
    pt_lookup (ptes s') a = Some f /\
    (good_device -> forall b, 0 <= b -> same_content s s' b).
Proof.
  intros [Hwf Hw Hc Hl] Ha Hb Hord. unfold translate, gets. erewrite (bind_ok _ _ s) by reflexivity.
  destruct (pt_lookup (ptes s) a) as [f|] eqn:Hf.
  - exists f, s. eexists. split; [reflexivity|]. split; [|split; [done|by intros _ b _ v]]. split; try done.
    intros i [= <-] b Hb' Hbi. apply (Hw (block a) a b); try done.
  - assert (place a = 0) as Hpl.
    { destruct Hord as [?|Hcur]; [done|]. destruct (Hc _ Hcur a Ha eq_refl). congruence. }
    rewrite <- Hl in Hb.
    destruct (handle_fault_run s a Hwf Hw Ha Hb Hf Hpl) as (s2 & es & Hrun & H1 & H2 & H3 & H4 & H5).
    erewrite bind_ok by exact Hrun. destruct (H3 a Ha eq_refl) as [f Hf2].
    erewrite (bind_ok _ _ s2) by reflexivity. rewrite Hf2.
    eexists f, s2, _. split; [reflexivity|]. split.
    + split; [done|done| |congruence]. by intros i [= <-].
    + split; [done|]. intros Hg b Hb' v. by apply H5.
Qed.

(** A page that is mapped holds its content in the frame of its entry. *)
Lemma content_mapped s a f : mm_wf s -> pt_lookup (ptes s) a = Some f -> content s a = Some (phys s f).
Proof.
  intros Hwf Hf. destruct (wf_ptes s Hwf _ _ Hf) as (_ & d & i & ph & Hd & Hs & Hi & Hph & ->).
  unfold content. rewrite Hd, Hs, Hi, Hph. done.
Qed.

(** A store through the mapping changes one page. *)
Definition store (f : Z) (v : page) s : pcie_mm page :=
  set_phys (fun b => if b =? f then v else phys s b) s.

Lemma content_store_other s a b f v :
  mm_wf s -> pt_lookup (ptes s) a = Some f -> 0 <= b -> b <> a ->
  content (store f v s) b = content s b.
Proof.
  intros Hwf Hf Hb Hne.
  destruct (wf_ptes s Hwf _ _ Hf) as (Ha & d & i & ph & Hd & Hs & Hi & Hph & ->).
  unfold content, store, set_phys. cbn [pcie_vmem_descs pcie_phymem_descs phys swap].
  destruct (pcie_vmem_descs s !! block b) as [e|] eqn:He; [|done].
  destruct (vm_status e), (phy_desc e) as [g|] eqn:Hg; try done.
  destruct (pcie_phymem_descs s !! g) as [pg|] eqn:Hpg; [|done]. cbn.
  destruct (Z.eqb_spec (pfn pg + place b) (pfn ph + place a)) as [E|]; [|done]. destruct Hne.
  rewrite (wf_pfn s Hwf _ _ Hph), (wf_pfn s Hwf _ _ Hpg) in E.
  pose proof (place_range a). pose proof (place_range b). pose proof pages_pos.
  assert (Z.of_nat g = Z.of_nat i) as Hgi by nia. apply Nat2Z.inj in Hgi. subst g.
  pose proof (wf_inj s Hwf _ _ _ _ _ Hd He Hi Hg) as Hblk.
  rewrite (block_place a Ha), (block_place b Hb), <- Hblk. lia.
Qed.

Lemma store_resting n cur s f v : resting n cur s -> resting n cur (store f v s).
Proof. intros [[H1 H2 H3 H4 H5 H6 H7 H8 H9] Hw Hc Hl]. split; [by split|exact Hw|exact Hc|exact Hl]. Qed.

Definition access_result s s' (x : mem_access) (o : option page) : Prop :=
  match x with
  | Read a => is_Some o /\ content s' a = o /\ (good_device -> same_content s s' a)
  | Write a v => o = None /\ content s' a = Some v
  end.

Lemma access_run n cur s x :
  resting n cur s -> 0 <= access_page x -> (block (access_page x) < n)%nat ->
  place (access_page x) = 0 \/ cur = Some (block (access_page x)) ->
  exists o s' es, access x s = Ok (o, s', es) /\ resting n (Some (block (access_page x))) s' /\
    access_result s s' x o /\
    (good_device -> forall b, 0 <= b -> b <> access_page x -> same_content s s' b).
Proof.
  intros Hr Ha Hb Hord. unfold access.
  destruct (translate_run n cur s _ Hr Ha Hb Hord) as (f & s' & es & Hrun & Hr' & Hf & Hsame).
  pose proof (content_mapped s' _ f (rs_wf _ _ _ Hr') Hf) as Hcont.
  rewrite (bind_ok _ _ _ _ _ _ Hrun). destruct x as [a|a v]; cbn [access_page] in *.
  - eexists _, s', _. split; [reflexivity|]. split; [done|]. split.
    + split; [by eexists|]. split; [done|]. intros Hg. by apply Hsame.
    + intros Hg b Hb' _. by apply Hsame.
  - eexists _, (store f v s'), _. split; [reflexivity|]. split; [by apply store_resting|]. split.
    + split; [done|]. rewrite (content_mapped _ a f); [|by apply (store_resting n (Some (block a)))|done].
      unfold store, set_phys. cbn [phys]. by rewrite Z.eqb_refl.
    + intros Hg b Hb' Hne w Hw. rewrite (content_store_other s' a) by (done || apply Hr').
      by apply Hsame.
Qed.
End accesses.

Section out_of_order.
Context {page : Type} {PT : PageTables} {SD : SwapDevice page}.
Implicit Types s : pcie_mm page.

Lemma read_fault s s2 a es f :
  pt_lookup (ptes s) a = None -> handle_fault a s = Ok (tt, s2, es) ->
  pt_lookup (ptes s2) a = Some f -> exists es', access (Read a) s = Ok (Some (phys s2 f), s2, es').
Proof.
  intros Hn Hrun Hf. eexists. unfold access, translate, gets. cbn [access_page]. rewrite bind_assoc.
  erewrite (bind_ok _ _ s) by reflexivity. rewrite Hn, bind_assoc, (bind_ok _ _ _ _ _ _ Hrun), bind_assoc.
  erewrite (bind_ok _ _ s2) by reflexivity. rewrite Hf. reflexivity.
Qed.

Lemma read_fault_bug s a e :
  pt_lookup (ptes s) a = None -> handle_fault a s = Stop e -> access (Read a) s = Stop e.
Proof.
  intros Hn Hrun. unfold access, translate, gets. cbn [access_page]. rewrite bind_assoc.
  erewrite (bind_ok _ _ s) by reflexivity. rewrite Hn, bind_assoc. unfold bind at 1. by rewrite Hrun.
Qed.

(** A fault off the first page of a block that is not mapped leaves the first
    page unmapped. *)
Lemma off_first_fault s a :
  mm_wf s -> (forall i, whole s i) -> 0 <= a -> (block a < length (pcie_vmem_descs s))%nat ->
  pt_lookup (ptes s) a = None -> place a <> 0 ->
  exists s2 es f, handle_fault a s = Ok (tt, s2, es) /\ mm_wf s2 /\
    length (pcie_vmem_descs s2) = length (pcie_vmem_descs s) /\
    pt_lookup (ptes s2) a = Some f /\ pt_lookup (ptes s2) (Z.of_nat (block a) * PAGES) = None /\
    exists d, pcie_vmem_descs s2 !! block a = Some d /\ vm_status d = VPAGE_IN_MEM.
Proof.
  intros Hwf Hw Ha Hlen Hnone Hpl. pose proof pages_pos as Hpp.
  destruct (pcieBase_fault_run s a Hwf Ha Hlen) as (s1 & f & ph & Hset & Hok & _).
  pose proof (block_place a Ha) as Hap. pose proof (place_range a) as Hpr.
  assert (forall b, 0 <= b -> block b = block a -> pt_lookup (ptes s1) b = None) as Hall.
  { intros b Hb Hbb. destruct (pt_lookup (ptes s1) b) as [g|] eqn:E; [|done].
    apply (st_ptes _ _ _ _ _ Hset) in E.
    destruct (Hw (block a) b a Hb Ha Hbb eq_refl) as [h Hh]; [by eexists|]. congruence. }
  destruct (remap_ok (ptes s1) (Z.of_nat (block a) * PAGES + 1) (PAGES - 1) (pfn ph + 1)) as [pt Hpt].
  { intros b Hb. apply Hall; [lia|]. apply block_range; lia. }
  assert (forall b, 0 <= b -> block b = block a -> pt_lookup pt b =
    if decide (place b = 0) then None else Some (pfn ph + place b)) as Hin.
  { intros b Hb Hbb. rewrite (remap_lookup _ _ _ _ _ _ Hpt). pose proof (block_place b Hb) as E.
    pose proof (place_range b). rewrite Hbb in E. case_decide as Hb0.
    - rewrite (proj2 (Z.leb_gt _ _)) by lia. by apply Hall.
    - rewrite (proj2 (Z.leb_le _ _)), (proj2 (Z.ltb_lt _ _)) by lia. cbn. f_equal. lia. }
  destruct (Hok pt Hpt) as [es Hrun]. unfold handle_fault.
  rewrite (bind_ok _ _ _ _ _ _ Hrun). cbn [snd of_opt]. rewrite bind_ret_l.
  unfold gets. erewrite (bind_ok _ _ (set_ptes pt s1)) by reflexivity. unfold set_ptes at 1. cbn [ptes].
  pose proof (Hin a Ha eq_refl) as Hpa. rewrite decide_False in Hpa by done. rewrite Hpa.
  eexists (set_ptes pt s1), _, _. split; [reflexivity|]. split.
  { apply (wf_set_ptes s1); [apply Hset|]. intros b g Hg.
    destruct (decide (0 <= b /\ block b = block a)) as [[Hb Hbb]|Hb].
    - rewrite Hin in Hg by done. case_decide; [done|]. injection Hg as <-. split; [done|].
      eexists _, f, ph. rewrite Hbb. split; [apply Hset|]. split_and!; try done. apply Hset.
    - rewrite (remap_lookup _ _ _ _ _ _ Hpt) in Hg.
      destruct (_ && _) eqn:E.
      + rewrite andb_true_iff, Z.leb_le, Z.ltb_lt in E. destruct Hb. split; [lia|]. apply block_range; lia.
      + by apply (wf_ptes s1 (st_wf _ _ _ _ _ Hset)). }
  split; [apply Hset|]. unfold set_ptes; cbn [ptes pcie_vmem_descs]. split; [done|]. split.
  - assert (block (Z.of_nat (block a) * PAGES) = block a) as Hbb by (apply block_range; lia).
    rewrite Hin, decide_True; [done| |lia|done].
    unfold place. by rewrite Z.mod_mul by lia.
  - eexists. split; [apply Hset|done].
Qed.
End out_of_order.
