(* ===== verification/PcieRefine.v ===== *)
(** * What the memory driver promises

    The flat-memory refinement of the paging of [pcie_mm.c] and [pcie_swap.c],
    the choice of a frame, the reset, and a failure while a block is written
    back. *)

From S2P Require Import Prelude PcieState PcieSwap PcieMm PcieFault.

Section refinement.
Context {page : Type} {PT : PageTables} {SD : SwapDevice page}.
Implicit Types s : pcie_mm page.

(** The pages of which [m] knows the content. *)
Definition represents s (m : gmap Z page) : Prop :=
  forall a v, m !! a = Some v -> 0 <= a /\ content s a = Some v.

Lemma represents_access s s' x o m :
  good_device -> 0 <= access_page x -> represents s m -> access_result s s' x o ->
  (forall b, 0 <= b -> b <> access_page x -> same_content s s' b) ->
  match x, o with
  | Read a, Some v => (forall w, m !! a = Some w -> v = w) /\ represents s' (<[a := v]> m)
  | Write a v, None => represents s' (<[a := v]> m)
  | _, _ => False
  end.
Proof.
  intros Hg Ha Hm Hres Hsame.
  assert (forall v, content s' (access_page x) = Some v -> represents s' (<[access_page x := v]> m)) as Hins.
  { intros v Hv a w. destruct (decide (access_page x = a)) as [<-|Hne].
    - rewrite lookup_insert_eq. by intros [= <-].
    - rewrite lookup_insert_ne by done. intros Hw. destruct (Hm _ _ Hw) as [? Hc].
      split; [done|]. by apply Hsame. }
  destruct x as [a|a v]; cbn [access_page access_result] in *.
  - destruct Hres as ([v ->] & Hc & Hs). split; [|by apply Hins]. intros w Hw.
    destruct (Hm _ _ Hw) as [_ Hcw]. specialize (Hs Hg _ Hcw). congruence.
  - destruct Hres as [-> Hc]. by apply Hins.
Qed.

Lemma accesses_run n l : forall cur s m,
  resting n cur s -> orderly cur l ->
  Forall (fun x => 0 <= access_page x /\ (block (access_page x) < n)%nat) l ->
  exists os s' es cur', accesses l s = Ok (os, s', es) /\ resting n cur' s' /\
    length os = length l /\ (good_device -> represents s m -> flat_ok m l os).
Proof.
  induction l as [|x l IH]; intros cur s m Hr Hord Hin; cbn [accesses].
  { exists [], s. eexists _, cur. split; [reflexivity|done]. }
  destruct Hord as [Hx Hord]. apply Forall_cons in Hin as [[Ha Hb] Hin].
  destruct (access_run n cur s x Hr Ha Hb Hx) as (o & s1 & e1 & H1 & Hr1 & Hres & Hsame).
  set (m1 := match x, o with Read a, Some v => <[a := v]> m | Write a v, _ => <[a := v]> m | _, _ => m end).
  destruct (IH _ s1 m1 Hr1 Hord Hin) as (os & s2 & e2 & cur2 & H2 & Hr2 & Hlen & Hflat).
  rewrite (bind_ok _ _ _ _ _ _ H1), (bind_ok _ _ _ _ _ _ H2). eexists _, s2, _, cur2.
  split; [reflexivity|]. split; [done|]. split; [cbn; by rewrite Hlen|]. intros Hg Hm.
  pose proof (represents_access s s1 x o m Hg Ha Hm Hres (Hsame Hg)) as H.
  destruct x as [a|a v], o as [w|]; try done; cbn [flat_ok].
  - destruct H as [Hv H]. split; [done|]. by apply Hflat.
  - by apply Hflat.
Qed.

Lemma resting_start s : mm_wf s -> (forall i, whole s i) -> resting (length (pcie_vmem_descs s)) None s.
Proof. by split. Qed.

(** The state after a reset. *)
Definition reset_state s : pcie_mm page :=
  mkMm (imap (fun i _ => mkVmem None VPAGE_NO_MAP (Z.of_nat i)) (pcie_vmem_descs s))
    (imap (fun i d =>
       mkPhymem PPAGE_FREE (Z.shiftr RESERVED_PHYS_ADDR PAGE_SHIFT + Z.of_nat i * PAGES) false
         (if (i =? 0)%nat then 0 else write_cnt d) (if (i =? 0)%nat then 0 else read_cnt d))
       (pcie_phymem_descs s))
    0 0 (phys s) (ptes s) (swap s) (bios s).

Lemma reset_run s : pcie_mm_reset s = Ok (0, reset_state s, []).
Proof. done. Qed.

Lemma reset_wf s :
  Z.of_nat (length (pcie_vmem_descs s)) <= VIRTUAL_SIZE / MY_PAGE_SIZE ->
  (0 < length (pcie_phymem_descs s))%nat -> (forall a, pt_lookup (ptes s) a = None) ->
  mm_wf (reset_state s) /\ forall i, whole (reset_state s) i.
Proof.
  intros Hn Hf Hpt. unfold reset_state. split.
  2: { intros i a b _ _ _ _ [f Hf']. cbn [ptes] in Hf'. by rewrite Hpt in Hf'. }
  assert (forall i d, imap (fun i (_ : pcie_vmem_desc) => mkVmem None VPAGE_NO_MAP (Z.of_nat i))
    (pcie_vmem_descs s) !! i = Some d -> d = mkVmem None VPAGE_NO_MAP (Z.of_nat i)) as Hv.
  { intros i d. rewrite list_lookup_imap. destruct (_ !! i); [|done]. by intros [= <-]. }
  split; cbn [pcie_vmem_descs pcie_phymem_descs ptes].
  - by rewrite length_imap.
  - by rewrite length_imap.
  - by intros i d ->%Hv.
  - intros i d ->%Hv. cbn. split; [done|by intros []].
  - by intros i d f ->%Hv.
  - by intros i j d e f ->%Hv.
  - intros f ph. rewrite list_lookup_imap. destruct (_ !! f); [|done]. by intros [= <-].
  - intros f ph. rewrite list_lookup_imap. destruct (_ !! f); [|done]. by intros [= <-].
  - intros a f. by rewrite Hpt.
Qed.
End refinement.

(** A driver just loaded, with [n] blocks and [k] frames, on the concrete page
    tables and a device with the memory [mem]; page [a] of the memory and the
    device holds [a]. *)
Definition loaded (mem : nat -> bool) (n k : nat) : @pcie_mm Z fn_pages (fn_swap Z mem) :=
  reset_state (PT := fn_pages) (SD := fn_swap Z mem)
    (mkMm (PT := fn_pages) (SD := fn_swap Z mem) (replicate n (mkVmem None VPAGE_NO_MAP 0))
       (replicate k (mkPhymem PPAGE_FREE 0 false 0 0)) 0 0 (fun a => a) (fun _ => None) (fun a => a) 0).

(** What a computation returns. *)
Definition answer {E S A : Type} (m : M E S A) (s : S) : option A :=
  match m s with Ok (a, _, _) => Some a | Stop _ => None end.

Lemma loaded_wf mem n k :
  Z.of_nat n <= VIRTUAL_SIZE / MY_PAGE_SIZE -> (0 < k)%nat ->
  mm_wf (loaded mem n k) /\ forall i, whole (loaded mem n k) i.
Proof.
  intros Hn Hk. apply reset_wf; cbn [pcie_vmem_descs pcie_phymem_descs ptes]; [|..|done];
    by rewrite length_replicate.
Qed.

Lemma fn_swap_good mem : (forall k, mem k = true) -> good_device (SD := fn_swap Z mem).
Proof. intros Hm k. by split; [apply Hm|]. Qed.

(** ** Theorems *)

Section theorems.
Context {page : Type} {PT : PageTables} {SD : SwapDevice page}.
Implicit Types s : pcie_mm page.

(** C21: Paging refines a flat memory.  With a swap device that works, however
    few frames there are, a program that enters each 4 MiB block by its first
    page (every sequential pass does) reads what it last wrote to each page of
    the mapping: evictions and page-ins in between lose nothing, and no access
    stops the kernel. *)
Theorem paging_refines_flat s l m :
  good_device -> mm_wf s -> (forall i, whole s i) -> represents s m ->
  orderly None l -> Forall (in_mapping s) l ->
  wp (accesses l) s (fun os s' _ => mm_wf s' /\ flat_ok m l os).
Proof.
  intros Hg Hwf Hw Hm Hord Hin.
  destruct (accesses_run _ l None s m (resting_start s Hwf Hw) Hord Hin)
    as (os & s' & es & cur & Hrun & Hr & _ & Hflat).
  unfold wp. rewrite Hrun. split; [apply Hr|by apply Hflat].
Qed.

(** C22: Whatever the swap device and the allocator do, such a program never
    reaches one of the handler's [BUG()]s, a NULL descriptor or an endless
    fault, every access is answered, and the descriptors stay well-formed:
    each block in memory has a frame of its own, which is in use, and only
    blocks in memory are mapped, to their own frame. *)
Theorem paging_never_bugs s l :
  mm_wf s -> (forall i, whole s i) -> orderly None l -> Forall (in_mapping s) l ->
  wp (accesses l) s (fun os s' _ => mm_wf s' /\ (forall i, whole s' i) /\ length os = length l).
Proof.
  intros Hwf Hw Hord Hin.
  destruct (accesses_run _ l None s ∅ (resting_start s Hwf Hw) Hord Hin)
    as (os & s' & es & cur & Hrun & Hr & Hlen & _).
  unfold wp. rewrite Hrun. split; [apply Hr|]. split; [apply Hr|done].
Qed.

(** C24: In another order the kernel stops.  The handler maps all pages of the
    block but the first and leaves that to the kernel, which maps the faulting
    one: after a block is first touched off its first page, the first page is
    still unmapped, and touching it makes the handler map the others again,
    which [remap_pfn_range] answers with a [BUG]. *)
Theorem paging_bug_out_of_order s a :
  mm_wf s -> (forall i, whole s i) -> in_mapping s (Read a) ->
  pt_lookup (ptes s) a = None -> place a <> 0 ->
  accesses [Read a; Read (Z.of_nat (block a) * PAGES)] s = Stop KernelBug.
Proof.
  intros Hwf Hw [Ha Hlen] Hnone Hpl. cbn [access_page] in *. pose proof pages_pos as Hpp.
  destruct (off_first_fault s a Hwf Hw Ha Hlen Hnone Hpl) as (s2 & es & f & Hrun & Hwf2 & Hlen2 & Hf & H0 & Hin).
  set (b := Z.of_nat (block a) * PAGES) in *.
  assert (block b = block a) as Hbb by (apply block_range; unfold b; lia).
  assert (handle_fault b s2 = Stop KernelBug) as Hbug.
  { destruct Hin as (d & Hd & Hst).
    destruct (pcieBase_fault_run s2 b Hwf2) as (s3 & g & ph & Hset & _ & Hbug); [unfold b; lia|by rewrite Hbb, Hlen2|].
    rewrite Hbb in *. pose proof (st_present _ _ _ _ _ Hset d Hd Hst) as ->.
    unfold handle_fault, bind at 1. rewrite Hbug; [done|].
    apply (remap_bug _ _ _ _ a); [|by eexists].
    pose proof (block_place a Ha). pose proof (place_range a). lia. }
  destruct (read_fault s s2 a es f Hnone Hrun Hf) as [es' Hr1]. cbn [accesses].
  rewrite (bind_ok _ _ _ _ _ _ Hr1). unfold bind. by rewrite (read_fault_bug s2 b _ H0 Hbug).
Qed.

(** C25: Giving a block a frame always succeeds, and takes the first free frame,
    or else that of the lowest block in memory, which is written to the swap
    device; every other block keeps its descriptor and the memory outside the
    frame is untouched. *)
Theorem fill_vpage_policy s t dt :
  mm_wf s -> pcie_vmem_descs s !! t = Some dt -> vm_status dt <> VPAGE_IN_MEM ->
  wp (fill_vpage t) s (fun r s' _ => r = 0 /\ mm_wf s' /\
    exists victim f ph, chosen s t victim f /\ pcie_phymem_descs s !! f = Some ph /\
      pcie_vmem_descs s' !! t = Some (mkVmem (Some f) VPAGE_IN_MEM (vm_id dt)) /\
      (forall v, victim = Some v ->
         exists dv, pcie_vmem_descs s' !! v = Some dv /\ vm_status dv = VPAGE_IN_SWAP) /\
      (forall i d, i <> t -> victim <> Some i -> pcie_vmem_descs s !! i = Some d ->
         pcie_vmem_descs s' !! i = Some d) /\
      (forall a, a < pfn ph \/ pfn ph + PAGES <= a -> phys s' a = phys s a)).
Proof.
  intros Hwf Ht Hst. destruct (fill_vpage_run t s dt Hwf Ht Hst) as (victim & f & s' & es & Hrun & Hch & Hfl).
  unfold wp. rewrite Hrun. split; [done|]. split; [by eapply filled_wf|].
  destruct Hch as (ph & Hph & Hcase). assert (chosen s t victim f) as Hch by by exists ph.
  exists victim, f, ph. split_and!; try done.
  - by eapply filled_target.
  - intros v ->. destruct Hcase as (Hne & (dv & Hdv & _) & _). exists (mkVmem None VPAGE_IN_SWAP (vm_id dv)).
    split; [|done]. rewrite (fl_vmem _ _ _ _ _ Hfl _ Ht), list_lookup_insert_ne by done.
    by rewrite list_lookup_alter_eq, Hdv.
  - intros i d. by eapply filled_other.
  - intros a. by eapply fl_phys.
Qed.

(** The result of writing a block back is not looked at: when there is no
    memory for the bio, eviction still answers 0, the block counts as swapped
    out, and what it holds from then on is what the device held before. *)
Theorem evict_without_memory v t s dv dt f ph :
  mm_wf s -> pcie_vmem_descs s !! v = Some dv -> pcie_vmem_descs s !! t = Some dt -> v <> t ->
  phy_desc dv = Some f -> pcie_phymem_descs s !! f = Some ph -> bio_kmalloc (bios s) = false ->
  wp (evict_page v t) s (fun r s' _ => r = 0 /\ forall a, block a = v ->
    content s' a = Some (disk_page (swap s) (swap_sector (Z.of_nat v) + PAGE_SECTORS * place a))).
Proof.
  intros Hwf Hv Ht Hne Hf Hph Hk.
  destruct (evict_page_run v t s dv dt f ph Hv Ht Hne Hf Hph) as (s' & es & Hrun & Hfl).
  unfold wp. rewrite Hrun. split; [done|]. intros a Ha. unfold content. rewrite Ha.
  assert (pcie_vmem_descs s' !! v = Some (mkVmem None VPAGE_IN_SWAP (vm_id dv))) as ->.
  { rewrite (fl_vmem _ _ _ _ _ Hfl _ Ht), list_lookup_insert_ne by done.
    by rewrite list_lookup_alter_eq, Hv. }
  cbn. by rewrite (fl_no_memory _ _ _ _ _ Hfl), (wf_id s Hwf _ _ Hv) by done.
Qed.

(** C26: A reset forgets every block, frees every frame and clears the two
    totals, and with an empty page table it establishes the invariant that
    paging keeps.  It does not touch the page table, and of the per-frame
    read and write counters it clears the first frame's only. *)
Theorem reset_spec s :
  Z.of_nat (length (pcie_vmem_descs s)) <= VIRTUAL_SIZE / MY_PAGE_SIZE ->
  (0 < length (pcie_phymem_descs s))%nat ->
  wp pcie_mm_reset s (fun r s' _ => r = 0 /\ ptes s' = ptes s /\ phys s' = phys s /\
    total_read s' = 0 /\ total_write s' = 0 /\
    (forall i d, pcie_vmem_descs s' !! i = Some d -> d = mkVmem None VPAGE_NO_MAP (Z.of_nat i)) /\
    (forall f ph, pcie_phymem_descs s !! f = Some ph -> exists ph', pcie_phymem_descs s' !! f = Some ph' /\
       ph_status ph' = PPAGE_FREE /\
       (f = 0%nat -> write_cnt ph' = 0 /\ read_cnt ph' = 0) /\
       (f <> 0%nat -> write_cnt ph' = write_cnt ph /\ read_cnt ph' = read_cnt ph)) /\
    ((forall a, pt_lookup (ptes s) a = None) -> mm_wf s' /\ forall i, whole s' i)).
Proof.
  intros Hn Hf. unfold wp. rewrite reset_run. unfold reset_state at 1 2 3 4 5 6.
  cbn [ptes phys total_read total_write pcie_vmem_descs pcie_phymem_descs].
  split_and!; try done.
  - intros i d. rewrite list_lookup_imap. destruct (_ !! i); [|done]. by intros [= <-].
  - intros f ph Hph. rewrite list_lookup_imap, Hph. eexists. split; [reflexivity|].
    split; [done|]. cbn. destruct f; cbn; split; done.
  - intros Hpt. by apply reset_wf.
Qed.
End theorems.

(** A reset while the mapping is in use breaks the isolation of blocks: the
    entries of a block stay while its frame is given to another, so page 0,
    written as 1, reads as the 2 that page 1024 was written as. *)
Theorem reset_shares_a_frame :
  answer (_ <- access (Write 0 1) ;; _ <- pcie_mm_reset ;;
          _ <- access (Write 1024 2) ;; access (Read 0)) (loaded (fun _ => true) 2 2) =
  Some (Some 2).
Proof. vm_compute. reflexivity. Qed.

(** ** Witnesses *)

Definition ping_pong : list (mem_access (page := Z)) :=
  [Write 0 5; Write 1 6; Write 1024 7; Read 0; Read 1; Read 1024; Read 1025].

Lemma ping_pong_orderly : orderly None ping_pong.
Proof. cbn. split_and!; vm_compute; auto. Qed.

Lemma ping_pong_in mem : Forall (in_mapping (loaded mem 2 1)) ping_pong.
Proof. unfold ping_pong. repeat constructor; vm_compute; congruence || lia. Qed.

Lemma paging_refines_flat_witness :
  wp (accesses ping_pong) (loaded (fun _ => true) 2 1)
    (fun os s' _ => mm_wf s' /\ flat_ok ∅ ping_pong os).
Proof.
  apply paging_refines_flat.
  - by apply fn_swap_good.
  - by apply loaded_wf; [vm_compute|lia].
  - by apply loaded_wf; [vm_compute|lia].
  - intros a v Hv. by rewrite lookup_empty in Hv.
  - apply ping_pong_orderly.
  - apply ping_pong_in.
Defined.

Lemma paging_never_bugs_witness :
  wp (accesses ping_pong) (loaded (fun _ => false) 2 1)
    (fun os s' _ => mm_wf s' /\ (forall i, whole s' i) /\ length os = length ping_pong).
Proof.
  apply paging_never_bugs.
  - by apply loaded_wf; [vm_compute|lia].
  - by apply loaded_wf; [vm_compute|lia].
  - apply ping_pong_orderly.
  - apply ping_pong_in.
Defined.

Lemma paging_bug_out_of_order_witness :
  accesses [Read 1027; Read 1024] (loaded (fun _ => true) 2 1) = Stop KernelBug.
Proof.
  change 1024 with (Z.of_nat (block 1027) * PAGES). apply paging_bug_out_of_order.
  - by apply loaded_wf; [vm_compute|lia].
  - by apply loaded_wf; [vm_compute|lia].
  - split; vm_compute; congruence || lia.
  - done.
  - vm_compute. lia.
Defined.

Lemma fill_vpage_policy_witness :
  exists Q, wp (fill_vpage 1) (loaded (fun _ => true) 2 1) Q.
Proof.
  eexists. apply (fill_vpage_policy _ 1 (mkVmem None VPAGE_NO_MAP 1)); [|done|done].
  by apply loaded_wf; [vm_compute|lia].
Defined.

(** A driver that has been in use: block 0 is in the second frame, and every
    counter is 5. *)
Definition in_use : @pcie_mm Z fn_pages (fn_swap Z (fun _ => true)) :=
  mkMm (PT := fn_pages) (SD := fn_swap Z (fun _ => true))
    [mkVmem (Some 1%nat) VPAGE_IN_MEM 0; mkVmem None VPAGE_IN_SWAP 1]
    [mkPhymem PPAGE_FREE 0 false 5 5; mkPhymem PPAGE_IN_USE 0 true 5 5]
    5 5 (fun a => a) (fun _ => None) (fun a => a) 0.

Lemma reset_spec_witness :
  wp pcie_mm_reset in_use (fun r s' _ =>
    r = 0 /\ total_read s' = 0 /\ total_write s' = 0 /\ mm_wf s' /\
    (forall d, pcie_vmem_descs s' !! 0%nat = Some d -> d = mkVmem None VPAGE_NO_MAP 0) /\
    (exists ph, pcie_phymem_descs s' !! 0%nat = Some ph /\ ph_status ph = PPAGE_FREE /\
       write_cnt ph = 0 /\ read_cnt ph = 0) /\
    (exists ph, pcie_phymem_descs s' !! 1%nat = Some ph /\ ph_status ph = PPAGE_FREE /\
       write_cnt ph = 5 /\ read_cnt ph = 5)).
Proof.
  refine (wp_mono _ _ _ _ (reset_spec in_use _ _) _); [vm_compute; congruence|cbn; lia|].
  intros r s' es (Hr & _ & _ & Htr & Htw & Hv & Hp & Hw).
  destruct (Hp 0%nat _ eq_refl) as (p0 & H0 & Hs0 & Hc0 & _).
  destruct (Hp 1%nat _ eq_refl) as (p1 & H1 & Hs1 & _ & Hc1).
  split; [exact Hr|]. split; [exact Htr|]. split; [exact Htw|].
  split; [exact (proj1 (Hw (fun _ => eq_refl)))|].
  split; [exact (Hv 0%nat)|]. split.
  - exists p0. exact (conj H0 (conj Hs0 (Hc0 eq_refl))).
  - exists p1. exact (conj H1 (conj Hs1 (Hc1 (fun H => match H with eq_refl => I end)))).
Defined.

(** Block 0 has the only frame. *)
Lemma occupied mem : exists s, mm_wf s /\ exists f ph,
  pcie_vmem_descs s !! 0%nat = Some (mkVmem (Some f) VPAGE_IN_MEM 0) /\
  pcie_vmem_descs s !! 1%nat = Some (mkVmem None VPAGE_NO_MAP 1) /\
  @pcie_phymem_descs Z fn_pages (fn_swap Z mem) s !! f = Some ph.
Proof.
  destruct (loaded_wf mem 2 1) as [Hwf _]; [done|lia|].
  assert (pcie_vmem_descs (loaded mem 2 1) !! 0%nat = Some (mkVmem None VPAGE_NO_MAP 0)) as H0 by done.
  assert (vm_status (mkVmem None VPAGE_NO_MAP 0) <> VPAGE_IN_MEM) as Hst by done.
  destruct (fill_vpage_run 0 _ _ Hwf H0 Hst) as (victim & f & s' & es & _ & Hch & Hfl).
  exists s'. split; [by eapply filled_wf|].
  destruct (filled_in_use (loaded mem 2 1) s' 0 victim f) as (ph & Hph & _); [done..|].
  exists f, ph. split; [exact (filled_target _ _ _ _ _ _ H0 Hch Hfl)|]. split; [|done].
  eapply (filled_other _ _ 0 victim f); [exact H0|exact Hch|exact Hfl|lia| |done].
  intros ->. destruct Hch as (ph2 & _ & _ & (dv & Hdv & Hf) & _). by simplify_eq/=.
Qed.

Lemma evict_without_memory_witness :
  exists (s : @pcie_mm Z fn_pages (fn_swap Z (fun _ => false))) Q, wp (evict_page 0 1) s Q.
Proof.
  destruct (occupied (fun _ => false)) as (s & Hwf & f & ph & H0 & H1 & Hph). exists s. eexists.
  by eapply (evict_without_memory 0 1 s _ _ f ph).
Defined.
