(* ===== verification/PcieCdev.v ===== *)
(** * The character device and the module: [pcie_cdev.c], [pcie_proc.c],
    [pcie_main.c], and the opening of the swap device in [pcie_swap.c]

    What the module holds of the kernel's objects is a list in its state, newest
    first; the answers of the kernel's calls are an argument. *)

From S2P Require Import Prelude PcieState PcieSwap PcieMm.

(** ** State *)

(** The kernel's objects the module registers or opens.  [ProcDir] is
    [/proc/pcie_mm] with what is in it; [ProcRootFile] is [/proc/total_swap]. *)
Inductive resource : Set := Region | Cdev | Class_ | Device | ProcDir | ProcRootFile | Bdev.

#[export] Instance resource_eq_dec : EqDecision resource.
Proof. solve_decision. Defined.

(** [swap_bdev]: NULL, an error pointer, or an open device. *)
Inductive bdev_ptr : Set := BdNull | BdErr (e : Z) | BdOpen.

(** What the kernel's calls answer. *)
Record kernel_answers : Type := mkAnswers {
  alloc_chrdev_region : Z;
  cdev_add : Z;
  class_create_err : bool;
  device_create_err : bool;
  proc_mkdir_ok : bool;
  proc_create_ok : bool;
  blkdev_get_by_path : bdev_ptr;
}.

(** The mapping that [mmap] is asked for. *)
Record vma : Type := mkVma {
  vm_start : Z;
  vm_end : Z;
  vm_flags : Z;
  has_fault_op : bool;
}.

(** Documented encodings of the kernel. *)
Definition _IO (ty nr : Z) : Z := Z.lor (Z.shiftl ty 8) nr.
Definition ENOENT : Z := 2.
Definition VM_PFNMAP : Z := 0x400.

Definition PCIE_CMD_INIT : Z := _IO 80 1.
Definition PCIE_CMD_RESET : Z := _IO 80 2.
Definition PCIE_CMD_GET_PTE : Z := _IO 80 3.

Section operations.
Context {page : Type} {PT : PageTables} {SD : SwapDevice page}.
Context (K : kernel_answers) (find_vma : Z -> bool).

Record pcie_module : Type := mkModule {
  mm : pcie_mm page;
  swap_bdev : bdev_ptr;
  held : list resource;
}.

Definition modM (A : Type) : Type := M pcie_event pcie_module A.

(** A computation on the memory manager's state. *)
Definition on_mm {A : Type} (m : pcieM page A) : modM A := fun s =>
  match m (mm s) with
  | Ok (a, t, es) => Ok (a, mkModule t (swap_bdev s) (held s), es)
  | Stop f => Stop f
  end.

Definition acquire (r : resource) : modM unit :=
  modify (fun s => mkModule (mm s) (swap_bdev s) (r :: held s)).

(** Releasing what is not held is a bug in the kernel. *)
Definition release (r : resource) : modM unit :=
  h <- gets held ;;
  if bool_decide (r ∈ h) then
    modify (fun s => mkModule (mm s) (swap_bdev s) (filter (fun x => x <> r) (held s)))
  else fail KernelBug.

(** ** The device *)

Definition pcieBase_open : modM Z := ret 0.
Definition pcieBase_close : modM Z := ret 0.

(** [base]: where the mapping of the calling process starts. *)
Definition pcieBase_ioctl (base cmd arg : Z) : modM Z :=
  (if cmd =? PCIE_CMD_RESET then _ <- on_mm pcie_mm_reset ;; ret tt
   else if cmd =? PCIE_CMD_GET_PTE then
     if find_vma arg then _ <- on_mm (get_vaddr_pte ((arg - base) / PAGE_SIZE)) ;; ret tt
     else fail NullDeref
   else ret tt) ;;
  ret 0.

Definition pcieBase_mmap (v : vma) : Z * vma :=
  if negb (wrap 64 (vm_end v - vm_start v) =? VIRTUAL_SIZE) then (- EINVAL, v)
  else (0, mkVma (vm_start v) (vm_end v) (Z.lor (vm_flags v) VM_PFNMAP) true).

(** The labels of [pciebase_cdev_init], each falling through to the next. *)
Definition cdev_add_err (r : Z) : modM Z := release Region ;; ret r.
Definition class_create_err_ (r : Z) : modM Z := release Cdev ;; cdev_add_err r.
Definition device_create_err_ (r : Z) : modM Z := release Class_ ;; class_create_err_ r.

Definition pciebase_cdev_init : modM Z :=
  if alloc_chrdev_region K <? 0 then ret (- EFAULT)
  else
    acquire Region ;;
    if cdev_add K <? 0 then cdev_add_err (cdev_add K)
    else
      acquire Cdev ;;
      if class_create_err K then class_create_err_ (- ENXIO)
      else
        acquire Class_ ;;
        if device_create_err K then device_create_err_ (- EIO)
        else acquire Device ;; ret 0.

Definition pciebase_cdev_clean : modM unit :=
  release Device ;; release Class_ ;; release Cdev ;; release Region.

(** ** The swap device and [/proc] *)

Definition pciebase_swapdev_init : modM Z :=
  modify (fun s => mkModule (mm s) (blkdev_get_by_path K) (held s)) ;;
  match blkdev_get_by_path K with
  | BdErr _ => ret (- ENODEV)
  | BdOpen => acquire Bdev ;; ret 0
  | BdNull => fail NullDeref
  end.

(** [blkdev_put] follows the pointer it is given. *)
Definition pciebase_swapdev_clean : modM unit :=
  b <- gets swap_bdev ;;
  match b with
  | BdNull => ret tt
  | BdErr _ => fail NullDeref
  | BdOpen => release Bdev
  end.

Definition proc_pcie_show : modM (Z * Z) :=
  s <- gets mm ;; ret (total_read s, total_write s).

(** [base_dir] is NULL if the directory cannot be made: the file is then made
    in [/proc] itself.  Neither result is looked at. *)
Definition proc_pcie_init : modM Z :=
  (if proc_mkdir_ok K then acquire ProcDir
   else when (proc_create_ok K) (acquire ProcRootFile)) ;;
  ret 0.

(** [remove_proc_subtree("pcie_mm", NULL)]. *)
Definition proc_pcie_clean : modM Z :=
  h <- gets held ;;
  if bool_decide (ProcDir ∈ h) then release ProcDir ;; ret 0 else ret (- ENOENT).

(** ** The module *)

Definition pciebase_init : modM Z :=
  _ <- on_mm pcie_mm_reset ;;
  _ <- pciebase_swapdev_init ;;
  _ <- proc_pcie_init ;;
  pciebase_cdev_init.

Definition pciebase_exit : modM unit :=
  _ <- proc_pcie_clean ;;
  pciebase_cdev_clean ;;
  pciebase_swapdev_clean.
End operations.

Arguments pcie_module page {PT SD}.
Arguments modM page {PT SD} A.

(** ** Theorems *)

Section theorems.
Context {page : Type} {PT : PageTables} {SD : SwapDevice page}.
Implicit Types s : pcie_module page.

(** The answers with which the device is registered, and the error of the
    first call that fails. *)
Definition cdev_good (K : kernel_answers) : bool :=
  (0 <=? alloc_chrdev_region K) && (0 <=? cdev_add K) && negb (class_create_err K) &&
  negb (device_create_err K).

Definition cdev_errno (K : kernel_answers) : Z :=
  if alloc_chrdev_region K <? 0 then - EFAULT
  else if cdev_add K <? 0 then cdev_add K
  else if class_create_err K then - ENXIO
  else if device_create_err K then - EIO else 0.

(** What the module holds under [/proc], and what of it an unload leaves. *)
Definition proc_held (K : kernel_answers) : list resource :=
  if proc_mkdir_ok K then [ProcDir] else if proc_create_ok K then [ProcRootFile] else [].

Definition proc_stale (K : kernel_answers) : list resource :=
  if proc_mkdir_ok K then [] else proc_held K.

Definition bdev_held (K : kernel_answers) : list resource :=
  match blkdev_get_by_path K with BdOpen => [Bdev] | _ => [] end.

Lemma filter_not_in (r : resource) (h : list resource) : r ∉ h -> filter (fun x => x <> r) h = h.
Proof.
  induction h as [|x h IH]; [done|]. intros [Hx Hr]%not_elem_of_cons.
  rewrite filter_cons_True by congruence. by rewrite IH.
Qed.

Lemma release_run r s h :
  held s = r :: h -> r ∉ h ->
  release r s = Ok (tt, mkModule (mm s) (swap_bdev s) h, []).
Proof.
  intros Hh Hr. unfold release, bind, gets, modify. rewrite Hh.
  rewrite bool_decide_true by set_solver. rewrite Hh, filter_cons_False by (intros []; done).
  by rewrite filter_not_in.
Qed.

Lemma cdev_init_run K s :
  Region ∉ held s -> Cdev ∉ held s -> Class_ ∉ held s ->
  pciebase_cdev_init K s = Ok (cdev_errno K,
    mkModule (mm s) (swap_bdev s)
      (if cdev_good K then Device :: Class_ :: Cdev :: Region :: held s else held s), []).
Proof.
  intros H1 H2 H3. unfold pciebase_cdev_init, cdev_errno, cdev_good. rewrite !Z.leb_antisym.
  destruct (alloc_chrdev_region K <? 0); [by destruct s|]. cbn [negb andb].
  unfold acquire at 1, modify at 1. erewrite (bind_ok _ _ _ tt) by reflexivity.
  destruct (cdev_add K <? 0); cbn [negb andb].
  { unfold cdev_add_err. by erewrite bind_ok by (by apply release_run). }
  unfold acquire at 1, modify at 1. erewrite (bind_ok _ _ _ tt) by reflexivity.
  destruct (class_create_err K); cbn [negb andb].
  { unfold class_create_err_, cdev_add_err.
    erewrite bind_ok by (apply release_run; [done|cbn; set_solver]).
    by erewrite bind_ok by (by apply release_run). }
  unfold acquire at 1, modify at 1. erewrite (bind_ok _ _ _ tt) by reflexivity.
  destruct (device_create_err K); cbn [negb andb]; [|done].
  unfold device_create_err_, class_create_err_, cdev_add_err.
  erewrite bind_ok by (apply release_run; [done|cbn; set_solver]).
  erewrite bind_ok by (apply release_run; [done|cbn; set_solver]).
  by erewrite bind_ok by (by apply release_run).
Qed.

Lemma cdev_errno_good K :
  cdev_errno K <= 0 /\
  (cdev_good K = true <-> cdev_errno K = 0).
Proof.
  unfold cdev_errno, cdev_good. rewrite !Z.leb_antisym.
  destruct (Z.ltb_spec (alloc_chrdev_region K) 0); cbn; [done|].
  destruct (Z.ltb_spec (cdev_add K) 0); cbn; [split; [lia|]; split; [done|lia]|].
  by destruct (class_create_err K), (device_create_err K).
Qed.

Lemma cdev_clean_run m b h :
  Region ∉ h -> Cdev ∉ h -> Class_ ∉ h -> Device ∉ h ->
  pciebase_cdev_clean (mkModule m b (Device :: Class_ :: Cdev :: Region :: h)) =
  Ok (tt, mkModule m b h, []).
Proof.
  intros H1 H2 H3 H4. unfold pciebase_cdev_clean.
  do 3 erewrite bind_ok by (apply release_run; [done|cbn; set_solver]).
  by rewrite (release_run Region _ h).
Qed.

Lemma module_init_run K s :
  held s = [] -> blkdev_get_by_path K <> BdNull ->
  exists t, pciebase_init K s = Ok (cdev_errno K,
    mkModule t (blkdev_get_by_path K)
      ((if cdev_good K then [Device; Class_; Cdev; Region] else []) ++
       proc_held K ++ bdev_held K), []).
Proof.
  intros Hh Hb. unfold pciebase_init, on_mm, proc_pcie_init, pciebase_swapdev_init.
  unfold pcie_mm_reset, pcie_init_vmem, pcie_init_phymem. eexists.
  unfold bind at 1. cbn [bind modify ret mm]. rewrite Hh. unfold proc_held, bdev_held.
  destruct (blkdev_get_by_path K); [done|..];
    destruct (proc_mkdir_ok K), (proc_create_ok K); unfold when, acquire, modify;
    unfold bind, ret; cbn [mm swap_bdev held];
    (rewrite cdev_init_run; [cbn [mm swap_bdev held]; by destruct (cdev_good K)|cbn; set_solver..]).
Qed.

(** C27: Registering the character device is all or nothing: it returns 0 and
    the region, the cdev, the class and the device are held, or it returns the
    error of the first call that failed and what it had acquired is released,
    newest first, with nothing released twice.  The clean-up after a success
    releases exactly the four. *)
Theorem cdev_init_unwinds K s :
  Region ∉ held s -> Cdev ∉ held s -> Class_ ∉ held s -> Device ∉ held s ->
  wp (pciebase_cdev_init K) s (fun r s' _ =>
    mm s' = mm s /\ swap_bdev s' = swap_bdev s /\
    ((r = 0 /\ cdev_good K = true /\ held s' = Device :: Class_ :: Cdev :: Region :: held s /\
      wp pciebase_cdev_clean s' (fun _ s2 _ => held s2 = held s)) \/
     (r < 0 /\ r = cdev_errno K /\ held s' = held s))).
Proof.
  intros H1 H2 H3 H4. unfold wp at 1. rewrite cdev_init_run by done.
  split; [done|]. split; [done|]. cbn [held].
  destruct (cdev_good K) eqn:Hg.
  - left. split; [by apply cdev_errno_good|]. split; [done|]. split; [done|].
    unfold wp. erewrite cdev_clean_run; done.
  - right. destruct (cdev_errno_good K) as [Hle Hiff].
    assert (cdev_errno K <> 0) by (intros E; apply Hiff in E; congruence). split_and!; [lia|done|done].
Qed.

(** C28: Loading and unloading the module.  With a swap device, loading leaves
    nothing behind when the unload follows, unless the [/proc] directory could
    not be made: then the statistics file is in [/proc] itself and stays there.
    An error opening the swap device is not looked at, so loading succeeds and
    unloading follows the error pointer; and when the character device cannot
    be registered the [/proc] entry and the swap device stay held, as no unload
    follows. *)
Theorem module_lifecycle K s :
  held s = [] -> blkdev_get_by_path K <> BdNull ->
  wp (pciebase_init K) s (fun r s' _ => r = cdev_errno K /\
    (cdev_good K = true -> r = 0 /\
       match blkdev_get_by_path K with
       | BdOpen => wp pciebase_exit s' (fun _ s2 _ => held s2 = proc_stale K)
       | _ => pciebase_exit s' = Stop NullDeref
       end) /\
    (cdev_good K = false -> r < 0 /\ held s' = proc_held K ++ bdev_held K)).
Proof.
  intros Hh Hb. destruct (module_init_run K s Hh Hb) as (t & Hrun). unfold wp at 1. rewrite Hrun.
  destruct (cdev_errno_good K) as [Hle Hiff]. split; [done|]. split.
  - intros Hg. split; [by apply Hiff|]. rewrite Hg. unfold proc_stale, proc_held, bdev_held.
    destruct (blkdev_get_by_path K) eqn:Hk; [done|..];
      by destruct (proc_mkdir_ok K), (proc_create_ok K); vm_compute.
  - intros Hg. rewrite Hg. assert (cdev_errno K <> 0) by (intros E; apply Hiff in E; congruence).
    split; [lia|done].
Qed.
End theorems.

(** ** Witnesses *)

Definition bare : @pcie_module Z fn_pages (fn_swap Z (fun _ => true)) :=
  mkModule (PT := fn_pages) (SD := fn_swap Z (fun _ => true))
    (mkMm (PT := fn_pages) (SD := fn_swap Z (fun _ => true)) [] [] 0 0 (fun a => a) (fun _ => None)
       (fun a => a) 0) BdNull [].

(** The class cannot be created; everything succeeds. *)
Lemma cdev_init_unwinds_witness :
  wp (pciebase_cdev_init (mkAnswers 0 0 true false true true BdOpen)) bare (fun r s' _ =>
    r = - ENXIO /\ held s' = []) /\
  wp (pciebase_cdev_init (mkAnswers 0 0 false false true true BdOpen)) bare (fun r s' _ =>
    r = 0 /\ held s' = [Device; Class_; Cdev; Region]).
Proof.
  pose proof (not_elem_of_nil : forall r : resource, r ∉ held bare) as Hn.
  split; refine (wp_mono _ _ _ _ (cdev_init_unwinds _ bare (Hn _) (Hn _) (Hn _) (Hn _)) _).
  - intros r s' es (_ & _ & [(_ & H & _)|(_ & Hr & Hh)]); [discriminate|exact (conj Hr Hh)].
  - intros r s' es (_ & _ & [(Hr & _ & Hh & _)|(H & Hr & _)]); [exact (conj Hr Hh)|].
    rewrite Hr in H. discriminate.
Defined.

(** A swap device that cannot be opened; no [/proc] directory; no class. *)
Lemma module_lifecycle_witness :
  wp (pciebase_init (mkAnswers 0 0 false false true true (BdErr (- ENXIO)))) bare (fun r s' _ =>
    r = 0 /\ pciebase_exit s' = Stop NullDeref) /\
  wp (pciebase_init (mkAnswers 0 0 false false false true BdOpen)) bare (fun r s' _ =>
    r = 0 /\ wp pciebase_exit s' (fun _ s2 _ => held s2 = [ProcRootFile])) /\
  wp (pciebase_init (mkAnswers 0 0 true false true true BdOpen)) bare (fun r s' _ =>
    r = - ENXIO /\ held s' = [ProcDir; Bdev]).
Proof.
  split; [|split].
  - refine (wp_mono _ _ _ _ (module_lifecycle _ bare eq_refl _) _); [discriminate|].
    intros r s' es (_ & Hg & _). exact (Hg eq_refl).
  - refine (wp_mono _ _ _ _ (module_lifecycle _ bare eq_refl _) _); [discriminate|].
    intros r s' es (_ & Hg & _). exact (Hg eq_refl).
  - refine (wp_mono _ _ _ _ (module_lifecycle _ bare eq_refl _) _); [discriminate|].
    intros r s' es (Hr & _ & Hb). exact (conj Hr (proj2 (Hb eq_refl))).
Defined.
