(* ===== verification/PcieUser.v ===== *)
(** * The user program [user_copy.c]

    It maps the device, resets it, writes a buffer over the first gigabytes of
    the mapping and reads them back.  Its accesses are sequential, the order
    for which the paging is safe. *)

From S2P Require Import Prelude PcieState PcieSwap PcieMm PcieFault PcieRefine PcieCdev.

(** ** The argument: [strtol(str, &endptr, 10)] *)

Definition LONG_MAX : Z := 2 ^ 63 - 1.
Definition LONG_MIN : Z := - 2 ^ 63.

Definition is_space (c : Ascii.ascii) : bool :=
  let n := Ascii.nat_of_ascii c in bool_decide (n = 32%nat) || bool_decide (9 <= n <= 13)%nat.

Fixpoint skip_space (s : string) : string :=
  match s with
  | String c r => if is_space c then skip_space r else s
  | EmptyString => s
  end.

(** The digits at the start: their value, whether there is one, the rest. *)
Fixpoint scan_digits (s : string) (acc : Z) (any : bool) : Z * bool * string :=
  match s with
  | String c r =>
      let x := Z.of_nat (Ascii.nat_of_ascii c) - 48 in
      if (0 <=? x) && (x <=? 9) then scan_digits r (acc * 10 + x) true else (acc, any, s)
  | EmptyString => (acc, any, s)
  end.

Definition scan_sign (s : string) : Z * string :=
  match s with
  | String c r =>
      if bool_decide (Ascii.nat_of_ascii c = 45%nat) then (-1, r)
      else if bool_decide (Ascii.nat_of_ascii c = 43%nat) then (1, r) else (1, s)
  | EmptyString => (1, s)
  end.

(** The value, [endptr] and whether [errno] is [ERANGE]; without digits
    [endptr] is [str]. *)
Definition strtol (str : string) : Z * string * bool :=
  let '(sign, s) := scan_sign (skip_space str) in
  let '(v, any, rest) := scan_digits s 0 false in
  if negb any then (0, str, false)
  else if LONG_MAX <? sign * v then (LONG_MAX, rest, true)
  else if sign * v <? LONG_MIN then (LONG_MIN, rest, true)
  else (sign * v, rest, false).

(** The code of [exit], or the number.  After digits [endptr] is a proper
    suffix, so that equal strings are equal pointers. *)
Definition strToLong (str : string) : Z + Z :=
  let '(num, endptr, erange) := strtol str in
  if erange then inl (-1)
  else if bool_decide (str = endptr) then inl (-2)
  else if negb (bool_decide (endptr = EmptyString)) then inl (-3)
  else inr num.

(** ** The program *)

Section program.
Context {page : Type} {PT : PageTables} {SD : SwapDevice page}.

(** An access of the process to page [access_page x] of its mapping. *)
Definition user_access (x : mem_access) : modM page (option page) :=
  if (0 <=? access_page x) && (access_page x <? VIRTUAL_SIZE / PAGE_SIZE) then on_mm (access x)
  else fail OutOfBounds.

(** [while (total_size != data_size) { body(tmp); ... }]; what the bodies read. *)
Fixpoint copy_loop (fuel : nat) (body : Z -> mem_access (page := page)) (tmp total_size data_size : Z) :
    modM page (list (option page)) :=
  if total_size =? data_size then ret []
  else
    match fuel with
    | O => fail LoopsForever
    | S fuel =>
        o <- user_access (body (tmp / PAGE_SIZE)) ;;
        os <- copy_loop fuel body (tmp + PAGE_SIZE) (wrap 64 (total_size + PAGE_SIZE)) data_size ;;
        ret (o :: os)
    end.

(** [main] on a device that opens and maps; [buf] is the buffer's content.  The
    result is what the read loop copied. *)
Definition main (buf : page) (argv : list string) : modM page (list (option page)) :=
  match argv with
  | [_; arg] =>
      match strToLong arg with
      | inl code => fail (ExitProcess code)
      | inr data_size_GB =>
          if data_size_GB <=? 0 then fail (ExitProcess 2)
          else
            let data_size := wrap 64 (Z.shiftl data_size_GB 30) in
            let fuel := Z.to_nat (data_size / PAGE_SIZE) in
            _ <- pcieBase_ioctl (fun _ => true) 0 PCIE_CMD_RESET 0 ;;
            _ <- copy_loop fuel (fun a => Write a buf) 0 0 data_size ;;
            copy_loop fuel (fun a => Read a) 0 0 data_size
      end
  | _ => fail (ExitProcess 1)
  end.
End program.

(** ** Lemmas *)

Section lemmas.
Context {page : Type} {PT : PageTables} {SD : SwapDevice page}.
Implicit Types s : pcie_module page.

Fixpoint user_accesses (l : list (mem_access (page := page))) : modM page (list (option page)) :=
  match l with
  | [] => ret []
  | x :: r => o <- user_access x ;; os <- user_accesses r ;; ret (o :: os)
  end.

Lemma copy_loop_eq body n : forall fuel k total s,
  (n <= fuel)%nat -> 0 <= total -> total + Z.of_nat n * PAGE_SIZE < 2 ^ 64 ->
  copy_loop fuel body (k * PAGE_SIZE) total (total + Z.of_nat n * PAGE_SIZE) s =
  user_accesses (body <$> seqZ k (Z.of_nat n)) s.
Proof.
  induction n as [|n IH]; intros fuel k total s Hf Ht Hb.
  { replace (total + Z.of_nat 0 * PAGE_SIZE) with total by lia.
    destruct fuel; cbn [copy_loop]; by rewrite Z.eqb_refl. }
  assert (PAGE_SIZE = 4096) as HP by done. destruct fuel as [|fuel]; [lia|]. cbn [copy_loop].
  rewrite (proj2 (Z.eqb_neq _ _)), seqZ_cons, fmap_cons, Z.div_mul by lia. cbn [user_accesses].
  unfold bind at 1 3. destruct (user_access (body k) s) as [[[o s1] e1]|]; [|done].
  rewrite wrap_small by lia. replace (k * PAGE_SIZE + PAGE_SIZE) with (Z.succ k * PAGE_SIZE) by lia.
  replace (Z.pred (Z.of_nat (S n))) with (Z.of_nat n) by lia.
  replace (total + Z.of_nat (S n) * PAGE_SIZE) with (total + PAGE_SIZE + Z.of_nat n * PAGE_SIZE) by lia.
  unfold bind. rewrite IH by lia. done.
Qed.

Lemma user_access_in x s :
  0 <= access_page x < VIRTUAL_SIZE / PAGE_SIZE -> user_access x s = on_mm (access x) s.
Proof.
  intros Hx. unfold user_access. by rewrite (proj2 (Z.leb_le _ _)), (proj2 (Z.ltb_lt _ _)) by lia.
Qed.

Lemma user_accesses_in l : forall s,
  Forall (fun x => 0 <= access_page x < VIRTUAL_SIZE / PAGE_SIZE) l ->
  user_accesses l s = on_mm (accesses l) s.
Proof.
  induction l as [|x l IH]; intros s Hl; [by destruct s|].
  apply Forall_cons in Hl as [Hx Hl]. cbn [user_accesses accesses]. unfold bind at 1.
  rewrite user_access_in by done. unfold on_mm at 1 2, bind at 2.
  destruct (access x (mm s)) as [[[o t] e1]|]; [|done]. cbn [mm swap_bdev held].
  unfold bind at 1 2. rewrite IH by done. unfold on_mm. cbn [mm swap_bdev held].
  by destruct (accesses l t) as [[[os t2] e2]|].
Qed.

Lemma user_accesses_app l1 l2 s :
  user_accesses (l1 ++ l2) s =
  (a <- user_accesses l1 ;; b <- user_accesses l2 ;; ret (a ++ b)) s.
Proof.
  revert s. induction l1 as [|x l1 IH]; intros s; cbn [user_accesses app].
  { rewrite bind_ret_l. unfold bind, ret. destruct (user_accesses l2 s) as [[[os t] es]|]; [|done].
    by rewrite app_nil_r. }
  rewrite bind_assoc. unfold bind at 1 3. destruct (user_access x s) as [[[o t] e1]|]; [|done].
  rewrite bind_assoc. unfold bind at 1. rewrite IH. unfold bind, ret.
  destruct (user_accesses l1 t) as [[[os t1] e2]|]; [|done].
  destruct (user_accesses l2 t1) as [[[os2 t2] e3]|]; [|done].
  cbn. by rewrite !app_nil_r.
Qed.

(** A sequential pass enters each block by its first page. *)
Lemma orderly_seq (body : Z -> mem_access (page := page)) n : forall k cur,
  (forall a, access_page (body a) = a) -> 0 <= k -> place k = 0 \/ cur = Some (block k) ->
  orderly cur (body <$> seqZ k (Z.of_nat n)).
Proof.
  induction n as [|n IH]; intros k cur Hb Hk Hc; [done|].
  rewrite seqZ_cons, fmap_cons by lia. cbn [orderly]. rewrite Hb. split; [done|].
  replace (Z.pred (Z.of_nat (S n))) with (Z.of_nat n) by lia. apply IH; [done|lia|].
  pose proof (block_place k Hk) as E. pose proof (place_range k) as Hr. pose proof pages_pos.
  destruct (decide (place k + 1 = PAGES)) as [Hlast|Hlast].
  - left. unfold place. replace (Z.succ k) with ((Z.of_nat (block k) + 1) * PAGES) by lia.
    by apply Z.mod_mul; lia.
  - right. f_equal. symmetry. apply block_range; lia.
Qed.

Lemma orderly_app (l1 l2 : list (mem_access (page := page))) : forall cur,
  orderly cur l1 -> (forall c, orderly c l2) -> orderly cur (l1 ++ l2).
Proof.
  induction l1 as [|x l1 IH]; intros cur H1 H2; [apply H2|]. destruct H1 as [Hx H1].
  split; [done|]. by apply IH.
Qed.

(** What a flat memory answers to a pass of writes and then to reads of it. *)
Lemma flat_reads (v : page) m l os :
  (forall a, a ∈ l -> m !! a = Some v) -> flat_ok m (Read <$> l) os -> Forall (eq (Some v)) os.
Proof.
  revert m os. induction l as [|a l IH]; intros m os Hm; [by destruct os|].
  destruct os as [|[w|] os]; cbn; [done| |done]. intros [Hw Hf].
  assert (w = v) as -> by (apply Hw, Hm; set_solver). constructor; [done|].
  eapply IH; [|exact Hf]. intros b Hb. destruct (decide (a = b)) as [<-|].
  - by rewrite lookup_insert_eq.
  - rewrite lookup_insert_ne by done. apply Hm. set_solver.
Qed.

Lemma flat_write_read (v : page) l m r os1 os2 :
  length os1 = length l -> (forall a, a ∈ r -> a ∈ l \/ m !! a = Some v) ->
  flat_ok m (((fun a => Write a v) <$> l) ++ (Read <$> r)) (os1 ++ os2) -> Forall (eq (Some v)) os2.
Proof.
  revert m os1. induction l as [|a l IH]; intros m os1 Hlen Hr.
  - destruct os1; [|done]. apply flat_reads. intros a Ha. destruct (Hr a Ha) as [Hn|]; [|done].
    by apply elem_of_nil in Hn.
  - destruct os1 as [|o os1]; [done|]. destruct o; cbn; [done|]. apply IH; [by injection Hlen|].
    intros b Hb. destruct (decide (a = b)) as [<-|].
    + right. by rewrite lookup_insert_eq.
    + rewrite lookup_insert_ne by done. destruct (Hr b Hb) as [Hl|]; [|by right]. left.
      by apply elem_of_cons in Hl as [->|?].
Qed.
End lemmas.

Section theorems.
Context {page : Type} {PT : PageTables} {SD : SwapDevice page}.
Implicit Types s : pcie_module page.

(** The device's arrays as declared, and nothing mapped yet. *)
Record freshly_mapped s : Prop := mkFresh {
  fm_vmem : Z.of_nat (length (pcie_vmem_descs (mm s))) = VIRTUAL_SIZE / MY_PAGE_SIZE;
  fm_phymem : (0 < length (pcie_phymem_descs (mm s)))%nat;
  fm_ptes a : pt_lookup (ptes (mm s)) a = None;
}.

Definition with_mm (t : pcie_mm page) s : pcie_module page := mkModule t (swap_bdev s) (held s).

Definition pass (body : Z -> mem_access (page := page)) (gb : Z) : list mem_access :=
  body <$> seqZ 0 (gb * 2 ^ 18).

Lemma copy_loop_pass body gb s :
  0 < gb < 2 ^ 34 ->
  let data_size := wrap 64 (Z.shiftl gb 30) in
  copy_loop (Z.to_nat (data_size / PAGE_SIZE)) body 0 0 data_size s = user_accesses (pass body gb) s.
Proof.
  intros Hgb. cbn zeta. rewrite Z.shiftl_mul_pow2 by done. rewrite wrap_small by lia.
  replace (gb * 2 ^ 30) with (0 + Z.of_nat (Z.to_nat (gb * 2 ^ 18)) * PAGE_SIZE) by (unfold PAGE_SIZE; lia).
  rewrite Z.add_0_l at 1. rewrite Z.div_mul, Nat2Z.id by done.
  change (copy_loop (Z.to_nat (gb * 2 ^ 18)) body 0 0) with
    (copy_loop (Z.to_nat (gb * 2 ^ 18)) body (0 * PAGE_SIZE) 0).
  rewrite copy_loop_eq by (unfold PAGE_SIZE; lia). unfold pass. do 3 f_equal. lia.
Qed.

Lemma main_run buf prog arg gb s :
  strToLong arg = inr gb -> 0 < gb < 2 ^ 34 ->
  main buf [prog; arg] s =
  (_ <- user_accesses (pass (fun a => Write a buf) gb) ;; user_accesses (pass Read gb))
    (with_mm (reset_state (mm s)) s).
Proof.
  intros Harg Hgb. unfold main. rewrite Harg, (proj2 (Z.leb_gt _ _)) by lia.
  unfold pcieBase_ioctl. rewrite Z.eqb_refl. 
  erewrite (bind_ok _ _ s 0 (with_mm (reset_state (mm s)) s) []) by reflexivity.
  unfold bind. rewrite copy_loop_pass by done.
  destruct (user_accesses _ _) as [[[os t] es]|]; [|done]. rewrite copy_loop_pass by done.
  by destruct (user_accesses _ t) as [[[? ?] ?]|].
Qed.

Lemma reset_resting s :
  freshly_mapped s -> resting (Z.to_nat 8192) None (reset_state (mm s)).
Proof.
  intros [Hv Hp Hpt]. destruct (reset_wf (mm s)) as [Hwf Hw]; [lia|done|done|].
  split; try done. unfold reset_state. cbn [pcie_vmem_descs]. rewrite length_imap.
  change (VIRTUAL_SIZE / MY_PAGE_SIZE) with 8192 in Hv. lia.
Qed.

Lemma pass_pages body gb :
  (forall a, access_page (body a) = a) -> gb <= VIRTUAL_SIZE_GB ->
  Forall (fun x => 0 <= access_page x < VIRTUAL_SIZE / PAGE_SIZE) (pass body gb).
Proof.
  intros Hb Hgb. unfold pass. apply Forall_fmap, Forall_forall. intros a Ha%elem_of_seqZ. cbn.
  rewrite Hb. change (VIRTUAL_SIZE / PAGE_SIZE) with 8388608. unfold VIRTUAL_SIZE_GB in Hgb. lia.
Qed.

Lemma in_range_blocks (l : list (mem_access (page := page))) :
  Forall (fun x => 0 <= access_page x < VIRTUAL_SIZE / PAGE_SIZE) l ->
  Forall (fun x => 0 <= access_page x /\ (block (access_page x) < Z.to_nat 8192)%nat) l.
Proof.
  intros H. eapply Forall_impl; [exact H|]. cbn. intros x [Hx Hx2]. split; [done|].
  unfold block. change (VIRTUAL_SIZE / PAGE_SIZE) with (8192 * PAGES) in Hx2.
  pose proof pages_pos.
  assert (access_page x / PAGES < 8192) by (apply Z.div_lt_upper_bound; lia).
  pose proof (Z.div_pos (access_page x) PAGES). lia.
Qed.

Lemma pass_orderly body gb cur :
  (forall a, access_page (body a) = a) -> 0 <= gb -> orderly cur (pass body gb).
Proof.
  intros Hb Hgb. unfold pass. replace (gb * 2 ^ 18) with (Z.of_nat (Z.to_nat (gb * 2 ^ 18))) by lia.
  apply orderly_seq; [done|done|]. by left.
Qed.

Lemma pass_length body gb : length (pass body gb) = Z.to_nat (gb * 2 ^ 18).
Proof. unfold pass. by rewrite length_fmap, length_seqZ. Qed.

Lemma user_accesses_length l : forall s os t es,
  user_accesses l s = Ok (os, t, es) -> length os = length l.
Proof.
  induction l as [|x l IH]; intros s os t es; cbn [user_accesses].
  { by intros [= <- <- <-]. }
  unfold bind, ret. destruct (user_access x s) as [[[o t1] e1]|]; [|done].
  destruct (user_accesses l t1) as [[[os1 t2] e2]|] eqn:E; [|done]. intros [= <- <- <-].
  cbn. f_equal. by eapply IH.
Qed.

(** The second of two passes, from the run of both. *)
Lemma two_passes l r s os t es :
  (a <- user_accesses l ;; b <- user_accesses r ;; ret (a ++ b)) s = Ok (os, t, es) ->
  exists os1 os2 e, (_ <- user_accesses l ;; user_accesses r) s = Ok (os2, t, e) /\
    os = os1 ++ os2 /\ length os1 = length l.
Proof.
  unfold bind, ret. destruct (user_accesses l s) as [[[o1 t1] e1]|] eqn:E1; [|done].
  destruct (user_accesses r t1) as [[[o2 t2] e2]|] eqn:E2; [|done]. intros [= <- <- <-].
  eexists o1, o2, _. split; [reflexivity|]. split; [done|]. by eapply user_accesses_length.
Qed.

(** C23: For every size from 1 to 32 GB the user program runs to its end on a
    freshly mapped device, whatever the swap device and the allocator do: both
    loops stop, no access leaves the mapping and none stops the kernel.  On a
    swap device that works the second loop reads the buffer back from every
    page, although the frames hold a quarter of the mapping. *)
Theorem user_copy_reads_back buf prog arg gb s :
  strToLong arg = inr gb -> 0 < gb <= VIRTUAL_SIZE_GB -> freshly_mapped s ->
  wp (main buf [prog; arg]) s (fun os s' _ =>
    Z.of_nat (length os) = gb * 2 ^ 18 /\ mm_wf (mm s') /\
    (good_device -> Forall (eq (Some buf)) os)).
Proof.
  intros Harg Hgb Hfm. pose proof (reset_resting s Hfm) as Hr.
  unfold VIRTUAL_SIZE_GB in Hgb. unfold wp. rewrite (main_run buf prog arg gb) by (done || lia).
  set (W := pass (fun a => Write a buf) gb). set (R := pass Read gb).
  assert (Forall (fun x => 0 <= access_page x < VIRTUAL_SIZE / PAGE_SIZE) (W ++ R)) as Hin.
  { apply Forall_app. split; (apply pass_pages; [done|unfold VIRTUAL_SIZE_GB; lia]). }
  destruct (accesses_run (Z.to_nat 8192) (W ++ R) None (reset_state (mm s)) ∅ Hr) as (os & t & es & cur & Hrun & Ht & Hlen & Hf).
  { apply orderly_app; [|intros c]; (apply pass_orderly; [done|lia]). }
  { by apply in_range_blocks. }
  pose proof (user_accesses_in (W ++ R) (with_mm (reset_state (mm s)) s) Hin) as Hu.
  unfold on_mm in Hu. cbn [with_mm mm] in Hu. rewrite Hrun, user_accesses_app in Hu.
  destruct (two_passes _ _ _ _ _ _ Hu) as (os1 & os2 & e & -> & -> & Hlen1).
  unfold R in Hlen. rewrite !length_app, Hlen1 in Hlen.
  split; [|split].
  - rewrite pass_length in Hlen. lia.
  - apply Ht.
  - intros Hg. eapply (flat_write_read buf (seqZ 0 (gb * 2 ^ 18)) ∅ (seqZ 0 (gb * 2 ^ 18)) os1).
    + rewrite Hlen1. unfold W, pass. by rewrite length_fmap.
    + intros a Ha. by left.
    + apply Hf; [done|]. intros a v Hv. by rewrite lookup_empty in Hv.
Qed.

Lemma pass_split body g1 g2 :
  0 <= g1 < g2 -> exists l, pass body g2 = pass body g1 ++ body (g1 * 2 ^ 18) :: l.
Proof.
  intros Hg. exists (body <$> seqZ (Z.succ (g1 * 2 ^ 18)) (Z.pred (g2 * 2 ^ 18 - g1 * 2 ^ 18))).
  unfold pass. rewrite <- fmap_cons, <- seqZ_cons, <- fmap_app by lia. f_equal.
  replace (seqZ (g1 * 2 ^ 18)) with (seqZ (0 + g1 * 2 ^ 18)) by (f_equal; lia).
  rewrite <- seqZ_app by lia. f_equal. lia.
Qed.

Lemma user_access_out x s :
  VIRTUAL_SIZE / PAGE_SIZE <= access_page x -> user_access x s = Stop OutOfBounds.
Proof.
  intros Hx. unfold user_access. rewrite (proj2 (Z.ltb_ge _ _)) by done. by rewrite andb_false_r.
Qed.

(** The first loop, with a name for the size of the mapping. *)
Lemma pass_overrun buf g gb s :
  g = VIRTUAL_SIZE_GB -> g < gb -> freshly_mapped s ->
  user_accesses (pass (fun a => Write a buf) gb) (with_mm (reset_state (mm s)) s) = Stop OutOfBounds.
Proof.
  intros Hg Hgb Hfm. pose proof (reset_resting s Hfm) as Hr.
  assert (0 <= g <= VIRTUAL_SIZE_GB) as [Hg0 Hg1] by by rewrite Hg.
  assert (VIRTUAL_SIZE / PAGE_SIZE <= g * 2 ^ 18) as Hout by by rewrite Hg.
  set (W := fun a => Write a buf). destruct (pass_split W g gb) as [l ->]; [lia|].
  assert (Forall (fun x => 0 <= access_page x < VIRTUAL_SIZE / PAGE_SIZE) (pass W g)) as Hin
    by by apply pass_pages.
  destruct (accesses_run (Z.to_nat 8192) (pass W g) None (reset_state (mm s)) ∅ Hr)
    as (os & t & es & cur & Hrun & _); [by apply pass_orderly|by apply in_range_blocks|].
  rewrite user_accesses_app. unfold bind at 1. rewrite user_accesses_in by done.
  unfold on_mm. cbn [with_mm mm]. rewrite Hrun. cbn [user_accesses]. unfold bind at 1 2.
  by rewrite user_access_out.
Qed.

(** A size of more than 32 GB is accepted, and the first loop runs past the
    mapping: the program dies of the access to the page after its end. *)
Theorem user_copy_overrun buf prog arg gb s :
  strToLong arg = inr gb -> VIRTUAL_SIZE_GB < gb < 2 ^ 34 -> freshly_mapped s ->
  main buf [prog; arg] s = Stop OutOfBounds.
Proof.
  intros Harg Hgb Hfm. assert (VIRTUAL_SIZE_GB = 32) as HG by done.
  rewrite (main_run buf prog arg gb) by (done || lia). unfold bind.
  by rewrite (pass_overrun buf _ gb s eq_refl) by (done || lia).
Qed.
End theorems.

(** ** Witnesses *)

Definition fresh_device : @pcie_module Z fn_pages (fn_swap Z (fun _ => true)) :=
  mkModule (PT := fn_pages) (SD := fn_swap Z (fun _ => true))
    (loaded (fun _ => true) (Z.to_nat (VIRTUAL_SIZE / MY_PAGE_SIZE)) (Z.to_nat (PHY_SIZE / MY_PAGE_SIZE)))
    BdOpen [].

Lemma fresh_device_fresh : freshly_mapped fresh_device.
Proof.
  unfold fresh_device, loaded, reset_state. split; cbn [mm pcie_vmem_descs pcie_phymem_descs ptes].
  - rewrite length_imap, length_replicate. by rewrite Z2Nat.id.
  - rewrite length_imap, length_replicate. by apply (Z2Nat.inj_lt 0).
  - done.
Qed.

Lemma user_copy_reads_back_witness :
  exists Q, wp (main 7 ["user_copy"%string; " 24"%string]) fresh_device Q.
Proof.
  eexists. apply (user_copy_reads_back 7 "user_copy" " 24" 24); [reflexivity|done|].
  apply fresh_device_fresh.
Defined.

Lemma user_copy_overrun_witness :
  main 7 ["user_copy"%string; "33"%string] fresh_device = Stop OutOfBounds.
Proof.
  apply (user_copy_overrun 7 "user_copy" "33" 33); [reflexivity|done|]. apply fresh_device_fresh.
Defined.
