(* ===== verification/VirtBoard.v ===== *)
(** * The address map of the virt board: [virt.c] and [virt.h] of the patched
    QEMU

    The driver's second UART is a region and an interrupt line added to this
    board.  The regions of [enum { VIRT_FLASH, ... }], the two tables and
    [virt_set_memmap], which puts the high regions after the memory. *)

From S2P Require Import Prelude.
From Stdlib Require Import Sorting.Sorted.

(** Constants of other headers of QEMU. *)
Class QemuHeaders : Type := {
  MEMORY_HOTPLUG_IO_LEN : Z;
  ACPI_GED_EVT_SEL_LEN : Z;
  NVDIMM_ACPI_IO_LEN : Z;
  ACPI_MAX_RAM_SLOTS : Z;
  GICV3_REDIST_SIZE : Z;
  GIC_NCPU : Z;
  hotplug_len : 0 < MEMORY_HOTPLUG_IO_LEN <= 0x10000;
  ged_len : 0 < ACPI_GED_EVT_SEL_LEN <= 0x10000;
  nvdimm_len : 0 < NVDIMM_ACPI_IO_LEN <= 0x10000;
  ram_slots_max : 0 <= ACPI_MAX_RAM_SLOTS;
  redist_size : 0 < GICV3_REDIST_SIZE;
}.

Definition MiB : Z := 2 ^ 20.
Definition GiB : Z := 2 ^ 30.
Definition LEGACY_RAMLIMIT_GB : Z := 255.
Definition LEGACY_RAMLIMIT_BYTES : Z := LEGACY_RAMLIMIT_GB * GiB.
Definition EXIT_FAILURE : Z := 1.

Definition NUM_GICV2M_SPIS : Z := 64.
Definition NUM_VIRTIO_TRANSPORTS : Z := 32.
Definition NUM_SMMU_IRQS : Z := 4.

Inductive virt_region : Set :=
| VIRT_FLASH | VIRT_MEM | VIRT_CPUPERIPHS | VIRT_GIC_DIST | VIRT_GIC_CPU | VIRT_GIC_V2M
| VIRT_GIC_HYP | VIRT_GIC_VCPU | VIRT_GIC_ITS | VIRT_GIC_REDIST | VIRT_SMMU | VIRT_UART
| VIRT_UART2 | VIRT_MMIO | VIRT_RTC | VIRT_FW_CFG | VIRT_PCIE | VIRT_PCIE_MMIO | VIRT_PCIE_PIO
| VIRT_PCIE_ECAM | VIRT_PLATFORM_BUS | VIRT_GPIO | VIRT_SECURE_UART | VIRT_SECURE_MEM
| VIRT_SECURE_GPIO | VIRT_PCDIMM_ACPI | VIRT_ACPI_GED | VIRT_NVDIMM_ACPI | VIRT_PVTIME
| VIRT_HIGH_GIC_REDIST2 | VIRT_HIGH_PCIE_ECAM | VIRT_HIGH_PCIE_MMIO.

#[export] Instance virt_region_eq_dec : EqDecision virt_region.
Proof. solve_decision. Defined.

Record MemMapEntry : Type := mkEntry { base : Z; size : Z }.

Section board.
Context `{QH : QemuHeaders}.

(** The table by region; an index it does not name is zero. *)
Definition base_memmap (r : virt_region) : MemMapEntry :=
  match r with
  | VIRT_FLASH => mkEntry 0 0x08000000
  | VIRT_CPUPERIPHS => mkEntry 0x08000000 0x00020000
  | VIRT_GIC_DIST => mkEntry 0x08000000 0x00010000
  | VIRT_GIC_CPU => mkEntry 0x08010000 0x00010000
  | VIRT_GIC_V2M => mkEntry 0x08020000 0x00001000
  | VIRT_GIC_HYP => mkEntry 0x08030000 0x00010000
  | VIRT_GIC_VCPU => mkEntry 0x08040000 0x00010000
  | VIRT_GIC_ITS => mkEntry 0x08080000 0x00020000
  | VIRT_GIC_REDIST => mkEntry 0x080A0000 0x00F60000
  | VIRT_UART => mkEntry 0x09000000 0x00001000
  | VIRT_UART2 => mkEntry 0x090c0000 0x00001000
  | VIRT_RTC => mkEntry 0x09010000 0x00001000
  | VIRT_FW_CFG => mkEntry 0x09020000 0x00000018
  | VIRT_GPIO => mkEntry 0x09030000 0x00001000
  | VIRT_SECURE_UART => mkEntry 0x09040000 0x00001000
  | VIRT_SMMU => mkEntry 0x09050000 0x00020000
  | VIRT_PCDIMM_ACPI => mkEntry 0x09070000 MEMORY_HOTPLUG_IO_LEN
  | VIRT_ACPI_GED => mkEntry 0x09080000 ACPI_GED_EVT_SEL_LEN
  | VIRT_NVDIMM_ACPI => mkEntry 0x09090000 NVDIMM_ACPI_IO_LEN
  | VIRT_PVTIME => mkEntry 0x090a0000 0x00010000
  | VIRT_SECURE_GPIO => mkEntry 0x090b0000 0x00001000
  | VIRT_MMIO => mkEntry 0x0a000000 0x00000200
  | VIRT_PLATFORM_BUS => mkEntry 0x0c000000 0x02000000
  | VIRT_SECURE_MEM => mkEntry 0x0e000000 0x01000000
  | VIRT_PCIE_MMIO => mkEntry 0x10000000 0x2eff0000
  | VIRT_PCIE_PIO => mkEntry 0x3eff0000 0x00010000
  | VIRT_PCIE_ECAM => mkEntry 0x3f000000 0x01000000
  | VIRT_MEM => mkEntry GiB LEGACY_RAMLIMIT_BYTES
  | _ => mkEntry 0 0
  end.

(** The high regions in the order of the table, with their sizes. *)
Definition extended_memmap : list (virt_region * Z) :=
  [(VIRT_HIGH_GIC_REDIST2, 64 * MiB); (VIRT_HIGH_PCIE_ECAM, 256 * MiB);
   (VIRT_HIGH_PCIE_MMIO, 512 * GiB)].

(** What the command line asks for. *)
Record MachineState : Type := mkMachine { ram_size : Z; maxram_size : Z; ram_slots : Z }.

Record VirtMemory : Type := mkMemory {
  memmap : virt_region -> MemMapEntry;
  highest_gpa : Z;
  device_memory : option (Z * Z);
}.

(** [ROUND_UP(n, d)] on [hwaddr], a 64-bit integer: [(n + d - 1) & -d]. *)
Definition ROUND_UP (n d : Z) : Z := Z.land (wrap 64 (n + d - 1)) (wrap 64 (- d)).

Definition set_entry (m : virt_region -> MemMapEntry) (r : virt_region) (e : MemMapEntry) :
    virt_region -> MemMapEntry :=
  fun x => if decide (x = r) then e else m x.

(** The loop over the high regions from the address [b]. *)
Fixpoint place_high (l : list (virt_region * Z)) (m : virt_region -> MemMapEntry) (b : Z) :
    (virt_region -> MemMapEntry) * Z :=
  match l with
  | [] => (m, b)
  | (r, sz) :: l =>
      let b := ROUND_UP b sz in
      place_high l (set_entry m r (mkEntry b sz)) (wrap 64 (b + sz))
  end.

(** The exit code, or the memory of the machine. *)
Definition virt_set_memmap (ms : MachineState) : Z + VirtMemory :=
  if ACPI_MAX_RAM_SLOTS <? ram_slots ms then inl EXIT_FAILURE
  else
    let device_memory_base := ROUND_UP (wrap 64 (base (base_memmap VIRT_MEM) + ram_size ms)) GiB in
    let device_memory_size := wrap 64 (maxram_size ms - ram_size ms + ram_slots ms * GiB) in
    let b := wrap 64 (device_memory_base + ROUND_UP device_memory_size GiB) in
    if b <? device_memory_base then inl EXIT_FAILURE
    else
      let low := wrap 64 (base (base_memmap VIRT_MEM) + LEGACY_RAMLIMIT_BYTES) in
      let b := if b <? low then low else b in
      let '(m, b) := place_high extended_memmap base_memmap b in
      inr (mkMemory m (wrap 64 (b - 1))
             (if 0 <? device_memory_size then Some (device_memory_base, device_memory_size) else None)).

(** [virt_gicv3_redist_region_count] on a GICv3. *)
Definition virt_gicv3_redist_region_count (m : virt_region -> MemMapEntry) (smp_cpus : Z) : Z :=
  let redist0_capacity := size (m VIRT_GIC_REDIST) / GICV3_REDIST_SIZE in
  if redist0_capacity <? smp_cpus then 2 else 1.
End board.

(** Documented values of QEMU 6.2. *)
#[export] Instance qemu_6_2 : QemuHeaders.
Proof.
  by refine {| MEMORY_HOTPLUG_IO_LEN := 24; ACPI_GED_EVT_SEL_LEN := 4; NVDIMM_ACPI_IO_LEN := 4;
    ACPI_MAX_RAM_SLOTS := 256; GICV3_REDIST_SIZE := 0x20000; GIC_NCPU := 8 |}.
Defined.

(** ** Lemmas *)

Lemma ROUND_UP_spec n k :
  0 <= k < 64 -> 0 <= n -> n + 2 ^ k <= 2 ^ 64 ->
  n <= ROUND_UP n (2 ^ k) < n + 2 ^ k /\ (2 ^ k | ROUND_UP n (2 ^ k)).
Proof.
  intros Hk Hn Hb. assert (0 < 2 ^ k) as Hp by lia. unfold ROUND_UP. rewrite (wrap_small _ (n + _ - 1)) by lia.
  assert (Z.land (n + 2 ^ k - 1) (wrap 64 (- 2 ^ k)) = (n + 2 ^ k - 1) / 2 ^ k * 2 ^ k) as ->.
  { rewrite wrap_land, (Z.land_comm (- _)), Z.land_assoc, Z.land_ones, Z.mod_small by lia.
    replace (- 2 ^ k) with (Z.lnot (Z.ones k)) by (rewrite Z.ones_equiv; unfold Z.lnot; lia).
    rewrite <- Z.ldiff_land, Z.ldiff_ones_r, Z.shiftl_mul_pow2, Z.shiftr_div_pow2 by lia. done. }
  pose proof (Z.div_mod (n + 2 ^ k - 1) (2 ^ k)). pose proof (Z.mod_pos_bound (n + 2 ^ k - 1) (2 ^ k)).
  split; [lia|]. by apply Z.divide_factor_r.
Qed.

(** Settle the comparisons of two regions. *)
Ltac regions := repeat first [rewrite decide_False by done | rewrite decide_True by done].

Section layout.
Context `{QH : QemuHeaders}.

(** The low regions in the order of their addresses; [VIRT_CPUPERIPHS] is the
    first two of the GIC's. *)
Definition low_regions : list virt_region :=
  [VIRT_FLASH; VIRT_GIC_DIST; VIRT_GIC_CPU; VIRT_GIC_V2M; VIRT_GIC_HYP; VIRT_GIC_VCPU; VIRT_GIC_ITS;
   VIRT_GIC_REDIST; VIRT_UART; VIRT_RTC; VIRT_FW_CFG; VIRT_GPIO; VIRT_SECURE_UART; VIRT_SMMU;
   VIRT_PCDIMM_ACPI; VIRT_ACPI_GED; VIRT_NVDIMM_ACPI; VIRT_PVTIME; VIRT_SECURE_GPIO; VIRT_UART2;
   VIRT_MMIO; VIRT_PLATFORM_BUS; VIRT_SECURE_MEM; VIRT_PCIE_MMIO; VIRT_PCIE_PIO; VIRT_PCIE_ECAM].

Definition high_regions : list virt_region :=
  [VIRT_HIGH_GIC_REDIST2; VIRT_HIGH_PCIE_ECAM; VIRT_HIGH_PCIE_MMIO].

(** What a region takes: [VIRT_MMIO] is the first of the transports. *)
Definition extent (m : virt_region -> MemMapEntry) (r : virt_region) : Z * Z :=
  (base (m r), if decide (r = VIRT_MMIO) then NUM_VIRTIO_TRANSPORTS * size (m r) else size (m r)).

(** Everything on the board, by address. *)
Definition board_map (ms : MachineState) (v : VirtMemory) : list (Z * Z) :=
  (extent (memmap v) <$> low_regions) ++
  (base (memmap v VIRT_MEM), ram_size ms) :: option_list (device_memory v) ++
  (extent (memmap v) <$> high_regions).

Definition ends_before (e1 e2 : Z * Z) : Prop := e1.1 + e1.2 <= e2.1 /\ 0 <= e2.2.

Lemma ends_before_trans : Relations_1.Transitive ends_before.
Proof. unfold ends_before. intros [b1 s1] [b2 s2] [b3 s3]; cbn. lia. Qed.

Lemma place_high_spec m b :
  0 <= b < 2 ^ 62 ->
  exists r1 r2 r3, place_high extended_memmap m b =
    (set_entry (set_entry (set_entry m VIRT_HIGH_GIC_REDIST2 (mkEntry r1 (64 * MiB)))
       VIRT_HIGH_PCIE_ECAM (mkEntry r2 (256 * MiB))) VIRT_HIGH_PCIE_MMIO (mkEntry r3 (512 * GiB)),
     r3 + 512 * GiB) /\
    b <= r1 /\ r1 + 64 * MiB <= r2 /\ r2 + 256 * MiB <= r3 /\ r3 + 512 * GiB < 2 ^ 63 /\
    (64 * MiB | r1) /\ (256 * MiB | r2) /\ (512 * GiB | r3).
Proof.
  intros Hb. unfold extended_memmap. cbn [place_high].
  change (64 * MiB) with (2 ^ 26). change (256 * MiB) with (2 ^ 28). change (512 * GiB) with (2 ^ 39).
  destruct (ROUND_UP_spec b 26) as [H1 D1]; [lia..|]. set (r1 := ROUND_UP b (2 ^ 26)) in *.
  rewrite (wrap_small _ (r1 + _)) by lia.
  destruct (ROUND_UP_spec (r1 + 2 ^ 26) 28) as [H2 D2]; [lia..|]. set (r2 := ROUND_UP (r1 + _) _) in *.
  rewrite (wrap_small _ (r2 + _)) by lia.
  destruct (ROUND_UP_spec (r2 + 2 ^ 28) 39) as [H3 D3]; [lia..|]. set (r3 := ROUND_UP (r2 + _) _) in *.
  rewrite (wrap_small _ (r3 + _)) by lia.
  exists r1, r2, r3. split; [done|]. split_and!; try done; lia.
Qed.

(** The low part of the map, then [l]. *)
Lemma low_sorted l :
  HdRel ends_before (0x3f000000, 0x01000000) l -> Sorted ends_before l ->
  Sorted ends_before ((extent base_memmap <$> low_regions) ++ l).
Proof.
  intros Hhd Hl. pose proof hotplug_len. pose proof ged_len. pose proof nvdimm_len.
  unfold low_regions, extent, NUM_VIRTIO_TRANSPORTS. cbn [fmap list_fmap map app base_memmap base size].
  rewrite (decide_True (P := VIRT_MMIO = VIRT_MMIO)) by done. repeat (rewrite decide_False by done).
  repeat (apply Sorted_cons; [|first [exact Hhd|constructor; unfold ends_before; cbn; lia]]).
  exact Hl.
Qed.

Lemma virt_set_memmap_run ms :
  0 <= ram_size ms <= maxram_size ms -> 0 <= ram_slots ms <= ACPI_MAX_RAM_SLOTS ->
  maxram_size ms + ram_slots ms * GiB < 2 ^ 61 ->
  exists dbase r1 r2 r3, virt_set_memmap ms = inr (mkMemory
    (set_entry (set_entry (set_entry base_memmap VIRT_HIGH_GIC_REDIST2 (mkEntry r1 (64 * MiB)))
       VIRT_HIGH_PCIE_ECAM (mkEntry r2 (256 * MiB))) VIRT_HIGH_PCIE_MMIO (mkEntry r3 (512 * GiB)))
    (r3 + 512 * GiB - 1)
    (if 0 <? maxram_size ms - ram_size ms + ram_slots ms * GiB
     then Some (dbase, maxram_size ms - ram_size ms + ram_slots ms * GiB) else None)) /\
    GiB + ram_size ms <= dbase /\ (GiB | dbase) /\
    dbase + (maxram_size ms - ram_size ms + ram_slots ms * GiB) <= r1 /\ 256 * GiB <= r1 /\
    r1 + 64 * MiB <= r2 /\ r2 + 256 * MiB <= r3 /\ r3 + 512 * GiB < 2 ^ 63 /\
    (64 * MiB | r1) /\ (256 * MiB | r2) /\ (512 * GiB | r3).
Proof.
  intros Hram Hslots Hmax. unfold virt_set_memmap. rewrite (proj2 (Z.ltb_ge _ _)) by lia.
  cbn [base_memmap base]. assert (GiB = 2 ^ 30) as HG by done. 
  set (dsize := maxram_size ms - ram_size ms + ram_slots ms * GiB) in *.
  assert (0 <= dsize < 2 ^ 61) as Hd by (subst dsize; lia).
  rewrite (wrap_small _ (GiB + _)), (wrap_small _ dsize) by lia.
  destruct (ROUND_UP_spec (GiB + ram_size ms) 30) as [H1 D1]; [lia..|].
  destruct (ROUND_UP_spec dsize 30) as [H2 D2]; [lia..|].
  change (2 ^ 30) with GiB in H1, H2, D1.
  set (dbase := ROUND_UP (GiB + ram_size ms) GiB) in *. set (dend := ROUND_UP dsize GiB) in *.
  rewrite (wrap_small _ (dbase + dend)), (proj2 (Z.ltb_ge _ _)) by lia.
  unfold LEGACY_RAMLIMIT_BYTES, LEGACY_RAMLIMIT_GB. rewrite (wrap_small _ (GiB + _)) by lia.
  set (b := if dbase + dend <? GiB + 255 * GiB then GiB + 255 * GiB else dbase + dend).
  assert (dbase + dsize <= b /\ 256 * GiB <= b < 2 ^ 62) as [Hb1 Hb2].
  { subst b. destruct (Z.ltb_spec (dbase + dend) (GiB + 255 * GiB)); lia. }
  destruct (place_high_spec base_memmap b) as (r1 & r2 & r3 & Hrun & Hr); [lia|].
  destruct Hr as (R1 & R2 & R3 & R4 & R5). assert (MiB = 2 ^ 20) as HM by done.
  rewrite Hrun, wrap_small by lia. exists dbase, r1, r2, r3. split; [done|].
  split_and!; try apply R5; try done; lia.
Qed.

(** C31: The address map of the board, the second UART included.  Up to 2^61
    bytes the map is laid out without a 64-bit overflow: taken by address, the
    low regions, the memory, the hot-plug memory and the high regions follow
    each other without an overlap; the low ones are those of the table; the
    high ones start at 256 GiB or after the memory and are aligned to their
    sizes; and [highest_gpa] is the last address used.  More slots than ACPI
    has are refused. *)
Theorem memmap_layout ms :
  0 <= ram_size ms <= maxram_size ms -> 0 <= ram_slots ms ->
  maxram_size ms + ram_slots ms * GiB < 2 ^ 61 ->
  (ACPI_MAX_RAM_SLOTS < ram_slots ms -> virt_set_memmap ms = inl EXIT_FAILURE) /\
  (ram_slots ms <= ACPI_MAX_RAM_SLOTS -> exists v, virt_set_memmap ms = inr v /\
     StronglySorted ends_before (board_map ms v) /\
     (forall r, r ∉ high_regions -> memmap v r = base_memmap r) /\
     (forall r, r ∈ high_regions -> 256 * GiB <= base (memmap v r) /\ (size (memmap v r) | base (memmap v r)) /\
        base (memmap v r) + size (memmap v r) <= highest_gpa v + 1) /\
     base (memmap v VIRT_HIGH_PCIE_MMIO) + size (memmap v VIRT_HIGH_PCIE_MMIO) = highest_gpa v + 1 /\
     (forall b sz, device_memory v = Some (b, sz) -> (GiB | b) /\
        sz = maxram_size ms - ram_size ms + ram_slots ms * GiB)).
Proof.
  intros Hram Hslots Hmax. split.
  { intros Hs. unfold virt_set_memmap. by rewrite (proj2 (Z.ltb_lt _ _)). }
  intros Hs. destruct (virt_set_memmap_run ms Hram (conj Hslots Hs) Hmax)
    as (db & r1 & r2 & r3 & Hrun & H1 & H2 & H3 & H4 & H5 & H6 & H7 & D1 & D2 & D3).
  eexists. split; [exact Hrun|]. unfold high_regions, set_entry; cbn [memmap highest_gpa device_memory].
  assert (GiB = 2 ^ 30 /\ MiB = 2 ^ 20) as [HG HM] by done. split; [|split; [|split; [|split]]].
  - apply Sorted_StronglySorted; [exact ends_before_trans|]. unfold board_map. cbn [memmap device_memory].
    apply low_sorted.
    + constructor. unfold ends_before; cbn. regions. cbn. lia.
    + cbn. unfold extent. cbn. regions. cbn. destruct (Z.ltb_spec 0 (maxram_size ms - ram_size ms + ram_slots ms * GiB)); cbn;
        repeat (apply Sorted_cons; [|constructor; unfold ends_before; cbn; lia]); constructor.
  - intros r Hr. by rewrite !decide_False by set_solver.
  - intros r Hr. rewrite !elem_of_cons, elem_of_nil in Hr.
    destruct Hr as [->|[->|[->|[]]]]; regions; cbn; (split; [lia|]); (split; [done|lia]).
  - regions. cbn. lia.
  - intros b sz. destruct (0 <? _); [|done]. intros [= <- <-]. done.
Qed.
End layout.

(** 24 GiB that can grow to 64 GiB in 4 slots. *)
Lemma memmap_layout_witness :
  exists v, virt_set_memmap (mkMachine (24 * GiB) (64 * GiB) 4) = inr v /\
    StronglySorted ends_before (board_map (mkMachine (24 * GiB) (64 * GiB) 4) v).
Proof.
  edestruct (memmap_layout (mkMachine (24 * GiB) (64 * GiB) 4)) as [_ H]; [done..|].
  destruct H as (v & Hv & Hs & _); [done|]. by exists v.
Defined.
