(* ===== verification/VirtGic.v ===== *)
(** * The interrupt controller of the virt board: [virt.c]

    The final GIC version, the limits [machvirt_init] puts on the number of
    CPUs, and what [create_gic] configures. *)

From S2P Require Import Prelude VirtBoard.

(** Documented values of QEMU 6.2. *)
Definition KVM_ARM_VGIC_V2 : Z := 1.
Definition KVM_ARM_VGIC_V3 : Z := 2.
Definition GIC_INTERNAL : Z := 32.
Definition GIC_NR_SGIS : Z := 16.
Definition GIC_TARGETLIST_BITS : Z := 8.
Definition GICV3_TARGETLIST_BITS : Z := 16.
Definition ARM_DEFAULT_CPUS_PER_CLUSTER : Z := 8.

Definition NUM_IRQS : Z := 256.
Definition ARCH_GIC_MAINT_IRQ : Z := 9.
Definition ARCH_TIMER_VIRT_IRQ : Z := 11.
Definition ARCH_TIMER_S_EL1_IRQ : Z := 13.
Definition ARCH_TIMER_NS_EL1_IRQ : Z := 14.
Definition ARCH_TIMER_NS_EL2_IRQ : Z := 10.
Definition VIRTUAL_PMU_IRQ : Z := 7.
Definition PVTIME_SIZE_PER_CPU : Z := 64.

Inductive VirtGICType : Set :=
| VIRT_GIC_VERSION_MAX
| VIRT_GIC_VERSION_HOST
| VIRT_GIC_VERSION_2
| VIRT_GIC_VERSION_3
| VIRT_GIC_VERSION_NOSEL.

Inductive VirtMSIControllerType : Set :=
| VIRT_MSI_CTRL_NONE
| VIRT_MSI_CTRL_GICV2M
| VIRT_MSI_CTRL_ITS.

Inductive psci : Set := PSCI_CONDUIT_DISABLED | PSCI_CONDUIT_SMC | PSCI_CONDUIT_HVC.

#[export] Instance VirtGICType_eq_dec : EqDecision VirtGICType.
Proof. solve_decision. Defined.

(** The number of an enumerator. *)
Definition gic_type_number (v : VirtGICType) : Z :=
  match v with
  | VIRT_GIC_VERSION_MAX => 0
  | VIRT_GIC_VERSION_HOST => 1
  | VIRT_GIC_VERSION_2 => 2
  | VIRT_GIC_VERSION_3 => 3
  | VIRT_GIC_VERSION_NOSEL => 4
  end.

(** What the accelerator and the host offer. *)
Record host : Type := mkHost {
  kvm_enabled : bool;
  hvf_enabled : bool;
  kvm_irqchip_in_kernel : bool;
  kvm_arm_vgic_probe : Z;
  its_class_name : option string;
}.

(** The machine's options that matter here. *)
Record VirtOptions : Type := mkOptions {
  secure : bool;
  virt : bool;
  mte : bool;
  its : bool;
  tcg_its : bool;
  cpu_type : string;
  smp_cpus : Z;
  max_cpus : Z;
}.

Definition valid_cpus : list string :=
  ["cortex-a7-arm-cpu"; "cortex-a15-arm-cpu"; "cortex-a53-arm-cpu"; "cortex-a57-arm-cpu";
   "cortex-a72-arm-cpu"; "a64fx-arm-cpu"; "host-arm-cpu"; "max-arm-cpu"]%string.

Definition cpu_type_valid (cpu : string) : bool := existsb (fun v => bool_decide (cpu = v)) valid_cpus.

Section gic.
Context `{QH : QemuHeaders} (h : host).

Definition probes (bit : Z) : bool := negb (Z.land (kvm_arm_vgic_probe h) bit =? 0).

(** The check at the end of the KVM case. *)
Definition check_supported (v : VirtGICType) : Z + VirtGICType :=
  if bool_decide (v = VIRT_GIC_VERSION_2) && negb (probes KVM_ARM_VGIC_V2) then inl 1
  else if bool_decide (v = VIRT_GIC_VERSION_3) && negb (probes KVM_ARM_VGIC_V3) then inl 1
  else inr v.

Definition finalize_gic_version (max_cpus : Z) (v : VirtGICType) : Z + VirtGICType :=
  if kvm_enabled h then
    if negb (kvm_irqchip_in_kernel h) then
      match v with
      | VIRT_GIC_VERSION_HOST => inr v
      | VIRT_GIC_VERSION_MAX | VIRT_GIC_VERSION_NOSEL => inr VIRT_GIC_VERSION_2
      | VIRT_GIC_VERSION_2 => inr v
      | VIRT_GIC_VERSION_3 => inl 1
      end
    else if kvm_arm_vgic_probe h =? 0 then inl 1
    else
      match v with
      | VIRT_GIC_VERSION_HOST | VIRT_GIC_VERSION_MAX =>
          inr (if probes KVM_ARM_VGIC_V3 then VIRT_GIC_VERSION_3 else VIRT_GIC_VERSION_2)
      | VIRT_GIC_VERSION_NOSEL =>
          if probes KVM_ARM_VGIC_V2 && (max_cpus <=? GIC_NCPU) then check_supported VIRT_GIC_VERSION_2
          else if probes KVM_ARM_VGIC_V3 then check_supported VIRT_GIC_VERSION_3
          else if GIC_NCPU <? max_cpus then inl 1
          else check_supported v
      | VIRT_GIC_VERSION_2 | VIRT_GIC_VERSION_3 => check_supported v
      end
  else
    match v with
    | VIRT_GIC_VERSION_NOSEL => inr VIRT_GIC_VERSION_2
    | VIRT_GIC_VERSION_MAX => inr VIRT_GIC_VERSION_3
    | VIRT_GIC_VERSION_HOST => inl 1
    | VIRT_GIC_VERSION_2 | VIRT_GIC_VERSION_3 => inr v
    end.

(** The size of a cluster, for [arm_cpu_mp_affinity]. *)
Definition virt_cpu_clustersz (disallow_affinity_adjustment : bool) (v : VirtGICType) : Z :=
  if negb disallow_affinity_adjustment then
    if bool_decide (v = VIRT_GIC_VERSION_3) then GICV3_TARGETLIST_BITS else GIC_TARGETLIST_BITS
  else ARM_DEFAULT_CPUS_PER_CLUSTER.

Definition virt_max_cpus (m : virt_region -> MemMapEntry) (v : VirtGICType) : Z :=
  if bool_decide (v = VIRT_GIC_VERSION_3) then
    size (m VIRT_GIC_REDIST) / GICV3_REDIST_SIZE + size (m VIRT_HIGH_GIC_REDIST2) / GICV3_REDIST_SIZE
  else GIC_NCPU.

(** [machvirt_init] between the memory map and the firmware: the GIC version, or
    the code of [exit]. *)
Definition machvirt_gic (o : VirtOptions) (v : VirtGICType) : Z + VirtGICType :=
  match finalize_gic_version (max_cpus o) v with
  | inl code => inl code
  | inr v => if negb (cpu_type_valid (cpu_type o)) then inl 1 else inr v
  end.

(** [machvirt_init] between the firmware and [create_fdt]: the PSCI conduit, or
    the code of [exit]. *)
Definition machvirt_cpus (m : virt_region -> MemMapEntry) (o : VirtOptions) (firmware_loaded : bool)
    (v : VirtGICType) : Z + psci :=
  let psci_conduit :=
    if secure o && firmware_loaded then PSCI_CONDUIT_DISABLED
    else if virt o then PSCI_CONDUIT_SMC else PSCI_CONDUIT_HVC in
  if virt_max_cpus m v <? max_cpus o then inl 1
  else if virt o && (kvm_enabled h || hvf_enabled h) then inl 1
  else if mte o && (kvm_enabled h || hvf_enabled h) then inl 1
  else inr psci_conduit.

(** Both: the GIC version and the PSCI conduit, or the code of [exit]. *)
Definition machvirt_limits (m : virt_region -> MemMapEntry) (o : VirtOptions) (firmware_loaded : bool)
    (v : VirtGICType) : Z + (VirtGICType * psci) :=
  match machvirt_gic o v with
  | inl code => inl code
  | inr v =>
      match machvirt_cpus m o firmware_loaded v with
      | inl code => inl code
      | inr p => inr (v, p)
      end
  end.

(** What [create_gic] sets up: the properties of the device, the frames it maps
    and the inputs of the GIC that each CPU's own lines go to. *)
Record gic_config : Type := mkGic {
  is_gicv3 : bool;
  revision : Z;
  num_cpu : Z;
  num_irq : Z;
  security_extensions : bool;
  virtualization_extensions : bool;
  has_lpi : bool;
  redist_region_count : list Z;
  sysbus_mmio : list (Z * Z);
  cpu_inputs : list (list Z);
  sysbus_irqs : list (list Z);
  msi_controller : VirtMSIControllerType;
}.

(** The CPU's timers, its maintenance interrupt and its PMU. *)
Definition ppi_inputs (o : VirtOptions) (type : Z) (i : Z) : list Z :=
  let ppibase := NUM_IRQS + i * GIC_INTERNAL + GIC_NR_SGIS in
  ((fun irq => ppibase + irq) <$>
     [ARCH_TIMER_NS_EL1_IRQ; ARCH_TIMER_VIRT_IRQ; ARCH_TIMER_NS_EL2_IRQ; ARCH_TIMER_S_EL1_IRQ]) ++
  (if (type =? 3) || virt o then [ppibase + ARCH_GIC_MAINT_IRQ] else []) ++
  [ppibase + VIRTUAL_PMU_IRQ].

(** The outputs of the GIC wired for a CPU: those of a GICv2's maintenance
    interrupt, then IRQ, FIQ, VIRQ and VFIQ. *)
Definition gic_outputs (o : VirtOptions) (type : Z) (i : Z) : list Z :=
  (if negb (type =? 3) && virt o then [i + 4 * smp_cpus o] else []) ++
  [i; i + smp_cpus o; i + 2 * smp_cpus o; i + 3 * smp_cpus o].

(** The class name is compared before it is checked. *)
Definition create_its (o : VirtOptions) : result VirtMSIControllerType :=
  match its_class_name h with
  | None => Stop NullDeref
  | Some itsclass =>
      if bool_decide (itsclass = "arm-gicv3-its"%string) && negb (tcg_its o) then Ok VIRT_MSI_CTRL_NONE
      else Ok VIRT_MSI_CTRL_ITS
  end.

Definition create_gic (m : virt_region -> MemMapEntry) (o : VirtOptions) (v : VirtGICType) :
    result gic_config :=
  let type := gic_type_number v in
  let redist0_capacity := size (m VIRT_GIC_REDIST) / GICV3_REDIST_SIZE in
  let redist0_count := Z.min (smp_cpus o) redist0_capacity in
  let nb_redist_regions := if type =? 3 then virt_gicv3_redist_region_count m (smp_cpus o) else 0 in
  let redist1_capacity := size (m VIRT_HIGH_GIC_REDIST2) / GICV3_REDIST_SIZE in
  let gic := mkGic (type =? 3) type (smp_cpus o) (NUM_IRQS + 32)
    (negb (kvm_irqchip_in_kernel h) && secure o)
    (negb (type =? 3) && negb (kvm_irqchip_in_kernel h) && virt o)
    ((type =? 3) && negb (kvm_irqchip_in_kernel h) && tcg_its o)
    (if type =? 3 then
       redist0_count ::
       (if nb_redist_regions =? 2 then [Z.min (smp_cpus o - redist0_count) redist1_capacity] else [])
     else [])
    ((0, base (m VIRT_GIC_DIST)) ::
     (if type =? 3 then
        (1, base (m VIRT_GIC_REDIST)) ::
        (if nb_redist_regions =? 2 then [(2, base (m VIRT_HIGH_GIC_REDIST2))] else [])
      else
        (1, base (m VIRT_GIC_CPU)) ::
        (if virt o then [(2, base (m VIRT_GIC_HYP)); (3, base (m VIRT_GIC_VCPU))] else [])))
    (ppi_inputs o type <$> seqZ 0 (smp_cpus o))
    (gic_outputs o type <$> seqZ 0 (smp_cpus o)) in
  if (type =? 3) && its o then
    match create_its o with Ok msi => Ok (gic msi) | Stop f => Stop f end
  else Ok (gic (if type =? 2 then VIRT_MSI_CTRL_GICV2M else VIRT_MSI_CTRL_NONE)).
End gic.

(** ** Theorems *)

Section theorems.
Context `{QH : QemuHeaders} (h : host).

Lemma check_supported_cases v :
  check_supported h v = inl 1 \/
  (check_supported h v = inr v /\
   (v = VIRT_GIC_VERSION_2 -> probes h KVM_ARM_VGIC_V2 = true) /\
   (v = VIRT_GIC_VERSION_3 -> probes h KVM_ARM_VGIC_V3 = true)).
Proof.
  unfold check_supported.
  destruct v; cbn; try naive_solver;
    destruct (probes h KVM_ARM_VGIC_V2), (probes h KVM_ARM_VGIC_V3); cbn; naive_solver.
Qed.

(** Two bits, so a host that probes anything supports one of them. *)
Lemma probe_some :
  0 <= kvm_arm_vgic_probe h < 4 -> kvm_arm_vgic_probe h <> 0 ->
  probes h KVM_ARM_VGIC_V2 = true \/ probes h KVM_ARM_VGIC_V3 = true.
Proof.
  intros Hr Hne. unfold probes. assert (kvm_arm_vgic_probe h ∈ [1; 2; 3]) as Hin.
  { rewrite !elem_of_cons. lia. }
  repeat (apply elem_of_cons in Hin as [->|Hin]; [vm_compute; auto|]). by apply elem_of_nil in Hin.
Qed.

(** C37: The final GIC version.  Without KVM and with an in-kernel irqchip it is
    2 or 3, a version asked for is kept, and the host supports it; every other
    choice ends the program.  With KVM and a userspace irqchip
    [gic-version=host] is announced as v2 but stays: the GIC is then created
    with revision 1 and no MSI controller. *)
Theorem finalize_gic_version_spec n v :
  0 <= kvm_arm_vgic_probe h < 4 ->
  match finalize_gic_version h n v with
  | inl code => code = 1
  | inr v' =>
      (v = VIRT_GIC_VERSION_2 \/ v = VIRT_GIC_VERSION_3 -> v' = v) /\
      (v' = VIRT_GIC_VERSION_2 \/ v' = VIRT_GIC_VERSION_3 \/
       (v = VIRT_GIC_VERSION_HOST /\ v' = v /\ kvm_enabled h = true /\ kvm_irqchip_in_kernel h = false /\
        forall m o, exists g, create_gic h m o v' = Ok g /\ is_gicv3 g = false /\ revision g = 1 /\
          msi_controller g = VIRT_MSI_CTRL_NONE)) /\
      (kvm_enabled h = true -> kvm_irqchip_in_kernel h = true ->
         (v' = VIRT_GIC_VERSION_2 -> probes h KVM_ARM_VGIC_V2 = true) /\
         (v' = VIRT_GIC_VERSION_3 -> probes h KVM_ARM_VGIC_V3 = true)) /\
      (kvm_enabled h = false -> v <> VIRT_GIC_VERSION_HOST)
  end.
Proof.
  intros Hr. unfold finalize_gic_version. destruct (kvm_enabled h); [|destruct v; naive_solver].
  destruct (kvm_irqchip_in_kernel h); cbn [negb].
  2: { destruct v; naive_solver. }
  destruct (Z.eqb_spec (kvm_arm_vgic_probe h) 0) as [|Hne]; [done|].
  pose proof (probe_some Hr Hne) as Hs. pose proof (check_supported_cases) as Hc.
  destruct v.
  - destruct (probes h KVM_ARM_VGIC_V3) eqn:E; naive_solver.
  - destruct (probes h KVM_ARM_VGIC_V3) eqn:E; naive_solver.
  - destruct (Hc VIRT_GIC_VERSION_2) as [->|[-> ?]]; naive_solver.
  - destruct (Hc VIRT_GIC_VERSION_3) as [->|[-> ?]]; naive_solver.
  - destruct (probes h KVM_ARM_VGIC_V2) eqn:E2, (probes h KVM_ARM_VGIC_V3) eqn:E3; cbn [andb];
      rewrite ?Z.ltb_antisym; destruct (n <=? GIC_NCPU); cbn [andb negb];
      unfold check_supported; rewrite ?E2, ?E3; cbn; naive_solver.
Qed.

Lemma cpu_type_valid_spec cpu : cpu_type_valid cpu = true <-> cpu ∈ valid_cpus.
Proof.
  unfold cpu_type_valid. rewrite existsb_exists. split.
  - intros (x & Hx & E%bool_decide_eq_true). subst. by apply list_elem_of_In.
  - intros Hx. exists cpu. split; [by apply list_elem_of_In|by apply bool_decide_eq_true].
Qed.

(** The inputs of one CPU lie in its own 16 private lines, without a repeat. *)
Lemma ppi_inputs_range o type i x :
  x ∈ ppi_inputs o type i ->
  NUM_IRQS + i * GIC_INTERNAL + GIC_NR_SGIS <= x < NUM_IRQS + (i + 1) * GIC_INTERNAL.
Proof.
  unfold ppi_inputs, NUM_IRQS, GIC_INTERNAL, GIC_NR_SGIS, ARCH_TIMER_NS_EL1_IRQ, ARCH_TIMER_VIRT_IRQ,
    ARCH_TIMER_NS_EL2_IRQ, ARCH_TIMER_S_EL1_IRQ, ARCH_GIC_MAINT_IRQ, VIRTUAL_PMU_IRQ.
  destruct (_ || _); cbn [fmap list_fmap app map]; rewrite !elem_of_cons, elem_of_nil; lia.
Qed.

Lemma ppi_inputs_nodup o type i : NoDup (ppi_inputs o type i).
Proof.
  unfold ppi_inputs, ARCH_TIMER_NS_EL1_IRQ, ARCH_TIMER_VIRT_IRQ,
    ARCH_TIMER_NS_EL2_IRQ, ARCH_TIMER_S_EL1_IRQ, ARCH_GIC_MAINT_IRQ, VIRTUAL_PMU_IRQ.
  destruct (_ || _); cbn [fmap list_fmap app map];
    repeat (constructor; [rewrite ?elem_of_cons, elem_of_nil; lia|]); constructor.
Qed.

Lemma cpu_inputs_nodup o type n : forall k,
  NoDup (concat (ppi_inputs o type <$> seqZ k (Z.of_nat n))) /\
  forall x, x ∈ concat (ppi_inputs o type <$> seqZ k (Z.of_nat n)) -> NUM_IRQS + k * GIC_INTERNAL <= x.
Proof.
  induction n as [|n IH]; intros k.
  { split; [constructor|]. intros x Hx. by apply elem_of_nil in Hx. }
  rewrite seqZ_cons by lia. replace (Z.pred (Z.of_nat (S n))) with (Z.of_nat n) by lia.
  destruct (IH (Z.succ k)) as [Hn Hx]. cbn [fmap list_fmap concat]. split.
  - apply NoDup_app. split; [apply ppi_inputs_nodup|]. split; [|done].
    intros x H1%ppi_inputs_range H2%Hx. unfold GIC_INTERNAL in *. lia.
  - intros x [H1%ppi_inputs_range|H2%Hx]%elem_of_app; unfold GIC_INTERNAL, GIC_NR_SGIS in *; lia.
Qed.

(** The outputs of all the CPUs: no two share one. *)
Lemma gic_outputs_spec o type i x :
  0 <= i < smp_cpus o -> x ∈ gic_outputs o type i -> x mod smp_cpus o = i /\ 0 <= x < 5 * smp_cpus o.
Proof.
  intros Hi Hx. assert (exists k, x = i + k * smp_cpus o /\ 0 <= k <= 4) as (k & -> & Hk).
  { unfold gic_outputs in Hx. destruct (negb (type =? 3) && virt o); cbn [app] in Hx;
      rewrite !elem_of_cons, elem_of_nil in Hx; destruct_or? Hx; try done;
      [exists 4|exists 0|exists 1|exists 2|exists 3|exists 0|exists 1|exists 2|exists 3]; lia. }
  rewrite Z.mod_add, Z.mod_small by lia. split; [done|nia].
Qed.

Lemma gic_outputs_nodup o type i : 0 < smp_cpus o -> NoDup (gic_outputs o type i).
Proof.
  intros Hn. unfold gic_outputs. destruct (_ && _); cbn [app];
    repeat (constructor; [rewrite ?elem_of_cons, elem_of_nil; lia|]); constructor.
Qed.

Lemma sysbus_irqs_nodup o type l :
  NoDup l -> (forall i, i ∈ l -> 0 <= i < smp_cpus o) -> NoDup (concat (gic_outputs o type <$> l)).
Proof.
  induction l as [|i l IH]; intros Hnd Hl; [constructor|].
  apply NoDup_cons in Hnd as [Hi Hnd]. cbn [fmap list_fmap concat]. apply NoDup_app.
  pose proof (Hl i ltac:(by left)) as Hr. split; [apply gic_outputs_nodup; lia|].
  split; [|apply IH; [done|]; intros j Hj; apply Hl; by right].
  intros x [Hx _]%(gic_outputs_spec _ _ _ _ Hr) Hin. apply list_elem_of_In, in_concat in Hin as (y & Hy & Hxy).
  apply list_elem_of_In, list_elem_of_fmap in Hy as (j & -> & Hj). apply list_elem_of_In in Hxy.
  destruct (gic_outputs_spec _ _ _ _ (Hl j ltac:(by right)) Hxy) as [Hm _]. congruence.
Qed.

Definition total (l : list Z) : Z := foldr Z.add 0 l.

(** Whether the host has an ITS the machine may use. *)
Definition has_its (o : VirtOptions) : bool :=
  its o && (tcg_its o || negb (bool_decide (its_class_name h = Some "arm-gicv3-its"%string))).

(** The MSI controller a machine gets: an ITS goes with a GICv3, a v2m frame
    with a GICv2. *)
Definition gic_msi (o : VirtOptions) (v : VirtGICType) : VirtMSIControllerType :=
  match v with
  | VIRT_GIC_VERSION_3 => if has_its o then VIRT_MSI_CTRL_ITS else VIRT_MSI_CTRL_NONE
  | VIRT_GIC_VERSION_2 => VIRT_MSI_CTRL_GICV2M
  | _ => VIRT_MSI_CTRL_NONE
  end.

Lemma create_gic_shape m o v :
  its_class_name h <> None ->
  exists g, create_gic h m o v = Ok g /\ num_cpu g = smp_cpus o /\
    is_gicv3 g = (gic_type_number v =? 3) /\ cpu_inputs g = ppi_inputs o (gic_type_number v) <$> seqZ 0 (smp_cpus o) /\
    sysbus_irqs g = gic_outputs o (gic_type_number v) <$> seqZ 0 (smp_cpus o) /\
    (v = VIRT_GIC_VERSION_3 -> redist_region_count g =
       let cap := size (m VIRT_GIC_REDIST) / GICV3_REDIST_SIZE in
       if cap <? smp_cpus o then
         [Z.min (smp_cpus o) cap;
          Z.min (smp_cpus o - Z.min (smp_cpus o) cap) (size (m VIRT_HIGH_GIC_REDIST2) / GICV3_REDIST_SIZE)]
       else [Z.min (smp_cpus o) cap]) /\
    (v = VIRT_GIC_VERSION_3 -> length (sysbus_mmio g) = S (length (redist_region_count g))) /\
    msi_controller g = gic_msi o v.
Proof.
  intros Hits. unfold create_gic, create_its, gic_msi, has_its, virt_gicv3_redist_region_count.
  destruct (its_class_name h) as [itsclass|]; [|done].
  destruct v; cbn [gic_type_number]; cbn [Z.eqb Pos.eqb andb];
    try (eexists; split; [reflexivity|]; repeat split; done).
  assert (bool_decide (Some itsclass = Some "arm-gicv3-its"%string) =
    bool_decide (itsclass = "arm-gicv3-its"%string)) as -> by (apply bool_decide_ext; naive_solver).
  destruct (its o), (bool_decide (itsclass = "arm-gicv3-its"%string)), (tcg_its o); cbn [andb orb negb];
    (eexists; split; [reflexivity|]);
    cbn [num_cpu is_gicv3 cpu_inputs sysbus_irqs redist_region_count sysbus_mmio msi_controller];
    destruct (_ <? smp_cpus o); by repeat split.
Qed.

(** The redistributors of a GICv3 whose CPUs are within the limit. *)
Lemma redists_fit m n :
  0 < n -> 0 <= size (m VIRT_GIC_REDIST) -> 0 <= size (m VIRT_HIGH_GIC_REDIST2) ->
  n <= size (m VIRT_GIC_REDIST) / GICV3_REDIST_SIZE + size (m VIRT_HIGH_GIC_REDIST2) / GICV3_REDIST_SIZE ->
  let cap := size (m VIRT_GIC_REDIST) / GICV3_REDIST_SIZE in
  let l := if cap <? n then
      [Z.min n cap; Z.min (n - Z.min n cap) (size (m VIRT_HIGH_GIC_REDIST2) / GICV3_REDIST_SIZE)]
    else [Z.min n cap] in
  total l = n /\
  Forall2 (fun c r => 0 <= c /\ c * GICV3_REDIST_SIZE <= size (m r)) l
    (take (length l) [VIRT_GIC_REDIST; VIRT_HIGH_GIC_REDIST2]).
Proof.
  intros Hn H0 H1 Hmax. cbn zeta. pose proof redist_size as Hr.
  pose proof (Z.mul_div_le (size (m VIRT_GIC_REDIST)) GICV3_REDIST_SIZE Hr) as L0.
  pose proof (Z.mul_div_le (size (m VIRT_HIGH_GIC_REDIST2)) GICV3_REDIST_SIZE Hr) as L1.
  pose proof (Z.div_pos _ GICV3_REDIST_SIZE H0 Hr). pose proof (Z.div_pos _ GICV3_REDIST_SIZE H1 Hr).
  destruct (Z.ltb_spec (size (m VIRT_GIC_REDIST) / GICV3_REDIST_SIZE) n); cbn; (split; [lia|]);
    repeat constructor; nia.
Qed.

(** C32: What [machvirt_init] checks is enough for [create_gic].  When the
    machine is accepted, a GICv3 has a redistributor for every CPU and each
    group fits its region of the memory map, one frame being mapped per group;
    any other GIC has at most the CPUs it can serve; no two private lines of
    the CPUs share an input of the GIC or a shared line, and no two CPUs an
    output; and the CPU type is a known one. *)
Theorem gic_fits m o firmware_loaded v v' p :
  machvirt_limits h m o firmware_loaded v = inr (v', p) ->
  0 < smp_cpus o <= max_cpus o -> 0 <= size (m VIRT_GIC_REDIST) -> 0 <= size (m VIRT_HIGH_GIC_REDIST2) ->
  its_class_name h <> None ->
  cpu_type o ∈ valid_cpus /\
  exists g, create_gic h m o v' = Ok g /\ num_cpu g = smp_cpus o /\
    NoDup (concat (cpu_inputs g)) /\
    (forall x, x ∈ concat (cpu_inputs g) -> NUM_IRQS <= x) /\
    NoDup (concat (sysbus_irqs g)) /\
    (v' = VIRT_GIC_VERSION_3 ->
       is_gicv3 g = true /\ total (redist_region_count g) = smp_cpus o /\
       Forall2 (fun n r => 0 <= n /\ n * GICV3_REDIST_SIZE <= size (m r)) (redist_region_count g)
         (take (length (redist_region_count g)) [VIRT_GIC_REDIST; VIRT_HIGH_GIC_REDIST2]) /\
       length (sysbus_mmio g) = S (length (redist_region_count g))) /\
    (v' <> VIRT_GIC_VERSION_3 -> is_gicv3 g = false /\ smp_cpus o <= GIC_NCPU).
Proof.
  unfold machvirt_limits, machvirt_gic, machvirt_cpus. intros Hrun Hcpus Hs0 Hs1 Hits.
  destruct (finalize_gic_version h (max_cpus o) v) as [|w]; [done|].
  destruct (cpu_type_valid (cpu_type o)) eqn:Hcpu; [|done]. cbn [negb] in Hrun.
  destruct (Z.ltb_spec (virt_max_cpus m w) (max_cpus o)) as [|Hmax]; [done|].
  destruct (virt o && _); [done|]. destruct (mte o && _); [done|]. injection Hrun as -> _.
  split; [by apply cpu_type_valid_spec|].
  destruct (create_gic_shape m o v' Hits) as (g & Hg & Hn & Hv3 & Hin & Hout & Hr & Hm & _). exists g.
  rewrite Hin, Hv3, Hout.
  destruct (cpu_inputs_nodup o (gic_type_number v') (Z.to_nat (smp_cpus o)) 0) as [Hnd Hge].
  rewrite Z2Nat.id in Hnd, Hge by lia. split; [done|]. split; [done|]. split; [done|]. split.
  { intros x Hx%Hge. unfold GIC_INTERNAL in Hx. lia. }
  split; [apply sysbus_irqs_nodup; [apply NoDup_seqZ|intros i Hi%elem_of_seqZ; lia]|].
  unfold virt_max_cpus in Hmax. split.
  - intros ->. split; [done|]. rewrite Hm, Hr by done.
    rewrite bool_decide_true in Hmax by done.
    destruct (redists_fit m (smp_cpus o)) as [Ht Hf]; [lia..|]. by split; [|split].
  - intros Hne. rewrite bool_decide_false in Hmax by done. split; [by destruct v'|lia].
Qed.
End theorems.

(** A host without KVM, and 100 of at most 120 CPUs. *)
Definition tcg_host : host := mkHost false false false 0 (Some "arm-gicv3-its"%string).
Definition few_cpus : VirtOptions := mkOptions false true false true true "cortex-a57-arm-cpu" 100 120.

(** A KVM host with its irqchip in userspace, asked for the host's GIC. *)
Definition userspace_irqchip : host := mkHost true false false 3 None.

Lemma finalize_gic_version_spec_witness :
  finalize_gic_version userspace_irqchip 8 VIRT_GIC_VERSION_HOST = inr VIRT_GIC_VERSION_HOST /\
  exists g, create_gic userspace_irqchip base_memmap few_cpus VIRT_GIC_VERSION_HOST = Ok g /\ revision g = 1.
Proof.
  split; [reflexivity|].
  pose proof (finalize_gic_version_spec userspace_irqchip 8 VIRT_GIC_VERSION_HOST ltac:(cbn; lia)) as H.
  destruct H as (_ & [H|[H|(_ & _ & _ & _ & H)]] & _); [discriminate..|].
  destruct (H base_memmap few_cpus) as (g & Hg & _ & Hr & _). exists g. split; [exact Hg|exact Hr].
Defined.

Lemma gic_fits_witness :
  machvirt_limits tcg_host base_memmap few_cpus true VIRT_GIC_VERSION_MAX =
    inr (VIRT_GIC_VERSION_3, PSCI_CONDUIT_SMC) /\
  exists g, create_gic tcg_host base_memmap few_cpus VIRT_GIC_VERSION_3 = Ok g /\
    redist_region_count g = [100].
Proof.
  split; [reflexivity|].
  destruct (gic_fits tcg_host base_memmap few_cpus true VIRT_GIC_VERSION_MAX VIRT_GIC_VERSION_3
    PSCI_CONDUIT_SMC) as (_ & g & Hg & _); [reflexivity|by cbn..|].
  exists g. split; [done|]. injection Hg as <-. reflexivity.
Defined.
