(* ===== verification/VirtIrq.v ===== *)
(** * Interrupt lines of the virt board: [virt.c]

    The table of shared lines, the lines each device is wired to, and the
    device tree's map from the pins of PCI slots to lines. *)

From S2P Require Import Prelude VirtBoard VirtGic.

(** Documented values of QEMU 6.2 and of the GIC binding. *)
Definition GPEX_NUM_IRQS : Z := 4.
Definition PCI_NUM_PINS : Z := 4.
Definition PCI_SLOT (devfn : Z) : Z := Z.land (Z.shiftr devfn 3) 0x1f.
Definition PCI_DEVFN (slot func : Z) : Z := Z.lor (Z.shiftl (Z.land slot 0x1f) 3) (Z.land func 7).
Definition GIC_FDT_IRQ_TYPE_SPI : Z := 0.
Definition GIC_FDT_IRQ_TYPE_PPI : Z := 1.
Definition GIC_FDT_IRQ_FLAGS_EDGE_LO_HI : Z := 1.
Definition GIC_FDT_IRQ_FLAGS_LEVEL_HI : Z := 4.

Definition PLATFORM_BUS_NUM_IRQS : Z := 64.

(** An index that the table does not name is zero: [VIRT_SECURE_GPIO], too. *)
Definition a15irqmap (r : virt_region) : Z :=
  match r with
  | VIRT_UART => 1
  | VIRT_UART2 => 10
  | VIRT_RTC => 2
  | VIRT_PCIE => 3
  | VIRT_GPIO => 7
  | VIRT_SECURE_UART => 8
  | VIRT_ACPI_GED => 9
  | VIRT_MMIO => 16
  | VIRT_GIC_V2M => 48
  | VIRT_SMMU => 74
  | VIRT_PLATFORM_BUS => 112
  | _ => 0
  end.

(** The lines a device takes from its entry on. *)
Definition irq_count (r : virt_region) : Z :=
  match r with
  | VIRT_PCIE => GPEX_NUM_IRQS
  | VIRT_MMIO => NUM_VIRTIO_TRANSPORTS
  | VIRT_GIC_V2M => NUM_GICV2M_SPIS
  | VIRT_SMMU => NUM_SMMU_IRQS
  | VIRT_PLATFORM_BUS => PLATFORM_BUS_NUM_IRQS
  | _ => 1
  end.

Definition irq_lines (r : virt_region) : list Z := seqZ (a15irqmap r) (irq_count r).

(** The devices that are wired to shared lines. *)
Definition wired : list virt_region :=
  [VIRT_UART; VIRT_UART2; VIRT_RTC; VIRT_PCIE; VIRT_GPIO; VIRT_SECURE_UART; VIRT_SECURE_GPIO;
   VIRT_ACPI_GED; VIRT_MMIO; VIRT_GIC_V2M; VIRT_SMMU; VIRT_PLATFORM_BUS].

(** [create_pcie_irq_map]: ten cells for each slot and pin, in its order. *)
Definition pcie_irq_row (gic_phandle first_irq devfn pin : Z) : list Z :=
  let irq_nr := first_irq + (pin + PCI_SLOT devfn) mod PCI_NUM_PINS in
  [Z.shiftl devfn 8; 0; 0; pin + 1; gic_phandle; 0; 0; GIC_FDT_IRQ_TYPE_SPI; irq_nr;
   GIC_FDT_IRQ_FLAGS_LEVEL_HI].

Definition pcie_irq_map (gic_phandle first_irq : Z) : list Z :=
  concat ((fun devfn => concat (pcie_irq_row gic_phandle first_irq devfn <$> [0; 1; 2; 3]))
            <$> [0; 0x8; 0x10; 0x18]).

(** The cells of [interrupt-map-mask], after the conversion to big-endian the
    first one is given, which on a little-endian host swaps its bytes. *)
Definition cpu_to_be16 (little_endian : bool) (x : Z) : Z :=
  if little_endian then Z.lor (Z.shiftl (Z.land x 0xff) 8) (Z.shiftr x 8) else x.

Definition pcie_irq_mask (little_endian : bool) : list Z :=
  [cpu_to_be16 little_endian (PCI_DEVFN 3 0); 0; 0; 0x7].

(** How an operating system reads the map: the row whose first cell and pin
    agree under the mask. *)
Fixpoint chunks (n : nat) (l : list Z) : list (list Z) :=
  match n with
  | O => []
  | S n => take 10 l :: chunks n (drop 10 l)
  end.

Definition row_matches (mask : list Z) (hi pin : Z) (row : list Z) : bool :=
  match row, mask with
  | h :: _ :: _ :: p :: _, mh :: _ :: _ :: mp :: _ =>
      (Z.land hi mh =? Z.land h mh) && (Z.land pin mp =? Z.land p mp)
  | _, _ => false
  end.

Definition map_lookup (mask map : list Z) (hi pin : Z) : option Z :=
  match list_find (fun r => row_matches mask hi pin r = true) (chunks (length map / 10) map) with
  | Some (_, row) => row !! 8%nat
  | None => None
  end.

(** The line that [create_pcie] wires a slot's pin to: the host bridge's own
    swizzle, then line [first_irq + i] for its output [i]. *)
Definition pcie_line (first_irq slot pin : Z) : Z := first_irq + (slot + (pin - 1)) mod PCI_NUM_PINS.

(** ** Theorems *)

Definition disjoint_b (l1 l2 : list Z) : bool := forallb (fun x => negb (bool_decide (x ∈ l2))) l1.

(** C39: The shared interrupt lines.  Every device, the added second UART
    included, has lines of its own within the 256 of the GIC, with one
    exception: those of the SMMU are among those the GICv2 hands out for
    messages. *)
Theorem irq_lines_disjoint r1 r2 :
  r1 ∈ wired -> r2 ∈ wired -> r1 <> r2 ->
  (forall x, x ∈ irq_lines r1 -> 0 <= x < NUM_IRQS) /\
  match r1, r2 with
  | VIRT_GIC_V2M, VIRT_SMMU => irq_lines r2 ⊆ irq_lines r1
  | VIRT_SMMU, VIRT_GIC_V2M => irq_lines r1 ⊆ irq_lines r2
  | _, _ => forall x, x ∈ irq_lines r1 -> x ∉ irq_lines r2
  end.
Proof.
  intros H1 H2 Hne. split.
  { intros x Hx%elem_of_seqZ. unfold NUM_IRQS.
    unfold irq_count, GPEX_NUM_IRQS, NUM_VIRTIO_TRANSPORTS, NUM_GICV2M_SPIS, NUM_SMMU_IRQS,
      PLATFORM_BUS_NUM_IRQS in Hx. destruct r1; cbn in Hx; lia. }
  assert (forall a b, disjoint_b (irq_lines a) (irq_lines b) = true ->
    forall x, x ∈ irq_lines a -> x ∉ irq_lines b) as Hd.
  { intros a b Hab x Ha Hb. unfold disjoint_b in Hab. rewrite forallb_forall in Hab.
    specialize (Hab x). rewrite bool_decide_true in Hab by done.
    discriminate Hab. by apply list_elem_of_In. }
  assert (forall a b, forallb (fun x => bool_decide (x ∈ irq_lines b)) (irq_lines a) = true ->
    irq_lines a ⊆ irq_lines b) as Hs.
  { intros a b Hab x Ha. rewrite forallb_forall in Hab. apply list_elem_of_In in Ha.
    by apply Hab, bool_decide_eq_true in Ha. }
  unfold wired in H1, H2. rewrite !elem_of_cons, elem_of_nil in H1, H2.
  destruct_or! H1; try done; destruct_or! H2; try done; subst; try done;
    first [apply Hs; vm_compute; reflexivity|apply Hd; vm_compute; reflexivity].
Qed.

(** The map looks at two bits of the slot. *)
Lemma map_lookup_slot mh map hi hi' pin :
  Z.land hi mh = Z.land hi' mh ->
  map_lookup [mh; 0; 0; 0x7] map hi pin = map_lookup [mh; 0; 0; 0x7] map hi' pin.
Proof.
  intros Hh. unfold map_lookup.
  assert (forall r, row_matches [mh; 0; 0; 0x7] hi pin r = row_matches [mh; 0; 0; 0x7] hi' pin r) as Hr.
  { intros r. unfold row_matches. destruct r as [|h [|a [|b [|p r]]]]; try done. by rewrite Hh. }
  induction (chunks (length map / 10) map) as [|r l IH]; [done|]. cbn [list_find]. rewrite Hr.
  case_decide; [done|]. revert IH.
  destruct (list_find (fun r => row_matches _ hi pin r = true) l) as [[i x]|],
    (list_find (fun r => row_matches _ hi' pin r = true) l) as [[j y]|]; done.
Qed.

Lemma slot_bits slot func :
  0 <= slot < 32 -> 0 <= func < 8 ->
  Z.land (Z.shiftl (PCI_DEVFN slot func) 8) 0x1800 = Z.land (Z.shiftl (PCI_DEVFN (slot mod 4) 0) 8) 0x1800 /\
  Z.land (Z.shiftl (PCI_DEVFN slot func) 8) 0x18 = Z.land (Z.shiftl (PCI_DEVFN 0 0) 8) 0x18.
Proof.
  intros Hs Hf.
  set (P s f := (Z.land (Z.shiftl (PCI_DEVFN s f) 8) 0x1800 =?
                 Z.land (Z.shiftl (PCI_DEVFN (s mod 4) 0) 8) 0x1800) &&
                (Z.land (Z.shiftl (PCI_DEVFN s f) 8) 0x18 =? Z.land (Z.shiftl (PCI_DEVFN 0 0) 8) 0x18)).
  assert (forallb (fun s => forallb (P s) (seqZ 0 8)) (seqZ 0 32) = true) as H by (vm_compute; reflexivity).
  rewrite forallb_forall in H. specialize (H slot). rewrite forallb_forall in H.
  assert (P slot func = true) as HP by (apply H; apply list_elem_of_In, elem_of_seqZ; lia).
  unfold P in HP. by rewrite andb_true_iff, !Z.eqb_eq in HP.
Qed.

(** C38: The device tree's interrupt map agrees with the wiring: for each slot,
    function and pin the row an operating system finds under the mask names the
    line the host bridge drives.  That holds on a little-endian host; on a
    big-endian one the mask misses the slot, and every slot is routed as slot 0
    is. *)
Theorem pcie_irq_map_routes gic_phandle first_irq slot func pin :
  0 <= slot < 32 -> 0 <= func < 8 -> 1 <= pin <= PCI_NUM_PINS ->
  map_lookup (pcie_irq_mask true) (pcie_irq_map gic_phandle first_irq)
    (Z.shiftl (PCI_DEVFN slot func) 8) pin = Some (pcie_line first_irq slot pin) /\
  map_lookup (pcie_irq_mask false) (pcie_irq_map gic_phandle first_irq)
    (Z.shiftl (PCI_DEVFN slot func) 8) pin = Some (pcie_line first_irq 0 pin).
Proof.
  unfold PCI_NUM_PINS. intros Hs Hf Hp. destruct (slot_bits slot func Hs Hf) as [Hle Hbe].
  change (pcie_irq_mask true) with [0x1800; 0; 0; 0x7]. change (pcie_irq_mask false) with [0x18; 0; 0; 0x7].
  rewrite (map_lookup_slot _ _ _ _ _ Hle), (map_lookup_slot _ _ _ _ _ Hbe).
  assert (pin = 1 \/ pin = 2 \/ pin = 3 \/ pin = 4) as Hpin by lia.
  assert (pcie_line first_irq slot pin = pcie_line first_irq (slot mod 4) pin) as ->.
  { unfold pcie_line, PCI_NUM_PINS. f_equal. by rewrite Zplus_mod_idemp_l. }
  pose proof (Z.mod_pos_bound slot 4).
  assert (slot mod 4 = 0 \/ slot mod 4 = 1 \/ slot mod 4 = 2 \/ slot mod 4 = 3) as Hsl by lia.
  destruct_or! Hpin; destruct_or! Hsl; rewrite Hsl, Hpin; split; vm_compute; reflexivity.
Qed.

(** ** Witnesses *)

Lemma irq_lines_disjoint_witness :
  10 ∈ irq_lines VIRT_UART2 /\ 10 ∉ irq_lines VIRT_ACPI_GED.
Proof.
  assert (10 ∈ irq_lines VIRT_UART2) as H by (apply elem_of_seqZ; by vm_compute).
  split; [exact H|]. revert H. apply (irq_lines_disjoint VIRT_UART2 VIRT_ACPI_GED);
    [apply list_elem_of_In; cbn; tauto..|done].
Defined.

Lemma pcie_irq_map_routes_witness :
  map_lookup (pcie_irq_mask true) (pcie_irq_map 0x8002 3) (Z.shiftl (PCI_DEVFN 6 0) 8) 3 =
    Some (pcie_line 3 6 3) /\ pcie_line 3 6 3 = 3.
Proof. split; [|reflexivity]. apply (pcie_irq_map_routes 0x8002 3 6 0 3); [done..|by split]. Defined.
