(* ===== verification/VirtFdt.v ===== *)
(** * The device tree under construction

    The operations of QEMU's [device_tree.c] that [virt.c] calls, as that code
    documents them: a missing node or one that is there already ends the
    program.  A path is the list of its components; libfdt takes a component
    without a unit address for the node of that name with one. *)

From S2P Require Import Prelude VirtBoard VirtGic.

Notation path := (list string).

Inductive propval : Type :=
| PEmpty
| PStr (s : string)
| PStrs (l : list string)
| PCells (l : list Z)
| PSized (l : list (Z * Z))
| PU64 (x : Z).

Notation props := (list (string * propval)).

(** Lower-case hexadecimal, as [PRIx64] prints. *)
Definition hex_digit (x : Z) : Ascii.ascii :=
  Ascii.ascii_of_nat (Z.to_nat (if x <? 10 then 48 + x else 87 + x)).

Fixpoint hex_go (fuel : nat) (x : Z) (acc : string) : string :=
  let acc := String (hex_digit (x mod 16)) acc in
  match fuel with
  | O => acc
  | S fuel => if x <? 16 then acc else hex_go fuel (x / 16) acc
  end.

Definition hex (x : Z) : string := hex_go 15 x EmptyString.

Fixpoint has_at (s : string) : bool :=
  match s with
  | EmptyString => false
  | String c r => bool_decide (Ascii.nat_of_ascii c = 64%nat) || has_at r
  end.

Definition comp_matches (want have : string) : bool :=
  bool_decide (want = have) || (negb (has_at want) && String.prefix (want +:+ "@") have).

Fixpoint path_matches (want have : path) : bool :=
  match want, have with
  | [], [] => true
  | w :: want, h :: have => comp_matches w h && path_matches want have
  | _, _ => false
  end.

(** What the board's construction does besides the tree. *)
Inductive container : Set := Sysmem | SecureSysmem | TagSysmem | SecureTagSysmem.

Inductive board_event : Type :=
| MapRegion (c : container) (at_ : Z) (what : string)
| WireLine (what : string) (line : Z)
| QdevProp (what name : string) (value : Z)
| CpuProp (cpu : Z) (name : string) (value : Z)
| CpuLink (cpu : Z) (name : string) (target : container)
| CpuRealized (cpu : Z)
| KvmPmuSetIrq (cpu irq : Z)
| KvmPmuInit (cpu : Z)
| KvmPvtimeInit (cpu at_ : Z)
(** RAM of that size behind a region *)
| RamRegion (what : string) (bytes : Z)
(** a device without a region of its own *)
| CreateDevice (what : string)
(** an output, by number, to an input of another device *)
| ConnectGpio (from : string) (pin : Z) (to input : string)
| NvdimmInitAcpi (at_ bit_width : Z)
| LoadKernel (ram nb_cpus loader_start : Z) (firmware_loaded : bool)
| PowerdownNotifier
| MachineDoneNotifier.

(** What the construction reads back. *)
Record board : Type := mkBoard {
  fdt : gmap path props;
  phandles : Z;
  chardevs : list Z;
  clock_phandle : Z;
  gic_phandle : Z;
  msi_phandle : Z;
  iommu_phandle : Z;
  msi_ctrl : VirtMSIControllerType;
}.

Notation boardM := (M board_event board).

Definition set_fdt (f : gmap path props) (b : board) : board :=
  mkBoard f (phandles b) (chardevs b) (clock_phandle b) (gic_phandle b) (msi_phandle b)
    (iommu_phandle b) (msi_ctrl b).
Definition set_phandles (x : Z) (b : board) : board :=
  mkBoard (fdt b) x (chardevs b) (clock_phandle b) (gic_phandle b) (msi_phandle b)
    (iommu_phandle b) (msi_ctrl b).
Definition set_chardevs (x : list Z) (b : board) : board :=
  mkBoard (fdt b) (phandles b) x (clock_phandle b) (gic_phandle b) (msi_phandle b)
    (iommu_phandle b) (msi_ctrl b).
Definition set_clock (x : Z) (b : board) : board :=
  mkBoard (fdt b) (phandles b) (chardevs b) x (gic_phandle b) (msi_phandle b) (iommu_phandle b)
    (msi_ctrl b).
Definition set_gic (x : Z) (b : board) : board :=
  mkBoard (fdt b) (phandles b) (chardevs b) (clock_phandle b) x (msi_phandle b) (iommu_phandle b)
    (msi_ctrl b).
Definition set_msi (x : Z) (b : board) : board :=
  mkBoard (fdt b) (phandles b) (chardevs b) (clock_phandle b) (gic_phandle b) x (iommu_phandle b)
    (msi_ctrl b).
Definition set_iommu (x : Z) (b : board) : board :=
  mkBoard (fdt b) (phandles b) (chardevs b) (clock_phandle b) (gic_phandle b) (msi_phandle b) x
    (msi_ctrl b).
Definition set_msi_ctrl (x : VirtMSIControllerType) (b : board) : board :=
  mkBoard (fdt b) (phandles b) (chardevs b) (clock_phandle b) (gic_phandle b) (msi_phandle b)
    (iommu_phandle b) x.

(** ** Operations *)

(** [findnode_nofail]: the node a path names. *)
Definition fdt_find (f : gmap path props) (p : path) : option path :=
  match f !! p with
  | Some _ => Some p
  | None =>
      match list_find (fun kv => path_matches p kv.1 = true) (map_to_list f) with
      | Some (_, (q, _)) => Some q
      | None => None
      end
  end.

Definition find_node (p : path) : boardM path :=
  f <- gets fdt ;; of_opt (ExitProcess 1) (fdt_find f p).

Definition put_prop (name : string) (v : propval) (l : props) : props :=
  (name, v) :: filter (fun kv => kv.1 <> name) l.

Definition qemu_fdt_setprop (p : path) (name : string) (v : propval) : boardM unit :=
  q <- find_node p ;;
  modify (fun b => set_fdt (alter (put_prop name v) q (fdt b)) b).

(** A sequence of [qemu_fdt_setprop_...] on one node. *)
Definition setprops (p : path) (l : props) : boardM unit :=
  for_each l (fun kv => qemu_fdt_setprop p kv.1 kv.2).

(** A child of [q] that libfdt takes for one of that name. *)
Definition child_named (q : path) (name : string) (r : path) : bool :=
  match r with
  | [] => false
  | _ => bool_decide (removelast r = q) && comp_matches name (List.last r EmptyString)
  end.

Definition has_subnode (f : gmap path props) (q : path) (name : string) : bool :=
  existsb (fun kv => child_named q name kv.1) (map_to_list f).

Definition qemu_fdt_add_subnode (p : path) : boardM unit :=
  match p with
  | [] => fail (ExitProcess 1)
  | _ =>
      q <- find_node (removelast p) ;;
      let name := List.last p EmptyString in
      f <- gets fdt ;;
      if has_subnode f q name then fail (ExitProcess 1)
      else modify (fun b => set_fdt (<[q ++ [name] := []]> (fdt b)) b)
  end.

(** [qemu_fdt_add_path]: the components that are missing. *)
Fixpoint add_path_go (pre p : path) : boardM unit :=
  match p with
  | [] => ret tt
  | c :: p =>
      f <- gets fdt ;;
      match fdt_find f (pre ++ [c]) with
      | Some q => add_path_go q p
      | None =>
          modify (fun b => set_fdt (<[pre ++ [c] := []]> (fdt b)) b) ;;
          add_path_go (pre ++ [c]) p
      end
  end.
Definition qemu_fdt_add_path (p : path) : boardM unit := add_path_go [] p.

Definition qemu_fdt_alloc_phandle : boardM Z :=
  x <- gets phandles ;; modify (set_phandles (x + 1)) ;; ret x.

Definition get_prop (name : string) (l : props) : option propval :=
  match list_find (fun kv => kv.1 = name) l with Some (_, kv) => Some kv.2 | None => None end.

(** [qemu_fdt_setprop_phandle]: the target's phandle, which must be there. *)
Definition qemu_fdt_setprop_phandle (p : path) (name : string) (target : path) : boardM unit :=
  q <- find_node target ;;
  f <- gets fdt ;;
  v <- of_opt (ExitProcess 1) (f !! q ≫= get_prop "phandle") ;;
  qemu_fdt_setprop p name v.

Definition map_region (c : container) (at_ : Z) (what : string) : boardM unit :=
  emit (MapRegion c at_ what).
Definition wire_line (what : string) (line : Z) : boardM unit := emit (WireLine what line).

(** [sysbus_create_simple(name, base, irq)]. *)
Definition sysbus_create_simple (what : string) (at_ line : Z) : boardM unit :=
  map_region Sysmem at_ what ;; wire_line what line.

(** ** Lemmas *)

Lemma get_prop_put n name v l :
  get_prop n (put_prop name v l) = if decide (name = n) then Some v else get_prop n l.
Proof.
  unfold get_prop, put_prop. cbn [list_find]. cbn [fst].
  destruct (decide (name = n)) as [->|Hne]; [done|].
  assert (match list_find (fun kv : string * propval => kv.1 = n) (filter (fun kv => kv.1 <> name) l) with
    Some (_, kv) => Some kv.2 | None => None end = match list_find (fun kv => kv.1 = n) l with
    Some (_, kv) => Some kv.2 | None => None end) as <-.
  { induction l as [|[k x] l IH]; [done|]. cbn [list_find fst].
    destruct (decide (k = name)) as [->|Hk].
    - rewrite filter_cons_False by (cbn; tauto). rewrite decide_False by done. rewrite IH.
      destruct (list_find _ l) as [[? ?]|]; done.
    - rewrite filter_cons_True by done. cbn [list_find fst]. case_decide; [done|].
      destruct (list_find _ (filter _ l)) as [[? ?]|], (list_find _ l) as [[? ?]|]; done. }
  destruct (list_find _ (filter _ l)) as [[? ?]|]; done.
Qed.

(** A path finds itself, and what it finds is a node that matches it. *)
Lemma comp_matches_refl a : comp_matches a a = true.
Proof. unfold comp_matches. by rewrite bool_decide_true. Qed.

Lemma path_matches_refl p : path_matches p p = true.
Proof. induction p as [|a p IH]; [done|]. cbn. by rewrite comp_matches_refl, IH. Qed.

Lemma path_matches_app p q a b :
  length p = length q -> path_matches (p ++ [a]) (q ++ [b]) = path_matches p q && comp_matches a b.
Proof.
  revert q. induction p as [|x p IH]; intros [|y q] Hl; try done; cbn in *.
  - by rewrite andb_true_r.
  - rewrite IH by lia. by rewrite andb_assoc.
Qed.

(** A name with a unit address is only its own. *)
Lemma comp_matches_at a b : has_at a = true -> comp_matches a b = true -> a = b.
Proof.
  intros Ha. unfold comp_matches. rewrite Ha. cbn [negb andb]. rewrite orb_false_r.
  apply bool_decide_eq_true.
Qed.

Lemma child_named_spec q name r :
  child_named q name r = true -> exists b, r = q ++ [b] /\ comp_matches name b = true.
Proof.
  destruct r as [|x r]; [done|]. unfold child_named. intros [Hq%bool_decide_eq_true Hm]%andb_true_iff.
  exists (List.last (x :: r) EmptyString). split; [|done]. rewrite <- Hq. by apply app_removelast_last.
Qed.

(** No node has the name of a child of [q]. *)
Definition free_for (f : gmap path props) (q : path) (name : string) : Prop :=
  forall r, is_Some (f !! r) -> child_named q name r = false.

Lemma has_subnode_free f q name : free_for f q name -> has_subnode f q name = false.
Proof.
  intros Hf. unfold has_subnode. destruct (existsb _ _) eqn:E; [|done].
  apply existsb_exists in E as ([r l] & Hin & Hc). cbn in Hc.
  apply list_elem_of_In, elem_of_map_to_list in Hin. by rewrite Hf in Hc by by eexists.
Qed.

Lemma free_for_at f q name : has_at name = true -> f !! (q ++ [name]) = None -> free_for f q name.
Proof.
  intros Ha Hn r [l Hr]. apply not_true_iff_false. intros (b & -> & Hb)%child_named_spec.
  apply comp_matches_at in Hb; [|done]. subst b. by rewrite Hn in Hr.
Qed.

Lemma has_at_app a b : has_at (a +:+ b) = has_at a || has_at b.
Proof.
  induction a as [|x a IH]; [done|]. change (String x a +:+ b) with (String x (a +:+ b)).
  cbn [has_at]. by rewrite IH, orb_assoc.
Qed.

(** Adding a node below [q]. *)
Lemma add_subnode_run b q name :
  is_Some (fdt b !! q) -> free_for (fdt b) q name ->
  qemu_fdt_add_subnode (q ++ [name]) b = Ok (tt, set_fdt (<[q ++ [name] := []]> (fdt b)) b, []).
Proof.
  intros [l Hq] Hf. unfold qemu_fdt_add_subnode.
  destruct (q ++ [name]) as [|x p] eqn:E; [by destruct q|]. rewrite <- E.
  rewrite removelast_last, last_last.
  assert (find_node q b = Ok (q, b, [])) as Hfind.
  { unfold find_node, bind, gets, of_opt, fdt_find. by rewrite Hq. }
  erewrite bind_ok by exact Hfind. unfold gets. erewrite (bind_ok _ _ b) by reflexivity.
  by rewrite has_subnode_free.
Qed.
