(* ===== verification/VirtDevices.v ===== *)
(** * The devices of the virt board: [virt.c]

    Each [create_...] and [fdt_add_...] function in the order of its calls: what
    it maps, the lines it wires and the nodes it adds to the device tree.  What
    the functions only read is one record, what the accelerator and the CPU
    model answer and which character devices QEMU accepts included. *)

From S2P Require Import Prelude VirtBoard VirtGic VirtIrq VirtFdt.

Inductive VirtIOMMUType : Set := VIRT_IOMMU_NONE | VIRT_IOMMU_SMMUV3 | VIRT_IOMMU_VIRTIO.

(** Documented values of the GIC and PCI bindings and of Linux's input codes. *)
Definition GIC_FDT_IRQ_PPI_CPU_START : Z := 8.
Definition GIC_FDT_IRQ_PPI_CPU_WIDTH : Z := 8.
Definition FDT_PCI_RANGE_IOPORT : Z := 0x01000000.
Definition FDT_PCI_RANGE_MMIO : Z := 0x02000000.
Definition FDT_PCI_RANGE_MMIO_64BIT : Z := 0x03000000.
Definition PCIE_MMCFG_SIZE_MIN : Z := 0x100000.
Definition KEY_POWER : Z := 116.
Definition ARM_AFF3_MASK : Z := 0xff00000000.

Definition SECURE_GPIO_POWEROFF : Z := 0.
Definition SECURE_GPIO_RESET : Z := 1.

Record board_cfg : Type := mkCfg {
  memmap : virt_region -> MemMapEntry;
  opts : VirtOptions;
  gic_version : VirtGICType;
  psci_conduit : psci;
  iommu : VirtIOMMUType;
  highmem : bool;
  highmem_ecam : bool;
  firmware_loaded : bool;
  acpi_enabled : bool;
  highest_gpa : Z;
  device_memory_base : option Z;
  (** the machine class *)
  claim_edge_triggered_timers : bool;
  no_cpu_topology : bool;
  no_secure_gpio : bool;
  has_ged : bool;
  kvm_no_adjvtime : bool;
  no_kvm_steal_time : bool;
  no_pmu : bool;
  (** the CPUs *)
  cpu_aarch64 : Z -> bool;
  cpu_has : string -> bool;
  numa_pre_plug_ok : Z -> bool;
  steal_time : bool;
  arm_pamax : Z;
  feature_v8 : bool;
  feature_pmu : bool;
  pmu : bool;
  dtb_compatible : string;
  mp_affinity : Z -> Z;
  node_id : Z -> option Z;
  cores : Z;
  threads : Z;
  (** the outside *)
  device_tree_ok : bool;
  kaslr_seed : string -> option Z;
  numa_distance : option (list (list Z));
  serial_hd : Z -> option Z;
  real_host_page_size : Z;
  the_host : host;
  little_endian_host : bool;
  (** the memory asked for, and whether NVDIMMs are *)
  machine : MachineState;
  nvdimm_enabled : bool;
  (** [qdev_prop_set_chr]: whether a device may be given a character device when
      those of the list have been given away already *)
  chardev_accepts : list Z -> Z -> bool;
  chardev_mux : Z -> bool;
}.

Section devices.
Context `{QH : QemuHeaders} (c : board_cfg).

Definition reg_of (r : virt_region) : Z * Z := (base (memmap c r), size (memmap c r)).

(** The node of a device by its address: ["/name@%" PRIx64]. *)
Definition node_at (name : string) (a : Z) : string := name +:+ "@" +:+ hex a.

(** ** The root, the clock and the distances *)

Definition create_kaslr_seed (node : string) : boardM unit :=
  match kaslr_seed c node with
  | None => ret tt
  | Some seed => qemu_fdt_setprop [node] "kaslr-seed" (PU64 seed)
  end.

(** The rows of [matrix], three cells for each pair of nodes. *)
Definition distance_matrix (d : list (list Z)) : list Z :=
  concat (imap (fun i row => concat (imap (fun j x => [Z.of_nat i; Z.of_nat j; x]) row)) d).

Definition create_fdt : boardM unit :=
  if negb (device_tree_ok c) then fail (ExitProcess 1)
  else
    modify (set_fdt {[ [] := [] ]}) ;;
    setprops [] [("compatible"%string, PStr "linux,dummy-virt"); ("#address-cells"%string, PCells [0x2]);
                 ("#size-cells"%string, PCells [0x2])] ;;
    qemu_fdt_add_subnode ["chosen"%string] ;;
    create_kaslr_seed "chosen" ;;
    when (secure (opts c))
      (qemu_fdt_add_subnode ["secure-chosen"%string] ;; create_kaslr_seed "secure-chosen") ;;
    clock <- qemu_fdt_alloc_phandle ;;
    modify (set_clock clock) ;;
    qemu_fdt_add_subnode ["apb-pclk"%string] ;;
    setprops ["apb-pclk"%string]
      [("compatible"%string, PStr "fixed-clock"); ("#clock-cells"%string, PCells [0x0]);
       ("clock-frequency"%string, PCells [24000000]); ("clock-output-names"%string, PStr "clk24mhz");
       ("phandle"%string, PCells [clock])] ;;
    match numa_distance c with
    | None => ret tt
    | Some d =>
        qemu_fdt_add_subnode ["distance-map"%string] ;;
        setprops ["distance-map"%string]
          [("compatible"%string, PStr "numa-distance-map-v1");
           ("distance-matrix"%string, PCells (distance_matrix d))]
    end.

(** ** Timers, CPUs, the interrupt controller and the PMU *)

(** [deposit32(value, start, length, fieldval)]. *)
Definition deposit32 (value start len fieldval : Z) : Z :=
  let mask := wrap 32 (Z.shiftl (Z.ones len) start) in
  Z.lor (clear_bits value mask) (Z.land (Z.shiftl fieldval start) mask).

(** [irqflags] of a private interrupt; a GICv2 names the CPUs it goes to. *)
Definition ppi_flags (flags : Z) : Z :=
  if bool_decide (gic_version c = VIRT_GIC_VERSION_2) then
    deposit32 flags GIC_FDT_IRQ_PPI_CPU_START GIC_FDT_IRQ_PPI_CPU_WIDTH
      (Z.shiftl 1 (smp_cpus (opts c)) - 1)
  else flags.

Definition fdt_add_timer_nodes : boardM unit :=
  let irqflags := ppi_flags (if claim_edge_triggered_timers c then GIC_FDT_IRQ_FLAGS_EDGE_LO_HI
                             else GIC_FDT_IRQ_FLAGS_LEVEL_HI) in
  qemu_fdt_add_subnode ["timer"%string] ;;
  setprops ["timer"%string]
    [("compatible"%string, if feature_v8 c then PStrs ["arm,armv8-timer"; "arm,armv7-timer"]%string
                           else PStr "arm,armv7-timer");
     ("always-on"%string, PEmpty);
     ("interrupts"%string, PCells
        [GIC_FDT_IRQ_TYPE_PPI; ARCH_TIMER_S_EL1_IRQ; irqflags;
         GIC_FDT_IRQ_TYPE_PPI; ARCH_TIMER_NS_EL1_IRQ; irqflags;
         GIC_FDT_IRQ_TYPE_PPI; ARCH_TIMER_VIRT_IRQ; irqflags;
         GIC_FDT_IRQ_TYPE_PPI; ARCH_TIMER_NS_EL2_IRQ; irqflags])].

Definition cpu_node (cpu : Z) : path := ["cpus"; "cpu@" +:+ pretty cpu]%string.

(** Two cells if an affinity has its upper half, one otherwise. *)
Definition cpu_addr_cells : Z :=
  if existsb (fun cpu => negb (Z.land (mp_affinity c cpu) ARM_AFF3_MASK =? 0)) (seqZ 0 (smp_cpus (opts c)))
  then 2 else 1.

Definition cpu_props (cpu : Z) : props :=
  [("device_type"%string, PStr "cpu"); ("compatible"%string, PStr (dtb_compatible c))] ++
  (if negb (match psci_conduit c with PSCI_CONDUIT_DISABLED => true | _ => false end) &&
      (1 <? smp_cpus (opts c))
   then [("enable-method"%string, PStr "psci")] else []) ++
  [("reg"%string, if cpu_addr_cells =? 2 then PU64 (mp_affinity c cpu)
                  else PCells [wrap 32 (mp_affinity c cpu)])] ++
  match node_id c cpu with Some n => [("numa-node-id"%string, PCells [n])] | None => [] end.

Definition add_cpu_node (cpu : Z) : boardM unit :=
  qemu_fdt_add_subnode (cpu_node cpu) ;;
  setprops (cpu_node cpu) (cpu_props cpu) ;;
  when (negb (no_cpu_topology c))
    (h <- qemu_fdt_alloc_phandle ;; qemu_fdt_setprop (cpu_node cpu) "phandle" (PCells [h])).

Definition map_node (cpu : Z) : path :=
  if 1 <? threads c then
    ["cpus"; "cpu-map"; "socket" +:+ pretty (cpu / (cores c * threads c)); "cluster0";
     "core" +:+ pretty (cpu / threads c mod cores c); "thread" +:+ pretty (cpu mod threads c)]%string
  else
    ["cpus"; "cpu-map"; "socket" +:+ pretty (cpu / cores c); "cluster0";
     "core" +:+ pretty (cpu mod cores c)]%string.

Definition add_map_node (cpu : Z) : boardM unit :=
  qemu_fdt_add_path (map_node cpu) ;;
  qemu_fdt_setprop_phandle (map_node cpu) "cpu" (cpu_node cpu).

Definition fdt_add_cpu_nodes : boardM unit :=
  qemu_fdt_add_subnode ["cpus"%string] ;;
  setprops ["cpus"%string]
    [("#address-cells"%string, PCells [cpu_addr_cells]); ("#size-cells"%string, PCells [0x0])] ;;
  for_each (rev (seqZ 0 (smp_cpus (opts c)))) add_cpu_node ;;
  when (negb (no_cpu_topology c))
    (qemu_fdt_add_subnode ["cpus"; "cpu-map"]%string ;;
     for_each (rev (seqZ 0 (smp_cpus (opts c)))) add_map_node).

(** The node of the ITS or of the v2m frame, under ["/intc"]. *)
Definition add_msi_node (name compat : string) (r : virt_region) : boardM unit :=
  let node := ["intc"%string; node_at name (base (memmap c r))] in
  h <- qemu_fdt_alloc_phandle ;;
  modify (set_msi h) ;;
  qemu_fdt_add_subnode node ;;
  setprops node
    [("compatible"%string, PStr compat); ("msi-controller"%string, PEmpty);
     ("reg"%string, PSized [reg_of r]); ("phandle"%string, PCells [h])].

Definition fdt_add_its_gic_node : boardM unit := add_msi_node "its" "arm,gic-v3-its" VIRT_GIC_ITS.
Definition fdt_add_v2m_gic_node : boardM unit := add_msi_node "v2m" "arm,gic-v2m-frame" VIRT_GIC_V2M.

Definition maintenance : string * propval :=
  ("interrupts"%string, PCells [GIC_FDT_IRQ_TYPE_PPI; ARCH_GIC_MAINT_IRQ; GIC_FDT_IRQ_FLAGS_LEVEL_HI]).

Definition fdt_add_gic_node : boardM unit :=
  h <- qemu_fdt_alloc_phandle ;;
  modify (set_gic h) ;;
  qemu_fdt_setprop [] "interrupt-parent" (PCells [h]) ;;
  let node := [node_at "intc" (base (memmap c VIRT_GIC_DIST))] in
  qemu_fdt_add_subnode node ;;
  setprops node
    [("#interrupt-cells"%string, PCells [3]); ("interrupt-controller"%string, PEmpty);
     ("#address-cells"%string, PCells [0x2]); ("#size-cells"%string, PCells [0x2]);
     ("ranges"%string, PEmpty)] ;;
  (if bool_decide (gic_version c = VIRT_GIC_VERSION_3) then
     let nb_redist_regions := virt_gicv3_redist_region_count (memmap c) (smp_cpus (opts c)) in
     setprops node
       [("compatible"%string, PStr "arm,gic-v3");
        ("#redistributor-regions"%string, PCells [nb_redist_regions]);
        ("reg"%string, PSized (reg_of <$>
           if nb_redist_regions =? 1 then [VIRT_GIC_DIST; VIRT_GIC_REDIST]
           else [VIRT_GIC_DIST; VIRT_GIC_REDIST; VIRT_HIGH_GIC_REDIST2]))] ;;
     when (virt (opts c)) (setprops node [maintenance])
   else
     qemu_fdt_setprop node "compatible" (PStr "arm,cortex-a15-gic") ;;
     if negb (virt (opts c)) then
       qemu_fdt_setprop node "reg" (PSized (reg_of <$> [VIRT_GIC_DIST; VIRT_GIC_CPU]))
     else
       setprops node
         [("reg"%string, PSized (reg_of <$> [VIRT_GIC_DIST; VIRT_GIC_CPU; VIRT_GIC_HYP; VIRT_GIC_VCPU]));
          maintenance]) ;;
  qemu_fdt_setprop node "phandle" (PCells [h]).

Definition fdt_add_pmu_nodes : boardM unit :=
  if negb (feature_pmu c) then (if pmu c then fail AssertFail else ret tt)
  else
    qemu_fdt_add_subnode ["pmu"%string] ;;
    when (feature_v8 c)
      (setprops ["pmu"%string]
         [("compatible"%string, PStrs ["arm,armv8-pmuv3"%string]);
          ("interrupts"%string, PCells [GIC_FDT_IRQ_TYPE_PPI; VIRTUAL_PMU_IRQ;
                                        ppi_flags GIC_FDT_IRQ_FLAGS_LEVEL_HI])]).

Definition wire_lines (what : string) (first n : Z) : boardM unit :=
  for_each (seqZ first n) (wire_line what).

Definition create_v2m : boardM unit :=
  map_region Sysmem (base (memmap c VIRT_GIC_V2M)) "arm-gicv2m" ;;
  emit (QdevProp "arm-gicv2m" "base-spi" (a15irqmap VIRT_GIC_V2M)) ;;
  emit (QdevProp "arm-gicv2m" "num-spi" NUM_GICV2M_SPIS) ;;
  wire_lines "arm-gicv2m" (a15irqmap VIRT_GIC_V2M) NUM_GICV2M_SPIS ;;
  fdt_add_v2m_gic_node ;;
  modify (set_msi_ctrl VIRT_MSI_CTRL_GICV2M).

(** The GIC as [VirtGic.create_gic] configures it, then its nodes. *)
Definition build_gic : boardM unit :=
  match create_gic (the_host c) (memmap c) (opts c) (gic_version c) with
  | Stop f => fail f
  | Ok g =>
      emit (QdevProp "gic" "revision" (revision g)) ;;
      emit (QdevProp "gic" "num-cpu" (num_cpu g)) ;;
      emit (QdevProp "gic" "num-irq" (num_irq g)) ;;
      for_each (sysbus_mmio g) (fun m => map_region Sysmem m.2 "gic") ;;
      for_each (concat (cpu_inputs g)) (wire_line "cpu") ;;
      fdt_add_gic_node ;;
      match msi_controller g with
      | VIRT_MSI_CTRL_ITS =>
          map_region Sysmem (base (memmap c VIRT_GIC_ITS)) "its" ;;
          fdt_add_its_gic_node ;;
          modify (set_msi_ctrl VIRT_MSI_CTRL_ITS)
      | VIRT_MSI_CTRL_GICV2M => create_v2m
      | VIRT_MSI_CTRL_NONE => ret tt
      end
  end.

(** ** Serial lines, clock and GPIO *)

(** What QEMU documents of character devices: one that nobody has is accepted;
    one that is not multiplexed has one user only. *)
Record chardev_laws : Prop := mkChardevLaws {
  chardev_free used x : x ∉ used -> chardev_accepts c used x = true;
  chardev_exclusive used x : chardev_mux c x = false -> x ∈ used -> chardev_accepts c used x = false;
}.

(** A refusal is an error of the caller: [&error_abort]. *)
Definition set_chardev (chr : option Z) : boardM unit :=
  match chr with
  | None => ret tt
  | Some x =>
      used <- gets chardevs ;;
      if chardev_accepts c used x then modify (fun b => set_chardevs (x :: chardevs b) b)
      else fail AssertFail
  end.

Definition spi_level (line : Z) : propval :=
  PCells [GIC_FDT_IRQ_TYPE_SPI; line; GIC_FDT_IRQ_FLAGS_LEVEL_HI].

Definition secure_status (node : path) : boardM unit :=
  setprops node [("status"%string, PStr "disabled"); ("secure-status"%string, PStr "okay")].

Definition create_uart (uart : virt_region) (mem : container) (chr : option Z) : boardM unit :=
  let base_ := base (memmap c uart) in
  let irq := a15irqmap uart in
  set_chardev chr ;;
  map_region mem base_ "pl011" ;;
  wire_line "pl011" irq ;;
  let node := [node_at "pl011" base_] in
  qemu_fdt_add_subnode node ;;
  clock <- gets clock_phandle ;;
  setprops node
    [("compatible"%string, PStrs ["arm,pl011"; "arm,primecell"]%string);
     ("reg"%string, PSized [reg_of uart]); ("interrupts"%string, spi_level irq);
     ("clocks"%string, PCells [clock; clock]);
     ("clock-names"%string, PStrs ["uartclk"; "apb_pclk"]%string)] ;;
  if bool_decide (uart = VIRT_UART) then
    qemu_fdt_setprop ["chosen"%string] "stdout-path" (PStr ("/" +:+ node_at "pl011" base_))
  else if bool_decide (uart = VIRT_SECURE_UART) then
    secure_status node ;;
    qemu_fdt_setprop ["secure-chosen"%string] "stdout-path" (PStr ("/" +:+ node_at "pl011" base_))
  else ret tt.

Definition create_rtc : boardM unit :=
  let irq := a15irqmap VIRT_RTC in
  let node := [node_at "pl031" (base (memmap c VIRT_RTC))] in
  sysbus_create_simple "pl031" (base (memmap c VIRT_RTC)) irq ;;
  qemu_fdt_add_subnode node ;;
  clock <- gets clock_phandle ;;
  setprops node
    [("compatible"%string, PStrs ["arm,pl031"; "arm,primecell"]%string);
     ("reg"%string, PSized [reg_of VIRT_RTC]); ("interrupts"%string, spi_level irq);
     ("clocks"%string, PCells [clock]); ("clock-names"%string, PStr "apb_pclk")].

Definition create_gpio_keys (phandle : Z) : boardM unit :=
  emit (CreateDevice "gpio-key") ;;
  emit (ConnectGpio "gpio-key" 0 "pl061" "3") ;;
  qemu_fdt_add_subnode ["gpio-keys"%string] ;;
  setprops ["gpio-keys"%string]
    [("compatible"%string, PStr "gpio-keys"); ("#size-cells"%string, PCells [0]);
     ("#address-cells"%string, PCells [1])] ;;
  qemu_fdt_add_subnode ["gpio-keys"; "poweroff"]%string ;;
  setprops ["gpio-keys"; "poweroff"]%string
    [("label"%string, PStr "GPIO Key Poweroff"); ("linux,code"%string, PCells [KEY_POWER]);
     ("gpios"%string, PCells [phandle; 3; 0])].

Definition secure_gpio_node (name : string) (phandle pin : Z) : boardM unit :=
  qemu_fdt_add_subnode [name] ;;
  setprops [name] [("compatible"%string, PStr name); ("gpios"%string, PCells [phandle; pin; 0])] ;;
  secure_status [name].

Definition create_secure_gpio_pwr (phandle : Z) : boardM unit :=
  emit (CreateDevice "gpio-pwr") ;;
  emit (ConnectGpio "pl061" SECURE_GPIO_RESET "gpio-pwr" "reset") ;;
  emit (ConnectGpio "pl061" SECURE_GPIO_POWEROFF "gpio-pwr" "shutdown") ;;
  secure_gpio_node "gpio-poweroff" phandle SECURE_GPIO_POWEROFF ;;
  secure_gpio_node "gpio-restart" phandle SECURE_GPIO_RESET.

Definition create_gpio_devices (gpio : virt_region) (mem : container) : boardM unit :=
  let irq := a15irqmap gpio in
  let node := [node_at "pl061" (base (memmap c gpio))] in
  emit (QdevProp "pl061" "pullups" 0) ;;
  emit (QdevProp "pl061" "pulldowns" 0xff) ;;
  map_region mem (base (memmap c gpio)) "pl061" ;;
  wire_line "pl061" irq ;;
  phandle <- qemu_fdt_alloc_phandle ;;
  qemu_fdt_add_subnode node ;;
  clock <- gets clock_phandle ;;
  setprops node
    [("reg"%string, PSized [reg_of gpio]); ("compatible"%string, PStrs ["arm,pl061"; "arm,primecell"]%string);
     ("#gpio-cells"%string, PCells [2]); ("gpio-controller"%string, PEmpty);
     ("interrupts"%string, spi_level irq); ("clocks"%string, PCells [clock]);
     ("clock-names"%string, PStr "apb_pclk"); ("phandle"%string, PCells [phandle])] ;;
  when (negb (bool_decide (gpio = VIRT_GPIO))) (secure_status node) ;;
  if bool_decide (gpio = VIRT_GPIO) then create_gpio_keys phandle else create_secure_gpio_pwr phandle.

(** Documented bits of ACPI's generic event device. *)
Definition ACPI_GED_MEM_HOTPLUG_EVT : Z := 0x1.
Definition ACPI_GED_PWR_DOWN_EVT : Z := 0x2.
Definition ACPI_GED_NVDIMM_HOTPLUG_EVT : Z := 0x4.

Definition create_acpi_ged : boardM unit :=
  let event := ACPI_GED_PWR_DOWN_EVT in
  let event := if negb (ram_slots (machine c) =? 0) then Z.lor event ACPI_GED_MEM_HOTPLUG_EVT else event in
  let event := if nvdimm_enabled c then Z.lor event ACPI_GED_NVDIMM_HOTPLUG_EVT else event in
  emit (QdevProp "acpi-ged" "ged-event" event) ;;
  map_region Sysmem (base (memmap c VIRT_ACPI_GED)) "acpi-ged" ;;
  map_region Sysmem (base (memmap c VIRT_PCDIMM_ACPI)) "acpi-ged" ;;
  wire_line "acpi-ged" (a15irqmap VIRT_ACPI_GED).

(** ** virtio, flash, fw_cfg, the platform bus and secure memory *)

Definition virtio_base (i : Z) : Z := base (memmap c VIRT_MMIO) + i * size (memmap c VIRT_MMIO).

Definition add_virtio_node (i : Z) : boardM unit :=
  let node := [node_at "virtio_mmio" (virtio_base i)] in
  qemu_fdt_add_subnode node ;;
  setprops node
    [("compatible"%string, PStr "virtio,mmio");
     ("reg"%string, PSized [(virtio_base i, size (memmap c VIRT_MMIO))]);
     ("interrupts"%string,
        PCells [GIC_FDT_IRQ_TYPE_SPI; a15irqmap VIRT_MMIO + i; GIC_FDT_IRQ_FLAGS_EDGE_LO_HI]);
     ("dma-coherent"%string, PEmpty)].

Definition create_virtio_devices : boardM unit :=
  for_each (seqZ 0 NUM_VIRTIO_TRANSPORTS)
    (fun i => sysbus_create_simple "virtio-mmio" (virtio_base i) (a15irqmap VIRT_MMIO + i)) ;;
  for_each (rev (seqZ 0 NUM_VIRTIO_TRANSPORTS)) add_virtio_node.

Definition VIRT_FLASH_SECTOR_SIZE : Z := 256 * 2 ^ 10.
Definition UINT32_MAX : Z := 2 ^ 32 - 1.

Definition virt_flash_map1 (name : string) (base_ size_ : Z) (mem : container) : boardM unit :=
  if negb (size_ mod VIRT_FLASH_SECTOR_SIZE =? 0) then fail AssertFail
  else if UINT32_MAX <? size_ / VIRT_FLASH_SECTOR_SIZE then fail AssertFail
  else
    emit (QdevProp name "num-blocks" (size_ / VIRT_FLASH_SECTOR_SIZE)) ;;
    map_region mem base_ name.

Definition secure_mem : container := if secure (opts c) then SecureSysmem else Sysmem.

Definition virt_flash_map : boardM unit :=
  let flashsize := size (memmap c VIRT_FLASH) / 2 in
  let flashbase := base (memmap c VIRT_FLASH) in
  virt_flash_map1 "virt.flash0" flashbase flashsize secure_mem ;;
  virt_flash_map1 "virt.flash1" (flashbase + flashsize) flashsize Sysmem.

Definition virt_flash_fdt : boardM unit :=
  let flashsize := size (memmap c VIRT_FLASH) / 2 in
  let flashbase := base (memmap c VIRT_FLASH) in
  if negb (secure (opts c)) then
    let node := [node_at "flash" flashbase] in
    qemu_fdt_add_subnode node ;;
    setprops node
      [("compatible"%string, PStr "cfi-flash");
       ("reg"%string, PSized [(flashbase, flashsize); (flashbase + flashsize, flashsize)]);
       ("bank-width"%string, PCells [4])]
  else
    let node := [node_at "secflash" flashbase] in
    qemu_fdt_add_subnode node ;;
    setprops node
      [("compatible"%string, PStr "cfi-flash"); ("reg"%string, PSized [(flashbase, flashsize)]);
       ("bank-width"%string, PCells [4])] ;;
    secure_status node ;;
    let node := [node_at "flash" flashbase] in
    qemu_fdt_add_subnode node ;;
    setprops node
      [("compatible"%string, PStr "cfi-flash"); ("reg"%string, PSized [(flashbase + flashsize, flashsize)]);
       ("bank-width"%string, PCells [4])].

Definition create_fw_cfg : boardM unit :=
  let base_ := base (memmap c VIRT_FW_CFG) in
  let node := [node_at "fw-cfg" base_] in
  map_region Sysmem base_ "fw_cfg" ;;
  emit (QdevProp "fw_cfg" "nb-cpus" (wrap 16 (smp_cpus (opts c)))) ;;
  qemu_fdt_add_subnode node ;;
  setprops node
    [("compatible"%string, PStr "qemu,fw-cfg-mmio"); ("reg"%string, PSized [reg_of VIRT_FW_CFG]);
     ("dma-coherent"%string, PEmpty)].

Definition create_platform_bus : boardM unit :=
  emit (QdevProp "platform-bus" "num_irqs" PLATFORM_BUS_NUM_IRQS) ;;
  emit (QdevProp "platform-bus" "mmio_size" (size (memmap c VIRT_PLATFORM_BUS))) ;;
  wire_lines "platform-bus" (a15irqmap VIRT_PLATFORM_BUS) PLATFORM_BUS_NUM_IRQS ;;
  map_region Sysmem (base (memmap c VIRT_PLATFORM_BUS)) "platform-bus".

(** One tag for 32 bytes. *)
Definition create_tag_ram (mem : container) (base_ size_ : Z) (name : string) : boardM unit :=
  emit (RamRegion name (size_ / 32)) ;;
  map_region mem (base_ / 32) name.

Definition create_secure_ram : boardM unit :=
  let node := [node_at "secram" (base (memmap c VIRT_SECURE_MEM))] in
  emit (RamRegion "virt.secure-ram" (size (memmap c VIRT_SECURE_MEM))) ;;
  map_region SecureSysmem (base (memmap c VIRT_SECURE_MEM)) "virt.secure-ram" ;;
  qemu_fdt_add_subnode node ;;
  setprops node [("device_type"%string, PStr "memory"); ("reg"%string, PSized [reg_of VIRT_SECURE_MEM])] ;;
  secure_status node ;;
  when (mte (opts c))
    (create_tag_ram SecureTagSysmem (base (memmap c VIRT_SECURE_MEM)) (size (memmap c VIRT_SECURE_MEM))
       "mach-virt.secure-tag").

(** ** PCIe and the IOMMU *)

Definition pciehb_nodename : string := node_at "pcie" (base (memmap c VIRT_PCIE_MMIO)).

Definition create_smmu : boardM unit :=
  h <- gets iommu_phandle ;;
  if negb (match iommu c with VIRT_IOMMU_SMMUV3 => true | _ => false end) || (h =? 0) then ret tt
  else
    let irq := a15irqmap VIRT_SMMU in
    let node := [node_at "smmuv3" (base (memmap c VIRT_SMMU))] in
    map_region Sysmem (base (memmap c VIRT_SMMU)) "arm-smmuv3" ;;
    wire_lines "arm-smmuv3" irq NUM_SMMU_IRQS ;;
    qemu_fdt_add_subnode node ;;
    clock <- gets clock_phandle ;;
    setprops node
      [("compatible"%string, PStrs ["arm,smmu-v3"%string]); ("reg"%string, PSized [reg_of VIRT_SMMU]);
       ("interrupts"%string, PCells
          [GIC_FDT_IRQ_TYPE_SPI; irq; GIC_FDT_IRQ_FLAGS_EDGE_LO_HI;
           GIC_FDT_IRQ_TYPE_SPI; irq + 1; GIC_FDT_IRQ_FLAGS_EDGE_LO_HI;
           GIC_FDT_IRQ_TYPE_SPI; irq + 2; GIC_FDT_IRQ_FLAGS_EDGE_LO_HI;
           GIC_FDT_IRQ_TYPE_SPI; irq + 3; GIC_FDT_IRQ_FLAGS_EDGE_LO_HI]);
       ("interrupt-names"%string, PStrs ["eventq"; "priq"; "cmdq-sync"; "gerror"]%string);
       ("clocks"%string, PCells [clock]); ("clock-names"%string, PStr "apb_pclk");
       ("dma-coherent"%string, PEmpty); ("#iommu-cells"%string, PCells [1]);
       ("phandle"%string, PCells [h])].

(** The bindings of a virtio IOMMU, added when one is plugged. *)
Definition create_virtio_iommu_dt_bindings (bdf : Z) : boardM unit :=
  let node := [pciehb_nodename; "virtio_iommu@"%string +:+ pretty bdf] in
  h <- qemu_fdt_alloc_phandle ;;
  modify (set_iommu h) ;;
  qemu_fdt_add_subnode node ;;
  setprops node
    [("compatible"%string, PStrs ["virtio,pci-iommu"%string]);
     ("reg"%string, PCells [Z.shiftl bdf 8; 0; 0; 0; 0]); ("#iommu-cells"%string, PCells [1]);
     ("phandle"%string, PCells [h])] ;;
  qemu_fdt_setprop [pciehb_nodename] "iommu-map"
    (PCells [0x0; h; 0x0; bdf; bdf + 1; h; bdf + 1; 0xffff - bdf]).

(** [ecam]: [vms->highmem_ecam] as [machvirt_init] left it. *)
Definition ecam_region (ecam : bool) : virt_region :=
  if ecam then VIRT_HIGH_PCIE_ECAM else VIRT_PCIE_ECAM.

Definition pcie_ranges : list Z :=
  let pio := memmap c VIRT_PCIE_PIO in
  let mmio := memmap c VIRT_PCIE_MMIO in
  let high := memmap c VIRT_HIGH_PCIE_MMIO in
  [FDT_PCI_RANGE_IOPORT; 0; base pio; size pio;
   FDT_PCI_RANGE_MMIO; base mmio; base mmio; size mmio] ++
  (if highmem c then [FDT_PCI_RANGE_MMIO_64BIT; base high; base high; size high] else []).

Definition create_pcie (ecam : bool) : boardM unit :=
  let irq := a15irqmap VIRT_PCIE in
  let e := ecam_region ecam in
  let nr_pcie_buses := size (memmap c e) / PCIE_MMCFG_SIZE_MIN in
  let node := [pciehb_nodename] in
  map_region Sysmem (base (memmap c e)) "pcie-ecam" ;;
  map_region Sysmem (base (memmap c VIRT_PCIE_MMIO)) "pcie-mmio" ;;
  when (highmem c) (map_region Sysmem (base (memmap c VIRT_HIGH_PCIE_MMIO)) "pcie-mmio-high") ;;
  map_region Sysmem (base (memmap c VIRT_PCIE_PIO)) "pcie-pio" ;;
  wire_lines "gpex" irq GPEX_NUM_IRQS ;;
  qemu_fdt_add_subnode node ;;
  setprops node
    [("compatible"%string, PStr "pci-host-ecam-generic"); ("device_type"%string, PStr "pci");
     ("#address-cells"%string, PCells [3]); ("#size-cells"%string, PCells [2]);
     ("linux,pci-domain"%string, PCells [0]); ("bus-range"%string, PCells [0; nr_pcie_buses - 1]);
     ("dma-coherent"%string, PEmpty)] ;;
  msi <- gets msi_phandle ;;
  when (negb (msi =? 0)) (qemu_fdt_setprop node "msi-parent" (PCells [msi])) ;;
  setprops node
    [("reg"%string, PSized [reg_of e]); ("ranges"%string, PCells pcie_ranges);
     ("#interrupt-cells"%string, PCells [1])] ;;
  gic <- gets gic_phandle ;;
  setprops node
    [("interrupt-map"%string, PCells (pcie_irq_map gic irq));
     ("interrupt-map-mask"%string, PCells (pcie_irq_mask (little_endian_host c)))] ;;
  match iommu c with
  | VIRT_IOMMU_NONE => ret tt
  | VIRT_IOMMU_SMMUV3 =>
      h <- qemu_fdt_alloc_phandle ;;
      modify (set_iommu h) ;;
      create_smmu ;;
      qemu_fdt_setprop node "iommu-map" (PCells [0x0; h; 0x0; 0x10000])
  | VIRT_IOMMU_VIRTIO => fail AssertFail
  end.
End devices.

(** ** A machine of four CPUs under TCG *)

Definition example_machine : MachineState := mkMachine (4 * GiB) (4 * GiB) 0.

Definition example_memory : VirtMemory :=
  match virt_set_memmap example_machine with inr v => v | inl _ => mkMemory base_memmap 0 None end.

(** [secure], the devices of the two serial lines. *)
Definition example_cfg (sec : bool) (s0 s1 : option Z) : board_cfg :=
  {| memmap := VirtBoard.memmap example_memory;
     opts := mkOptions sec true false true true "cortex-a57-arm-cpu" 4 4;
     gic_version := VIRT_GIC_VERSION_3; psci_conduit := PSCI_CONDUIT_SMC; iommu := VIRT_IOMMU_SMMUV3;
     highmem := true; highmem_ecam := true; firmware_loaded := false;
     acpi_enabled := true; highest_gpa := VirtBoard.highest_gpa example_memory; device_memory_base := None; claim_edge_triggered_timers := false;
     no_cpu_topology := false; no_secure_gpio := false; has_ged := true;
     kvm_no_adjvtime := false; no_kvm_steal_time := false; no_pmu := false;
     cpu_aarch64 := fun _ => true; cpu_has := fun _ => true; numa_pre_plug_ok := fun _ => true;
     steal_time := false; arm_pamax := 48;
     feature_v8 := true; feature_pmu := true; pmu := true; dtb_compatible := "arm,cortex-a57";
     mp_affinity := id; node_id := fun _ => None; cores := 2; threads := 2; device_tree_ok := true;
     kaslr_seed := fun _ => Some 42; numa_distance := None;
     serial_hd := fun i => if i =? 0 then s0 else if i =? 1 then s1 else None;
     real_host_page_size := 4096; the_host := tcg_host; little_endian_host := true;
     machine := example_machine; nvdimm_enabled := false;
     chardev_accepts := fun used x => negb (bool_decide (x ∈ used)) || (100 <=? x);
     chardev_mux := fun x => 100 <=? x |}.

Definition empty_board : board := mkBoard ∅ 0x8001 [] 0 0 0 0 VIRT_MSI_CTRL_NONE.
