(* ===== verification/VirtMachine.v ===== *)
(** * The start of the virt machine: [virt.c]

    The firmware, the CPUs, what is checked after them, and [machvirt_init] as
    the sequence of all of it. *)

From S2P Require Import Prelude VirtBoard VirtGic VirtIrq VirtFdt VirtDevices.

(** [arm_cpu_mp_affinity(idx, clustersz)]: the documented layout of the MPIDR. *)
Class ArmCpu : Type := {
  arm_cpu_mp_affinity : Z -> Z -> Z;
  arm_cpu_mp_affinity_inj cs i j : 0 < cs <= 16 -> 0 <= i < 512 -> 0 <= j < 512 ->
    arm_cpu_mp_affinity i cs = arm_cpu_mp_affinity j cs -> i = j;
}.

Definition virt_cpu_mp_affinity `{ArmCpu} (disallow_affinity_adjustment : bool) (v : VirtGICType) (idx : Z) : Z :=
  arm_cpu_mp_affinity idx (virt_cpu_clustersz disallow_affinity_adjustment v).

(** ** The possible CPUs *)

Record CPUArchId : Type := mkArchId { cpu_type_name : string; arch_id : Z; thread_id : Z }.

(** The list is made once; a list that is there must have one entry per CPU. *)
Definition virt_possible_cpu_arch_ids `{ArmCpu} (disallow : bool) (v : VirtGICType) (o : VirtOptions)
    (possible_cpus : option (list CPUArchId)) : result (list CPUArchId) :=
  match possible_cpus with
  | Some l => if Z.of_nat (length l) =? max_cpus o then Ok l else Stop AssertFail
  | None => Ok ((fun n => mkArchId (cpu_type o) (virt_cpu_mp_affinity disallow v n) n) <$> seqZ 0 (max_cpus o))
  end.

Definition virt_cpu_index_to_props `{ArmCpu} (disallow : bool) (v : VirtGICType) (o : VirtOptions)
    (possible_cpus : option (list CPUArchId)) (cpu_index : Z) : result Z :=
  match virt_possible_cpu_arch_ids disallow v o possible_cpus with
  | Stop f => Stop f
  | Ok l =>
      if cpu_index <? Z.of_nat (length l) then
        match l !! Z.to_nat cpu_index with Some x => Ok (thread_id x) | None => Stop AssertFail end
      else Stop AssertFail
  end.

Definition virt_get_default_cpu_node_id (num_nodes idx : Z) : Z := idx mod num_nodes.

(** ** The firmware *)

(** What the command line gives: a first flash drive, a [-bios] name, whether
    its file is found, and the size [load_image_mr] returns. *)
Record firmware : Type := mkFirmware {
  pflash_blk0 : bool;
  bios_name : bool;
  bios_found : bool;
  image_size : Z;
}.

(** [virt_firmware_init] after it has mapped the flash: the code of [exit], or
    whether a firmware is loaded. *)
Definition firmware_choice (f : firmware) : Z + bool :=
  if bios_name f then
    if pflash_blk0 f then inl 1
    else if negb (bios_found f) then inl 1
    else if image_size f <? 0 then inl 1
    else inr true
  else inr (pflash_blk0 f).

(** The legacy drives have become properties of the flash devices before. *)
Definition virt_firmware_init (c : board_cfg) (f : firmware) : boardM bool :=
  virt_flash_map c ;;
  match firmware_choice f with
  | inl code => fail (ExitProcess code)
  | inr loaded => ret loaded
  end.

(** ** The CPUs *)

(** [clz64], 64 for zero. *)
Definition clz64 (x : Z) : Z := if x =? 0 then 64 else 63 - Z.log2 x.

Definition requested_pa_bits (highest_gpa : Z) : Z := 64 - clz64 highest_gpa.

Section cpus.
Context `{QH : QemuHeaders} (c : board_cfg).

(** All CPUs so far are 64-bit, and the tag memory is there. *)
Record cpu_loop : Type := mkLoop { all_aarch64 : bool; tag_sysmem : bool }.

Definition set_if (n : Z) (name : string) (b : bool) (value : Z) : boardM unit :=
  when (b && cpu_has c name) (emit (CpuProp n name value)).

(** The links of an MTE machine; the tag memory is made for the first CPU. *)
Definition link_tag_memory (n : Z) (l : cpu_loop) : boardM cpu_loop :=
  if negb (mte (opts c)) then ret l
  else if negb (tag_sysmem l) && negb (cpu_has c "tag-memory") then fail (ExitProcess 1)
  else
    (if negb (cpu_has c "tag-memory") then fail AssertFail else emit (CpuLink n "tag-memory" TagSysmem)) ;;
    when (secure (opts c)) (emit (CpuLink n "secure-tag-memory" SecureTagSysmem)) ;;
    ret (mkLoop (all_aarch64 l) true).

Definition create_cpu (n : Z) (l : cpu_loop) : boardM cpu_loop :=
  emit (CpuProp n "mp-affinity" (mp_affinity c n)) ;;
  (if negb (numa_pre_plug_ok c n) then fail (ExitProcess 1) else ret tt) ;;
  let l := mkLoop (all_aarch64 l && cpu_aarch64 c n) (tag_sysmem l) in
  when (negb (secure (opts c))) (emit (CpuProp n "has_el3" 0)) ;;
  set_if n "has_el2" (negb (virt (opts c))) 0 ;;
  match psci_conduit c with
  | PSCI_CONDUIT_DISABLED => ret tt
  | p =>
      emit (CpuProp n "psci-conduit" (match p with PSCI_CONDUIT_SMC => 1 | _ => 2 end)) ;;
      when (0 <? n) (emit (CpuProp n "start-powered-off" 1))
  end ;;
  set_if n "kvm-no-adjvtime" (kvm_no_adjvtime c) 1 ;;
  set_if n "kvm-steal-time" (no_kvm_steal_time c) 0 ;;
  set_if n "pmu" (no_pmu c) 0 ;;
  set_if n "reset-cbar" true (base (memmap c VIRT_CPUPERIPHS)) ;;
  emit (CpuLink n "memory" Sysmem) ;;
  when (secure (opts c)) (emit (CpuLink n "secure-memory" SecureSysmem)) ;;
  l <- link_tag_memory n l ;;
  emit (CpuRealized n) ;;
  ret l.

(** The loop over the possible CPUs, left at the first that is not there. *)
Fixpoint create_cpus (ns : list Z) (l : cpu_loop) : boardM cpu_loop :=
  match ns with
  | [] => ret l
  | n :: ns => if smp_cpus (opts c) <=? n then ret l else l <- create_cpu n l ;; create_cpus ns l
  end.

Definition PPI (irq : Z) : Z := irq + 16.

Definition post_init_cpu (n : Z) : boardM unit :=
  when (pmu c)
    (if negb (feature_pmu c) then fail AssertFail
     else
       when (kvm_irqchip_in_kernel (the_host c)) (emit (KvmPmuSetIrq n (PPI VIRTUAL_PMU_IRQ))) ;;
       emit (KvmPmuInit n)) ;;
  when (steal_time c) (emit (KvmPvtimeInit n (base (memmap c VIRT_PVTIME) + n * PVTIME_SIZE_PER_CPU))).

(** [REAL_HOST_PAGE_ALIGN(max_cpus * PVTIME_SIZE_PER_CPU)]. *)
Definition pvtime_size : Z := ROUND_UP (max_cpus (opts c) * PVTIME_SIZE_PER_CPU) (real_host_page_size c).

Definition virt_cpu_post_init : boardM unit :=
  if kvm_enabled (the_host c) then
    when (steal_time c)
      (if size (memmap c VIRT_PVTIME) <? pvtime_size then fail (ExitProcess 1)
       else
         emit (RamRegion "pvtime" pvtime_size) ;;
         map_region Sysmem (base (memmap c VIRT_PVTIME)) "pvtime") ;;
    for_each (seqZ 0 (smp_cpus (opts c))) post_init_cpu
  else
    if cpu_aarch64 c 0 && highmem c && (arm_pamax c <? requested_pa_bits (highest_gpa c))
    then fail (ExitProcess 1) else ret tt.

(** ** The board *)

(** The ACPI registers of the NVDIMMs, and what is handed to the loader of the
    kernel. *)
Definition machvirt_boot : boardM unit :=
  when (nvdimm_enabled c)
    (emit (NvdimmInitAcpi (base (memmap c VIRT_NVDIMM_ACPI)) (Z.shiftl NVDIMM_ACPI_IO_LEN 3))) ;;
  emit (LoadKernel (ram_size (machine c)) (smp_cpus (opts c)) (base (memmap c VIRT_MEM)) (firmware_loaded c)) ;;
  emit MachineDoneNotifier.

(** [machvirt_init] from [create_fdt] on, after its checks. *)
Definition machvirt_devices : boardM unit :=
  create_fdt c ;;
  cpus <- create_cpus (seqZ 0 (max_cpus (opts c))) (mkLoop true false) ;;
  fdt_add_timer_nodes c ;;
  fdt_add_cpu_nodes c ;;
  map_region Sysmem (base (memmap c VIRT_MEM)) "ram" ;;
  match device_memory_base c with
  | Some a => map_region Sysmem a "device-memory"
  | None => ret tt
  end ;;
  virt_flash_fdt c ;;
  build_gic c ;;
  virt_cpu_post_init ;;
  fdt_add_pmu_nodes c ;;
  create_uart c VIRT_UART Sysmem (serial_hd c 0) ;;
  create_uart c VIRT_UART2 Sysmem (serial_hd c 1) ;;
  when (secure (opts c))
    (create_secure_ram c ;; create_uart c VIRT_SECURE_UART SecureSysmem (serial_hd c 1)) ;;
  when (tag_sysmem cpus) 
    (create_tag_ram TagSysmem (base (memmap c VIRT_MEM)) (ram_size (machine c)) "mach-virt.tag") ;;
  create_rtc c ;;
  create_pcie c (highmem_ecam c && (highmem c && (negb (firmware_loaded c) || all_aarch64 cpus))) ;;
  (if has_ged c && all_aarch64 cpus && firmware_loaded c && acpi_enabled c then create_acpi_ged c
   else create_gpio_devices c VIRT_GPIO Sysmem) ;;
  when (secure (opts c) && negb (no_secure_gpio c)) (create_gpio_devices c VIRT_SECURE_GPIO SecureSysmem) ;;
  emit PowerdownNotifier ;;
  create_virtio_devices c ;;
  create_fw_cfg c ;;
  create_platform_bus c ;;
  machvirt_boot.
End cpus.

(** ** The whole of [machvirt_init] *)

(** The configuration [t], with what [machvirt_init] finds out itself. *)
Definition with_layout (t : board_cfg) (ms : MachineState) (v : VirtMemory) (g : VirtGICType) (p : psci) (fw : bool) : board_cfg :=
  {| memmap := VirtBoard.memmap v; opts := opts t; gic_version := g; psci_conduit := p;
     iommu := iommu t; highmem := highmem t; highmem_ecam := highmem_ecam t; firmware_loaded := fw;
     acpi_enabled := acpi_enabled t; highest_gpa := VirtBoard.highest_gpa v;
     device_memory_base := fst <$> device_memory v;
     claim_edge_triggered_timers := claim_edge_triggered_timers t; no_cpu_topology := no_cpu_topology t;
     no_secure_gpio := no_secure_gpio t; has_ged := has_ged t; kvm_no_adjvtime := kvm_no_adjvtime t;
     no_kvm_steal_time := no_kvm_steal_time t; no_pmu := no_pmu t; cpu_aarch64 := cpu_aarch64 t;
     cpu_has := cpu_has t; numa_pre_plug_ok := numa_pre_plug_ok t; steal_time := steal_time t;
     arm_pamax := arm_pamax t; feature_v8 := feature_v8 t; feature_pmu := feature_pmu t; pmu := pmu t;
     dtb_compatible := dtb_compatible t; mp_affinity := mp_affinity t; node_id := node_id t;
     cores := cores t; threads := threads t; device_tree_ok := device_tree_ok t;
     kaslr_seed := kaslr_seed t; numa_distance := numa_distance t; serial_hd := serial_hd t;
     real_host_page_size := real_host_page_size t; the_host := the_host t;
     little_endian_host := little_endian_host t; machine := ms; nvdimm_enabled := nvdimm_enabled t;
     chardev_accepts := chardev_accepts t; chardev_mux := chardev_mux t |}.

(** [t] asks for a GIC version in [gic_version]; the firmware and the PSCI
    conduit are not known when the flash is mapped. *)
Definition machvirt_init `{QH : QemuHeaders} (t : board_cfg) (ms : MachineState) (f : firmware) : boardM unit :=
  match virt_set_memmap ms with
  | inl code => fail (ExitProcess code)
  | inr v =>
      match machvirt_gic (the_host t) (opts t) (gic_version t) with
      | inl code => fail (ExitProcess code)
      | inr g =>
          fw <- virt_firmware_init (with_layout t ms v g (psci_conduit t) false) f ;;
          match machvirt_cpus (the_host t) (VirtBoard.memmap v) (opts t) fw g with
          | inl code => fail (ExitProcess code)
          | inr p => machvirt_devices (with_layout t ms v g p fw)
          end
      end
  end.

(** [virt_kvm_type]: the code of [exit], or the type of the VM: the bits of a
    guest's physical address, 0 if the host can only have its own size. *)
Definition virt_kvm_type `{QH : QemuHeaders} (ms : MachineState) (max_vm_pa_size : Z) (fixed_ipa : bool) : Z + Z :=
  match virt_set_memmap ms with
  | inl code => inl code
  | inr v =>
      let requested := requested_pa_bits (VirtBoard.highest_gpa v) in
      let requested := if requested <? 32 then 32 else requested in
      if max_vm_pa_size <? requested then inl 1
      else inr (if fixed_ipa then 0 else requested)
  end.

(** ** Lemmas and theorems *)

Lemma requested_pa_bits_spec x : 0 < x ->
  x < 2 ^ requested_pa_bits x /\ 2 ^ (requested_pa_bits x - 1) <= x /\ 0 < requested_pa_bits x.
Proof.
  intros Hx. unfold requested_pa_bits, clz64. destruct (Z.eqb_spec x 0); [lia|].
  pose proof (Z.log2_spec x Hx) as [L1 L2]. pose proof (Z.log2_nonneg x).
  replace (64 - (63 - Z.log2 x)) with (Z.succ (Z.log2 x)) by lia.
  replace (Z.succ (Z.log2 x) - 1) with (Z.log2 x) by lia. lia.
Qed.

(** Nothing of the board is above the highest address. *)
Lemma board_map_below `{QH : QemuHeaders} ms v e :
  0 <= ram_size ms <= maxram_size ms -> 0 <= ram_slots ms <= ACPI_MAX_RAM_SLOTS ->
  maxram_size ms + ram_slots ms * GiB < 2 ^ 61 -> virt_set_memmap ms = inr v ->
  e ∈ board_map ms v -> e.1 + e.2 <= VirtBoard.highest_gpa v + 1 /\ 512 * GiB <= VirtBoard.highest_gpa v.
Proof.
  intros Hram Hslots Hmax Hv He.
  destruct (virt_set_memmap_run ms Hram Hslots Hmax)
    as (db & r1 & r2 & r3 & Hrun & H1 & H2 & H3 & H4 & H5 & H6 & H7 & _).
  rewrite Hv in Hrun. injection Hrun as ->. cbn [VirtBoard.highest_gpa].
  assert (GiB = 2 ^ 30 /\ MiB = 2 ^ 20) as [HG HM] by done. split; [|lia].
  pose proof hotplug_len. pose proof ged_len. pose proof nvdimm_len.
  unfold board_map, high_regions in He. cbn [VirtBoard.memmap device_memory] in He.
  rewrite elem_of_app, elem_of_cons, elem_of_app in He. destruct He as [He|[->|[He|He]]].
  - apply list_elem_of_fmap in He as (r & -> & Hr). unfold extent, NUM_VIRTIO_TRANSPORTS, set_entry.
    unfold low_regions in Hr. rewrite !elem_of_cons, elem_of_nil in Hr.
    destruct_or? Hr; try done; subst r; regions; cbn; lia.
  - cbn [fst snd]. unfold set_entry. rewrite !decide_False by done. cbn. lia.
  - destruct (0 <? _); cbn in He; [|by apply elem_of_nil in He].
    apply list_elem_of_singleton in He as ->. cbn. lia.
  - apply list_elem_of_fmap in He as (r & -> & Hr). unfold extent, set_entry.
    rewrite !elem_of_cons, elem_of_nil in Hr. destruct_or? Hr; try done; subst r; regions; cbn; lia.
Qed.

(** C33: The type of a KVM guest covers its board.  If [virt_kvm_type] returns,
    every region of the board, the memory and the high regions included, lies
    below the address size it asks for, which the host supports, is at least 32
    bits and not a bit more than the highest address needs; it refuses only more
    slots than ACPI has and a board the host cannot address. *)
Theorem kvm_type_fits `{QH : QemuHeaders} ms max_pa fixed :
  0 <= ram_size ms <= maxram_size ms -> 0 <= ram_slots ms -> maxram_size ms + ram_slots ms * GiB < 2 ^ 61 ->
  match virt_kvm_type ms max_pa fixed with
  | inr t => exists v bits, virt_set_memmap ms = inr v /\ t = (if fixed then 0 else bits) /\
      32 <= bits <= max_pa /\ (forall e, e ∈ board_map ms v -> e.1 + e.2 <= 2 ^ bits) /\
      2 ^ (bits - 1) <= VirtBoard.highest_gpa v
  | inl code => code = 1 /\ (ACPI_MAX_RAM_SLOTS < ram_slots ms \/
      exists v, virt_set_memmap ms = inr v /\ 2 ^ max_pa <= VirtBoard.highest_gpa v)
  end.
Proof.
  intros Hram Hslots Hmax. unfold virt_kvm_type.
  destruct (Z.ltb_spec ACPI_MAX_RAM_SLOTS (ram_slots ms)) as [Hs|Hs].
  { unfold virt_set_memmap. rewrite (proj2 (Z.ltb_lt _ _) Hs). by split; [|left]. }
  destruct (virt_set_memmap_run ms Hram (conj Hslots Hs) Hmax) as (db & r1 & r2 & r3 & Hv & _).
  revert Hv. set (v := mkMemory _ _ _). intros Hv. clearbody v. rewrite Hv.
  assert (forall e, e ∈ board_map ms v -> e.1 + e.2 <= VirtBoard.highest_gpa v + 1 /\
    512 * GiB <= VirtBoard.highest_gpa v) as Hb by (intros e; by apply board_map_below).
  assert (512 * GiB <= VirtBoard.highest_gpa v) as Hh.
  { eapply (proj2 (Hb (base (VirtBoard.memmap v VIRT_MEM), ram_size ms) _)). Unshelve.
    unfold board_map. apply elem_of_app. right. by left. }
  assert (GiB = 2 ^ 30) as HG by done.
  destruct (requested_pa_bits_spec (VirtBoard.highest_gpa v)) as (B1 & B2 & B3); [lia|]. set (bits := requested_pa_bits (VirtBoard.highest_gpa v)) in *.
  assert (39 <= bits) as Hbits.
  { destruct (Z.le_gt_cases 39 bits); [done|]. assert (2 ^ bits <= 2 ^ 39) by (apply Z.pow_le_mono_r; lia). lia. }
  destruct (Z.ltb_spec bits 32); [lia|]. destruct (Z.ltb_spec max_pa bits).
  - split; [done|right]. exists v. split; [done|].
    assert (2 ^ max_pa <= 2 ^ (bits - 1)) by (apply Z.pow_le_mono_r; lia). lia.
  - exists v, bits. split; [done|]. split; [done|]. split; [lia|]. split; [|done].
    intros e He. destruct (Hb e He). lia.
Qed.

Lemma kvm_type_fits_witness :
  virt_kvm_type example_machine 44 false = inr 40 /\
  exists v, virt_set_memmap example_machine = inr v /\
    (forall e, e ∈ board_map example_machine v -> e.1 + e.2 <= 2 ^ 40).
Proof.
  split; [vm_compute; reflexivity|].
  pose proof (kvm_type_fits example_machine 44 false) as H.
  assert (virt_kvm_type example_machine 44 false = inr 40) as E by (vm_compute; reflexivity).
  rewrite E in H. destruct H as (v & bits & Hv & -> & _ & Hb & _); [vm_compute; split; discriminate|by vm_compute..|].
  by exists v.
Defined.

(** ** The CPUs' identifiers *)

(** QEMU 6.2: the cluster above the number in it. *)
#[export] Instance arm_cpu_6_2 : ArmCpu.
Proof.
  refine {| arm_cpu_mp_affinity idx cs := Z.lor (Z.shiftl (idx / cs) 8) (idx mod cs) |}.
  intros cs i j Hcs Hi Hj.
  assert (forall k, is_u8 (k mod cs)) as Hu.
  { intros k. pose proof (Z.mod_pos_bound k cs). unfold is_u8. lia. }
  rewrite !lor_shiftl_8 by apply Hu. intros H. pose proof (Hu i). pose proof (Hu j). unfold is_u8 in *.
  assert (i / cs = j / cs) by lia. pose proof (Z.div_mod i cs). pose proof (Z.div_mod j cs). nia.
Defined.

(** The list is stable once made, one entry per CPU, and no two CPUs share an
    identifier, so a CPU's node in the device tree names one CPU. *)
Lemma possible_cpus_spec `{ArmCpu} disallow v o :
  0 <= max_cpus o < 512 -> exists l,
    virt_possible_cpu_arch_ids disallow v o None = Ok l /\
    virt_possible_cpu_arch_ids disallow v o (Some l) = Ok l /\ NoDup (arch_id <$> l) /\
    (forall n, 0 <= n < max_cpus o -> virt_cpu_index_to_props disallow v o None n = Ok n) /\
    (forall n, max_cpus o <= n -> virt_cpu_index_to_props disallow v o None n = Stop AssertFail).
Proof.
  intros Hm. eexists. split; [reflexivity|].
  assert (forall l : list CPUArchId, length l = Z.to_nat (max_cpus o) -> Z.of_nat (length l) = max_cpus o) as Hlen.
  { intros l ->. lia. }
  unfold virt_cpu_index_to_props, virt_possible_cpu_arch_ids.
  set (l := _ <$> seqZ 0 (max_cpus o)).
  assert (Z.of_nat (length l) = max_cpus o) as Hl by (apply Hlen; subst l; by rewrite length_fmap, length_seqZ).
  rewrite Hl, Z.eqb_refl. split; [done|]. split; [|split].
  - subst l. rewrite <- list_fmap_compose. apply NoDup_fmap_2_strong; [|apply NoDup_seqZ].
    intros i j Hi%elem_of_seqZ Hj%elem_of_seqZ. cbn. unfold virt_cpu_mp_affinity.
    apply arm_cpu_mp_affinity_inj; [|lia..]. unfold virt_cpu_clustersz, GICV3_TARGETLIST_BITS, GIC_TARGETLIST_BITS,
      ARM_DEFAULT_CPUS_PER_CLUSTER. repeat case_match; lia.
  - intros n Hn. rewrite (proj2 (Z.ltb_lt _ _)) by lia. subst l.
    rewrite list_lookup_fmap, lookup_seqZ_lt by lia. cbn. f_equal. lia.
  - intros n Hn. by rewrite (proj2 (Z.ltb_ge _ _)) by lia.
Qed.
