(* ===== verification/VirtBuild.v ===== *)
(** * The board can be built

    A calculus for the construction of the device tree: which nodes are there
    and which may be there.  With it, no step of the board's construction
    repeats a node or sets a property of one that is missing. *)

From S2P Require Import Prelude VirtBoard VirtGic VirtIrq VirtFdt VirtDevices.

Implicit Types s : board.

Definition under_cpus (p : path) : bool := match p with c :: _ => bool_decide (c = "cpus"%string) | [] => false end.

(** The nodes of [A] are there; all others are of [B], or, with [cpus], of the
    subtree of the CPUs. *)
Definition tree (cpus : bool) (A B : list path) s : Prop :=
  (forall p, p ∈ A -> is_Some (fdt s !! p)) /\
  (forall p, is_Some (fdt s !! p) -> p ∈ B \/ (cpus = true /\ under_cpus p = true)).

Definition mem (p : path) (l : list path) : bool := bool_decide (p ∈ l).

Lemma mem_true p l : mem p l = true -> p ∈ l.
Proof. apply bool_decide_eq_true. Qed.

Lemma mem_false p l : mem p l = false -> p ∉ l.
Proof. apply bool_decide_eq_false. Qed.

(** Nodes of [B] a path can be taken for. *)
Definition hit (p : path) (B : list path) : bool := existsb (path_matches p) B.

Lemma hit_false p B q : hit p B = false -> q ∈ B -> path_matches p q = false.
Proof.
  intros Hh Hq. destruct (path_matches p q) eqn:E; [|done]. unfold hit in Hh.
  assert (existsb (path_matches p) B = true) as Ht; [|by rewrite Ht in Hh].
  apply existsb_exists. exists q. split; [by apply list_elem_of_In|done].
Qed.

Lemma hit_mem p B : hit p B = false -> mem p B = false.
Proof.
  intros Hh. apply bool_decide_eq_false. intros Hin. pose proof (hit_false _ _ _ Hh Hin) as Hm.
  by rewrite path_matches_refl in Hm.
Qed.

(** A step that leaves the serial lines alone and may allocate phandles. *)
Record kept s s' : Prop := mkKept {
  kept_chardevs : chardevs s' = chardevs s;
  kept_phandles : phandles s <= phandles s';
}.

#[export] Instance kept_preorder : PreOrder kept.
Proof.
  split; [intros s; by split|]. intros s1 s2 s3 [C1 P1] [C2 P2]. split; [congruence|lia].
Qed.

(** A computation that leaves the tree's nodes and the serial lines alone. *)
Definition quiet {A : Type} (m : boardM A) : Prop :=
  forall s, wp m s (fun _ s' _ => fdt s' = fdt s /\ kept s s').

(** From [A] and [B] to [A'] and [B']; phandles are positive. *)
Definition builds {X : Type} (cpus : bool) (A B : list path) (m : boardM X) (A' B' : list path) : Prop :=
  forall s, tree cpus A B s -> 0 < phandles s -> wp m s (fun _ s' _ => tree cpus A' B' s' /\ kept s s').

Section rules.
Context (cpus : bool).
Implicit Types A B : list path.

Lemma builds_bind {X Y : Type} A B A1 B1 A2 B2 (m : boardM X) (k : X -> boardM Y) :
  builds cpus A B m A1 B1 -> (forall x, builds cpus A1 B1 (k x) A2 B2) -> builds cpus A B (bind m k) A2 B2.
Proof.
  intros Hm Hk s Ht Hp. apply wp_bind. eapply wp_mono; [by apply Hm|]. intros x s1 e1 [H1 C1].
  eapply wp_mono; [apply Hk; [done|]; destruct C1; lia|]. intros y s2 e2 [H2 C2].
  split; [done|by transitivity s1].
Qed.

Lemma builds_ret {X : Type} A B (x : X) : builds cpus A B (ret x) A B.
Proof. intros s Ht Hp. by split. Qed.

Lemma builds_quiet {X : Type} A B (m : boardM X) : quiet m -> builds cpus A B m A B.
Proof.
  intros Hq s Ht Hph. eapply wp_mono; [apply Hq|]. intros x s' es [E C]. split; [|done].
  destruct Ht as [HA HB]. split; [intros p Hp; rewrite E; by apply HA|]. intros p. rewrite E. apply HB.
Qed.

(** More nodes may be there, fewer need to. *)
Lemma builds_weaken {X : Type} A B A1 B1 A2 B2 (m : boardM X) :
  builds cpus A B m A1 B1 -> A2 ⊆ A1 -> B1 ⊆ B2 -> builds cpus A B m A2 B2.
Proof.
  intros Hm HA HB s Ht Hph. eapply wp_mono; [by apply Hm|]. intros x s' es [[H1 H2] C].
  split; [|done]. split; [intros p Hp; by apply H1, HA|]. intros p Hp. destruct (H2 p Hp); auto.
Qed.

Lemma builds_if {X : Type} A B A1 B1 (b : bool) (m1 m2 : boardM X) :
  builds cpus A B m1 A1 B1 -> builds cpus A B m2 A1 B1 -> builds cpus A B (if b then m1 else m2) A1 B1.
Proof. by destruct b. Qed.

Lemma fdt_find_here (f : gmap path props) p : is_Some (f !! p) -> fdt_find f p = Some p.
Proof. intros [x Hx]. unfold fdt_find. by rewrite Hx. Qed.

Lemma find_node_run s p : is_Some (fdt s !! p) -> find_node p s = Ok (p, s, []).
Proof. intros Hp. unfold find_node, bind, gets, of_opt. by rewrite fdt_find_here. Qed.

Lemma is_Some_alter (f : gmap path props) q p g : is_Some (alter g q f !! p) <-> is_Some (f !! p).
Proof.
  destruct (decide (q = p)) as [->|Hne].
  - rewrite lookup_alter_eq. destruct (f !! p); split; intros [? ?]; by eexists.
  - by rewrite lookup_alter_ne.
Qed.

(** A property of a node that is there. *)
Lemma setprop_run s p name v :
  is_Some (fdt s !! p) ->
  qemu_fdt_setprop p name v s = Ok (tt, set_fdt (alter (put_prop name v) p (fdt s)) s, []).
Proof. intros Hp. unfold qemu_fdt_setprop. by erewrite bind_ok by (by apply find_node_run). Qed.

Lemma builds_setprop A B p name v : mem p A = true -> builds cpus A B (qemu_fdt_setprop p name v) A B.
Proof.
  intros Hp%mem_true s [HA HB] Hph. unfold wp. rewrite setprop_run by by apply HA. split; [|done].
  split; cbn.
  - intros q Hq. apply is_Some_alter. by apply HA.
  - intros q Hq%is_Some_alter. by apply HB.
Qed.

Lemma builds_for_each {X : Type} A B (l : list X) (body : X -> boardM unit) :
  (forall x, builds cpus A B (body x) A B) -> builds cpus A B (for_each l body) A B.
Proof.
  intros Hb. induction l as [|x l IH]; [apply builds_ret|]. eapply builds_bind; [apply Hb|done].
Qed.

Lemma builds_setprops A B p l : mem p A = true -> builds cpus A B (setprops p l) A B.
Proof. intros Hp. apply builds_for_each. intros kv. by apply builds_setprop. Qed.

Lemma child_named_matches q name r : child_named q name r = true -> path_matches (q ++ [name]) r = true.
Proof.
  intros (b & -> & Hb)%child_named_spec. rewrite path_matches_app by done. by rewrite path_matches_refl, Hb.
Qed.

Lemma child_under_cpus q name r :
  child_named q name r = true -> under_cpus r = true -> under_cpus (q ++ [name]) = true.
Proof.
  intros (b & -> & Hb)%child_named_spec. destruct q as [|x q]; [|done]. cbn.
  intros ->%bool_decide_eq_true. unfold comp_matches in Hb. apply bool_decide_eq_true.
  destruct (bool_decide_reflect (name = "cpus"%string)) as [|Hne]; [done|].
  cbn [orb] in Hb. apply andb_true_iff in Hb as [_ Hpre]. exfalso.
  assert (has_at "cpus" = true) as Habs; [|done].
  assert (exists t, "cpus"%string = (name +:+ "@") +:+ t) as [t ->].
  { clear -Hpre. revert Hpre. generalize "cpus"%string. generalize (name +:+ "@"). intros a.
    induction a as [|y a IH]; intros z; [by exists z|]. destruct z as [|w z]; [done|]. cbn.
    destruct (Ascii.ascii_dec y w) as [->|]; [|done]. intros [t ->]%IH. by exists t. }
  by rewrite !has_at_app, orb_true_r.
Qed.

(** A new node below one that is there. *)
Lemma builds_add_subnode A B p :
  mem (removelast p) A = true -> hit p B = false -> under_cpus p && cpus = false -> p <> [] ->
  builds cpus A B (qemu_fdt_add_subnode p) (p :: A) (p :: B).
Proof.
  intros Hpar%mem_true Hnew Hu Hp s [HA HB] Hph.
  pose proof (app_removelast_last EmptyString Hp) as Happ.
  set (q := removelast p) in *. set (name := List.last p EmptyString) in *.
  assert (free_for (fdt s) q name) as Hfree.
  { intros r Hr. destruct (child_named q name r) eqn:Ec; [|done].
    pose proof (child_named_matches _ _ _ Ec) as Hm. rewrite <- Happ in Hm.
    destruct (HB r Hr) as [Hin|[-> Hc]].
    - by rewrite (hit_false _ _ _ Hnew Hin) in Hm.
    - assert (under_cpus p = true) as Hup by (rewrite Happ; by eapply child_under_cpus).
      by rewrite Hup in Hu. }
  rewrite Happ. unfold wp. rewrite add_subnode_run; [|by apply HA|done]. rewrite <- Happ.
  split; [|by split]. split; cbn.
  - intros r [->|Hr]%elem_of_cons; [rewrite lookup_insert_eq; by eexists|].
    destruct (decide (p = r)) as [<-|Hne]; [rewrite lookup_insert_eq; by eexists|].
    rewrite lookup_insert_ne by done. by apply HA.
  - intros r. destruct (decide (p = r)) as [<-|Hne]; [left; by left|].
    rewrite lookup_insert_ne by done. intros Hr. destruct (HB r Hr); [left; by right|by right].
Qed.
End rules.

(** ** Quiet computations *)

Lemma fdt_quiet_emit e : quiet (emit e).
Proof. by intros s. Qed.
Lemma fdt_quiet_gets {X : Type} (f : board -> X) : quiet (gets f).
Proof. by intros s. Qed.
Lemma quiet_alloc : quiet qemu_fdt_alloc_phandle.
Proof. intros s. split; [done|]. split; cbn; [done|lia]. Qed.
Lemma fdt_quiet_modify g :
  (forall s, fdt (g s) = fdt s /\ chardevs (g s) = chardevs s /\ phandles (g s) = phandles s) ->
  quiet (modify g).
Proof. intros Hg s. destruct (Hg s) as (H1 & H2 & H3). split; [done|]. split; [done|lia]. Qed.
Lemma quiet_for_each {X : Type} (l : list X) (body : X -> boardM unit) :
  (forall x, quiet (body x)) -> quiet (for_each l body).
Proof.
  intros Hb. induction l as [|x l IH]; [by intros s|]. intros s. apply wp_bind.
  eapply wp_mono; [apply Hb|]. intros _ s1 e1 [E1 C1]. eapply wp_mono; [apply IH|].
  intros _ s2 e2 [E2 C2]. split; [congruence|by transitivity s1].
Qed.
Lemma quiet_wire_lines what first n : quiet (wire_lines what first n).
Proof. apply quiet_for_each. intros x. apply fdt_quiet_emit. Qed.
Lemma quiet_map_region k a what : quiet (map_region k a what).
Proof. apply fdt_quiet_emit. Qed.
Lemma quiet_wire_line what line : quiet (wire_line what line).
Proof. apply fdt_quiet_emit. Qed.
#[export] Hint Resolve quiet_map_region quiet_wire_line quiet_wire_lines fdt_quiet_emit fdt_quiet_gets quiet_alloc : vdrv.

(** ** Automation *)

Definition fresh (M B : list path) : bool := forallb (fun p => negb (hit p B)) M.
Definition within (N A : list path) : bool := forallb (fun p => mem p A) N.

Lemma mem_cons p q l : mem p (q :: l) = bool_decide (p = q) || mem p l.
Proof.
  unfold mem. destruct (decide (p = q)) as [<-|Hne].
  - rewrite (bool_decide_true (p = p)) by done. apply bool_decide_true. by left.
  - rewrite (bool_decide_false (p = q)) by done. cbn. apply bool_decide_ext. rewrite elem_of_cons. naive_solver.
Qed.

Lemma hit_cons p q l : hit p (q :: l) = path_matches p q || hit p l.
Proof. done. Qed.

Lemma fresh_cons p M B : fresh (p :: M) B = negb (hit p B) && fresh M B.
Proof. done. Qed.

Lemma within_cons p M B : within (p :: M) B = mem p B && within M B.
Proof. done. Qed.

(** Take [fresh] and [within] hypotheses apart. *)
Ltac split_mem :=
  repeat match goal with
  | H : fresh (_ :: _) _ = true |- _ => rewrite fresh_cons, andb_true_iff, negb_true_iff in H; destruct H
  | H : within (_ :: _) _ = true |- _ => rewrite within_cons, andb_true_iff in H; destruct H
  end.

(** Membership in lists with a common tail, the heads being closed. *)
Ltac solve_mem :=
  lazymatch goal with
  | H : mem ?p ?l = ?b |- mem ?p ?l = ?b => exact H
  | |- mem ?p (?q :: ?l) = ?b =>
      rewrite mem_cons;
      let e := eval vm_compute in (bool_decide (p = q)) in
      change (bool_decide (p = q)) with e; cbn [orb]; first [reflexivity|solve_mem]
  | H : hit ?p ?l = ?b |- hit ?p ?l = ?b => exact H
  | |- hit ?p (?q :: ?l) = ?b =>
      rewrite hit_cons;
      let e := eval vm_compute in (path_matches p q) in
      change (path_matches p q) with e; cbn [orb]; first [reflexivity|solve_mem]
  end.

Lemma builds_when cpus A B A1 B1 (b : bool) (m : boardM unit) :
  builds cpus A B m A1 B1 -> A ⊆ A1 -> B ⊆ B1 -> builds cpus A B (when b m) A B1.
Proof.
  intros Hm HA HB. destruct b; cbn.
  - by eapply builds_weaken.
  - by eapply builds_weaken; [apply builds_ret| |].
Qed.

Lemma builds_skip cpus A B A1 B1 (b : bool) (m : boardM unit) :
  builds cpus A B m A1 B1 -> A ⊆ A1 -> B ⊆ B1 -> builds cpus A B (if b then ret tt else m) A B1.
Proof.
  intros Hm HA HB. destruct b; [|by eapply builds_weaken].
  by apply (builds_when _ _ _ A1 B1 false m).
Qed.

(** A list in a longer one with the same tail. *)
Ltac solve_incl :=
  let q := fresh "q" in let Hq := fresh "Hq" in
  intros q Hq;
  first [exact Hq
        | rewrite ?elem_of_cons; do 8 (first [exact Hq|right])
        | rewrite ?elem_of_cons in Hq; rewrite ?elem_of_cons; destruct_or? Hq;
          do 8 (first [exact Hq|(left; exact Hq)|right])].

(** One step of a construction; the branch of a [when] is done at once. *)
Ltac build_step :=
  lazymatch goal with
  | |- builds _ _ _ (bind _ _) _ _ => eapply builds_bind; [|intros ?]
  | |- builds _ _ _ (ret _) _ _ => apply builds_ret
  | |- builds _ _ _ (qemu_fdt_add_subnode _) _ _ =>
      eapply builds_add_subnode; [solve_mem|solve_mem|reflexivity|done]
  | |- builds _ _ _ (setprops _ _) _ _ => apply builds_setprops; solve_mem
  | |- builds _ _ _ (secure_status _) _ _ => apply builds_setprops; solve_mem
  | |- builds _ _ _ (qemu_fdt_setprop _ _ _) _ _ => apply builds_setprop; solve_mem
  | |- builds _ _ _ (modify _) _ _ => apply builds_quiet, fdt_quiet_modify; by intros []
  | |- builds _ _ _ (when _ _) _ _ => eapply builds_when; [repeat build_step|solve_incl|solve_incl]
  | |- builds _ _ _ (if _ then ret tt else _) _ _ =>
      eapply builds_skip; [repeat build_step|solve_incl|solve_incl]
  | |- builds _ _ _ _ _ _ => apply builds_quiet; solve [auto with vdrv]
  end.

Section nodes.
Context `{QH : QemuHeaders} (c : board_cfg).

(** The low regions are where the table puts them. *)
Definition low_b (r : virt_region) : bool := negb (bool_decide (r ∈ high_regions)).
Context (Hlow : forall r, low_b r = true -> memmap c r = base_memmap r).

Ltac low :=
  cbv zeta;
  repeat match goal with |- context [memmap c ?r] => rewrite (Hlow r) by reflexivity end;
  cbn [base_memmap base];
  repeat match goal with
  | |- context [node_at ?n ?a] =>
      let e := eval vm_compute in (node_at n a) in change (node_at n a) with e
  end.

Lemma builds_kaslr cpus A B node :
  mem [node] A = true -> builds cpus A B (create_kaslr_seed c node) A B.
Proof.
  intros Hm. unfold create_kaslr_seed. destruct (kaslr_seed c node); repeat build_step.
Qed.

Lemma builds_timer cpus A B :
  within [[]] A = true -> fresh [["timer"%string]] B = true ->
  builds cpus A B (fdt_add_timer_nodes c) (["timer"%string] :: A) (["timer"%string] :: B).
Proof. intros Hn Hf. split_mem. unfold fdt_add_timer_nodes. repeat build_step. Qed.

Definition pmu_nodes : list path := if feature_pmu c then [["pmu"%string]] else [].
Lemma builds_pmu cpus A B :
  feature_pmu c = true \/ pmu c = false -> within [[]] A = true -> fresh [["pmu"%string]] B = true ->
  builds cpus A B (fdt_add_pmu_nodes c) (pmu_nodes ++ A) (["pmu"%string] :: B).
Proof.
  intros Hp Hn Hf. split_mem. unfold fdt_add_pmu_nodes, pmu_nodes. destruct (feature_pmu c); cbn [negb app].
  - repeat build_step.
  - destruct Hp as [?| ->]; [done|]. eapply builds_weaken; [apply builds_ret| |]; solve_incl.
Qed.

Definition rtc_node : path := ["pl031@9010000"%string].
Lemma builds_rtc cpus A B :
  within [[]] A = true -> fresh [rtc_node] B = true ->
  builds cpus A B (create_rtc c) (rtc_node :: A) (rtc_node :: B).
Proof.
  unfold rtc_node. intros Hn Hf. split_mem. unfold create_rtc, sysbus_create_simple. low.
  repeat build_step.
Qed.

Definition gpio_nodes : list path :=
  [["gpio-keys"; "poweroff"]; ["gpio-keys"]; ["pl061@9030000"]]%string.
Lemma builds_gpio cpus A B :
  within [[]] A = true -> fresh gpio_nodes B = true ->
  builds cpus A B (create_gpio_devices c VIRT_GPIO Sysmem) (gpio_nodes ++ A) (gpio_nodes ++ B).
Proof.
  unfold gpio_nodes. intros Hn Hf. split_mem. unfold create_gpio_devices, create_gpio_keys. low.
  cbn [bool_decide_eq_true app]. rewrite bool_decide_true by done. cbn [negb when].
  repeat build_step.
Qed.

Definition secure_gpio_nodes : list path :=
  [["gpio-restart"]; ["gpio-poweroff"]; ["pl061@90b0000"]]%string.
Lemma builds_secure_gpio cpus A B :
  within [[]] A = true -> fresh secure_gpio_nodes B = true ->
  builds cpus A B (create_gpio_devices c VIRT_SECURE_GPIO SecureSysmem) (secure_gpio_nodes ++ A)
    (secure_gpio_nodes ++ B).
Proof.
  unfold secure_gpio_nodes. intros Hn Hf. split_mem.
  unfold create_gpio_devices, create_secure_gpio_pwr, secure_gpio_node. low.
  rewrite bool_decide_false by done. cbn [negb when app]. repeat build_step.
Qed.

Definition flash_nodes : list path := [["flash@0"]; ["secflash@0"]]%string.
Definition flash_have : list path := if secure (opts c) then flash_nodes else [["flash@0"%string]].
Lemma builds_flash cpus A B :
  within [[]] A = true -> fresh flash_nodes B = true ->
  builds cpus A B (virt_flash_fdt c) (flash_have ++ A) (flash_nodes ++ B).
Proof.
  unfold flash_nodes, flash_have. intros Hn Hf. split_mem. unfold virt_flash_fdt. low.
  destruct (secure (opts c)); cbn [app negb];
    (eapply builds_weaken; [repeat build_step|solve_incl|solve_incl]).
Qed.

Definition fw_cfg_node : path := ["fw-cfg@9020000"%string].
Lemma builds_fw_cfg cpus A B :
  within [[]] A = true -> fresh [fw_cfg_node] B = true ->
  builds cpus A B (create_fw_cfg c) (fw_cfg_node :: A) (fw_cfg_node :: B).
Proof.
  unfold fw_cfg_node. intros Hn Hf. split_mem. unfold create_fw_cfg. low. repeat build_step.
Qed.

Definition secram_node : path := ["secram@e000000"%string].
Lemma builds_secram cpus A B :
  within [[]] A = true -> fresh [secram_node] B = true ->
  builds cpus A B (create_secure_ram c) (secram_node :: A) (secram_node :: B).
Proof.
  unfold secram_node. intros Hn Hf. split_mem. unfold create_secure_ram, create_tag_ram. low.
  repeat build_step.
Qed.

Definition pcie_node : path := ["pcie@10000000"%string].
Definition smmu_node : path := ["smmuv3@9050000"%string].
(** The phandle kept for the SMMU is not zero, so its node is added. *)
Lemma builds_smmu {X : Type} cpus A B A' B' (k : Z -> boardM X) :
  iommu c = VIRT_IOMMU_SMMUV3 -> within [[]] A = true -> fresh [smmu_node] B = true ->
  (forall h, builds cpus (smmu_node :: A) (smmu_node :: B) (k h) A' B') ->
  builds cpus A B (h <- qemu_fdt_alloc_phandle ;; modify (set_iommu h) ;; create_smmu c ;; k h) A' B'.
Proof.
  unfold smmu_node. intros Hi Hn Hf Hk s Ht Hp. split_mem.
  apply wp_bind. unfold qemu_fdt_alloc_phandle at 1. unfold wp at 1. cbn.
  apply wp_bind. unfold modify at 1. unfold wp at 1. cbn [app].
  set (s1 := set_iommu (phandles s) (set_phandles (phandles s + 1) s)).
  assert (tree cpus A B s1) as Ht1 by exact Ht.
  assert (kept s s1) as Hk1 by (split; cbn; [done|lia]).
  assert (0 < phandles s1) as Hp1 by (cbn; lia).
  eapply (wp_mono _ _ (fun _ s' _ => tree cpus A' B' s' /\ kept s1 s')).
  2: { intros x s' es [H1' H2']. split; [done|by transitivity s1]. }
  unfold create_smmu. rewrite Hi. apply wp_bind. apply wp_bind. unfold gets at 1. unfold wp at 1.
  cbn [negb orb]. change (iommu_phandle s1) with (phandles s).
  rewrite (proj2 (Z.eqb_neq (phandles s) 0)) by lia.
  match goal with |- wp ?m _ _ =>
    eapply (wp_mono _ _ (fun _ s2 _ => tree cpus (["smmuv3@9050000"%string] :: A) (["smmuv3@9050000"%string] :: B) s2 /\ kept s1 s2));
      [refine ((_ : builds cpus A B m _ _) s1 Ht1 Hp1)|] end.
  - low. repeat build_step.
  - intros _ s2 e2 [Ht2 Hk2]. eapply wp_mono; [apply Hk; [done|destruct Hk2; lia]|].
    intros x s3 e3 [Ht3 Hk3]. split; [done|by transitivity s2].
Qed.

Definition smmu_nodes : list path :=
  match iommu c with VIRT_IOMMU_SMMUV3 => [smmu_node] | _ => [] end.

Lemma builds_pcie cpus A B ecam :
  iommu c <> VIRT_IOMMU_VIRTIO -> within [[]] A = true -> fresh [pcie_node; smmu_node] B = true ->
  builds cpus A B (create_pcie c ecam) (smmu_nodes ++ pcie_node :: A) (smmu_node :: pcie_node :: B).
Proof.
  unfold pcie_node, smmu_nodes. intros Hi Hn Hf. split_mem. unfold create_pcie, pciehb_nodename.
  low. repeat build_step. destruct (iommu c) eqn:E; [| |done].
  - eapply builds_weaken; [apply builds_ret| |]; unfold smmu_node; solve_incl.
  - cbn [app]. apply builds_smmu; [done|rewrite within_cons, andb_true_iff; split; [solve_mem|done]|
      unfold smmu_node in *; rewrite fresh_cons, andb_true_iff, negb_true_iff; split; [solve_mem|done]|].
    intros h. unfold smmu_node. repeat build_step.
Qed.

(** A loop that adds a node for each element. *)
Fixpoint apart (l : list path) : bool :=
  match l with
  | [] => true
  | p :: l => forallb (fun q => negb (path_matches q p)) l && apart l
  end.

Lemma builds_new_nodes {X : Type} cpus (f : X -> path) (body : X -> boardM unit) l : forall A B,
  (forall x A B, mem [] A = true -> hit (f x) B = false ->
     builds cpus A B (body x) (f x :: A) (f x :: B)) ->
  apart (f <$> l) = true -> fresh (f <$> l) B = true -> mem [] A = true ->
  builds cpus A B (for_each l body) (rev (f <$> l) ++ A) (rev (f <$> l) ++ B).
Proof.
  induction l as [|x l IH]; intros A B Hb Hnd Hf Hr; [apply builds_ret|].
  cbn [fmap list_fmap apart] in *. rewrite fresh_cons, andb_true_iff, negb_true_iff in Hf.
  apply andb_true_iff in Hnd as [Hx Hnd]. destruct Hf as [Hfx Hf].
  eapply builds_bind; [by apply Hb|intros _]. cbn [rev]. rewrite <- !app_assoc. cbn [app].
  apply IH; [done|done| |by rewrite mem_cons, Hr, orb_true_r].
  unfold fresh in *. rewrite forallb_forall in Hf, Hx |- *. intros p Hp. specialize (Hf p Hp).
  specialize (Hx p Hp). rewrite negb_true_iff in *. by rewrite hit_cons, Hf, Hx.
Qed.

Definition virtio_node (i : Z) : path := [node_at "virtio_mmio" (0x0a000000 + i * 0x200)].
Definition virtio_nodes : list path := rev (virtio_node <$> rev (seqZ 0 NUM_VIRTIO_TRANSPORTS)).

Lemma builds_virtio cpus A B :
  within [[]] A = true -> fresh (virtio_node <$> rev (seqZ 0 NUM_VIRTIO_TRANSPORTS)) B = true ->
  builds cpus A B (create_virtio_devices c) (virtio_nodes ++ A) (virtio_nodes ++ B).
Proof.
  intros Hn Hf. split_mem. unfold create_virtio_devices.
  eapply builds_bind; [|intros _].
  - apply builds_quiet, quiet_for_each. intros x s. done.
  - apply builds_new_nodes; [|vm_compute; done|done|done].
    intros x A' B' Hr Hx. unfold add_virtio_node, virtio_base.
    rewrite (Hlow VIRT_MMIO) by reflexivity. cbn [base_memmap base size].
    fold (virtio_node x). cbv zeta. eapply builds_bind; [|intros _].
    + by apply builds_add_subnode.
    + apply builds_setprops. by rewrite mem_cons, bool_decide_true.
Qed.

Definition fdt_nodes : list path :=
  [["distance-map"]; ["apb-pclk"]; ["secure-chosen"]; ["chosen"]; []]%string.
Definition chosen_nodes : list path :=
  match numa_distance c with Some _ => [["distance-map"%string]] | None => [] end ++
  ["apb-pclk"%string] :: (if secure (opts c) then [["secure-chosen"%string]] else []) ++ [["chosen"%string]; []].

Lemma create_fdt_builds s :
  device_tree_ok c = true -> 0 < phandles s ->
  wp (create_fdt c) s (fun _ s' _ => tree false chosen_nodes fdt_nodes s' /\ kept s s').
Proof.
  intros Hok Hph. unfold create_fdt. rewrite Hok. cbn [negb]. apply wp_bind.
  unfold modify at 1. unfold wp at 1. set (s1 := set_fdt _ s).
  assert (tree false [[]] [[]] s1) as Ht.
  { split; cbn.
    - intros p [->|Hp]%elem_of_cons; [|by apply elem_of_nil in Hp]. rewrite lookup_singleton_eq. by eexists.
    - intros p. destruct (decide (p = [])) as [->|Hne]; [left; by left|].
      rewrite lookup_singleton_ne by done. by intros []. }
  assert (kept s s1) as Hk1 by by split.
  eapply (wp_mono _ _ (fun _ s' _ => tree false chosen_nodes fdt_nodes s' /\ kept s1 s')).
  2: { intros x s' es [H1' H2']. split; [done|by transitivity s1]. }
  refine ((_ : builds false [[]] [[]] _ chosen_nodes fdt_nodes) s1 Ht Hph).
  clear s1 Ht Hk1 s Hph. unfold chosen_nodes, fdt_nodes.
  eapply builds_bind; [build_step|intros _]. eapply builds_bind; [build_step|intros _].
  eapply builds_bind; [apply builds_kaslr; solve_mem|intros _].
  assert (forall A B, mem [] A = true -> hit ["secure-chosen"%string] B = false ->
    builds false A B (when (secure (opts c))
      (qemu_fdt_add_subnode ["secure-chosen"%string] ;; create_kaslr_seed c "secure-chosen"))
      ((if secure (opts c) then [["secure-chosen"%string]] else []) ++ A) (["secure-chosen"%string] :: B)) as Hs.
  { intros A B Hr Hn. destruct (secure (opts c)); cbn [when app].
    - eapply builds_bind; [build_step|intros _]. apply builds_kaslr. solve_mem.
    - eapply builds_weaken; [apply builds_ret| |]; solve_incl. }
  eapply builds_bind; [apply Hs; solve_mem|intros _]. clear Hs.
  destruct (secure (opts c)); cbn [app]; do 4 (eapply builds_bind; [build_step|intros ?]);
    destruct (numa_distance c); cbn [app];
    (eapply builds_weaken; [repeat build_step| |]; solve_incl).
Qed.
End nodes.
