(* ===== verification/VirtUart.v ===== *)
(** * The serial lines of the virt board

    What [create_uart] leaves for each of the three PL011s, the second one of
    this QEMU included. *)

From S2P Require Import Prelude VirtBoard VirtGic VirtIrq VirtFdt VirtDevices VirtBuild.

Implicit Types s : board.

Definition put_props (l : props) (x : props) : props := foldl (fun acc kv => put_prop kv.1 kv.2 acc) x l.

Lemma setprops_run l : forall s p, is_Some (fdt s !! p) ->
  setprops p l s = Ok (tt, set_fdt (alter (put_props l) p (fdt s)) s, []).
Proof.
  induction l as [|[n v] l IH]; intros s p Hp.
  { unfold setprops, put_props. cbn. rewrite alter_id by done. by destruct s. }
  unfold setprops. cbn [for_each]. erewrite bind_ok by (by apply setprop_run).
  unfold setprops in IH. rewrite IH by (cbn; by apply is_Some_alter). cbn [app set_fdt fdt].
  by rewrite alter_alter_eq.
Qed.

Section uart.
Context (c : board_cfg).

Definition uarts : list virt_region := [VIRT_UART; VIRT_UART2; VIRT_SECURE_UART].

Definition pl011 (uart : virt_region) : string := node_at "pl011" (base (memmap c uart)).

(** The properties of the node. *)
Definition pl011_base (uart : virt_region) (clock : Z) : props :=
  [("compatible"%string, PStrs ["arm,pl011"; "arm,primecell"]%string);
   ("reg"%string, PSized [reg_of c uart]); ("interrupts"%string, spi_level (a15irqmap uart));
   ("clocks"%string, PCells [clock; clock]); ("clock-names"%string, PStrs ["uartclk"; "apb_pclk"]%string)].

Definition secure_extra (uart : virt_region) : props :=
  match uart with
  | VIRT_SECURE_UART => [("status"%string, PStr "disabled"); ("secure-status"%string, PStr "okay")]
  | _ => []
  end.

Definition uart_props (uart : virt_region) (clock : Z) : props :=
  put_props (secure_extra uart) (put_props (pl011_base uart clock) []).

(** The node that names the standard output. *)
Definition stdout_node (uart : virt_region) : option path :=
  match uart with
  | VIRT_UART => Some ["chosen"%string]
  | VIRT_SECURE_UART => Some ["secure-chosen"%string]
  | _ => None
  end.

Definition with_stdout (uart : virt_region) (f : gmap path props) : gmap path props :=
  match stdout_node uart with
  | Some p => alter (put_prop "stdout-path" (PStr ("/" +:+ pl011 uart))) p f
  | None => f
  end.

Lemma pl011_not_chosen uart p : stdout_node uart = Some p -> p <> [pl011 uart].
Proof. destruct uart; cbn; try done; intros [= <-]; unfold pl011, node_at; done. Qed.

(** The end of [create_uart]: the status of the node and the standard output. *)
Lemma stdout_run uart l s :
  uart ∈ uarts -> (forall p, stdout_node uart = Some p -> is_Some (fdt s !! p)) ->
  let s1 := set_fdt (<[ [pl011 uart] := l ]> (fdt s)) s in
  (if bool_decide (uart = VIRT_UART) then
     qemu_fdt_setprop ["chosen"%string] "stdout-path" (PStr ("/" +:+ pl011 uart))
   else if bool_decide (uart = VIRT_SECURE_UART) then
     secure_status [pl011 uart] ;;
     qemu_fdt_setprop ["secure-chosen"%string] "stdout-path" (PStr ("/" +:+ pl011 uart))
   else ret tt) s1 =
  Ok (tt, set_fdt (with_stdout uart (<[ [pl011 uart] := put_props (secure_extra uart) l ]> (fdt s))) s, []).
Proof.
  intros Hu Ho. cbv zeta. set (s1 := set_fdt _ s).
  assert (forall p, stdout_node uart = Some p -> is_Some (fdt s1 !! p)) as Ho1.
  { intros p Hp. cbn. rewrite lookup_insert_ne; [by apply Ho|]. apply not_eq_sym. by apply pl011_not_chosen. }
  assert (is_Some (fdt s1 !! [pl011 uart])) as Hin by (cbn; rewrite lookup_insert_eq; by eexists).
  unfold uarts in Hu. rewrite !elem_of_cons, elem_of_nil in Hu. destruct Hu as [->|[->|[->|[]]]].
  - rewrite bool_decide_true by done. by rewrite setprop_run by by apply Ho1.
  - rewrite !bool_decide_false by done. done.
  - rewrite bool_decide_false, bool_decide_true by done. unfold secure_status.
    erewrite bind_ok by (by apply setprops_run). rewrite setprop_run.
    + cbn [app]. unfold s1, with_stdout, secure_extra. cbn. by rewrite alter_insert_eq.
    + cbn. apply is_Some_alter. by apply Ho1.
Qed.

(** The whole run, as one update of the tree. *)
Lemma create_uart_run uart mem0 chr s :
  uart ∈ uarts -> (forall x, chr = Some x -> chardev_accepts c (chardevs s) x = true) ->
  is_Some (fdt s !! []) -> fdt s !! [pl011 uart] = None ->
  (forall p, stdout_node uart = Some p -> is_Some (fdt s !! p)) ->
  create_uart c uart mem0 chr s =
    Ok (tt, set_fdt (with_stdout uart (<[ [pl011 uart] := uart_props uart (clock_phandle s) ]> (fdt s)))
              (set_chardevs (option_list chr ++ chardevs s) s),
        [MapRegion mem0 (base (memmap c uart)) "pl011"; WireLine "pl011" (a15irqmap uart)]).
Proof.
  intros Hu Hx Hr Hn Ho. unfold create_uart. cbv zeta. fold (pl011 uart).
  set (s1 := set_chardevs (option_list chr ++ chardevs s) s).
  assert (set_chardev c chr s = Ok (tt, s1, [])) as Hchr.
  { destruct chr as [x|]; [|by destruct s]. unfold set_chardev, bind, gets. by rewrite Hx. }
  erewrite bind_ok by exact Hchr. clear Hchr.
  unfold map_region, wire_line. erewrite (bind_ok _ _ s1 tt) by reflexivity.
  erewrite (bind_ok _ _ s1 tt) by reflexivity. 
  set (s2 := set_fdt (<[ [pl011 uart] := [] ]> (fdt s)) s1).
  assert (qemu_fdt_add_subnode [pl011 uart] s1 = Ok (tt, s2, [])) as Hsub.
  { apply (add_subnode_run s1 []); [done|]. apply free_for_at; [|done].
    unfold pl011, node_at. by rewrite has_at_app. }
  erewrite bind_ok by exact Hsub. clear Hsub. unfold gets at 1. erewrite (bind_ok _ _ s2) by reflexivity.
  assert (is_Some (fdt s2 !! [pl011 uart])) as H2 by (cbn; rewrite lookup_insert_eq; by eexists).
  erewrite bind_ok by (by apply setprops_run). change (clock_phandle s2) with (clock_phandle s).
  set (s3 := set_fdt (<[ [pl011 uart] := put_props (pl011_base uart (clock_phandle s)) [] ]> (fdt s)) s1).
  replace (set_fdt _ s2) with s3.
  2: { unfold s3, s2. cbn [fdt set_fdt]. by rewrite alter_insert_eq. }
  pose proof (stdout_run uart (put_props (pl011_base uart (clock_phandle s)) []) s1 Hu Ho) as Ht.
  cbv zeta in Ht. change (fdt s1) with (fdt s) in Ht. fold s3 in Ht. by rewrite Ht.
Qed.

(** C30: What [create_uart] leaves for the line the driver binds to, when it is
    given no character device or one that QEMU accepts.  It maps the PL011's
    window and wires its line, and nothing else; the node says the same window
    and line as the tables, level-triggered, and is closed to the normal world
    for the secure line only; the node named as the standard output is that of
    the first line, or the secure one's, never the second's, which is why the
    second is free for the network; no other node changes; and the character
    device counts as given away. *)
Theorem create_uart_spec uart mem0 chr s :
  uart ∈ uarts -> is_Some (fdt s !! []) -> fdt s !! [pl011 uart] = None ->
  (forall p, stdout_node uart = Some p -> is_Some (fdt s !! p)) ->
  (forall x, chr = Some x -> chardev_accepts c (chardevs s) x = true) ->
  exists s' l,
    create_uart c uart mem0 chr s =
      Ok (tt, s', [MapRegion mem0 (base (memmap c uart)) "pl011"; WireLine "pl011" (a15irqmap uart)]) /\
    fdt s' !! [pl011 uart] = Some l /\
    get_prop "reg" l = Some (PSized [(base (memmap c uart), size (memmap c uart))]) /\
    get_prop "interrupts" l = Some (PCells [GIC_FDT_IRQ_TYPE_SPI; a15irqmap uart; GIC_FDT_IRQ_FLAGS_LEVEL_HI]) /\
    get_prop "status" l = (if decide (uart = VIRT_SECURE_UART) then Some (PStr "disabled") else None) /\
    (forall p, (fdt s' !! p ≫= get_prop "stdout-path") =
       if decide (stdout_node uart = Some p) then Some (PStr ("/" +:+ pl011 uart))
       else if decide (p = [pl011 uart]) then None else fdt s !! p ≫= get_prop "stdout-path") /\
    (forall p, p <> [pl011 uart] -> stdout_node uart <> Some p -> fdt s' !! p = fdt s !! p) /\
    chardevs s' = option_list chr ++ chardevs s.
Proof.
  intros Hu Hr Hn Ho Hx.
  rewrite create_uart_run by done. eexists _, _. split; [done|]. cbn [fdt set_fdt].
  set (l := uart_props uart (clock_phandle s)).
  assert (forall p, stdout_node uart <> Some p -> with_stdout uart (<[ [pl011 uart] := l ]> (fdt s)) !! p =
    <[ [pl011 uart] := l ]> (fdt s) !! p) as Hother.
  { intros p Hp. unfold with_stdout. destruct (stdout_node uart) as [q|]; [|done].
    rewrite lookup_alter_ne by congruence. done. }
  assert (stdout_node uart <> Some [pl011 uart]) as Hne by (intros E; by apply pl011_not_chosen in E).
  rewrite Hother, lookup_insert_eq by done. split; [done|].
  unfold uarts in Hu. rewrite !elem_of_cons, elem_of_nil in Hu.
  split; [by destruct Hu as [->|[->|[->|[]]]]|]. split; [by destruct Hu as [->|[->|[->|[]]]]|].
  split; [by destruct Hu as [->|[->|[->|[]]]]|]. split; [|split].
  - intros p. case_decide as Hp.
    + destruct (Ho p Hp) as [y Hy]. unfold with_stdout. rewrite Hp, lookup_alter_eq.
      rewrite lookup_insert_ne by congruence. rewrite Hy. cbn. by rewrite get_prop_put, decide_True.
    + rewrite Hother by done. case_decide as Hq.
      * subst p. rewrite lookup_insert_eq. by destruct Hu as [->|[->|[->|[]]]].
      * by rewrite lookup_insert_ne by congruence.
  - intros p Hp Hq. rewrite Hother by done. by rewrite lookup_insert_ne by congruence.
  - done.
Qed.
End uart.

(** The second line of a board that has its root and [/chosen]. *)
Definition example_tree : board := set_fdt {[ [] := []; ["chosen"%string] := [] ]} empty_board.

Lemma create_uart_spec_witness :
  exists s' l, create_uart (example_cfg false None None) VIRT_UART2 Sysmem (Some 2) example_tree =
    Ok (tt, s', [MapRegion Sysmem 0x090c0000 "pl011"; WireLine "pl011" 10]) /\
    fdt s' !! ["pl011@90c0000"%string] = Some l /\ get_prop "interrupts" l = Some (PCells [0; 10; 4]).
Proof.
  destruct (create_uart_spec (example_cfg false None None) VIRT_UART2 Sysmem (Some 2) example_tree)
    as (s' & l & H1 & H2 & _ & H4 & _);
    [right; by left|by eexists|reflexivity|discriminate|by intros x [= <-]|].
  exists s', l. split; [exact H1|]. split; [exact H2|exact H4].
Defined.
