(* ===== verification/VirtCpus.v ===== *)
(** * The nodes of the CPUs

    The part of the device tree whose names depend on the number of CPUs, and
    what a path that leaves out unit addresses finds in it. *)

From S2P Require Import Prelude VirtBoard VirtGic VirtIrq VirtFdt VirtDevices VirtBuild.

Implicit Types s : board.

Definition has_phandle s (p : path) : Prop :=
  exists l, fdt s !! p = Some l /\ is_Some (get_prop "phandle" l).

(** The nodes [N] are new; no phandle is lost and no serial line changes. *)
Record grown (N : list path) s s' : Prop := mkGrown {
  gr_nodes p : is_Some (fdt s' !! p) <-> p ∈ N \/ is_Some (fdt s !! p);
  gr_phandle p : has_phandle s p -> has_phandle s' p;
  gr_kept : kept s s';
}.

#[export] Instance grown_refl : Reflexive (grown []).
Proof.
  intros s. split; [|done|by split]. intros p. split; [by right|]. intros [Hp|?]; [|done]. by apply elem_of_nil in Hp.
Qed.

Lemma grown_same s s' : fdt s' = fdt s -> kept s s' -> grown [] s s'.
Proof.
  intros E C. destruct (grown_refl s) as [H1 H2 H3]. split; unfold has_phandle in *; rewrite ?E; [done|auto|done].
Qed.

Lemma grown_trans N1 N2 s1 s2 s3 : grown N1 s1 s2 -> grown N2 s2 s3 -> grown (N2 ++ N1) s1 s3.
Proof.
  intros [A1 P1 C1] [A2 P2 C2]. split; [|auto|by transitivity s2]. intros p. rewrite A2, A1, elem_of_app. tauto.
Qed.

Lemma phandle_put name v l : is_Some (get_prop "phandle" l) -> is_Some (get_prop "phandle" (put_prop name v l)).
Proof. intros Hl. rewrite get_prop_put. case_decide; [by eexists|done]. Qed.

Lemma alter_grown s q name v : grown [] s (set_fdt (alter (put_prop name v) q (fdt s)) s).
Proof.
  split; cbn; [|intros p (l & Hl & Hp)|by split].
  - intros p. rewrite is_Some_alter. split; [by right|]. intros [Hp|?]; [|done]. by apply elem_of_nil in Hp.
  - unfold has_phandle; cbn. destruct (decide (q = p)) as [->|Hne].
    + rewrite lookup_alter_eq, Hl. cbn. eexists. split; [reflexivity|]. by apply phandle_put.
    + rewrite lookup_alter_ne by done. by exists l.
Qed.

Lemma setprop_grown s p name v :
  is_Some (fdt s !! p) -> wp (qemu_fdt_setprop p name v) s (fun _ s' _ => grown [] s s').
Proof. intros Hp. unfold wp. rewrite setprop_run by done. apply alter_grown. Qed.

Lemma setprops_grown s p l :
  is_Some (fdt s !! p) -> wp (setprops p l) s (fun _ s' _ => grown [] s s').
Proof.
  revert s. induction l as [|[n v] l IH]; intros s Hp; [apply grown_refl|].
  apply wp_bind. eapply wp_mono; [by apply setprop_grown|]. intros [] s1 e1 G1.
  eapply wp_mono; [apply IH; apply (gr_nodes _ _ _ G1); by right|]. intros [] s2 e2 G2.
  exact (grown_trans _ _ _ _ _ G1 G2).
Qed.

Lemma insert_grown s p : fdt s !! p = None -> grown [p] s (set_fdt (<[p := []]> (fdt s)) s).
Proof.
  intros Hn. split; cbn; [|intros q (l & Hl & Hp)|by split].
  - intros q. rewrite list_elem_of_singleton. destruct (decide (p = q)) as [<-|Hne].
    + rewrite lookup_insert_eq. split; [by left|by eexists].
    + rewrite lookup_insert_ne by done. split; [by right|]. intros [?|?]; [congruence|done].
  - exists l. cbn. rewrite lookup_insert_ne by congruence. done.
Qed.

Lemma add_subnode_grown s q name :
  is_Some (fdt s !! q) -> free_for (fdt s) q name ->
  wp (qemu_fdt_add_subnode (q ++ [name])) s (fun _ s' _ => grown [q ++ [name]] s s').
Proof.
  intros Hq Hf. unfold wp. rewrite add_subnode_run by done. apply insert_grown.
  destruct (fdt s !! (q ++ [name])) eqn:E; [|done].
  specialize (Hf (q ++ [name]) ltac:(by eexists)). unfold child_named in Hf.
  destruct (q ++ [name]) as [|x p] eqn:Ep; [by destruct q|]. rewrite <- Ep in Hf.
  by rewrite removelast_last, last_last, bool_decide_true, comp_matches_refl in Hf.
Qed.

(** ** One CPU *)

Section cpus.
Context (c : board_cfg).

Lemma cpu_node_inj i j : cpu_node i = cpu_node j -> i = j.
Proof. unfold cpu_node. intros [= H]. by apply pretty_Z_inj in H. Qed.

Lemma add_cpu_node_grown s cpu :
  is_Some (fdt s !! ["cpus"%string]) -> fdt s !! cpu_node cpu = None ->
  wp (add_cpu_node c cpu) s (fun _ s' _ => grown [cpu_node cpu] s s' /\
    (no_cpu_topology c = false -> has_phandle s' (cpu_node cpu))).
Proof.
  intros Hpar Hn. unfold add_cpu_node. apply wp_bind.
  eapply wp_mono.
  { apply (add_subnode_grown s ["cpus"%string]); [done|]. by apply free_for_at. }
  intros [] s1 e1 G1. change (["cpus"%string] ++ _) with (cpu_node cpu) in G1.
  assert (is_Some (fdt s1 !! cpu_node cpu)) as H1 by (apply (gr_nodes _ _ _ G1); left; by left).
  apply wp_bind. eapply wp_mono; [by apply setprops_grown|]. intros [] s2 e2 G2.
  assert (is_Some (fdt s2 !! cpu_node cpu)) as [l H2] by (apply (gr_nodes _ _ _ G2); by right).
  destruct (no_cpu_topology c); cbn [negb when].
  { split; [|done]. exact (grown_trans _ _ _ _ _ G1 G2). }
  unfold qemu_fdt_alloc_phandle, wp, bind, gets, modify, ret.
  rewrite setprop_run by (by eexists). split.
  - assert (grown [] s2 (set_phandles (phandles s2 + 1) s2)) as G3.
    { apply grown_same; [done|]. split; cbn; [done|lia]. }
    pose proof (alter_grown (set_phandles (phandles s2 + 1) s2) (cpu_node cpu) "phandle" (PCells [phandles s2])) as G4.
    exact (grown_trans _ _ _ _ _ (grown_trans _ _ _ _ _ (grown_trans _ _ _ _ _ G1 G2) G3) G4).
  - intros _. eexists. cbn. rewrite lookup_alter_eq, H2. split; [reflexivity|].
    rewrite get_prop_put, decide_True by done. by eexists.
Qed.

(** The loop over the CPUs, [d] being those it has done. *)
Record cpus_added (d : list Z) s0 s : Prop := mkAdded {
  ca_grown : exists N, grown N s0 s /\ (forall p, p ∈ N -> exists cpu, cpu ∈ d /\ p = cpu_node cpu);
  ca_node cpu : cpu ∈ d -> is_Some (fdt s !! cpu_node cpu);
  ca_phandle cpu : no_cpu_topology c = false -> cpu ∈ d -> has_phandle s (cpu_node cpu);
}.

Lemma cpu_loop l : forall d s0 s,
  cpus_added d s0 s -> NoDup (l ++ d) -> is_Some (fdt s0 !! ["cpus"%string]) ->
  (forall cpu, fdt s0 !! cpu_node cpu = None) ->
  wp (for_each l (add_cpu_node c)) s (fun _ s' _ => cpus_added (rev l ++ d) s0 s').
Proof.
  induction l as [|cpu l IH]; intros d s0 s [(N & G & HN) Hin Hph] Hnd Hc Hf.
  { split; [by exists N|done..]. }
  cbn [app] in Hnd. apply NoDup_cons in Hnd as [Hcpu Hnd].
  assert (fdt s !! cpu_node cpu = None) as Hn.
  { destruct (fdt s !! cpu_node cpu) as [x|] eqn:E; [|done].
    destruct (proj1 (gr_nodes _ _ _ G (cpu_node cpu))) as [HNc|[y Hy]]; [by eexists| |by rewrite Hf in Hy].
    destruct (HN _ HNc) as (j & Hj & E2). apply cpu_node_inj in E2. subst j.
    destruct Hcpu. apply elem_of_app. by right. }
  cbn [for_each]. apply wp_bind. eapply wp_mono; [apply add_cpu_node_grown; [|done]|].
  { apply (gr_nodes _ _ _ G). by right. }
  intros [] s1 e1 [G1 P1]. cbn [rev]. rewrite <- app_assoc.
  cbn [app]. apply IH; [|rewrite <- Permutation_middle; by constructor|done..]. split.
  - eexists. split; [exact (grown_trans _ _ _ _ _ G G1)|]. intros p [Hp|Hp]%elem_of_app.
    + apply list_elem_of_singleton in Hp as ->. exists cpu. split; [by left|done].
    + destruct (HN p Hp) as (j & Hj & ->). exists j. split; [by right|done].
  - intros j [->|Hj]%elem_of_cons; apply (gr_nodes _ _ _ G1); [left; by left|right; by apply Hin].
  - intros j Ht [->|Hj]%elem_of_cons; [by apply P1|]. by apply (gr_phandle _ _ _ G1), Hph.
Qed.

(** ** The topology *)

(** A node found by a path is one of the tree that matches it. *)
Lemma prefix_app a b : String.prefix a b = true -> exists r, b = a +:+ r.
Proof.
  revert b. induction a as [|x a IH]; intros b; [by exists b|].
  destruct b as [|y b]; [done|]. cbn. destruct (Ascii.ascii_dec x y) as [->|]; [|done].
  intros [r ->]%IH. by exists r.
Qed.

Lemma comp_matches_trans a b d :
  comp_matches a b = true -> comp_matches b d = true -> comp_matches a d = true.
Proof.
  unfold comp_matches. destruct (decide (a = b)) as [->|Hab]; [done|].
  rewrite (bool_decide_false (a = b)) by done. cbn [orb]. intros [Ha Hp]%andb_true_iff.
  assert (has_at b = true) as Hb.
  { apply prefix_app in Hp as [r ->]. by rewrite !has_at_app, orb_true_r. }
  rewrite Hb. cbn [negb andb]. rewrite orb_false_r. intros ->%bool_decide_eq_true.
  by rewrite Ha, Hp, orb_true_r.
Qed.

Lemma path_matches_snoc w pre a q :
  path_matches w pre = true -> path_matches (pre ++ [a]) q = true -> path_matches (w ++ [a]) q = true.
Proof.
  revert pre q. induction w as [|x w IH]; intros [|y pre] [|z q]; cbn; try done.
  intros [H1 H2]%andb_true_iff [H3 H4]%andb_true_iff. apply andb_true_iff. split.
  - by eapply comp_matches_trans.
  - by eapply IH.
Qed.

Lemma fdt_find_matches (f : gmap path props) p q :
  fdt_find f p = Some q -> is_Some (f !! q) /\ path_matches p q = true.
Proof.
  unfold fdt_find. destruct (f !! p) as [x|] eqn:E.
  - intros [= <-]. split; [by eexists|apply path_matches_refl].
  - destruct (list_find _ _) as [[i [r l]]|] eqn:Hf; [|done]. intros [= <-].
    apply list_find_Some in Hf as (Hl & Hm & _). split; [|done].
    apply list_elem_of_lookup_2, elem_of_map_to_list in Hl. by eexists.
Qed.

Lemma fdt_find_some (f : gmap path props) p q :
  is_Some (f !! q) -> path_matches p q = true -> is_Some (fdt_find f p).
Proof.
  intros [l Hq] Hm. unfold fdt_find. destruct (f !! p); [by eexists|].
  destruct (list_find _ _) as [[i [r x]]|] eqn:Hf; [by eexists|].
  apply list_find_None in Hf. rewrite Forall_forall in Hf.
  destruct (Hf (q, l)); [by apply elem_of_map_to_list|done].
Qed.

(** No node but those under ["/cpus"] can be taken for one of them. *)
Definition sole_cpus s : Prop :=
  forall p, is_Some (fdt s !! p) -> path_matches ["cpus"%string] (take 1 p) = true -> under_cpus p = true.

Lemma under_matches w p : under_cpus w = true -> path_matches w p = true ->
  path_matches ["cpus"%string] (take 1 p) = true.
Proof.
  destruct w as [|a w], p as [|b p]; cbn; try done.
  intros ->%bool_decide_eq_true [H _]%andb_true_iff. by rewrite H.
Qed.

Lemma sole_grown N s s' :
  sole_cpus s -> grown N s s' -> Forall (fun p => under_cpus p = true) N -> sole_cpus s'.
Proof.
  intros Hs G HN p [Hp|Hp]%(gr_nodes _ _ _ G) Hm; [|by apply Hs].
  rewrite Forall_forall in HN. by apply HN.
Qed.

Definition grown_cpus s s' : Prop :=
  exists N, grown N s s' /\ Forall (fun p => under_cpus p = true) N.

#[export] Instance grown_cpus_preorder : PreOrder grown_cpus.
Proof.
  split; [intros s; exists []; by split; [apply grown_refl|constructor]|].
  intros s1 s2 s3 (N1 & G1 & H1) (N2 & G2 & H2). eexists. split; [exact (grown_trans _ _ _ _ _ G1 G2)|].
  by apply Forall_app.
Qed.

Lemma under_app p q : under_cpus p = true -> under_cpus (p ++ q) = true.
Proof. by destruct p. Qed.

(** [qemu_fdt_add_path] never fails; it leaves a node that the path finds. *)
Lemma add_path_grown p : forall w pre s,
  path_matches w pre = true -> under_cpus pre = true -> is_Some (fdt s !! pre) -> sole_cpus s ->
  wp (add_path_go pre p) s (fun _ s' _ => is_Some (fdt_find (fdt s') (w ++ p)) /\ grown_cpus s s').
Proof.
  induction p as [|a p IH]; intros w pre s Hm Hu Hpre Hsole.
  { rewrite app_nil_r. split; [by eapply fdt_find_some|done]. }
  cbn [add_path_go]. apply wp_bind. unfold gets at 1. unfold wp at 1.
  replace (w ++ a :: p) with ((w ++ [a]) ++ p) by by rewrite <- app_assoc.
  destruct (fdt_find (fdt s) (pre ++ [a])) as [q|] eqn:Hf.
  - apply fdt_find_matches in Hf as [Hq Hmq].
    assert (under_cpus q = true) as Huq.
    { apply Hsole; [done|]. eapply under_matches; [|done]. by apply under_app. }
    by apply (IH (w ++ [a]) q s (path_matches_snoc _ _ _ _ Hm Hmq)).
  - assert (fdt s !! (pre ++ [a]) = None) as Hn.
    { destruct (fdt s !! (pre ++ [a])) eqn:E; [|done]. unfold fdt_find in Hf. by rewrite E in Hf. }
    pose proof (insert_grown s (pre ++ [a]) Hn) as G1. apply wp_bind. unfold modify at 1. unfold wp at 1.
    set (s1 := set_fdt _ s) in *.
    assert (Forall (fun p => under_cpus p = true) [pre ++ [a]]) as HN.
    { repeat constructor. by apply under_app. }
    eapply wp_mono; [apply (IH (w ++ [a]) (pre ++ [a]) s1)|].
    + eapply path_matches_snoc; [done|apply path_matches_refl].
    + by apply under_app.
    + apply (gr_nodes _ _ _ G1). left. by left.
    + by eapply sole_grown.
    + intros [] s2 e2 [Hs H2]. split; [done|]. transitivity s1; [by eexists|done].
Qed.

Lemma setprop_found s p name v :
  is_Some (fdt_find (fdt s) p) -> wp (qemu_fdt_setprop p name v) s (fun _ s' _ => grown [] s s').
Proof.
  intros [q Hq]. unfold qemu_fdt_setprop, find_node, wp, bind, gets, of_opt. rewrite Hq. cbn.
  apply alter_grown.
Qed.

Lemma find_grown N s s' p :
  grown N s s' -> is_Some (fdt_find (fdt s) p) -> is_Some (fdt_find (fdt s') p).
Proof.
  intros G [q Hq]. apply fdt_find_matches in Hq as [Hin Hm].
  apply (fdt_find_some _ _ q); [|done]. apply (gr_nodes _ _ _ G). by right.
Qed.

Lemma add_map_node_grown s cpu :
  is_Some (fdt s !! ["cpus"%string]) -> has_phandle s (cpu_node cpu) -> sole_cpus s ->
  wp (add_map_node c cpu) s (fun _ s' _ => grown_cpus s s' /\ is_Some (fdt_find (fdt s') (map_node c cpu))).
Proof.
  intros Hc Hph Hsole. unfold add_map_node. apply wp_bind.
  assert (exists rest, map_node c cpu = ["cpus"%string] ++ rest) as [rest Hr].
  { unfold map_node. destruct (1 <? threads c); by eexists. }
  rewrite Hr. unfold qemu_fdt_add_path. cbn [app add_path_go]. apply wp_bind. unfold gets at 1, wp at 1.
  cbn [app]. rewrite fdt_find_here by done. change ("cpus"%string :: rest) with (["cpus"%string] ++ rest).
  eapply wp_mono; [apply (add_path_grown rest ["cpus"%string]); done|]. intros [] s1 e1 [Hs G1].
  destruct G1 as (N & G1 & HN). destruct (gr_phandle _ _ _ G1 _ Hph) as (l & Hl & v & Hv).
  unfold qemu_fdt_setprop_phandle. apply wp_bind. unfold wp at 1.
  rewrite find_node_run by (by eexists). apply wp_bind. unfold gets at 1, wp at 1.
  rewrite Hl. cbn [option_bind mbind]. apply wp_bind. unfold of_opt, wp at 1. cbn [mbind option_bind].
  rewrite Hv. eapply wp_mono; [by apply setprop_found|]. intros [] s2 e2 G2.
  split; [|by eapply find_grown].
  exists ([] ++ N). split; [exact (grown_trans _ _ _ _ _ G1 G2)|done].
Qed.

Lemma map_loop l : forall s,
  is_Some (fdt s !! ["cpus"%string]) -> (forall cpu, cpu ∈ l -> has_phandle s (cpu_node cpu)) -> sole_cpus s ->
  wp (for_each l (add_map_node c)) s (fun _ s' _ => grown_cpus s s' /\
    forall cpu, cpu ∈ l -> is_Some (fdt_find (fdt s') (map_node c cpu))).
Proof.
  induction l as [|cpu l IH]; intros s Hc Hph Hsole.
  { split; [by apply (reflexivity (R := grown_cpus))|]. intros cpu Hin. by apply elem_of_nil in Hin. }
  apply wp_bind. eapply wp_mono; [apply add_map_node_grown; [done|apply Hph; by left|done]|].
  intros [] s1 e1 [(N & G & HN) Hfind]. eapply wp_mono; [apply IH|].
  - apply (gr_nodes _ _ _ G). by right.
  - intros j Hj. apply (gr_phandle _ _ _ G), Hph. by right.
  - by eapply sole_grown.
  - intros [] s2 e2 [G2 Hl]. split; [transitivity s1; [by exists N|done]|].
    destruct G2 as (N2 & G2 & _). intros j [->|Hj]%elem_of_cons; [by eapply find_grown|by apply Hl].
Qed.

(** ** All CPU nodes *)

Lemma grown_tree A B s s' : tree false A B s -> grown_cpus s s' -> tree true A B s' /\ kept s s'.
Proof.
  intros [HA HB] (N & G & HN). split; [|apply (gr_kept _ _ _ G)]. split.
  - intros p Hp. apply (gr_nodes _ _ _ G). right. by apply HA.
  - rewrite Forall_forall in HN. intros p [Hp|Hp]%(gr_nodes _ _ _ G).
    + right. split; [done|]. by apply HN.
    + destruct (HB p Hp) as [|[? _]]; [by left|done].
Qed.

Definition not_cpus (p : path) : bool := negb (path_matches ["cpus"%string] (take 1 p)).

(** The topology, once the CPUs' nodes are there. *)
Lemma cpu_map_grown s :
  is_Some (fdt s !! ["cpus"%string]) -> free_for (fdt s) ["cpus"%string] "cpu-map" -> sole_cpus s ->
  (forall cpu, cpu ∈ seqZ 0 (smp_cpus (opts c)) -> has_phandle s (cpu_node cpu)) ->
  wp (qemu_fdt_add_subnode ["cpus"; "cpu-map"]%string ;;
      for_each (rev (seqZ 0 (smp_cpus (opts c)))) (add_map_node c)) s (fun _ s' _ => grown_cpus s s' /\
    is_Some (fdt s' !! ["cpus"; "cpu-map"]%string) /\
    forall cpu, cpu ∈ seqZ 0 (smp_cpus (opts c)) -> is_Some (fdt_find (fdt s') (map_node c cpu))).
Proof.
  intros Hc Hn Hsole Hph. apply wp_bind.
  eapply wp_mono; [by apply (add_subnode_grown s ["cpus"%string] "cpu-map")|]. intros [] s4 e4 G4.
  assert (is_Some (fdt s4 !! ["cpus"%string])) as H4 by (apply (gr_nodes _ _ _ G4); by right).
  eapply wp_mono; [apply map_loop; [done| |]|].
  - intros cpu Hin. apply (gr_phandle _ _ _ G4), Hph. by rewrite <- Permutation_rev in Hin.
  - eapply sole_grown; [done|done|by repeat constructor].
  - intros [] s5 e5 [G5 Hl]. split; [transitivity s4; [eexists; split; [done|by repeat constructor]|done]|].
    split; [|intros cpu Hin; apply Hl; by rewrite <- Permutation_rev].
    destruct G5 as (N5 & G5 & _). apply (gr_nodes _ _ _ G5). right. apply (gr_nodes _ _ _ G4). left. by left.
Qed.

(** What the function leaves. *)
Record cpus_there s : Prop := mkCpusThere {
  ct_cpus : is_Some (fdt s !! ["cpus"%string]);
  ct_cpu cpu : cpu ∈ seqZ 0 (smp_cpus (opts c)) -> is_Some (fdt s !! cpu_node cpu);
  ct_map : no_cpu_topology c = false -> is_Some (fdt s !! ["cpus"; "cpu-map"]%string);
  ct_topology cpu : no_cpu_topology c = false -> cpu ∈ seqZ 0 (smp_cpus (opts c)) ->
    is_Some (fdt_find (fdt s) (map_node c cpu));
}.

Lemma cpu_not_map (cpu : Z) : comp_matches "cpu-map" ("cpu@" +:+ pretty cpu) = false.
Proof. unfold comp_matches. by rewrite bool_decide_false. Qed.

Lemma add_cpu_nodes_grown s A B :
  tree false A B s -> mem [] A = true -> forallb not_cpus B = true ->
  wp (fdt_add_cpu_nodes c) s (fun _ s' _ => grown_cpus s s' /\ cpus_there s').
Proof.
  intros [HA HB] Hr%mem_true Hnc. rewrite forallb_forall in Hnc.
  assert (forall p, is_Some (fdt s !! p) -> path_matches ["cpus"%string] (take 1 p) = false) as Hs0.
  { intros p Hp. destruct (HB p Hp) as [Hin|[? _]]; [|done]. apply list_elem_of_In, Hnc in Hin.
    by apply negb_true_iff in Hin. }
  assert (forall p, under_cpus p = true -> fdt s !! p = None) as Hfree.
  { intros p Hp. destruct (fdt s !! p) eqn:E; [|done]. specialize (Hs0 p ltac:(by eexists)).
    pose proof (under_matches p p Hp (path_matches_refl p)) as Hm. by rewrite Hs0 in Hm. }
  unfold fdt_add_cpu_nodes. apply wp_bind.
  eapply wp_mono; [apply (add_subnode_grown s [] "cpus"); [by apply HA|]|].
  { intros r Hrr. apply not_true_iff_false. intros (b & -> & Hb)%child_named_spec.
    specialize (Hs0 _ Hrr). cbn in Hs0. by rewrite Hb in Hs0. }
  intros [] s1 e1 G1. cbn [app] in G1.
  assert (is_Some (fdt s1 !! ["cpus"%string])) as H1 by (apply (gr_nodes _ _ _ G1); left; by left).
  apply wp_bind. eapply wp_mono; [by apply setprops_grown|]. intros [] s2 e2 G2.
  pose proof (grown_trans _ _ _ _ _ G1 G2) as G. cbn [app] in G. clear G1 G2 H1.
  assert (is_Some (fdt s2 !! ["cpus"%string])) as H2 by (apply (gr_nodes _ _ _ G); left; by left).
  assert (forall p, under_cpus p = true -> p <> ["cpus"%string] -> fdt s2 !! p = None) as Hf2.
  { intros p Hp Hne. destruct (fdt s2 !! p) eqn:E; [|done].
    destruct (proj1 (gr_nodes _ _ _ G p)) as [Hin|Hin]; [by eexists| |].
    - apply list_elem_of_singleton in Hin. congruence.
    - rewrite Hfree in Hin by done. by destruct Hin. }
  apply wp_bind. eapply wp_mono.
  { apply (cpu_loop _ [] s2 s2); [|rewrite app_nil_r|done|].
    - split; [|intros j Hj; by apply elem_of_nil in Hj|intros j _ Hj; by apply elem_of_nil in Hj].
      exists []. split; [apply grown_refl|]. intros p Hp. by apply elem_of_nil in Hp.
    - rewrite <- Permutation_rev. apply NoDup_seqZ.
    - intros cpu. by apply Hf2. }
  intros [] s3 e3 [(N & G3 & HN) Hin3 Hph]. rewrite app_nil_r, rev_involutive in *.
  assert (grown_cpus s s3) as Hg.
  { eexists. split; [exact (grown_trans _ _ _ _ _ G G3)|]. apply Forall_app. split; [|by repeat constructor].
    apply Forall_forall. intros p Hp. by destruct (HN p Hp) as (j & _ & ->). }
  assert (is_Some (fdt s3 !! ["cpus"%string])) as H3 by (apply (gr_nodes _ _ _ G3); by right).
  destruct (no_cpu_topology c) eqn:Ht; cbn [negb when]; [split; [done|by split; rewrite ?Ht]|].
  assert (sole_cpus s3) as Hsole.
  { destruct Hg as (N' & G' & HN'). eapply sole_grown; [|done|done]. intros p Hp Hm.
    by rewrite Hs0 in Hm. }
  eapply wp_mono; [apply cpu_map_grown; [done| |done|by intros; apply Hph]|].
  { intros r Hrr. apply not_true_iff_false. intros (b & -> & Hb)%child_named_spec.
    apply (gr_nodes _ _ _ G3) in Hrr as [Hin|Hin].
    - destruct (HN _ Hin) as (j & _ & [= ->]). by rewrite cpu_not_map in Hb.
    - rewrite Hf2 in Hin by done. by destruct Hin. }
  intros [] s4 e4 (G4 & Hmap & Htop). split; [by transitivity s3|]. destruct G4 as (N4 & G4 & _).
  split; [| |by intros _|intros cpu _; apply Htop]; [|intros cpu Hin];
    apply (gr_nodes _ _ _ G4); right; [done|by apply Hin3].
Qed.

(** The nodes that are there, as a list; those of the topology are some nodes
    the topology's paths find. *)
Definition cpu_nodes : list path := (cpu_node <$> seqZ 0 (smp_cpus (opts c))) ++ [["cpus"%string]].

Definition topology (Q : list path) : Prop :=
  no_cpu_topology c = false -> ["cpus"; "cpu-map"]%string ∈ Q /\
    forall cpu, cpu ∈ seqZ 0 (smp_cpus (opts c)) -> exists q, q ∈ Q /\ path_matches (map_node c cpu) q = true.

Lemma exists_list {X Y : Type} (l : list X) (P : X -> Y -> Prop) :
  (forall x, x ∈ l -> exists y, P x y) ->
  exists Q : list Y, (forall y, y ∈ Q -> exists x, P x y) /\ forall x, x ∈ l -> exists y, y ∈ Q /\ P x y.
Proof.
  induction l as [|x l IH]; intros Hl.
  { exists []. split; intros ? Hin; by apply elem_of_nil in Hin. }
  destruct IH as (Q & H1 & H2); [intros y Hy; apply Hl; by right|].
  destruct (Hl x) as [y Hy]; [by left|]. exists (y :: Q). split.
  - intros z [->|Hz]%elem_of_cons; [by exists x|by apply H1].
  - intros z [->|Hz]%elem_of_cons; [exists y; split; [by left|done]|].
    destruct (H2 z Hz) as (w & Hw & Hp). exists w. split; [by right|done].
Qed.

Lemma topology_there s :
  cpus_there s -> exists Q, topology Q /\ forall q, q ∈ Q -> is_Some (fdt s !! q).
Proof.
  intros [_ _ Hm Ht]. unfold topology. destruct (no_cpu_topology c).
  { exists []. split; [done|]. intros q Hq. by apply elem_of_nil in Hq. }
  destruct (exists_list (seqZ 0 (smp_cpus (opts c)))
    (fun cpu q => is_Some (fdt s !! q) /\ path_matches (map_node c cpu) q = true)) as (Q & H1 & H2).
  { intros cpu Hcpu. destruct (Ht cpu eq_refl Hcpu) as [q Hq]. exists q. by apply fdt_find_matches. }
  exists (["cpus"; "cpu-map"]%string :: Q). split.
  - intros _. split; [by left|]. intros cpu Hcpu. destruct (H2 cpu Hcpu) as (q & Hq & _ & Hmq).
    exists q. split; [by right|done].
  - intros q [->|Hq]%elem_of_cons; [by apply Hm|]. by destruct (H1 q Hq) as (cpu & ? & _).
Qed.

Lemma cpu_nodes_tree s A B :
  tree false A B s -> mem [] A = true -> forallb not_cpus B = true ->
  wp (fdt_add_cpu_nodes c) s (fun _ s' _ => kept s s' /\
    exists Q, topology Q /\ tree true (Q ++ cpu_nodes ++ A) B s').
Proof.
  intros Ht Hr Hn. eapply wp_mono; [by apply (add_cpu_nodes_grown s A B)|]. intros [] s' es [Hg Hc].
  destruct (grown_tree _ _ _ _ Ht Hg) as [[HA HB] C]. split; [done|].
  destruct (topology_there s' Hc) as (Q & HQ & HinQ). exists Q. split; [done|]. split; [|done].
  destruct Hc as [H1 H2 _ _]. intros p [Hp|[Hp|Hp]%elem_of_app]%elem_of_app; [by apply HinQ| |by apply HA].
  unfold cpu_nodes in Hp. apply elem_of_app in Hp as [Hp| ->%list_elem_of_singleton]; [|done].
  apply list_elem_of_fmap in Hp as (cpu & -> & Hcpu). by apply H2.
Qed.
End cpus.
