(* ===== verification/VirtInit.v ===== *)
(** * The whole board is built

    The construction [machvirt_init] does, from the memory map to the loader of
    the kernel: it never fails on a node or property of its own, and what it
    leaves; and the secure machine that does fail.
    The interrupt controller's children are found under ["/intc"], without its
    address. *)

From S2P Require Import Prelude VirtBoard VirtGic VirtIrq VirtFdt VirtDevices VirtMachine VirtBuild VirtCpus.

Implicit Types s : board.

(** The outcome of a computation satisfies [Q], a failure included. *)
Definition ends {A : Type} (m : boardM A) s (Q : fault + board -> Prop) : Prop :=
  match m s with
  | Ok (_, s', _) => Q (inr s')
  | Stop f => Q (inl f)
  end.

Lemma ends_bind {A B : Type} (m : boardM A) (k : A -> boardM B) s Q :
  wp m s (fun a s' _ => ends (k a) s' Q) -> ends (bind m k) s Q.
Proof.
  unfold wp, ends, bind. destruct (m s) as [[[a s1] e1]|]; [|done].
  by destruct (k a s1) as [[[? ?] ?]|].
Qed.

Lemma bind_stop {A B : Type} (m : boardM A) (k : A -> boardM B) s f :
  wp m s (fun a s' _ => k a s' = Stop f) -> bind m k s = Stop f.
Proof. unfold wp, bind. destruct (m s) as [[[a s1] e1]|]; [|done]. by intros ->. Qed.

Lemma ends_stop {A B : Type} (m : boardM A) (k : A -> boardM B) s f (Q : fault + board -> Prop) :
  m s = Stop f -> Q (inl f) -> ends (bind m k) s Q.
Proof. intros Hm HQ. unfold ends, bind. by rewrite Hm. Qed.

Lemma wp_ends {A : Type} (m : boardM A) s (Q : fault + board -> Prop) :
  wp m s (fun _ s' _ => Q (inr s')) -> ends m s Q.
Proof. unfold wp, ends. by destruct (m s) as [[[? ?] ?]|]. Qed.

(** What a step of the construction does before the rest of it. *)
Lemma ends_builds {X Y : Type} A B A' B' cpus (m : boardM X) (k : X -> boardM Y) s Q :
  tree cpus A B s -> 0 < phandles s -> builds cpus A B m A' B' ->
  (forall x s', tree cpus A' B' s' -> 0 < phandles s' -> chardevs s' = chardevs s -> ends (k x) s' Q) ->
  ends (bind m k) s Q.
Proof.
  intros Ht Hp Hm Hk. apply ends_bind. eapply wp_mono; [by apply Hm|]. intros x s' es [? [? ?]].
  apply Hk; [done|lia|done].
Qed.

(** A node in a list, by its end. *)
Lemma mem_cons_r p x l : mem p l = true -> mem p (x :: l) = true.
Proof. intros H. by rewrite mem_cons, H, orb_true_r. Qed.
Lemma mem_app_r p l1 l2 : mem p l2 = true -> mem p (l1 ++ l2) = true.
Proof. intros H%mem_true. apply bool_decide_eq_true, elem_of_app. by right. Qed.
Lemma within_one p l : mem p l = true -> within [p] l = true.
Proof. intros H. unfold within. cbn. by rewrite H. Qed.

Ltac solve_in := first [assumption | apply within_one; solve_in | apply mem_cons_r; solve_in
                       | apply mem_app_r; solve_in | reflexivity].

(** The low regions of a laid out map are those of the table. *)
Lemma virt_set_memmap_low `{QH : QemuHeaders} ms v r :
  virt_set_memmap ms = inr v -> low_b r = true -> VirtBoard.memmap v r = base_memmap r.
Proof.
  intros Hv Hr%negb_true_iff%bool_decide_eq_false. unfold virt_set_memmap in Hv.
  destruct (_ <? ram_slots ms); [done|]. cbv zeta in Hv. destruct (_ <? _); [done|].
  unfold extended_memmap in Hv. cbn [place_high] in Hv. injection Hv as <-. cbn [VirtBoard.memmap].
  unfold set_entry, high_regions in *. rewrite !elem_of_cons in Hr.
  rewrite !decide_False by naive_solver. done.
Qed.

Lemma virt_set_memmap_code `{QH : QemuHeaders} ms e : virt_set_memmap ms = inl e -> e = 1.
Proof.
  unfold virt_set_memmap. destruct (_ <? ram_slots ms); [by intros [= <-]|]. cbv zeta.
  destruct (_ <? _); [by intros [= <-]|]. by destruct (place_high _ _ _).
Qed.

Lemma firmware_choice_code f e : firmware_choice f = inl e -> e = 1.
Proof.
  unfold firmware_choice. destruct (bios_name f), (pflash_blk0 f), (bios_found f); cbn;
    try destruct (_ <? 0); by intros [= <-].
Qed.

Lemma finalize_code `{QH : QemuHeaders} h n v e : finalize_gic_version h n v = inl e -> e = 1.
Proof.
  unfold finalize_gic_version, check_supported. intros H. repeat case_match; simplify_eq; done.
Qed.

Lemma machvirt_gic_code `{QH : QemuHeaders} h o v e : machvirt_gic h o v = inl e -> e = 1.
Proof.
  unfold machvirt_gic. destruct (finalize_gic_version h (max_cpus o) v) as [e'|w] eqn:E.
  - intros [= <-]. by eapply finalize_code.
  - destruct (negb _); by intros [= <-].
Qed.

Lemma machvirt_cpus_code `{QH : QemuHeaders} h m o fw v e : machvirt_cpus h m o fw v = inl e -> e = 1.
Proof.
  unfold machvirt_cpus. destruct (_ <? _); [by intros [= <-]|]. destruct (virt o && _); [by intros [= <-]|].
  destruct (mte o && _); by intros [= <-].
Qed.

Section init.
Context `{QH : QemuHeaders} (c : board_cfg).
Context (Hlow : forall r, low_b r = true -> memmap c r = base_memmap r).

Ltac low :=
  cbv zeta;
  repeat match goal with |- context [memmap c ?r] => rewrite (Hlow r) by reflexivity end;
  cbn [base_memmap base];
  repeat match goal with
  | |- context [node_at ?n ?a] =>
      let e := eval vm_compute in (node_at n a) in change (node_at n a) with e
  end.

(** ** The interrupt controller *)

Definition gic_node : path := ["intc@8000000"%string].

Lemma builds_gic_node B A :
  within [[]] A = true -> fresh [gic_node] B = true ->
  builds true A B (fdt_add_gic_node c) (gic_node :: A) (gic_node :: B).
Proof.
  unfold gic_node. intros Hn Hf. split_mem. unfold fdt_add_gic_node. low.
  do 5 (eapply builds_bind; [build_step|intros ?]). eapply builds_bind; [|intros _; build_step].
  apply builds_if; [|eapply builds_bind; [build_step|intros _]; apply builds_if; build_step].
  eapply builds_bind; [build_step|intros _].
  eapply builds_when; [build_step|done..].
Qed.

(** The only node a path ["/intc"] can mean. *)
Definition sole_gic (B : list path) : bool :=
  forallb (fun p => negb (path_matches ["intc"%string] p) || bool_decide (p = gic_node)) B.

Lemma find_intc A B s :
  tree true A B s -> mem gic_node A = true -> sole_gic B = true -> mem ["intc"%string] B = false ->
  find_node ["intc"%string] s = Ok (gic_node, s, []).
Proof.
  intros [HA HB] Hg%mem_true Hs Hn%mem_false. unfold sole_gic in Hs. rewrite forallb_forall in Hs.
  assert (forall q, is_Some (fdt s !! q) -> path_matches ["intc"%string] q = true -> q = gic_node) as Hu.
  { intros q Hq Hm. destruct (HB q Hq) as [Hin|[_ Hc]].
    - apply list_elem_of_In, Hs in Hin. rewrite Hm in Hin. by apply bool_decide_eq_true in Hin.
    - destruct q as [|a q]; [done|]. apply bool_decide_eq_true in Hc as ->. done. }
  destruct (fdt_find_some (fdt s) ["intc"%string] gic_node) as [q Hq]; [by apply HA|reflexivity|].
  unfold find_node, bind, gets, of_opt. rewrite Hq.
  apply fdt_find_matches in Hq as [H1 H2]. by rewrite (Hu q H1 H2).
Qed.

Lemma tree_grown A B N s s' :
  tree true A B s -> grown N s s' -> tree true (N ++ A) (N ++ B) s' /\ kept s s'.
Proof.
  intros [HA HB] G. split; [|apply (gr_kept _ _ _ G)]. split.
  - intros p [Hp|Hp]%elem_of_app; apply (gr_nodes _ _ _ G); [by left|right; by apply HA].
  - intros p [Hp|Hp]%(gr_nodes _ _ _ G); [left; apply elem_of_app; by left|].
    destruct (HB p Hp) as [?|?]; [left; apply elem_of_app; by right|by right].
Qed.

Lemma setprops_found l : forall s p q,
  is_Some (fdt s !! q) -> path_matches p q = true ->
  wp (setprops p l) s (fun _ s' _ => grown [] s s').
Proof.
  induction l as [|[n v] l IH]; intros s p q Hq Hm; [apply grown_refl|].
  apply wp_bind. eapply wp_mono; [apply setprop_found; by eapply fdt_find_some|]. intros [] s1 e1 G1.
  eapply wp_mono; [apply (IH s1 p q); [apply (gr_nodes _ _ _ G1); by right|done]|]. intros [] s2 e2 G2.
  exact (grown_trans _ _ _ _ _ G1 G2).
Qed.

(** A node under ["/intc"]: it goes below the GIC's. *)
Lemma builds_msi_node A B name compat r :
  mem gic_node A = true -> sole_gic B = true -> mem ["intc"%string] B = false ->
  (forall p, take 1 p = gic_node -> p <> gic_node -> mem p B = false) ->
  builds true A B (add_msi_node c name compat r)
    (["intc@8000000"%string; node_at name (base (memmap c r))] :: A)
    (["intc@8000000"%string; node_at name (base (memmap c r))] :: B).
Proof.
  intros Hg Hs Hn Hf. unfold add_msi_node. cbv zeta. set (x := node_at name _).
  eapply builds_bind; [build_step|intros h]. eapply builds_bind; [build_step|intros _].
  intros s Ht _. set (n := gic_node ++ [x]).
  assert (forall b, fdt s !! (gic_node ++ [b]) = None) as Hnone.
  { intros b. destruct (fdt s !! (gic_node ++ [b])) eqn:E; [|done].
    destruct (proj2 Ht (gic_node ++ [b])) as [Hin|[_ Hc]]; [by eexists| |done].
    pose proof (mem_false (gic_node ++ [b]) B (Hf (gic_node ++ [b]) ltac:(done) ltac:(done))) as Hnot.
    by destruct Hnot. }
  assert (has_subnode (fdt s) gic_node x = false) as Hfree.
  { apply has_subnode_free. intros q [l Hq]. apply not_true_iff_false.
    intros (b & -> & _)%child_named_spec. by rewrite Hnone in Hq. }
  apply wp_bind. unfold qemu_fdt_add_subnode. cbn [removelast]. apply wp_bind. unfold wp at 1.
  erewrite find_intc by done. cbv zeta. change (List.last ["intc"%string; x] EmptyString) with x.
  apply wp_bind. unfold gets at 1, wp at 1. rewrite Hfree. change (gic_node ++ [x]) with n.
  unfold modify, wp at 1. pose proof (insert_grown s n (Hnone x)) as G1. set (s1 := set_fdt _ s) in *.
  assert (is_Some (fdt s1 !! n)) as Hin by (apply (gr_nodes _ _ _ G1); left; by left).
  eapply wp_mono; [apply (setprops_found _ s1 _ n Hin)|].
  - cbn. by rewrite comp_matches_refl.
  - intros [] s2 e2 G2. exact (tree_grown _ _ _ _ _ Ht (grown_trans _ _ _ _ _ G1 G2)).
Qed.

Definition its_node : path := ["intc@8000000"; "its@8080000"]%string.
Definition v2m_node : path := ["intc@8000000"; "v2m@8020000"]%string.

Definition no_children (B : list path) : bool :=
  forallb (fun p => negb (bool_decide (take 1 p = gic_node)) || bool_decide (p = gic_node)) B.

Lemma no_children_spec B p :
  no_children B = true -> take 1 p = gic_node -> p <> gic_node -> mem p B = false.
Proof.
  intros Hb Hp Hne. apply bool_decide_eq_false. intros Hin. unfold no_children in Hb.
  rewrite forallb_forall in Hb. apply list_elem_of_In, Hb in Hin.
  rewrite (bool_decide_true _ Hp), (bool_decide_false _ Hne) in Hin. done.
Qed.

(** The node of the MSI controller the machine gets. *)
Definition msi_nodes : list path :=
  match gic_msi (the_host c) (opts c) (gic_version c) with
  | VIRT_MSI_CTRL_ITS => [its_node]
  | VIRT_MSI_CTRL_GICV2M => [v2m_node]
  | VIRT_MSI_CTRL_NONE => []
  end.

Lemma builds_gic A B :
  its_class_name (the_host c) <> None ->
  within [[]] A = true -> fresh [gic_node; ["intc"%string]] B = true ->
  sole_gic B = true -> no_children B = true ->
  builds true A B (build_gic c) (msi_nodes ++ gic_node :: A) (its_node :: v2m_node :: gic_node :: B).
Proof.
  intros Hits HA HB Hs Hc. unfold build_gic, msi_nodes.
  destruct (create_gic_shape (the_host c) (memmap c) (opts c) (gic_version c) Hits)
    as (g & -> & _ & _ & _ & _ & _ & _ & <-).
  do 3 (eapply builds_bind; [build_step|intros _]).
  eapply builds_bind; [apply builds_quiet, quiet_for_each; intros x; apply fdt_quiet_emit|intros _].
  eapply builds_bind; [apply builds_quiet, quiet_for_each; intros x; apply fdt_quiet_emit|intros _].
  rewrite !fresh_cons, !andb_true_iff, !negb_true_iff in HB. destruct HB as (HB1 & HB2 & _).
  eapply builds_bind; [apply builds_gic_node; [done|]|intros _].
  { by rewrite fresh_cons, HB1. }
  assert (forall name compat r n, node_at name (base (memmap c r)) = n ->
    builds true (gic_node :: A) (gic_node :: B) (add_msi_node c name compat r)
      (["intc@8000000"%string; n] :: gic_node :: A) (["intc@8000000"%string; n] :: gic_node :: B)) as Hm.
  { intros name compat r n <-. apply builds_msi_node.
    - by rewrite mem_cons.
    - unfold sole_gic in *. cbn [forallb]. by rewrite Hs.
    - by rewrite mem_cons, (hit_mem _ _ HB2).
    - intros p. apply no_children_spec. unfold no_children in *. cbn [forallb]. by rewrite Hc. }
  destruct (msi_controller g); cbn [app].
  - eapply builds_weaken; [apply builds_ret| |]; solve_incl.
  - unfold create_v2m, fdt_add_v2m_gic_node.
    do 4 (eapply builds_bind; [build_step|intros _]). eapply builds_weaken.
    + eapply builds_bind; [apply Hm; low; reflexivity|intros _; build_step].
    + solve_incl.
    + solve_incl.
  - unfold fdt_add_its_gic_node. eapply builds_bind; [build_step|intros _]. eapply builds_weaken.
    + eapply builds_bind; [apply Hm; low; reflexivity|intros _; build_step].
    + solve_incl.
    + solve_incl.
Qed.

(** ** The serial lines *)

Definition uart_node (r : virt_region) : path := [node_at "pl011" (base (base_memmap r))].

Lemma set_chr_wp chr s :
  (forall x, chr = Some x -> chardev_accepts c (chardevs s) x = true) ->
  wp (set_chardev c chr) s (fun _ s' _ => fdt s' = fdt s /\ phandles s' = phandles s /\
    chardevs s' = option_list chr ++ chardevs s).
Proof.
  intros Hx. destruct chr as [x|]; [|done]. unfold set_chardev, wp, bind, gets. by rewrite Hx.
Qed.

Lemma uart_tree A B uart mem0 chr s :
  uart ∈ [VIRT_UART; VIRT_UART2; VIRT_SECURE_UART] ->
  (forall x, chr = Some x -> chardev_accepts c (chardevs s) x = true) -> tree true A B s -> 0 < phandles s ->
  mem [] A = true -> hit (uart_node uart) B = false -> mem ["chosen"%string] A = true ->
  (uart = VIRT_SECURE_UART -> mem ["secure-chosen"%string] A = true) ->
  wp (create_uart c uart mem0 chr) s (fun _ s' _ =>
    tree true (uart_node uart :: A) (uart_node uart :: B) s' /\ 0 < phandles s' /\
    chardevs s' = option_list chr ++ chardevs s).
Proof.
  intros Hu Hx Ht Hp Hr Hn Hc Hs. unfold create_uart. cbv zeta. apply wp_bind.
  eapply wp_mono; [by apply set_chr_wp|]. intros [] s1 e1 (E & P & <-). rewrite <- P in Hp.
  assert (tree true A B s1) as Ht1.
  { destruct Ht as [HA HB]. split; [intros p; rewrite E; by apply HA|]. intros p. rewrite E. apply HB. }
  match goal with |- wp ?m _ _ =>
    eapply (wp_mono _ _ (fun _ s2 _ => tree true (uart_node uart :: A) (uart_node uart :: B) s2 /\ kept s1 s2));
      [refine ((_ : builds true A B m _ _) s1 Ht1 Hp)|] end.
  2: { intros x s2 e2 [H2 [C2 P2]]. split; [done|]. split; [lia|done]. }
  clear Ht Ht1 E P Hp Hx s. rewrite !elem_of_cons, elem_of_nil in Hu.
  destruct Hu as [->|[->|[->|[]]]]; unfold uart_node in *; cbn [base_memmap base] in *;
    repeat match goal with |- context [bool_decide (?a = ?b)] =>
      let e := eval vm_compute in (bool_decide (a = b)) in change (bool_decide (a = b)) with e end;
    try specialize (Hs eq_refl); revert Hn; low; intros Hn; repeat build_step.
Qed.

(** ** The CPUs *)

(** A quiet computation whose result satisfies [R]. *)
Definition keeps {X : Type} (m : boardM X) (R : X -> Prop) : Prop :=
  forall s, wp m s (fun x s' _ => (fdt s' = fdt s /\ kept s s') /\ R x).

Lemma keeps_bind {X Y : Type} (m : boardM X) (k : X -> boardM Y) P R :
  keeps m P -> (forall x, P x -> keeps (k x) R) -> keeps (bind m k) R.
Proof.
  intros Hm Hk s. apply wp_bind. eapply wp_mono; [apply Hm|]. intros x s1 _ [[E1 C1] HP].
  eapply wp_mono; [by apply Hk|]. intros y s2 _ [[E2 C2] HR].
  split; [split; [congruence|by transitivity s1]|done].
Qed.

Lemma keeps_quiet {X : Type} (m : boardM X) : quiet m -> keeps m (fun _ => True).
Proof. intros Hq s. eapply wp_mono; [apply Hq|]. by intros x s' es ?. Qed.

Lemma keeps_ret {X : Type} (x : X) (R : X -> Prop) : R x -> keeps (ret x) R.
Proof. intros HR s. by split. Qed.

Lemma quiet_when (b : bool) (m : boardM unit) : (b = true -> quiet m) -> quiet (when b m).
Proof. intros Hm. destruct b; [by apply Hm|by intros s]. Qed.

Lemma fdt_quiet_ret {X : Type} (x : X) : quiet (ret x).
Proof. by intros s. Qed.

Lemma fdt_quiet_bind {X Y : Type} (m : boardM X) (k : X -> boardM Y) :
  quiet m -> (forall x, quiet (k x)) -> quiet (bind m k).
Proof.
  intros Hm Hk s. apply wp_bind. eapply wp_mono; [apply Hm|]. intros x s1 _ [E1 C1].
  eapply wp_mono; [apply Hk|]. intros y s2 _ [E2 C2]. split; [congruence|by transitivity s1].
Qed.

Lemma quiet_psci n : quiet (match psci_conduit c with
  | PSCI_CONDUIT_DISABLED => ret tt
  | p => emit (CpuProp n "psci-conduit" (match p with PSCI_CONDUIT_SMC => 1 | _ => 2 end)) ;;
         when (0 <? n) (emit (CpuProp n "start-powered-off" 1))
  end).
Proof. destruct (psci_conduit c); intros s; run_prog; destruct (0 <? n); by split. Qed.

Lemma link_tag_keeps n l :
  (mte (opts c) = true -> cpu_has c "tag-memory" = true) ->
  keeps (link_tag_memory c n l) (fun l' => all_aarch64 l' = all_aarch64 l).
Proof.
  intros Hm s. unfold link_tag_memory. destruct (mte (opts c)); [|by split]. cbn [negb].
  rewrite Hm by done. cbn [negb]. rewrite andb_false_r.
  destruct (secure (opts c)); run_prog; by split.
Qed.

Lemma create_cpu_keeps n l :
  numa_pre_plug_ok c n = true -> (mte (opts c) = true -> cpu_has c "tag-memory" = true) ->
  keeps (create_cpu c n l) (fun l' => all_aarch64 l' = all_aarch64 l && cpu_aarch64 c n).
Proof.
  intros Hn Hm. unfold create_cpu, set_if. rewrite Hn. cbv zeta. cbn [negb].
  do 11 (eapply keeps_bind;
    [apply keeps_quiet; first [apply quiet_psci|apply fdt_quiet_emit|apply fdt_quiet_ret|
       apply quiet_when; intros _; apply fdt_quiet_emit]|intros [] _]).
  eapply keeps_bind; [by apply link_tag_keeps|]. intros l' Hl.
  eapply keeps_bind; [apply keeps_quiet, fdt_quiet_emit|]. intros [] _. apply keeps_ret. exact Hl.
Qed.

(** Whether all the CPUs that are created are 64-bit. *)
Definition aarch64 : bool :=
  forallb (cpu_aarch64 c) (seqZ 0 (Z.min (smp_cpus (opts c)) (max_cpus (opts c)))).

Lemma create_cpus_keeps m : forall k l,
  (forall n, numa_pre_plug_ok c n = true) -> (mte (opts c) = true -> cpu_has c "tag-memory" = true) ->
  keeps (create_cpus c (seqZ k (Z.of_nat m)) l) (fun l' => all_aarch64 l' =
    all_aarch64 l && forallb (cpu_aarch64 c) (seqZ k (Z.min (smp_cpus (opts c) - k) (Z.of_nat m)))).
Proof.
  induction m as [|m IH]; intros k l Hn Hm.
  { rewrite !seqZ_nil by lia. apply keeps_ret. cbn. by rewrite andb_true_r. }
  rewrite seqZ_cons by lia. replace (Z.pred (Z.of_nat (S m))) with (Z.of_nat m) by lia. cbn [create_cpus].
  destruct (Z.leb_spec (smp_cpus (opts c)) k).
  { rewrite seqZ_nil by lia. apply keeps_ret. cbn. by rewrite andb_true_r. }
  eapply keeps_bind; [by apply create_cpu_keeps|]. intros l1 H1.
  rewrite (seqZ_cons k (Z.min _ _)) by lia. cbn [forallb]. rewrite andb_assoc, <- H1.
  replace (Z.pred (Z.min (smp_cpus (opts c) - k) (Z.of_nat (S m))))
    with (Z.min (smp_cpus (opts c) - Z.succ k) (Z.of_nat m)) by lia. by apply IH.
Qed.

Lemma all_cpus_keeps :
  (forall n, numa_pre_plug_ok c n = true) -> (mte (opts c) = true -> cpu_has c "tag-memory" = true) ->
  keeps (create_cpus c (seqZ 0 (max_cpus (opts c))) (mkLoop true false)) (fun l => all_aarch64 l = aarch64).
Proof.
  intros Hn Hm. unfold aarch64. destruct (Z.le_gt_cases 0 (max_cpus (opts c))).
  - pose proof (create_cpus_keeps (Z.to_nat (max_cpus (opts c))) 0 (mkLoop true false) Hn Hm) as Hk.
    by rewrite Z2Nat.id, Z.sub_0_r in Hk by lia.
  - rewrite !seqZ_nil by lia. by apply keeps_ret.
Qed.

Lemma quiet_post_init_cpu n : feature_pmu c = true \/ pmu c = false -> quiet (post_init_cpu c n).
Proof.
  intros Hp s. unfold post_init_cpu.
  destruct (pmu c); [destruct Hp as [-> |]; [|done]|]; destruct (kvm_irqchip_in_kernel (the_host c)), (steal_time c);
    run_prog; by split.
Qed.

(** ** The whole construction *)

Lemma flash_map_run s : exists es, virt_flash_map c s = Ok (tt, s, es).
Proof.
  unfold virt_flash_map, virt_flash_map1. cbv zeta. rewrite (Hlow VIRT_FLASH) by reflexivity.
  cbn [base_memmap size base].
  change (0x08000000 / 2 mod VIRT_FLASH_SECTOR_SIZE =? 0) with true.
  change (UINT32_MAX <? 0x08000000 / 2 / VIRT_FLASH_SECTOR_SIZE) with false. by eexists.
Qed.

(** Until the two serial lines are there; [Q] are the nodes of the topology. *)
Definition first_nodes (Q : list path) : list path :=
  [uart_node VIRT_UART2; uart_node VIRT_UART] ++ pmu_nodes c ++ msi_nodes ++ gic_node ::
  flash_have c ++ Q ++ cpu_nodes c ++ ["timer"%string] :: chosen_nodes c.

Definition first_may : list path :=
  [uart_node VIRT_UART2; uart_node VIRT_UART; ["pmu"%string]; its_node; v2m_node; gic_node] ++
  flash_nodes ++ ["timer"%string] :: fdt_nodes.

(** What the construction needs of its surroundings. *)
Record buildable : Prop := mkBuildable {
  bu_numa n : numa_pre_plug_ok c n = true;
  bu_mte : mte (opts c) = true -> cpu_has c "tag-memory" = true;
  bu_pvtime : kvm_enabled (the_host c) = true -> steal_time c = true ->
    pvtime_size c <= size (memmap c VIRT_PVTIME);
  bu_pa : kvm_enabled (the_host c) = false -> cpu_aarch64 c 0 = true -> highmem c = true ->
    requested_pa_bits (VirtDevices.highest_gpa c) <= arm_pamax c;
  bu_fdt : device_tree_ok c = true;
  bu_pmu : feature_pmu c = true \/ pmu c = false;
  bu_iommu : iommu c <> VIRT_IOMMU_VIRTIO;
  bu_its : its_class_name (the_host c) <> None;
  (** the two lines every board has accept their character devices *)
  bu_serial0 x : serial_hd c 0 = Some x -> chardev_accepts c [] x = true;
  bu_serial1 x : serial_hd c 1 = Some x -> chardev_accepts c (option_list (serial_hd c 0)) x = true;
}.

(** The character devices given to the first two lines, the last one first. *)
Definition two_serials : list Z := option_list (serial_hd c 1) ++ option_list (serial_hd c 0).

Lemma chosen_mem p : mem p [[]; ["chosen"%string]] = true -> mem p (chosen_nodes c) = true.
Proof.
  intros Hp%mem_true. rewrite !elem_of_cons, elem_of_nil in Hp. unfold chosen_nodes.
  destruct_or? Hp; subst p; by destruct (numa_distance c), (secure (opts c)).
Qed.

Lemma secure_chosen_mem : secure (opts c) = true -> mem ["secure-chosen"%string] (chosen_nodes c) = true.
Proof. intros Hs. unfold chosen_nodes. rewrite Hs. by destruct (numa_distance c). Qed.

Lemma first_mem Q p : mem p (chosen_nodes c) = true -> mem p (first_nodes Q) = true.
Proof. intros Hp. unfold first_nodes. solve_in. Qed.

Lemma tree_same cpus A B s s' : fdt s' = fdt s -> tree cpus A B s -> tree cpus A B s'.
Proof. intros E [HA HB]. split; intros p; rewrite E; [apply HA|apply HB]. Qed.

Lemma quiet_post_init : buildable -> quiet (virt_cpu_post_init c).
Proof.
  intros [_ _ Hpv Hpa _ Hpmu _ _ _ _]. unfold virt_cpu_post_init. destruct (kvm_enabled (the_host c)).
  - apply fdt_quiet_bind; [apply quiet_when; intros Hs|intros _; apply quiet_for_each; intros n; by apply quiet_post_init_cpu].
    rewrite (proj2 (Z.ltb_ge _ _)) by by apply Hpv.
    apply fdt_quiet_bind; [apply fdt_quiet_emit|intros _; apply fdt_quiet_emit].
  - destruct (cpu_aarch64 c 0 && highmem c) eqn:E; [|apply fdt_quiet_ret].
    apply andb_true_iff in E as [E1 E2]. rewrite (proj2 (Z.ltb_ge _ _)) by by apply Hpa. apply fdt_quiet_ret.
Qed.

Lemma first_part (k : VirtMachine.cpu_loop -> boardM unit) s Q :
  buildable -> chardevs s = [] -> 0 < phandles s ->
  (forall l s' N, all_aarch64 l = aarch64 -> topology c N -> tree true (first_nodes N) first_may s' ->
     0 < phandles s' -> chardevs s' = two_serials -> ends (k l) s' Q) ->
  ends (create_fdt c ;;
        cpus <- create_cpus c (seqZ 0 (max_cpus (opts c))) (mkLoop true false) ;; fdt_add_timer_nodes c ;; fdt_add_cpu_nodes c ;;
        map_region Sysmem (base (memmap c VIRT_MEM)) "ram" ;;
        match device_memory_base c with
        | Some a => map_region Sysmem a "device-memory"
        | None => ret tt
        end ;;
        virt_flash_fdt c ;; build_gic c ;; virt_cpu_post_init c ;; fdt_add_pmu_nodes c ;;
        create_uart c VIRT_UART Sysmem (serial_hd c 0) ;;
        create_uart c VIRT_UART2 Sysmem (serial_hd c 1) ;; k cpus) s Q.
Proof.
  intros Hb Hc Hph Hk. pose proof Hb as [Hnuma Hmte Hpv Hpa Hfdt Hpmu Hi Hits Hs0 Hs1].
  assert (mem [] (chosen_nodes c) = true) as Hroot by by apply chosen_mem.
  assert (mem ["chosen"%string] (chosen_nodes c) = true) as Hch by by apply chosen_mem.
  apply ends_bind. eapply wp_mono; [by apply create_fdt_builds|]. intros [] s1 _ [T1 [C1 P1]].
  apply ends_bind. eapply wp_mono; [by apply all_cpus_keeps|]. intros l s2 _ [[E2 [C2 P2]] Hl].
  pose proof (tree_same _ _ _ _ _ E2 T1) as T2. assert (0 < phandles s2) as Q2 by lia.
  eapply ends_builds; [exact T2|done|apply builds_timer; [solve_in|reflexivity]|intros _ s3 T3 Q3 C3].
  apply ends_bind. eapply wp_mono; [eapply cpu_nodes_tree; [exact T3|solve_in|reflexivity]|].
  intros [] s4 _ [[C4 P4] (N & HN & T4)]. assert (0 < phandles s4) as Q4 by lia.
  eapply ends_builds; [exact T4|done|apply builds_quiet, fdt_quiet_emit|intros _ s5 T5 Q5 C5].
  eapply ends_builds; [exact T5|done|destruct (device_memory_base c); build_step|intros _ s6 T6 Q6 C6].
  eapply ends_builds; [exact T6|done|apply builds_flash; [done|solve_in|reflexivity]|intros _ s7 T7 Q7 C7].
  eapply ends_builds; [exact T7|done|apply builds_gic; [done|solve_in|reflexivity..]|intros _ s8 T8 Q8 C8].
  eapply ends_builds; [exact T8|done|apply builds_quiet; by apply quiet_post_init|intros _ s9 T9 Q9 C9].
  eapply ends_builds; [exact T9|done|apply builds_pmu; [done|solve_in|reflexivity]|intros _ s10 T10 Q10 C10].
  assert (chardevs s10 = []) as Hnil by congruence.
  apply ends_bind. eapply wp_mono.
  { eapply (uart_tree _ _ VIRT_UART); [by left| |exact T10|done|solve_in|reflexivity|solve_in|done].
    rewrite Hnil. exact Hs0. }
  intros [] s11 _ (T11 & Q11 & C11). rewrite Hnil, app_nil_r in C11.
  apply ends_bind. eapply wp_mono.
  { eapply (uart_tree _ _ VIRT_UART2); [right; by left| |exact T11|done|solve_in|reflexivity|solve_in|done].
    rewrite C11. exact Hs1. }
  intros [] s12 _ (T12 & Q12 & C12). apply (Hk l _ N); [done|done|exact T12|done|]. by rewrite C12, C11.
Qed.

Definition secure_nodes : list path := [uart_node VIRT_SECURE_UART; secram_node].
Definition secure_have : list path := if secure (opts c) then secure_nodes else [].

(** The character device of the secure line, which is that of the second one. *)
Definition secure_serial : list Z := if secure (opts c) then option_list (serial_hd c 1) else [].

(** The secure memory and the secure serial line, if its device is accepted. *)
Lemma secure_part N s :
  tree true (first_nodes N) first_may s -> 0 < phandles s ->
  (secure (opts c) = true -> forall x, serial_hd c 1 = Some x -> chardev_accepts c (chardevs s) x = true) ->
  wp (when (secure (opts c)) (create_secure_ram c ;; create_uart c VIRT_SECURE_UART SecureSysmem (serial_hd c 1)))
    s (fun _ s' _ => tree true (secure_have ++ first_nodes N) (secure_nodes ++ first_may) s' /\
         0 < phandles s' /\ chardevs s' = secure_serial ++ chardevs s).
Proof.
  intros Ht Hp Hs. unfold secure_have, secure_serial. destruct (secure (opts c)) eqn:Hsec; cbn [when].
  - assert (forall p, mem p (chosen_nodes c) = true -> mem p (secram_node :: first_nodes N) = true) as Hm.
    { intros p Hpc. apply mem_cons_r. by apply first_mem. }
    apply wp_bind. eapply wp_mono; [apply (builds_secram c Hlow true (first_nodes N) first_may);
      [apply within_one, first_mem; by apply chosen_mem|reflexivity|exact Ht|done]|].
    intros [] s1 _ [T1 [C1 P1]].
    eapply wp_mono; [eapply (uart_tree _ _ VIRT_SECURE_UART);
      [set_solver|rewrite C1; by apply Hs|exact T1|lia|apply Hm; by apply chosen_mem|reflexivity
      |apply Hm; by apply chosen_mem|intros _; apply Hm; by apply secure_chosen_mem]|].
    intros [] s2 _ (T2 & P2 & C2). split; [exact T2|]. by rewrite C2, C1.
  - destruct Ht as [HA HB]. split; [|done]. split; [done|]. intros p Hq.
    destruct (HB p Hq); [left; apply elem_of_app; by right|by right].
Qed.

(** Whether the board has ACPI's event device instead of the GPIO controller. *)
Definition ged : bool := has_ged c && aarch64 && firmware_loaded c && acpi_enabled c.

Definition rest_nodes : list path :=
  [fw_cfg_node] ++ virtio_nodes ++
  (if secure (opts c) && negb (no_secure_gpio c) then secure_gpio_nodes else []) ++
  (if ged then [] else gpio_nodes) ++ smmu_nodes c ++ [pcie_node; rtc_node].

(** From the clock on. *)
Lemma rest_builds A ecam tag :
  mem [] A = true -> iommu c <> VIRT_IOMMU_VIRTIO ->
  builds true A (secure_nodes ++ first_may)
    (when tag (create_tag_ram TagSysmem (base (memmap c VIRT_MEM)) (ram_size (machine c)) "mach-virt.tag") ;;
     create_rtc c ;; create_pcie c ecam ;;
     (if has_ged c && aarch64 && firmware_loaded c && acpi_enabled c then create_acpi_ged c
      else create_gpio_devices c VIRT_GPIO Sysmem) ;;
     when (secure (opts c) && negb (no_secure_gpio c)) (create_gpio_devices c VIRT_SECURE_GPIO SecureSysmem) ;;
     emit PowerdownNotifier ;;
     create_virtio_devices c ;; create_fw_cfg c ;; create_platform_bus c ;; machvirt_boot c)
    (rest_nodes ++ A)
    (fw_cfg_node :: virtio_nodes ++ secure_gpio_nodes ++ gpio_nodes ++ smmu_node :: pcie_node :: rtc_node ::
     secure_nodes ++ first_may).
Proof.
  intros Hr Hi. unfold rest_nodes. rewrite !app_assoc_reverse. cbn [app]. fold ged.
  eapply builds_bind; [destruct tag; [unfold create_tag_ram; cbn [when]; repeat build_step|cbn [when]; build_step]|intros _].
  eapply builds_bind; [apply (builds_rtc c Hlow); [solve_in|reflexivity]|intros _].
  eapply builds_bind; [apply (builds_pcie c Hlow); [done|solve_in|reflexivity]|intros _].
  set (A2 := smmu_nodes c ++ pcie_node :: rtc_node :: A).
  set (B2 := smmu_node :: pcie_node :: rtc_node :: secure_nodes ++ first_may).
  assert (mem [] A2 = true) as Hr2 by (unfold A2; solve_in).
  eapply (builds_bind _ _ _ ((if ged then [] else gpio_nodes) ++ A2) (gpio_nodes ++ B2)); [|intros _].
  { destruct ged; cbn [app].
    - eapply (builds_weaken _ _ _ A2 B2); [|done|by apply list_subseteq_app_r].
      unfold create_acpi_ged. cbv zeta. repeat build_step.
    - apply (builds_gpio c Hlow); [solve_in|reflexivity]. }
  set (A3 := (if ged then [] else gpio_nodes) ++ A2).
  assert (mem [] A3 = true) as Hr3 by (unfold A3; solve_in).
  eapply (builds_bind _ _ _ ((if secure (opts c) && negb (no_secure_gpio c) then secure_gpio_nodes else []) ++ A3)
    (secure_gpio_nodes ++ gpio_nodes ++ B2)); [|intros _].
  { destruct (secure (opts c) && negb (no_secure_gpio c)); cbn [when].
    - apply (builds_secure_gpio c Hlow); [solve_in|reflexivity].
    - eapply builds_weaken; [apply builds_ret|done|by apply list_subseteq_app_r]. }
  eapply builds_bind; [build_step|intros _].
  eapply builds_bind; [apply (builds_virtio c Hlow); [solve_in|reflexivity]|intros _].
  eapply builds_bind; [apply (builds_fw_cfg c Hlow); [solve_in|reflexivity]|intros _].
  unfold create_platform_bus, machvirt_boot. repeat build_step.
Qed.
End init.

(** ** Theorems *)

Section theorems.
Context `{QH : QemuHeaders}.

(** The nodes of the board, as its options and its host decide. *)
Definition board_nodes (c : board_cfg) : list path :=
  rest_nodes c ++ secure_have c ++
  [uart_node VIRT_UART2; uart_node VIRT_UART] ++ pmu_nodes c ++ msi_nodes c ++ gic_node ::
  flash_have c ++ cpu_nodes c ++ ["timer"%string] :: chosen_nodes c.

(** The topology of the CPUs, which has no unit addresses. *)
Definition topology_found (c : board_cfg) (s : board) : Prop :=
  no_cpu_topology c = false ->
  is_Some (fdt s !! ["cpus"; "cpu-map"]%string) /\
  forall cpu, 0 <= cpu < smp_cpus (opts c) -> is_Some (fdt_find (fdt s) (map_node c cpu)).

(** The secure line's device is accepted after those of the other two. *)
Definition secure_serial_ok (c : board_cfg) : Prop :=
  secure (opts c) = true -> forall x, serial_hd c 1 = Some x -> chardev_accepts c (two_serials c) x = true.

Lemma devices_built c s :
  (forall r, low_b r = true -> memmap c r = base_memmap r) -> buildable c -> chardevs s = [] ->
  0 < phandles s -> secure_serial_ok c ->
  exists s' es, machvirt_devices c s = Ok (tt, s', es) /\
    (forall p, p ∈ board_nodes c -> is_Some (fdt s' !! p)) /\ topology_found c s' /\
    chardevs s' = secure_serial c ++ two_serials c.
Proof.
  intros Hlow Hb Hc Hp Hs.
  assert (ends (machvirt_devices c) s (fun r => match r with
    | inl _ => False
    | inr s' => (forall p, p ∈ board_nodes c -> is_Some (fdt s' !! p)) /\ topology_found c s' /\
        chardevs s' = secure_serial c ++ two_serials c end)) as He.
  { apply (first_part c Hlow _ s); [done..|]. intros l s1 N Hl HN T1 P1 C1. rewrite Hl.
    apply ends_bind. eapply wp_mono.
    { apply (secure_part c Hlow N s1 T1 P1). rewrite C1. exact Hs. }
    intros [] s2 _ (T2 & P2 & C2).
    apply wp_ends. eapply wp_mono.
    { refine (rest_builds c Hlow _ _ _ _ (bu_iommu _ Hb) s2 T2 P2).
      apply mem_app_r, first_mem. by apply chosen_mem. }
    intros [] s3 _ [[HA _] [C3 _]]. split; [|split; [|congruence]].
    - intros p Hin. apply HA. unfold board_nodes in Hin. unfold first_nodes. revert Hin.
      rewrite !elem_of_app, !elem_of_cons, !elem_of_app, !elem_of_cons. tauto.
    - intros Ht. destruct (HN Ht) as [Hm Hcpu]. 
      assert (forall q, q ∈ N -> is_Some (fdt s3 !! q)) as Hin.
      { intros q Hq. apply HA. unfold first_nodes. rewrite !elem_of_app, !elem_of_cons, !elem_of_app. tauto. }
      split; [by apply Hin|]. intros cpu Hr. destruct (Hcpu cpu) as (q & Hq & Hmq).
      { apply elem_of_seqZ. lia. }
      apply (fdt_find_some _ _ q); [by apply Hin|done]. }
  unfold ends in He. destruct (machvirt_devices c s) as [[[[] s'] es]|f]; [|done]. by exists s', es.
Qed.

(** The configuration after the checks of [machvirt_init]. *)
Definition checked (t : board_cfg) (ms : MachineState) (f : firmware) (c : board_cfg) : Prop :=
  exists v fw g p, virt_set_memmap ms = inr v /\ firmware_choice f = inr fw /\
    machvirt_limits (the_host t) (VirtBoard.memmap v) (opts t) fw (gic_version t) = inr (g, p) /\
    c = with_layout t ms v g p fw.

Lemma checked_low t ms f c r : checked t ms f c -> low_b r = true -> memmap c r = base_memmap r.
Proof. intros (v & fw & g & p & Hv & _ & _ & ->) Hr. cbn. by eapply virt_set_memmap_low. Qed.

(** The flash is mapped, then the devices are made. *)
Lemma checked_run t ms f c s :
  checked t ms f c -> exists es, machvirt_init t ms f s =
    match machvirt_devices c s with
    | Ok (x, s', e2) => Ok (x, s', es ++ e2)
    | Stop f => Stop f
    end.
Proof.
  intros (v & fw & g & p & Hv & Hf & Hl & ->). unfold machvirt_init. rewrite Hv.
  unfold machvirt_limits in Hl. destruct (machvirt_gic _ _ _) as [|g']; [done|].
  destruct (machvirt_cpus _ _ _ _ _) as [|p'] eqn:Hcpus; [done|]. injection Hl as -> ->.
  destruct (flash_map_run (with_layout t ms v g (psci_conduit t) false)
    (fun r Hr => virt_set_memmap_low _ _ r Hv Hr) s) as [es Hfl].
  exists (es ++ []). unfold virt_firmware_init. rewrite Hf. unfold bind, ret. rewrite Hfl, Hcpus. done.
Qed.

(** C29: The machine starts.  Take a machine whose memory map, firmware and limits
    are accepted and that has what it needs of its surroundings (a device tree,
    an interrupt controller class, CPUs that have the features and address bits
    asked for, a PCIe IOMMU other than virtio's at this point, and character
    devices that QEMU accepts for its serial lines, the secure line's included).
    [machvirt_init] then ends without a failure: no step adds a node that is
    there, under libfdt's comparison of names, or sets a property of one that
    is not.  The tree it leaves has all the nodes of the board: those of every
    CPU and of their topology, the GIC and its ITS or v2m frame, the timer, the
    PMU, the flash, the serial lines, the clock, the PCIe bridge and its SMMU,
    the GPIO controllers with their keys, the secure memory, fw_cfg and all 32
    transports, each where the machine's options ask for it; and the character
    devices given away are those of the serial lines.  When the memory map, the
    firmware or the limits are refused it exits with code 1.  (Of a machine
    that is accepted but not [buildable] nothing is claimed here.) *)
Theorem machvirt_init_builds t ms f s :
  chardevs s = [] -> 0 < phandles s ->
  (forall c, checked t ms f c -> buildable c -> secure_serial_ok c ->
    exists s' es, machvirt_init t ms f s = Ok (tt, s', es) /\
      (forall p, p ∈ board_nodes c -> is_Some (fdt s' !! p)) /\ topology_found c s' /\
      chardevs s' = secure_serial c ++ two_serials c) /\
  (~ (exists c, checked t ms f c) -> machvirt_init t ms f s = Stop (ExitProcess 1)).
Proof.
  intros Hc Hp. split.
  - intros c Hch Hb Hs.
    destruct (devices_built c s) as (s' & e2 & Hrun & Hpost); [|done..|].
    { intros r. by apply (checked_low t ms f c r). }
    destruct (checked_run t ms f c s Hch) as [es Hi]. rewrite Hrun in Hi. by exists s', (es ++ e2).
  - intros Hno. unfold machvirt_init.
    destruct (virt_set_memmap ms) as [e|v] eqn:Hv.
    { by rewrite (virt_set_memmap_code _ _ Hv). }
    destruct (machvirt_gic _ _ _) as [e|g] eqn:Hg.
    { by rewrite (machvirt_gic_code _ _ _ _ Hg). }
    destruct (flash_map_run (with_layout t ms v g (psci_conduit t) false)
      (fun r Hr => virt_set_memmap_low _ _ r Hv Hr) s) as [es Hfl].
    unfold virt_firmware_init, bind. rewrite Hfl.
    destruct (firmware_choice f) as [e|fw] eqn:Hf.
    { by rewrite (firmware_choice_code _ _ Hf). }
    unfold ret. destruct (machvirt_cpus _ _ _ _ _) as [e|p] eqn:Hl.
    { by rewrite (machvirt_cpus_code _ _ _ _ _ _ Hl). }
    destruct Hno. eexists. exists v, fw, g, p. split_and!; try done.
    unfold machvirt_limits. by rewrite Hg, Hl.
Qed.

(** C40: A secure machine takes one serial line less.  The second serial line and
    the secure one are given the same character device, [serial_hd(1)]: when
    there is one and it is not multiplexed, QEMU, which gives such a device to
    one user only, refuses the second use, and the construction of a secure
    machine that has everything else it needs ends in an assertion. *)
Theorem secure_second_serial_aborts t ms f c s x :
  chardev_laws c -> checked t ms f c -> buildable c -> chardevs s = [] -> 0 < phandles s ->
  secure (opts c) = true -> serial_hd c 1 = Some x -> chardev_mux c x = false ->
  machvirt_init t ms f s = Stop AssertFail.
Proof.
  intros Hlaws Hch Hb Hc Hp Hs Hx Hmux. destruct (checked_run t ms f c s Hch) as [es ->].
  assert (forall r, low_b r = true -> memmap c r = base_memmap r) as Hlow.
  { intros r. by apply (checked_low t ms f c r). }
  assert (ends (machvirt_devices c) s (fun r => r = inl AssertFail)) as He.
  { apply (first_part c Hlow _ s); [done..|]. intros l s1 N _ _ T1 P1 C1. rewrite Hs. cbn [when].
    eapply ends_stop; [|done]. apply bind_stop.
    eapply wp_mono; [apply (builds_secram c Hlow true (first_nodes c N) first_may);
      [apply within_one, first_mem; by apply chosen_mem|reflexivity|exact T1|done]|].
    intros [] s2 _ [_ [C2 _]]. unfold create_uart. cbv zeta. rewrite Hx. unfold bind at 1, set_chardev.
    unfold bind, gets. rewrite (chardev_exclusive _ Hlaws); [done|done|].
    rewrite C2, C1. unfold two_serials. rewrite Hx. by left. }
  unfold ends in He. destruct (machvirt_devices c s) as [[[[] s'] e2]|e]; [done|]. by injection He as ->.
Qed.
End theorems.

(** ** The example machine *)

Definition no_firmware : firmware := mkFirmware false false false 0.

(** TCG's GICv3 is asked for; the limits leave it. *)
Definition example_checked (sec : bool) (serial1 : Z) : board_cfg :=
  with_layout (example_cfg sec (Some 1) (Some serial1)) example_machine example_memory VIRT_GIC_VERSION_3
    PSCI_CONDUIT_SMC false.

Lemma example_is_checked sec (serial1 : Z) :
  checked (example_cfg sec (Some 1) (Some serial1)) example_machine no_firmware (example_checked sec serial1).
Proof. exists example_memory, false, VIRT_GIC_VERSION_3, PSCI_CONDUIT_SMC. by destruct sec. Qed.

Lemma example_laws sec (serial1 : Z) : chardev_laws (example_checked sec serial1).
Proof.
  split; cbn; intros used x.
  - intros Hx. by rewrite bool_decide_false.
  - intros Hm Hx. by rewrite bool_decide_true, Hm.
Qed.

Lemma example_buildable sec (serial1 : Z) : serial1 <> 1 -> buildable (example_checked sec serial1).
Proof.
  intros Hne. split; try done.
  - by left.
  - intros x [= <-]. cbn. rewrite bool_decide_false; [done|]. by intros ->%list_elem_of_singleton.
Qed.

(** A board without a secure world, and a secure one whose second character
    device, 100, is multiplexed. *)
Lemma machvirt_init_builds_witness :
  (exists s' es, machvirt_init (example_cfg false (Some 1) (Some 2)) example_machine no_firmware empty_board =
      Ok (tt, s', es) /\
    (forall p, p ∈ board_nodes (example_checked false 2) -> is_Some (fdt s' !! p)) /\
    topology_found (example_checked false 2) s' /\ chardevs s' = [2; 1]) /\
  (exists s' es, machvirt_init (example_cfg true (Some 1) (Some 100)) example_machine no_firmware empty_board =
      Ok (tt, s', es) /\
    (forall p, p ∈ board_nodes (example_checked true 100) -> is_Some (fdt s' !! p)) /\
    topology_found (example_checked true 100) s' /\ chardevs s' = [100; 100; 1]).
Proof.
  split.
  - destruct (machvirt_init_builds (example_cfg false (Some 1) (Some 2)) example_machine no_firmware empty_board eq_refl
      eq_refl) as [H _].
    exact (H (example_checked false 2) (example_is_checked false 2) (example_buildable false 2 ltac:(done))
      (fun Hs => match Bool.diff_false_true Hs with end)).
  - destruct (machvirt_init_builds (example_cfg true (Some 1) (Some 100)) example_machine no_firmware empty_board eq_refl
      eq_refl) as [H _].
    apply (H (example_checked true 100) (example_is_checked true 100) (example_buildable true 100 ltac:(done))).
    intros _ x [= <-]. reflexivity.
Defined.

Lemma secure_second_serial_aborts_witness :
  machvirt_init (example_cfg true (Some 1) (Some 2)) example_machine no_firmware empty_board = Stop AssertFail.
Proof.
  apply (secure_second_serial_aborts (example_cfg true (Some 1) (Some 2)) example_machine no_firmware
    (example_checked true 2) empty_board 2);
    [apply example_laws|apply example_is_checked|by apply example_buildable|reflexivity..].
Defined.
