(* ===== verification/VirtVersions.v ===== *)
(** * Machine versions of the virt board: [virt.c]

    [virt_machine_class_init], the options each machine version adds to those
    of the next newer one, the class [DEFINE_VIRT_MACHINE] makes of them, and the
    state an instance starts from.  The callbacks a class holds are the
    definitions of the other files. *)

From stdpp Require Import sorting.
From S2P Require Import Prelude VirtBoard VirtGic VirtDevices.

(** The boolean fields of [MachineClass] and [VirtMachineClass] the file sets. *)
Inductive class_flag : Set :=
| no_cdrom | pci_allow_0_address | nvdimm_supported | auto_enable_numa_with_memhp
| auto_enable_numa_with_memdev | prefer_sockets | numa_mem_supported
| ignore_memory_transaction_failures
| disallow_affinity_adjustment | no_its | no_tcg_its | no_pmu | vmc_claim_edge_triggered_timers
| smbios_old_sys_ver | no_highmem_ecam | no_ged | kvm_no_adjvtime | no_kvm_steal_time
| acpi_expose_flash | vmc_no_secure_gpio | vmc_no_cpu_topology.

#[export] Instance class_flag_eq_dec : EqDecision class_flag.
Proof. solve_decision. Defined.

(** The strings the file sets. *)
Inductive class_text : Set := block_default_type | default_cpu_type | default_ram_id | desc.

#[export] Instance class_text_eq_dec : EqDecision class_text.
Proof. solve_decision. Defined.

(** The fields the file sets, the callbacks apart. *)
Record MachineClass : Type := mkClass {
  flag : class_flag -> bool;
  text : class_text -> string;
  alias : option string;
  class_max_cpus : Z;
  minimum_page_bits : Z;
  dynamic_sysbus : list string;
  compat_props : list string;
}.

Definition set_flag (f : class_flag) (b : bool) (mc : MachineClass) : MachineClass :=
  mkClass (fun g => if decide (g = f) then b else flag mc g) (text mc) (alias mc)
    (class_max_cpus mc) (minimum_page_bits mc) (dynamic_sysbus mc) (compat_props mc).
Definition set_text (f : class_text) (x : string) (mc : MachineClass) : MachineClass :=
  mkClass (flag mc) (fun g => if decide (g = f) then x else text mc g) (alias mc)
    (class_max_cpus mc) (minimum_page_bits mc) (dynamic_sysbus mc) (compat_props mc).
Definition set_alias (x : string) (mc : MachineClass) : MachineClass :=
  mkClass (flag mc) (text mc) (Some x) (class_max_cpus mc) (minimum_page_bits mc)
    (dynamic_sysbus mc) (compat_props mc).
Definition set_max_cpus (n : Z) (mc : MachineClass) : MachineClass :=
  mkClass (flag mc) (text mc) (alias mc) n (minimum_page_bits mc) (dynamic_sysbus mc) (compat_props mc).
Definition set_page_bits (n : Z) (mc : MachineClass) : MachineClass :=
  mkClass (flag mc) (text mc) (alias mc) (class_max_cpus mc) n (dynamic_sysbus mc) (compat_props mc).
(** [machine_class_allow_dynamic_sysbus_dev(mc, type)], by the type's macro. *)
Definition allow_dynamic_sysbus_dev (type : string) (mc : MachineClass) : MachineClass :=
  mkClass (flag mc) (text mc) (alias mc) (class_max_cpus mc) (minimum_page_bits mc)
    (dynamic_sysbus mc ++ [type]) (compat_props mc).
(** [compat_props_add(mc->compat_props, table, len)], by the table's name. *)
Definition compat_props_add (table : string) (mc : MachineClass) : MachineClass :=
  mkClass (flag mc) (text mc) (alias mc) (class_max_cpus mc) (minimum_page_bits mc)
    (dynamic_sysbus mc) (compat_props mc ++ [table]).

(** QOM clears a class before its first [class_init]. *)
Definition zeroed_class : MachineClass :=
  mkClass (fun _ => false) (fun _ => EmptyString) None 0 0 [] [].

(** [config_tpm]: was QEMU built with [CONFIG_TPM]? *)
Definition virt_machine_class_init (config_tpm : bool) (mc : MachineClass) : MachineClass :=
  let mc := set_max_cpus 512 mc in
  let mc := allow_dynamic_sysbus_dev "TYPE_VFIO_CALXEDA_XGMAC" mc in
  let mc := allow_dynamic_sysbus_dev "TYPE_VFIO_AMD_XGBE" mc in
  let mc := allow_dynamic_sysbus_dev "TYPE_RAMFB_DEVICE" mc in
  let mc := allow_dynamic_sysbus_dev "TYPE_VFIO_PLATFORM" mc in
  let mc := if config_tpm then allow_dynamic_sysbus_dev "TYPE_TPM_TIS_SYSBUS" mc else mc in
  let mc := set_text block_default_type "IF_VIRTIO" mc in
  let mc := set_flag no_cdrom true mc in
  let mc := set_flag pci_allow_0_address true mc in
  let mc := set_page_bits 12 mc in
  let mc := set_text default_cpu_type "cortex-a15-arm-cpu" mc in
  let mc := set_flag nvdimm_supported true mc in
  let mc := set_flag auto_enable_numa_with_memhp true mc in
  let mc := set_flag auto_enable_numa_with_memdev true mc in
  set_text default_ram_id "mach-virt.ram" mc.

Definition virt_machine_6_2_options (mc : MachineClass) : MachineClass := mc.

Definition virt_machine_6_1_options (mc : MachineClass) : MachineClass :=
  let mc := virt_machine_6_2_options mc in
  let mc := compat_props_add "hw_compat_6_1" mc in
  let mc := set_flag prefer_sockets true mc in
  let mc := set_flag vmc_no_cpu_topology true mc in
  set_flag no_tcg_its true mc.

Definition virt_machine_6_0_options (mc : MachineClass) : MachineClass :=
  compat_props_add "hw_compat_6_0" (virt_machine_6_1_options mc).

Definition virt_machine_5_2_options (mc : MachineClass) : MachineClass :=
  let mc := compat_props_add "hw_compat_5_2" (virt_machine_6_0_options mc) in
  set_flag vmc_no_secure_gpio true mc.

Definition virt_machine_5_1_options (mc : MachineClass) : MachineClass :=
  let mc := compat_props_add "hw_compat_5_1" (virt_machine_5_2_options mc) in
  set_flag no_kvm_steal_time true mc.

Definition virt_machine_5_0_options (mc : MachineClass) : MachineClass :=
  let mc := compat_props_add "hw_compat_5_0" (virt_machine_5_1_options mc) in
  let mc := set_flag numa_mem_supported true mc in
  let mc := set_flag acpi_expose_flash true mc in
  set_flag auto_enable_numa_with_memdev false mc.

Definition virt_machine_4_2_options (mc : MachineClass) : MachineClass :=
  let mc := compat_props_add "hw_compat_4_2" (virt_machine_5_0_options mc) in
  set_flag kvm_no_adjvtime true mc.

Definition virt_machine_4_1_options (mc : MachineClass) : MachineClass :=
  let mc := compat_props_add "hw_compat_4_1" (virt_machine_4_2_options mc) in
  let mc := set_flag no_ged true mc in
  set_flag auto_enable_numa_with_memhp false mc.

Definition virt_machine_4_0_options (mc : MachineClass) : MachineClass :=
  compat_props_add "hw_compat_4_0" (virt_machine_4_1_options mc).

Definition virt_machine_3_1_options (mc : MachineClass) : MachineClass :=
  compat_props_add "hw_compat_3_1" (virt_machine_4_0_options mc).

Definition virt_machine_3_0_options (mc : MachineClass) : MachineClass :=
  compat_props_add "hw_compat_3_0" (virt_machine_3_1_options mc).

Definition virt_machine_2_12_options (mc : MachineClass) : MachineClass :=
  let mc := compat_props_add "hw_compat_2_12" (virt_machine_3_0_options mc) in
  let mc := set_flag no_highmem_ecam true mc in
  set_max_cpus 255 mc.

Definition virt_machine_2_11_options (mc : MachineClass) : MachineClass :=
  let mc := compat_props_add "hw_compat_2_11" (virt_machine_2_12_options mc) in
  set_flag smbios_old_sys_ver true mc.

Definition virt_machine_2_10_options (mc : MachineClass) : MachineClass :=
  let mc := compat_props_add "hw_compat_2_10" (virt_machine_2_11_options mc) in
  set_flag ignore_memory_transaction_failures true mc.

Definition virt_machine_2_9_options (mc : MachineClass) : MachineClass :=
  compat_props_add "hw_compat_2_9" (virt_machine_2_10_options mc).

Definition virt_machine_2_8_options (mc : MachineClass) : MachineClass :=
  let mc := compat_props_add "hw_compat_2_8" (virt_machine_2_9_options mc) in
  set_flag vmc_claim_edge_triggered_timers true mc.

Definition virt_machine_2_7_options (mc : MachineClass) : MachineClass :=
  let mc := compat_props_add "hw_compat_2_7" (virt_machine_2_8_options mc) in
  let mc := set_flag no_its true mc in
  set_page_bits 0 mc.

Definition virt_machine_2_6_options (mc : MachineClass) : MachineClass :=
  let mc := compat_props_add "hw_compat_2_6" (virt_machine_2_7_options mc) in
  let mc := set_flag disallow_affinity_adjustment true mc in
  set_flag no_pmu true mc.

(** A machine version: its number, its options, and whether it was defined by
    [DEFINE_VIRT_MACHINE_AS_LATEST]. *)
Record version : Type := mkVersion {
  number : Z * Z;
  version_options : MachineClass -> MachineClass;
  latest : bool;
}.

Definition DEFINE_VIRT_MACHINE (major minor : Z) (options : MachineClass -> MachineClass) : version :=
  mkVersion (major, minor) options false.
Definition DEFINE_VIRT_MACHINE_AS_LATEST (major minor : Z) (options : MachineClass -> MachineClass) : version :=
  mkVersion (major, minor) options true.

(** [virt_##major##_##minor##_class_init]. *)
Definition version_class_init (v : version) (mc : MachineClass) : MachineClass :=
  let mc := version_options v mc in
  let mc := set_text desc ("QEMU " +:+ pretty (number v).1 +:+ "." +:+ pretty (number v).2
                             +:+ " ARM Virtual Machine") mc in
  if latest v then set_alias "virt" mc else mc.

(** The types registered, newest first. *)
Definition versions : list version :=
  [DEFINE_VIRT_MACHINE_AS_LATEST 6 2 virt_machine_6_2_options;
   DEFINE_VIRT_MACHINE 6 1 virt_machine_6_1_options;
   DEFINE_VIRT_MACHINE 6 0 virt_machine_6_0_options;
   DEFINE_VIRT_MACHINE 5 2 virt_machine_5_2_options;
   DEFINE_VIRT_MACHINE 5 1 virt_machine_5_1_options;
   DEFINE_VIRT_MACHINE 5 0 virt_machine_5_0_options;
   DEFINE_VIRT_MACHINE 4 2 virt_machine_4_2_options;
   DEFINE_VIRT_MACHINE 4 1 virt_machine_4_1_options;
   DEFINE_VIRT_MACHINE 4 0 virt_machine_4_0_options;
   DEFINE_VIRT_MACHINE 3 1 virt_machine_3_1_options;
   DEFINE_VIRT_MACHINE 3 0 virt_machine_3_0_options;
   DEFINE_VIRT_MACHINE 2 12 virt_machine_2_12_options;
   DEFINE_VIRT_MACHINE 2 11 virt_machine_2_11_options;
   DEFINE_VIRT_MACHINE 2 10 virt_machine_2_10_options;
   DEFINE_VIRT_MACHINE 2 9 virt_machine_2_9_options;
   DEFINE_VIRT_MACHINE 2 8 virt_machine_2_8_options;
   DEFINE_VIRT_MACHINE 2 7 virt_machine_2_7_options;
   DEFINE_VIRT_MACHINE 2 6 virt_machine_2_6_options].

(** The class of a version: the parent's [class_init], then its own. *)
Definition class_of (config_tpm : bool) (v : version) (mc : MachineClass) : MachineClass :=
  version_class_init v (virt_machine_class_init config_tpm mc).

(** ** The state of an instance *)

Inductive OnOffAuto : Set := ON_OFF_AUTO_AUTO | ON_OFF_AUTO_ON | ON_OFF_AUTO_OFF.

Inductive vms_flag : Set :=
| F_secure | F_virt | F_highmem | F_highmem_ecam | F_its | F_tcg_its | F_ras | F_mte
| F_default_bus_bypass_iommu.

#[export] Instance vms_flag_eq_dec : EqDecision vms_flag.
Proof. solve_decision. Defined.

(** The properties of [VirtMachineState]; the two identifiers are buffers. *)
Record VirtMachineState : Type := mkVms {
  vflag : vms_flag -> bool;
  acpi : OnOffAuto;
  vms_gic_version : VirtGICType;
  vms_iommu : VirtIOMMUType;
  oem_id : list Ascii.ascii;
  oem_table_id : list Ascii.ascii;
}.

(** [g_strndup(s, n)]: a buffer of [n + 1] bytes. *)
Definition g_strndup (s : string) (n : nat) : list Ascii.ascii :=
  take n (String.list_ascii_of_string s ++ replicate n Ascii.zero) ++ [Ascii.zero].

(** [its] and [tcg_its] start cleared; so does [acpi], which is automatic.  The
    names are those of QEMU's ACPI tables. *)
Definition virt_instance_init (appname6 appname8 : string) (mc : MachineClass) : VirtMachineState :=
  mkVms (fun f => match f with
      | F_highmem => true
      | F_highmem_ecam => negb (flag mc no_highmem_ecam)
      | F_its => negb (flag mc no_its)
      | F_tcg_its => negb (flag mc no_its) && negb (flag mc no_tcg_its)
      | F_secure | F_virt | F_ras | F_mte | F_default_bus_bypass_iommu => false
      end)
    ON_OFF_AUTO_AUTO VIRT_GIC_VERSION_NOSEL VIRT_IOMMU_NONE
    (g_strndup appname6 6) (g_strndup appname8 8).

(** ** Theorems *)

(** [older (a, b) (c, d)]: version a.b comes before c.d. *)
Definition older (v w : Z * Z) : bool := (v.1 <? w.1) || ((v.1 =? w.1) && (v.2 <? w.2)).

(** The value a field had in the versions before the one named. *)
Definition formerly (f : class_flag) : option (bool * (Z * Z)) :=
  match f with
  | prefer_sockets | vmc_no_cpu_topology | no_tcg_its => Some (true, (6, 2))
  | vmc_no_secure_gpio => Some (true, (6, 0))
  | no_kvm_steal_time => Some (true, (5, 2))
  | numa_mem_supported | acpi_expose_flash => Some (true, (5, 1))
  | auto_enable_numa_with_memdev => Some (false, (5, 1))
  | kvm_no_adjvtime => Some (true, (5, 0))
  | no_ged => Some (true, (4, 2))
  | auto_enable_numa_with_memhp => Some (false, (4, 2))
  | no_highmem_ecam => Some (true, (3, 0))
  | smbios_old_sys_ver => Some (true, (2, 12))
  | ignore_memory_transaction_failures => Some (true, (2, 11))
  | vmc_claim_edge_triggered_timers => Some (true, (2, 9))
  | no_its => Some (true, (2, 8))
  | disallow_affinity_adjustment | no_pmu => Some (true, (2, 7))
  | no_cdrom | pci_allow_0_address | nvdimm_supported => None
  end.

(** The versions whose compatibility tables a version needs, the newest first. *)
Definition needs_compat (v : Z * Z) : list (Z * Z) :=
  filter (fun w => older w (6, 2) = true /\ older w v = false) (number <$> versions).

Section versions.
Context (config_tpm : bool) (pc : MachineClass).

#[local] Notation class v := (class_of config_tpm v pc).

(** The fields of a new machine: those the class sets, else the parent's. *)
Definition initial_flag (f : class_flag) : bool :=
  match f with
  | no_cdrom | pci_allow_0_address | nvdimm_supported
  | auto_enable_numa_with_memhp | auto_enable_numa_with_memdev => true
  | _ => flag pc f
  end.

Record agrees (v : Z * Z) (mc : MachineClass) : Prop := mkAgrees {
  ag_flag f : flag mc f = match formerly f with
                          | Some (b, w) => if older v w then b else initial_flag f
                          | None => initial_flag f
                          end;
  ag_cpu : text mc default_cpu_type = "cortex-a15-arm-cpu"%string;
  ag_block : text mc block_default_type = "IF_VIRTIO"%string;
  ag_ram : text mc default_ram_id = "mach-virt.ram"%string;
  ag_desc : text mc desc = "QEMU " +:+ pretty v.1 +:+ "." +:+ pretty v.2 +:+ " ARM Virtual Machine";
  ag_alias : alias mc = if decide (v = (6, 2)) then Some "virt"%string else alias pc;
  ag_cpus : class_max_cpus mc = if older v (3, 0) then 255 else 512;
  ag_bits : minimum_page_bits mc = if older v (2, 8) then 0 else 12;
  ag_sysbus : dynamic_sysbus mc = dynamic_sysbus pc ++
    ["TYPE_VFIO_CALXEDA_XGMAC"; "TYPE_VFIO_AMD_XGBE"; "TYPE_RAMFB_DEVICE"; "TYPE_VFIO_PLATFORM"]%string ++
    (if config_tpm then ["TYPE_TPM_TIS_SYSBUS"%string] else []);
  ag_compat : compat_props mc = compat_props pc ++
    ((fun w => "hw_compat_" +:+ pretty w.1 +:+ "_" +:+ pretty w.2) <$> needs_compat v);
}.

(** The features an instance of a class starts with. *)
Definition features (mc : MachineClass) (f : vms_flag) : bool :=
  vflag (virt_instance_init EmptyString EmptyString mc) f.

(** [y], the class of an older version, keeps what that of a newer one decided:
    what the newer one changed for compatibility stays changed, and its tables
    come first; it has no feature and no CPU the newer one has not. *)
Record extends (x y : MachineClass) : Prop := mkExtends {
  ex_flag f : flag x f = initial_flag f \/ flag y f = flag x f;
  ex_features f : features y f = true -> features x f = true;
  ex_cpus : class_max_cpus y <= class_max_cpus x;
  ex_bits : minimum_page_bits y <= minimum_page_bits x;
  ex_compat : compat_props x `prefix_of` compat_props y;
}.

Lemma extends_trans x y z : extends x y -> extends y z -> extends x z.
Proof.
  intros [F1 G1 C1 B1 P1] [F2 G2 C2 B2 P2]. split; [|by auto|lia|lia|by etrans].
  intros f. destruct (F1 f) as [|E1]; [by left|]. destruct (F2 f) as [E2|E2]; [left|right]; congruence.
Qed.

Definition supersedes (v w : version) : Prop :=
  older (number w) (number v) = true /\ extends (class v) (class w).

Lemma older_trans u v w : older u v = true -> older v w = true -> older u w = true.
Proof. unfold older. rewrite !orb_true_iff, !andb_true_iff, !Z.ltb_lt, !Z.eqb_eq. lia. Qed.

#[local] Instance supersedes_trans : Transitive supersedes.
Proof. intros u v w [O1 E1] [O2 E2]. split; [by eapply older_trans|by eapply extends_trans]. Qed.

(** One version after the other; the rest is transitivity. *)
Lemma versions_sorted : StronglySorted supersedes versions.
Proof.
  apply Sorted_StronglySorted; [apply _|].
  repeat first [apply Sorted.Sorted_cons|apply Sorted.Sorted_nil|apply Sorted.HdRel_cons|apply Sorted.HdRel_nil].
  all: split; [reflexivity|]; destruct config_tpm; split.
  all: try (intros []; first [right; vm_compute; reflexivity|left; vm_compute; reflexivity]).
  all: try (intros []; vm_compute; first [exact (fun H => H)|by intros [=]|by destruct pc as [fl]; destruct (fl no_its)]).
  all: match goal with |- _ <= _ => by vm_compute | _ => refine (ex_intro _ [_] _); vm_compute; reflexivity end.
Qed.

Lemma sorted_pair (l : list version) v w :
  StronglySorted supersedes l -> v ∈ l -> w ∈ l -> older (number w) (number v) = true -> supersedes v w.
Proof.
  intros Hs Hv Hw Ho. induction Hs as [|x l Hs IH Hx]; [by apply elem_of_nil in Hv|].
  rewrite Forall_forall in Hx. apply elem_of_cons in Hv as [->|Hv], Hw as [->|Hw]; auto.
  - unfold older in Ho. lia.
  - destruct (Hx v Hv) as [Ho' _]. unfold older in *. lia.
Qed.

Lemma versions_exact v : v ∈ versions -> agrees (number v) (class v).
Proof.
  unfold versions. rewrite !elem_of_cons, elem_of_nil. intros Hv. destruct_or? Hv; try done; subst v.
  all: split; [intros []; destruct config_tpm; vm_compute; reflexivity|..]; try (destruct config_tpm; vm_compute; reflexivity).
  all: lazy -[app]; destruct config_tpm, pc; rewrite <- ?app_assoc, ?app_nil_r; reflexivity.
Qed.

(** C36: A machine version has exactly the class its history gives it, whatever
    the class it is derived from held: each field has its old value in the
    versions before the one that changed it and the value of a new machine from
    there on; the CPU limit, page bits, default CPU type, RAM id, block
    interface, allowed devices and description are pinned, only the newest
    version has the alias [virt], and the compatibility tables of all versions
    from it up to 6.1 are applied, the newest first.  And versions accumulate: an
    older version keeps every compatibility change of a newer one and its
    tables, and starts its instances with no feature and no CPU the newer one
    does not have. *)
Theorem versions_agree v :
  v ∈ versions ->
  agrees (number v) (class v) /\
  forall w, w ∈ versions -> older (number w) (number v) = true -> extends (class v) (class w).
Proof.
  intros Hv. split; [by apply versions_exact|]. intros w Hw Ho.
  by apply (sorted_pair _ v w versions_sorted Hv Hw Ho).
Qed.
End versions.

(** Version 2.7 has no ITS although the versions from 2.8 on have one, and keeps
    the ECAM in low memory as 2.12 does. *)
Lemma versions_agree_witness :
  let v := DEFINE_VIRT_MACHINE 2 12 virt_machine_2_12_options in
  let w := DEFINE_VIRT_MACHINE 2 7 virt_machine_2_7_options in
  flag (class_of true v zeroed_class) no_its = false /\ flag (class_of true w zeroed_class) no_its = true /\
  flag (class_of true w zeroed_class) no_highmem_ecam = flag (class_of true v zeroed_class) no_highmem_ecam.
Proof.
  intros v w.
  assert (v ∈ versions /\ w ∈ versions) as [Hv Hw] by (unfold versions; rewrite !elem_of_cons; split; tauto).
  destruct (versions_agree true zeroed_class v Hv) as [Av Ev].
  destruct (versions_agree true zeroed_class w Hw) as [Aw _].
  split; [by rewrite (ag_flag _ _ _ _ Av)|]. split; [by rewrite (ag_flag _ _ _ _ Aw)|].
  destruct (ex_flag _ _ _ (Ev w Hw eq_refl) no_highmem_ecam) as [E|E]; [|exact E].
  by rewrite (ag_flag _ _ _ _ Av) in E.
Defined.
