(* ===== verification/VirtProps.v ===== *)
(** * The machine's properties: [virt.c]

    The getters and setters registered by [virt_machine_class_init], as the
    table of properties a user sets with [-machine]. *)

From S2P Require Import Prelude VirtBoard VirtGic VirtDevices VirtVersions.

(** ** Buffers of characters *)

(** The string a buffer holds: what comes before its first NUL. *)
Fixpoint c_string (buf : list Ascii.ascii) : string :=
  match buf with
  | [] => EmptyString
  | c :: buf => if bool_decide (c = Ascii.zero) then EmptyString else String c (c_string buf)
  end.

(** [strncpy(dst, src, n)]: exactly [n] bytes, padded with NULs. *)
Definition strncpy (dst : list Ascii.ascii) (src : string) (n : nat) : list Ascii.ascii :=
  take n (String.list_ascii_of_string src ++ replicate n Ascii.zero) ++ drop n dst.

(** ** Setters and getters *)

Implicit Types vms : VirtMachineState.

Definition put_flag (f : vms_flag) (b : bool) vms : VirtMachineState :=
  mkVms (fun g => if decide (g = f) then b else vflag vms g) (acpi vms) (vms_gic_version vms) (vms_iommu vms)
    (oem_id vms) (oem_table_id vms).

Definition virt_get_secure vms : bool := vflag vms F_secure.
Definition virt_set_secure (value : bool) vms : VirtMachineState := put_flag F_secure value vms.
Definition virt_get_virt vms : bool := vflag vms F_virt.
Definition virt_set_virt (value : bool) vms : VirtMachineState := put_flag F_virt value vms.
Definition virt_get_highmem vms : bool := vflag vms F_highmem.
Definition virt_set_highmem (value : bool) vms : VirtMachineState := put_flag F_highmem value vms.
Definition virt_get_its vms : bool := vflag vms F_its.
Definition virt_set_its (value : bool) vms : VirtMachineState := put_flag F_its value vms.
Definition virt_get_ras vms : bool := vflag vms F_ras.
Definition virt_set_ras (value : bool) vms : VirtMachineState := put_flag F_ras value vms.
Definition virt_get_mte vms : bool := vflag vms F_mte.
Definition virt_set_mte (value : bool) vms : VirtMachineState := put_flag F_mte value vms.
Definition virt_get_default_bus_bypass_iommu vms : bool := vflag vms F_default_bus_bypass_iommu.
Definition virt_set_default_bus_bypass_iommu (value : bool) vms : VirtMachineState :=
  put_flag F_default_bus_bypass_iommu value vms.

(** An error message, or the new state. *)
Notation outcome := (string + VirtMachineState)%type.

Definition virt_get_oem_id vms : result string := Ok (c_string (oem_id vms)).
Definition virt_set_oem_id (value : string) vms : outcome :=
  if (6 <? String.length value)%nat then inl "User specified oem-id value is bigger than 6 bytes in size"%string
  else inr (mkVms (vflag vms) (acpi vms) (vms_gic_version vms) (vms_iommu vms)
              (strncpy (oem_id vms) value 6) (oem_table_id vms)).

Definition virt_get_oem_table_id vms : result string := Ok (c_string (oem_table_id vms)).
Definition virt_set_oem_table_id (value : string) vms : outcome :=
  if (8 <? String.length value)%nat
  then inl "User specified oem-table-id value is bigger than 8 bytes in size"%string
  else inr (mkVms (vflag vms) (acpi vms) (vms_gic_version vms) (vms_iommu vms) (oem_id vms)
              (strncpy (oem_table_id vms) value 8)).

Definition virt_is_acpi_enabled vms : bool :=
  match acpi vms with ON_OFF_AUTO_OFF => false | _ => true end.

Definition virt_get_acpi vms : OnOffAuto := acpi vms.
Definition virt_set_acpi (value : OnOffAuto) vms : VirtMachineState :=
  mkVms (vflag vms) value (vms_gic_version vms) (vms_iommu vms) (oem_id vms) (oem_table_id vms).

Definition with_gic (v : VirtGICType) vms : VirtMachineState :=
  mkVms (vflag vms) (acpi vms) v (vms_iommu vms) (oem_id vms) (oem_table_id vms).

Definition virt_get_gic_version vms : result string :=
  Ok (if bool_decide (vms_gic_version vms = VIRT_GIC_VERSION_3) then "3" else "2")%string.
Definition virt_set_gic_version (value : string) vms : outcome :=
  if bool_decide (value = "3"%string) then inr (with_gic VIRT_GIC_VERSION_3 vms)
  else if bool_decide (value = "2"%string) then inr (with_gic VIRT_GIC_VERSION_2 vms)
  else if bool_decide (value = "host"%string) then inr (with_gic VIRT_GIC_VERSION_HOST vms)
  else if bool_decide (value = "max"%string) then inr (with_gic VIRT_GIC_VERSION_MAX vms)
  else inl "Invalid gic-version value"%string.

Definition with_iommu (t : VirtIOMMUType) vms : VirtMachineState :=
  mkVms (vflag vms) (acpi vms) (vms_gic_version vms) t (oem_id vms) (oem_table_id vms).

Definition virt_get_iommu vms : result string :=
  match vms_iommu vms with
  | VIRT_IOMMU_NONE => Ok "none"%string
  | VIRT_IOMMU_SMMUV3 => Ok "smmuv3"%string
  | VIRT_IOMMU_VIRTIO => Stop AssertFail
  end.
Definition virt_set_iommu (value : string) vms : outcome :=
  if bool_decide (value = "smmuv3"%string) then inr (with_iommu VIRT_IOMMU_SMMUV3 vms)
  else if bool_decide (value = "none"%string) then inr (with_iommu VIRT_IOMMU_NONE vms)
  else inl "Invalid iommu value"%string.

(** ** The table of [virt_machine_class_init] *)

Inductive property : Type :=
| BoolProp (get : VirtMachineState -> bool) (set : bool -> VirtMachineState -> VirtMachineState)
| StrProp (get : VirtMachineState -> result string) (set : string -> VirtMachineState -> outcome)
| OnOffAutoProp (get : VirtMachineState -> OnOffAuto) (set : OnOffAuto -> VirtMachineState -> VirtMachineState).

Inductive value : Type := VBool (b : bool) | VStr (s : string) | VOnOffAuto (o : OnOffAuto).

Definition class_properties : list (string * property) :=
  [("acpi", OnOffAutoProp virt_get_acpi virt_set_acpi);
   ("secure", BoolProp virt_get_secure virt_set_secure);
   ("virtualization", BoolProp virt_get_virt virt_set_virt);
   ("highmem", BoolProp virt_get_highmem virt_set_highmem);
   ("gic-version", StrProp virt_get_gic_version virt_set_gic_version);
   ("iommu", StrProp virt_get_iommu virt_set_iommu);
   ("default-bus-bypass-iommu", BoolProp virt_get_default_bus_bypass_iommu virt_set_default_bus_bypass_iommu);
   ("ras", BoolProp virt_get_ras virt_set_ras);
   ("mte", BoolProp virt_get_mte virt_set_mte);
   ("its", BoolProp virt_get_its virt_set_its);
   ("x-oem-id", StrProp virt_get_oem_id virt_set_oem_id);
   ("x-oem-table-id", StrProp virt_get_oem_table_id virt_set_oem_table_id)]%string.

Definition prop_get (p : property) vms : result value :=
  match p with
  | BoolProp get _ => Ok (VBool (get vms))
  | StrProp get _ => match get vms with Ok s => Ok (VStr s) | Stop f => Stop f end
  | OnOffAutoProp get _ => Ok (VOnOffAuto (get vms))
  end.

Definition prop_set (p : property) (v : value) vms : outcome :=
  match p, v with
  | BoolProp _ set, VBool b => inr (set b vms)
  | StrProp _ set, VStr s => set s vms
  | OnOffAutoProp _ set, VOnOffAuto o => inr (set o vms)
  | _, _ => inl "Invalid parameter type"%string
  end.

Definition find_prop (name : string) : option property :=
  match list_find (fun kv => kv.1 = name) class_properties with Some (_, kv) => Some kv.2 | None => None end.

(** ** Theorems *)

(** C strings have no NUL. *)
Definition no_nul (s : string) : Prop := Ascii.zero ∉ String.list_ascii_of_string s.

Lemma c_string_app s l : no_nul s ->
  c_string (String.list_ascii_of_string s ++ l) = s +:+ c_string l.
Proof.
  unfold no_nul. induction s as [|a s IH]; [done|]. cbn. intros Hn. rewrite not_elem_of_cons in Hn.
  rewrite bool_decide_false by naive_solver. cbn. by rewrite IH by tauto.
Qed.

Lemma length_list_ascii s : length (String.list_ascii_of_string s) = String.length s.
Proof. induction s as [|a s IH]; [done|]. cbn. by rewrite IH. Qed.

Lemma append_empty (s : string) : s +:+ EmptyString = s.
Proof. induction s as [|a s IH]; [done|]. change (String a (s +:+ EmptyString) = String a s). by rewrite IH. Qed.

(** A short string is read back whole from a buffer that ends in a NUL. *)
Lemma strncpy_read dst s n :
  no_nul s -> (String.length s <= n)%nat -> drop n dst = [Ascii.zero] ->
  c_string (strncpy dst s n) = s /\ drop n (strncpy dst s n) = [Ascii.zero].
Proof.
  intros Hs Hn Hd. unfold strncpy. rewrite Hd. pose proof (length_list_ascii s) as Hl.
  rewrite take_app_ge by lia. rewrite take_replicate, Nat.min_l by lia. split.
  - rewrite <- (assoc_L (++)), c_string_app by done.
    destruct (n - length (String.list_ascii_of_string s))%nat; cbn; apply append_empty.
  - rewrite drop_app_ge by (rewrite length_app, length_replicate; lia).
    rewrite length_app, length_replicate. replace (n - _)%nat with 0%nat by lia. done.
Qed.

(** The last byte of each buffer stays NUL. *)
Definition vms_ok vms : Prop :=
  drop 6 (oem_id vms) = [Ascii.zero] /\ drop 8 (oem_table_id vms) = [Ascii.zero].

Lemma g_strndup_end s n : drop n (g_strndup s n) = [Ascii.zero].
Proof.
  unfold g_strndup.
  rewrite drop_app_ge; rewrite length_take, length_app, length_replicate; [|lia].
  replace (n - _)%nat with 0%nat by lia. done.
Qed.

Lemma instance_ok n6 n8 mc : vms_ok (virt_instance_init n6 n8 mc).
Proof. split; apply g_strndup_end. Qed.

(** What a getter says of a value that its setter took. *)
Definition canonical (name : string) (v : value) : value :=
  match v with
  | VStr s => if bool_decide (name = "gic-version"%string)
              then VStr (if bool_decide (s = "3"%string) then "3" else "2") else v
  | _ => v
  end.

Definition value_ok (v : value) : Prop := match v with VStr s => no_nul s | _ => True end.

Lemma class_properties_names p name : find_prop name = Some p -> (name, p) ∈ class_properties.
Proof.
  unfold find_prop. destruct (list_find _ class_properties) as [[i [n q]]|] eqn:E; [|done].
  intros [= <-]. apply list_find_Some in E as (Hl & Hn & _). cbn in Hn. subst n.
  by eapply list_elem_of_lookup_2.
Qed.

(** The documented values of a property: those of its type, and of the strings the
    versions of the GIC, the kinds of IOMMU, and identifiers that fit. *)
Definition takes (name : string) (v : value) : bool :=
  match v with
  | VStr s =>
      if bool_decide (name = "gic-version"%string) then existsb (fun x => bool_decide (s = x)) ["2"; "3"; "host"; "max"]%string
      else if bool_decide (name = "iommu"%string) then existsb (fun x => bool_decide (s = x)) ["none"; "smmuv3"]%string
      else if bool_decide (name = "x-oem-id"%string) then (String.length s <=? 6)%nat
      else if bool_decide (name = "x-oem-table-id"%string) then (String.length s <=? 8)%nat
      else false
  | VOnOffAuto _ => bool_decide (name = "acpi"%string)
  | VBool _ => negb (existsb (fun x => bool_decide (name = x))
                 ["acpi"; "gic-version"; "iommu"; "x-oem-id"; "x-oem-table-id"])%string
  end.

Ltac prop_cases H :=
  apply class_properties_names in H; unfold class_properties in H; rewrite !elem_of_cons, elem_of_nil in H;
  destruct_or? H; try done; injection H as -> ->.

(** Settle the tests of two closed strings. *)
Ltac eval_names :=
  repeat match goal with |- context [bool_decide (String ?a ?s = String ?b ?t)] =>
    let e := eval vm_compute in (bool_decide (String a s = String b t)) in
    change (bool_decide (String a s = String b t)) with e end.

Lemma prop_set_refused name p v vms :
  find_prop name = Some p -> (exists e, prop_set p v vms = inl e) <-> takes name v = false.
Proof.
  intros H. prop_cases H; destruct v as [b|s|o]; unfold prop_set, takes; eval_names; cbn [existsb orb negb];
    try (split; [intros _; reflexivity|intros _; eexists; reflexivity]);
    try (split; [intros [e [=]]|intros [=]]; fail).
  - unfold virt_set_gic_version. repeat case_bool_decide; cbn; split; try done; try (by intros []); eauto.
  - unfold virt_set_iommu. repeat case_bool_decide; cbn; split; try done; try (by intros []); eauto.
  - unfold virt_set_oem_id. rewrite Nat.leb_antisym.
    destruct (6 <? _)%nat; split; try done; try (by intros []); eauto.
  - unfold virt_set_oem_table_id. rewrite Nat.leb_antisym.
    destruct (8 <? _)%nat; split; try done; try (by intros []); eauto.
Qed.

Lemma prop_set_get name p v vms vms' :
  vms_ok vms -> value_ok v -> find_prop name = Some p -> prop_set p v vms = inr vms' ->
  vms_ok vms' /\ prop_get p vms' = Ok (canonical name v).
Proof.
  intros [H6 H8] Hv H Hs. prop_cases H; destruct v as [b|s|o]; try done; cbn [prop_set] in Hs;
    try (injection Hs as <-; split; [by split|]; done).
  - unfold virt_set_gic_version in Hs.
    repeat (case_bool_decide; [subst s; injection Hs as <-; by split; [split|]|]). done.
  - unfold virt_set_iommu in Hs.
    repeat (case_bool_decide; [subst s; injection Hs as <-; by split; [split|]|]). done.
  - unfold virt_set_oem_id in Hs. destruct (Nat.ltb_spec 6 (String.length s)); [done|]. injection Hs as <-.
    destruct (strncpy_read (oem_id vms) s 6) as [Hr Hd]; [done|lia|done|].
    split; [by split|]. cbn. unfold virt_get_oem_id. cbn [oem_id]. by rewrite Hr.
  - unfold virt_set_oem_table_id in Hs. destruct (Nat.ltb_spec 8 (String.length s)); [done|]. injection Hs as <-.
    destruct (strncpy_read (oem_table_id vms) s 8) as [Hr Hd]; [done|lia|done|].
    split; [by split|]. cbn. unfold virt_get_oem_table_id. cbn [oem_table_id]. by rewrite Hr.
Qed.

Lemma prop_set_other name p v vms vms' name2 q :
  find_prop name = Some p -> prop_set p v vms = inr vms' -> name2 <> name -> find_prop name2 = Some q ->
  prop_get q vms' = prop_get q vms.
Proof.
  intros H Hs Hne H2. prop_cases H; destruct v as [b|s|o]; try done; cbn [prop_set] in Hs;
    unfold virt_set_gic_version, virt_set_iommu, virt_set_oem_id, virt_set_oem_table_id in Hs;
    repeat case_match; simplify_eq; prop_cases H2; try done.
Qed.

(** C35: The machine's properties are independent and keep what they are given.
    A property accepts exactly its documented values (a Boolean; for [acpi]
    on, off or auto; for [gic-version] 2, 3, host and max; for [iommu] none and
    smmuv3; for the identifiers strings of at most six and eight bytes) and
    refuses all others with an error; an
    accepted value is what its getter says afterwards, except that
    [gic-version] says "2" for every version but 3, "host" and "max" included;
    no other property's getter changes; and the two identifiers stay terminated,
    so no getter reads past them. *)
Theorem properties_roundtrip name p v vms :
  vms_ok vms -> value_ok v -> find_prop name = Some p ->
  if takes name v
  then exists vms', prop_set p v vms = inr vms' /\ vms_ok vms' /\ prop_get p vms' = Ok (canonical name v) /\
    forall name2 q, name2 <> name -> find_prop name2 = Some q -> prop_get q vms' = prop_get q vms
  else exists e, prop_set p v vms = inl e.
Proof.
  intros Hok Hv Hp. pose proof (prop_set_refused name p v vms Hp) as Hr.
  destruct (takes name v); [|by apply Hr].
  destruct (prop_set p v vms) as [e|vms'] eqn:Hs; [exfalso; assert (true = false); [apply Hr; by eexists|done]|].
  destruct (prop_set_get _ _ _ _ _ Hok Hv Hp Hs) as [Hok' Hg]. exists vms'. split_and!; [done..|].
  intros name2 q Hne H2. exact (prop_set_other _ _ _ _ _ _ _ Hp Hs Hne H2).
Qed.

(** A machine of version 6.2 with [x-oem-id=ACME]. *)
Definition a_machine : VirtMachineState :=
  virt_instance_init "BOCHS " "BXPC    "
    (class_of true (DEFINE_VIRT_MACHINE_AS_LATEST 6 2 virt_machine_6_2_options) zeroed_class).

Lemma properties_roundtrip_witness :
  exists vms', virt_set_oem_id "ACME" a_machine =
      inr vms' /\ virt_get_oem_id vms' = Ok "ACME"%string /\ virt_get_highmem vms' = true.
Proof.
  pose proof (properties_roundtrip "x-oem-id" (StrProp virt_get_oem_id virt_set_oem_id) (VStr "ACME")
    a_machine
    (instance_ok _ _ _)) as H.
  destruct H as (vms' & Hs & _ & Hg & _); [unfold value_ok, no_nul; cbn; set_solver|reflexivity|].
  exists vms'. split; [exact Hs|]. injection Hs as <-. split; reflexivity.
Defined.
