(* ===== verification/VirtHotplug.v ===== *)
(** * Hot-plug on the virt board: [virt.c]

    The callbacks the machine registers for devices that come and go, and a
    world of plugged devices that requests are run on.  Memory devices go
    through the ACPI device; the core of QEMU calls [pre_plug], then [plug],
    and [unplug] only for a device that is there. *)

From S2P Require Import Prelude VirtBoard VirtGic VirtFdt VirtDevices VirtBuild VirtUart VirtCpus VirtVersions.

(** The types a callback distinguishes; an NVDIMM is a PC DIMM.  The address of a
    PCI function, which also tells other devices apart. *)
Inductive device_type : Set := PcDimm | Nvdimm | VirtioIommuPci | DynamicSysbus | OtherDevice.

#[export] Instance device_type_eq_dec : EqDecision device_type.
Proof. solve_decision. Defined.

Record device : Type := mkDevice { type_of : device_type; pci_get_bdf : Z }.

#[export] Instance device_eq_dec : EqDecision device.
Proof. solve_decision. Defined.

Definition is_pc_dimm (d : device) : bool := match type_of d with PcDimm | Nvdimm => true | _ => false end.
Definition is_nvdimm (d : device) : bool := match type_of d with Nvdimm => true | _ => false end.
Definition is_virtio_iommu (d : device) : bool := match type_of d with VirtioIommuPci => true | _ => false end.
Definition device_is_dynamic_sysbus (d : device) : bool :=
  match type_of d with DynamicSysbus => true | _ => false end.

(** What the machine keeps for this. *)
Record hotplug : Type := mkHot {
  acpi_dev : bool;
  hp_mte : bool;
  nvdimm_enabled : bool;
  platform_bus_dev : bool;
  hp_firmware_loaded : bool;
  hp_acpi_enabled : bool;
  hp_iommu : VirtIOMMUType;
  virtio_iommu_bdf : Z;
  hp_board : board;
}.

(** Calls into the rest of QEMU. *)
Inductive hp_event : Type :=
| PlatformBusLink (d : device)
| PcDimmPlug (d : device)
| NvdimmPlug
| GedPlug (d : device)
| SetReservedRegion (first last : Z)
| GedUnplugRequest (d : device)
| GedUnplug (d : device)
| PcDimmUnplug (d : device)
| Unrealize (d : device).

(** The answers of the rest of QEMU, an error message or none. *)
Record hp_env : Type := mkHpEnv {
  pc_dimm_pre_plug : device -> option string;
  ged_plug : device -> option string;
  ged_unplug_request : device -> option string;
  ged_unplug : device -> option string;
}.

Notation hotM := (M hp_event hotplug).

(** An [errp] that was set holds its message. *)
Notation errp := (option string).

Section callbacks.
Context `{QH : QemuHeaders} (c : board_cfg) (env : hp_env).

Definition no_acpi_dev : string := "memory hotplug is not enabled: missing acpi-ged device".

Definition virt_memory_pre_plug (d : device) : hotM errp :=
  s <- gets id ;;
  ret (if negb (acpi_dev s) then Some no_acpi_dev
       else if hp_mte s then Some "memory hotplug is not enabled: MTE is enabled"%string
       else if is_nvdimm d && negb (nvdimm_enabled s)
            then Some "nvdimm is not enabled: add 'nvdimm=on' to '-M'"%string
       else pc_dimm_pre_plug env d).

(** [HOTPLUG_HANDLER(vms->acpi_dev)] on which a method is called. *)
Definition hotplug_handler (e : hp_event) : hotM unit :=
  present <- gets acpi_dev ;;
  if (present : bool) then emit e else fail NullDeref.

Definition virt_memory_plug (d : device) : hotM unit :=
  emit (PcDimmPlug d) ;;
  when (is_nvdimm d) (emit NvdimmPlug) ;;
  hotplug_handler (GedPlug d) ;;
  match ged_plug env d with Some _ => fail AssertFail | None => ret tt end.

Definition virt_machine_device_pre_plug_cb (d : device) : hotM errp :=
  if is_pc_dimm d then virt_memory_pre_plug d
  else if is_virtio_iommu d then
    s <- gets hp_board ;;
    match msi_ctrl s with
    | VIRT_MSI_CTRL_NONE => ret None
    | VIRT_MSI_CTRL_ITS =>
        emit (SetReservedRegion (base (base_memmap VIRT_GIC_ITS) + 0x10000)
                (base (base_memmap VIRT_GIC_ITS) + size (base_memmap VIRT_GIC_ITS) - 1)) ;;
        ret None
    | VIRT_MSI_CTRL_GICV2M =>
        let db_start := base (base_memmap VIRT_GIC_V2M) in
        emit (SetReservedRegion db_start (db_start + size (base_memmap VIRT_GIC_V2M) - 1)) ;;
        ret None
    end
  else ret None.

(** A step of the construction of the device tree, on the machine's part of it. *)
Definition on_board (m : boardM unit) : hotM unit := fun s =>
  match m (hp_board s) with
  | Ok (_, b, _) =>
      Ok (tt, mkHot (acpi_dev s) (hp_mte s) (nvdimm_enabled s) (platform_bus_dev s) (hp_firmware_loaded s)
                (hp_acpi_enabled s) (hp_iommu s) (virtio_iommu_bdf s) b, [])
  | Stop f => Stop f
  end.

Definition set_virtio_iommu (bdf : Z) (s : hotplug) : hotplug :=
  mkHot (acpi_dev s) (hp_mte s) (nvdimm_enabled s) (platform_bus_dev s) (hp_firmware_loaded s)
    (hp_acpi_enabled s) VIRT_IOMMU_VIRTIO bdf (hp_board s).

Definition virt_machine_device_plug_cb (d : device) : hotM unit :=
  s <- gets id ;;
  when (platform_bus_dev s && device_is_dynamic_sysbus d) (emit (PlatformBusLink d)) ;;
  when (is_pc_dimm d) (virt_memory_plug d) ;;
  when (is_virtio_iommu d)
    (modify (set_virtio_iommu (pci_get_bdf d)) ;;
     on_board (create_virtio_iommu_dt_bindings c (pci_get_bdf d))).

Definition virt_dimm_unplug_request (d : device) : hotM errp :=
  s <- gets id ;;
  if negb (acpi_dev s) then ret (Some no_acpi_dev)
  else if is_nvdimm d then ret (Some "nvdimm device hot unplug is not supported yet."%string)
  else hotplug_handler (GedUnplugRequest d) ;; ret (ged_unplug_request env d).

Definition virt_dimm_unplug (d : device) : hotM errp :=
  hotplug_handler (GedUnplug d) ;;
  match ged_unplug env d with
  | Some e => ret (Some e)
  | None => emit (PcDimmUnplug d) ;; emit (Unrealize d) ;; ret None
  end.

Definition virt_machine_device_unplug_request_cb (d : device) : hotM errp :=
  if is_pc_dimm d then virt_dimm_unplug_request d
  else ret (Some "device unplug request for unsupported device type"%string).

Definition virt_machine_device_unplug_cb (d : device) : hotM errp :=
  if is_pc_dimm d then virt_dimm_unplug d
  else ret (Some "virt: device unplug for unsupported device type"%string).

(** Does the machine handle the device? *)
Definition virt_machine_get_hotplug_handler (d : device) (s : hotplug) : bool :=
  device_is_dynamic_sysbus d || is_pc_dimm d ||
  (is_virtio_iommu d && (negb (hp_firmware_loaded s) || negb (hp_acpi_enabled s))).

(** ** The core's use of the callbacks *)

Inductive request : Type := DeviceAdd (d : device) | DeviceDel (d : device) | Ejected (d : device).

(** The devices the machine handles; the PCI core gives no function twice. *)
Definition serve (r : request) (plugged : list device) : hotM (list device) :=
  match r with
  | DeviceAdd d =>
      s <- gets id ;;
      if bool_decide (d ∈ plugged) || negb (virt_machine_get_hotplug_handler d s) then ret plugged
      else
        e <- virt_machine_device_pre_plug_cb d ;;
        match e with
        | Some _ => ret plugged
        | None => virt_machine_device_plug_cb d ;; ret (d :: plugged)
        end
  | DeviceDel d =>
      if bool_decide (d ∈ plugged) then _e <- virt_machine_device_unplug_request_cb d ;; ret plugged
      else ret plugged
  | Ejected d =>
      if bool_decide (d ∈ plugged) then
        e <- virt_machine_device_unplug_cb d ;;
        ret (match e with None => filter (fun x => x <> d) plugged | Some _ => plugged end)
      else ret plugged
  end.
End callbacks.

(** Requests in their order, the rest of QEMU answering each as it likes. *)
Fixpoint serve_all `{QH : QemuHeaders} (c : board_cfg) (l : list (request * hp_env)) (plugged : list device) :
    hotM (list device) :=
  match l with
  | [] => ret plugged
  | (r, env) :: l => plugged <- serve c env r plugged ;; serve_all c l plugged
  end.

(** ** Theorems *)

#[local] Hint Constructors Forall : core.

Section theorems.
Context `{QH : QemuHeaders} (c : board_cfg).

Definition bridge : path := [pciehb_nodename c].
Definition iommu_node (bdf : Z) : path := [pciehb_nodename c; "virtio_iommu@"%string +:+ pretty bdf].

Lemma iommu_node_inj a b : iommu_node a = iommu_node b -> a = b.
Proof. unfold iommu_node. intros [= H]. by apply pretty_Z_inj in H. Qed.

Lemma iommu_bindings_grown bdf (b : board) :
  is_Some (fdt b !! bridge) -> fdt b !! iommu_node bdf = None ->
  wp (create_virtio_iommu_dt_bindings c bdf) b (fun _ b' _ => grown [iommu_node bdf] b b').
Proof.
  intros Hb Hn. unfold create_virtio_iommu_dt_bindings. fold (iommu_node bdf). fold bridge. cbv zeta.
  apply wp_bind. eapply wp_mono; [apply quiet_alloc|]. intros h b0 _ [E0 C0].
  apply wp_bind. unfold modify at 1, wp at 1. set (b1 := set_iommu h b0).
  assert (grown [] b b1) as G1. { apply grown_same; [done|]. destruct C0. by split. }
  change (fdt b0) with (fdt b1) in E0. rewrite <- E0 in Hb, Hn.
  apply wp_bind. eapply wp_mono.
  { apply (add_subnode_grown _ bridge); [exact Hb|]. apply free_for_at; [|exact Hn].
    by rewrite has_at_app. }
  intros [] b2 _ G2. apply wp_bind. eapply wp_mono.
  { apply setprops_grown. apply (gr_nodes _ _ _ G2). left. by left. }
  intros [] b3 _ G3. eapply wp_mono.
  { apply setprop_grown. apply (gr_nodes _ _ _ G3). right. apply (gr_nodes _ _ _ G2). by right. }
  intros [] b4 _ G4. exact (grown_trans _ _ _ _ _ (grown_trans _ _ _ _ _ (grown_trans _ _ _ _ _ G1 G2) G3) G4).
Qed.

(** What plugged devices can rely on. *)
Record hot_inv (plugged : list device) (s : hotplug) : Prop := mkInv {
  hi_acpi d : d ∈ plugged -> is_pc_dimm d = true -> acpi_dev s = true;
  hi_bridge : is_Some (fdt (hp_board s) !! bridge);
  hi_iommu bdf : is_Some (fdt (hp_board s) !! iommu_node bdf) ->
    exists d, d ∈ plugged /\ is_virtio_iommu d = true /\ pci_get_bdf d = bdf;
}.

(** A reserved region lies in the window of an MSI controller, to its end. *)
Definition region_ok (e : hp_event) : Prop :=
  match e with
  | SetReservedRegion first last => exists r, r ∈ [VIRT_GIC_ITS; VIRT_GIC_V2M] /\
      base (base_memmap r) <= first <= last /\ last = base (base_memmap r) + size (base_memmap r) - 1
  | _ => True
  end.

(** The ACPI device accepts a DIMM that passed [pre_plug]. *)
Definition ged_accepts (env : hp_env) : Prop := forall d, is_pc_dimm d = true -> ged_plug env d = None.

Lemma pre_plug_wp env d s :
  wp (virt_machine_device_pre_plug_cb env d) s (fun e s' es => s' = s /\ Forall region_ok es /\
    (e = None -> is_pc_dimm d = true -> acpi_dev s = true)).
Proof.
  unfold virt_machine_device_pre_plug_cb, virt_memory_pre_plug, wp, bind, gets, ret.
  destruct (is_pc_dimm d).
  - split; [done|]. split; [constructor|]. cbn [id]. by destruct (acpi_dev s).
  - destruct (is_virtio_iommu d); [|by repeat split].
    destruct (msi_ctrl (hp_board s)); cbn; (split; [done|]); (split; [|done]); try constructor;
      try constructor; [exists VIRT_GIC_V2M|exists VIRT_GIC_ITS]; cbn; split; try lia; set_solver.
Qed.

Lemma iommu_plug_wp plugged s bdf :
  hot_inv plugged s -> mkDevice VirtioIommuPci bdf ∉ plugged ->
  wp (ret tt ;; ret tt ;; modify (set_virtio_iommu bdf) ;; on_board (create_virtio_iommu_dt_bindings c bdf)) s
    (fun _ s' es => hot_inv (mkDevice VirtioIommuPci bdf :: plugged) s' /\ Forall region_ok es).
Proof.
  intros [H1 H2 H3] Hd. unfold wp, bind, ret, modify, on_board. cbn [hp_board set_virtio_iommu].
  assert (fdt (hp_board s) !! iommu_node bdf = None) as Hn.
  { destruct (fdt (hp_board s) !! iommu_node bdf) eqn:E; [|done].
    destruct (H3 bdf) as ([ty x] & Hx & Hi & Hb); [by eexists|]. cbn in Hi, Hb. subst x.
    destruct ty; try done. }
  pose proof (iommu_bindings_grown bdf (hp_board s) H2 Hn) as Hw. unfold wp in Hw.
  destruct (create_virtio_iommu_dt_bindings c bdf (hp_board s)) as [[[[] b] e]|]; [|done].
  split; [|constructor]. split; cbn [hp_board acpi_dev].
  - intros x [->|Hx]%elem_of_cons; [done|by apply H1].
  - apply (gr_nodes _ _ _ Hw). by right.
  - intros b0 [Hb|Hb]%(gr_nodes _ _ _ Hw).
    + apply list_elem_of_singleton, iommu_node_inj in Hb as ->. eexists. by split; [left|].
    + destruct (H3 b0 Hb) as (x & Hx & ?). exists x. split; [by right|done].
Qed.

Lemma plug_wp env d plugged s :
  ged_accepts env -> hot_inv plugged s -> d ∉ plugged -> (is_pc_dimm d = true -> acpi_dev s = true) ->
  wp (virt_machine_device_plug_cb c env d) s (fun _ s' es => hot_inv (d :: plugged) s' /\ Forall region_ok es).
Proof.
  intros Hged Hinv Hd Ha. destruct d as [ty bdf]. unfold virt_machine_device_plug_cb.
  apply wp_bind. unfold gets at 1, wp at 1. unfold is_pc_dimm, is_nvdimm, is_virtio_iommu,
    device_is_dynamic_sysbus in *. cbn [type_of id pci_get_bdf] in *.
  assert (ty <> VirtioIommuPci -> hot_inv (mkDevice ty bdf :: plugged) s) as Hsame.
  { intros Hne. destruct Hinv as [H1 H2 H3]. split; [|done|].
    - intros x [->|Hx]%elem_of_cons; [exact Ha|by apply H1].
    - intros b (x & Hx & ?)%H3. exists x. split; [by right|done]. }
  destruct ty; rewrite ?andb_false_r; cbn [when andb].
  1,2: unfold virt_memory_plug, hotplug_handler; run_prog; rewrite Ha, Hged by done; cbn;
    (split; [by apply Hsame|by repeat constructor]).
  - apply (iommu_plug_wp plugged s bdf Hinv Hd).
  - destruct (platform_bus_dev s); run_prog; (split; [by apply Hsame|by repeat constructor]).
  - run_prog. split; [by apply Hsame|by repeat constructor].
Qed.

Lemma wp_errp {m : hotM errp} {s : hotplug} {plugged : list device} :
  wp m s (fun _ s' es => hot_inv plugged s' /\ Forall region_ok es) ->
  forall k : errp -> list device, (forall e, k e ⊆ plugged) ->
    (forall e x, x ∈ plugged -> is_virtio_iommu x = true -> x ∈ k e) ->
  wp (e <- m ;; ret (k e)) s (fun l s' es => hot_inv l s' /\ Forall region_ok es).
Proof.
  intros Hm k Hk Hi. apply wp_bind. eapply wp_mono; [exact Hm|]. intros e s' es [[H1 H2 H3] HF].
  unfold ret, wp. rewrite app_nil_r. split; [|done]. split; [|done|].
  - intros d Hd. by apply H1, (Hk e).
  - intros bdf (d & Hd & ? & ?)%H3. exists d. split; [by apply Hi|done].
Qed.

Lemma unplug_request_wp env d plugged s :
  hot_inv plugged s -> d ∈ plugged ->
  wp (virt_machine_device_unplug_request_cb env d) s (fun _ s' es => hot_inv plugged s' /\ Forall region_ok es).
Proof.
  intros Hi Hd. unfold virt_machine_device_unplug_request_cb, virt_dimm_unplug_request, hotplug_handler.
  destruct (is_pc_dimm d) eqn:E; [|run_prog; by split]. pose proof (hi_acpi _ _ Hi d Hd E) as Ha.
  run_prog. rewrite Ha. cbn. destruct (is_nvdimm d); [by split|]. rewrite Ha. cbn. split; [done|by repeat constructor].
Qed.

Lemma unplug_wp env d plugged s :
  hot_inv plugged s -> d ∈ plugged ->
  wp (virt_machine_device_unplug_cb env d) s (fun e s' es => hot_inv plugged s' /\ Forall region_ok es /\
    (e = None -> is_pc_dimm d = true)).
Proof.
  intros Hi Hd. unfold virt_machine_device_unplug_cb, virt_dimm_unplug, hotplug_handler.
  destruct (is_pc_dimm d) eqn:E; [|run_prog; by split]. pose proof (hi_acpi _ _ Hi d Hd E) as Ha.
  run_prog. rewrite Ha. cbn. destruct (ged_unplug env d); cbn; (split; [done|]); (split; [by repeat constructor|done]).
Qed.

Lemma serve_wp env r plugged s :
  ged_accepts env -> hot_inv plugged s ->
  wp (serve c env r plugged) s (fun l s' es => hot_inv l s' /\ Forall region_ok es).
Proof.
  intros Hged Hi. destruct r as [d|d|d]; cbn [serve].
  - apply wp_bind. unfold gets at 1, wp at 1.
    destruct (bool_decide (d ∈ plugged) || _) eqn:E; [by split|].
    apply orb_false_iff in E as [Hd%bool_decide_eq_false _].
    apply wp_bind. eapply wp_mono; [apply pre_plug_wp|]. intros e s1 e1 (-> & F1 & Ha).
    destruct e as [e|]; [run_prog; rewrite app_nil_r; by split|].
    apply wp_bind. eapply wp_mono; [apply plug_wp; [done|done|done|by apply Ha]|].
    intros [] s2 e2 [I2 F2]. run_prog. rewrite app_nil_r. split; [done|by apply Forall_app].
  - case_bool_decide as Hd; [|by split].
    apply (wp_errp (unplug_request_wp env d plugged s Hi Hd) (fun _ => plugged)); [done|]. by intros.
  - case_bool_decide as Hd; [|by split].
    apply wp_bind. eapply wp_mono; [by apply unplug_wp|]. intros e s1 e1 ([H1 H2 H3] & F1 & Hn).
    run_prog. rewrite app_nil_r. split; [|done]. destruct e as [e|]; [done|]. split; [|done|].
    + intros x [_ Hx]%list_elem_of_filter. by apply H1.
    + intros bdf (x & Hx & Hv & ?)%H3. exists x. split; [|done]. apply list_elem_of_filter. split; [|done].
      intros ->. specialize (Hn eq_refl). unfold is_pc_dimm, is_virtio_iommu in *. by destruct (type_of d).
Qed.

(** C34: Hot-plug is safe.  Whatever devices the core adds, asks to remove and
    removes, and whatever the rest of QEMU answers, as long as the ACPI device
    takes the DIMMs that passed [pre_plug]: no callback calls the ACPI device of a
    machine without one, no binding is added twice to the device tree, and the
    invariant holds after every request, so a DIMM is only ever there together
    with the ACPI device.  Every region announced to an IOMMU lies in the window
    of an MSI controller and reaches its end. *)
Theorem hotplug_safe l plugged s :
  Forall (fun re => ged_accepts re.2) l -> hot_inv plugged s ->
  exists plugged' s' es, serve_all c l plugged s = Ok (plugged', s', es) /\
    hot_inv plugged' s' /\ Forall region_ok es.
Proof.
  revert plugged s. induction l as [|[r env] l IH]; intros plugged s Hl Hi.
  { exists plugged, s, []. by split. }
  apply Forall_cons in Hl as [Hged Hl]. cbn [serve_all].
  pose proof (serve_wp env r plugged s Hged Hi) as Hw. unfold wp in Hw.
  destruct (serve c env r plugged s) as [[[p1 s1] e1]|] eqn:E; [|done]. destruct Hw as [I1 F1].
  destruct (IH p1 s1 Hl I1) as (p2 & s2 & e2 & Hrun & I2 & F2).
  erewrite bind_ok by exact E. rewrite Hrun. exists p2, s2, (e1 ++ e2). split; [done|].
  split; [done|by apply Forall_app].
Qed.
End theorems.

(** A DIMM and an IOMMU come, the DIMM goes, on a machine with an ITS. *)
Definition lawful_env : hp_env := mkHpEnv (fun _ => None) (fun _ => None) (fun _ => None) (fun _ => None).

Definition hot_board : board :=
  set_msi_ctrl VIRT_MSI_CTRL_ITS (set_fdt {[ bridge (example_cfg false None None) := [] ]} empty_board).

Definition hot_machine : hotplug := mkHot true false false true false true VIRT_IOMMU_NONE 0 hot_board.

Definition a_dimm : device := mkDevice PcDimm 1.
Definition an_iommu : device := mkDevice VirtioIommuPci 8.

Definition some_requests : list (request * hp_env) :=
  [(DeviceAdd a_dimm, lawful_env); (DeviceAdd an_iommu, lawful_env); (DeviceAdd an_iommu, lawful_env);
   (DeviceDel a_dimm, lawful_env); (Ejected a_dimm, lawful_env); (DeviceDel an_iommu, lawful_env)].

Lemma hot_machine_inv : hot_inv (example_cfg false None None) [] hot_machine.
Proof.
  split.
  - intros d Hd. by apply elem_of_nil in Hd.
  - eexists. apply lookup_singleton_eq.
  - intros bdf. change (fdt (hp_board hot_machine)) with
      ({[ bridge (example_cfg false None None) := [] ]} : gmap path props).
    rewrite lookup_singleton_ne by (intros E%(f_equal length); discriminate). by intros [].
Qed.

Lemma hotplug_safe_witness :
  exists plugged s es, serve_all (example_cfg false None None) some_requests [] hot_machine = Ok (plugged, s, es) /\
    hot_inv (example_cfg false None None) plugged s /\ Forall region_ok es.
Proof.
  apply (hotplug_safe (example_cfg false None None) some_requests [] hot_machine);
    [by repeat constructor|exact hot_machine_inv].
Defined.

(** What happens: the second request of the IOMMU is refused, the DIMM ejected. *)
Example some_requests_served :
  match serve_all (example_cfg false None None) some_requests [] hot_machine with
  | Ok (plugged, s, es) => plugged = [an_iommu] /\ virtio_iommu_bdf s = 8 /\
      es = [PcDimmPlug a_dimm; GedPlug a_dimm; SetReservedRegion 0x08090000 0x0809ffff;
            GedUnplugRequest a_dimm; GedUnplug a_dimm; PcDimmUnplug a_dimm; Unrealize a_dimm]
  | Stop _ => False
  end.
Proof. vm_compute. by repeat split. Qed.
